(* ===== verification/_CoqProject ===== *)
-Q . S2P
Prelude.v
NumTheory.v
Rng.v
Float64.v
SpeedSeed.v
State.v
Consts.v
CString.v
Streams.v
UnifReal.v
Bcd2.v
Sparse.v
Calendar.v
DateDim.v
Dist.v
Build.v
RowSpec.v
Relational.v
Parallel.v
Config.v
Shipped.v
Chunks.v
Rows.v
Output.v
Print.v
Driver.v
Frame.v
Tables.v
Format.v
Partial.v
Options.v
TableRun.v
Serial.v
Forked.v
Validate.v
Apart.v
Readback.v
Text.v
Getopt.v
Qstate.v
Varsub.v
Params.v
Qgen.v
Stream.v
Argv.v
Quota.v
Tpch.v
TpchSpec.v
TpchPrint.v
TpchRows.v
TpchLocal.v
TpchSteps.v
TpchFrame.v
TpchFiles.v
TpchRun.v
TpchMain.v
TpchPartial.v
TpchWhole.v
