(* ===== verification/Prelude.v ===== *)
(** * The SSB data generator [dbgen], verified

    A model of the Star Schema Benchmark generator of this repository, the C program under
    src/modules/benchmetrics/files/ssb/ssb-gen/ssb-dbgen/ (file names below are relative to
    it), in the configuration its makefile builds: [SSBM], [LINUX], [ORACLE], 64-bit longs,
    [SUPPORT_64BITS] undefined. The program writes the five tables of the benchmark
    (customer, supplier, part, date, lineorder) as flat files, serially or one step of a
    parallel run at a time; every column is drawn from a random stream of its own, so that a
    step can skip the rows of the steps before it.

    ** How the program is modelled

    A C function is a Gallina function: pure where the code is, otherwise in the state monad
    [State.M] over [State.st], which holds the global variables, the static variables, the
    random streams and the files written. A computation ends with a value ([Ok]), by
    [exit] or [abort], or where the C behaviour is undefined or a fixed fuel is spent
    ([Stop]). A write past a member of a row that only reaches bytes not yet in use is recorded
    in [faults] ([Build.strcpy_over]); any other string that does not fit stops the model
    ([Build.strcpy_to]).
    [State.wp] is the weakest precondition of a computation that must return.
    Machine integers are [Z] with [wrap_s] and [wrap_u] where the width matters; C division
    is [Z.quot] and [Z.rem]; [double] is a dyadic with round-to-nearest-even ([Float64],
    checked against the Standard Library's SpecFloat on samples), with the exponent range,
    infinities and NaN in UnifReal, whose arguments can be any doubles; elsewhere the values
    are far from the ends of the range. C strings are [string]. A file keeps what it held
    before the run beyond the bytes written ([State.old], [Output.disk]): the program does not
    truncate it.

    ** Files

    - Prelude: C integer notations, [lia] tactics, list and option lemmas. NumTheory: trial
      division, orders modulo a prime. Float64: binary64. CString: printf conversions,
      strchr, atoi.
    - Rng: [NextRand] (rnd.c). SpeedSeed: [NthElement], [RND_seed], [RND_ModMult]
      (speed_seed.c). Streams: [Seed], [UnifInt], [dss_random], [row_start], [row_stop]
      (rnd.c, rnd.h) and the [sd_*] skips (speed_seed.c). UnifReal: [UnifReal] and
      [Exponential] (rnd.c).
    - State: [tdefs], options, monad (dss.h, driver.c). Consts: the limits of dss.h and
      shared.h.
    - Bcd2 (bcd2.c), Sparse ([MK_SPARSE], [ez_sparse], [hd_sparse]), Calendar ([julian],
      [unjulian], [mk_time], [mk_ascdate]), DateDim ([mk_date]).
    - Dist: [a_rnd], [pick_str], [agg_str], [permute] (bm_utils.c, permute.c). Config:
      [read_dist], [load_dists]. Shipped: dists.dss and the distributions read from it.
    - Build: [mk_cust], [mk_supp], [mk_part], [mk_order] (build.c). RowSpec, Rows: what they
      promise.
    - Output: [tbl_open], [yes_no], [print_prep], [dbg_print], load_stub.c. Print: [pr_*],
      [vrf_*], [pr_drange]. Driver: command line, [gen_tbl], [partial], [pload], [main].
    - Relational: two runs of one builder side by side. Parallel: the class [RowBuilder_in],
      through which generation in steps is compared with a serial run, for a table with or
      without a child ([RowBuilder] is the case without). Chunks: [set_state]
      and the instances of [RowBuilder] and [Skips] for the tables. Frame: the class [View] of
      the changes of a state that builders do not see (the output, the checksums, the names of
      the tables, options) and the builders that run alike in every view.
      Tables: the text of a row and the file [gen_tbl] leaves. Format: the fields and lines
      of a file, and the class [Flat] of rows with a reader. Partial: one step, from [partial] to its file. Options: what [process_options] leaves. TableRun:
      any range of rows of any table, from [gen_tbl] to its file. Serial: [main] without [-S]
      and [-C], from the command line to the files. Forked: [main] with [-C], by forks or one
      step at a time with [-S]. Validate: [main] with [-O v], against the serial run. Apart:
      runs over different tables, which share the streams. Readback: the rows read back from
      the files.
    - Getopt, Argv: the [getopt] of bm_utils.c, for systems without one, and the two programs
      from their argument vectors.
    - Text: text.c, on character buffers, and the grammar its text derives from.
    - The TPC-H program the sources also hold, built when [SSBM] is not defined: Tpch (its
      constants, row types and builders; it shadows the names of Consts and Build, and shares
      their helpers), TpchPrint ([tdefs], printers, checksums, [gen_tbl], its options), Quota
      (numbers drawn against boundaries), TpchSpec and TpchRows (what its rows promise),
      TpchMain ([process_options], [partial], [pload], updates and [main]). TpchLocal: its
      builders are functions of the streams they draw from. TpchSteps: the instance of
      [RowBuilder_in] for its tables, and their skips. TpchFrame, TpchFiles, TpchRun: builders
      and output apart, the text of the rows, what [gen_tbl] leaves in the one or two files of
      a table. TpchPartial: one step. TpchWhole: the serial run, the steps and the forks, from
      the command line to the files.
    - The query generator qgen, a second program: Qstate (tpcd.h, permute.h, its variables,
      the monad [Q] over the shared [State.st]), Varsub (varsub.c), Params (what its
      parameters are), Qgen (qgen.c, template expansion), Stream (a whole run for a stream).

    ** Theorems

    - Random numbers: real draws stay between their bounds, which rounding can reach, unless
      the distance of the bounds overflows; [NextRand]
      is multiplication modulo the prime [2^31 - 1] without
      overflow and has full period; [NthElement] jumps any signed distance below the
      modulus, agrees with the 64-bit variant, and is wrong from [2^31] on; draws are in
      their bounds; a row leaves each stream of its table where it should.
    - Keys and dates: packed decimal arithmetic refines arithmetic (and where it does not),
      sparse keys are injective and ordered (and where they are not), date strings and the
      date dimension follow the Gregorian calendar.
    - Rows: every builder returns, with all columns in their domains.
    - Whole runs: every command line ends in exit status 1 or in a scale, bases and key ranges
      the builders can use; a serial run returns and leaves one file per selected table with
      the rows its builder promises, and nothing else; a parallel run forks one child per
      table and step, each leaving the file of its step, and the steps cover the table; the
      files on the disk load back into the rows that were built, if no longer ones were there
      before. A validation run reports the checksums of
      the rows the run without [-O v] writes. Which columns of a table depend on the tables
      generated before it is settled column by column ([Apart.tables_apart]). Both programs run
      from an argument vector as they do from the list of options it spells.
    - Errors: a rejected command line or a missing distribution file ends in status 1 without
      output.
    - Comments: the text of [dbg_text] stays in its buffer, is a cut of sentences of the
      grammar, and takes a bounded number of draws.
    - TPC-H rows: the four suppliers of a part are distinct, the part and supplier of a line
      are one of them, the flags and the status of an order follow its dates, the complaint
      written over a supplier's comment keeps its length; the files of a parallel run, made by
      forks or step by step, concatenate to those of the serial run, byte for byte
      ([TpchWhole.tpch_split_run]); no row draws more numbers than the
      boundaries of rnd.h, so the calibration run has nothing to correct. [VRF_MONEY] makes
      the checksums forget all rows but the last.
    - Queries: templates are expanded directive by directive, parameters are of the kind the
      query expects, draws repeated until they differ come to an end, every query of a
      stream is generated once, and what a run prints for a stream is the expansion of its
      templates in the order of its permutation; comments are stripped in
      finitely many steps, with the text before them.
    - Distribution files: reading is a left inverse of writing.
    - Parallel runs: the steps of [set_state] partition the table; the file a step writes
      holds the rows a serial run has in its range, column by column, apart from the columns
      whose streams the program does not skip, which are named.

    ** Bounds and fuel

    Loops with a counter are structural on it. [nth_loop64] takes fuel 64,
    [skip_mask] and [power_loop] 32 (bits of a long, bits of the order), [month_loop] 13
    (rows of [months]), [custkey_loop] 4 (two numbers in a row are never multiples of 3), [julian_loop] the years to go; that these suffice is
    part of the theorems, which state that the functions return. [strip_loop] takes twice the
    length of the line and [qsub_line] its length; the fuel of [pick_other] is an argument,
    and some number below the period of the generator is enough; [option_loop] takes the
    characters of the arguments and one more, and ends on every command line. Row numbers and bases are
    bounded by [scale_ok] (no 64-bit overflow).

    ** Not modelled

    Messages on stderr; the operating system and the C library's [localtime], [getopt] and
    file system are parameters ([Output.os], a time zone, a list of options; the [getopt] of
    bm_utils.c is modelled in Getopt). The [TEST] mains of permute.c, text.c and bcd2.c and the
    code for other systems ([WIN32], [DOS], [SUPPORT_64BITS]) are not part of the build;
    [kill_load] only kills children. TpchWhole leaves aside the tables [LINE] and [PSUPP] alone
    ([-T L], [-T S]): the rows behind them are those of the orders and the parts, but
    [set_state] skips only the streams of what is printed, so the rows built are not functions
    of what it skips.
    qgen needs the macros of a database of tpcd.h, which are a parameter ([Qstate.dialect]). The repository's Puppet modules, scripts and SQL are configuration.
*)
From Stdlib Require Export ZArith Lia Bool List Ascii.
From stdpp Require Export base tactics numbers list strings.

#[global] Open Scope string_scope.
#[global] Open Scope list_scope.
#[global] Open Scope Z_scope.
#[global] Unset Printing Records.

(** ** C integer arithmetic *)

Declare Scope c_scope.
Delimit Scope c_scope with C.
Notation "a '/c' b" := (Z.quot a b) (at level 40, left associativity) : c_scope.
Notation "a '%c' b" := (Z.rem a b) (at level 40, left associativity) : c_scope.
#[global] Open Scope c_scope.

Definition wrap_s (w z : Z) : Z := (z + 2 ^ (w - 1)) mod 2 ^ w - 2 ^ (w - 1).
Definition wrap_u (w z : Z) : Z := z mod 2 ^ w.
Definition in_s (w z : Z) : Prop := - 2 ^ (w - 1) <= z < 2 ^ (w - 1).

Create HintDb carith.

Lemma quot_div a b : 0 <= a -> 0 < b -> a /c b = a / b.
Proof. intros. apply Z.quot_div_nonneg; lia. Qed.

Lemma rem_mod a b : 0 <= a -> 0 < b -> a %c b = a mod b.
Proof. intros. apply Z.rem_mod_nonneg; lia. Qed.

#[export] Hint Rewrite quot_div rem_mod using lia : carith.
Ltac c_arith := autorewrite with carith in *.

Lemma wrap_s_id w z : 0 < w -> in_s w z -> wrap_s w z = z.
Proof.
  unfold wrap_s, in_s. intros Hw H.
  assert (2 ^ w = 2 * 2 ^ (w - 1)) by (rewrite <- Z.pow_succ_r by lia; f_equal; lia).
  rewrite Z.mod_small; lia.
Qed.

(** [lia] after turning divisions and remainders into their Euclidean equations. *)
Ltac zdiv := Z.to_euclidean_division_equations; lia.

(** ** Bits *)

Lemma land_pow2 n j : 0 <= j -> Z.land (2 ^ j) n = Z.b2z (Z.testbit n j) * 2 ^ j.
Proof.
  intros Hj. apply Z.bits_inj'. intros i Hi.
  rewrite Z.land_spec, Z.pow2_bits_eqb by done.
  destruct (Z.eqb_spec j i) as [->|Hne].
  - destruct (Z.testbit n i); cbn [Z.b2z].
    + now rewrite Z.mul_1_l, Z.pow2_bits_true.
    + now rewrite Z.mul_0_l, Z.bits_0.
  - destruct (Z.testbit n j); cbn [Z.b2z andb].
    + now rewrite Z.mul_1_l, Z.pow2_bits_false.
    + now rewrite Z.mul_0_l, Z.bits_0.
Qed.

Lemma land_pow2_zero n j : 0 <= j -> (Z.land (2 ^ j) n =? 0) = negb (Z.testbit n j).
Proof.
  intros Hj. rewrite land_pow2 by done.
  assert (0 < 2 ^ j) by (apply Z.pow_pos_nonneg; lia).
  destruct (Z.testbit n j); cbn [Z.b2z negb].
  - apply Z.eqb_neq. lia.
  - now rewrite Z.mul_0_l.
Qed.

Lemma mod_pow2_succ n j :
  0 <= j -> n mod 2 ^ (j + 1) = Z.b2z (Z.testbit n j) * 2 ^ j + n mod 2 ^ j.
Proof.
  intros Hj. assert (0 < 2 ^ j) by (apply Z.pow_pos_nonneg; lia).
  rewrite Z.pow_add_r, Z.rem_mul_r, Z.testbit_spec' by lia. change (2 ^ 1) with 2. ring.
Qed.

(** Bit [w] of a number below [2^(w+1)] tells whether it reaches [2^w]. *)
Lemma testbit_high n w : 0 <= w -> 0 <= n < 2 ^ (w + 1) -> Z.testbit n w = (2 ^ w <=? n).
Proof.
  intros Hw Hn. assert (0 < 2 ^ w) by (apply Z.pow_pos_nonneg; lia).
  pose proof (mod_pow2_succ n w Hw) as H2. pose proof (Z.mod_pos_bound n (2 ^ w) ltac:(lia)).
  rewrite Z.mod_small in H2 by lia.
  destruct (Z.testbit n w); cbn [Z.b2z] in H2; symmetry; [apply Z.leb_le|apply Z.leb_gt]; lia.
Qed.

Lemma wrap_u_id w z : 0 <= z < 2 ^ w -> wrap_u w z = z.
Proof. apply Z.mod_small. Qed.
