(* ===== verification/NumTheory.v ===== *)
(** Number theory behind the Park-Miller generator: primality by a checked trial
    division, the order of an element modulo [p] from its powers at the maximal
    proper divisors of [p - 1], and orbits of multiplication modulo [p]. *)
From Stdlib Require Import Znumtheory Zpow_facts Permutation.
From S2P Require Import Prelude.

(** ** Primality by trial division *)

(** No divisor of [n] among [d, d+1, ..., d+k-1]. *)
Fixpoint no_divisor (k : nat) (d n : Z) : bool :=
  match k with
  | O => true
  | S k' => negb (n mod d =? 0) && no_divisor k' (d + 1) n
  end.

Definition prime_by_trial (n : Z) : bool :=
  (1 <? n) && no_divisor (Z.to_nat (Z.sqrt n - 1)) 2 n.

Lemma no_divisor_sound k d n :
  no_divisor k d n = true ->
  forall x, d <= x < d + Z.of_nat k -> ~ (x | n).
Proof.
  revert d; induction k as [|k IH]; intros d; [lia|].
  cbn [no_divisor]. rewrite andb_true_iff, negb_true_iff, Z.eqb_neq.
  intros [Hd Hk] x Hx Hdiv.
  destruct (Z.eq_dec x d) as [->|].
  - destruct (Z.eq_dec d 0) as [->|].
    + apply Z.divide_0_l in Hdiv. subst. now rewrite Z.mod_0_r in Hd.
    + now apply Hd, Z.mod_divide.
  - eapply (IH _ Hk x); [lia|done].
Qed.

Lemma prime_by_trial_sound n : prime_by_trial n = true -> prime n.
Proof.
  unfold prime_by_trial. rewrite andb_true_iff, Z.ltb_lt. intros [Hn Hk].
  apply prime_alt. split; [lia|]. intros x Hx [y Hy].
  assert (Hnd := no_divisor_sound _ _ _ Hk).
  pose proof (Z.sqrt_spec n ltac:(lia)) as Hs. cbv zeta in Hs.
  assert (Hpos := Z.sqrt_nonneg n).
  destruct (Z_le_gt_dec x (Z.sqrt n)).
  - apply (Hnd x); [lia|]. now exists y.
  - assert (2 <= y) by nia. assert (y <= Z.sqrt n).
    { destruct (Z_le_gt_dec y (Z.sqrt n)); [done|]. exfalso.
      assert (Z.succ (Z.sqrt n) * Z.succ (Z.sqrt n) <= y * x) by (apply Z.mul_le_mono_nonneg; lia).
      lia. }
    apply (Hnd y); [lia|]. exists x. lia.
Qed.

(** ** Powers modulo [p] *)

Section Order.
Context (p a : Z) (Hp : 1 < p) (Hfull : a ^ (p - 1) mod p = 1).

Lemma pow_mod_mul k m : 0 <= k -> 0 <= m -> a ^ k mod p = 1 -> a ^ (k * m) mod p = 1.
Proof.
  intros Hk Hm H. rewrite Z.pow_mul_r by lia.
  rewrite Zpower_mod, H by lia.
  rewrite Z.pow_1_l by lia. apply Z.mod_small. lia.
Qed.

Lemma pow_mod_add_cancel k m :
  0 <= k -> 0 <= m -> a ^ (k + m) mod p = 1 -> a ^ m mod p = 1 -> a ^ k mod p = 1.
Proof.
  intros Hk Hm H Hpm. rewrite Z.pow_add_r, Z.mul_mod, Hpm in H by lia.
  now rewrite Z.mul_1_r, Z.mod_mod in H by lia.
Qed.

(** The exponents that give 1 are closed under gcd with [p - 1]. *)
Lemma pow_mod_gcd k : 0 <= k -> a ^ k mod p = 1 -> a ^ Z.gcd k (p - 1) mod p = 1.
Proof.
  intros Hk H. set (g := Z.gcd k (p - 1)).
  destruct (Z.gcd_bezout k (p - 1) g eq_refl) as (u & v & Huv).
  assert (0 <= g) by apply Z.gcd_nonneg.
  pose proof (Z.mod_pos_bound u (p - 1) ltac:(lia)) as HU.
  pose proof (Z.div_mod u (p - 1) ltac:(lia)) as Hu.
  set (U := u mod (p - 1)) in *. set (w := v + u / (p - 1) * k).
  assert (Hg : g = k * U + w * (p - 1)) by (unfold w; nia).
  assert (HkU : a ^ (k * U) mod p = 1) by (apply pow_mod_mul; lia || done).
  destruct (Z_le_gt_dec 0 w).
  - rewrite Hg, Z.pow_add_r, Z.mul_mod, HkU by nia.
    rewrite (Z.mul_comm w), pow_mod_mul by (lia || done).
    apply Z.mod_small; lia.
  - apply (pow_mod_add_cancel g (- w * (p - 1))); [lia|nia| |].
    + now replace (g + - w * (p - 1)) with (k * U) by lia.
    + rewrite Z.mul_comm. apply pow_mod_mul; lia || done.
Qed.

(** If 1 is not reached at [(p - 1) / q] for every [q] of a list that meets every
    divisor of [p - 1] greater than 1, the order of [a] is [p - 1]. *)
Lemma pow_mod_order (qs : list Z) :
  Forall (fun q => 1 < q /\ (q | p - 1) /\ a ^ ((p - 1) / q) mod p <> 1) qs ->
  (forall d, 1 < d -> (d | p - 1) -> exists q, q ∈ qs /\ (q | d)) ->
  forall k, 0 <= k -> a ^ k mod p = 1 -> (p - 1 | k).
Proof.
  intros Hqs Hcover k Hk H. apply pow_mod_gcd in H; [|done].
  set (g := Z.gcd k (p - 1)) in *.
  assert (Hgk : (g | k)) by apply Z.gcd_divide_l.
  destruct (Z.gcd_divide_r k (p - 1)) as [d Hd]. fold g in Hd.
  assert (0 <= g) by apply Z.gcd_nonneg.
  assert (0 < d) by nia. assert (0 < g) by nia.
  destruct (Z.eq_dec d 1) as [->|Hd1]; [now rewrite Z.mul_1_l in Hd; rewrite Hd|].
  destruct (Hcover d) as (q & Hq & [e He]); [lia|now exists g; lia|].
  rewrite Forall_forall in Hqs. destruct (Hqs q Hq) as (Hq1 & _ & Hne). exfalso.
  apply Hne. replace ((p - 1) / q) with (g * e).
  - apply pow_mod_mul; [lia|nia|done].
  - rewrite Hd, He. symmetry. replace (e * q * g) with (g * e * q) by ring.
    apply Z.div_mul. lia.
Qed.
End Order.

(** A divisor greater than 1 of a product of primes is met by one of them. *)
Lemma divisor_of_prime_product (qs : list Z) :
  Forall prime qs ->
  forall d, 1 < d -> (d | fold_right Z.mul 1 qs) -> exists q, q ∈ qs /\ (q | d).
Proof.
  induction qs as [|q qs IH]; intros Hqs d Hd Hdiv; cbn in Hdiv.
  { apply Z.divide_1_r_nonneg in Hdiv; lia. }
  apply Forall_cons in Hqs as [Hq Hqs].
  destruct (Zdivide_dec q d) as [Hqd|Hqd].
  { exists q. split; [constructor|done]. }
  destruct (IH Hqs d Hd) as (q' & Hin & Hd').
  - apply Gauss with q; [done|]. apply rel_prime_sym, prime_rel_prime; done.
  - exists q'. split; [now constructor|done].
Qed.

Lemma prime_divides_pow p a n : prime p -> 0 <= n -> (p | a ^ n) -> (p | a).
Proof.
  intros Hp Hn. pattern n. apply natlike_ind; [| |done].
  - rewrite Z.pow_0_r. intros H. apply prime_ge_2 in Hp as ?.
    apply Z.divide_1_r_nonneg in H; lia.
  - intros m Hm IH. rewrite Z.pow_succ_r by done. intros H.
    apply prime_mult in H as [H|H]; auto.
Qed.

Lemma divide_small d m : 0 <= m < d -> (d | m) -> m = 0.
Proof.
  intros Hm H. destruct (Z.eq_dec m 0); [done|].
  apply Z.divide_pos_le in H; lia.
Qed.

Lemma NoDup_map_seq {A} (f : nat -> A) n :
  (forall i j, (i < n)%nat -> (j < n)%nat -> f i = f j -> i = j) ->
  List.NoDup (map f (seq 0 n)).
Proof.
  intros Hf. apply List.NoDup_map_NoDup_ForallPairs; [|apply seq_NoDup].
  intros i j Hi Hj Hij. apply in_seq in Hi, Hj. apply Hf; lia || done.
Qed.

(** ** Orbits of [x |-> a * x mod p] *)

Section Orbit.
Context (p a : Z) (Hprime : prime p).
Context (Hord : forall k, 0 <= k -> a ^ k mod p = 1 -> (p - 1 | k)).

Definition orbit (x : Z) (n : nat) : Z := a ^ Z.of_nat n * x mod p.

Lemma orbit_inj x n m :
  1 <= a < p -> 1 <= x < p -> orbit x n = orbit x m -> (n <= m)%nat ->
  (p - 1 | Z.of_nat m - Z.of_nat n).
Proof.
  unfold orbit. intros Ha Hx H Hnm.
  assert (Hdiv : (p | a ^ Z.of_nat n * x * (a ^ (Z.of_nat m - Z.of_nat n) - 1))).
  { apply Z.mod_divide; [lia|].
    replace (a ^ Z.of_nat n * x * (a ^ (Z.of_nat m - Z.of_nat n) - 1))
      with (a ^ Z.of_nat m * x - a ^ Z.of_nat n * x).
    - rewrite Zminus_mod, H, Z.sub_diag. apply Z.mod_0_l. lia.
    - replace (Z.of_nat m) with (Z.of_nat n + (Z.of_nat m - Z.of_nat n)) at 1 by lia.
      rewrite Z.pow_add_r by lia. ring. }
  apply Hord; [lia|].
  apply prime_mult in Hdiv as [Hdiv|Hdiv]; [| |done].
  - exfalso. apply prime_mult in Hdiv as [Hdiv|Hdiv]; [| |done].
    + apply prime_divides_pow, Z.divide_pos_le in Hdiv; lia || done.
    + apply Z.divide_pos_le in Hdiv; lia.
  - destruct Hdiv as [z Hz].
    replace (a ^ (Z.of_nat m - Z.of_nat n)) with (1 + z * p) by lia.
    rewrite Z.mod_add, Z.mod_small; lia.
Qed.

(** Every element of [1, p) is reached from every other: an orbit of length [p - 1]
    has no repetition, so it exhausts [1, p). *)
Lemma orbit_surj x y :
  1 <= a < p -> 1 <= x < p -> 1 <= y < p ->
  exists n, (n < Z.to_nat (p - 1))%nat /\ orbit x n = y.
Proof.
  intros Ha Hx Hy. set (N := Z.to_nat (p - 1)).
  set (l := map (orbit x) (seq 0 N)). set (r := map (fun i => 1 + Z.of_nat i) (seq 0 N)).
  assert (Hin : forall z, In z r <-> 1 <= z < p).
  { intros z. unfold r. rewrite in_map_iff. setoid_rewrite in_seq. split.
    - intros (i & <- & Hi). lia.
    - intros Hz. exists (Z.to_nat (z - 1)). lia. }
  assert (Hnd : List.NoDup l).
  { unfold l. apply NoDup_map_seq. intros i j Hi Hj Hij.
    destruct (Nat.le_ge_cases i j).
    - enough (Z.of_nat j - Z.of_nat i = 0) by lia.
      apply (divide_small (p - 1)); [lia|now apply orbit_inj with x].
    - enough (Z.of_nat i - Z.of_nat j = 0) by lia.
      apply (divide_small (p - 1)); [lia|now apply orbit_inj with x]. }
  assert (Hincl : incl l r).
  { intros z Hz. apply Hin. unfold l in Hz. apply in_map_iff in Hz as (i & <- & _).
    unfold orbit.
    pose proof (Z.mod_pos_bound (a ^ Z.of_nat i * x) p ltac:(lia)).
    cut ((a ^ Z.of_nat i * x) mod p <> 0); [lia|]. intros H0.
    apply Z.mod_divide in H0; [|lia].
    apply prime_mult in H0 as [H0|H0]; [| |done].
    - apply prime_divides_pow, Z.divide_pos_le in H0; lia || done.
    - apply Z.divide_pos_le in H0; lia. }
  assert (Hlen : (length r <= length l)%nat) by (unfold l, r; rewrite !length_map; done).
  assert (In y l) as Hyl by (apply (NoDup_length_incl Hnd Hlen Hincl), Hin, Hy).
  unfold l in Hyl. apply in_map_iff in Hyl as (n & Hn & Hseq).
  apply in_seq in Hseq. exists n. split; [lia|done].
Qed.
End Orbit.
