(* ===== verification/Rng.v ===== *)
(** The Park-Miller "minimum standard" generator of rnd.c ([NextRand], with the
    constants of rnd.h) and its theory: Schrage's decomposition computes the modular
    product without leaving 32 bits, and the generator has full period. *)
From Stdlib Require Import Znumtheory Zpow_facts.
From S2P Require Import Prelude NumTheory.

(** rnd.h: the multiplier, the modulus [2^31 - 1], the quotient and the remainder. *)
Definition nA : Z := 16807.
Definition nM : Z := 2147483647.
Definition nQ : Z := 127773.
Definition nR : Z := 2836.

(** [long NextRand(long nSeed)] *)
Definition NextRand (nSeed : Z) : Z :=
  let nU := nSeed /c nQ in
  let nV := nSeed - nQ * nU in
  let nSeed := nA * nV - nU * nR in
  if nSeed <? 0 then nSeed + nM else nSeed.

(** The seeds the generator runs through. *)
Definition seed_ok (s : Z) : Prop := 1 <= s < nM.

(** [n] steps of the generator. *)
Definition rng_steps (n : nat) (s : Z) : Z := Nat.iter n NextRand s.

Lemma nM_prime : prime nM.
Proof. apply prime_by_trial_sound. vm_compute. reflexivity. Qed.

(** [nM - 1 = 2 * 3 * 3 * 7 * 11 * 31 * 151 * 331] *)
Definition nM_pred_factors : list Z := [2; 3; 3; 7; 11; 31; 151; 331].

Lemma nM_pred_product : fold_right Z.mul 1 nM_pred_factors = nM - 1.
Proof. reflexivity. Qed.

Lemma nA_full : nA ^ (nM - 1) mod nM = 1.
Proof. rewrite <- Zpow_mod_correct by done. vm_compute. reflexivity. Qed.

(** The side conditions of [pow_mod_order] as one boolean computation. *)
Definition order_witness (p a q : Z) : bool :=
  (1 <? q) && ((p - 1) mod q =? 0) && negb (Zpow_mod a ((p - 1) / q) p =? 1).

Lemma order_witness_sound p a q :
  p <> 0 -> order_witness p a q = true ->
  1 < q /\ (q | p - 1) /\ a ^ ((p - 1) / q) mod p <> 1.
Proof.
  intros Hp. unfold order_witness.
  rewrite !andb_true_iff, negb_true_iff, Z.ltb_lt, Z.eqb_eq, Z.eqb_neq, Zpow_mod_correct by done.
  intros [[Hq Hd] Hne]. split_and!; [done|apply Z.mod_divide; lia|done].
Qed.

Lemma nA_order k : 0 <= k -> nA ^ k mod nM = 1 -> (nM - 1 | k).
Proof.
  apply (pow_mod_order nM nA ltac:(done) nA_full nM_pred_factors).
  - assert (Hall : forallb (order_witness nM nA) nM_pred_factors = true)
      by (vm_compute; reflexivity).
    rewrite forallb_forall in Hall. apply List.Forall_forall.
    intros q Hq. apply order_witness_sound; [done|]. now apply Hall.
  - intros d Hd. rewrite <- nM_pred_product. apply divisor_of_prime_product; [|done].
    unfold nM_pred_factors.
    repeat (apply List.Forall_cons; [apply prime_by_trial_sound; vm_compute; reflexivity|]).
    apply List.Forall_nil.
Qed.

(** ** [NextRand] is multiplication by [nA] modulo [nM] *)

(** The decomposition the comment in rnd.c describes, with its bounds. *)
Lemma schrage_bounds s :
  0 <= s < 2 ^ 32 ->
  let nU := s /c nQ in let nV := s - nQ * nU in
  0 <= nQ * nU <= s /\ 0 <= nA * nV < nM /\ 0 <= nU * nR < nM.
Proof. intros Hs. unfold nM, nQ, nR, nA in *. cbv zeta. rewrite quot_div by lia. zdiv. Qed.

Lemma NextRand_mod s : 0 <= s < 2 ^ 32 -> NextRand s = nA * s mod nM.
Proof.
  intros Hs. destruct (schrage_bounds s Hs) as (HV & HA & HU). cbv zeta in *.
  unfold NextRand. set (u := s /c nQ) in *. set (v := s - nQ * u) in *.
  assert (Hsplit : nA * s = nA * v - u * nR + u * nM) by (unfold v, nM, nQ, nR, nA; lia).
  rewrite Hsplit, Z.mod_add by done.
  destruct (Z.ltb_spec (nA * v - u * nR) 0).
  - rewrite <- (Z.mod_add _ 1) by done. rewrite Z.mod_small; lia.
  - rewrite Z.mod_small; lia.
Qed.

Lemma mul_mod_seed_ok a s : 1 <= a < nM -> seed_ok s -> seed_ok (a * s mod nM).
Proof.
  unfold seed_ok. intros Ha Hs. pose proof (Z.mod_pos_bound (a * s) nM ltac:(done)).
  cut (a * s mod nM <> 0); [lia|]. intros H0. apply Z.mod_divide in H0; [|done].
  apply prime_mult in H0 as [H0|H0]; [| |apply nM_prime]; apply Z.divide_pos_le in H0; lia.
Qed.

Lemma NextRand_ok s : seed_ok s -> seed_ok (NextRand s).
Proof.
  intros Hs. rewrite NextRand_mod by (unfold seed_ok, nM in Hs; lia).
  now apply mul_mod_seed_ok.
Qed.

(** Any 32-bit seed that is no multiple of the modulus leads to a valid one. *)
Lemma NextRand_seed s : 0 <= s < 2 ^ 32 -> s mod nM <> 0 -> seed_ok (NextRand s).
Proof.
  intros Hs Hne. rewrite NextRand_mod by exact Hs. rewrite <- Zmult_mod_idemp_r. apply mul_mod_seed_ok; [done|].
  pose proof (Z.mod_pos_bound s nM ltac:(done)). unfold seed_ok, nM in *. lia.
Qed.

Lemma rng_steps_ok n s : seed_ok s -> seed_ok (rng_steps n s).
Proof. intros Hs. induction n; [done|]. now apply NextRand_ok. Qed.

Lemma rng_steps_mod n s : seed_ok s -> rng_steps n s = nA ^ Z.of_nat n * s mod nM.
Proof.
  intros Hs. induction n as [|n IH].
  - cbn. rewrite Z.mod_small; [lia|]. unfold seed_ok in Hs. lia.
  - change (rng_steps (S n) s) with (NextRand (rng_steps n s)).
    pose proof (rng_steps_ok n s Hs) as Hok. rewrite NextRand_mod by (unfold seed_ok, nM in Hok; lia).
    rewrite IH, Z.mul_mod_idemp_r, Nat2Z.inj_succ, Z.pow_succ_r by (done || lia).
    f_equal. ring.
Qed.

Lemma rng_steps_add n m s : rng_steps (n + m) s = rng_steps n (rng_steps m s).
Proof. apply Nat.iter_add. Qed.

Create HintDb rng.
#[export] Hint Resolve NextRand_ok rng_steps_ok mul_mod_seed_ok : rng.

(** ** Properties *)

(** C28. [NextRand] computes [nA * nSeed mod nM], stays in [1, nM), and none of the
    intermediate values of its decomposition leaves the range of a 32-bit [long]. *)
Theorem NextRand_spec s :
  seed_ok s ->
  NextRand s = nA * s mod nM /\ seed_ok (NextRand s) /\
  (let nU := s /c nQ in let nV := s - nQ * nU in
   in_s 32 (nQ * nU) /\ in_s 32 (nA * nV) /\ in_s 32 (nU * nR) /\ in_s 32 (nA * nV - nU * nR)).
Proof.
  intros Hs. assert (Hr : 0 <= s < 2 ^ 32) by (unfold seed_ok, nM in Hs; lia).
  destruct (schrage_bounds s Hr) as (HV & HA & HU). cbv zeta in *.
  split_and!; [now apply NextRand_mod|now apply NextRand_ok|..];
    unfold in_s, seed_ok, nM in *; lia.
Qed.

Lemma NextRand_spec_witness : seed_ok 46831694 /\ NextRand 46831694 = nA * 46831694 mod nM.
Proof. split; [done|]. now apply (NextRand_spec 46831694). Defined.

(** Every seed is reached from every other one. *)
Lemma rng_reaches s t : seed_ok s -> seed_ok t -> exists n, Z.of_nat n < nM - 1 /\ rng_steps n s = t.
Proof.
  intros Hs Ht. destruct (orbit_surj nM nA nM_prime nA_order s t) as (n & Hn & Hst); try done.
  exists n. split; [unfold nM in *; lia|]. now rewrite rng_steps_mod.
Qed.

(** C29. The generator has full period: [n] steps return to a seed exactly when
    [nM - 1] divides [n], and from any seed every other one is reached. *)
Theorem NextRand_full_period s :
  seed_ok s ->
  (forall n, rng_steps n s = s <-> (nM - 1 | Z.of_nat n)) /\
  (forall t, seed_ok t -> exists n, Z.of_nat n < nM - 1 /\ rng_steps n s = t).
Proof.
  intros Hs. split.
  - intros n. split.
    + intros Hn. replace (Z.of_nat n) with (Z.of_nat n - Z.of_nat 0) by lia.
      apply (orbit_inj nM nA nM_prime nA_order s); [done|done| |lia].
      unfold orbit. rewrite <- !rng_steps_mod by done. now rewrite Hn.
    + intros [z Hz]. rewrite rng_steps_mod, Hz by done.
      assert (0 <= z) by (unfold nM in Hz; lia).
      assert (E : nA ^ ((nM - 1) * z) mod nM = 1)
        by (apply pow_mod_mul; [reflexivity|discriminate|assumption|exact nA_full]).
      rewrite Z.mul_mod, (Z.mul_comm z), E, Z.mul_1_l, Z.mod_mod by discriminate.
      apply Z.mod_small. unfold seed_ok in Hs. lia.
  - intros t Ht. now apply rng_reaches.
Qed.

Lemma NextRand_full_period_witness :
  seed_ok 1 /\ exists n, Z.of_nat n < nM - 1 /\ rng_steps n 1 = 2.
Proof. split; [done|]. now apply (NextRand_full_period 1). Defined.
