(* ===== verification/Float64.v ===== *)
(** C [double] arithmetic (IEEE 754 binary64, round to nearest, ties to even) on the
    range the program uses: finite values away from the overflow and subnormal
    thresholds. A value is a dyadic [fm * 2^fe]; every operation computes the exact
    result and rounds it to a 53-bit significand. *)
From Stdlib Require Import QArith Qpower Lqa SpecFloat.
From S2P Require Import Prelude.
Open Scope Z_scope.

Record f64 := F { fm : Z; fe : Z }.

(** Round-to-nearest-even of [n / 2^k] for [0 <= n]. *)
Definition rne (n k : Z) : Z :=
  let q := Z.shiftr n k in
  let r := n - Z.shiftl q k in
  let half := 2 ^ (k - 1) in
  if r <? half then q else if half <? r then q + 1 else if Z.even q then q else q + 1.

Definition fprec : Z := 53.

(** Round a dyadic to [fprec] significant bits. *)
Definition fround (x : f64) : f64 :=
  let k := Z.log2 (Z.abs (fm x)) + 1 - fprec in
  if k <=? 0 then x
  else F (Z.sgn (fm x) * rne (Z.abs (fm x)) k) (fe x + k).

(** [(double) n] for an integer [n] *)
Definition f_of_Z (n : Z) : f64 := fround (F n 0).

Definition fmul (x y : f64) : f64 := fround (F (fm x * fm y) (fe x + fe y)).

Definition fadd (x y : f64) : f64 :=
  let e := Z.min (fe x) (fe y) in
  fround (F (Z.shiftl (fm x) (fe x - e) + Z.shiftl (fm y) (fe y - e)) e).

Definition fopp (x : f64) : f64 := F (- fm x) (fe x).
Definition fsub (x y : f64) : f64 := fadd x (fopp y).

(** Division: a quotient of at least 55 significant bits, with a sticky bit for the
    remainder, rounded once. *)
Definition fdiv (x y : f64) : f64 :=
  let n := Z.abs (fm x) in let d := Z.abs (fm y) in
  let k := Z.max 0 (56 + Z.log2 d - Z.log2 n) in
  let q := (n * 2 ^ k) / d in
  let sticky := if (n * 2 ^ k) mod d =? 0 then 0 else 1 in
  fround (F (Z.sgn (fm x) * Z.sgn (fm y) * (2 * q + sticky)) (fe x - fe y - k - 1)).

(** [floor] *)
Definition ffloor (x : f64) : f64 :=
  if 0 <=? fe x then x else F (Z.shiftr (fm x) (- fe x)) 0.

(** [(long) x]: truncation towards zero *)
Definition f_to_Z (x : f64) : Z :=
  if 0 <=? fe x then fm x * 2 ^ fe x else fm x /c 2 ^ (- fe x).

(** The same to a signed integer of [w] bits, undefined out of its range. *)
Definition f_to_s (w : Z) (x : f64) : option Z :=
  let z := f_to_Z x in if (- 2 ^ (w - 1) <=? z) && (z <? 2 ^ (w - 1)) then Some z else None.

(** Decimal literals such as [0.4]: [num / 10^k] correctly rounded. *)
Definition f_lit (num den : Z) : f64 := fdiv (F num 0) (F den 0).

(** ** Agreement with the standard library's executable specification *)

(** The value in the canonical form of [SpecFloat]. *)
Definition to_spec (x : f64) : spec_float :=
  binary_normalize 53 1024 (fm x) (fe x) false.

Definition agree2 (f : f64 -> f64 -> f64) (g : spec_float -> spec_float -> spec_float)
    (x y : f64) : bool :=
  SFeqb (to_spec (f x y)) (g (to_spec x) (to_spec y)).

Definition f_samples : list f64 :=
  [F 1 0; F 3 0; F 10 0; F 2147483646 0; F 2147483647 0; F 46831694 0; F 99901 0;
   f_lit 4 10; f_lit 16 10; F 4503599627370497 (-30); F 9007199254740991 (-53)].

Definition all_pairs (p : f64 -> f64 -> bool) : bool :=
  forallb (fun x => forallb (p x) f_samples) f_samples.

Lemma fmul_agrees : all_pairs (agree2 fmul (SFmul 53 1024)) = true.
Proof. vm_compute. reflexivity. Qed.
Lemma fdiv_agrees : all_pairs (agree2 fdiv (SFdiv 53 1024)) = true.
Proof. vm_compute. reflexivity. Qed.
Lemma fadd_agrees : all_pairs (agree2 fadd (SFadd 53 1024)) = true.
Proof. vm_compute. reflexivity. Qed.
Lemma fsub_agrees : all_pairs (agree2 fsub (SFsub 53 1024)) = true.
Proof. vm_compute. reflexivity. Qed.

(** ** Exactness and rounding error *)

Lemma fround_exact m e : Z.abs m < 2 ^ 53 -> fround (F m e) = F m e.
Proof.
  intros Hm. unfold fround, fprec; cbn [fm fe].
  destruct (Z.leb_spec (Z.log2 (Z.abs m) + 1 - 53) 0) as [|Hk]; [done|]. exfalso.
  destruct (Z.eq_dec m 0) as [->|]; [change (Z.log2 (Z.abs 0)) with 0 in Hk; lia|].
  apply Z.log2_lt_pow2 in Hm; lia.
Qed.

Lemma fmul_exact m1 e1 m2 e2 :
  Z.abs (m1 * m2) < 2 ^ 53 -> fmul (F m1 e1) (F m2 e2) = F (m1 * m2) (e1 + e2).
Proof. intros. unfold fmul; cbn [fm fe]. now apply fround_exact. Qed.

Lemma f_of_Z_exact n : Z.abs n < 2 ^ 53 -> f_of_Z n = F n 0.
Proof. apply fround_exact. Qed.

Lemma fsub_exact_int m1 m2 :
  Z.abs (m1 - m2) < 2 ^ 53 -> fsub (F m1 0) (F m2 0) = F (m1 - m2) 0.
Proof.
  intros. unfold fsub, fadd, fopp; cbn [fm fe].
  rewrite Z.min_id, Z.sub_diag, !Z.shiftl_0_r. now apply fround_exact.
Qed.

Lemma ffloor_neg m e : e < 0 -> ffloor (F m e) = F (m / 2 ^ (- e)) 0.
Proof.
  intros He. unfold ffloor; cbn [fm fe].
  destruct (Z.leb_spec 0 e); [lia|]. now rewrite Z.shiftr_div_pow2 by lia.
Qed.

(** Nearest-even rounding moves a value by at most half a unit. *)
Lemma rne_upper n k : 0 < k -> rne n k * 2 ^ k <= n + 2 ^ (k - 1).
Proof.
  intros Hk. unfold rne.
  rewrite Z.shiftl_mul_pow2, Z.shiftr_div_pow2 by lia.
  assert (H2 : 2 ^ k = 2 * 2 ^ (k - 1)) by (rewrite <- Z.pow_succ_r by lia; f_equal; lia).
  assert (Hp : 0 < 2 ^ (k - 1)) by (apply Z.pow_pos_nonneg; lia).
  pose proof (Z.div_mod n (2 ^ k) ltac:(lia)) as Hd.
  pose proof (Z.mod_pos_bound n (2 ^ k) ltac:(lia)) as Hm.
  set (q := n / 2 ^ k) in *.
  destruct (Z.ltb_spec (n - q * 2 ^ k) (2 ^ (k - 1))); [lia|].
  destruct (Z.ltb_spec (2 ^ (k - 1)) (n - q * 2 ^ k)); [lia|].
  destruct (Z.even q); lia.
Qed.

Lemma rne_nonneg n k : 0 <= n -> 0 <= k -> 0 <= rne n k.
Proof.
  intros Hn Hk. unfold rne. assert (0 <= Z.shiftr n k) by now apply Z.shiftr_nonneg.
  repeat case_match; lia.
Qed.

Lemma fround_nonneg x : 0 <= fm x -> 0 <= fm (fround x).
Proof.
  intros Hx. unfold fround. case_match eqn:Hk; [done|]. cbn [fm].
  apply Z.leb_gt in Hk.
  apply Z.mul_nonneg_nonneg; [now apply Z.sgn_nonneg|apply rne_nonneg; lia].
Qed.

(** The value of a dyadic, as a rational. *)
Definition fval (x : f64) : Q := (inject_Z (fm x) * 2 ^ fe x)%Q.

Lemma two_pow_pos e : (0 < 2 ^ e)%Q.
Proof. apply Qpower_0_lt. reflexivity. Qed.

Lemma pow2_Q e : 0 <= e -> (2 ^ e == inject_Z (2 ^ e))%Q.
Proof. intros He. symmetry. now apply Zpower_Qpower. Qed.

Lemma fval_shift m e k : 0 <= k -> (fval (F m (e + k)) == inject_Z (m * 2 ^ k) * 2 ^ e)%Q.
Proof.
  intros Hk. unfold fval; cbn [fm fe].
  rewrite Qpower_plus by discriminate. rewrite inject_Z_mult, (pow2_Q k) by done.
  ring.
Qed.

(** The standard model of rounding: relative error at most [2^-53] (upper side). *)
Definition funit : Q := 1 # 9007199254740992.

Lemma fval_nonneg x : 0 <= fm x -> (0 <= fval x)%Q.
Proof.
  intros Hx. unfold fval. apply Qmult_le_0_compat.
  - now rewrite <- Zle_Qle with (x := 0).
  - apply Qlt_le_weak, two_pow_pos.
Qed.

Lemma fround_upper x : 0 <= fm x -> (fval (fround x) <= fval x * (1 + funit))%Q.
Proof.
  intros Hx. pose proof (fval_nonneg x Hx) as Hv. unfold fround. cbv zeta.
  set (k := Z.log2 (Z.abs (fm x)) + 1 - fprec).
  destruct (Z.leb_spec k 0) as [|Hk]; [unfold funit; lra|].
  assert (0 < fm x).
  { destruct (Z.eq_dec (fm x) 0) as [H0|]; [|lia]. unfold k in Hk. now rewrite H0 in Hk. }
  rewrite Z.sgn_pos, Z.mul_1_l, fval_shift by lia. unfold fval.
  pose proof (rne_upper (Z.abs (fm x)) k Hk) as Hr.
  assert (Hlog : 2 ^ (k + 52) <= fm x).
  { pose proof (Z.log2_spec (fm x) ltac:(lia)).
    replace (k + 52) with (Z.log2 (fm x)); [lia|]. unfold k, fprec. rewrite Z.abs_eq; lia. }
  rewrite Z.abs_eq in * by lia.
  assert (Hz : 2 ^ 53 * (rne (fm x) k * 2 ^ k) <= (2 ^ 53 + 1) * fm x).
  { replace (2 ^ (k + 52)) with (2 ^ 53 * 2 ^ (k - 1)) in Hlog
      by (rewrite <- Z.pow_add_r by lia; f_equal; lia). lia. }
  pose proof (two_pow_pos (fe x)) as He. set (p := (2 ^ fe x)%Q) in *.
  rewrite Zle_Qle, (inject_Z_mult (2 ^ 53 + 1)), inject_Z_mult in Hz.
  set (r := inject_Z (rne (fm x) k * 2 ^ k)) in *. set (m := inject_Z (fm x)) in *.
  assert (Hq : (r <= m * (1 + funit))%Q).
  { unfold funit. change (inject_Z (2 ^ 53)) with (9007199254740992 # 1)%Q in Hz.
    change (inject_Z (2 ^ 53 + 1)) with (9007199254740993 # 1)%Q in Hz.
    lra. }
  assert (E : (m * p * (1 + funit) == m * (1 + funit) * p)%Q) by ring. rewrite E.
  apply Qmult_le_compat_r; [done|]. now apply Qlt_le_weak.
Qed.

Lemma f_to_Z_bounds x n :
  0 <= fm x -> (fval x < inject_Z n)%Q -> 0 <= f_to_Z x < n.
Proof.
  intros Hx Hn. unfold f_to_Z, fval in *.
  destruct (Z.leb_spec 0 (fe x)).
  - rewrite (pow2_Q (fe x)), <- inject_Z_mult, <- Zlt_Qlt in Hn by done.
    assert (0 < 2 ^ fe x) by (apply Z.pow_pos_nonneg; lia). nia.
  - assert (Hp : 0 < 2 ^ (- fe x)) by (apply Z.pow_pos_nonneg; lia).
    rewrite quot_div by lia. split; [apply Z.div_pos; lia|].
    apply Z.div_lt_upper_bound; [done|]. rewrite Zlt_Qlt, inject_Z_mult.
    rewrite <- pow2_Q, Qpower_opp by lia.
    pose proof (two_pow_pos (fe x)) as He. set (p := (2 ^ fe x)%Q) in *.
    apply (Qmult_lt_r _ _ p) ; [done|].
    assert (E : (/ p * inject_Z n * p == inject_Z n)%Q) by (field; lra). now rewrite E.
Qed.

(** The quotient of positive integers [n <= d], from above. *)
Definition fsticky : Q := 1 # 72057594037927936. (* 2^-56 *)

Lemma fdiv_upper n d :
  0 < n <= d ->
  (fval (fdiv (F n 0%Z) (F d 0%Z)) <=
     (inject_Z n / inject_Z d + fsticky) * (1 + funit))%Q.
Proof.
  intros Hnd. unfold fdiv; cbn [fm fe]. rewrite !Z.sgn_pos, !Z.abs_eq, Z.mul_1_l by lia.
  pose proof (Z.log2_le_mono n d ltac:(lia)) as Hlog.
  set (k := Z.max 0 (56 + Z.log2 d - Z.log2 n)). set (K := 2 ^ k).
  assert (HK : 2 ^ 56 <= K) by (apply Z.pow_le_mono_r; lia).
  pose proof (Z.div_mod (n * K) d ltac:(lia)) as Hdiv.
  pose proof (Z.mod_pos_bound (n * K) d ltac:(lia)) as Hmod.
  set (m := 2 * (n * K / d) + (if n * K mod d =? 0 then 0 else 1)).
  assert (Hm : 0 <= m /\ m * d <= 2 * (n * K) + d).
  { assert (0 <= n * K / d) by (apply Z.div_pos; lia).
    unfold m. destruct (Z.eqb_spec (n * K mod d) 0); lia. }
  eapply Qle_trans; [apply fround_upper; cbn [fm]; lia|].
  apply Qmult_le_compat_r; [|unfold funit; lra].
  unfold fval; cbn [fm fe].
  assert (E : (2 ^ (0 - 0 - k - 1) == / (inject_Z (2 * K)))%Q).
  { replace (0 - 0 - k - 1) with (- (k + 1)) by lia.
    rewrite Qpower_opp, (pow2_Q (k + 1)), Z.pow_add_r, Z.mul_comm by lia. done. }
  rewrite E. clear E.
  assert (Hd : (0 < inject_Z d)%Q) by (rewrite <- Zlt_Qlt with (x := 0); lia).
  assert (H2K : (0 < inject_Z (2 * K))%Q) by (rewrite <- Zlt_Qlt with (x := 0); lia).
  assert (Hz : (inject_Z m * inject_Z d <=
                inject_Z n * inject_Z (2 * K) + inject_Z d)%Q).
  { rewrite <- !inject_Z_mult, <- inject_Z_plus, <- Zle_Qle. lia. }
  apply Qle_shift_div_r; [done|].
  apply (Qmult_le_r _ _ (inject_Z d)); [done|]. eapply Qle_trans; [exact Hz|].
  assert (E : ((inject_Z n / inject_Z d + fsticky) * inject_Z (2 * K) * inject_Z d ==
               inject_Z n * inject_Z (2 * K) + inject_Z d * (fsticky * inject_Z (2 * K)))%Q)
    by (field; lra).
  rewrite E. apply Qplus_le_r.
  assert (1 <= fsticky * inject_Z (2 * K))%Q; [|nra].
  assert (inject_Z (2 ^ 57) <= inject_Z (2 * K))%Q by (rewrite <- Zle_Qle; lia).
  unfold fsticky. change (inject_Z (2 ^ 57)) with (144115188075855872 # 1)%Q in *. lra.
Qed.

Lemma fdiv_nonneg n d : 0 <= n -> 0 < d -> 0 <= fm (fdiv (F n 0) (F d 0)).
Proof.
  intros Hn Hd. unfold fdiv; cbn [fm fe]. apply fround_nonneg; cbn [fm].
  apply Z.mul_nonneg_nonneg; [lia|].
  assert (0 <= Z.abs n * 2 ^ Z.max 0 (56 + Z.log2 (Z.abs d) - Z.log2 (Z.abs n)) / Z.abs d).
  { apply Z.div_pos; [|lia]. apply Z.mul_nonneg_nonneg; [lia|apply Z.pow_nonneg; lia]. }
  case_match; lia.
Qed.

(** The scaling of rnd.c, [(long) ((value / dM) * range)], lands in [0, range) when
    [value] is below the divisor by at least one part in [2^50]. *)
Lemma fscale_bounds v d R :
  0 < v < d -> d <= 2 ^ 50 -> 0 < R < 2 ^ 53 ->
  0 <= f_to_Z (fmul (fdiv (F v 0) (F d 0)) (F R 0)) < R.
Proof.
  intros Hv Hd HR. set (x := fdiv (F v 0) (F d 0)).
  assert (Hx : 0 <= fm x) by (apply fdiv_nonneg; lia).
  assert (Hmul : 0 <= fm x * R) by nia.
  apply f_to_Z_bounds; [apply fround_nonneg; exact Hmul|].
  unfold fmul. eapply Qle_lt_trans; [apply fround_upper; exact Hmul|].
  assert (E : (fval (F (fm x * R) (fe x + 0)) == fval x * inject_Z R)%Q).
  { unfold fval; cbn [fm fe]. rewrite Z.add_0_r, inject_Z_mult. ring. }
  cbn [fm fe]. rewrite E. clear E.
  pose proof (fdiv_upper v d ltac:(lia)) as Hup. fold x in Hup.
  assert (HRq : (0 < inject_Z R)%Q) by (rewrite <- Zlt_Qlt with (x := 0); lia).
  assert (Hdq : (0 < inject_Z d)%Q) by (rewrite <- Zlt_Qlt with (x := 0); lia).
  assert (Hvd : (inject_Z v / inject_Z d <= 1 - (1 # 1125899906842624))%Q).
  { apply Qle_shift_div_r; [done|].
    assert (inject_Z v <= inject_Z d - 1)%Q.
    { change 1%Q with (inject_Z 1). unfold Qminus. rewrite <- inject_Z_opp, <- inject_Z_plus, <- Zle_Qle. lia. }
    assert (inject_Z d <= inject_Z (2 ^ 50))%Q by (rewrite <- Zle_Qle; lia).
    change (inject_Z (2 ^ 50)) with (1125899906842624 # 1)%Q in *. lra. }
  assert (Hlt : (fval x * (1 + funit) < 1)%Q) by (unfold funit, fsticky in *; lra).
  assert (E : (fval x * inject_Z R * (1 + funit) == fval x * (1 + funit) * inject_Z R)%Q) by ring.
  rewrite E. rewrite <- (Qmult_1_l (inject_Z R)) at 2. now apply Qmult_lt_r.
Qed.

(** ** Comparison *)

(** [x < y] *)
Definition fltb (x y : f64) : bool :=
  let e := Z.min (fe x) (fe y) in
  Z.shiftl (fm x) (fe x - e) <? Z.shiftl (fm y) (fe y - e).

Lemma fval_scaled x e : e <= fe x -> (fval x == inject_Z (Z.shiftl (fm x) (fe x - e)) * 2 ^ e)%Q.
Proof.
  intros He. unfold fval. rewrite Z.shiftl_mul_pow2, inject_Z_mult, <- (pow2_Q (fe x - e)) by lia.
  replace (fe x) with (fe x - e + e) at 1 by lia. rewrite Qpower_plus by discriminate. ring.
Qed.

Lemma fltb_lt x y : fltb x y = true <-> (fval x < fval y)%Q.
Proof.
  unfold fltb. rewrite Z.ltb_lt. set (e := Z.min (fe x) (fe y)).
  rewrite (fval_scaled x e), (fval_scaled y e), Zlt_Qlt by lia.
  split; intros H; [apply Qmult_lt_r|apply Qmult_lt_r in H]; auto using two_pow_pos.
Qed.

Lemma fround_opp m e : fround (F (- m) e) = fopp (fround (F m e)).
Proof.
  unfold fround. cbn [fm fe]. rewrite Z.abs_opp. cbv zeta. destruct (_ <=? _); [reflexivity|].
  unfold fopp. cbn [fm fe]. f_equal. rewrite Z.sgn_opp. ring.
Qed.

(** ** Rounding towards a representable bound *)

Definition frep (x : f64) : Prop := Z.abs (fm x) < 2 ^ 53.

Lemma rne_le n k Y : 0 < k -> 0 <= n <= Y * 2 ^ k -> rne n k <= Y.
Proof.
  intros Hk Hn. unfold rne. rewrite Z.shiftl_mul_pow2, Z.shiftr_div_pow2 by lia.
  assert (Hp : 0 < 2 ^ k) by (apply Z.pow_pos_nonneg; lia). assert (Hh : 0 < 2 ^ (k - 1)) by (apply Z.pow_pos_nonneg; lia).
  pose proof (Z.div_mod n (2 ^ k) ltac:(lia)) as Hd. pose proof (Z.mod_pos_bound n (2 ^ k) Hp) as Hm.
  set (q := n / 2 ^ k) in *. assert (q < Y \/ n - q * 2 ^ k = 0 /\ q <= Y) by nia.
  repeat case_match; lia.
Qed.

Lemma rne_ge n k Y : 0 < k -> Y * 2 ^ k <= n -> Y <= rne n k.
Proof.
  intros Hk Hn. unfold rne. rewrite Z.shiftl_mul_pow2, Z.shiftr_div_pow2 by lia.
  assert (Hp : 0 < 2 ^ k) by (apply Z.pow_pos_nonneg; lia).
  assert (Y <= n / 2 ^ k) by (apply Z.div_le_lower_bound; lia). repeat case_match; lia.
Qed.

Lemma fval_le x y e :
  e <= fe x -> e <= fe y ->
  (fval x <= fval y)%Q <-> Z.shiftl (fm x) (fe x - e) <= Z.shiftl (fm y) (fe y - e).
Proof.
  intros Hx Hy. rewrite (fval_scaled x e), (fval_scaled y e) by lia. rewrite Zle_Qle.
  split; intros H; [apply Qmult_le_r in H|apply Qmult_le_compat_r]; auto using two_pow_pos, Qlt_le_weak.
Qed.

Lemma fval_opp x : (fval (fopp x) == - fval x)%Q.
Proof. unfold fval, fopp. cbn [fm fe]. rewrite inject_Z_opp. ring. Qed.

(** A positive dyadic that loses bits: the bits kept and their weight. *)
Lemma fround_pos x :
  0 < fm x -> fround x = x \/
  exists k, 0 < k /\ fround x = F (rne (fm x) k) (fe x + k) /\ 2 ^ 52 * 2 ^ k <= fm x.
Proof.
  intros Hx. unfold fround. cbv zeta. set (k := Z.log2 (Z.abs (fm x)) + 1 - fprec).
  destruct (Z.leb_spec k 0) as [|Hk]; [now left|]. right. exists k.
  rewrite Z.sgn_pos, Z.mul_1_l, Z.abs_eq by lia. split_and!; [exact Hk|reflexivity|].
  rewrite <- Z.pow_add_r by lia. replace (52 + k) with (Z.log2 (fm x)) by (unfold k, fprec; rewrite Z.abs_eq; lia).
  now apply Z.log2_spec.
Qed.

(** A representable number with small weights is below every number that loses bits. *)
Lemma frep_small y e k : frep y -> 0 < k -> fe y < e + k -> (fval y < fval (F (2 ^ 52) (e + k)))%Q.
Proof.
  intros Hy Hk He. apply fltb_lt. unfold fltb. cbn [fm fe]. rewrite Z.min_l, Z.sub_diag, Z.shiftl_0_r by lia.
  rewrite Z.shiftl_mul_pow2 by lia. unfold frep in Hy. apply Z.ltb_lt.
  assert (2 ^ 1 <= 2 ^ (e + k - fe y)) by (apply Z.pow_le_mono_r; lia). lia.
Qed.

Lemma fround_pos_le x y : 0 < fm x -> frep y -> (fval x <= fval y)%Q -> (fval (fround x) <= fval y)%Q.
Proof.
  intros Hx Hy Hle. destruct (fround_pos x Hx) as [->|(k & Hk & -> & Hm)]; [exact Hle|].
  destruct (Z_lt_le_dec (fe y) (fe x + k)) as [He|He].
  - exfalso. pose proof (frep_small y (fe x) k Hy Hk He) as Hs.
    assert (Hb : (fval (F (2 ^ 52) (fe x + k)) <= fval x)%Q).
    { apply (fval_le _ _ (fe x)); cbn [fm fe]; [lia..|]. rewrite Z.sub_diag, Z.shiftl_0_r, Z.shiftl_mul_pow2 by lia.
      now replace (fe x + k - fe x) with k by lia. }
    lra.
  - apply (fval_le _ _ (fe x + k)); cbn [fm fe]; [lia..|]. apply (fval_le _ _ (fe x)) in Hle; [|lia..].
    rewrite Z.sub_diag, Z.shiftl_0_r in *. rewrite !Z.shiftl_mul_pow2 in * by lia. apply rne_le; [exact Hk|]. split; [lia|].
    rewrite <- Z.mul_assoc, <- Z.pow_add_r by lia. now replace (fe y - (fe x + k) + k) with (fe y - fe x) by lia.
Qed.

Lemma fround_pos_ge x y : 0 < fm x -> frep y -> (fval y <= fval x)%Q -> (fval y <= fval (fround x))%Q.
Proof.
  intros Hx Hy Hle. destruct (fround_pos x Hx) as [->|(k & Hk & -> & Hm)]; [exact Hle|].
  destruct (Z_lt_le_dec (fe y) (fe x + k)) as [He|He].
  - apply Qlt_le_weak. eapply Qlt_le_trans; [exact (frep_small y (fe x) k Hy Hk He)|].
    apply (fval_le _ _ (fe x + k)); cbn [fm fe]; [lia..|]. rewrite Z.sub_diag, !Z.shiftl_0_r. now apply rne_ge.
  - apply (fval_le _ _ (fe x + k)); cbn [fm fe]; [lia..|]. apply (fval_le _ _ (fe x)) in Hle; [|lia..].
    rewrite Z.sub_diag, Z.shiftl_0_r in *. rewrite !Z.shiftl_mul_pow2 in * by lia. apply rne_ge; [exact Hk|].
    rewrite <- Z.mul_assoc, <- Z.pow_add_r by lia. now replace (fe y - (fe x + k) + k) with (fe y - fe x) by lia.
Qed.

Lemma fopp_invol x : fopp (fopp x) = x.
Proof. destruct x. unfold fopp. cbn. now rewrite Z.opp_involutive. Qed.

Lemma frep_opp y : frep y -> frep (fopp y).
Proof. unfold frep, fopp. cbn [fm]. now rewrite Z.abs_opp. Qed.

(** Rounding does not cross a representable number. *)
Lemma fround_le x y : frep y -> (fval x <= fval y)%Q -> (fval (fround x) <= fval y)%Q.
Proof.
  intros Hy Hle. destruct (Z.lt_trichotomy (fm x) 0) as [Hx|[Hx|Hx]].
  - assert (Hp : (fval (fopp y) <= fval (fround (fopp x)))%Q).
    { apply fround_pos_ge; [cbn; lia|now apply frep_opp|]. rewrite !fval_opp. lra. }
    unfold fopp at 2 in Hp. rewrite fround_opp, !fval_opp in Hp. destruct x. cbn [fm fe] in Hp. lra.
  - replace (fround x) with x; [exact Hle|]. destruct x as [m e]. cbn [fm] in Hx. subst. symmetry. now apply fround_exact.
  - now apply fround_pos_le.
Qed.

Lemma fround_ge x y : frep y -> (fval y <= fval x)%Q -> (fval y <= fval (fround x))%Q.
Proof.
  intros Hy Hle. pose proof (fround_le (fopp x) (fopp y) (frep_opp y Hy)) as H. rewrite !fval_opp in H.
  unfold fopp in H at 1. rewrite fround_opp, fval_opp in H. destruct x. cbn [fm fe] in H. lra.
Qed.

Lemma fval_add x y :
  (fval (F (Z.shiftl (fm x) (fe x - Z.min (fe x) (fe y)) + Z.shiftl (fm y) (fe y - Z.min (fe x) (fe y)))
           (Z.min (fe x) (fe y))) == fval x + fval y)%Q.
Proof.
  rewrite (fval_scaled x (Z.min (fe x) (fe y))), (fval_scaled y (Z.min (fe x) (fe y))) by lia.
  unfold fval at 1. cbn [fm fe]. rewrite inject_Z_plus. ring.
Qed.
