(* ===== verification/SpeedSeed.v ===== *)
(** Jumping the generator ahead: speed_seed.c.
    [NthElement64] is the [SUPPORT_64BITS] variant (square-and-multiply on 64-bit
    integers); [NthElement] is the variant the Linux build compiles, which multiplies
    modulo [2^31 - 1] in [double] arithmetic ([RND_ModMult]) and accepts negative
    shifts ([RND_seed]). *)
From Stdlib Require Import Znumtheory.
From S2P Require Import Prelude NumTheory Float64 Rng.

Definition Multiplier : Z := 16807.
Definition Modulus : Z := 2147483647.

(** ** [SUPPORT_64BITS]: [void NthElement(long N, long *StartSeed)] *)

(** The loop; [fuel] bounds the number of halvings of [N]. *)
Fixpoint nth_loop64 (fuel : nat) (N Z_ Mult : Z) : Z :=
  match fuel with
  | O => Z_
  | S fuel =>
      if 0 <? N then
        let Z_ := if negb (N %c 2 =? 0) then (Mult * Z_) %c Modulus else Z_ in
        nth_loop64 fuel (N /c 2) Z_ ((Mult * Mult) %c Modulus)
      else Z_
  end.

Definition NthElement64 (N StartSeed : Z) : Z := nth_loop64 64 N StartSeed Multiplier.

(** ** 32-bit variant *)

Definition dTwoPowPlus31 : f64 := F 2147483648 0.
Definition dTwoPowMinus31 : f64 := F 1 (-31).
Definition dTwoPowPlus15 : f64 := F 32768 0.
Definition dTwoPowMinus15 : f64 := F 1 (-15).

(** The two reciprocals are what the divisions [1./2147483648.] and [1./32768.] give. *)
Lemma reciprocals_exact :
  SpecFloat.SFeqb (to_spec (fdiv (F 1 0) dTwoPowPlus31)) (to_spec dTwoPowMinus31) = true /\
  SpecFloat.SFeqb (to_spec (fdiv (F 1 0) dTwoPowPlus15)) (to_spec dTwoPowMinus15) = true.
Proof. split; vm_compute; reflexivity. Qed.

Definition nLowMask : Z := 0xFFFF.
Definition ulBit31 : Z := Z.shiftl 1 31.

(** [static RND RND_ModMult(RND nA, RND nB)]; [URND] is a 64-bit unsigned long. *)
Definition RND_ModMult (a b : Z) : Z :=
  let nL := Z.land b nLowMask in
  let nH := Z.shiftr (b - nL) 16 in
  let dAH := fmul (f_of_Z a) (f_of_Z nH) in
  let dAL := fmul (f_of_Z a) (f_of_Z nL) in
  let dX := ffloor (fmul dAH dTwoPowMinus15) in
  let dY := fsub dAH (fmul dX dTwoPowPlus15) in
  let dZ := ffloor (fmul dAL dTwoPowMinus31) in
  let dW := fsub dAL (fmul dZ dTwoPowPlus31) in
  let ulQ := wrap_u 64 (f_to_Z dW + wrap_u 64 (Z.shiftl (f_to_Z dY) 16)) in
  let ulP := wrap_u 64 (f_to_Z dX + f_to_Z dZ) in
  let '(ulQ, ulP) :=
    if Z.land ulQ ulBit31 =? 0 then (ulQ, ulP) else (ulQ - ulBit31, wrap_u 64 (ulP + 1)) in
  let ulResult := wrap_u 64 (ulP + ulQ) in
  if Z.land ulResult ulBit31 =? 0 then ulResult else ulResult - ulBit31 + 1.

Definition TopMask : Z := 0x40000000.

(** [while (Mask > Order) Mask >>= 1;] *)
Fixpoint skip_mask (fuel : nat) (Mask Order : Z) : Z :=
  match fuel with
  | O => Mask
  | S fuel => if Order <? Mask then skip_mask fuel (Z.shiftr Mask 1) Order else Mask
  end.

(** [while (Mask > 0) { ... Mask >>= 1; }] *)
Fixpoint power_loop (fuel : nat) (Mask Order Result : Z) : Z :=
  match fuel with
  | O => Result
  | S fuel =>
      if 0 <? Mask then
        let Result :=
          if negb (Z.land Mask Order =? 0) then
            RND_ModMult (RND_ModMult Result Result) Multiplier
          else RND_ModMult Result Result in
        power_loop fuel (Z.shiftr Mask 1) Order Result
      else Result
  end.

(** [RND RND_seed(RND Order)]. [FatalError] only prints, so an order out of range goes
    on; [TopMask] has one bit of the low 31, so 32 iterations reach 0. *)
Definition RND_seed (Order : Z) : Z :=
  let Order := if Order <? 0 then Modulus - 1 + Order else Order in
  let Mask := skip_mask 32 TopMask Order in
  power_loop 32 Mask Order 1.

(** [void NthElement(long Shift, long *Seed)] *)
Definition NthElement (Shift Seed : Z) : Z := RND_ModMult Seed (RND_seed Shift).

(** ** [RND_ModMult] multiplies modulo [nM] *)

(** A product of integers below [2^53], its integer part after a division by [2^k] and
    the remainder, as the [double] code computes them. *)
Lemma double_divmod p k :
  0 <= p < 2 ^ 53 -> 0 < k < 53 ->
  let dX := ffloor (fmul (F p 0) (F 1 (- k))) in
  dX = F (p / 2 ^ k) 0 /\ fsub (F p 0) (fmul dX (F (2 ^ k) 0)) = F (p mod 2 ^ k) 0.
Proof.
  intros Hp Hk. cbv zeta. assert (Hpos : 0 < 2 ^ k) by (apply Z.pow_pos_nonneg; lia).
  pose proof (Z.div_mod p (2 ^ k) ltac:(lia)) as Hdm.
  pose proof (Z.mod_pos_bound p (2 ^ k) ltac:(lia)) as Hm.
  assert (0 <= p / 2 ^ k) by (apply Z.div_pos; lia).
  assert (HX : ffloor (fmul (F p 0) (F 1 (- k))) = F (p / 2 ^ k) 0).
  { rewrite fmul_exact, Z.mul_1_r, ffloor_neg by lia.
    now replace (- (0 + - k)) with k by lia. }
  rewrite HX. split; [done|]. rewrite fmul_exact by lia.
  rewrite fsub_exact_int by lia. f_equal. lia.
Qed.

Lemma low_bits_split b :
  0 <= b < 2 ^ 31 ->
  let nL := Z.land b nLowMask in let nH := Z.shiftr (b - nL) 16 in
  b = nH * 2 ^ 16 + nL /\ 0 <= nL < 2 ^ 16 /\ 0 <= nH < 2 ^ 15.
Proof.
  intros Hb. cbv zeta. change nLowMask with (Z.ones 16).
  rewrite Z.land_ones, Z.shiftr_div_pow2 by lia. zdiv.
Qed.

Lemma f_to_Z_int n : f_to_Z (F n 0) = n.
Proof. unfold f_to_Z; cbn [fm fe]. cbn. lia. Qed.

(** Removing bit 31 and carrying: [2^31 = 1] modulo [nM]. *)
Lemma bit31_test q : 0 <= q < 2 ^ 32 -> (Z.land q ulBit31 =? 0) = (q <? 2 ^ 31).
Proof.
  intros Hq. rewrite Z.land_comm. change ulBit31 with (2 ^ 31).
  rewrite land_pow2_zero, testbit_high by lia. now rewrite Z.leb_antisym, negb_involutive.
Qed.

(** The carry handling at the end of [RND_ModMult]: [X], [Z], [Y], [W] are the four
    partial results, with [(X + Z) * 2^31 + (Y * 2^16 + W)] the product. *)
Lemma carry_split ab X Y Z_ W :
  0 <= ab < 2 ^ 62 - 2 ^ 32 -> 0 <= X < 2 ^ 33 -> 0 <= Z_ < 2 ^ 33 ->
  0 <= Y < 2 ^ 15 -> 0 <= W < 2 ^ 31 ->
  ab = (X + Z_) * 2 ^ 31 + (Y * 2 ^ 16 + W) ->
  (let ulQ := wrap_u 64 (W + wrap_u 64 (Y * 2 ^ 16)) in
   let ulP := wrap_u 64 (X + Z_) in
   let '(ulQ, ulP) :=
     if Z.land ulQ ulBit31 =? 0 then (ulQ, ulP) else (ulQ - ulBit31, wrap_u 64 (ulP + 1)) in
   let ulResult := wrap_u 64 (ulP + ulQ) in
   if Z.land ulResult ulBit31 =? 0 then ulResult else ulResult - ulBit31 + 1) =
  (let P := ab / 2 ^ 31 in let Q := ab mod 2 ^ 31 in
   if P + Q <? 2 ^ 31 then P + Q else P + Q - 2 ^ 31 + 1).
Proof.
  intros Hab HX HZ HY HW E. cbv zeta. change ulBit31 with (2 ^ 31) in *.
  rewrite (wrap_u_id 64 (Y * 2 ^ 16)), (wrap_u_id 64 (W + _)), (wrap_u_id 64 (X + Z_)) by lia.
  assert (HP : ab / 2 ^ 31 < 2 ^ 31 - 1) by (apply Z.div_lt_upper_bound; lia).
  change (2 ^ 31) with ulBit31 at 1. rewrite bit31_test by lia.
  destruct (Z.ltb_spec (W + Y * 2 ^ 16) (2 ^ 31)) as [Hlt|Hge].
  - assert (EP : X + Z_ = ab / 2 ^ 31) by (apply Z.div_unique with (W + Y * 2 ^ 16); lia).
    assert (EQ : W + Y * 2 ^ 16 = ab mod 2 ^ 31) by (apply Z.mod_unique with (X + Z_); lia).
    rewrite EP, EQ in *. rewrite wrap_u_id by lia.
    change (2 ^ 31) with ulBit31 at 3. rewrite bit31_test by lia. done.
  - assert (EP : X + Z_ + 1 = ab / 2 ^ 31) by (apply Z.div_unique with (W + Y * 2 ^ 16 - 2 ^ 31); lia).
    assert (EQ : W + Y * 2 ^ 16 - 2 ^ 31 = ab mod 2 ^ 31) by (apply Z.mod_unique with (X + Z_ + 1); lia).
    rewrite !(wrap_u_id 64 (X + Z_ + 1)) by lia. rewrite EP, EQ in *. rewrite wrap_u_id by lia.
    change (2 ^ 31) with ulBit31 at 3. rewrite bit31_test by lia. done.
Qed.

(** All the [double] operations are exact, since the integers stay below [2^53]. *)
Lemma RND_ModMult_exact a b :
  0 <= a < nM -> 0 <= b < nM ->
  RND_ModMult a b =
    (let P := a * b / 2 ^ 31 in let Q := a * b mod 2 ^ 31 in
     if P + Q <? 2 ^ 31 then P + Q else P + Q - 2 ^ 31 + 1).
Proof.
  unfold nM. intros Ha Hb. destruct (low_bits_split b ltac:(lia)) as (Hsplit & HL & HH).
  unfold RND_ModMult. cbv zeta in *.
  set (nL := Z.land b nLowMask) in *. set (nH := Z.shiftr (b - nL) 16) in *.
  rewrite !f_of_Z_exact, !fmul_exact by (nia || lia). rewrite Z.add_0_r.
  destruct (double_divmod (a * nH) 15 ltac:(nia) ltac:(lia)) as [HX HY]. cbv zeta in *.
  destruct (double_divmod (a * nL) 31 ltac:(nia) ltac:(lia)) as [HZ HW]. cbv zeta in *.
  change (F 1 (- (15))) with dTwoPowMinus15 in *. change (F 1 (- (31))) with dTwoPowMinus31 in *.
  change (F (2 ^ 15) 0) with dTwoPowPlus15 in *. change (F (2 ^ 31) 0) with dTwoPowPlus31 in *.
  rewrite HY, HW, HX, HZ, !f_to_Z_int.
  pose proof (Z.div_mod (a * nH) (2 ^ 15) ltac:(lia)) as Ed1.
  pose proof (Z.mod_pos_bound (a * nH) (2 ^ 15) ltac:(lia)) as Em1.
  pose proof (Z.div_mod (a * nL) (2 ^ 31) ltac:(lia)) as Ed2.
  pose proof (Z.mod_pos_bound (a * nL) (2 ^ 31) ltac:(lia)) as Em2.
  assert (0 <= a * nH / 2 ^ 15 < 2 ^ 33) by (split; [apply Z.div_pos; nia|apply Z.div_lt_upper_bound; nia]).
  assert (0 <= a * nL / 2 ^ 31 < 2 ^ 33) by (split; [apply Z.div_pos; nia|apply Z.div_lt_upper_bound; nia]).
  rewrite Z.shiftl_mul_pow2 by lia.
  apply carry_split; [nia|lia..|]. rewrite Hsplit. lia.
Qed.

Lemma RND_ModMult_mod a b : seed_ok a -> seed_ok b -> RND_ModMult a b = a * b mod nM.
Proof.
  intros Ha Hb. pose proof (mul_mod_seed_ok a b Ha Hb) as Hok. unfold seed_ok in *.
  rewrite RND_ModMult_exact by lia. cbv zeta.
  assert (Hab : 0 <= a * b < 2 ^ 62 - 2 ^ 32) by (unfold nM in *; nia).
  pose proof (Z.div_mod (a * b) (2 ^ 31) ltac:(lia)) as Hdm.
  pose proof (Z.mod_pos_bound (a * b) (2 ^ 31) ltac:(lia)) as Hm.
  assert (HP : 0 <= a * b / 2 ^ 31 < 2 ^ 31 - 1)
    by (split; [apply Z.div_pos; lia|apply Z.div_lt_upper_bound; lia]).
  set (P := a * b / 2 ^ 31) in *. set (Q := a * b mod 2 ^ 31) in *.
  assert (E : a * b = (P + Q) + P * nM) by (unfold nM; lia).
  rewrite E in Hok |- *. rewrite Z.mod_add in * by done.
  destruct (Z.ltb_spec (P + Q) (2 ^ 31)) as [Hlt|Hge].
  - symmetry. apply Z.mod_small. split; [lia|].
    destruct (Z.eq_dec (P + Q) nM) as [Heq|]; [|unfold nM in *; lia].
    rewrite Heq, Z.mod_same in Hok by done. lia.
  - rewrite <- (Z.mod_add _ (-1)) by done. rewrite Z.mod_small; unfold nM in *; lia.
Qed.

(** [pw e] is the super multiplier for [e] steps. *)
Definition pw (e : Z) : Z := nA ^ e mod nM.

Lemma pw_add e f : 0 <= e -> 0 <= f -> pw (e + f) = pw e * pw f mod nM.
Proof. intros He Hf. unfold pw. now rewrite <- Z.mul_mod, Z.pow_add_r by done. Qed.

Lemma pw_ok e : 0 <= e -> seed_ok (pw e).
Proof.
  intros He. unfold pw. pattern e. apply natlike_ind; [done| |done].
  intros x Hx IH. rewrite Z.pow_succ_r, <- Z.mul_mod_idemp_r by done.
  apply mul_mod_seed_ok; done.
Qed.

Lemma pw_period e : 0 <= e -> pw (e + (nM - 1)) = pw e.
Proof.
  intros He. rewrite pw_add by done. change (pw (nM - 1)) with (nA ^ (nM - 1) mod nM).
  rewrite nA_full, Z.mul_1_r. apply Z.mod_mod. done.
Qed.

#[export] Hint Resolve pw_ok : rng.

Lemma RND_ModMult_pw e f : 0 <= e -> 0 <= f -> RND_ModMult (pw e) (pw f) = pw (e + f).
Proof. intros He Hf. rewrite RND_ModMult_mod, <- pw_add by auto with rng. done. Qed.

(** The mask of the top one of [n] bits: [2^(n-1)], and 0 for [n = 0]. *)
Definition top_mask (n : nat) : Z := Z.shiftr (2 ^ Z.of_nat n) 1.

Lemma top_mask_S n : top_mask (S n) = 2 ^ Z.of_nat n.
Proof.
  unfold top_mask. rewrite Nat2Z.inj_succ, Z.pow_succ_r, Z.shiftr_div_pow2, Z.mul_comm by lia.
  now apply Z.div_mul.
Qed.

(** The square-and-multiply loop over the low [n] bits of [Order]. *)
Lemma power_loop_spec n : forall fuel Order r,
  0 <= r -> (n < fuel)%nat ->
  power_loop fuel (top_mask n) Order (pw r) = pw (r * 2 ^ Z.of_nat n + Order mod 2 ^ Z.of_nat n).
Proof.
  induction n as [|n IH]; intros fuel Order r Hr Hf; (destruct fuel as [|fuel]; [lia|]).
  - cbn. rewrite Z.mod_1_r. f_equal. lia.
  - cbn [power_loop]. rewrite top_mask_S. change (Z.shiftr (2 ^ Z.of_nat n) 1) with (top_mask n).
    assert (Hpos : 0 < 2 ^ Z.of_nat n) by (apply Z.pow_pos_nonneg; lia).
    rewrite (proj2 (Z.ltb_lt _ _) Hpos), land_pow2_zero, negb_involutive by lia.
    rewrite RND_ModMult_pw by lia.
    rewrite Nat2Z.inj_succ, <- Z.add_1_r, mod_pow2_succ, Z.pow_add_r by lia.
    destruct (Z.testbit Order (Z.of_nat n)); cbn [Z.b2z].
    + change Multiplier with (pw 1). rewrite RND_ModMult_pw by lia.
      rewrite IH by lia. f_equal. ring.
    + rewrite IH by lia. f_equal. ring.
Qed.

(** Skipping the leading zeros of the order. *)
Lemma skip_mask_spec n : forall fuel Order,
  0 <= Order < 2 ^ Z.of_nat n -> (n < fuel)%nat ->
  exists m, (m <= n)%nat /\ skip_mask fuel (top_mask n) Order = top_mask m /\
    Order < 2 ^ Z.of_nat m.
Proof.
  induction n as [|n IH]; intros fuel Order HO Hf; (destruct fuel as [|fuel]; [lia|]).
  - exists 0%nat. split_and!; [lia| |lia]. cbn [skip_mask].
    change (top_mask 0) with 0. destruct (Z.ltb_spec Order 0); [lia|done].
  - cbn [skip_mask]. rewrite top_mask_S. destruct (Z.ltb_spec Order (2 ^ Z.of_nat n)).
    + destruct (IH fuel Order ltac:(lia) ltac:(lia)) as (m & Hm & Hsk & Hlt).
      exists m. split_and!; [lia|exact Hsk|done].
    + exists (S n). rewrite top_mask_S. split_and!; [lia|done|lia].
Qed.

(** [RND_seed] on a nonnegative order: only the low 31 bits count. *)
Lemma RND_seed_nonneg Order : 0 <= Order -> RND_seed Order = pw (Order mod 2 ^ 31).
Proof.
  intros HO. unfold RND_seed. destruct (Z.ltb_spec Order 0); [lia|].
  change TopMask with (top_mask 31). change 1 with (pw 0).
  destruct (Z_lt_le_dec Order (2 ^ 31)) as [Hlt|Hge].
  - destruct (skip_mask_spec 31 32 Order) as (m & Hm & -> & Hlt'); [lia|lia|].
    rewrite power_loop_spec, !Z.mod_small by lia. f_equal; lia.
  - replace (skip_mask 32 (top_mask 31) Order) with (top_mask 31).
    + now rewrite power_loop_spec by lia.
    + cbn [skip_mask]. change (top_mask 31) with (2 ^ 30).
      destruct (Z.ltb_spec Order (2 ^ 30)); [lia|done].
Qed.

Lemma RND_seed_neg Order : - nM < Order < 0 -> RND_seed Order = pw (nM - 1 + Order).
Proof.
  intros HO. change (RND_seed Order) with (RND_seed Order).
  assert (E : RND_seed Order = RND_seed (nM - 1 + Order)).
  { unfold RND_seed. destruct (Z.ltb_spec Order 0); [|lia].
    change Modulus with nM. destruct (Z.ltb_spec (nM - 1 + Order) 0); [lia|done]. }
  rewrite E, RND_seed_nonneg by lia. rewrite Z.mod_small; [done|unfold nM in *; lia].
Qed.

(** ** [NthElement] in terms of generator steps *)

Lemma rng_steps_pw n s : seed_ok s -> rng_steps n s = s * pw (Z.of_nat n) mod nM.
Proof.
  intros Hs. rewrite rng_steps_mod by done. unfold pw.
  now rewrite Z.mul_mod_idemp_r, Z.mul_comm by done.
Qed.

Lemma NthElement_nonneg N s :
  seed_ok s -> 0 <= N -> NthElement N s = rng_steps (Z.to_nat (N mod 2 ^ 31)) s.
Proof.
  intros Hs HN. pose proof (Z.mod_pos_bound N (2 ^ 31) ltac:(lia)).
  unfold NthElement. rewrite RND_seed_nonneg, RND_ModMult_mod, rng_steps_pw by auto with rng lia.
  now rewrite Z2Nat.id by lia.
Qed.

(** A negative shift undoes that many steps. *)
Lemma NthElement_back k m s :
  seed_ok s -> (k <= m)%nat -> 0 < Z.of_nat k < nM ->
  NthElement (- Z.of_nat k) (rng_steps m s) = rng_steps (m - k) s.
Proof.
  intros Hs Hkm Hk. unfold NthElement. rewrite RND_seed_neg by lia.
  rewrite RND_ModMult_mod by (apply rng_steps_ok || apply pw_ok; done || lia).
  rewrite !rng_steps_pw by done. rewrite Z.mul_mod_idemp_l, <- Z.mul_assoc by done.
  rewrite <- (Z.mul_mod_idemp_r s (pw _ * pw _)), <- pw_add by (done || lia).
  replace (Z.of_nat m + (nM - 1 + - Z.of_nat k)) with (Z.of_nat (m - k) + (nM - 1)) by lia.
  now rewrite pw_period by lia.
Qed.

(** Both directions: from the state after [m] steps, a shift moves to step [m + sh]. *)
Lemma NthElement_shift sh m s :
  seed_ok s -> - nM < sh < nM -> 0 <= Z.of_nat m + sh ->
  NthElement sh (rng_steps m s) = rng_steps (Z.to_nat (Z.of_nat m + sh)) s.
Proof.
  intros Hs Hsh Hm. destruct (Z_lt_le_dec sh 0).
  - replace sh with (- Z.of_nat (Z.to_nat (- sh))) at 1 by lia.
    rewrite NthElement_back by (lia || done). f_equal. lia.
  - rewrite NthElement_nonneg by auto with rng lia. rewrite <- rng_steps_add.
    rewrite Z.mod_small by (unfold nM in *; lia). f_equal. lia.
Qed.

(** ** The 64-bit loop *)

Lemma nth_loop64_spec fuel : forall N s e,
  seed_ok s -> 0 <= e -> 0 <= N < 2 ^ Z.of_nat fuel ->
  nth_loop64 fuel N s (pw e) = s * pw (e * N) mod nM.
Proof.
  induction fuel as [|fuel IH]; intros N s e Hs He HN; cbn [nth_loop64].
  { replace N with 0 by lia. rewrite Z.mul_0_r. change (pw 0) with 1.
    rewrite Z.mul_1_r, Z.mod_small; [done|unfold seed_ok in Hs; lia]. }
  rewrite Nat2Z.inj_succ, Z.pow_succ_r in HN by lia. change Modulus with nM.
  destruct (Z.ltb_spec 0 N) as [Hpos|].
  2: { replace N with 0 by lia. rewrite Z.mul_0_r. change (pw 0) with 1.
       rewrite Z.mul_1_r, Z.mod_small; [done|unfold seed_ok in Hs; lia]. }
  pose proof (pw_ok e He) as Hok.
  rewrite !rem_mod, quot_div by (unfold seed_ok in *; nia || done).
  rewrite <- pw_add by done.
  assert (HN2 : N = 2 * (N / 2) + N mod 2) by zdiv.
  destruct (Z.eqb_spec (N mod 2) 0) as [H0|H1]; cbn [negb].
  - rewrite IH by (done || lia || zdiv). do 2 f_equal. rewrite HN2 at 2. rewrite H0. f_equal. ring.
  - assert (N mod 2 = 1) as H1' by zdiv.
    rewrite IH by (auto with rng || lia || zdiv).
    rewrite Z.mul_mod_idemp_l, (Z.mul_comm (pw e)), <- Z.mul_assoc by done.
    rewrite <- (Z.mul_mod_idemp_r s (_ * _)), <- pw_add by (done || nia).
    do 2 f_equal. rewrite HN2 at 2. rewrite H1'. f_equal. ring.
Qed.

Lemma NthElement64_nonneg N s :
  seed_ok s -> 0 <= N < 2 ^ 63 -> NthElement64 N s = rng_steps (Z.to_nat N) s.
Proof.
  intros Hs HN. unfold NthElement64. change Multiplier with (pw 1).
  rewrite nth_loop64_spec by (lia || assumption).
  now rewrite rng_steps_pw, Z.mul_1_l, Z2Nat.id by (lia || assumption).
Qed.

Lemma nth_loop64_nonpos fuel N s m : N <= 0 -> nth_loop64 fuel N s m = s.
Proof. intros HN. destruct fuel; cbn [nth_loop64]; [|destruct (Z.ltb_spec 0 N)]; reflexivity || lia. Qed.

Lemma NthElement64_neg N s : N <= 0 -> NthElement64 N s = s.
Proof. intros HN. now apply nth_loop64_nonpos. Qed.

(** ** Properties *)

(** C27. [RND_ModMult] multiplies modulo [2^31 - 1]: every [double] operation of its
    split into 16-bit halves is exact and the final folding reduces completely. *)
Theorem RND_ModMult_spec a b :
  seed_ok a -> seed_ok b ->
  RND_ModMult a b = a * b mod nM /\ seed_ok (RND_ModMult a b).
Proof. intros Ha Hb. rewrite RND_ModMult_mod by done. auto with rng. Qed.

Lemma RND_ModMult_spec_witness :
  (seed_ok 2147483646 /\ seed_ok 1841581359) /\
  RND_ModMult 2147483646 1841581359 = 2147483646 * 1841581359 mod nM.
Proof. split; [done|]. apply (RND_ModMult_spec 2147483646 1841581359); done. Defined.

(** C20. [NthElement] (the [double] variant) jumps any number of steps forward or back:
    from the state after [m] steps, a shift [sh] of magnitude below the modulus gives
    exactly the state after [m + sh] steps. *)
Theorem NthElement_jumps sh m s :
  seed_ok s -> - nM < sh < nM -> 0 <= Z.of_nat m + sh ->
  NthElement sh (rng_steps m s) = rng_steps (Z.to_nat (Z.of_nat m + sh)) s.
Proof. apply NthElement_shift. Qed.

Lemma NthElement_jumps_witness :
  (seed_ok 7 /\ - nM < -3 < nM /\ 0 <= Z.of_nat 5 + -3) /\
  NthElement (-3) (rng_steps 5 7) = rng_steps 2 7.
Proof. split; [done|]. apply (NthElement_jumps (-3) 5 7); done. Defined.

(** The two variants agree on every forward jump below [2^31], and both are the
    iterated [NextRand]; on a negative shift the 64-bit variant does nothing. *)
Theorem NthElement_variants_agree N s :
  seed_ok s ->
  (0 <= N < 2 ^ 31 ->
   NthElement64 N s = rng_steps (Z.to_nat N) s /\ NthElement N s = NthElement64 N s) /\
  (N <= 0 -> NthElement64 N s = s).
Proof.
  intros Hs. split; [|apply NthElement64_neg]. intros HN.
  rewrite NthElement_nonneg, NthElement64_nonneg, Z.mod_small by (lia || assumption). auto.
Qed.

Lemma NthElement_variants_agree_witness :
  (seed_ok 46831694 /\ 0 <= 920000 < 2 ^ 31) /\ NthElement 920000 46831694 = NthElement64 920000 46831694.
Proof.
  assert (H : seed_ok 46831694 /\ 0 <= 920000 < 2 ^ 31) by (unfold seed_ok, nM; lia).
  split; [exact H|]. apply (NthElement_variants_agree 920000 46831694); apply H.
Defined.

(** A jump of [2^31] steps or more is wrong in the [double] variant: [FatalError]
    only prints, [TopMask] drops the high bits of the order, and for every such shift
    below [2^60] the result differs from the iterated generator. *)
Theorem NthElement_overflow N s :
  seed_ok s -> 2 ^ 31 <= N < 2 ^ 60 ->
  NthElement N s = rng_steps (Z.to_nat (N mod 2 ^ 31)) s /\
  NthElement N s <> rng_steps (Z.to_nat N) s.
Proof.
  intros Hs HN. pose proof (Z.mod_pos_bound N (2 ^ 31) ltac:(lia)).
  rewrite NthElement_nonneg by (lia || assumption). split; [reflexivity|]. intros Heq.
  assert (Hd : (nM - 1 | Z.of_nat (Z.to_nat N) - Z.of_nat (Z.to_nat (N mod 2 ^ 31)))).
  { apply (orbit_inj nM nA nM_prime nA_order s); [unfold nA, nM; lia|exact Hs| |zdiv].
    unfold orbit. rewrite <- !rng_steps_mod by assumption. exact Heq. }
  rewrite !Z2Nat.id in Hd by lia. destruct Hd as [z Hz].
  pose proof (Z.div_mod N (2 ^ 31) ltac:(lia)) as Hdm.
  assert (0 < N / 2 ^ 31 < 2 ^ 29) by (split; [apply Z.div_str_pos; lia|apply Z.div_lt_upper_bound; lia]).
  unfold nM in *. lia.
Qed.

Lemma NthElement_overflow_witness :
  (seed_ok 1 /\ 2 ^ 31 <= 7087500000 < 2 ^ 60) /\
  NthElement 7087500000 1 <> rng_steps (Z.to_nat 7087500000) 1.
Proof.
  assert (H : seed_ok 1 /\ 2 ^ 31 <= 7087500000 < 2 ^ 60) by (unfold seed_ok, nM; lia).
  split; [exact H|]. apply (NthElement_overflow 7087500000 1); apply H.
Defined.
