(* ===== verification/State.v ===== *)
(** The state the generator runs on and the monad its operations are written in: the
    random streams ([Seed[]] of rnd.h), the distributions, the table descriptions
    ([tdefs] of driver.c), the global options (the EXTERN variables of dss.h), the static
    variables of print.c and permute.c, and the files written. *)
From S2P Require Import Prelude Float64.

(** ** dss.h: table numbers *)
Definition NONE : Z := -1.
Definition PART : Z := 0.
Definition PSUPP : Z := 1.
Definition SUPP : Z := 2.
Definition CUST : Z := 3.
Definition ORDER : Z := 4.
Definition LINE : Z := 5.
Definition ORDER_LINE : Z := 6.
Definition PART_PSUPP : Z := 7.
Definition NATION : Z := 8.
Definition REGION : Z := 9.
Definition UPDATE : Z := 10.
Definition MAX_TABLE : Z := 11.
(** The SSBM date dimension takes the number of the TPC-H orders table. *)
Definition DATE : Z := 4.

(** ** dss.h: data types *)

Record seed_t := mk_seed { table : Z; value : Z; usage : Z; boundary : Z }.

Record set_member := mk_member { weight : Z; text : string }.

(** [permute] is [NULL] until [permute_dist] allocates it; its cells live in [perm_st]. *)
Record distribution := mk_dist { count : Z; max : Z; dlist : list set_member }.

(** The functions a table description points to, in the SSBM or in the TPC-H [tdefs]. *)
Inductive hd_fn :=
  | Fhd_part | Fhd_supp | Fhd_cust | Fhd_line
  | Fhd_psupp | Fhd_order | Fhd_order_line | Fhd_part_psupp | Fhd_nation | Fhd_region.
Inductive ld_fn :=
  | Fpr_part | Fpr_supp | Fpr_cust | Fpr_date | Fpr_line
  | Fpr_psupp | Fpr_order | Fpr_order_line | Fpr_part_psupp | Fpr_nation | Fpr_region
  | Fld_part | Fld_supp | Fld_cust | Fld_date | Fld_line
  | Fld_psupp | Fld_order | Fld_order_line | Fld_part_psupp | Fld_nation | Fld_region.
Inductive sd_fn := Fsd_part | Fsd_supp | Fsd_cust | Fsd_line | Fsd_psupp | Fsd_order.
Inductive vrf_fn :=
  | Fvrf_part | Fvrf_supp | Fvrf_cust | Fvrf_line | Fvrf_date
  | Fvrf_psupp | Fvrf_order | Fvrf_order_line | Fvrf_part_psupp | Fvrf_nation | Fvrf_region.

#[export] Instance hd_fn_eq : EqDecision hd_fn. Proof. solve_decision. Defined.
#[export] Instance ld_fn_eq : EqDecision ld_fn. Proof. solve_decision. Defined.
#[export] Instance sd_fn_eq : EqDecision sd_fn. Proof. solve_decision. Defined.
#[export] Instance vrf_fn_eq : EqDecision vrf_fn. Proof. solve_decision. Defined.

Record tdef := mk_tdef {
  name : option string;
  comment : option string;
  base : Z;
  header : option hd_fn;
  loader : option ld_fn * option ld_fn;
  gen_seed : option sd_fn;
  verify : option vrf_fn;
  child : Z;
  vtotal : Z;
}.

(** driver.c: the SSBM [tdefs]. The entries of the tables SSBM does not have are zero, so
    their [child] is PART. *)
Definition tdef_zero : tdef := mk_tdef None None 0 None (None, None) None None 0 0.

Definition tdefs_init : list tdef :=
  [ mk_tdef (Some "part.tbl") (Some "part table") 200000 (Some Fhd_part)
      (Some Fpr_part, Some Fld_part) (Some Fsd_part) (Some Fvrf_part) NONE 0;
    tdef_zero;
    mk_tdef (Some "supplier.tbl") (Some "suppliers table") 2000 (Some Fhd_supp)
      (Some Fpr_supp, Some Fld_supp) (Some Fsd_supp) (Some Fvrf_supp) NONE 0;
    mk_tdef (Some "customer.tbl") (Some "customers table") 30000 (Some Fhd_cust)
      (Some Fpr_cust, Some Fld_cust) (Some Fsd_cust) (Some Fvrf_cust) NONE 0;
    mk_tdef (Some "date.tbl") (Some "date table") 2556 None
      (Some Fpr_date, Some Fld_date) None (Some Fvrf_date) NONE 0;
    mk_tdef (Some "lineorder.tbl") (Some "lineorder table") 150000 (Some Fhd_line)
      (Some Fpr_line, Some Fld_line) (Some Fsd_line) (Some Fvrf_line) NONE 0;
    tdef_zero; tdef_zero; tdef_zero; tdef_zero ].

(** ** The global variables (EXTERN of dss.h, and driver.c) that hold integers *)
Module G.
Inductive var :=
  | scale | refresh | resume | verbose | force | header | columnar | direct
  | updates | table | children | fnames | gen_sql | gen_rng | step | set_seeds
  | validate | insert_segments | delete_segments | insert_orders_segment
  | insert_lineitem_segment | delete_segment
  | rowcnt | minrow | upd_num
  (* static variables of gen_tbl *)
  | completed | init
  (* the static [count] of the functions of load_stub.c *)
  | hd_part_count | hd_supp_count | hd_cust_count | hd_line_count
  | ld_part_count | ld_supp_count | ld_cust_count | ld_line_count
  | hd_psupp_count | hd_order_count | hd_nation_count | hd_region_count
  | ld_psupp_count | ld_order_count | ld_nation_count | ld_region_count
  (* entries of the array [pids] points to; 0 for [NULL] *)
  | pids
  (* characters of the standard input read so far *)
  | stdin_pos.
End G.

#[export] Instance var_eq_dec : EqDecision G.var.
Proof. solve_decision. Defined.

(** ** Static variables *)

(** permute.c: [source], the array [set] points to, and [permute_dist]'s [dist]
    (its size; [None] for [NULL]). *)
Record perm_st := mk_perm { source : Z; pset : list Z; pdist : option Z }.

(** The output streams of print.c: one [static FILE *] per print function. *)
Inductive pr_fn :=
  | P_cust | P_line | P_part | P_supp | P_date | P_drange | P_order | P_psupp | P_nation | P_region.
#[export] Instance pr_fn_eq : EqDecision pr_fn. Proof. solve_decision. Defined.

(** An open file: its path, the bytes written to it so far from its beginning, and what it
    held when it was opened, which is still there beyond them. *)
Record file := mk_file { path : string; bytes : string; old : string }.

Record print_st := mk_print {
  fp : pr_fn -> option nat;           (* the static FILE pointers, as file numbers *)
  last_mode : Z;                      (* pr_line *)
  last_num : Z;                       (* pr_drange *)
  rows_per_segment : Z;
  rows_this_segment : Z;
  residual_rows : Z;
  order_mode : Z;                     (* pr_order's last_mode *)
}.

(** A write outside the object it should go to, which the program survives on the
    platforms modelled; it is recorded here and otherwise ignored. *)
Inductive fault :=
  | SeedOOB (stream : Z)              (* Seed[stream].usage += 1 past the table *)
  | BufOverflow (what : string) (cap len : Z).

Record st := mk_st {
  Seed : list seed_t;
  faults : list fault;
  perm : perm_st;
  tdefs : list tdef;
  glob : G.var -> Z;
  flt_scale : f64;
  db_name : option string;
  d_path : option string;
  prt : print_st;
  files : list file;
  stdout : string;
}.

(** ** Field updates *)
Definition set_Seed (f : list seed_t -> list seed_t) (s : st) : st :=
  mk_st (f (Seed s)) (faults s) (perm s) (tdefs s) (glob s) (flt_scale s) (db_name s)
    (d_path s) (prt s) (files s) (stdout s).
Definition set_faults (f : list fault -> list fault) (s : st) : st :=
  mk_st (Seed s) (f (faults s)) (perm s) (tdefs s) (glob s) (flt_scale s) (db_name s)
    (d_path s) (prt s) (files s) (stdout s).
Definition set_perm (f : perm_st -> perm_st) (s : st) : st :=
  mk_st (Seed s) (faults s) (f (perm s)) (tdefs s) (glob s) (flt_scale s) (db_name s)
    (d_path s) (prt s) (files s) (stdout s).
Definition set_tdefs (f : list tdef -> list tdef) (s : st) : st :=
  mk_st (Seed s) (faults s) (perm s) (f (tdefs s)) (glob s) (flt_scale s) (db_name s)
    (d_path s) (prt s) (files s) (stdout s).
Definition set_glob (v : G.var) (x : Z) (s : st) : st :=
  mk_st (Seed s) (faults s) (perm s) (tdefs s)
    (fun w => if decide (w = v) then x else glob s w) (flt_scale s) (db_name s)
    (d_path s) (prt s) (files s) (stdout s).
Definition set_flt_scale (x : f64) (s : st) : st :=
  mk_st (Seed s) (faults s) (perm s) (tdefs s) (glob s) x (db_name s)
    (d_path s) (prt s) (files s) (stdout s).
Definition set_db_name (x : option string) (s : st) : st :=
  mk_st (Seed s) (faults s) (perm s) (tdefs s) (glob s) (flt_scale s) x
    (d_path s) (prt s) (files s) (stdout s).
Definition set_d_path (x : option string) (s : st) : st :=
  mk_st (Seed s) (faults s) (perm s) (tdefs s) (glob s) (flt_scale s) (db_name s)
    x (prt s) (files s) (stdout s).
Definition set_prt (f : print_st -> print_st) (s : st) : st :=
  mk_st (Seed s) (faults s) (perm s) (tdefs s) (glob s) (flt_scale s) (db_name s)
    (d_path s) (f (prt s)) (files s) (stdout s).
Definition set_files (f : list file -> list file) (s : st) : st :=
  mk_st (Seed s) (faults s) (perm s) (tdefs s) (glob s) (flt_scale s) (db_name s)
    (d_path s) (prt s) (f (files s)) (stdout s).
Definition set_stdout (f : string -> string) (s : st) : st :=
  mk_st (Seed s) (faults s) (perm s) (tdefs s) (glob s) (flt_scale s) (db_name s)
    (d_path s) (prt s) (files s) (f (stdout s)).
(** ** The monad *)

(** How a run can end before its end: [abort()] (INTERNAL_ERROR), [exit(n)], or an
    operation the C standard leaves undefined and the model does not go beyond. *)
Inductive stop :=
  | Aborted (msg : string)
  | Exited (status : Z)
  | Undefined (what : string).

Inductive res (A : Type) := Ok (a : A) (s : st) | Stop (why : stop) (s : st).
Arguments Ok {A} a s.
Arguments Stop {A} why s.

Definition M (A : Type) : Type := st -> res A.

Definition ret {A} (a : A) : M A := Ok a.
Definition bind {A B} (m : M A) (k : A -> M B) : M B :=
  fun s => match m s with Ok a s' => k a s' | Stop w s' => Stop w s' end.
Definition get : M st := fun s => Ok s s.
Definition gets {A} (f : st -> A) : M A := fun s => Ok (f s) s.
Definition modify (f : st -> st) : M unit := fun s => Ok tt (f s).
Definition stop_with {A} (w : stop) : M A := fun s => Stop w s.

(** An access that is defined only when it is in range. *)
Definition must {A} (what : string) (o : option A) : M A :=
  match o with Some a => ret a | None => stop_with (Undefined what) end.

Declare Scope m_scope.
Delimit Scope m_scope with M.
Notation "x <- m ;; k" := (bind m (fun x => k))
  (at level 20, m at level 99, k at level 200) : m_scope.
Notation "' p <- m ;; k" := (bind m (fun p => k))
  (at level 20, p pattern, m at level 99, k at level 200) : m_scope.
Notation "m ;; k" := (bind m (fun _ => k)) (at level 100, k at level 200, right associativity) : m_scope.
#[global] Open Scope m_scope.

(** [for (i = i0; n times; i++) body] *)
Fixpoint for_loop (n : nat) (i : Z) (body : Z -> M unit) : M unit :=
  match n with
  | O => ret tt
  | S n => body i;; for_loop n (i + 1) body
  end.

(** The same, collecting what the body produces. *)
Fixpoint for_list {A} (n : nat) (i : Z) (body : Z -> M A) : M (list A) :=
  match n with
  | O => ret []
  | S n => x <- body i;; l <- for_list n (i + 1) body;; ret (x :: l)
  end.

(** ** Running a sequence *)

Lemma bind_ok {A B} (m : M A) (k : A -> M B) a s s' : m s = Ok a s' -> bind m k s = k a s'.
Proof. unfold bind. now intros ->. Qed.

Lemma bind_inv {A B} (m : M A) (k : A -> M B) s b s' :
  bind m k s = Ok b s' -> exists a sa, m s = Ok a sa /\ k a sa = Ok b s'.
Proof. unfold bind. destruct (m s) as [a sa|]; [|done]. intros H. now exists a, sa. Qed.

(** ** Total-correctness triples *)

Definition wp {A} (m : M A) (Q : A -> st -> Prop) (s : st) : Prop :=
  match m s with Ok a s' => Q a s' | Stop _ _ => False end.

Lemma wp_ret {A} (a : A) Q s : Q a s -> wp (ret a) Q s.
Proof. exact id. Qed.

Lemma wp_bind {A B} (m : M A) (k : A -> M B) Q s :
  wp m (fun a s' => wp (k a) Q s') s -> wp (bind m k) Q s.
Proof. unfold wp, bind. destruct (m s); auto. Qed.

Lemma wp_gets {A} (f : st -> A) Q s : Q (f s) s -> wp (gets f) Q s.
Proof. exact id. Qed.

Lemma wp_get Q s : Q s s -> wp get Q s.
Proof. exact id. Qed.

Lemma wp_modify f Q s : Q tt (f s) -> wp (modify f) Q s.
Proof. exact id. Qed.

Lemma wp_must {A} what (o : option A) Q s a : o = Some a -> Q a s -> wp (must what o) Q s.
Proof. intros -> H. exact H. Qed.

Lemma wp_mono {A} (m : M A) (Q Q' : A -> st -> Prop) s :
  wp m Q s -> (forall a s', Q a s' -> Q' a s') -> wp m Q' s.
Proof. unfold wp. destruct (m s); auto. Qed.

(** An invariant of the body, indexed by the loop variable, is one of the loop. *)
Lemma wp_for_loop (I : Z -> st -> Prop) n : forall i body Q s,
  I i s ->
  (forall j s, i <= j < i + Z.of_nat n -> I j s -> wp (body j) (fun _ => I (j + 1)) s) ->
  (forall s, I (i + Z.of_nat n) s -> Q tt s) ->
  wp (for_loop n i body) Q s.
Proof.
  induction n as [|n IH]; intros i body Q s Hi Hb Hq; cbn [for_loop].
  - apply wp_ret, Hq. now rewrite Z.add_0_r.
  - apply wp_bind. eapply wp_mono; [apply Hb; [lia|exact Hi]|]. intros ? s' Hs'.
    apply (IH (i + 1)); [exact Hs'| |].
    + intros j s'' Hj. apply Hb. lia.
    + intros s'' Hs''. apply Hq. now replace (i + Z.of_nat (S n)) with (i + 1 + Z.of_nat n) by lia.
Qed.


(** Walks through a program up to the next call that needs a lemma. *)
Ltac wp_step :=
  lazymatch goal with
  | |- wp (bind _ _) _ _ => apply wp_bind
  | |- wp (ret _) _ _ => apply wp_ret
  | |- wp (gets _) _ _ => apply wp_gets
  | |- wp get _ _ => apply wp_get
  | |- wp (modify _) _ _ => apply wp_modify
  end.
Ltac wp_go := repeat wp_step; cbv beta.
