(* ===== verification/Consts.v ===== *)
(** The constants of dss.h and shared.h, in the SSBM configuration ([-DSSBM]) on a
    64-bit Linux build ([SUPPORT_64BITS] undefined). *)
From S2P Require Import Prelude Float64.

(** ** dss.h *)
Definition SPARSE_BITS : Z := 2.
Definition SPARSE_KEEP : Z := 3.
Definition MAX_LONG : Z := 0x7FFFFFFF.
Definition RNG_PER_SENT : Z := 27.
Definition P_NAME_SCL : Z := 3.
Definition P_MFG_MIN : Z := 1.
Definition P_MFG_MAX : Z := 5.
Definition P_BRND_MIN : Z := 1.
Definition P_BRND_MAX : Z := 40.
Definition P_SIZE_MIN : Z := 1.
Definition P_SIZE_MAX : Z := 50.
Definition C_ABAL_MIN : Z := (-99999).
Definition C_ABAL_MAX : Z := 999999.
Definition O_CKEY_MIN : Z := 1.
Definition O_CLRK_SCL : Z := 1000.
Definition O_LCNT_MIN : Z := 1.
Definition O_LCNT_MAX : Z := 7.
Definition L_QTY_MIN : Z := 1.
Definition L_QTY_MAX : Z := 50.
Definition L_TAX_MIN : Z := 0.
Definition L_TAX_MAX : Z := 8.
Definition L_DCNT_MIN : Z := 0.
Definition L_DCNT_MAX : Z := 10.
Definition L_PKEY_MIN : Z := 1.
Definition L_SKEY_MIN : Z := 1.
Definition L_SDTE_MIN : Z := 1.
Definition L_SDTE_MAX : Z := 121.
Definition L_CDTE_MIN : Z := 30.
Definition L_CDTE_MAX : Z := 90.
Definition L_RDTE_MIN : Z := 1.
Definition L_RDTE_MAX : Z := 30.
Definition T_START_DAY : Z := 3.
Definition SUPP_PER_PART : Z := 4.
Definition ORDERS_PER_CUST : Z := 10.
Definition CUST_MORTALITY : Z := 3.
Definition NATIONS_MAX : Z := 90.
Definition STARTDATE : Z := 92001.
Definition CURRENTDATE : Z := 95168.
Definition ENDDATE : Z := 98365.
Definition TOTDATE : Z := 2557.
Definition UPD_PCT : Z := 10.
Definition MAX_STREAM : Z := 47.
Definition PENNIES : Z := 100.

(** Seed indexes: one random stream per column. *)
Definition P_MFG_SD : Z := 0.
Definition P_BRND_SD : Z := 1.
Definition P_TYPE_SD : Z := 2.
Definition P_SIZE_SD : Z := 3.
Definition P_CNTR_SD : Z := 4.
Definition P_RCST_SD : Z := 5.
Definition PS_QTY_SD : Z := 7.
Definition PS_SCST_SD : Z := 8.
Definition O_SUPP_SD : Z := 10.
Definition O_CLRK_SD : Z := 11.
Definition O_ODATE_SD : Z := 13.
Definition L_QTY_SD : Z := 14.
Definition L_DCNT_SD : Z := 15.
Definition L_TAX_SD : Z := 16.
Definition L_SHIP_SD : Z := 17.
Definition L_SMODE_SD : Z := 18.
Definition L_PKEY_SD : Z := 19.
Definition L_SKEY_SD : Z := 20.
Definition L_SDTE_SD : Z := 21.
Definition L_CDTE_SD : Z := 22.
Definition L_RDTE_SD : Z := 23.
Definition L_RFLG_SD : Z := 24.
Definition C_NTRG_SD : Z := 27.
Definition C_PHNE_SD : Z := 28.
Definition C_ABAL_SD : Z := 29.
Definition C_MSEG_SD : Z := 30.
Definition S_NTRG_SD : Z := 33.
Definition S_PHNE_SD : Z := 34.
Definition S_ABAL_SD : Z := 35.
Definition P_NAME_SD : Z := 37.
Definition O_PRIO_SD : Z := 38.
Definition HVAR_SD : Z := 39.
Definition O_CKEY_SD : Z := 40.
Definition N_CMNT_SD : Z := 41.
Definition R_CMNT_SD : Z := 42.
Definition O_LCNT_SD : Z := 43.
Definition BBB_JNK_SD : Z := 44.
Definition BBB_TYPE_SD : Z := 45.
Definition BBB_CMNT_SD : Z := 46.
Definition BBB_OFFSET_SD : Z := 47.

(** ** shared.h *)
Definition P_NAME_LEN : Z := 22.
Definition P_MFG_LEN : Z := 6.
Definition P_COLOR_LEN : Z := 3.
Definition P_COLOR_MAX : Z := 11.
Definition P_TYPE_MAX : Z := 25.
Definition P_CAT_LEN : Z := 7.
Definition P_CAT_MIN : Z := 1.
Definition P_CAT_MAX : Z := 5.
Definition P_CAT_SD : Z := 97.
Definition S_NATION_NAME_LEN : Z := 15.
Definition S_REGION_NAME_LEN : Z := 12.
Definition C_NATION_NAME_LEN : Z := 15.
Definition C_REGION_NAME_LEN : Z := 12.
Definition O_SHIP_MODE_LEN : Z := 10.
Definition D_DATE_LEN : Z := 18.
Definition D_DAYWEEK_LEN : Z := 9.
Definition D_YEARMONTH_LEN : Z := 7.
Definition D_SEASON_LEN : Z := 12.
Definition D_MONTH_LEN : Z := 9.
Definition D_STARTDATE : Z := 694245661.
Definition NUM_DAYS : Z := 2556.
Definition NUM_SEASONS : Z := 5.
Definition NUM_HOLIDAYS : Z := 10.
Definition CITY_FIX : Z := 10.
Definition P_BRND_LEN : Z := 10.
Definition P_TYPE_LEN : Z := 12.
Definition P_CNTR_LEN : Z := 10.
Definition S_NAME_LEN : Z := 25.
Definition S_ADDR_LEN : Z := 15.
Definition S_ADDR_MAX : Z := 25.
Definition C_NAME_LEN : Z := 25.
Definition C_ADDR_LEN : Z := 15.
Definition C_ADDR_MAX : Z := 25.
Definition O_OPRIO_LEN : Z := 8.
Definition O_CLRK_LEN : Z := 15.
Definition DATE_LEN : Z := 13.
Definition PHONE_LEN : Z := 15.
Definition MAXAGG_LEN : Z := 10.
Definition P_CMNT_SD : Z := 6.
Definition PS_CMNT_SD : Z := 9.
Definition O_CMNT_SD : Z := 12.
Definition C_ADDR_SD : Z := 26.
Definition C_CMNT_SD : Z := 31.
Definition S_ADDR_SD : Z := 32.
Definition S_CMNT_SD : Z := 36.
Definition L_CMNT_SD : Z := 25.

(** ** dss.h: environment variables and their defaults *)
Definition DIST_TAG : string := "DSS_DIST".
Definition DIST_DFLT : string := "dists.dss".
Definition PATH_TAG : string := "DSS_PATH".
Definition PATH_DFLT : string := ".".
Definition CONFIG_TAG : string := "DSS_CONFIG".
Definition CONFIG_DFLT : string := ".".
(** config.h *)
Definition PATH_SEP : ascii := "/".
