(* ===== verification/CString.v ===== *)
(** C strings: the conversions of the [printf] family the program uses, and the string
    functions of the C library. A string value is the content of a buffer up to its
    terminating NUL. *)
From S2P Require Import Prelude.

(** ** Decimal and hexadecimal digits *)

(** Digits of [n >= 0] in base [b], least significant first; one digit at least. *)
Fixpoint digits_of (fuel : nat) (b n : Z) : list Z :=
  match fuel with
  | O => []
  | S fuel => n mod b :: (if n / b =? 0 then [] else digits_of fuel b (n / b))
  end.

Definition digit_char (d : Z) : ascii :=
  if d <? 10 then ascii_of_nat (Z.to_nat (48 + d)) else ascii_of_nat (Z.to_nat (87 + d)).

Definition char_code (c : ascii) : Z := Z.of_nat (nat_of_ascii c).

(** The characters of a digit list, most significant first. *)
Definition digits_string (l : list Z) : string :=
  fold_left (fun acc d => String (digit_char d) acc) l "".

(** 64-bit values have at most 20 decimal digits. *)
Definition udec (n : Z) : string := digits_string (digits_of 20 10 n).
Definition uhex (n : Z) : string := digits_string (digits_of 16 16 n).

(** ["%ld"], ["%d"] *)
Definition fmt_d (n : Z) : string := if n <? 0 then String "-" (udec (- n)) else udec n.

Fixpoint rep (n : nat) (c : ascii) : string :=
  match n with O => "" | S n => String c (rep n c) end.

Definition strlen (s : string) : Z := Z.of_nat (String.length s).

Definition lpad (c : ascii) (w : Z) (s : string) : string :=
  rep (Z.to_nat (w - strlen s)) c +:+ s.
Definition rpad (c : ascii) (w : Z) (s : string) : string :=
  s +:+ rep (Z.to_nat (w - strlen s)) c.

(** ["%0<w>ld"]: zeros between the sign and the digits. *)
Definition fmt_0d (w n : Z) : string :=
  if n <? 0 then String "-" (lpad "0" (w - 1) (udec (- n))) else lpad "0" w (udec n).

(** ["%<w>ld"] *)
Definition fmt_wd (w n : Z) : string := lpad " " w (fmt_d n).

(** ["%-*s"] *)
Definition fmt_ls (w : Z) (s : string) : string := rpad " " w s.

(** ["%x"] of an argument read as [unsigned int]. *)
Definition fmt_x (n : Z) : string := uhex (wrap_u 32 n).

(** ** Library functions *)

(** The first [n] characters. *)
Definition take_s (n : Z) (s : string) : string := String.substring 0 (Z.to_nat n) s.
Definition drop_s (n : Z) (s : string) : string :=
  String.substring (Z.to_nat n) (String.length s - Z.to_nat n) s.

Definition s_at (i : Z) (s : string) : option ascii :=
  if i <? 0 then None else String.get (Z.to_nat i) s.

(** [strncpy(dst, src, n)] followed by a NUL at [dst[n]]. *)
Definition strncpy_s (src : string) (n : Z) : string := take_s n src.

(** [tolower] in the "C" locale. *)
Definition tolower (c : ascii) : ascii :=
  if (65 <=? char_code c) && (char_code c <=? 90)
  then ascii_of_nat (Z.to_nat (char_code c + 32)) else c.

(** [strchr(s, c)] for [c <> 0]: the offset of the first occurrence. *)
Fixpoint strchr_from (i : Z) (s : string) (c : ascii) : option Z :=
  match s with
  | EmptyString => None
  | String a s => if Ascii.eqb a c then Some i else strchr_from (i + 1) s c
  end.
Definition strchr (s : string) (c : ascii) : option Z := strchr_from 0 s c.

(** [BUFSIZ] of stdio.h *)
Definition BUFSIZ : Z := 8192.

(** [atoi], [atol]: blanks, a sign, digits; values out of the range of [long] are clamped. *)
Definition clamp64 (n : Z) : Z := Z.max (- 2 ^ 63) (Z.min (2 ^ 63 - 1) n).
Definition is_space (c : ascii) : bool :=
  (char_code c =? 32) || ((9 <=? char_code c) && (char_code c <=? 13)).
Definition is_digit (c : ascii) : bool := (48 <=? char_code c) && (char_code c <=? 57).
Fixpoint skip_space (s : string) : string :=
  match s with String a s' => if is_space a then skip_space s' else s | _ => s end.
Fixpoint dec_value (acc : Z) (s : string) : Z :=
  match s with
  | String a s => if is_digit a then dec_value (10 * acc + (char_code a - 48)) s else acc
  | EmptyString => acc
  end.
Definition atol (s : string) : Z :=
  clamp64 match skip_space s with
          | String "-" s => - dec_value 0 s
          | String "+" s => dec_value 0 s
          | s => dec_value 0 s
          end.
Definition atoi (s : string) : Z := wrap_s 32 (atol s).

(** ** Lemmas *)

Lemma digits_of_bounds fuel b n :
  0 < b -> Forall (fun d => 0 <= d < b) (digits_of fuel b n).
Proof.
  intros Hb. revert n. induction fuel as [|fuel IH]; intros n; cbn [digits_of]; constructor.
  - apply Z.mod_pos_bound. lia.
  - destruct (n / b =? 0); [constructor|apply IH].
Qed.

(** The value of a digit list, least significant first. *)
Fixpoint digits_val (b : Z) (l : list Z) : Z :=
  match l with [] => 0 | d :: l => d + b * digits_val b l end.

Lemma digits_of_val fuel b n :
  1 < b -> 0 <= n < b ^ Z.of_nat fuel -> digits_val b (digits_of fuel b n) = n.
Proof.
  intros Hb. revert n. induction fuel as [|fuel IH]; intros n Hn; cbn [digits_of digits_val].
  - cbn in Hn. lia.
  - rewrite Nat2Z.inj_succ, Z.pow_succ_r in Hn by lia.
    pose proof (Z.div_mod n b ltac:(lia)) as Hdm. pose proof (Z.mod_pos_bound n b ltac:(lia)).
    destruct (Z.eqb_spec (n / b) 0) as [H0|H0]; cbn [digits_val].
    + rewrite H0 in Hdm. lia.
    + rewrite IH; [lia|]. split; [apply Z.div_pos; lia|apply Z.div_lt_upper_bound; lia].
Qed.

Lemma digits_of_length fuel b n k :
  1 < b -> (1 <= k <= fuel)%nat -> 0 <= n < b ^ Z.of_nat k ->
  (1 <= length (digits_of fuel b n) <= k)%nat.
Proof.
  intros Hb. revert fuel n. induction k as [|k IH]; intros [|fuel] n Hk Hn; try lia.
  cbn [digits_of length]. rewrite Nat2Z.inj_succ, Z.pow_succ_r in Hn by lia.
  destruct (Z.eqb_spec (n / b) 0) as [H0|H0]; cbn [length]; [lia|].
  destruct k as [|k].
  - exfalso. apply H0. apply Z.div_small. cbn in Hn. lia.
  - enough (1 <= length (digits_of fuel b (n / b)) <= S k)%nat by lia.
    apply IH; [lia|]. split; [apply Z.div_pos; lia|apply Z.div_lt_upper_bound; lia].
Qed.

Lemma digit_code d : 0 <= d < 10 -> char_code (digit_char d) = 48 + d.
Proof.
  intros Hd. unfold digit_char, char_code. destruct (Z.ltb_spec d 10); [|lia].
  rewrite nat_ascii_embedding; lia.
Qed.

Lemma app_nil_s t : "" +:+ t = t.
Proof. reflexivity. Qed.

Lemma app_cons_s a s t : String a s +:+ t = String a (s +:+ t).
Proof. reflexivity. Qed.

Lemma length_app_s s t : strlen (s +:+ t) = strlen s + strlen t.
Proof.
  unfold strlen. induction s as [|a s IH]; rewrite ?app_nil_s, ?app_cons_s; cbn [String.length]; lia.
Qed.

Lemma length_rep n c : strlen (rep n c) = Z.of_nat n.
Proof. unfold strlen. induction n; cbn [rep String.length]; lia. Qed.

Lemma digits_string_acc l acc :
  strlen (fold_left (fun acc d => String (digit_char d) acc) l acc) =
  Z.of_nat (length l) + strlen acc.
Proof.
  revert acc. induction l as [|d l IH]; intros acc; cbn [fold_left length]; [done|].
  rewrite IH. unfold strlen. cbn [String.length]. lia.
Qed.

Lemma udec_length n k :
  (1 <= k <= 20)%nat -> 0 <= n < 10 ^ Z.of_nat k -> 1 <= strlen (udec n) <= Z.of_nat k.
Proof.
  intros Hk Hn. unfold udec, digits_string. rewrite digits_string_acc.
  pose proof (digits_of_length 20 10 n k ltac:(lia) Hk Hn). change (strlen "") with 0. lia.
Qed.

Lemma strlen_nonneg s : 0 <= strlen s.
Proof. unfold strlen. lia. Qed.

Lemma lpad_length c w s : strlen s <= w -> strlen (lpad c w s) = w.
Proof.
  intros H. unfold lpad. rewrite length_app_s, length_rep. pose proof (strlen_nonneg s). lia.
Qed.

(** A number of at most [w] digits fills a ["%0<w>d"] field exactly. *)
Lemma fmt_0d_length w n :
  1 <= w <= 20 -> 0 <= n < 10 ^ w -> strlen (fmt_0d w n) = w.
Proof.
  intros Hw Hn. unfold fmt_0d. destruct (Z.ltb_spec n 0); [lia|].
  apply lpad_length. pose proof (udec_length n (Z.to_nat w) ltac:(lia)) as H'.
  rewrite Z2Nat.id in H' by lia. apply H'; lia.
Qed.

(** All characters satisfy [p]. *)
Fixpoint all_chars (p : ascii -> bool) (s : string) : bool :=
  match s with EmptyString => true | String c s => p c && all_chars p s end.

Lemma app_assoc_s a b c : (a +:+ b) +:+ c = a +:+ (b +:+ c).
Proof. induction a as [|x a IH]; [done|]. rewrite !app_cons_s. now rewrite IH. Qed.

Lemma app_nil_r_s a : a +:+ "" = a.
Proof. induction a as [|x a IH]; [done|]. now rewrite app_cons_s, IH. Qed.

Lemma take_s_app a b : take_s (strlen a) (a +:+ b) = a.
Proof.
  unfold take_s, strlen. rewrite Nat2Z.id. induction a as [|x a IH].
  - destruct b; reflexivity.
  - rewrite app_cons_s. cbn [String.length String.substring]. now rewrite IH.
Qed.

Lemma strchr_from_shift str c : forall i, strchr_from i str c = (fun k => i + k) <$> strchr_from 0 str c.
Proof.
  induction str as [|a str IH]; intros i; [done|]. cbn [strchr_from].
  destruct (Ascii.eqb a c); [cbn; f_equal; lia|].
  rewrite IH, (IH (0 + 1)). destruct (strchr_from 0 str c); cbn; [f_equal; lia|done].
Qed.

Lemma take_S_cons k a str : 0 <= k -> take_s (k + 1) (String a str) = String a (take_s k str).
Proof. intros Hk. unfold take_s. now replace (Z.to_nat (k + 1)) with (S (Z.to_nat k)) by lia. Qed.

Lemma drop_s_nat k str : drop_s (Z.of_nat k) str = String.substring k (String.length str - k) str.
Proof. unfold drop_s. now rewrite Nat2Z.id. Qed.

Lemma drop_S_cons k a str : 0 <= k -> drop_s (k + 1) (String a str) = drop_s k str.
Proof.
  intros Hk. unfold drop_s. replace (Z.to_nat (k + 1)) with (S (Z.to_nat k)) by lia. reflexivity.
Qed.

Lemma substring_full str : String.substring 0 (String.length str) str = str.
Proof. induction str as [|a str IH]; [done|]. cbn [String.length String.substring]. now rewrite IH. Qed.

(** The first blank splits the string. *)
Lemma strchr_split str i :
  strchr str " " = Some i -> 0 <= i /\ take_s i str +:+ " " +:+ drop_s (i + 1) str = str.
Proof.
  unfold strchr. revert i. induction str as [|a str IH]; intros i; [done|]. cbn [strchr_from].
  destruct (Ascii.eqb_spec a " ") as [->|Ha].
  - intros [= <-]. split; [lia|]. rewrite drop_S_cons by lia. unfold take_s, drop_s.
    change (Z.to_nat 0) with 0%nat. rewrite Nat.sub_0_r, substring_full. reflexivity.
  - rewrite strchr_from_shift. destruct (strchr_from 0 str " ") as [k|] eqn:E; [|done].
    intros Hi. change (Some (0 + 1 + k) = Some i) in Hi.
    assert (i = k + 1) as -> by (injection Hi; lia).
    destruct (IH k eq_refl) as [Hk Hs]. split; [lia|]. rewrite take_S_cons, drop_S_cons by lia.
    rewrite app_cons_s, Hs. reflexivity.
Qed.

Lemma strchr_some a b : exists i, strchr (a +:+ " " +:+ b) " " = Some i.
Proof.
  unfold strchr. induction a as [|x a [i IH]].
  - exists 0. reflexivity.
  - rewrite app_cons_s. cbn [strchr_from]. destruct (Ascii.eqb x " "); [eauto|].
    rewrite strchr_from_shift, IH. cbn. eauto.
Qed.

(** [strchr] on a string whose first part does not have the character. *)
Lemma strchr_none a c : all_chars (fun x => negb (Ascii.eqb x c)) a = true -> strchr a c = None.
Proof.
  unfold strchr. induction a as [|x a IH]; [done|]. cbn [all_chars strchr_from]. rewrite andb_true_iff.
  intros [Hx Ha]. rewrite negb_true_iff in Hx. now rewrite Hx, strchr_from_shift, IH.
Qed.

Lemma strchr_app a c b :
  all_chars (fun x => negb (Ascii.eqb x c)) a = true -> strchr (a +:+ String c b) c = Some (strlen a).
Proof.
  unfold strchr. induction a as [|x a IH]; intros Ha.
  - rewrite app_nil_s. cbn [strchr_from]. now rewrite Ascii.eqb_refl.
  - cbn [all_chars] in Ha. rewrite andb_true_iff, negb_true_iff in Ha. destruct Ha as [Hx Ha].
    rewrite app_cons_s. cbn [strchr_from]. rewrite Hx, strchr_from_shift, IH by assumption.
    unfold strlen. cbn. f_equal. lia.
Qed.

Lemma drop_s_past n str : strlen str <= n -> drop_s n str = "".
Proof.
  intros H. unfold drop_s. replace (String.length str - Z.to_nat n)%nat with 0%nat by (unfold strlen in H; lia).
  generalize (Z.to_nat n) as k. induction str as [|a str IH]; intros [|k]; try reflexivity. cbn. apply IH. unfold strlen in *. cbn in H. lia.
Qed.

Lemma drop_s_app a b : drop_s (strlen a) (a +:+ b) = b.
Proof.
  unfold strlen. rewrite drop_s_nat. induction a as [|x a IH].
  - rewrite app_nil_s. cbn [String.length]. rewrite Nat.sub_0_r. apply substring_full.
  - rewrite app_cons_s. cbn [String.length String.substring]. exact IH.
Qed.

(** The first occurrence splits the string. *)
Definition not_char (c a : ascii) : bool := negb (Ascii.eqb a c).

Lemma strchr_inv c str : forall i, strchr str c = Some i ->
  exists a b, str = a +:+ String c b /\ i = strlen a /\ all_chars (not_char c) a = true.
Proof.
  unfold strchr. induction str as [|x str IH]; intros i; [done|]. cbn [strchr_from].
  destruct (Ascii.eqb_spec x c) as [->|Hx].
  - intros [= <-]. exists "", str. split_and!; reflexivity.
  - rewrite strchr_from_shift. destruct (strchr_from 0 str c) as [k|] eqn:E; [|done].
    intros Hi. destruct (IH k eq_refl) as (a & b & -> & -> & Ha). exists (String x a), b. split_and!.
    + now rewrite app_cons_s.
    + cbn in Hi. injection Hi as <-. unfold strlen. cbn [String.length]. lia.
    + cbn [all_chars]. unfold not_char at 1. destruct (Ascii.eqb_spec x c); [done|exact Ha].
Qed.

Lemma strchr_not c str : strchr str c = None -> all_chars (not_char c) str = true.
Proof.
  unfold strchr. induction str as [|x str IH]; [done|]. cbn [strchr_from all_chars]. unfold not_char at 1.
  destruct (Ascii.eqb x c); [done|]. rewrite strchr_from_shift. destruct (strchr_from 0 str c); [done|].
  intros _. now apply IH.
Qed.

Lemma drop_s_after a c b : drop_s (strlen a + 1) (a +:+ String c b) = b.
Proof.
  replace (strlen a + 1) with (strlen (a +:+ String c "")) by (rewrite length_app_s; reflexivity).
  change (String c b) with (String c "" +:+ b). rewrite <- app_assoc_s. apply drop_s_app.
Qed.

Lemma all_chars_app p a b : all_chars p (a +:+ b) = all_chars p a && all_chars p b.
Proof.
  induction a as [|x a IH]; [done|]. rewrite app_cons_s. cbn [all_chars]. rewrite IH. apply andb_assoc.
Qed.

Lemma all_chars_impl p q a :
  (forall c, p c = true -> q c = true) -> all_chars p a = true -> all_chars q a = true.
Proof.
  intros H. induction a as [|x a IH]; [done|]. cbn [all_chars]. rewrite !andb_true_iff. intros [Hx Ha]. auto.
Qed.

Example fmt_d_example : fmt_d (-1205) = "-1205". Proof. reflexivity. Qed.
Example fmt_0d_example : fmt_0d 9 1205 = "000001205". Proof. reflexivity. Qed.
Example atoi_example : atoi " -42x" = -42. Proof. reflexivity. Qed.
