(* ===== verification/Streams.v ===== *)
(** The random streams: the [Seed] table of rnd.h, the drawing functions and the row
    discipline of rnd.c, and the skip functions of speed_seed.c. *)
From S2P Require Import Prelude NumTheory Rng Float64 SpeedSeed State Consts CString.

(** ** rnd.h: [seed_t Seed[MAX_STREAM + 1]] *)
Definition Seed_init : list seed_t :=
  [ mk_seed PART 1 0 1;                                            (* P_MFG_SD     0 *)
    mk_seed PART 46831694 0 1;                                     (* P_BRND_SD    1 *)
    mk_seed PART 1841581359 0 1;                                   (* P_TYPE_SD    2 *)
    mk_seed PART 1193163244 0 1;                                   (* P_SIZE_SD    3 *)
    mk_seed PART 727633698 0 1;                                    (* P_CNTR_SD    4 *)
    mk_seed NONE 933588178 0 1;                                    (* P_RCST_SD    5 *)
    mk_seed PART 804159733 0 (RNG_PER_SENT * 3);                   (* P_CMNT_SD    6 *)
    mk_seed PSUPP 1671059989 0 SUPP_PER_PART;                      (* PS_QTY_SD    7 *)
    mk_seed PSUPP 1051288424 0 SUPP_PER_PART;                      (* PS_SCST_SD   8 *)
    mk_seed PSUPP 1961692154 0 (SUPP_PER_PART * RNG_PER_SENT * 20); (* PS_CMNT_SD   9 *)
    mk_seed ORDER 1227283347 0 1;                                  (* O_SUPP_SD    10 *)
    mk_seed ORDER 1171034773 0 1;                                  (* O_CLRK_SD    11 *)
    mk_seed ORDER 276090261 0 (RNG_PER_SENT * 8);                  (* O_CMNT_SD    12 *)
    mk_seed ORDER 1066728069 0 1;                                  (* O_ODATE_SD   13 *)
    mk_seed LINE 209208115 0 O_LCNT_MAX;                           (* L_QTY_SD     14 *)
    mk_seed LINE 554590007 0 O_LCNT_MAX;                           (* L_DCNT_SD    15 *)
    mk_seed LINE 721958466 0 O_LCNT_MAX;                           (* L_TAX_SD     16 *)
    mk_seed LINE 1371272478 0 O_LCNT_MAX;                          (* L_SHIP_SD    17 *)
    mk_seed LINE 675466456 0 O_LCNT_MAX;                           (* L_SMODE_SD   18 *)
    mk_seed LINE 1808217256 0 O_LCNT_MAX;                          (* L_PKEY_SD    19 *)
    mk_seed LINE 2095021727 0 O_LCNT_MAX;                          (* L_SKEY_SD    20 *)
    mk_seed LINE 1769349045 0 O_LCNT_MAX;                          (* L_SDTE_SD    21 *)
    mk_seed LINE 904914315 0 O_LCNT_MAX;                           (* L_CDTE_SD    22 *)
    mk_seed LINE 373135028 0 O_LCNT_MAX;                           (* L_RDTE_SD    23 *)
    mk_seed LINE 717419739 0 O_LCNT_MAX;                           (* L_RFLG_SD    24 *)
    mk_seed LINE 1095462486 0 (O_LCNT_MAX * RNG_PER_SENT * 5);     (* L_CMNT_SD    25 *)
    mk_seed CUST 881155353 0 9;                                    (* C_ADDR_SD    26 *)
    mk_seed CUST 1489529863 0 1;                                   (* C_NTRG_SD    27 *)
    mk_seed CUST 1521138112 0 3;                                   (* C_PHNE_SD    28 *)
    mk_seed CUST 298370230 0 1;                                    (* C_ABAL_SD    29 *)
    mk_seed CUST 1140279430 0 1;                                   (* C_MSEG_SD    30 *)
    mk_seed CUST 1335826707 0 (RNG_PER_SENT * 12);                 (* C_CMNT_SD    31 *)
    mk_seed SUPP 706178559 0 9;                                    (* S_ADDR_SD    32 *)
    mk_seed SUPP 110356601 0 1;                                    (* S_NTRG_SD    33 *)
    mk_seed SUPP 884434366 0 3;                                    (* S_PHNE_SD    34 *)
    mk_seed SUPP 962338209 0 1;                                    (* S_ABAL_SD    35 *)
    mk_seed SUPP 1341315363 0 (RNG_PER_SENT * 11);                 (* S_CMNT_SD    36 *)
    mk_seed PART 709314158 0 92;                                   (* P_NAME_SD    37 *)
    mk_seed ORDER 591449447 0 1;                                   (* O_PRIO_SD    38 *)
    mk_seed LINE 431918286 0 1;                                    (* HVAR_SD      39 *)
    mk_seed ORDER 851767375 0 1;                                   (* O_CKEY_SD    40 *)
    mk_seed NATION 606179079 0 (RNG_PER_SENT * 16);                (* N_CMNT_SD    41 *)
    mk_seed REGION 1500869201 0 (RNG_PER_SENT * 16);               (* R_CMNT_SD    42 *)
    mk_seed ORDER 1434868289 0 1;                                  (* O_LCNT_SD    43 *)
    mk_seed SUPP 263032577 0 1;                                    (* BBB offset   44 *)
    mk_seed SUPP 753643799 0 1;                                    (* BBB type     45 *)
    mk_seed SUPP 202794285 0 1;                                    (* BBB comment  46 *)
    mk_seed SUPP 715851524 0 1 ].                                  (* BBB junk     47 *)

(** The state when the program starts: static data as initialised, every other static
    variable zero. *)
Definition st_start : st :=
  mk_st Seed_init [] (mk_perm 0 [] None) tdefs_init (fun _ => 0) (F 0 0) None None
    (mk_print (fun _ => None) 0 0 0 0 0 0) [] "".

(** Assigning one field of a seed. *)
Definition with_value (f : Z -> Z) (e : seed_t) : seed_t :=
  mk_seed (table e) (f (value e)) (usage e) (boundary e).
Definition with_usage (f : Z -> Z) (e : seed_t) : seed_t :=
  mk_seed (table e) (value e) (f (usage e)) (boundary e).
Definition with_boundary (f : Z -> Z) (e : seed_t) : seed_t :=
  mk_seed (table e) (value e) (usage e) (f (boundary e)).

Definition in_table (stream : Z) : bool := (0 <=? stream) && (stream <=? MAX_STREAM).

(** [Seed[i]], for an index in range. *)
Definition seed_at (s : st) (i : Z) : seed_t :=
  default (mk_seed NONE 0 0 0) (Seed s !! Z.to_nat i).
Definition upd_seed (i : Z) (f : seed_t -> seed_t) : st -> st :=
  set_Seed (alter f (Z.to_nat i)).

(** ** rnd.c: drawing *)

Definition dM : f64 := F nM 0.

(** [nTemp = (long) (((double) Seed[nStream].value / dM) * (dRange))] *)
Definition scaled (value range : Z) : Z :=
  f_to_Z (fmul (fdiv (f_of_Z value) dM) (f_of_Z range)).

(** [long UnifInt(long nLow, long nHigh, long nStream)] *)
Definition UnifInt (nLow nHigh nStream : Z) : M Z :=
  let nStream := if (nStream <? 0) || (MAX_STREAM <? nStream) then 0 else nStream in
  let '(nLow, nHigh) := if nHigh <? nLow then (nHigh, nLow) else (nLow, nHigh) in
  modify (upd_seed nStream (with_value NextRand));;
  v <- gets (fun s => value (seed_at s nStream));;
  ret (nLow + scaled v (nHigh - nLow + 1)).

(** [Seed[stream].usage += 1], which a stream outside the table turns into a stray
    write. *)
Definition count_usage (stream : Z) (s : st) : st :=
  if in_table stream then upd_seed stream (with_usage (fun u => u + 1)) s
  else set_faults (fun l => l ++ [SeedOOB stream]) s.

(** [void dss_random(long *tgt, long lower, long upper, long stream)]: the value
    stored through [tgt]. *)
Definition dss_random (lower upper stream : Z) : M Z :=
  v <- UnifInt lower upper stream;;
  modify (count_usage stream);;
  ret v.

(** [#define RANDOM(tgt, lower, upper, stream) dss_random(&tgt, lower, upper, stream)] *)
Notation RANDOM := dss_random.

(** ** rnd.c: the row discipline *)

(** [void row_start(int t)] *)
Definition row_start (t : Z) : M unit :=
  modify (set_Seed (map (with_usage (fun _ => 0)))).

(** The body of the loop of [row_stop], on one seed of table [t] or of its child;
    the "SEED CHANGE" message goes to stderr. *)
Definition row_stop_seed (set_seeds t child : Z) (e : seed_t) : seed_t :=
  if (table e =? t) || (table e =? child) then
    if negb (set_seeds =? 0) && (boundary e <? usage e) then with_boundary (fun _ => usage e) e
    else with_value (NthElement (boundary e - usage e)) e
  else e.

(** [void row_stop(int t)]; [tdefs[t].child] is [None] for a [t] outside the table. *)
Definition row_stop (t : Z) : M unit :=
  let t := if t =? ORDER_LINE then ORDER else t in
  let t := if t =? PART_PSUPP then PART else t in
  s <- get;;
  d <- must "tdefs" (tdefs s !! Z.to_nat t);;
  modify (set_Seed (map (row_stop_seed (glob s G.set_seeds) t (child d)))).

Definition newline : string := String (ascii_of_nat 10) "".
Definition tab : string := String (ascii_of_nat 9) "".

(** [void dump_seeds(int tbl)] *)
Definition dump_seeds (tbl : Z) : M unit :=
  for_loop 48 0 (fun i =>
    e <- gets (fun s => seed_at s i);;
    if table e =? tbl then
      modify (set_stdout (fun o => o +:+ fmt_d i +:+ ":" +:+ tab +:+ fmt_d (value e) +:+ newline))
    else ret tt).

(** ** speed_seed.c: skipping rows *)

(** [#define ADVANCE_STREAM(stream_id, num_calls)] *)
Definition ADVANCE_STREAM (stream_id num_calls : Z) : M unit :=
  modify (upd_seed stream_id (with_value (NthElement num_calls))).

(** [#define FAKE_V_STR(avg, sd, cnt)]; [avg] is not used. *)
Definition FAKE_V_STR (sd cnt : Z) : M unit :=
  b <- gets (fun s => boundary (seed_at s sd));;
  ADVANCE_STREAM sd (b * cnt).

(** [void fake_a_rnd(int min, int max, int column)]: it advances the usage, not the
    value; nothing calls it. *)
Definition fake_a_rnd (min max column : Z) : M unit :=
  len <- RANDOM min max column;;
  let itcount := if len %c 5 =? 0 then len /c 5 else len /c 5 + 1 in
  modify (upd_seed column (with_usage (NthElement itcount))).

(** [long sd_part(int child, long skip_count)]; [child] is used by [sd_line] only. *)
Definition sd_part (child skip_count : Z) : M Z :=
  for_loop 5 P_MFG_SD (fun i => ADVANCE_STREAM i skip_count);;
  FAKE_V_STR P_CMNT_SD skip_count;;
  ADVANCE_STREAM P_NAME_SD (skip_count * 92);;
  ret 0.

Definition sd_line (child skip_count : Z) : M Z :=
  for_loop (Z.to_nat O_LCNT_MAX) 0 (fun j =>
    for_loop 11 L_QTY_SD (fun i => ADVANCE_STREAM i skip_count));;
  FAKE_V_STR L_CMNT_SD skip_count;;
  (if child =? 1 then
     ADVANCE_STREAM O_ODATE_SD skip_count;;
     ADVANCE_STREAM O_LCNT_SD skip_count
   else ret tt);;
  ret 0.

Definition sd_order (child skip_count : Z) : M Z :=
  ADVANCE_STREAM O_LCNT_SD skip_count;;
  ADVANCE_STREAM O_CKEY_SD skip_count;;
  FAKE_V_STR O_CMNT_SD skip_count;;
  ADVANCE_STREAM O_SUPP_SD skip_count;;
  ADVANCE_STREAM O_CLRK_SD skip_count;;
  ADVANCE_STREAM O_PRIO_SD skip_count;;
  ADVANCE_STREAM O_ODATE_SD skip_count;;
  ret 0.

Definition sd_psupp (child skip_count : Z) : M Z :=
  for_loop (Z.to_nat SUPP_PER_PART) 0 (fun j =>
    ADVANCE_STREAM PS_QTY_SD skip_count;;
    ADVANCE_STREAM PS_SCST_SD skip_count);;
  FAKE_V_STR PS_CMNT_SD skip_count;;
  ret 0.

Definition sd_cust (child skip_count : Z) : M Z :=
  FAKE_V_STR C_ADDR_SD skip_count;;
  FAKE_V_STR C_CMNT_SD skip_count;;
  ADVANCE_STREAM C_NTRG_SD skip_count;;
  ADVANCE_STREAM C_PHNE_SD (3 * skip_count);;
  ADVANCE_STREAM C_ABAL_SD skip_count;;
  ADVANCE_STREAM C_MSEG_SD skip_count;;
  ret 0.

Definition sd_supp (child skip_count : Z) : M Z :=
  ADVANCE_STREAM S_NTRG_SD skip_count;;
  ADVANCE_STREAM S_PHNE_SD (3 * skip_count);;
  ADVANCE_STREAM S_ABAL_SD skip_count;;
  FAKE_V_STR S_ADDR_SD skip_count;;
  FAKE_V_STR S_CMNT_SD skip_count;;
  ADVANCE_STREAM BBB_CMNT_SD skip_count;;
  ADVANCE_STREAM BBB_JNK_SD skip_count;;
  ADVANCE_STREAM BBB_OFFSET_SD skip_count;;
  ADVANCE_STREAM BBB_TYPE_SD skip_count;;
  ret 0.

(** ** The table as a list: what a draw does to it *)

(** The stream a draw really comes from. *)
Definition drawn (stream : Z) : Z := if in_table stream then stream else 0.

Definition draw_seed (stream : Z) (l : list seed_t) : list seed_t :=
  let l := alter (with_value NextRand) (Z.to_nat (drawn stream)) l in
  if in_table stream then alter (with_usage (fun u => u + 1)) (Z.to_nat stream) l else l.

(** The whole state after a draw. *)
Definition draw (stream : Z) (s : st) : st :=
  count_usage stream (upd_seed (drawn stream) (with_value NextRand) s).

Lemma drawn_norm stream :
  (if (stream <? 0) || (MAX_STREAM <? stream) then 0 else stream) = drawn stream.
Proof.
  unfold drawn, in_table. destruct (Z.ltb_spec stream 0), (Z.leb_spec 0 stream); try lia;
    cbn [orb andb]; [done|].
  destruct (Z.ltb_spec MAX_STREAM stream), (Z.leb_spec stream MAX_STREAM); lia || done.
Qed.

Lemma draw_Seed stream s : Seed (draw stream s) = draw_seed stream (Seed s).
Proof. unfold draw, count_usage, draw_seed, upd_seed. destruct (in_table stream); done. Qed.

(** A table of 48 seeds, each in the generator's range. *)
Definition seeds_ok (l : list seed_t) : Prop :=
  length l = 48%nat /\ Forall (fun e => seed_ok (value e)) l.

Lemma drawn_range stream : 0 <= drawn stream < 48.
Proof.
  unfold drawn, in_table. destruct (Z.leb_spec 0 stream), (Z.leb_spec stream MAX_STREAM);
    cbn [andb]; unfold MAX_STREAM in *; lia.
Qed.

Lemma Forall_alter_id {A} (P : A -> Prop) f i l :
  (forall x, P x -> P (f x)) -> Forall P l -> Forall P (alter f i l).
Proof. intros Hf Hl. apply Forall_alter; auto. Qed.

Lemma seeds_ok_draw stream l : seeds_ok l -> seeds_ok (draw_seed stream l).
Proof.
  intros [Hlen Hall]. unfold draw_seed. split.
  - destruct (in_table stream); rewrite ?length_alter; done.
  - assert (Forall (fun e => seed_ok (value e))
              (alter (with_value NextRand) (Z.to_nat (drawn stream)) l)).
    { apply Forall_alter_id; [|done]. intros e He. apply NextRand_ok, He. }
    destruct (in_table stream); [|done]. apply Forall_alter_id; auto.
Qed.

Lemma Seed_init_ok : seeds_ok Seed_init.
Proof. split; [done|]. repeat constructor; cbn; unfold seed_ok, nM; lia. Qed.

(** ** Drawn values stay in their bounds *)

Lemma seed_at_ok s i : seeds_ok (Seed s) -> 0 <= i < 48 -> seed_ok (value (seed_at s i)).
Proof.
  intros [Hlen Hall] Hi. unfold seed_at.
  destruct (lookup_lt_is_Some_2 (Seed s) (Z.to_nat i)) as [e He]; [lia|].
  rewrite He. cbn [default]. rewrite Forall_lookup in Hall. eapply Hall, He.
Qed.

Lemma scaled_bounds v R : seed_ok v -> 0 < R < 2 ^ 53 -> 0 <= scaled v R < R.
Proof.
  intros Hv HR. unfold seed_ok, nM in Hv. unfold scaled, dM.
  rewrite !f_of_Z_exact by lia. apply fscale_bounds; unfold nM; lia.
Qed.

Lemma wp_UnifInt lo hi i (Q : Z -> st -> Prop) s :
  seeds_ok (Seed s) -> lo <= hi < lo + 2 ^ 50 ->
  (forall v, lo <= v <= hi -> Q v (upd_seed (drawn i) (with_value NextRand) s)) ->
  wp (UnifInt lo hi i) Q s.
Proof.
  intros Hs Hlo HQ. unfold UnifInt. rewrite drawn_norm.
  destruct (Z.ltb_spec hi lo); [lia|]. wp_go. apply HQ.
  pose proof (drawn_range i).
  assert (Hok : seeds_ok (Seed (upd_seed (drawn i) (with_value NextRand) s))).
  { destruct Hs as [Hlen Hall]. split; [cbn; now rewrite length_alter|].
    apply Forall_alter_id; [|done]. intros e He. apply NextRand_ok, He. }
  pose proof (scaled_bounds _ (hi - lo + 1) (seed_at_ok _ (drawn i) Hok ltac:(lia)) ltac:(lia)).
  lia.
Qed.

Lemma wp_random lo hi i (Q : Z -> st -> Prop) s :
  seeds_ok (Seed s) -> lo <= hi < lo + 2 ^ 50 ->
  (forall v, lo <= v <= hi -> Q v (draw i s)) ->
  wp (RANDOM lo hi i) Q s.
Proof.
  intros Hs Hlo HQ. unfold dss_random. apply wp_bind, wp_UnifInt; [done..|].
  intros v Hv. wp_go. apply HQ, Hv.
Qed.

(** ** Sequences of draws *)

Definition draw_seeds (l : list Z) (seeds : list seed_t) : list seed_t :=
  fold_left (fun seeds i => draw_seed i seeds) l seeds.

Lemma draw_seeds_app l1 l2 seeds : draw_seeds (l1 ++ l2) seeds = draw_seeds l2 (draw_seeds l1 seeds).
Proof. apply fold_left_app. Qed.

Lemma seeds_ok_draws l seeds : seeds_ok seeds -> seeds_ok (draw_seeds l seeds).
Proof.
  revert seeds. induction l as [|i l IH]; intros seeds H; cbn; [done|].
  apply IH. now apply seeds_ok_draw.
Qed.

(** How often a sequence of draws advances stream [i] and how often it counts. *)
Definition hits (i : Z) (l : list Z) : nat := length (filter (fun j => drawn j = i) l).
Definition counted (i : Z) (l : list Z) : nat := length (filter (fun j => j = i) l).

Lemma hits_cons i j l : hits i (j :: l) = ((if decide (drawn j = i) then 1%nat else 0%nat) + hits i l)%nat.
Proof. unfold hits. rewrite filter_cons. destruct (decide (drawn j = i)); done. Qed.

Lemma counted_cons i j l : counted i (j :: l) = ((if decide (j = i) then 1%nat else 0%nat) + counted i l)%nat.
Proof. unfold counted. rewrite filter_cons. destruct (decide (j = i)); done. Qed.

Lemma hits_app i l1 l2 : hits i (l1 ++ l2) = (hits i l1 + hits i l2)%nat.
Proof. unfold hits. now rewrite filter_app, length_app. Qed.

Lemma counted_app i l1 l2 : counted i (l1 ++ l2) = (counted i l1 + counted i l2)%nat.
Proof. unfold counted. now rewrite filter_app, length_app. Qed.

(** Streams other than 0 are drawn exactly as often as they count; every draw from
    outside the table is an uncounted draw from stream 0. *)
Definition strays (l : list Z) : nat := length (filter (fun j => in_table j = false) l).

Lemma hits_counted i l :
  0 <= i < 48 -> hits i l = (counted i l + (if decide (i = 0%Z) then strays l else O))%nat.
Proof.
  intros Hi. induction l as [|j l IH]; [destruct (decide (i = 0)); reflexivity|].
  rewrite hits_cons, counted_cons, IH. unfold strays. rewrite filter_cons.
  unfold drawn. destruct (in_table j) eqn:Ej.
  - destruct (decide (true = false)); [done|]. destruct (decide (j = i)), (decide (i = 0)); lia.
  - destruct (decide (false = false)); [|done].
    assert (j <> i).
    { intros ->. unfold in_table, MAX_STREAM in Ej.
      destruct (Z.leb_spec 0 i), (Z.leb_spec i 47); cbn in Ej; lia || done. }
    destruct (decide (0 = i)), (decide (j = i)), (decide (i = 0)); cbn [length]; lia.
Qed.

Lemma strays_app l1 l2 : strays (l1 ++ l2) = (strays l1 + strays l2)%nat.
Proof. unfold strays. now rewrite filter_app, length_app. Qed.

(** One entry of the table after a sequence of draws. *)
Definition drawn_seed (h c : nat) (e : seed_t) : seed_t :=
  mk_seed (table e) (rng_steps h (value e)) (usage e + Z.of_nat c) (boundary e).

Lemma rng_steps_succ_r n v : rng_steps n (NextRand v) = rng_steps (S n) v.
Proof. exact (eq_sym (Nat.iter_succ_r n NextRand v)). Qed.

Lemma draw_seeds_lookup l : forall seeds i,
  0 <= i < 48 ->
  draw_seeds l seeds !! Z.to_nat i = drawn_seed (hits i l) (counted i l) <$> seeds !! Z.to_nat i.
Proof.
  induction l as [|j l IH]; intros seeds i Hi.
  - cbn. destruct (seeds !! Z.to_nat i) as [[t v u b]|]; cbn; [|done].
    unfold drawn_seed; cbn. now rewrite Z.add_0_r.
  - cbn [draw_seeds fold_left]. fold (draw_seeds l (draw_seed j seeds)). rewrite IH by done.
    rewrite hits_cons, counted_cons. unfold draw_seed, drawn. pose proof (drawn_range j) as Hd.
    assert (Hne : forall k, 0 <= k -> k <> i -> Z.to_nat k <> Z.to_nat i) by lia.
    destruct (in_table j) eqn:Ej.
    + assert (0 <= j) by (unfold in_table in Ej; lia).
      destruct (decide (j = i)) as [->|Hji].
      * rewrite !list_lookup_alter_eq, <- !option_fmap_compose. destruct (seeds !! _); [|done].
        cbn. f_equal. unfold drawn_seed; cbn. f_equal; [|lia].
        apply rng_steps_succ_r.
      * rewrite !list_lookup_alter_ne by auto. done.
    + assert (j <> i).
      { intros ->. unfold in_table, MAX_STREAM in Ej.
        destruct (Z.leb_spec 0 i), (Z.leb_spec i 47); cbn in Ej; lia || done. }
      destruct (decide (j = i)); [done|]. destruct (decide (0 = i)) as [<-|H0].
      * rewrite list_lookup_alter_eq, <- !option_fmap_compose. destruct (seeds !! _); [|done].
        cbn. f_equal. unfold drawn_seed; cbn. f_equal.
        apply rng_steps_succ_r.
      * rewrite !list_lookup_alter_ne by (apply Hne; lia). done.
Qed.

(** ** The row discipline *)

(** [dss_random] always returns, and what it does to the state does not depend on the
    bounds. *)
Lemma dss_random_draw lo hi i s : exists v, RANDOM lo hi i s = Ok v (draw i s).
Proof.
  unfold dss_random, UnifInt. rewrite drawn_norm.
  destruct (hi <? lo); eexists; unfold bind, modify, gets, ret; reflexivity.
Qed.

(** A row that draws a value for each [(lower, upper, stream)] in turn. *)
Fixpoint draw_all (calls : list (Z * Z * Z)) : M unit :=
  match calls with
  | [] => ret tt
  | (lo, hi, i) :: calls => _ <- RANDOM lo hi i;; draw_all calls
  end.

Lemma draw_all_draws calls s :
  exists s', draw_all calls s = Ok tt s' /\
    Seed s' = draw_seeds (map snd calls) (Seed s) /\ glob s' = glob s /\ tdefs s' = tdefs s.
Proof.
  revert s. induction calls as [|[[lo hi] i] calls IH]; intros s; cbn [draw_all map snd].
  - exists s. done.
  - destruct (dss_random_draw lo hi i s) as [v Hv]. unfold bind. rewrite Hv.
    destruct (IH (draw i s)) as (s' & -> & HS & Hg & Ht). exists s'. rewrite HS, draw_Seed, Hg, Ht.
    unfold draw, count_usage. destruct (in_table i); done.
Qed.

(** [row_stop] takes ORDER_LINE for ORDER and PART_PSUPP for PART. *)
Definition row_table (t : Z) : Z :=
  let t := if t =? ORDER_LINE then ORDER else t in if t =? PART_PSUPP then PART else t.

Definition accounted (t child : Z) (e : seed_t) : bool := (table e =? t) || (table e =? child).

(** The table after [row_start], the draws [l], and [row_stop] with [set_seeds = 0]. *)
Definition row_seeds (t child : Z) (l : list Z) (seeds : list seed_t) : list seed_t :=
  map (row_stop_seed 0 t child) (draw_seeds l (map (with_usage (fun _ => 0)) seeds)).

(** One entry of it. *)
Definition row_seed (t child i : Z) (l : list Z) (e : seed_t) : seed_t :=
  mk_seed (table e)
    (if accounted t child e
     then rng_steps (Z.to_nat (boundary e) + (if decide (i = 0%Z) then strays l else O)) (value e)
     else rng_steps (hits i l) (value e))
    (Z.of_nat (counted i l)) (boundary e).

Lemma counted_le i l : (counted i l <= length l)%nat.
Proof. unfold counted. apply length_filter. Qed.

Lemma lookup_map {A B} (f : A -> B) l i : map f l !! i = f <$> l !! i.
Proof. apply list_lookup_fmap. Qed.

Lemma row_seeds_lookup t child l seeds i e :
  0 <= i < 48 -> seeds !! Z.to_nat i = Some e -> seed_ok (value e) ->
  0 <= boundary e < nM -> Z.of_nat (length l) < nM ->
  row_seeds t child l seeds !! Z.to_nat i = Some (row_seed t child i l e).
Proof.
  intros Hi He Hok Hb Hl. unfold row_seeds.
  rewrite lookup_map, draw_seeds_lookup, lookup_map, He by done.
  cbn [fmap option_fmap option_map]. f_equal. unfold row_stop_seed, row_seed, accounted, drawn_seed.
  cbn [with_usage table value usage boundary Z.eqb negb andb].
  destruct ((table e =? t) || (table e =? child)); [|done].
  unfold with_value; cbn [table value usage boundary]. f_equal. rewrite Z.add_0_l.
  pose proof (counted_le i l). pose proof (hits_counted i l Hi) as Hh.
  rewrite NthElement_shift by (assumption || lia). f_equal. lia.
Qed.

Lemma row_start_eq t s : row_start t s = Ok tt (set_Seed (map (with_usage (fun _ => 0))) s).
Proof. reflexivity. Qed.

Lemma row_stop_eq t s d :
  tdefs s !! Z.to_nat (row_table t) = Some d -> glob s G.set_seeds = 0 ->
  row_stop t s = Ok tt (set_Seed (map (row_stop_seed 0 (row_table t) (child d))) s).
Proof.
  intros Hd Hs. unfold row_stop. fold (row_table t). unfold bind, get. rewrite Hd. cbn.
  now rewrite Hs.
Qed.

(** Skipping: [NthElement] by a nonnegative count below the modulus. *)
Lemma skip_steps n v : seed_ok v -> 0 <= n < nM -> NthElement n v = rng_steps (Z.to_nat n) v.
Proof.
  intros Hv Hn. rewrite NthElement_nonneg by (assumption || lia). f_equal. f_equal.
  apply Z.mod_small. unfold nM in Hn. lia.
Qed.

(** C19. Row discipline: whatever a row draws (any bounds, any streams, even outside the
    table), every stream accounted to its table is left exactly [boundary] steps after
    where the row found it, whatever the number of draws; only stream 0 goes one step
    further for each draw from a stream that does not exist. *)
Theorem row_discipline t calls s d i e :
  seeds_ok (Seed s) -> glob s G.set_seeds = 0 ->
  tdefs s !! Z.to_nat (row_table t) = Some d ->
  0 <= i <= MAX_STREAM -> Seed s !! Z.to_nat i = Some e -> 0 <= boundary e < nM ->
  accounted (row_table t) (child d) e = true -> Z.of_nat (length calls) < nM ->
  wp (row_start t;; draw_all calls;; row_stop t)
    (fun _ s' => exists e', Seed s' !! Z.to_nat i = Some e' /\
       value e' = rng_steps (Z.to_nat (boundary e) +
                    (if decide (i = 0%Z) then strays (map snd calls) else O)) (value e)) s.
Proof.
  intros Hok Hss Hd Hi He Hb Hacc Hlen. unfold MAX_STREAM in Hi.
  apply wp_bind. unfold wp. rewrite row_start_eq. cbn beta iota.
  destruct (draw_all_draws calls (set_Seed (map (with_usage (fun _ => 0))) s))
    as (s' & Hrun & HS & Hg & Ht).
  unfold bind. rewrite Hrun.
  rewrite (row_stop_eq t s' d) by (rewrite ?Ht, ?Hg; done).
  exists (row_seed (row_table t) (child d) i (map snd calls) e). split.
  - cbn [Seed set_Seed]. rewrite HS. apply row_seeds_lookup; try done; [lia| |].
    + destruct Hok as [_ Hall]. rewrite Forall_lookup in Hall. eapply Hall, He.
    + now rewrite length_map.
  - cbn [row_seed value]. now rewrite Hacc.
Qed.

Lemma row_discipline_witness :
  wp (row_start CUST;; draw_all [(6, 24, C_ADDR_SD); (0, MAX_LONG, C_ADDR_SD); (0, 9, 98)];;
      row_stop CUST)
    (fun _ s' => exists e', Seed s' !! 26%nat = Some e' /\ value e' = rng_steps 9 881155353)
    st_start.
Proof.
  apply (row_discipline CUST [(6, 24, C_ADDR_SD); (0, MAX_LONG, C_ADDR_SD); (0, 9, 98)] st_start
           (mk_tdef (Some "customer.tbl") (Some "customers table") 30000 (Some Fhd_cust)
              (Some Fpr_cust, Some Fld_cust) (Some Fsd_cust) (Some Fvrf_cust) NONE 0)
           26 (mk_seed CUST 881155353 0 9));
    [apply Seed_init_ok|reflexivity|reflexivity|unfold MAX_STREAM; lia|reflexivity| |reflexivity|];
    unfold nM; cbn; lia.
Defined.

(** C30. The values drawn are in the bounds asked for (endpoints included, swapped bounds
    exchanged), for every stream and every table of valid seeds. *)
Theorem UnifInt_range lo hi i s :
  seeds_ok (Seed s) -> Z.abs (hi - lo) < 2 ^ 50 ->
  wp (UnifInt lo hi i)
    (fun v s' => Z.min lo hi <= v <= Z.max lo hi /\ seeds_ok (Seed s')) s.
Proof.
  intros Hs Hr.
  assert (Hpost : seeds_ok (Seed (upd_seed (drawn i) (with_value NextRand) s))).
  { destruct Hs as [Hlen Hall]. split; [cbn; now rewrite length_alter|].
    apply Forall_alter_id; [|done]. intros e He. apply NextRand_ok, He. }
  destruct (Z_le_gt_dec lo hi).
  - apply wp_UnifInt; [done|lia|]. intros v Hv. split; [lia|done].
  - assert (E : UnifInt lo hi i s = UnifInt hi lo i s).
    { unfold UnifInt. destruct (Z.ltb_spec hi lo), (Z.ltb_spec lo hi); lia || done. }
    unfold wp. rewrite E. apply wp_UnifInt; [done|lia|]. intros v Hv. split; [lia|done].
Qed.

Lemma UnifInt_range_witness :
  seeds_ok (Seed st_start) /\
  wp (UnifInt 10 (-3) 26) (fun v s' => -3 <= v <= 10 /\ seeds_ok (Seed s')) st_start.
Proof.
  split; [apply Seed_init_ok|]. apply (UnifInt_range 10 (-3) 26 st_start Seed_init_ok). lia.
Defined.

(** ** Accumulating draws along a program *)

(** [s'] differs from [s] by the draws [l], and in nothing but the streams, the logged
    stray writes and the permutation array. *)
Record drew (l : list Z) (s s' : st) : Prop := mk_drew {
  drew_seeds : Seed s' = draw_seeds l (Seed s);
  drew_glob : glob s' = glob s;
  drew_tdefs : tdefs s' = tdefs s;
  drew_prt : prt s' = prt s;
  drew_files : files s' = files s;
  drew_stdout : stdout s' = stdout s;
}.

Lemma drew_nil s : drew [] s s.
Proof. by split. Qed.

Lemma drew_trans l1 l2 s1 s2 s3 : drew l1 s1 s2 -> drew l2 s2 s3 -> drew (l1 ++ l2) s1 s3.
Proof. intros [] []. split; [rewrite draw_seeds_app|..]; congruence. Qed.

Lemma drew_draw i s : drew [i] s (draw i s).
Proof. split; [apply draw_Seed|..]; unfold draw, count_usage; destruct (in_table i); reflexivity. Qed.

Lemma drew_ok l s s' : seeds_ok (Seed s) -> drew l s s' -> seeds_ok (Seed s').
Proof. intros Hs [H _ _ _ _ _]. rewrite H. now apply seeds_ok_draws. Qed.

Lemma drew_perm l f s s' : drew l s s' -> drew l s (set_perm f s').
Proof. intros []. by split. Qed.

Lemma drew_nil_app l s s' : drew ([] ++ l) s s' -> drew l s s'.
Proof. exact id. Qed.

Lemma wp_random_d l s0 lo hi i (Q : Z -> st -> Prop) s :
  seeds_ok (Seed s0) -> drew l s0 s -> lo <= hi < lo + 2 ^ 50 ->
  (forall v s', lo <= v <= hi -> drew (l ++ [i]) s0 s' -> perm s' = perm s -> Q v s') ->
  wp (RANDOM lo hi i) Q s.
Proof.
  intros H0 Hd Hr HQ. apply wp_random; [eapply drew_ok; eauto|lia|]. intros v Hv.
  apply HQ; [exact Hv|eapply drew_trans; [exact Hd|apply drew_draw]|].
  unfold draw, count_usage. destruct (in_table i); reflexivity.
Qed.
