(* ===== verification/UnifReal.v ===== *)
(** The real-valued draws of rnd.c, [UnifReal] and [Exponential], and the bounds of what they
    return. *)
From Stdlib Require Import QArith Qpower Lqa SpecFloat.
From S2P Require Import Prelude Rng Float64 State Consts Streams.
Open Scope Z_scope.

(** The [double 0.0]. *)
Definition fzero : f64 := F 0 0.
Definition fone : f64 := F 1 0.

(** [a == b] *)
Definition feqb (a b : f64) : bool := negb (fltb a b) && negb (fltb b a).

(** ** [double] with its whole range

    Float64 leaves the exponent alone; these operations keep it: a result is rounded to 53
    bits and to a multiple of [2^-1074], and is an infinity from [2^1024] on. (The sign of a
    zero is not kept: nothing here depends on it.) *)
Definition emin : Z := -1074.
Inductive double := Fin (x : f64) | Inf (neg : bool) | NaN.

(** Round to the format, then look for an overflow. *)
Definition dcut (x : f64) : f64 :=
  let k := Z.max (Z.log2 (Z.abs (fm x)) + 1 - fprec) (emin - fe x) in
  if k <=? 0 then x else F (Z.sgn (fm x) * rne (Z.abs (fm x)) k) (fe x + k).
Definition two_1024 : f64 := F 1 1024.
Definition too_big (y : f64) : bool := negb (fltb (F (Z.abs (fm y)) (fe y)) two_1024).
Definition dround (x : f64) : double :=
  if too_big (dcut x) then Inf (fm x <? 0) else Fin (dcut x).

Definition exact_add (x y : f64) : f64 :=
  let e := Z.min (fe x) (fe y) in F (Z.shiftl (fm x) (fe x - e) + Z.shiftl (fm y) (fe y - e)) e.
Definition exact_mul (x y : f64) : f64 := F (fm x * fm y) (fe x + fe y).

Definition dadd (x y : double) : double :=
  match x, y with
  | NaN, _ | _, NaN => NaN
  | Inf a, Inf b => if eqb a b then Inf a else NaN
  | Inf a, Fin _ | Fin _, Inf a => Inf a
  | Fin x, Fin y => dround (exact_add x y)
  end.
Definition dopp (x : double) : double :=
  match x with Fin x => Fin (fopp x) | Inf a => Inf (negb a) | NaN => NaN end.
Definition dsub (x y : double) : double := dadd x (dopp y).
Definition dmul (x y : double) : double :=
  match x, y with
  | NaN, _ | _, NaN => NaN
  | Inf a, Inf b => Inf (xorb a b)
  | Inf a, Fin x | Fin x, Inf a => if fm x =? 0 then NaN else Inf (xorb a (fm x <? 0))
  | Fin x, Fin y => dround (exact_mul x y)
  end.

(** [a < b] and [a == b]; nothing compares with a NaN. *)
Definition dltb (a b : double) : bool :=
  match a, b with
  | NaN, _ | _, NaN => false
  | Fin x, Fin y => fltb x y
  | Inf a, Inf b => a && negb b
  | Inf a, Fin _ => a
  | Fin _, Inf b => negb b
  end.
Definition deqb (a b : double) : bool :=
  match a, b with
  | NaN, _ | _, NaN => false
  | Fin x, Fin y => feqb x y
  | Inf a, Inf b => eqb a b
  | _, _ => false
  end.

(** [(double) Seed[nStream].value / dM]: both and the quotient are normal numbers, for which
    Float64's division is the format's. *)
Definition unit_of (v : Z) : double := Fin (fdiv (f_of_Z v) dM).

(** [double UnifReal(double dLow, double dHigh, long nStream)] *)
Definition UnifReal (dLow dHigh : double) (nStream : Z) : M double :=
  let nStream := if (nStream <? 0) || (MAX_STREAM <? nStream) then 0 else nStream in
  if deqb dLow dHigh then ret dLow
  else
    let '(dLow, dHigh) := if dltb dHigh dLow then (dHigh, dLow) else (dLow, dHigh) in
    modify (upd_seed nStream (with_value NextRand));;
    v <- gets (fun s => value (seed_at s nStream));;
    ret (dadd dLow (dmul (unit_of v) (dsub dHigh dLow))).

(** [double Exponential(double dMean, long nStream)]; [log] is the C library's. *)
Definition Exponential (log : double -> double) (dMean : double) (nStream : Z) : M double :=
  let nStream := if (nStream <? 0) || (MAX_STREAM <? nStream) then 0 else nStream in
  if dltb dMean (Fin fzero) || deqb dMean (Fin fzero) then ret (Fin fzero)
  else
    modify (upd_seed nStream (with_value NextRand));;
    v <- gets (fun s => value (seed_at s nStream));;
    ret (dmul (dopp dMean) (log (dsub (Fin fone) (unit_of v)))).

(** The same operations of the standard library's executable IEEE 754, on the ends of the
    range: subnormal numbers, the largest ones, infinities and NaN. *)
Definition to_spec_d (x : double) : spec_float :=
  match x with Fin x => to_spec x | Inf a => S754_infinity a | NaN => S754_nan end.
Definition same_spec (a b : spec_float) : bool :=
  match a, b with S754_nan, S754_nan => true | _, _ => SFeqb a b end.
Definition d_samples : list double :=
  [Fin (F 0 0); Fin (F 1 0); Fin (F (-3) (-1)); Fin (F 1 (-1074)); Fin (F (-5) (-1074)); Fin (F 3 (-1073));
   Fin (F 4503599627370497 (-1074)); Fin (F 9007199254740991 (-1074)); Fin (F 1 (-600)); Fin (F 4503599627370497 (-590));
   Fin (F 1 1023); Fin (F (-1) 1023); Fin (F 9007199254740991 971); Fin (F (-9007199254740991) 971);
   Fin (F 1 970); Fin (F 9007199254740991 (-53)); Inf false; Inf true; NaN].
Definition agree2_d (f : double -> double -> double) (g : spec_float -> spec_float -> spec_float) : bool :=
  forallb (fun x => forallb (fun y => same_spec (to_spec_d (f x y)) (g (to_spec_d x) (to_spec_d y))) d_samples) d_samples.

Lemma dops_agree :
  agree2_d dadd (SFadd 53 1024) && agree2_d dsub (SFsub 53 1024) && agree2_d dmul (SFmul 53 1024) &&
  forallb (fun x => forallb (fun y => Bool.eqb (dltb x y) (SFltb (to_spec_d x) (to_spec_d y)) &&
    Bool.eqb (deqb x y) (SFeqb (to_spec_d x) (to_spec_d y))) d_samples) d_samples = true.
Proof. vm_compute. reflexivity. Qed.

(** ** A number drawn, as a fraction *)

Lemma unit_draw v : 0 < v < nM -> (0 <= fval (fdiv (f_of_Z v) dM) <= 1 - (1 # 4294967296))%Q.
Proof.
  intros Hv. unfold nM in *. rewrite f_of_Z_exact by lia. unfold dM, nM. split; [apply fval_nonneg, fdiv_nonneg; lia|].
  eapply Qle_trans; [apply fdiv_upper; lia|].
  assert (H : (inject_Z v / inject_Z 2147483647 <= 1 - (1 # 2147483647))%Q).
  { apply Qle_shift_div_r; [reflexivity|]. assert (inject_Z v <= inject_Z 2147483646)%Q by (rewrite <- Zle_Qle; lia).
    change (inject_Z 2147483646) with (2147483646 # 1)%Q in *. change (inject_Z 2147483647) with (2147483647 # 1)%Q. lra. }
  unfold fsticky, funit. lra.
Qed.

Lemma fval_mul x y : (fval (F (fm x * fm y) (fe x + fe y)) == fval x * fval y)%Q.
Proof. unfold fval. cbn [fm fe]. rewrite inject_Z_mult, Qpower_plus by discriminate. ring. Qed.

Lemma fval_sign x : (0 <= fval x)%Q -> 0 <= fm x.
Proof.
  intros H. destruct (Z_lt_le_dec (fm x) 0) as [Hn|]; [|assumption]. exfalso.
  pose proof (two_pow_pos (fe x)) as Hp. unfold fval in H. assert (inject_Z (fm x) <= inject_Z (-1))%Q by (rewrite <- Zle_Qle; lia).
  change (inject_Z (-1)) with (-1 # 1)%Q in *. nra.
Qed.

Lemma fval_pos x : (0 < fval x)%Q <-> 0 < fm x.
Proof.
  assert (E : (0 == fval (F 0 (fe x)))%Q) by (unfold fval; cbn [fm fe]; ring). rewrite E, <- fltb_lt. unfold fltb. cbn [fm fe].
  rewrite Z.min_id, Z.sub_diag, !Z.shiftl_0_r, Z.ltb_lt. reflexivity.
Qed.

Lemma fround_keeps_pos x : 0 < fm x -> 0 < fm (fround x).
Proof.
  intros Hx. destruct (fround_pos x Hx) as [->|(k & Hk & -> & Hm)]; [exact Hx|]. cbn [fm].
  pose proof (rne_ge (fm x) k (2 ^ 52) Hk ltac:(lia)). lia.
Qed.

(** ** Rounding with an exponent range *)

(** Every finite double has this form. *)
Definition drep (x : f64) : Prop := frep x /\ emin <= fe x <= 971.

Lemma drep_opp x : drep x -> drep (fopp x).
Proof. intros [H1 H2]. split; [now apply frep_opp|exact H2]. Qed.

(** Either 53 bits are kept, or the multiples of [2^-1074]. *)
Lemma dcut_cases x :
  dcut x = fround x \/
  0 < emin - fe x /\ dcut x = F (Z.sgn (fm x) * rne (Z.abs (fm x)) (emin - fe x)) (fe x + (emin - fe x)).
Proof.
  unfold dcut, fround. cbv zeta. set (k := Z.log2 (Z.abs (fm x)) + 1 - fprec).
  destruct (Z.le_gt_cases (emin - fe x) k) as [H|H].
  - left. now rewrite Z.max_l.
  - rewrite Z.max_r by lia. destruct (Z.leb_spec (emin - fe x) 0) as [H0|H0].
    + left. destruct (Z.leb_spec k 0); [reflexivity|lia].
    + right. split; [exact H0|reflexivity].
Qed.

Lemma dcut_normal x : emin <= fe x -> dcut x = fround x.
Proof. intros He. destruct (dcut_cases x) as [E|[H _]]; [exact E|lia]. Qed.

Lemma dcut_fe x : emin <= fe (dcut x).
Proof. unfold dcut. cbv zeta. destruct (Z.leb_spec (Z.max (Z.log2 (Z.abs (fm x)) + 1 - fprec) (emin - fe x)) 0); cbn [fe]; lia. Qed.

Lemma dcut_opp x : dcut (fopp x) = fopp (dcut x).
Proof.
  unfold dcut. cbv zeta. cbn [fopp fm fe]. rewrite Z.abs_opp. destruct (_ <=? 0); [reflexivity|].
  unfold fopp. cbn [fm fe]. f_equal. rewrite Z.sgn_opp. ring.
Qed.

Lemma dcut_pos_le x y : 0 < fm x -> drep y -> (fval x <= fval y)%Q -> (fval (dcut x) <= fval y)%Q.
Proof.
  intros Hx [Hy He] Hle. destruct (dcut_cases x) as [->|[Hk ->]]; [now apply fround_pos_le|].
  rewrite Z.sgn_pos, Z.mul_1_l, Z.abs_eq by lia. set (k := emin - fe x) in *.
  apply (fval_le _ _ (fe x + k)); cbn [fm fe]; [lia..|]. apply (fval_le _ _ (fe x)) in Hle; [|lia..].
  rewrite Z.sub_diag, Z.shiftl_0_r in *. rewrite !Z.shiftl_mul_pow2 in * by lia. apply rne_le; [exact Hk|]. split; [lia|].
  rewrite <- Z.mul_assoc, <- Z.pow_add_r by lia. now replace (fe y - (fe x + k) + k) with (fe y - fe x) by lia.
Qed.

Lemma dcut_pos_ge x y : 0 < fm x -> drep y -> (fval y <= fval x)%Q -> (fval y <= fval (dcut x))%Q.
Proof.
  intros Hx [Hy He] Hle. destruct (dcut_cases x) as [->|[Hk ->]]; [now apply fround_pos_ge|].
  rewrite Z.sgn_pos, Z.mul_1_l, Z.abs_eq by lia. set (k := emin - fe x) in *.
  apply (fval_le _ _ (fe x + k)); cbn [fm fe]; [lia..|]. apply (fval_le _ _ (fe x)) in Hle; [|lia..].
  rewrite Z.sub_diag, Z.shiftl_0_r in *. rewrite !Z.shiftl_mul_pow2 in * by lia. apply rne_ge; [exact Hk|].
  rewrite <- Z.mul_assoc, <- Z.pow_add_r by lia. now replace (fe y - (fe x + k) + k) with (fe y - fe x) by lia.
Qed.

Lemma fval_zero x : fm x = 0 -> (fval x == 0)%Q.
Proof. intros H. unfold fval. rewrite H. ring. Qed.

(** Rounding does not cross a finite double. *)
Lemma dcut_le x y : drep y -> (fval x <= fval y)%Q -> (fval (dcut x) <= fval y)%Q.
Proof.
  intros Hy Hle. destruct (Z.lt_trichotomy (fm x) 0) as [Hx|[Hx|Hx]]; [| |now apply dcut_pos_le].
  - assert (Hp : (fval (fopp y) <= fval (dcut (fopp x)))%Q).
    { apply dcut_pos_ge; [cbn; lia|now apply drep_opp|]. rewrite !fval_opp. lra. }
    rewrite dcut_opp, !fval_opp in Hp. lra.
  - rewrite (fval_zero x Hx) in Hle. rewrite fval_zero; [exact Hle|].
    unfold dcut. cbv zeta. rewrite Hx. destruct (_ <=? 0); [exact Hx|reflexivity].
Qed.

Lemma dcut_ge x y : drep y -> (fval y <= fval x)%Q -> (fval y <= fval (dcut x))%Q.
Proof.
  intros Hy Hle. pose proof (dcut_le (fopp x) (fopp y) (drep_opp y Hy)) as H.
  rewrite dcut_opp, !fval_opp in H. lra.
Qed.

Lemma too_big_false y : (- fval two_1024 < fval y < fval two_1024)%Q -> too_big y = false.
Proof.
  intros [H1 H2]. unfold too_big. rewrite negb_false_iff. apply fltb_lt.
  destruct (Z.abs_spec (fm y)) as [[_ ->]|[_ ->]].
  - destruct y. exact H2.
  - change (F (- fm y) (fe y)) with (fopp y). rewrite fval_opp. lra.
Qed.

(** A finite double is below [2^1024]. *)
Lemma drep_below y : drep y -> (fval y < fval two_1024)%Q.
Proof.
  intros [Hy He]. unfold frep in Hy. apply fltb_lt. unfold fltb, two_1024. cbn [fm fe].
  rewrite Z.min_l, Z.sub_diag, Z.shiftl_0_r, Z.shiftl_mul_pow2, Z.mul_1_l by (unfold emin in *; lia). apply Z.ltb_lt.
  assert (2 ^ 53 <= 2 ^ (1024 - fe y)) by (apply Z.pow_le_mono_r; lia). lia.
Qed.

(** A number between two finite doubles rounds to a double between them. *)
Lemma dround_between lo hi x :
  drep lo -> drep hi -> (fval lo <= fval x <= fval hi)%Q ->
  dround x = Fin (dcut x) /\ (fval lo <= fval (dcut x) <= fval hi)%Q.
Proof.
  intros Hlo Hhi [H1 H2]. pose proof (dcut_ge x lo Hlo H1) as B1. pose proof (dcut_le x hi Hhi H2) as B2.
  split; [|split; assumption]. unfold dround. rewrite too_big_false; [reflexivity|].
  pose proof (drep_below hi Hhi). pose proof (drep_below (fopp lo) (drep_opp lo Hlo)) as Hl. rewrite fval_opp in Hl. lra.
Qed.

(** *** Where it overflows *)

(** The number halfway between the largest finite double and [2^1024]. *)
Definition overflow_at : f64 := F (2 ^ 54 - 1) 970.

Lemma rne_53 m k : 0 < k -> 2 ^ 52 * 2 ^ k <= m < 2 ^ 53 * 2 ^ k ->
  rne m k < 2 ^ 53 <-> m < (2 ^ 54 - 1) * 2 ^ (k - 1).
Proof.
  intros Hk Hm. unfold rne. rewrite Z.shiftl_mul_pow2, Z.shiftr_div_pow2 by lia.
  assert (H2 : 2 ^ k = 2 * 2 ^ (k - 1)) by (rewrite <- Z.pow_succ_r by lia; f_equal; lia).
  assert (Hp : 0 < 2 ^ (k - 1)) by (apply Z.pow_pos_nonneg; lia). rewrite H2 in *. set (h := 2 ^ (k - 1)) in *.
  pose proof (Z.div_mod m (2 * h) ltac:(lia)) as Hd. pose proof (Z.mod_pos_bound m (2 * h) ltac:(lia)) as Hr.
  set (q := m / (2 * h)) in *. assert (Hq : q <= 2 ^ 53 - 1) by nia.
  destruct (Z.eq_dec q (2 ^ 53 - 1)) as [->|Hne].
  - change (Z.even (2 ^ 53 - 1)) with false. cbv iota.
    destruct (Z.ltb_spec (m - (2 ^ 53 - 1) * (2 * h)) h); [lia|]. destruct (_ <? _); lia.
  - assert (m < (2 ^ 54 - 1) * h) by nia. repeat case_match; lia.
Qed.

Lemma fval_lt x y e :
  e <= fe x -> e <= fe y ->
  (fval x < fval y)%Q <-> fm x * 2 ^ (fe x - e) < fm y * 2 ^ (fe y - e).
Proof.
  intros Hx Hy. pose proof (fval_le y x e Hy Hx) as H. rewrite !Z.shiftl_mul_pow2 in H by lia.
  split; intros Hl.
  - apply Z.nle_gt. intros H'. apply H in H'. lra.
  - apply Qnot_le_lt. intros H'. apply H in H'. lia.
Qed.

Lemma fround_overflow x : 0 < fm x -> emin <= fe x <= 971 ->
  (fval (fround x) < fval two_1024)%Q <-> (fval x < fval overflow_at)%Q.
Proof.
  intros Hx He. unfold fround. cbv zeta. set (k := Z.log2 (Z.abs (fm x)) + 1 - fprec).
  assert (Hlog : 2 ^ (k + 52) <= fm x < 2 ^ (k + 53)).
  { pose proof (Z.log2_spec (fm x) Hx) as Hl. unfold k, fprec. rewrite Z.abs_eq by lia.
    replace (Z.log2 (fm x) + 1 - 53 + 52) with (Z.log2 (fm x)) by lia.
    now replace (Z.log2 (fm x) + 1 - 53 + 53) with (Z.succ (Z.log2 (fm x))) by lia. }
  assert (Hk52 : 0 <= k + 52) by (unfold k, fprec; rewrite Z.abs_eq by lia; pose proof (Z.log2_nonneg (fm x)); lia).
  destruct (Z.leb_spec k 0) as [Hk|Hk].
  - assert (Hm : fm x < 2 ^ 53) by (eapply Z.lt_le_trans; [apply Hlog|apply Z.pow_le_mono_r; lia]).
    split; intros _.
    + apply (fval_lt _ _ (Z.min (fe x) 970)); cbn [overflow_at fm fe]; [lia..|].
      destruct (Z.eq_dec (fe x) 971) as [E|E].
      * rewrite E. change (971 - Z.min 971 970) with 1. change (970 - Z.min 971 970) with 0. lia.
      * replace (fe x - Z.min (fe x) 970) with 0 by lia.
        assert (1 <= 2 ^ (970 - Z.min (fe x) 970)) by (apply (Z.pow_le_mono_r 2 0); lia). nia.
    + apply drep_below. split; [unfold frep; lia|exact He].
  - rewrite Z.sgn_pos, Z.mul_1_l, Z.abs_eq by lia.
    rewrite Z.pow_add_r, (Z.pow_add_r 2 k 53) in Hlog by lia.
    assert (Hmm : 2 ^ 52 * 2 ^ k <= fm x < 2 ^ 53 * 2 ^ k) by lia.
    assert (HR : 2 ^ 52 <= rne (fm x) k <= 2 ^ 53) by (split; [apply rne_ge|apply rne_le]; lia).
    destruct (Z.lt_trichotomy (fe x + k) 971) as [HE|[HE|HE]].
    + split; intros _.
      * apply (fval_lt _ _ (fe x)); cbn [overflow_at fm fe]; [lia..|]. rewrite Z.sub_diag, Z.mul_1_r.
        assert (2 ^ k <= 2 ^ (970 - fe x)) by (apply Z.pow_le_mono_r; lia). nia.
      * apply (fval_lt _ _ (fe x + k)); cbn [two_1024 fm fe]; [lia..|]. rewrite Z.sub_diag, Z.mul_1_r.
        assert (2 ^ 54 <= 2 ^ (1024 - (fe x + k))) by (apply Z.pow_le_mono_r; lia). lia.
    + rewrite (fval_lt _ _ 971), (fval_lt x _ (fe x)) by (cbn [two_1024 overflow_at fm fe]; lia).
      cbn [two_1024 overflow_at fm fe]. rewrite HE, !Z.sub_diag, Z.mul_1_l, !Z.mul_1_r.
      replace (970 - fe x) with (k - 1) by lia. apply rne_53; lia.
    + split; intros H; exfalso; revert H; apply Qle_not_lt.
      * apply (fval_le _ _ 972); cbn [two_1024 fm fe]; [lia..|]. rewrite !Z.shiftl_mul_pow2 by lia.
        change (1 * 2 ^ (1024 - 972)) with (2 ^ 52).
        assert (1 <= 2 ^ (fe x + k - 972)) by (apply (Z.pow_le_mono_r 2 0); lia). nia.
      * apply (fval_le _ _ (Z.min (fe x) 970)); cbn [overflow_at fm fe]; [lia..|]. rewrite !Z.shiftl_mul_pow2 by lia.
        set (e := Z.min (fe x) 970). assert (HP : 2 ^ 2 * 2 ^ (970 - e) <= 2 ^ k * 2 ^ (fe x - e)).
        { rewrite <- !Z.pow_add_r by lia. apply Z.pow_le_mono_r; lia. }
        pose proof (Z.pow_pos_nonneg 2 (fe x - e) ltac:(lia) ltac:(lia)).
        pose proof (Z.pow_pos_nonneg 2 (970 - e) ltac:(lia) ltac:(lia)). nia.
Qed.

(** ** Between two bounds *)

Lemma exact_sub_val hi lo : (fval (exact_add hi (fopp lo)) == fval hi - fval lo)%Q.
Proof. unfold exact_add. rewrite fval_add, fval_opp. ring. Qed.

Lemma fval_pos_fm x : (0 < fval x)%Q -> 0 < fm x.
Proof. apply fval_pos. Qed.

(** The distance between two finite doubles: rounded to 53 bits, or an infinity. *)
Lemma dsub_cases lo hi :
  drep lo -> drep hi -> (fval lo < fval hi)%Q ->
  ((fval hi - fval lo < fval overflow_at)%Q /\
    dsub (Fin hi) (Fin lo) = Fin (fround (exact_add hi (fopp lo))) /\
    (fval (fround (exact_add hi (fopp lo))) < fval two_1024)%Q) \/
  ((fval overflow_at <= fval hi - fval lo)%Q /\ dsub (Fin hi) (Fin lo) = Inf false).
Proof.
  intros Hlo Hhi Hlt. unfold dsub. cbn [dopp dadd]. set (x := exact_add hi (fopp lo)).
  assert (Ex : (fval x == fval hi - fval lo)%Q) by apply exact_sub_val.
  assert (Hx : 0 < fm x) by (apply fval_pos_fm; lra).
  assert (He : emin <= fe x <= 971) by (destruct Hlo as [_ ?], Hhi as [_ ?]; unfold x, exact_add; cbn [fe fopp]; lia).
  pose proof (fround_overflow x Hx He) as Ho. unfold dround. rewrite dcut_normal by lia.
  pose proof (fval_nonneg _ (fround_nonneg x ltac:(lia))) as Hn.
  destruct (Qlt_le_dec (fval x) (fval overflow_at)) as [Hl|Hl].
  - left. split; [lra|]. apply Ho in Hl. rewrite too_big_false; [split; [reflexivity|exact Hl]|].
    split; [|exact Hl]. apply Qlt_le_trans with 0%Q; [reflexivity|exact Hn].
  - right. split; [lra|]. unfold too_big. destruct (fltb _ two_1024) eqn:E; cbn [negb].
    + exfalso. apply fltb_lt in E. rewrite Z.abs_eq in E by (apply fround_nonneg; lia).
      assert (E2 : (fval (fround x) < fval two_1024)%Q) by (destruct (fround x); exact E). apply Ho in E2. lra.
    + f_equal. apply Z.ltb_ge. lia.
Qed.

(** Below a positive dyadic that is a little smaller than [2^1024] there is a finite double
    less than one part in [2^52] away. *)
Lemma drep_under x :
  0 < fm x -> emin <= fe x <= 971 -> (fval x < fval two_1024)%Q ->
  exists y, drep y /\ (fval x * (1 - (1 # 4503599627370496)) <= fval y <= fval x)%Q.
Proof.
  intros Hx He Hb. pose proof (Z.log2_spec (fm x) Hx) as Hl. pose proof (Z.log2_nonneg (fm x)) as Hl0.
  assert (Hv : (0 < fval x)%Q) by now apply fval_pos.
  set (k := Z.log2 (fm x) - 52). destruct (Z.le_gt_cases k 0) as [Hk|Hk].
  - exists x. split; [|split; lra]. split; [|exact He]. unfold frep. rewrite Z.abs_eq by lia.
    eapply Z.lt_le_trans; [apply Hl|]. apply Z.pow_le_mono_r; unfold k in Hk; lia.
  - assert (Hq : 2 ^ 52 <= fm x / 2 ^ k < 2 ^ 53).
    { assert (0 < 2 ^ k) by (apply Z.pow_pos_nonneg; lia). split.
      - apply Z.div_le_lower_bound; [assumption|]. rewrite Z.mul_comm, <- Z.pow_add_r by lia.
        replace (52 + k) with (Z.log2 (fm x)) by (unfold k; lia). lia.
      - apply Z.div_lt_upper_bound; [assumption|]. rewrite <- Z.pow_add_r by lia.
        replace (k + 53) with (Z.succ (Z.log2 (fm x))) by (unfold k; lia). lia. }
    assert (Hle : 2 ^ Z.log2 (fm x) * 2 ^ (fe x - emin) < 2 ^ (1024 - emin)).
    { apply (fval_lt _ _ emin) in Hb; cbn [two_1024 fm fe] in *; [|unfold emin in *; lia..].
      rewrite Z.mul_1_l in Hb. pose proof (Z.pow_pos_nonneg 2 (fe x - emin) ltac:(lia) ltac:(lia)). nia. }
    rewrite <- Z.pow_add_r in Hle by lia. apply Z.pow_lt_mono_r_iff in Hle; [|lia|unfold emin; lia].
    exists (F (fm x / 2 ^ k) (fe x + k)). split; [split; [unfold frep; cbn [fm]; lia|cbn [fe]; unfold k; lia]|].
    rewrite fval_shift by lia. pose proof (two_pow_pos (fe x)) as Hp. unfold fval in *.
    pose proof (Z.div_mod (fm x) (2 ^ k) ltac:(lia)) as Hd. pose proof (Z.mod_pos_bound (fm x) (2 ^ k) ltac:(lia)) as Hm.
    assert (H1 : (inject_Z (fm x / 2 ^ k * 2 ^ k) <= inject_Z (fm x))%Q) by (rewrite <- Zle_Qle; lia).
    assert (H2 : (inject_Z (fm x) * (1 - (1 # 4503599627370496)) <= inject_Z (fm x / 2 ^ k * 2 ^ k))%Q).
    { assert (Hz : fm x * (2 ^ 52 - 1) <= fm x / 2 ^ k * 2 ^ k * 2 ^ 52) by nia.
      rewrite Zle_Qle, !(inject_Z_mult _ (_ ^ 52)), inject_Z_mult in Hz.
      change (inject_Z (2 ^ 52 - 1)) with (4503599627370495 # 1)%Q in Hz.
      change (inject_Z (2 ^ 52)) with (4503599627370496 # 1)%Q in Hz. lra. }
    split; [|apply Qmult_le_compat_r; lra].
    assert (E : (inject_Z (fm x) * 2 ^ fe x * (1 - (1 # 4503599627370496)) ==
      inject_Z (fm x) * (1 - (1 # 4503599627370496)) * 2 ^ fe x)%Q) by ring.
    rewrite E. apply Qmult_le_compat_r; lra.
Qed.

(** [lo + r * (hi - lo)] for [r] in [2^-32, 1 - 2^-32]. *)
Lemma between_bounds lo hi r :
  drep lo -> drep hi -> (fval lo < fval hi)%Q -> ((1 # 4294967296) <= fval r <= 1 - (1 # 4294967296))%Q ->
  let v := dadd (Fin lo) (dmul (Fin r) (dsub (Fin hi) (Fin lo))) in
  ((fval hi - fval lo < fval overflow_at)%Q -> exists x, v = Fin x /\ (fval lo <= fval x <= fval hi)%Q) /\
  ((fval overflow_at <= fval hi - fval lo)%Q -> v = Inf false).
Proof.
  intros Hlo Hhi Hlt Hr. cbv zeta. destruct (dsub_cases lo hi Hlo Hhi Hlt) as [(Hs & -> & Hb)|[Hs ->]].
  - split; [intros _|lra]. set (x := exact_add hi (fopp lo)) in *. set (d := fround x) in *.
    assert (Ex : (fval x == fval hi - fval lo)%Q) by apply exact_sub_val.
    assert (Hx : 0 < fm x) by (apply fval_pos_fm; lra).
    assert (He : emin <= fe x <= 971) by (destruct Hlo as [_ ?], Hhi as [_ ?]; unfold x, exact_add; cbn [fe fopp]; lia).
    assert (Hx2 : (fval x < fval two_1024)%Q).
    { apply Qlt_trans with (fval overflow_at); [lra|]. reflexivity. }
    destruct (drep_under x Hx He Hx2) as (y & Hy & Hy1 & Hy2).
    assert (Hd : (0 <= fval d <= fval x * (1 + funit))%Q)
      by (split; [apply fval_nonneg, fround_nonneg; lia|apply fround_upper; lia]).
    assert (Hz : drep (F 0 0)) by (split; [reflexivity|cbn; unfold emin; lia]).
    cbn [dmul]. destruct (dround_between (F 0 0) y (exact_mul r d) Hz Hy) as [-> [T1 T2]].
    { unfold exact_mul. rewrite fval_mul. change (fval (F 0 0)) with 0%Q.
      assert (Hv : (0 < fval x)%Q) by now apply fval_pos. unfold funit in Hd. split; [nra|].
      eapply Qle_trans; [|exact Hy1].
      apply Qle_trans with ((1 - (1 # 4294967296)) * (fval x * (1 + (1 # 9007199254740992))))%Q; [nra|lra]. }
    change (fval (F 0 0)) with 0%Q in T1. cbn [dadd]. set (t := dcut (exact_mul r d)) in *.
    destruct (dround_between lo hi (exact_add lo t) Hlo Hhi) as [-> B]; [unfold exact_add; rewrite fval_add; lra|].
    eexists. split; [reflexivity|exact B].
  - split; [lra|intros _]. cbn [dmul]. assert (Hr0 : 0 < fm r) by (apply fval_pos_fm; lra).
    destruct (Z.eqb_spec (fm r) 0); [lia|]. destruct (Z.ltb_spec (fm r) 0); [lia|]. reflexivity.
Qed.

Lemma drawn_value i s : seeds_ok (Seed s) ->
  let j := if (i <? 0) || (MAX_STREAM <? i) then 0 else i in
  0 < value (seed_at (upd_seed j (with_value NextRand) s) j) < nM /\ seeds_ok (Seed (upd_seed j (with_value NextRand) s)).
Proof.
  intros Hs j. assert (Hj : 0 <= j < 48).
  { unfold j, MAX_STREAM. destruct (Z.ltb_spec i 0), (Z.ltb_spec 47 i); cbn [orb]; lia. }
  assert (Hok : seeds_ok (Seed (upd_seed j (with_value NextRand) s))).
  { destruct Hs as [Hlen Hall]. split; [cbn; now rewrite length_alter|].
    apply Forall_alter_id; [|done]. intros e He. apply NextRand_ok, He. }
  split; [|exact Hok]. pose proof (seed_at_ok _ j Hok Hj) as H. unfold seed_ok in H. lia.
Qed.

(** ** What they return *)

Lemma unit_draw_pos v : 0 < v < nM -> (1 # 4294967296 <= fval (fdiv (f_of_Z v) dM))%Q.
Proof.
  intros Hv. unfold nM in *. rewrite f_of_Z_exact by lia. unfold dM, nM, fdiv. cbn [fm fe].
  rewrite !Z.sgn_pos, !Z.abs_eq, Z.mul_1_l by lia. change (1 # 4294967296)%Q with (fval (F 1 (-32))).
  set (k := Z.max 0 _). assert (Hk : 56 <= k).
  { unfold k. pose proof (Z.log2_le_mono v 2147483647 ltac:(lia)). lia. }
  apply fround_ge; [reflexivity|]. apply (fval_le _ _ (0 - 0 - k - 1)); cbn [fm fe]; [lia..|].
  rewrite (Z.sub_diag (0 - 0 - k - 1)), Z.shiftl_0_r, Z.shiftl_mul_pow2, Z.mul_1_l by lia.
  replace (-32 - (0 - 0 - k - 1)) with (1 + (k - 32)) by lia. rewrite Z.pow_add_r by lia.
  assert (Hq : 2 ^ (k - 32) <= v * 2 ^ k / 2147483647).
  { apply Z.div_le_lower_bound; [lia|]. replace (2 ^ k) with (2 ^ 32 * 2 ^ (k - 32)) by (rewrite <- Z.pow_add_r by lia; f_equal; lia).
    pose proof (Z.pow_pos_nonneg 2 (k - 32) ltac:(lia) ltac:(lia)). nia. }
  destruct (_ =? 0); lia.
Qed.

(** C31. [UnifReal] between two finite doubles, in either order: when their distance is below
    [2^1024 - 2^970], where it still rounds to a finite double, the result is a finite double
    between them, and rounding may take it to a bound; from that distance on, the
    distance overflows and the result is the infinity, outside the bounds. The streams stay valid. *)
Theorem UnifReal_range lo hi i s :
  seeds_ok (Seed s) -> drep lo -> drep hi ->
  let low := if fltb hi lo then hi else lo in
  let high := if fltb hi lo then lo else hi in
  (fval low <= fval high)%Q /\
  wp (UnifReal (Fin lo) (Fin hi) i)
    (fun v s' =>
       ((fval high - fval low < fval overflow_at)%Q ->
          exists x, v = Fin x /\ (fval low <= fval x <= fval high)%Q) /\
       ((fval overflow_at <= fval high - fval low)%Q -> v = Inf false) /\
       seeds_ok (Seed s')) s.
Proof.
  intros Hs Hlo Hhi. cbv zeta. destruct (drawn_value i s Hs) as [Hv Hok]. unfold UnifReal. cbv zeta. cbn [deqb dltb].
  set (j := if (i <? 0) || (MAX_STREAM <? i) then 0 else i) in *. unfold feqb.
  pose proof (unit_draw _ Hv) as Hu. pose proof (unit_draw_pos _ Hv) as Hu0.
  destruct (fltb lo hi) eqn:E1; [|destruct (fltb hi lo) eqn:E2].
  - cbn [negb andb]. apply fltb_lt in E1. destruct (fltb hi lo) eqn:E2; [apply fltb_lt in E2; lra|]. split; [lra|].
    apply wp_bind, wp_modify, wp_bind, wp_gets, wp_ret. unfold unit_of.
    destruct (between_bounds lo hi _ Hlo Hhi E1 (conj Hu0 (proj2 Hu))) as [B1 B2]. auto.
  - cbn [negb andb]. apply fltb_lt in E2. split; [lra|].
    apply wp_bind, wp_modify, wp_bind, wp_gets, wp_ret. unfold unit_of.
    destruct (between_bounds hi lo _ Hhi Hlo E2 (conj Hu0 (proj2 Hu))) as [B1 B2]. auto.
  - assert (N1 : ~ (fval lo < fval hi)%Q) by (intros H; apply fltb_lt in H; congruence).
    assert (N2 : ~ (fval hi < fval lo)%Q) by (intros H; apply fltb_lt in H; congruence).
    cbn [negb andb]. split; [lra|]. apply wp_ret. split_and!; [|intros H|exact Hs].
    + intros _. exists lo. split; [reflexivity|lra].
    + exfalso. assert (Hpos : (0 < fval overflow_at)%Q) by reflexivity. lra.
Qed.

Lemma UnifReal_range_witness :
  (fval (F 1 (-1)) <= fval (F 5 0))%Q /\
  wp (UnifReal (Fin (F 5 0)) (Fin (F 1 (-1))) 12)
    (fun v s' =>
       ((fval (F 5 0) - fval (F 1 (-1)) < fval overflow_at)%Q ->
          exists x, v = Fin x /\ (fval (F 1 (-1)) <= fval x <= fval (F 5 0))%Q) /\
       ((fval overflow_at <= fval (F 5 0) - fval (F 1 (-1)))%Q -> v = Inf false) /\
       seeds_ok (Seed s')) st_start.
Proof.
  apply (UnifReal_range (F 5 0) (F 1 (-1)));
    [exact Seed_init_ok|split; [reflexivity|cbn; unfold emin; lia]|split; [reflexivity|cbn; unfold emin; lia]].
Defined.

(** The bounds are not excluded: there is no number between [2^52] and [2^52 + 1]. *)
Example UnifReal_endpoint :
  match UnifReal (Fin (F (2 ^ 52) 0)) (Fin (F (2 ^ 52 + 1) 0)) 1 st_start with
  | Ok v _ => deqb v (Fin (F (2 ^ 52) 0)) || deqb v (Fin (F (2 ^ 52 + 1) 0))
  | Stop _ _ => false
  end = true.
Proof. vm_compute. reflexivity. Qed.

(** Finite bounds, an infinite result. *)
Example UnifReal_overflow :
  match UnifReal (Fin (F (-1) 1023)) (Fin (F 1 1023)) 1 st_start with Ok v _ => v = Inf false | Stop _ _ => False end.
Proof. vm_compute. reflexivity. Qed.

Lemma fval_sign_neg x : (fval x <= 0)%Q -> fm x <= 0.
Proof. intros H. destruct (Z.le_gt_cases (fm x) 0) as [|Hp]; [assumption|]. apply Z.lt_gt, Z.gt_lt, fval_pos in Hp. lra. Qed.

(** What rounding makes of a number that is not negative. *)
Lemma dround_nonneg x : 0 <= fm x -> dround x = Inf false \/ exists y, dround x = Fin y /\ (0 <= fval y)%Q.
Proof.
  intros Hx. unfold dround. destruct (too_big (dcut x)).
  - left. f_equal. apply Z.ltb_ge. lia.
  - right. eexists. split; [reflexivity|]. change 0%Q with (fval (F 0 0)). apply dcut_ge.
    + split; [reflexivity|cbn; unfold emin; lia].
    + now apply fval_nonneg.
Qed.

(** [Exponential] returns 0 for a mean that is not positive and otherwise a number that is
    not negative, or the infinity, if the logarithm of a number between 0 and 1 is a
    negative number. A small mean can underflow to 0. *)
Theorem Exponential_sign log mean i s :
  (forall x, (0 < fval x < 1)%Q -> exists y, log (Fin x) = Fin y /\ (fval y < 0)%Q) -> seeds_ok (Seed s) ->
  wp (Exponential log (Fin mean) i)
    (fun v s' => ((fval mean <= 0)%Q -> v = Fin fzero) /\
                 (v = Inf false \/ exists x, v = Fin x /\ (0 <= fval x)%Q) /\ seeds_ok (Seed s')) s.
Proof.
  intros Hlog Hs. destruct (drawn_value i s Hs) as [Hv Hok]. unfold Exponential. cbv zeta. cbn [dltb deqb]. unfold feqb.
  set (j := if (i <? 0) || (MAX_STREAM <? i) then 0 else i) in *.
  assert (Hz : (fval fzero == 0)%Q) by reflexivity.
  destruct (fltb mean fzero) eqn:E1; [|destruct (fltb fzero mean) eqn:E2]; cbn [negb orb andb].
  - apply wp_ret. split_and!; [reflexivity| |exact Hs]. right. exists fzero. split; [reflexivity|lra].
  - apply fltb_lt in E2. apply wp_bind, wp_modify, wp_bind, wp_gets, wp_ret.
    split_and!; [intros H; lra| |exact Hok]. unfold unit_of. set (r := fdiv _ dM).
    pose proof (unit_draw _ Hv) as Hr. pose proof (unit_draw_pos _ Hv) as Hr0. fold r in Hr, Hr0.
    unfold dsub. cbn [dopp dadd].
    destruct (dround_between (F 1 (-32)) (F 4294967295 (-32)) (exact_add fone (fopp r))) as [-> B];
      [split; [reflexivity|cbn; unfold emin; lia]|split; [reflexivity|cbn; unfold emin; lia]| |].
    { rewrite exact_sub_val. change (fval fone) with 1%Q. change (fval (F 1 (-32))) with (1 # 4294967296)%Q.
      change (fval (F 4294967295 (-32))) with (4294967295 # 4294967296)%Q. lra. }
    change (fval (F 1 (-32))) with (1 # 4294967296)%Q in B.
    change (fval (F 4294967295 (-32))) with (4294967295 # 4294967296)%Q in B.
    destruct (Hlog (dcut (exact_add fone (fopp r))) ltac:(lra)) as (y & -> & Hy). cbn [dopp dmul].
    apply dround_nonneg. unfold exact_mul. cbn [fm].
    assert (0 < fm mean) by (apply fval_pos; lra). assert (fm y <= 0) by (apply fval_sign_neg; lra). cbn [fopp fm]. nia.
  - apply wp_ret. split_and!; [reflexivity| |exact Hs]. right. exists fzero. split; [reflexivity|lra].
Qed.

(** A stand-in for the logarithm with the sign it has. *)
Lemma Exponential_sign_witness :
  wp (Exponential (fun _ => Fin (F (-1) 0)) (Fin (F 3 0)) 5)
    (fun v s' => ((fval (F 3 0) <= 0)%Q -> v = Fin fzero) /\
                 (v = Inf false \/ exists x, v = Fin x /\ (0 <= fval x)%Q) /\ seeds_ok (Seed s')) st_start.
Proof. apply Exponential_sign; [|exact Seed_init_ok]. intros x _. eexists. split; reflexivity. Defined.
