(* ===== verification/Bcd2.v ===== *)
(** Two-word packed decimal arithmetic: bcd2.c. A number is a pair of longs, seven
    decimal digits in each, four bits per digit. *)
From S2P Require Import Prelude CString.

Definition DIGITS_PER_LONG : Z := 7.

Definition GET_DIGIT (num low high : Z) : Z :=
  if DIGITS_PER_LONG <=? num then
    Z.shiftr (Z.land high (Z.shiftl 0xF (4 * (num - DIGITS_PER_LONG)))) ((num - DIGITS_PER_LONG) * 4)
  else Z.shiftr (Z.land low (Z.shiftl 0xF (4 * num))) (num * 4).

(** [SET_DIGIT(value, num, low, high)]: the new contents of the two words. *)
Definition SET_DIGIT (value num : Z) (p : Z * Z) : Z * Z :=
  let '(low, high) := p in
  if DIGITS_PER_LONG <=? num then
    (low,
     Z.lor (Z.land high (Z.lxor 0xFFFFFFF (Z.shiftl 0xF (4 * (num - DIGITS_PER_LONG)))))
       (Z.shiftl value (4 * (num - DIGITS_PER_LONG))))
  else
    (Z.lor (Z.land low (Z.lxor 0xFFFFFFF (Z.shiftl 0xF (4 * num)))) (Z.shiftl value (4 * num)),
     high).

(** [int bin_bcd2(long binary, long *low_res, long *high_res)]: the two results. The
    text of a number of more than 14 characters overruns [number]; the loop then runs
    over all of it. *)
Fixpoint bin_bcd2_loop (number : string) (count low high : Z) : Z * Z :=
  match number with
  | EmptyString => (low, high)
  | String c number =>
      let d := char_code c - 48 in
      if count <? DIGITS_PER_LONG
      then bin_bcd2_loop number (count - 1) (Z.lor (Z.shiftl low 4) d) high
      else bin_bcd2_loop number (count - 1) low (Z.lor (Z.shiftl high 4) d)
  end.

Definition bin_bcd2 (binary : Z) : Z * Z := bin_bcd2_loop (fmt_0d 14 binary) 13 0 0.

(** [int bcd2_bin(long *dest, long bcd)]: the value stored, whatever was there before;
    the mask [0xF000000] reaches 0 after seven shifts. *)
Fixpoint bcd2_bin_loop (fuel : nat) (mask count dest bcd : Z) : Z :=
  match fuel with
  | O => dest
  | S fuel =>
      if mask =? 0 then dest
      else bcd2_bin_loop fuel (Z.shiftr mask 4) (count - 1)
             (dest * 10 + Z.shiftr (Z.land bcd mask) (4 * count)) bcd
  end.

Definition bcd2_bin (bcd : Z) : Z := bcd2_bin_loop 8 0xF000000 (DIGITS_PER_LONG - 1) 0 bcd.

(** [int bcd2_add(long *bcd_low, long *bcd_high, long addend)]: the carry returned and
    the two words. [n] is the number of digits left, [digit] the next one. *)
Fixpoint bcd2_add_loop (n : nat) (digit tmp_lo tmp_hi carry : Z) (p : Z * Z) : Z * (Z * Z) :=
  match n with
  | O => (carry, p)
  | S n =>
      let res := GET_DIGIT digit (fst p) (snd p) in
      let res := res + GET_DIGIT digit tmp_lo tmp_hi in
      let res := res + carry in
      let carry := res /c 10 in
      let res := res %c 10 in
      bcd2_add_loop n (digit + 1) tmp_lo tmp_hi carry (SET_DIGIT res digit p)
  end.

Definition bcd2_add (p : Z * Z) (addend : Z) : Z * (Z * Z) :=
  let '(tmp_lo, tmp_hi) := bin_bcd2 addend in bcd2_add_loop 14 0 tmp_lo tmp_hi 0 p.

(** [int bcd2_sub(long *bcd_low, long *bcd_high, long subend)] *)
Fixpoint bcd2_sub_loop (n : nat) (digit tmp_lo tmp_hi carry : Z) (p : Z * Z) : Z * (Z * Z) :=
  match n with
  | O => (carry, p)
  | S n =>
      let res := GET_DIGIT digit (fst p) (snd p) in
      let res := res - GET_DIGIT digit tmp_lo tmp_hi in
      let res := res - carry in
      let '(res, carry) := if res <? 0 then (res + 10, 1) else (res, carry) in
      bcd2_sub_loop n (digit + 1) tmp_lo tmp_hi carry (SET_DIGIT res digit p)
  end.

Definition bcd2_sub (p : Z * Z) (subend : Z) : Z * (Z * Z) :=
  let '(tmp_lo, tmp_hi) := bin_bcd2 subend in bcd2_sub_loop 14 0 tmp_lo tmp_hi 0 p.

(** [int bcd2_mul(long *bcd_low, long *bcd_high, long multiplier)] *)
Fixpoint bcd2_mul_inner (n : nat) (udigit ldigit m1 tmp_lo tmp_hi carry : Z) (p : Z * Z) : Z * (Z * Z) :=
  match n with
  | O => (carry, p)
  | S n =>
      let m2 := GET_DIGIT udigit tmp_lo tmp_hi in
      let res := m1 * m2 in
      let res := res + carry in
      let res :=
        if udigit + ldigit <? 14 then res + GET_DIGIT (udigit + ldigit) (fst p) (snd p) else res in
      let carry := res /c 10 in
      let res := res %c 10 in
      let p := if udigit + ldigit <? 14 then SET_DIGIT res (udigit + ldigit) p else p in
      bcd2_mul_inner n (udigit + 1) ldigit m1 tmp_lo tmp_hi carry p
  end.

Fixpoint bcd2_mul_outer (n : nat) (ldigit m_lo m_hi tmp_lo tmp_hi carry : Z) (p : Z * Z) : Z * (Z * Z) :=
  match n with
  | O => (carry, p)
  | S n =>
      let m1 := GET_DIGIT ldigit m_lo m_hi in
      let '(carry, p) := bcd2_mul_inner 14 0 ldigit m1 tmp_lo tmp_hi 0 p in
      bcd2_mul_outer n (ldigit + 1) m_lo m_hi tmp_lo tmp_hi carry p
  end.

Definition bcd2_mul (p : Z * Z) (multiplier : Z) : Z * (Z * Z) :=
  let '(m_lo, m_hi) := bin_bcd2 multiplier in
  bcd2_mul_outer 14 0 m_lo m_hi (fst p) (snd p) 0 (0, 0).

(** [int bcd2_div(long *bcd_low, long *bcd_high, long divisor)], [divisor <> 0]: the [long]
    carry is returned through an [int]. *)
Fixpoint bcd2_div_loop (n : nat) (digit tmp_lo tmp_hi divisor carry : Z) (p : Z * Z) : Z * (Z * Z) :=
  match n with
  | O => (carry, p)
  | S n =>
      let d1 := GET_DIGIT digit tmp_lo tmp_hi in
      let d1 := d1 + 10 * carry in
      let res := d1 /c divisor in
      let carry := d1 %c divisor in
      bcd2_div_loop n (digit - 1) tmp_lo tmp_hi divisor carry (SET_DIGIT res digit p)
  end.

Definition bcd2_div (p : Z * Z) (divisor : Z) : Z * (Z * Z) :=
  let '(carry, res) := bcd2_div_loop 14 13 (fst p) (snd p) divisor 0 (0, 0) in
  (wrap_s 32 carry, res).

(** [long bcd2_mod(long *bcd_low, long *bcd_high, long modulo)]; [None] when [fuel]
    subtractions are not enough. *)
Fixpoint bcd2_mod (fuel : nat) (p : Z * Z) (modulo : Z) : option Z :=
  match fuel with
  | O => None
  | S fuel =>
      let '(tmp_low, tmp_high) := p in
      if negb (tmp_high =? 0) || (modulo <? tmp_low)
      then bcd2_mod fuel (snd (bcd2_sub p modulo)) modulo
      else Some tmp_low
  end.

(** [long bcd2_cmp(long *low1, long *high1, long comp)] *)
Definition bcd2_cmp (low1 high1 comp : Z) : Z :=
  let temp := bcd2_bin high1 in
  if 214 <? temp then 1
  else let temp := bcd2_bin low1 in temp - comp.

Example bin_bcd2_example : bin_bcd2 1234567890 = (0x4567890, 0x123). Proof. reflexivity. Qed.
Example bcd2_mul_example : snd (bcd2_mul (bin_bcd2 99999) 12345) = bin_bcd2 1234487655.
Proof. reflexivity. Qed.

(** ** Words as digit lists *)

(** Seven digits in one word, least significant first. *)
Definition pack (l : list Z) : Z := digits_val 16 l.
Definition digit_ok (d : Z) : Prop := 0 <= d < 10.
Definition digits (b : Z) (l : list Z) : Prop := Forall (fun d => 0 <= d < b) l.

(** A digit list of length 14 as the two words. *)
Definition words (l : list Z) : Z * Z := (pack (take 7 l), pack (drop 7 l)).

Lemma pack_range b l : 0 < b -> digits b l -> 0 <= digits_val b l < b ^ Z.of_nat (length l).
Proof.
  intros Hb. induction 1 as [|d l Hd Hl IH]; cbn [digits_val length]; [lia|].
  rewrite Nat2Z.inj_succ, Z.pow_succ_r by lia. nia.
Qed.

(** [land] with a nibble mask reads a nibble. *)
Lemma nibble x k : 0 <= k -> Z.shiftr (Z.land x (Z.shiftl 0xF k)) k = x / 2 ^ k mod 16.
Proof.
  intros Hk. rewrite Z.shiftr_land, Z.shiftr_shiftl_l, Z.sub_diag, Z.shiftl_0_r by lia.
  change 0xF with (Z.ones 4). now rewrite Z.land_ones, Z.shiftr_div_pow2.
Qed.

Lemma pack_nth l : forall k, digits 16 l -> (k < length l)%nat ->
  pack l / 2 ^ (4 * Z.of_nat k) mod 16 = nth k l 0.
Proof.
  induction l as [|d l IH]; intros k Hd Hk; cbn [length] in Hk; [lia|].
  inversion Hd as [|? ? Hd0 Hdl]; subst. unfold pack; cbn [digits_val]. fold (pack l).
  destruct k as [|k]; cbn [nth].
  - change (2 ^ (4 * Z.of_nat 0)) with 1. rewrite Z.div_1_r, Z.add_comm, Z.mul_comm.
    rewrite Z.add_comm, Z.mod_add by lia. apply Z.mod_small. lia.
  - rewrite <- (IH k) by (done || lia). f_equal.
    replace (4 * Z.of_nat (S k)) with (4 + 4 * Z.of_nat k) by lia.
    rewrite Z.pow_add_r, <- Z.div_div by lia. f_equal. change (2 ^ 4) with 16. zdiv.
Qed.

Lemma digits_val_insert b l : forall k v, (k < length l)%nat ->
  digits_val b (<[k := v]> l) = digits_val b l + (v - nth k l 0) * b ^ Z.of_nat k.
Proof.
  induction l as [|d l IH]; intros k v Hk; cbn [length] in Hk; [lia|].
  destruct k as [|k]; cbn [nth].
  - cbn [insert list_insert digits_val]. change (b ^ Z.of_nat 0) with 1. lia.
  - change (<[S k := v]> (d :: l)) with (d :: <[k := v]> l). cbn [digits_val].
    rewrite IH, Nat2Z.inj_succ, Z.pow_succ_r by lia. ring.
Qed.

Lemma testbit_small v n j : 0 <= v < 2 ^ n -> 0 <= n <= j -> Z.testbit v j = false.
Proof. intros Hv Hj. rewrite <- (Z.mod_small v (2 ^ n)) by done. apply Z.mod_pow2_bits_high. lia. Qed.

Lemma lor_add a b : Z.land a b = 0 -> Z.lor a b = a + b.
Proof. intros H. rewrite Z.add_nocarry_lxor by done. symmetry. now apply Z.lxor_lor. Qed.

(** Clearing a nibble of a seven-digit word and setting it. *)
Lemma set_nibble x v k :
  0 <= x < 2 ^ 28 -> 0 <= v < 16 -> 0 <= k <= 24 ->
  Z.lor (Z.land x (Z.lxor 0xFFFFFFF (Z.shiftl 0xF k))) (Z.shiftl v k) =
  x + (v - x / 2 ^ k mod 16) * 2 ^ k.
Proof.
  intros Hx Hv Hk. set (m := Z.shiftl 0xF k).
  assert (Hm : Z.land x (Z.lxor 0xFFFFFFF m) = Z.ldiff x m).
  { apply Z.bits_inj'. intros i Hi. rewrite Z.land_spec, Z.lxor_spec, Z.ldiff_spec.
    change 0xFFFFFFF with (Z.ones 28). destruct (Z_lt_le_dec i 28).
    - rewrite Z.ones_spec_low by lia. now destruct (Z.testbit m i).
    - now rewrite (testbit_small x 28) by lia. }
  assert (Hsplit : x = Z.ldiff x m + Z.land x m).
  { rewrite <- lor_add; [symmetry; apply Z.lor_ldiff_and|]. apply Z.bits_inj'. intros i Hi.
    rewrite !Z.land_spec, Z.ldiff_spec, Z.bits_0.
    destruct (Z.testbit x i), (Z.testbit m i); reflexivity. }
  assert (Hand : Z.land x m = (x / 2 ^ k mod 16) * 2 ^ k).
  { rewrite <- nibble by lia. fold m. rewrite <- Z.shiftl_mul_pow2 by lia.
    apply Z.bits_inj'. intros i Hi. destruct (Z_lt_le_dec i k).
    - rewrite Z.shiftl_spec_low by lia. unfold m. rewrite Z.land_spec, Z.shiftl_spec_low by lia.
      apply andb_false_r.
    - rewrite Z.shiftl_spec, Z.shiftr_spec by lia. f_equal. lia. }
  rewrite Hm, lor_add; [rewrite Z.shiftl_mul_pow2 by lia; lia|].
  apply Z.bits_inj'. intros i Hi. rewrite Z.land_spec, Z.ldiff_spec, Z.bits_0. unfold m.
  destruct (Z_lt_le_dec i k); [rewrite (Z.shiftl_spec_low v) by lia; apply andb_false_r|].
  rewrite !Z.shiftl_spec by lia. change 0xF with (Z.ones 4). destruct (Z_lt_le_dec (i - k) 4).
  - rewrite Z.ones_spec_low by lia. cbn [negb]. now rewrite andb_false_r.
  - rewrite (testbit_small v 4) by lia. apply andb_false_r.
Qed.

Lemma digits_mono b b' l : b <= b' -> digits b l -> digits b' l.
Proof. intros Hb H. eapply Forall_impl; [exact H|]. cbn. intros d Hd. lia. Qed.

Lemma digits_insert b l k v : digits b l -> 0 <= v < b -> digits b (<[k := v]> l).
Proof. intros Hl Hv. now apply Forall_insert. Qed.

Lemma set_pack l k v :
  digits 16 l -> length l = 7%nat -> (k < 7)%nat -> 0 <= v < 16 ->
  Z.lor (Z.land (pack l) (Z.lxor 0xFFFFFFF (Z.shiftl 0xF (4 * Z.of_nat k))))
    (Z.shiftl v (4 * Z.of_nat k)) = pack (<[k := v]> l).
Proof.
  intros Hl Hlen Hk Hv. pose proof (pack_range 16 l ltac:(lia) Hl) as Hr. rewrite Hlen in Hr.
  rewrite set_nibble by (unfold pack; lia). rewrite pack_nth by (done || lia).
  unfold pack. rewrite digits_val_insert by lia. do 2 f_equal.
  rewrite Z.pow_mul_r by lia. done.
Qed.

(** Reading and writing a digit of [words l]. *)
Lemma GET_DIGIT_words l k :
  digits 16 l -> length l = 14%nat -> (k < 14)%nat ->
  GET_DIGIT (Z.of_nat k) (fst (words l)) (snd (words l)) = nth k l 0.
Proof.
  intros Hl Hlen Hk. unfold GET_DIGIT, words, DIGITS_PER_LONG; cbn [fst snd].
  rewrite <- (take_drop 7 l) at 3. destruct (Z.leb_spec 7 (Z.of_nat k)).
  - replace ((Z.of_nat k - 7) * 4) with (4 * (Z.of_nat k - 7)) by lia.
    rewrite nibble by lia. replace (Z.of_nat k - 7) with (Z.of_nat (k - 7)) by lia.
    rewrite pack_nth by (first [apply Forall_drop; done | rewrite length_drop; lia]).
    rewrite app_nth2; rewrite length_take; [|lia]. f_equal. lia.
  - replace (Z.of_nat k * 4) with (4 * Z.of_nat k) by lia. rewrite nibble by lia.
    rewrite pack_nth by (first [apply Forall_take; done | rewrite length_take; lia]).
    rewrite app_nth1; [done|]. rewrite length_take. lia.
Qed.

Lemma SET_DIGIT_words l k v :
  digits 16 l -> length l = 14%nat -> (k < 14)%nat -> 0 <= v < 16 ->
  SET_DIGIT v (Z.of_nat k) (words l) = words (<[k := v]> l).
Proof.
  intros Hl Hlen Hk Hv. unfold SET_DIGIT, words, DIGITS_PER_LONG.
  destruct (Z.leb_spec 7 (Z.of_nat k)).
  - replace (Z.of_nat k - 7) with (Z.of_nat (k - 7)) by lia.
    rewrite set_pack by (first [apply Forall_drop; done | rewrite ?length_drop; lia]).
    rewrite take_insert_ge, drop_insert_ge by lia. done.
  - rewrite set_pack by (first [apply Forall_take; done | rewrite ?length_take; lia]).
    rewrite take_insert_lt, drop_insert_lt by lia. done.
Qed.

(** ** Decimal values *)

(** A pair of words that holds 14 decimal digits, and its value. *)
Definition bcd_rep (p : Z * Z) (l : list Z) : Prop :=
  p = words l /\ length l = 14%nat /\ digits 10 l.
Definition dval (l : list Z) : Z := digits_val 10 l.

(** The decimal digits of [n], least significant first. *)
Fixpoint dec_list (k : nat) (n : Z) : list Z :=
  match k with O => [] | S k => n mod 10 :: dec_list k (n / 10) end.

Lemma dec_list_length k n : length (dec_list k n) = k.
Proof. revert n. induction k as [|k IH]; intros n; cbn; [done|]. now rewrite IH. Qed.

Lemma dec_list_digits k n : digits 10 (dec_list k n).
Proof.
  revert n. induction k as [|k IH]; intros n; cbn; constructor; [|apply IH].
  apply Z.mod_pos_bound. lia.
Qed.

Lemma dec_list_val k n : 0 <= n -> dval (dec_list k n) = n mod 10 ^ Z.of_nat k.
Proof.
  unfold dval. revert n. induction k as [|k IH]; intros n Hn; cbn [dec_list digits_val].
  - now rewrite Z.mod_1_r.
  - rewrite IH by (apply Z.div_pos; lia). rewrite Nat2Z.inj_succ, Z.pow_succ_r by lia.
    assert (0 < 10 ^ Z.of_nat k) by (apply Z.pow_pos_nonneg; lia).
    rewrite Z.rem_mul_r by lia. lia.
Qed.

(** A value below [10^14] has one list of 14 digits. *)
Lemma digits_val_inj b l1 l2 :
  0 < b -> digits b l1 -> digits b l2 -> length l1 = length l2 ->
  digits_val b l1 = digits_val b l2 -> l1 = l2.
Proof.
  intros Hb H1. revert l2. induction H1 as [|d1 l1 Hd1 Hl1 IH]; intros [|d2 l2] H2 Hlen Hv;
    cbn in Hlen; try done. inversion H2; subst. cbn [digits_val] in Hv.
  assert (d1 = d2 /\ digits_val b l1 = digits_val b l2) as [ -> Hv'].
  { assert (d1 = d2) by (rewrite <- (Z.mod_small d1 b), <- (Z.mod_small d2 b) by lia;
      rewrite <- (Z.mod_add d1 (digits_val b l1)), <- (Z.mod_add d2 (digits_val b l2)) by lia;
      f_equal; lia). split; [done|]. nia. }
  f_equal. apply IH; [done|lia|done].
Qed.

Lemma dval_range l : digits 10 l -> length l = 14%nat -> 0 <= dval l < 10 ^ 14.
Proof. intros Hl Hlen. pose proof (pack_range 10 l ltac:(lia) Hl) as H. now rewrite Hlen in H. Qed.

Create HintDb bcd.
#[export] Hint Resolve digits_insert dec_list_digits : bcd.

Lemma nth_digit b l k : 0 < b -> digits b l -> 0 <= nth k l 0 < b.
Proof.
  intros Hb Hl. destruct (nth_in_or_default k l 0) as [Hin| ->]; [|lia].
  unfold digits in Hl. rewrite List.Forall_forall in Hl. now apply Hl.
Qed.

(** *** Conversion from and to binary *)

Lemma digits_val_app b l1 l2 :
  digits_val b (l1 ++ l2) = digits_val b l1 + b ^ Z.of_nat (length l1) * digits_val b l2.
Proof.
  induction l1 as [|d l1 IH]; cbn [app digits_val length].
  - change (b ^ Z.of_nat 0) with 1. lia.
  - rewrite IH, Nat2Z.inj_succ, Z.pow_succ_r by lia. ring.
Qed.

Lemma digits_val_zeros b k : digits_val b (repeat 0 k) = 0.
Proof. induction k as [|k IH]; cbn [repeat digits_val]; lia. Qed.

(** A digit list, most significant first, as text. *)
Fixpoint text_of (m : list Z) : string :=
  match m with [] => "" | d :: m => String (digit_char d) (text_of m) end.

Lemma text_of_app m1 m2 : text_of (m1 ++ m2) = text_of m1 +:+ text_of m2.
Proof. induction m1 as [|d m1 IH]; cbn [app text_of]; [done|]. now rewrite IH, app_cons_s. Qed.

Lemma digits_string_text l : digits_string l = text_of (rev l).
Proof.
  unfold digits_string. enough (H : forall acc,
    fold_left (fun acc d => String (digit_char d) acc) l acc = text_of (rev l) +:+ acc).
  { rewrite H. generalize (text_of (rev l)). intros s. induction s; [done|].
    rewrite app_cons_s. now f_equal. }
  induction l as [|d l IH]; intros acc; cbn [fold_left rev]; [done|].
  rewrite IH, text_of_app. cbn [text_of]. generalize (text_of (rev l)). intros s.
  induction s as [|a s IHs]; [done|]. rewrite !app_cons_s. now f_equal.
Qed.

Lemma text_of_zeros k : text_of (repeat 0 k) = rep k "0".
Proof. induction k as [|k IH]; cbn [repeat text_of rep]; [done|]. now rewrite IH. Qed.

Lemma strlen_text_of m : strlen (text_of m) = Z.of_nat (length m).
Proof. unfold strlen. induction m as [|d m IH]; cbn [text_of String.length length]; lia. Qed.

(** The 14-digit text of a number below [10^14] is its digits. *)
Lemma fmt_0d_digits w n :
  (1 <= w <= 20)%nat -> 0 <= n < 10 ^ Z.of_nat w ->
  fmt_0d (Z.of_nat w) n = text_of (rev (dec_list w n)).
Proof.
  intros Hw Hn. unfold fmt_0d. destruct (Z.ltb_spec n 0); [lia|].
  pose proof (udec_length n w ltac:(lia) Hn) as Hlen. unfold lpad.
  unfold udec in *. rewrite digits_string_text in *. set (l := digits_of 20 10 n) in *.
  assert (Hll : strlen (text_of (rev l)) = Z.of_nat (length l)).
  { now rewrite strlen_text_of, length_rev. }
  rewrite Hll in *. rewrite <- text_of_zeros, <- text_of_app. f_equal.
  replace (dec_list w n) with (l ++ repeat 0 (w - length l)).
  - rewrite rev_app_distr, rev_repeat. do 2 f_equal. lia.
  - apply (digits_val_inj 10); [lia| |apply dec_list_digits| |].
    + apply Forall_app_2; [apply digits_of_bounds; lia|].
      apply List.Forall_forall. intros x Hx. apply repeat_spec in Hx. lia.
    + rewrite length_app, repeat_length, dec_list_length. lia.
    + rewrite digits_val_app, digits_val_zeros. fold (dval (dec_list w n)).
      rewrite dec_list_val, Z.mod_small by lia. unfold l. rewrite digits_of_val; [lia|lia|].
      split; [lia|]. apply Z.lt_le_trans with (10 ^ Z.of_nat w); [lia|].
      apply Z.pow_le_mono_r; lia.
Qed.

Lemma shl_lor x d : 0 <= d < 16 -> Z.lor (Z.shiftl x 4) d = x * 16 + d.
Proof.
  intros Hd. rewrite lor_add; [now rewrite Z.shiftl_mul_pow2 by lia|].
  apply Z.bits_inj'. intros i Hi. rewrite Z.land_spec, Z.bits_0. destruct (Z_lt_le_dec i 4).
  - now rewrite Z.shiftl_spec_low by lia.
  - rewrite (testbit_small d 4) by lia. apply andb_false_r.
Qed.

Lemma bin_bcd2_loop_spec m : forall lo hi,
  digits 10 m ->
  bin_bcd2_loop (text_of m) (Z.of_nat (length m) - 1) lo hi =
  (lo * 16 ^ Z.of_nat (Nat.min (length m) 7) + pack (take 7 (rev m)),
   hi * 16 ^ Z.of_nat (length m - 7) + pack (drop 7 (rev m))).
Proof.
  induction m as [|d m IH]; intros lo hi Hm; cbn [text_of bin_bcd2_loop].
  - cbn. f_equal; lia.
  - inversion Hm as [|? ? Hd Hm']; subst. rewrite digit_code, !shl_lor by lia.
    cbn [length rev]. unfold DIGITS_PER_LONG. pose proof (length_rev m) as Hr.
    replace (Z.of_nat (S (length m)) - 1) with (Z.of_nat (length m)) by lia.
    replace (48 + d - 48) with d by lia.
    destruct (Z.ltb_spec (Z.of_nat (length m)) 7); rewrite IH by done.
    + rewrite !take_ge, !drop_ge by (rewrite ?length_app; cbn; lia). f_equal.
      * unfold pack. rewrite digits_val_app, Hr. cbn [digits_val].
        replace (Nat.min (length m) 7) with (length m) by lia.
        replace (Nat.min (S (length m)) 7) with (S (length m)) by lia.
        rewrite Nat2Z.inj_succ, Z.pow_succ_r by lia. ring.
      * do 3 f_equal. lia.
    + rewrite take_app_le, drop_app_le by lia. f_equal.
      * do 3 f_equal. lia.
      * unfold pack. rewrite digits_val_app, length_drop, Hr. cbn [digits_val].
        replace (S (length m) - 7)%nat with (S (length m - 7)) by lia.
        rewrite Nat2Z.inj_succ, Z.pow_succ_r by lia. ring.
Qed.

Lemma bin_bcd2_words n : 0 <= n < 10 ^ 14 -> bin_bcd2 n = words (dec_list 14 n).
Proof.
  intros Hn. unfold bin_bcd2. change 14 with (Z.of_nat 14).
  rewrite fmt_0d_digits by (cbn; lia).
  change 13 with (Z.of_nat 14 - 1). rewrite <- (dec_list_length 14 n) at 2.
  rewrite <- length_rev, bin_bcd2_loop_spec by (apply Forall_rev, dec_list_digits).
  rewrite rev_involutive. reflexivity.
Qed.

Lemma bin_bcd2_rep n : 0 <= n < 10 ^ 14 -> bcd_rep (bin_bcd2 n) (dec_list 14 n).
Proof.
  intros Hn. split_and!; [now apply bin_bcd2_words|apply dec_list_length|apply dec_list_digits].
Qed.

Lemma bcd2_bin_pack l : length l = 7%nat -> digits 10 l -> bcd2_bin (pack l) = dval l.
Proof.
  intros Hlen Hl.
  assert (Hn : forall k, (k < 7)%nat ->
    Z.shiftr (Z.land (pack l) (Z.shiftl 0xF (4 * Z.of_nat k))) (4 * Z.of_nat k) = nth k l 0).
  { intros k Hk. rewrite nibble by lia. apply pack_nth; [|lia].
    eapply digits_mono; [|exact Hl]. lia. }
  destruct l as [|d0 [|d1 [|d2 [|d3 [|d4 [|d5 [|d6 [|]]]]]]]]; try done.
  set (x := pack _) in *.
  change (bcd2_bin x) with
    (((((((0 * 10 + Z.shiftr (Z.land x (Z.shiftl 0xF 24)) 24) * 10
      + Z.shiftr (Z.land x (Z.shiftl 0xF 20)) 20) * 10
      + Z.shiftr (Z.land x (Z.shiftl 0xF 16)) 16) * 10
      + Z.shiftr (Z.land x (Z.shiftl 0xF 12)) 12) * 10
      + Z.shiftr (Z.land x (Z.shiftl 0xF 8)) 8) * 10
      + Z.shiftr (Z.land x (Z.shiftl 0xF 4)) 4) * 10
      + Z.shiftr (Z.land x (Z.shiftl 0xF 0)) 0).
  pose proof (Hn 0%nat ltac:(lia)) as H0. pose proof (Hn 1%nat ltac:(lia)) as H1.
  pose proof (Hn 2%nat ltac:(lia)) as H2. pose proof (Hn 3%nat ltac:(lia)) as H3.
  pose proof (Hn 4%nat ltac:(lia)) as H4. pose proof (Hn 5%nat ltac:(lia)) as H5.
  pose proof (Hn 6%nat ltac:(lia)) as H6.
  cbn [nth] in *. unfold dval. cbn [digits_val].
  change (4 * Z.of_nat 0) with 0 in H0. change (4 * Z.of_nat 1) with 4 in H1.
  change (4 * Z.of_nat 2) with 8 in H2. change (4 * Z.of_nat 3) with 12 in H3.
  change (4 * Z.of_nat 4) with 16 in H4. change (4 * Z.of_nat 5) with 20 in H5.
  change (4 * Z.of_nat 6) with 24 in H6.
  rewrite H0, H1, H2, H3, H4, H5, H6. ring.
Qed.

(** *** Digit-by-digit loops *)

Lemma nth_insert_ne (l : list Z) i j v d : i <> j -> nth j (<[i := v]> l) d = nth j l d.
Proof. intros H. now rewrite !nth_lookup, list_lookup_insert_ne. Qed.

Lemma nth_insert_eq (l : list Z) i v d : (i < length l)%nat -> nth i (<[i := v]> l) d = v.
Proof. intros H. now rewrite nth_lookup, list_lookup_insert_eq. Qed.

Lemma dval_take_S l k :
  length l = 14%nat -> (k < 14)%nat ->
  dval (take (S k) l) = dval (take k l) + nth k l 0 * 10 ^ Z.of_nat k.
Proof.
  intros Hl Hk. unfold dval.
  assert (E : take (S k) l = take k l ++ [nth k l 0]).
  { destruct (lookup_lt_is_Some_2 l k) as [x Hx]; [lia|].
    rewrite (nth_lookup_Some _ _ _ _ Hx). now apply take_S_r. }
  rewrite E, digits_val_app, length_take_le by lia. cbn [digits_val]. ring.
Qed.

Lemma dval_take_all l : length l = 14%nat -> dval (take 14 l) = dval l.
Proof. intros Hl. now rewrite take_ge by lia. Qed.

Lemma get10 l k :
  digits 10 l -> length l = 14%nat -> (k < 14)%nat ->
  GET_DIGIT (Z.of_nat k) (fst (words l)) (snd (words l)) = nth k l 0.
Proof. intros Hl. apply GET_DIGIT_words. eapply digits_mono; [|exact Hl]. lia. Qed.

Lemma set10 l k v :
  digits 10 l -> length l = 14%nat -> (k < 14)%nat -> 0 <= v < 10 ->
  SET_DIGIT v (Z.of_nat k) (words l) = words (<[k := v]> l) /\
  digits 10 (<[k := v]> l) /\ length (<[k := v]> l) = 14%nat /\
  dval (<[k := v]> l) = dval l + (v - nth k l 0) * 10 ^ Z.of_nat k.
Proof.
  intros Hl Hlen Hk Hv. split_and!.
  - apply SET_DIGIT_words; [eapply digits_mono; [|exact Hl]; lia|lia..].
  - now apply digits_insert.
  - now rewrite length_insert.
  - unfold dval. apply digits_val_insert. lia.
Qed.

Section Loops.
(** The operand, as the words of a digit list. *)
Context (t : list Z) (Ht : length t = 14%nat) (Hdt : digits 10 t).

Lemma bcd2_add_loop_spec n : forall k l carry,
  (n + k = 14)%nat -> length l = 14%nat -> digits 10 l -> 0 <= carry <= 1 ->
  exists c' l',
    bcd2_add_loop n (Z.of_nat k) (fst (words t)) (snd (words t)) carry (words l) = (c', words l') /\
    length l' = 14%nat /\ digits 10 l' /\ 0 <= c' <= 1 /\
    dval l' + c' * 10 ^ 14 = dval l + carry * 10 ^ Z.of_nat k + (dval t - dval (take k t)).
Proof.
  induction n as [|n IH]; intros k l carry Hk Hlen Hl Hc; cbn [bcd2_add_loop].
  - exists carry, l. split_and!; [reflexivity|assumption|assumption|lia|lia|]. replace k with 14%nat by lia.
    rewrite dval_take_all by done. cbn. lia.
  - rewrite !get10 by (done || lia).
    pose proof (nth_digit 10 l k ltac:(lia) Hl). pose proof (nth_digit 10 t k ltac:(lia) Hdt).
    set (r := nth k l 0 + nth k t 0 + carry). rewrite quot_div, rem_mod by lia.
    assert (0 <= r mod 10 < 10) by (apply Z.mod_pos_bound; lia).
    destruct (set10 l k (r mod 10)) as (-> & Hd1 & Hl1 & Hv1); try done || lia.
    replace (Z.of_nat k + 1) with (Z.of_nat (S k)) by lia.
    destruct (IH (S k) (<[k := r mod 10]> l) (r / 10)) as (c' & l' & -> & Hl' & Hd' & Hc' & Hv');
      [lia|done|done|zdiv|].
    exists c', l'. split_and!; [reflexivity|assumption|assumption|lia|lia|]. rewrite Hv', Hv1, dval_take_S by (done || lia).
    rewrite Nat2Z.inj_succ, Z.pow_succ_r by lia.
    pose proof (Z.div_mod r 10 ltac:(lia)). unfold r in *. nia.
Qed.

(** One digit [m1] of the multiplier, at position [ld]. *)
Lemma bcd2_mul_inner_spec m1 ld n : forall u l carry,
  digit_ok m1 -> (n + u = 14)%nat -> length l = 14%nat -> digits 10 l -> 0 <= carry <= 9 ->
  exists c' l' z,
    bcd2_mul_inner n (Z.of_nat u) (Z.of_nat ld) m1 (fst (words t)) (snd (words t)) carry (words l)
      = (c', words l') /\
    length l' = 14%nat /\ digits 10 l' /\
    dval l' = dval l + carry * 10 ^ Z.of_nat (u + ld)
              + m1 * (dval t - dval (take u t)) * 10 ^ Z.of_nat ld + z * 10 ^ 14.
Proof.
  unfold digit_ok. induction n as [|n IH]; intros u l carry Hm Hu Hlen Hl Hc; cbn [bcd2_mul_inner].
  - exists carry, l, (- carry * 10 ^ Z.of_nat ld). split_and!; [reflexivity|assumption|assumption|].
    replace u with 14%nat by lia. rewrite dval_take_all, Nat2Z.inj_add, Z.pow_add_r by lia.
    change (Z.of_nat 14) with 14. ring.
  - rewrite !get10 by (done || lia). pose proof (nth_digit 10 t u ltac:(lia) Hdt).
    pose proof (dval_take_S t u Ht ltac:(lia)) as Htk.
    replace (Z.of_nat u + 1) with (Z.of_nat (S u)) by lia.
    destruct (Z.ltb_spec (Z.of_nat u + Z.of_nat ld) 14).
    + replace (Z.of_nat u + Z.of_nat ld) with (Z.of_nat (u + ld)) by lia.
      rewrite get10 by (done || lia). pose proof (nth_digit 10 l (u + ld) ltac:(lia) Hl).
      set (r := m1 * nth u t 0 + carry + nth (u + ld) l 0).
      assert (0 <= r < 100) by (unfold r; nia).
      rewrite quot_div, rem_mod by lia.
      assert (0 <= r mod 10 < 10) by (apply Z.mod_pos_bound; lia).
      destruct (set10 l (u + ld) (r mod 10)) as (-> & Hd1 & Hl1 & Hv1); try done || lia.
      destruct (IH (S u) (<[(u + ld)%nat := r mod 10]> l) (r / 10)) as (c' & l' & z & -> & Hl' & Hd' & Hv');
        [lia..|done|done|zdiv|].
      exists c', l', z. split_and!; [reflexivity|assumption|assumption|].
      rewrite Hv', Hv1, Htk.
      replace (Z.of_nat (S u + ld)) with (Z.succ (Z.of_nat (u + ld))) by lia.
      rewrite Z.pow_succ_r, Nat2Z.inj_add, Z.pow_add_r by lia.
      pose proof (Z.div_mod r 10 ltac:(lia)). unfold r in *. nia.
    + set (r := m1 * nth u t 0 + carry). assert (0 <= r < 100) by (unfold r; nia).
      rewrite quot_div by lia.
      destruct (IH (S u) l (r / 10)) as (c' & l' & z & -> & Hl' & Hd' & Hv'); [lia..|done|done|zdiv|].
      exists c', l', (z - (r mod 10) * 10 ^ (Z.of_nat (u + ld) - 14)). split_and!; [reflexivity|assumption|assumption|].
      rewrite Hv', Htk. replace (Z.of_nat (S u + ld)) with (Z.succ (Z.of_nat (u + ld))) by lia.
      assert (E : 10 ^ Z.of_nat (u + ld) = 10 ^ (Z.of_nat (u + ld) - 14) * 10 ^ 14)
        by (rewrite <- Z.pow_add_r by lia; f_equal; lia).
      rewrite Z.pow_succ_r, E by lia.
      assert (E2 : 10 ^ Z.of_nat u * 10 ^ Z.of_nat ld = 10 ^ (Z.of_nat (u + ld) - 14) * 10 ^ 14)
        by (rewrite <- E, Nat2Z.inj_add, Z.pow_add_r by lia; done).
      pose proof (Z.div_mod r 10 ltac:(lia)). unfold r in *.
      generalize dependent (10 ^ (Z.of_nat (u + ld) - 14)). intros. nia.
Qed.
End Loops.

Lemma words_dec l n :
  length l = 14%nat -> digits 10 l -> dval l = n -> words l = bin_bcd2 n.
Proof.
  intros Hlen Hl Hv. pose proof (dval_range l Hl Hlen). rewrite bin_bcd2_words by lia.
  f_equal. apply (digits_val_inj 10); [lia|done|apply dec_list_digits|now rewrite dec_list_length|].
  change (digits_val 10 (dec_list 14 n)) with (dval (dec_list 14 n)).
  rewrite dec_list_val by lia. rewrite Z.mod_small by (rewrite <- Hv; exact H). exact Hv.
Qed.

Lemma dval_dec n : 0 <= n < 10 ^ 14 -> dval (dec_list 14 n) = n.
Proof. intros Hn. rewrite dec_list_val by lia. now apply Z.mod_small. Qed.

#[export] Hint Resolve dec_list_length : bcd.

Section Multiply.
Context (t m : list Z) (Ht : length t = 14%nat) (Hdt : digits 10 t)
  (Hm : length m = 14%nat) (Hdm : digits 10 m).

Lemma bcd2_mul_outer_spec n : forall ld l carry,
  (n + ld = 14)%nat -> length l = 14%nat -> digits 10 l ->
  exists c' l' z,
    bcd2_mul_outer n (Z.of_nat ld) (fst (words m)) (snd (words m)) (fst (words t)) (snd (words t))
      carry (words l) = (c', words l') /\
    length l' = 14%nat /\ digits 10 l' /\
    dval l' = dval l + (dval m - dval (take ld m)) * dval t + z * 10 ^ 14.
Proof.
  induction n as [|n IH]; intros ld l carry Hld Hlen Hl; cbn [bcd2_mul_outer].
  - exists carry, l, 0. split_and!; [reflexivity|assumption|assumption|]. replace ld with 14%nat by lia.
    rewrite dval_take_all by done. ring.
  - rewrite get10 by (done || lia). pose proof (nth_digit 10 m ld ltac:(lia) Hdm) as Hd.
    destruct (bcd2_mul_inner_spec t Ht Hdt (nth ld m 0) ld 14 0 l 0 Hd)
      as (c1 & l1 & z1 & E1 & Hl1 & Hd1 & Hv1); [lia|done..|].
    change (Z.of_nat 0) with 0 in E1. rewrite E1.
    replace (Z.of_nat ld + 1) with (Z.of_nat (S ld)) by lia.
    destruct (IH (S ld) l1 c1) as (c' & l' & z & -> & Hl' & Hd' & Hv'); [lia|done..|].
    exists c', l', (z + z1). split_and!; [reflexivity|assumption|assumption|].
    rewrite Hv', Hv1, (dval_take_S m ld) by (lia || assumption).
    change (take 0 t) with (@nil Z). change (dval []) with 0. ring.
Qed.
End Multiply.

Section Divide.
Context (t : list Z) (Ht : length t = 14%nat) (Hdt : digits 10 t).

Lemma bcd2_div_loop_spec d n : forall l carry,
  0 < d -> (n <= 14)%nat -> length l = 14%nat -> digits 10 l -> 0 <= carry < d ->
  (forall j, (j < n)%nat -> nth j l 0 = 0) ->
  exists c' l' q,
    bcd2_div_loop n (Z.of_nat n - 1) (fst (words t)) (snd (words t)) d carry (words l) = (c', words l') /\
    length l' = 14%nat /\ digits 10 l' /\ 0 <= c' < d /\
    dval l' = dval l + q /\ carry * 10 ^ Z.of_nat n + dval (take n t) = q * d + c'.
Proof.
  induction n as [|n IH]; intros l carry Hd Hn Hlen Hl Hc Hz; cbn [bcd2_div_loop].
  - exists carry, l, 0. split_and!; [reflexivity|assumption..|lia|lia|lia|].
    change (dval (take 0 t)) with 0. change (Z.of_nat 0) with 0. lia.
  - replace (Z.of_nat (S n) - 1) with (Z.of_nat n) by lia.
    rewrite get10 by (done || lia). pose proof (nth_digit 10 t n ltac:(lia) Hdt).
    set (d1 := nth n t 0 + 10 * carry). assert (0 <= d1 < 10 * d) by (unfold d1; lia).
    rewrite quot_div, rem_mod by lia.
    assert (0 <= d1 / d < 10) by (split; [apply Z.div_pos; lia|apply Z.div_lt_upper_bound; lia]).
    destruct (set10 l n (d1 / d)) as (-> & Hd1' & Hl1 & Hv1); [done|done|lia|done|].
    destruct (IH (<[n := d1 / d]> l) (d1 mod d)) as (c' & l' & q & -> & Hl' & Hd' & Hc' & Hv' & Hq);
      [done|lia|done|done|apply Z.mod_pos_bound; lia| |].
    { intros j Hj. rewrite nth_insert_ne by lia. apply Hz. lia. }
    exists c', l', (q + d1 / d * 10 ^ Z.of_nat n).
    split_and!; [reflexivity|assumption|assumption|lia|lia| |].
    + rewrite Hv', Hv1, (Hz n) by lia. lia.
    + rewrite (dval_take_S t n), Nat2Z.inj_succ, Z.pow_succ_r by (done || lia).
      pose proof (Z.div_mod d1 d ltac:(lia)). unfold d1 in *. nia.
Qed.
End Divide.

Section Subtract.
Context (t : list Z) (Ht : length t = 14%nat) (Hdt : digits 10 t).

(** Without a borrow the loop subtracts. *)
Lemma bcd2_sub_loop_exact n : forall k l,
  (n + k = 14)%nat -> length l = 14%nat -> digits 10 l ->
  (forall j, (k <= j < 14)%nat -> nth j t 0 <= nth j l 0) ->
  exists l',
    bcd2_sub_loop n (Z.of_nat k) (fst (words t)) (snd (words t)) 0 (words l) = (0, words l') /\
    length l' = 14%nat /\ digits 10 l' /\
    dval l' = dval l - (dval t - dval (take k t)).
Proof.
  induction n as [|n IH]; intros k l Hk Hlen Hl Hle; cbn [bcd2_sub_loop].
  - exists l. split_and!; [reflexivity|assumption|assumption|]. replace k with 14%nat by lia.
    rewrite dval_take_all by done. lia.
  - rewrite !get10 by (done || lia). pose proof (Hle k ltac:(lia)).
    pose proof (nth_digit 10 l k ltac:(lia) Hl). pose proof (nth_digit 10 t k ltac:(lia) Hdt).
    rewrite Z.sub_0_r. set (r := nth k l 0 - nth k t 0) in *.
    destruct (Z.ltb_spec r 0); [lia|].
    destruct (set10 l k r) as (-> & Hd1 & Hl1 & Hv1); try done || lia.
    replace (Z.of_nat k + 1) with (Z.of_nat (S k)) by lia.
    destruct (IH (S k) (<[k := r]> l)) as (l' & -> & Hl' & Hd' & Hv'); [lia|done|done| |].
    { intros j Hj. rewrite nth_insert_ne by lia. apply Hle. lia. }
    exists l'. split_and!; [reflexivity|assumption|assumption|].
    rewrite Hv', Hv1, (dval_take_S t k) by (lia || assumption).
    unfold r. lia.
Qed.

(** Once a digit has borrowed, [carry] stays 1 and the top digit comes out as 9. *)
Lemma bcd2_sub_loop_sticky n : forall k l carry,
  (n + k = 14)%nat -> (0 < n)%nat -> length l = 14%nat -> digits 10 l -> 0 <= carry <= 1 ->
  nth 13 l 0 = 0 -> nth 13 t 0 = 0 ->
  carry = 1 \/ (exists j, (k <= j < 13)%nat /\ nth j l 0 < nth j t 0) ->
  exists c' l',
    bcd2_sub_loop n (Z.of_nat k) (fst (words t)) (snd (words t)) carry (words l) = (c', words l') /\
    length l' = 14%nat /\ digits 10 l' /\ nth 13 l' 0 = 9.
Proof.
  induction n as [|n IH]; intros k l carry Hk Hn Hlen Hl Hc Hz Hzt Hor; [lia|].
  cbn [bcd2_sub_loop]. rewrite !get10 by (done || lia).
  pose proof (nth_digit 10 l k ltac:(lia) Hl). pose proof (nth_digit 10 t k ltac:(lia) Hdt).
  set (r := nth k l 0 - nth k t 0 - carry).
  assert (Hstep : exists v c1, (if r <? 0 then (r + 10, 1) else (r, carry)) = (v, c1) /\
    0 <= v < 10 /\ 0 <= c1 <= 1 /\ (carry = 1 -> c1 = 1) /\ (nth k l 0 < nth k t 0 -> c1 = 1) /\
    (k = 13%nat -> carry = 1 -> v = 9)).
  { unfold r. destruct (Z.ltb_spec (nth k l 0 - nth k t 0 - carry) 0);
      eexists _, _; (split; [reflexivity|]); split_and!; try lia; intros ->; lia. }
  destruct Hstep as (v & c1 & -> & Hv & Hc1 & Hkeep & Hb & Hv9).
  destruct (set10 l k v) as (-> & Hd1 & Hl1 & _); [done|done|lia|done|].
  replace (Z.of_nat k + 1) with (Z.of_nat (S k)) by lia.
  destruct (Nat.eq_dec k 13%nat) as [->|Hk13].
  - assert (n = 0%nat) as -> by lia. cbn [bcd2_sub_loop].
    eexists _, _. split_and!; [reflexivity|assumption|assumption|].
    rewrite nth_insert_eq by lia. apply Hv9; [reflexivity|].
    destruct Hor as [|(j & Hj & _)]; lia.
  - apply IH; try assumption; try lia.
    + rewrite nth_insert_ne by lia. assumption.
    + destruct Hor as [Hor|(j & Hj & Hlt)]; [left; auto|].
      destruct (Nat.eq_dec j k) as [->|Hjk]; [left; auto|].
      right. exists j. split; [lia|]. rewrite nth_insert_ne by lia. assumption.
Qed.
End Subtract.

(** ** Properties *)

(** The value of a pair of words that holds 14 digits. *)
Definition bcd_val (p : Z * Z) : Z := bcd2_bin (fst p) + 10 ^ 7 * bcd2_bin (snd p).

Lemma bcd_val_words l : digits 10 l -> length l = 14%nat -> bcd_val (words l) = dval l.
Proof.
  intros Hl Hlen. unfold bcd_val, words; cbn [fst snd].
  rewrite !bcd2_bin_pack by (first [apply Forall_take | apply Forall_drop |
    rewrite length_take | rewrite length_drop]; assumption || lia).
  unfold dval. rewrite <- (take_drop 7 l) at 3. rewrite digits_val_app, length_take_le by lia.
  reflexivity.
Qed.

Lemma bcd_val_bin n : 0 <= n < 10 ^ 14 -> bcd_val (bin_bcd2 n) = n.
Proof.
  intros Hn. rewrite bin_bcd2_words by exact Hn.
  rewrite bcd_val_words by auto with bcd. now apply dval_dec.
Qed.

(** Conversion to and from packed decimal is a round trip for every number below
    [10^14]: [bin_bcd2] followed by [bcd2_bin] on each word gives the number back, and
    distinct numbers have distinct words. *)
Theorem bcd2_roundtrip n :
  0 <= n < 10 ^ 14 ->
  bcd_val (bin_bcd2 n) = n /\
  forall m, 0 <= m < 10 ^ 14 -> bin_bcd2 m = bin_bcd2 n -> m = n.
Proof.
  intros Hn. split; [now apply bcd_val_bin|]. intros m Hm E.
  rewrite <- (bcd_val_bin m Hm), <- (bcd_val_bin n Hn). now rewrite E.
Qed.

Lemma bcd2_roundtrip_witness : 0 <= 6000000 < 10 ^ 14 /\ bcd_val (bin_bcd2 6000000) = 6000000.
Proof. split; [lia|]. exact (proj1 (bcd2_roundtrip 6000000 ltac:(lia))). Defined.

(** [bcd2_add] adds modulo [10^14] and returns the carry out of the top digit. *)
Lemma bcd2_add_bin a b :
  0 <= a < 10 ^ 14 -> 0 <= b < 10 ^ 14 ->
  bcd2_add (bin_bcd2 a) b = ((a + b) / 10 ^ 14, bin_bcd2 ((a + b) mod 10 ^ 14)).
Proof.
  intros Ha Hb. unfold bcd2_add. rewrite (bin_bcd2_words b), (bin_bcd2_words a) by assumption.
  destruct (bcd2_add_loop_spec (dec_list 14 b) (dec_list_length 14 b) (dec_list_digits 14 b)
    14 0 (dec_list 14 a) 0) as (c' & l' & E & Hl & Hd & Hc & Hv);
    [reflexivity|auto with bcd|auto with bcd|lia|].
  rewrite !dval_dec in Hv by assumption. change (dval (take 0 _)) with 0 in Hv.
  pose proof (dval_range l' Hd Hl) as Hr.
  rewrite (surjective_pairing (words (dec_list 14 b))). change 0 with (Z.of_nat 0) at 1.
  rewrite E. f_equal.
  - apply Z.div_unique with (dval l'); lia.
  - apply words_dec; [assumption..|]. apply Z.mod_unique with c'; lia.
Qed.

(** [bcd2_mul] multiplies modulo [10^14]. *)
Lemma bcd2_mul_bin a b :
  0 <= a < 10 ^ 14 -> 0 <= b < 10 ^ 14 ->
  snd (bcd2_mul (bin_bcd2 a) b) = bin_bcd2 (a * b mod 10 ^ 14).
Proof.
  intros Ha Hb. unfold bcd2_mul. rewrite (bin_bcd2_words b), (bin_bcd2_words a) by assumption.
  destruct (bcd2_mul_outer_spec (dec_list 14 a) (dec_list 14 b) (dec_list_length 14 a)
    (dec_list_digits 14 a) (dec_list_length 14 b) (dec_list_digits 14 b) 14 0 (repeat 0 14) 0)
    as (c' & l' & z & E & Hl & Hd & Hv);
    [reflexivity|reflexivity|repeat constructor; lia|].
  rewrite !dval_dec in Hv by assumption. change (dval (take 0 _)) with 0 in Hv.
  change (dval (repeat 0 14)) with 0 in Hv. pose proof (dval_range l' Hd Hl) as Hr.
  rewrite (surjective_pairing (words (dec_list 14 b))). change 0 with (Z.of_nat 0) at 1.
  change (0, 0) with (words (repeat 0 14)). rewrite E. cbn [snd].
  apply words_dec; [assumption..|]. apply Z.mod_unique with (- z); lia.
Qed.

(** [bcd2_div] divides by any divisor whose products with ten fit a [long], and returns the
    remainder as an [int]. *)
Lemma bcd2_div_bin a d :
  0 <= a < 10 ^ 14 -> 0 < d < 2 ^ 59 ->
  bcd2_div (bin_bcd2 a) d = (wrap_s 32 (a mod d), bin_bcd2 (a / d)).
Proof.
  intros Ha Hd. unfold bcd2_div. rewrite (bin_bcd2_words a) by assumption.
  destruct (bcd2_div_loop_spec (dec_list 14 a) (dec_list_length 14 a) (dec_list_digits 14 a)
    d 14 (repeat 0 14) 0) as (c' & l' & q & E & Hl & Hdl & Hc & Hv & Hq);
    [lia|lia|reflexivity|repeat constructor; lia|lia|intros j _; apply nth_repeat|].
  rewrite take_ge, dval_dec in Hq by (rewrite ?dec_list_length; lia || assumption).
  change (dval (repeat 0 14)) with 0 in Hv.
  change 13 with (Z.of_nat 14 - 1). change (0, 0) with (words (repeat 0 14)). rewrite E. f_equal.
  - f_equal. apply Z.mod_unique with q; lia.
  - apply words_dec; [assumption..|]. apply Z.div_unique with c'; lia.
Qed.

(** C34. The packed decimal operations refine arithmetic on numbers below [10^14]: the sum
    modulo [10^14] with its carry, the product modulo [10^14], and, for a positive divisor
    below [2^59] (the intermediate values then fit a [long]), the quotient and the remainder. The remainder comes back through an [int]: it is exact for divisors up to
    [2^31] (the program divides by 8 alone) and loses its high bits when a larger one
    leaves more. *)
Theorem bcd2_arith_refines a b d :
  0 <= a < 10 ^ 14 -> 0 <= b < 10 ^ 14 -> 0 < d < 2 ^ 59 ->
  bcd2_add (bin_bcd2 a) b = ((a + b) / 10 ^ 14, bin_bcd2 ((a + b) mod 10 ^ 14)) /\
  snd (bcd2_mul (bin_bcd2 a) b) = bin_bcd2 (a * b mod 10 ^ 14) /\
  bcd2_div (bin_bcd2 a) d = (wrap_s 32 (a mod d), bin_bcd2 (a / d)) /\
  (d <= 2 ^ 31 -> fst (bcd2_div (bin_bcd2 a) d) = a mod d).
Proof.
  intros Ha Hb Hd.
  split_and!; [now apply bcd2_add_bin|now apply bcd2_mul_bin|now apply bcd2_div_bin|].
  intros Hs. rewrite bcd2_div_bin by assumption. cbn [fst]. apply wrap_s_id; [lia|].
  unfold in_s. pose proof (Z.mod_pos_bound a d). lia.
Qed.

(** The remainder of a large divisor is truncated. *)
Example bcd2_div_truncates : fst (bcd2_div (bin_bcd2 3000000000) 4000000000) = -1294967296.
Proof. reflexivity. Qed.

Lemma bcd2_arith_refines_witness :
  (0 <= 99999999999999 < 10 ^ 14 /\ 0 <= 32 < 10 ^ 14 /\ 0 < 8 < 2 ^ 59) /\
  bcd2_add (bin_bcd2 99999999999999) 32 = (1, bin_bcd2 31).
Proof. split; [lia|]. apply (bcd2_arith_refines 99999999999999 32 8); lia. Defined.

(** [bcd2_sub] never clears its carry once a digit has borrowed: for [b <= a] with a
    free top digit it computes [a - b] exactly when no decimal digit of [b] exceeds the
    digit of [a] above it, and is wrong for every other pair. *)
Theorem bcd2_sub_iff a b :
  0 <= b <= a -> a < 10 ^ 13 ->
  snd (bcd2_sub (bin_bcd2 a) b) = bin_bcd2 (a - b) <->
  (forall k, (k < 14)%nat -> nth k (dec_list 14 b) 0 <= nth k (dec_list 14 a) 0).
Proof.
  intros Hb Ha. unfold bcd2_sub. rewrite (bin_bcd2_words b), (bin_bcd2_words a) by lia.
  rewrite (surjective_pairing (words (dec_list 14 b))).
  assert (Htop : forall n, 0 <= n < 10 ^ 13 -> nth 13 (dec_list 14 n) 0 = 0).
  { intros n Hn. cbn [dec_list nth]. rewrite !Z.div_div by lia.
    change (n / 10000000000000 mod 10 = 0). now rewrite Z.div_small by lia. }
  split.
  - intros E k Hk. destruct (Z_le_gt_dec (nth k (dec_list 14 b) 0) (nth k (dec_list 14 a) 0)); [assumption|].
    exfalso.
    assert (k <> 13%nat) by (intros ->; rewrite !Htop in * by lia; lia).
    destruct (bcd2_sub_loop_sticky (dec_list 14 b) (dec_list_length 14 b) (dec_list_digits 14 b)
      14 0 (dec_list 14 a) 0) as (c' & l' & E' & Hl & Hd & H9);
      [lia|lia|auto with bcd|auto with bcd|lia|apply Htop; lia|apply Htop; lia| |].
    { right. exists k. lia. }
    change (Z.of_nat 0) with 0 in E'. rewrite E' in E. cbn [snd] in E.
    assert (Hval : dval l' = a - b).
    { rewrite <- (bcd_val_words l' Hd Hl), E. apply bcd_val_bin. lia. }
    assert (l' = dec_list 14 (a - b)) as ->.
    { apply (digits_val_inj 10); [lia|assumption|auto with bcd|now rewrite dec_list_length|].
      change (dval l' = dval (dec_list 14 (a - b))). now rewrite dval_dec by lia. }
    rewrite Htop in H9 by lia. lia.
  - intros Hle.
    destruct (bcd2_sub_loop_exact (dec_list 14 b) (dec_list_length 14 b) (dec_list_digits 14 b)
      14 0 (dec_list 14 a)) as (l' & E & Hl & Hd & Hv); [lia|auto with bcd|auto with bcd| |].
    { intros j Hj. apply Hle. lia. }
    change (Z.of_nat 0) with 0 in E. rewrite E. cbn [snd]. apply words_dec; [assumption..|].
    rewrite !dval_dec in Hv by lia. change (dval (take 0 _)) with 0 in Hv. lia.
Qed.

Lemma bcd2_sub_iff_witness :
  (0 <= 1 <= 20 /\ 20 < 10 ^ 13) /\ ~ snd (bcd2_sub (bin_bcd2 20) 1) = bin_bcd2 (20 - 1).
Proof.
  split; [lia|]. intros E. apply (proj1 (bcd2_sub_iff 20 1 ltac:(lia) ltac:(lia))) with (k := 0%nat) in E; [|lia].
  vm_compute in E. now apply E.
Defined.

(** [bcd2_cmp] compares the low word alone unless the high word exceeds 214: it
    reports equality of every number of 8 to 10 digits up to 2149999999 with its seven
    low digits. *)
Theorem bcd2_cmp_low_word n comp :
  0 <= n < 10 ^ 14 ->
  bcd2_cmp (fst (bin_bcd2 n)) (snd (bin_bcd2 n)) comp =
    (if n / 10 ^ 7 <=? 214 then n mod 10 ^ 7 - comp else 1) /\
  (10 ^ 7 <= n < 215 * 10 ^ 7 ->
   bcd2_cmp (fst (bin_bcd2 n)) (snd (bin_bcd2 n)) (n mod 10 ^ 7) = 0 /\ n mod 10 ^ 7 <> n).
Proof.
  intros Hn.
  assert (H : forall c, bcd2_cmp (fst (bin_bcd2 n)) (snd (bin_bcd2 n)) c =
    if n / 10 ^ 7 <=? 214 then n mod 10 ^ 7 - c else 1).
  { intros c. rewrite bin_bcd2_words by assumption. unfold bcd2_cmp, words; cbn [fst snd].
    pose proof (dec_list_digits 14 n) as Hd. pose proof (dec_list_length 14 n) as Hl.
    pose proof (dval_dec n Hn) as Hv. set (l := dec_list 14 n) in *.
    rewrite !bcd2_bin_pack by (first [apply Forall_take | apply Forall_drop |
      rewrite length_take | rewrite length_drop]; assumption || lia).
    assert (Hlow : 0 <= dval (take 7 l) < 10 ^ 7).
    { pose proof (pack_range 10 (take 7 l) ltac:(lia) (Forall_take _ _ _ Hd)) as H.
      rewrite length_take_le in H by lia. exact H. }
    assert (Hsum : n = dval (take 7 l) + 10 ^ 7 * dval (drop 7 l)).
    { rewrite <- Hv. unfold dval. rewrite <- (take_drop 7 l) at 1.
      now rewrite digits_val_app, length_take_le by lia. }
    assert (E1 : dval (drop 7 l) = n / 10 ^ 7) by (apply Z.div_unique with (dval (take 7 l)); lia).
    assert (E2 : dval (take 7 l) = n mod 10 ^ 7) by (apply Z.mod_unique with (dval (drop 7 l)); lia).
    rewrite E1, E2. destruct (Z.ltb_spec 214 (n / 10 ^ 7)), (Z.leb_spec (n / 10 ^ 7) 214); lia. }
  split; [apply H|]. intros Hr. rewrite H.
  pose proof (Z.mod_pos_bound n (10 ^ 7) ltac:(lia)).
  destruct (Z.leb_spec (n / 10 ^ 7) 214) as [_|Hgt]; [lia|].
  assert (n / 10 ^ 7 < 215) by (apply Z.div_lt_upper_bound; lia). lia.
Qed.

Lemma bcd2_cmp_low_word_witness :
  0 <= 30000005 < 10 ^ 14 /\
  bcd2_cmp (fst (bin_bcd2 30000005)) (snd (bin_bcd2 30000005)) 5 = 0.
Proof.
  split; [lia|]. rewrite (proj1 (bcd2_cmp_low_word 30000005 5 ltac:(lia))). reflexivity.
Defined.

(** [bcd2_mod] compares packed decimal with binary, and with [>]: a one-digit number
    modulo itself is not 0. *)
Lemma bcd2_mod_self m fuel : 0 < m < 10 -> bcd2_mod (S fuel) (bin_bcd2 m) m = Some m.
Proof.
  intros Hm. assert (E : bin_bcd2 m = (m, 0)).
  { assert (m = 1 \/ m = 2 \/ m = 3 \/ m = 4 \/ m = 5 \/ m = 6 \/ m = 7 \/ m = 8 \/ m = 9) as Hc by lia.
    destruct Hc as [->|[->|[->|[->|[->|[->|[->|[->| ->]]]]]]]]; reflexivity. }
  rewrite E. cbn [bcd2_mod Z.eqb negb orb]. now rewrite (proj2 (Z.ltb_ge _ _)) by lia.
Qed.
