(* ===== verification/Sparse.v ===== *)
(** Sparse order keys: [MK_SPARSE] of dss.h and [ez_sparse], [hd_sparse], [mk_sparse] of
    build.c. Of every 32 keys, 8 are used per sequence number 0..3. *)
From S2P Require Import Prelude CString Bcd2 State Consts.

(** [#define MK_SPARSE(key, seq)] *)
Definition MK_SPARSE (key seq : Z) : Z :=
  Z.lor (Z.shiftl (Z.lor (Z.shiftl (Z.shiftr key 3) 2) (Z.land seq 0x0003)) 3) (Z.land key 0x0007).

(** [void ez_sparse(long i, DSS_HUGE *ok, long seq)]: the two words stored at [ok]. *)
Definition ez_sparse (i seq : Z) : Z * Z :=
  let ok1 := 0 in
  let low_bits := Z.land i (Z.shiftl 1 SPARSE_KEEP - 1) in
  let ok := Z.shiftr i SPARSE_KEEP in
  let ok := Z.shiftl ok SPARSE_BITS in
  let ok := ok + seq in
  let ok := Z.shiftl ok SPARSE_KEEP in
  let ok := ok + low_bits in
  (ok, ok1).

(** [void hd_sparse(long i, DSS_HUGE *ok, long seq)] *)
Definition hd_sparse (i seq : Z) : Z * Z :=
  let low_mask := Z.shiftl 1 SPARSE_KEEP - 1 in
  let base := bin_bcd2 i in
  let res := base in
  let res := snd (bcd2_div res (Z.shiftl 1 SPARSE_KEEP)) in
  let res := snd (bcd2_mul res (Z.shiftl 1 SPARSE_BITS)) in
  let res := snd (bcd2_add res seq) in
  let res := snd (bcd2_mul res (Z.shiftl 1 SPARSE_KEEP)) in
  let res := snd (bcd2_add res (Z.land (fst base) low_mask)) in
  (bcd2_bin (fst res), bcd2_bin (snd res)).

Definition MAX_32B_SCALE : Z := 1000.

(** [void mk_sparse(long i, DSS_HUGE *ok, long seq)] *)
Definition mk_sparse (scale i seq : Z) : Z * Z :=
  if scale <? MAX_32B_SCALE then ez_sparse i seq else hd_sparse i seq.

Example ez_sparse_example : map (fun i => fst (ez_sparse i 0)) [1; 7; 8; 15; 16] = [1; 7; 32; 39; 64].
Proof. reflexivity. Qed.

(** ** The keys in arithmetic *)

Lemma ez_sparse_arith i seq : ez_sparse i seq = (32 * (i / 8) + 8 * seq + i mod 8, 0).
Proof.
  unfold ez_sparse, SPARSE_KEEP, SPARSE_BITS. f_equal. change (Z.shiftl 1 3 - 1) with (Z.ones 3).
  rewrite Z.land_ones, !Z.shiftl_mul_pow2, Z.shiftr_div_pow2 by lia.
  change (2 ^ 3) with 8. change (2 ^ 2) with 4. lia.
Qed.

Lemma MK_SPARSE_arith key seq : MK_SPARSE key seq = 32 * (key / 8) + 8 * (seq mod 4) + key mod 8.
Proof.
  unfold MK_SPARSE. change (Z.land seq 0x0003) with (Z.land seq (Z.ones 2)).
  change (Z.land key 0x0007) with (Z.land key (Z.ones 3)).
  rewrite !Z.land_ones by lia.
  assert (Hl : forall x n d, 0 <= n -> 0 <= d < 2 ^ n -> Z.lor (Z.shiftl x n) d = x * 2 ^ n + d).
  { intros x n d Hn Hd. rewrite lor_add; [now rewrite Z.shiftl_mul_pow2 by lia|].
    apply Z.bits_inj'. intros j Hj. rewrite Z.land_spec, Z.bits_0. destruct (Z_lt_le_dec j n).
    - now rewrite Z.shiftl_spec_low by lia.
    - rewrite (testbit_small d n) by lia. apply andb_false_r. }
  rewrite !Hl by (lia || (apply Z.mod_pos_bound; lia)). rewrite Z.shiftr_div_pow2 by lia.
  change (2 ^ 3) with 8. change (2 ^ 2) with 4. lia.
Qed.

(** The key [hd_sparse] computes: its low three bits are those of the last decimal digit
    of [i], not of [i]. *)
Lemma hd_sparse_arith i seq :
  0 <= i < 10 ^ 12 -> 0 <= seq < 10 ^ 12 ->
  fst (hd_sparse i seq) + 10 ^ 7 * snd (hd_sparse i seq) =
  32 * (i / 8) + 8 * seq + Z.land (i mod 10) 7.
Proof.
  intros Hi Hseq. unfold hd_sparse. change (Z.shiftl 1 SPARSE_KEEP) with 8.
  change (Z.shiftl 1 SPARSE_BITS) with 4. change (8 - 1) with 7.
  assert (H8 : 0 <= i / 8 < 10 ^ 12) by (split; [apply Z.div_pos; lia|apply Z.div_lt_upper_bound; lia]).
  assert (Hb : Z.land (fst (bin_bcd2 i)) 7 = Z.land (i mod 10) 7).
  { rewrite bin_bcd2_words by lia. cbn [words fst take dec_list]. unfold pack; cbn [digits_val].
    change 7 with (Z.ones 3). rewrite !Z.land_ones by lia. change (2 ^ 3) with 8.
    match goal with |- (?d + 16 * ?x) mod 8 = _ =>
      replace (d + 16 * x) with (d + (2 * x) * 8) by lia end.
    now rewrite Z.mod_add by lia. }
  assert (Hl : 0 <= Z.land (i mod 10) 7 < 8).
  { change 7 with (Z.ones 3). rewrite Z.land_ones by lia. apply Z.mod_pos_bound. lia. }
  rewrite Hb, bcd2_div_bin by lia. cbn [snd].
  rewrite bcd2_mul_bin, Z.mod_small, bcd2_add_bin by lia. cbn [snd].
  rewrite Z.mod_small, bcd2_mul_bin, Z.mod_small, bcd2_add_bin by lia. cbn [snd fst].
  rewrite Z.mod_small by lia. set (n := _ + Z.land _ _).
  change (bcd_val (bin_bcd2 n) = 32 * (i / 8) + 8 * seq + Z.land (i mod 10) 7).
  rewrite bcd_val_bin by (unfold n; lia). unfold n. lia.
Qed.

(** ** Properties *)

(** With a sequence number of two bits, [ez_sparse] is [MK_SPARSE], distinct pairs
    (order, sequence) have distinct keys, and the keys grow with the order number. *)
Theorem ez_sparse_keys i j si sj :
  0 <= si < 4 -> 0 <= sj < 4 ->
  fst (ez_sparse i si) = MK_SPARSE i si /\ snd (ez_sparse i si) = 0 /\
  (ez_sparse i si = ez_sparse j sj -> i = j /\ si = sj) /\
  (i < j -> fst (ez_sparse i si) < fst (ez_sparse j si)).
Proof.
  intros Hsi Hsj. rewrite !ez_sparse_arith, MK_SPARSE_arith, (Z.mod_small si 4) by lia. cbn [fst snd].
  split_and!; [reflexivity|reflexivity| |zdiv].
  intros E. injection E as E. zdiv.
Qed.

Lemma ez_sparse_keys_witness :
  (0 <= 0 < 4 /\ 0 <= 1 < 4) /\ fst (ez_sparse 6000000 0) = MK_SPARSE 6000000 0.
Proof. split; [lia|]. apply (ez_sparse_keys 6000000 7 0 1); lia. Defined.

(** From sequence number 4 on (an update set [upd_num] of at least 3000 with the
    default refresh percentage) [ez_sparse] does not reduce it to two bits as [MK_SPARSE]
    does: the key is the one of order [i + 8] with the number four lower. *)
Theorem ez_sparse_wraps i seq :
  4 <= seq -> ez_sparse i seq = ez_sparse (i + 8) (seq - 4) /\ fst (ez_sparse i seq) <> MK_SPARSE i seq.
Proof.
  intros Hseq. rewrite !ez_sparse_arith, MK_SPARSE_arith. cbn [fst].
  split; [f_equal; zdiv|zdiv].
Qed.

Lemma ez_sparse_wraps_witness : 4 <= 4 /\ ez_sparse 1 4 = ez_sparse (1 + 8) (4 - 4).
Proof. split; [lia|]. apply (ez_sparse_wraps 1 4). lia. Defined.

(** At scale 1000 and above [mk_sparse] uses [hd_sparse], which masks the packed
    decimal word instead of the order number: the key has the low three bits of the last
    decimal digit, it is the key [ez_sparse] would give only when these agree, and the
    orders [40 k + 8] and [40 k + 10] get one key. *)
Theorem hd_sparse_keys scale i seq k :
  MAX_32B_SCALE <= scale -> 0 <= i < 10 ^ 12 -> 0 <= seq < 4 -> 0 <= 40 * k < 10 ^ 12 - 10 ->
  fst (mk_sparse scale i seq) + 10 ^ 7 * snd (mk_sparse scale i seq)
    = 32 * (i / 8) + 8 * seq + Z.land (i mod 10) 7 /\
  (fst (mk_sparse scale i seq) + 10 ^ 7 * snd (mk_sparse scale i seq) = fst (ez_sparse i seq)
     <-> i mod 8 = (i mod 10) mod 8) /\
  fst (mk_sparse scale (40 * k + 8) seq) + 10 ^ 7 * snd (mk_sparse scale (40 * k + 8) seq) =
  fst (mk_sparse scale (40 * k + 10) seq) + 10 ^ 7 * snd (mk_sparse scale (40 * k + 10) seq).
Proof.
  intros Hs Hi Hseq Hk. unfold mk_sparse. rewrite (proj2 (Z.ltb_ge _ _) Hs).
  rewrite !hd_sparse_arith, ez_sparse_arith by lia. cbn [fst].
  change 7 with (Z.ones 3). rewrite !Z.land_ones by lia. change (2 ^ 3) with 8.
  split_and!; [reflexivity|split; lia|zdiv].
Qed.

Lemma hd_sparse_keys_witness :
  (MAX_32B_SCALE <= 1000 /\ 0 <= 8 < 10 ^ 12 /\ 0 <= 0 < 4 /\ 0 <= 40 * 0 < 10 ^ 12 - 10) /\
  fst (mk_sparse 1000 8 0) + 10 ^ 7 * snd (mk_sparse 1000 8 0) = 32.
Proof.
  unfold MAX_32B_SCALE. split; [lia|].
  exact (proj1 (hd_sparse_keys 1000 8 0 0 ltac:(unfold MAX_32B_SCALE; lia) ltac:(lia) ltac:(lia) ltac:(lia))).
Defined.
