(* ===== verification/Calendar.v ===== *)
(** The calendar of bm_utils.c ([julian], [unjulian], [mk_ascdate]) and of build.c
    ([months], [mk_time]): dates are [1000 * year + day of year] with two-digit years. *)
From S2P Require Import Prelude CString State Consts.

(** [#define LEAP(y) ((!(y % 4) && (y % 100))?1:0)] *)
Definition LEAP (y : Z) : Z := if (y %c 4 =? 0) && negb (y %c 100 =? 0) then 1 else 0.

(** [long unjulian(long date)]: the loop over the years, then the day. The year counts in
    an [int i], which the loop increments past [INT_MAX] for a later year: [None]. *)
Definition INT_MAX : Z := 2 ^ 31 - 1.
Fixpoint unjulian_loop (n : nat) (i res : Z) : option Z :=
  match n with
  | O => Some res
  | S n => if i =? INT_MAX then None else unjulian_loop n (i + 1) (res + (365 + LEAP i))
  end.

Definition unjulian (date : Z) : option Z :=
  let first := STARTDATE /c 1000 in
  res ← unjulian_loop (Z.to_nat (date /c 1000 - first)) first 0;
  Some (res + (date %c 1000 - 1)).

(** [long julian(long date)]: one year is taken off the offset per iteration. *)
Fixpoint julian_loop (fuel : nat) (offset result : Z) : Z :=
  let yr := result /c 1000 in
  let yend := yr * 1000 + 365 + LEAP yr in
  match fuel with
  | O => result + offset
  | S fuel =>
      if yend <? result + offset
      then julian_loop fuel (offset - (yend - result + 1)) (result + 1000)
      else result + offset
  end.

Definition julian (date : Z) : Z :=
  let offset := date - STARTDATE in
  julian_loop (Z.to_nat offset) offset STARTDATE.

(** build.c *)
Definition LEAP_ADJ (yr mnth : Z) : Z := if negb (LEAP yr =? 0) && (2 <=? mnth) then 1 else 0.
Definition JDAY_BASE : Z := 8035.
Definition JMNTH_BASE : Z := -70 * 12.

Record month := mk_month { mdes : option string; days : Z; dcnt : Z }.
Definition months : list month :=
  [ mk_month None 0 0;
    mk_month (Some "JAN") 31 31; mk_month (Some "FEB") 28 59; mk_month (Some "MAR") 31 90;
    mk_month (Some "APR") 30 120; mk_month (Some "MAY") 31 151; mk_month (Some "JUN") 30 181;
    mk_month (Some "JUL") 31 212; mk_month (Some "AUG") 31 243; mk_month (Some "SEP") 30 273;
    mk_month (Some "OCT") 31 304; mk_month (Some "NOV") 30 334; mk_month (Some "DEC") 31 365 ].

(** [months[m].dcnt], [None] past the array. *)
Definition dcnt_at (m : Z) : option Z :=
  if m <? 0 then None else dcnt <$> months !! Z.to_nat m.

(** [while (d > months[m].dcnt + LEAP_ADJ(y, m)) m++;] *)
Fixpoint month_loop (fuel : nat) (y d m : Z) : option Z :=
  match fuel with
  | O => None
  | S fuel =>
      c ← dcnt_at m;
      if c + LEAP_ADJ y m <? d then month_loop fuel y d (m + 1) else Some m
  end.

(** [#define PR_DATE(tgt, yr, mn, dy) sprintf(tgt, "19%02d%02d%02d", yr, mn, dy)] *)
Definition PR_DATE (yr mn dy : Z) : string := "19" +:+ fmt_0d 2 yr +:+ fmt_0d 2 mn +:+ fmt_0d 2 dy.

Record dss_time_t := mk_dss_time {
  timekey : Z; alpha : string; t_year : Z; t_month : Z; t_week : Z; t_day : Z
}.

(** [long mk_time(long index, dss_time_t *t)]: [None] when [months] is read out of its
    bounds. *)
Definition mk_time (index : Z) : option dss_time_t :=
  let y := julian (index + STARTDATE - 1) /c 1000 in
  let d := julian (index + STARTDATE - 1) %c 1000 in
  m ← month_loop 14 y d 0;
  c ← dcnt_at (m - 1);
  Some (mk_dss_time (index + JDAY_BASE)
    (PR_DATE y m (d - c - (if negb (LEAP y =? 0) && (2 <? m) then 1 else 0)))
    (1900 + y) (m + 12 * y + JMNTH_BASE) ((d + T_START_DAY - 1) /c 7 + 1)
    (d - c - LEAP_ADJ y (m - 1))).

(** [char **mk_ascdate(void)]: the table of the [TOTDATE] dates. *)
Fixpoint mk_ascdate_loop (n : nat) (i : Z) : option (list string) :=
  match n with
  | O => Some []
  | S n =>
      t ← mk_time (i + 1);
      rest ← mk_ascdate_loop n (i + 1);
      Some (alpha t :: rest)
  end.

Definition mk_ascdate : option (list string) := mk_ascdate_loop (Z.to_nat TOTDATE) 0.

(** ** The Gregorian calendar, independently *)

Definition gregorian_leap (y : Z) : bool :=
  (y mod 4 =? 0) && negb (y mod 100 =? 0) || (y mod 400 =? 0).

Definition month_length (y m : Z) : Z :=
  if m =? 2 then if gregorian_leap y then 29 else 28
  else if (m =? 4) || (m =? 6) || (m =? 9) || (m =? 11) then 30 else 31.

Definition next_day (d : Z * Z * Z) : Z * Z * Z :=
  let '(y, m, day) := d in
  if day <? month_length y m then (y, m, day + 1)
  else if m <? 12 then (y, m + 1, 1) else (y + 1, 1, 1).

(** The [n]-th day from 1992-01-01, counting from 0, and its [yyyymmdd] number. *)
Definition nth_date (n : nat) : Z * Z * Z := Nat.iter n next_day (1992, 1, 1).
Definition date_key (d : Z * Z * Z) : Z := let '(y, m, day) := d in y * 10000 + m * 100 + day.

(** The first [n] days. *)
Fixpoint dates_from (n : nat) (d : Z * Z * Z) : list (Z * Z * Z) :=
  match n with O => [] | S n => d :: dates_from n (next_day d) end.

Lemma dates_from_nth n : forall d i, (i < n)%nat -> dates_from n d !! i = Some (Nat.iter i next_day d).
Proof.
  induction n as [|n IH]; intros d i Hi; [lia|]. destruct i as [|i]; cbn [dates_from]; [reflexivity|].
  cbn [lookup list_lookup]. rewrite IH by lia. f_equal. symmetry. apply Nat.iter_succ_r.
Qed.

(** ** [julian] and [unjulian] *)

Lemma LEAP_range y : 0 <= LEAP y <= 1.
Proof. unfold LEAP. case_match; lia. Qed.

(** Days of the years [92 .. 92 + n - 1]. *)
Fixpoint year_days (n : nat) : Z :=
  match n with O => 0 | S n => year_days n + 365 + LEAP (92 + Z.of_nat n) end.

Lemma unjulian_loop_spec n : forall k res,
  92 + Z.of_nat (n + k) <= INT_MAX ->
  unjulian_loop n (92 + Z.of_nat k) res = Some (res + year_days (n + k) - year_days k).
Proof.
  induction n as [|n IH]; intros k res Hk; cbn [unjulian_loop]; [cbn; f_equal; lia|].
  destruct (Z.eqb_spec (92 + Z.of_nat k) INT_MAX); [lia|].
  replace (92 + Z.of_nat k + 1) with (92 + Z.of_nat (S k)) by lia. rewrite IH by lia.
  replace (n + S k)%nat with (S n + k)%nat by lia. cbn [year_days]. f_equal. lia.
Qed.

Lemma unjulian_loop_overflow n : forall i res,
  i <= INT_MAX -> INT_MAX < i + Z.of_nat n -> unjulian_loop n i res = None.
Proof.
  induction n as [|n IH]; intros i res Hi Hn; [lia|]. cbn [unjulian_loop].
  destruct (Z.eqb_spec i INT_MAX); [reflexivity|]. apply IH; lia.
Qed.

Lemma year_days_bounds n : 365 * Z.of_nat n <= year_days n <= 366 * Z.of_nat n.
Proof.
  induction n as [|n IH]; cbn [year_days]; [lia|]. pose proof (LEAP_range (92 + Z.of_nat n)). lia.
Qed.

(** From the first day of year [92 + k], [julian_loop] finds the year and the day. *)
Lemma julian_loop_spec fuel : forall offset k,
  0 <= offset -> offset <= Z.of_nat fuel ->
  exists n d, julian_loop fuel offset ((92 + Z.of_nat k) * 1000 + 1) =
      (92 + Z.of_nat (k + n)) * 1000 + d /\
    1 <= d <= 365 + LEAP (92 + Z.of_nat (k + n)) /\
    year_days (k + n) - year_days k + d - 1 = offset.
Proof.
  induction fuel as [|fuel IH]; intros offset k Ho Hf.
  - exists 0%nat, 1. cbn [julian_loop]. rewrite Nat.add_0_r. pose proof (LEAP_range (92 + Z.of_nat k)). lia.
  - cbn [julian_loop].
    assert (Hy : ((92 + Z.of_nat k) * 1000 + 1) /c 1000 = 92 + Z.of_nat k) by (c_arith; zdiv).
    rewrite !Hy. set (L := LEAP (92 + Z.of_nat k)). pose proof (LEAP_range (92 + Z.of_nat k)).
    destruct (Z.ltb_spec ((92 + Z.of_nat k) * 1000 + 365 + L) ((92 + Z.of_nat k) * 1000 + 1 + offset)).
    + replace ((92 + Z.of_nat k) * 1000 + 1 + 1000) with ((92 + Z.of_nat (S k)) * 1000 + 1) by lia.
      destruct (IH (offset - ((92 + Z.of_nat k) * 1000 + 365 + L - ((92 + Z.of_nat k) * 1000 + 1) + 1)) (S k))
        as (n & d & -> & Hd & Ho'); [unfold L in *; lia..|].
      exists (S n), d. replace (S k + n)%nat with (k + S n)%nat in * by lia.
      split_and!; [reflexivity|lia|lia|]. cbn [year_days] in Ho'. fold L in Ho'. lia.
    + exists 0%nat, (1 + offset). rewrite Nat.add_0_r. fold L. lia.
Qed.

(** C39. [julian] turns a day offset from the start date into year and day of the year,
    with the day within the year, for every offset up to [2^60] (whose dates fit a [long]);
    [unjulian] inverts it as long as the year fits the [int] it counts years in, which is
    certain below [365 * (2^31 - 92)] days, and overflows that [int] when it does not. *)
Theorem julian_unjulian k :
  0 <= k < 2 ^ 60 ->
  in_s 64 (julian (STARTDATE + k)) /\
  1 <= julian (STARTDATE + k) mod 1000 <= 365 + LEAP (julian (STARTDATE + k) / 1000) /\
  unjulian (julian (STARTDATE + k)) =
    (if julian (STARTDATE + k) / 1000 <=? INT_MAX then Some k else None) /\
  (k < 365 * (2 ^ 31 - 92) -> julian (STARTDATE + k) / 1000 <= INT_MAX).
Proof.
  intros Hk. unfold julian. replace (STARTDATE + k - STARTDATE) with k by lia.
  change STARTDATE with ((92 + Z.of_nat 0) * 1000 + 1).
  destruct (julian_loop_spec (Z.to_nat k) k 0 ltac:(lia) ltac:(lia)) as (n & d & -> & Hd & Ho).
  rewrite Nat.add_0_l in *. pose proof (LEAP_range (92 + Z.of_nat n)).
  assert (E1 : ((92 + Z.of_nat n) * 1000 + d) / 1000 = 92 + Z.of_nat n) by zdiv.
  assert (E2 : ((92 + Z.of_nat n) * 1000 + d) mod 1000 = d) by zdiv.
  pose proof (year_days_bounds n). cbn [year_days] in Ho.
  unfold unjulian. rewrite quot_div, rem_mod by lia. rewrite E1, E2.
  change (STARTDATE /c 1000) with (92 + Z.of_nat 0).
  replace (Z.to_nat (92 + Z.of_nat n - (92 + Z.of_nat 0))) with n by lia.
  split_and!; [unfold in_s; lia|lia|lia| |unfold INT_MAX; lia].
  destruct (Z.leb_spec (92 + Z.of_nat n) INT_MAX).
  - rewrite unjulian_loop_spec, Nat.add_0_r by lia. cbn [mbind option_bind year_days]. f_equal. lia.
  - rewrite unjulian_loop_overflow by (unfold INT_MAX in *; lia). reflexivity.
Qed.

Lemma julian_unjulian_witness :
  0 <= 2556 < 2 ^ 60 /\
  unjulian (julian (STARTDATE + 2556)) =
    if julian (STARTDATE + 2556) / 1000 <=? INT_MAX then Some 2556 else None.
Proof. split; [lia|]. apply (julian_unjulian 2556). lia. Defined.

(** ** The date table *)

(** Checked for each of the [TOTDATE] entries. *)
Lemma mk_ascdate_dates :
  mk_ascdate = Some (map (fun d => fmt_d (date_key d)) (dates_from (Z.to_nat TOTDATE) (1992, 1, 1))).
Proof. vm_compute. reflexivity. Qed.

(** C38. The date table has one entry per day of 1992 to 1998: entry [i] is the Gregorian
    date [i] days after 1992-01-01 as [yyyymmdd], and no access to [months] is out of
    its bounds. *)
Theorem mk_ascdate_gregorian :
  exists l, mk_ascdate = Some l /\ length l = Z.to_nat TOTDATE /\
    (forall i, (i < length l)%nat -> l !! i = Some (fmt_d (date_key (nth_date i)))) /\
    last l = Some "19981231".
Proof.
  eexists. split; [exact mk_ascdate_dates|]. split; [vm_compute; reflexivity|].
  split; [|vm_compute; reflexivity].
  intros i Hi. rewrite length_map in Hi.
  assert (Hlen : length (dates_from (Z.to_nat TOTDATE) (1992, 1, 1)) = Z.to_nat TOTDATE)
    by (vm_compute; reflexivity).
  rewrite Hlen in Hi. rewrite list_lookup_fmap, dates_from_nth by exact Hi. reflexivity.
Qed.
