(* ===== verification/DateDim.v ===== *)
(** The SSBM date dimension of build.c: [mk_date] and the functions it calls. The time
    zone of [localtime] is a parameter: [utcoff t] is the offset from UTC, in seconds, in
    force at time [t]. *)
From S2P Require Import Prelude CString State Consts Calendar.

(** ** The C library *)

(** The members of [struct tm] that are read. *)
Record tm := mk_tm { tm_year : Z; tm_mon : Z; tm_mday : Z; tm_wday : Z; tm_yday : Z }.

(** Days in the month [m] (0..11) of year [y]. *)
Definition mon_len (y m : Z) : Z := month_length y (m + 1).

Definition year_len (y : Z) : Z := if gregorian_leap y then 366 else 365.

(** Take whole years, then whole months, off a day count. *)
Fixpoint split_years (fuel : nat) (y n : Z) : Z * Z :=
  match fuel with
  | O => (y, n)
  | S fuel => if n <? year_len y then (y, n) else split_years fuel (y + 1) (n - year_len y)
  end.
Fixpoint split_months (fuel : nat) (y m n : Z) : Z * Z :=
  match fuel with
  | O => (m, n)
  | S fuel => if n <? mon_len y m then (m, n) else split_months fuel y (m + 1) (n - mon_len y m)
  end.

(** [gmtime(&t)] for [t >= 0]. *)
Definition gmtime (t : Z) : tm :=
  let day := t / 86400 in
  let '(y, yday) := split_years (Z.to_nat (day / 365 + 1)) 1970 day in
  let '(m, d) := split_months 12 y 0 yday in
  mk_tm (y - 1900) m (d + 1) ((day + 4) mod 7) yday.

(** ** build.c: data *)

Definition days_in_a_month : list Z := [31; 28; 31; 30; 31; 30; 31; 31; 30; 31; 30; 31].
Definition days_in_a_month_l : list Z := [31; 29; 31; 30; 31; 30; 31; 31; 30; 31; 30; 31].

Record season := mk_season {
  season_name : string; start_day : Z; start_month : Z; end_day : Z; end_month : Z
}.
Definition seasons : list season :=
  [ mk_season "Christmas" 1 11 31 12;
    mk_season "Summer" 1 5 31 8;
    mk_season "Winter" 1 1 31 3;
    mk_season "Spring" 1 4 30 4;
    mk_season "Fall" 1 9 31 10 ].

Record holiday := mk_holiday { h_name : string; h_month : Z; h_day : Z }.
Definition holidays : list holiday :=
  [ mk_holiday "Christmas" 12 24; mk_holiday "New Years Day" 1 1; mk_holiday "holiday1" 2 20;
    mk_holiday "Easter Day" 4 20; mk_holiday "holiday2" 5 20; mk_holiday "holiday3" 7 20;
    mk_holiday "holiday4" 8 20; mk_holiday "holiday5" 9 20; mk_holiday "holiday6" 10 20;
    mk_holiday "holiday7" 11 20 ].

Definition month_names : list string :=
  [ "January"; "February"; "March"; "April"; "May"; "June"; "July"; "Augest"; "September";
    "Octorber"; "November"; "December" ].
Definition weekday_names : list string :=
  [ "Sunday"; "Monday"; "Tuesday"; "Wednesday"; "Thursday"; "Friday"; "Saturday" ].

(** dsstypes.h: [date_t] *)
Record date_t := mk_date_t {
  datekey : Z; date : string; dayofweek : string; d_month : string; year : Z;
  yearmonthnum : Z; yearmonth : string; daynuminweek : Z; daynuminmonth : Z;
  daynuminyear : Z; monthnuminyear : Z; weeknuminyear : Z; sellingseason : string; slen : Z;
  lastdayinweekfl : string; lastdayinmonthfl : string; holidayfl : string; weekdayfl : string
}.

(** ** build.c: operations *)

(** [int gen_holiday_fl(char *dest, int month, int day)]: the string stored. *)
Definition gen_holiday_fl (month day : Z) : string :=
  if existsb (fun h => (h_month h =? month) && (h_day h =? day))
       (take (Z.to_nat NUM_HOLIDAYS) holidays)
  then "1" else "0".

(** [int is_last_day_in_month(int year, int month, int day)]: [None] for a month outside
    1..12. *)
Definition is_last_day_in_month (year month day : Z) : option Z :=
  let days := if negb (LEAP year =? 0) then days_in_a_month_l else days_in_a_month in
  n ← days !! Z.to_nat (month - 1);
  Some (if day =? n then 1 else 0).

(** [int gen_season(char *dest, int month, int day)]: the string stored. *)
Definition in_season (month day : Z) (seas : season) : bool :=
  (start_month seas <=? month) && (month <=? end_month seas) &&
  (start_day seas <=? day) && (day <=? end_day seas).
Definition gen_season (month day : Z) : string :=
  match List.find (in_season month day) (take (Z.to_nat NUM_SEASONS) seasons) with
  | Some seas => season_name seas
  | None => ""
  end.

Section MkDate.
Context (utcoff : Z -> Z).

Definition localtime (t : Z) : tm := gmtime (t + utcoff t).

(** [long mk_date(long index, date_t *d)]: [None] when an array is read out of its
    bounds. The buffers hold every string stored: the longest date has 18 characters. *)
Definition mk_date (index : Z) : option date_t :=
  let espan := (index - 1) * 60 * 60 * 24 in
  let numDateTime := D_STARTDATE + espan in
  let localTime := localtime numDateTime in
  let daynuminweek := (tm_wday localTime + 1) %c 7 + 1 in
  let monthnuminyear := tm_mon localTime + 1 in
  wname ← weekday_names !! Z.to_nat (daynuminweek - 1);
  mname ← month_names !! Z.to_nat (monthnuminyear - 1);
  let dayofweek := strncpy_s wname (D_DAYWEEK_LEN + 1) in
  let month := strncpy_s mname (D_MONTH_LEN + 1) in
  let year := tm_year localTime + 1900 in
  let daynuminmonth := tm_mday localTime in
  let yearmonthnum := year * 100 + monthnuminyear in
  let yearmonth := take_s 3 month +:+ fmt_d year in
  let date := month +:+ " " +:+ fmt_d daynuminmonth +:+ ", " +:+ fmt_d year in
  let datekey := year * 10000 + monthnuminyear * 100 + daynuminmonth in
  let daynuminyear := tm_yday localTime + 1 in
  let weeknuminyear := daynuminyear /c 7 + 1 in
  let lastdayinweekfl := if daynuminweek =? 7 then "1" else "0" in
  is_last ← is_last_day_in_month year monthnuminyear daynuminmonth;
  let lastdayinmonthfl := if is_last =? 1 then "0" else "1" in
  let weekdayfl :=
    if negb (daynuminweek =? 1) && negb (daynuminweek =? 7) then "1" else "0" in
  let sellingseason := gen_season monthnuminyear daynuminmonth in
  let slen := strlen sellingseason in
  let holidayfl := gen_holiday_fl monthnuminyear daynuminmonth in
  Some (mk_date_t datekey date dayofweek month year yearmonthnum yearmonth daynuminweek
          daynuminmonth daynuminyear monthnuminyear weeknuminyear sellingseason slen
          lastdayinweekfl lastdayinmonthfl holidayfl weekdayfl).
End MkDate.

Example mk_date_1 :
  (fun d => (datekey d, date d, dayofweek d, yearmonth d)) <$> mk_date (fun _ => -18000) 1 =
  Some (19920101, "January 1, 1992", "Thursday", "Jan1992").
Proof. vm_compute. reflexivity. Qed.

(** ** The broken-down time of each row *)

(** Only the day matters: an offset that keeps the time of row 1 on 1992-01-01 does so for
    every row. *)
Lemma gmtime_day t : gmtime t = gmtime (t / 86400 * 86400).
Proof. unfold gmtime. now rewrite Z.div_mul by lia. Qed.

(** 1992-01-01 00:00:00 UTC, and the time of day [D_STARTDATE] has in UTC. *)
Definition day0 : Z := 694224000.
Definition clock0 : Z := 21661.

Lemma startdate_split : D_STARTDATE = day0 + clock0 /\ day0 = 8035 * 86400.
Proof. split; reflexivity. Qed.

Definition zone_ok (utcoff : Z -> Z) : Prop := forall t, - clock0 <= utcoff t < 86400 - clock0.

Lemma localtime_row utcoff index :
  zone_ok utcoff ->
  localtime utcoff (D_STARTDATE + (index - 1) * 60 * 60 * 24) = gmtime ((8035 + (index - 1)) * 86400).
Proof.
  intros Hz. unfold localtime. set (t := D_STARTDATE + _). specialize (Hz t).
  rewrite gmtime_day. f_equal. unfold t, D_STARTDATE, clock0 in *.
  f_equal. zdiv.
Qed.

(** The day of the year of a date, from the lengths of the months before it. *)
Definition day_of_year (d : Z * Z * Z) : Z :=
  let '(y, m, day) := d in
  fold_right Z.add 0 (map (fun k => month_length y (Z.of_nat k)) (seq 1 (Z.to_nat (m - 1)))) + day.

(** [tm] of the [n]-th day, for the days a table of [NUM_DAYS] rows has. *)
Definition tm_of (n : nat) (d : Z * Z * Z) : tm :=
  let '(y, m, day) := d in
  mk_tm (y - 1900) (m - 1) day ((Z.of_nat n + 3) mod 7) (day_of_year d - 1).

Fixpoint check_days (k : nat) (n : nat) (d : Z * Z * Z) : bool :=
  match k with
  | O => true
  | S k =>
      let a := gmtime ((8035 + Z.of_nat n) * 86400) in
      let b := tm_of n d in
      (tm_year a =? tm_year b) && (tm_mon a =? tm_mon b) && (tm_mday a =? tm_mday b) &&
      (tm_wday a =? tm_wday b) && (tm_yday a =? tm_yday b) && check_days k (S n) (next_day d)
  end.

Lemma check_days_sound k : forall n d,
  check_days k n d = true ->
  forall i, (i < k)%nat ->
    gmtime ((8035 + Z.of_nat (n + i)) * 86400) = tm_of (n + i) (Nat.iter i next_day d).
Proof.
  induction k as [|k IH]; intros n d H i Hi; [lia|]. cbn [check_days] in H.
  repeat (apply andb_true_iff in H; destruct H as [H ?Hc]).
  destruct i as [|i].
  - rewrite Nat.add_0_r. change (Nat.iter 0 next_day d) with d.
    destruct (gmtime _) as [a1 a2 a3 a4 a5], (tm_of n d) as [b1 b2 b3 b4 b5].
    cbn [tm_year tm_mon tm_mday tm_wday tm_yday] in *. f_equal; now apply Z.eqb_eq.
  - replace (n + S i)%nat with (S n + i)%nat by lia.
    rewrite (Nat.iter_succ_r i next_day d). now apply IH; [|lia].
Qed.

(** The days of 1992 to 2000, checked one by one. *)
Lemma gmtime_days i :
  (i < 3287)%nat -> gmtime ((8035 + Z.of_nat i) * 86400) = tm_of i (nth_date i).
Proof. intros Hi. apply (check_days_sound 3287 0 (1992, 1, 1)); [vm_compute; reflexivity|exact Hi]. Qed.

Lemma localtime_tm utcoff index :
  zone_ok utcoff -> 1 <= index <= 2922 ->
  localtime utcoff (D_STARTDATE + (index - 1) * 60 * 60 * 24) =
  tm_of (Z.to_nat (index - 1)) (nth_date (Z.to_nat (index - 1))).
Proof.
  intros Hz Hi. rewrite localtime_row by exact Hz. rewrite <- gmtime_days by lia.
  do 2 f_equal. lia.
Qed.

(** ** Valid dates *)

Definition valid_date (d : Z * Z * Z) : Prop :=
  let '(y, m, day) := d in 1 <= m <= 12 /\ 1 <= day <= month_length y m.

Lemma month_length_range y m : 28 <= month_length y m <= 31.
Proof. unfold month_length. repeat case_match; lia. Qed.

Lemma next_day_valid d : valid_date d -> valid_date (next_day d).
Proof.
  destruct d as [[y m] day]. unfold valid_date, next_day. intros [Hm Hd].
  destruct (Z.ltb_spec day (month_length y m)); [lia|].
  pose proof (month_length_range y (m + 1)). pose proof (month_length_range (y + 1) 1).
  destruct (Z.ltb_spec m 12); lia.
Qed.

Lemma nth_date_valid n : valid_date (nth_date n).
Proof.
  unfold nth_date. induction n as [|n IH]; [cbn; lia|]. now apply next_day_valid.
Qed.

Definition date_year (d : Z * Z * Z) : Z := fst (fst d).

Lemma nth_date_years i : (i < 2922)%nat -> 1992 <= date_year (nth_date i) <= 1999.
Proof.
  intros Hi.
  assert (Hall : forallb (fun d => (1992 <=? date_year d) && (date_year d <=? 1999))
            (dates_from 2922 (1992, 1, 1)) = true) by (vm_compute; reflexivity).
  rewrite forallb_forall in Hall.
  specialize (Hall (nth_date i)). rewrite andb_true_iff, !Z.leb_le in Hall. apply Hall.
  apply list_elem_of_In, list_elem_of_lookup. exists i. now apply dates_from_nth.
Qed.

Lemma in_Z_seq z a k : Z.of_nat a <= z < Z.of_nat (a + k) -> In z (map Z.of_nat (seq a k)).
Proof. intros Hz. apply in_map_iff. exists (Z.to_nat z). rewrite in_seq. lia. Qed.

(** In these years the program's leap rule and month lengths are the Gregorian ones. *)
Lemma month_table y m :
  1992 <= y <= 1999 -> 1 <= m <= 12 ->
  (if negb (LEAP y =? 0) then days_in_a_month_l else days_in_a_month) !! Z.to_nat (m - 1) =
  Some (month_length y m).
Proof.
  intros Hy Hm.
  assert (Hall : forallb (fun y => forallb (fun m =>
      bool_decide ((if negb (LEAP y =? 0) then days_in_a_month_l else days_in_a_month) !! Z.to_nat (m - 1)
                   = Some (month_length y m)))
      (map Z.of_nat (seq 1 12))) (map Z.of_nat (seq 1992 8)) = true) by (vm_compute; reflexivity).
  rewrite forallb_forall in Hall. specialize (Hall y).
  specialize (Hall (in_Z_seq y 1992%nat 8%nat ltac:(lia))). rewrite forallb_forall in Hall.
  specialize (Hall m (in_Z_seq m 1%nat 12%nat ltac:(lia))). now apply bool_decide_eq_true in Hall.
Qed.

Lemma name_lookup (l : list string) n k :
  length l = n -> 0 <= k < Z.of_nat n -> exists s, l !! Z.to_nat k = Some s.
Proof. intros Hl Hk. apply lookup_lt_is_Some_2. lia. Qed.

(** ** Properties *)

(** Row [index]: that it is defined, and its date columns. *)
Lemma mk_date_row utcoff index :
  zone_ok utcoff -> 1 <= index <= 2922 ->
  exists r, mk_date utcoff index = Some r /\
    let d := nth_date (Z.to_nat (index - 1)) in
    datekey r = date_key d /\ year r = fst (fst d) /\ monthnuminyear r = snd (fst d) /\
    daynuminmonth r = snd d /\ yearmonthnum r = 100 * year r + monthnuminyear r /\
    daynuminyear r = day_of_year d.
Proof.
  intros Hz Hi. unfold mk_date. cbv zeta. rewrite localtime_tm by assumption.
  set (n := Z.to_nat (index - 1)).
  pose proof (nth_date_valid n) as Hv. pose proof (nth_date_years n ltac:(lia)) as Hy.
  destruct (nth_date n) as [[y m] day] eqn:Hd.
  cbn [valid_date date_year fst snd] in Hv, Hy. destruct Hv as [Hm Hday].
  cbn [tm_of tm_year tm_mon tm_mday tm_wday tm_yday].
  replace (y - 1900 + 1900) with y by lia. replace (m - 1 + 1) with m by lia.
  set (w := (Z.of_nat n + 3) mod 7).
  assert (Hw : 0 <= (w + 1) %c 7 + 1 - 1 < 7) by (unfold w; rewrite rem_mod by zdiv; zdiv).
  destruct (name_lookup weekday_names 7 _ eq_refl Hw) as [wn ->].
  destruct (name_lookup month_names 12 (m - 1) eq_refl ltac:(lia)) as [mn ->].
  cbn [mbind option_bind]. unfold is_last_day_in_month. rewrite month_table by lia.
  cbn [mbind option_bind]. eexists. split; [reflexivity|].
  cbn [datekey year monthnuminyear daynuminmonth yearmonthnum daynuminyear fst snd date_key].
  split_and!; lia.
Qed.

(** C24. Date columns of the date dimension: in every time zone between 6 hours west of
    Greenwich and 17:58 east of it, row [index] has the key, year, month and day of the
    Gregorian date [index - 1] days after 1992-01-01 and its day number in the year (rows
    of 1992 to 1999, beyond the [NUM_DAYS] generated). *)
Theorem mk_date_columns utcoff index :
  zone_ok utcoff -> 1 <= index <= 2922 ->
  exists r, mk_date utcoff index = Some r /\
    let d := nth_date (Z.to_nat (index - 1)) in
    datekey r = date_key d /\ year r = fst (fst d) /\ monthnuminyear r = snd (fst d) /\
    daynuminmonth r = snd d /\ yearmonthnum r = 100 * year r + monthnuminyear r /\
    daynuminyear r = day_of_year d.
Proof. exact (mk_date_row utcoff index). Qed.

Lemma mk_date_columns_witness :
  (zone_ok (fun _ => -18000) /\ 1 <= 2556 <= 2922) /\
  exists r, mk_date (fun _ => -18000) 2556 = Some r /\ datekey r = 19981230.
Proof.
  assert (Hz : zone_ok (fun _ => -18000)) by (unfold zone_ok, clock0; lia).
  split; [split; [exact Hz|lia]|].
  destruct (mk_date_columns (fun _ => -18000) 2556 Hz ltac:(lia)) as (r & Hr & Hk & _).
  exists r. split; [exact Hr|]. rewrite Hk. vm_compute. reflexivity.
Defined.

(** Day-of-week and end-of-month columns: the day of the week is numbered and named
    one day too late (0 is Sunday in [w], and row 1, a Wednesday, is called Thursday), so
    the weekend and end-of-week flags are those of the next day, and the
    last-day-in-month flag is 0 on the last day of the month and 1 on the others. *)
Theorem mk_date_week_columns utcoff index :
  zone_ok utcoff -> 1 <= index <= 2922 ->
  exists r, mk_date utcoff index = Some r /\
    let d := nth_date (Z.to_nat (index - 1)) in
    let w := (index + 2) mod 7 in            (* 1992-01-01 is a Wednesday, w = 3 *)
    daynuminweek r = (w + 1) mod 7 + 1 /\
    weekday_names !! Z.to_nat ((w + 1) mod 7) = Some (dayofweek r) /\
    (weekdayfl r = "1" <-> 1 <= (w + 1) mod 7 <= 5) /\
    (lastdayinweekfl r = "1" <-> (w + 1) mod 7 = 6) /\
    (lastdayinmonthfl r = "0" <-> snd (next_day d) = 1).
Proof.
  intros Hz Hi. unfold mk_date. cbv zeta. rewrite localtime_tm by assumption.
  set (n := Z.to_nat (index - 1)).
  pose proof (nth_date_valid n) as Hv. pose proof (nth_date_years n ltac:(lia)) as Hy.
  destruct (nth_date n) as [[y m] day] eqn:Hd.
  cbn [valid_date date_year fst snd] in Hv, Hy. destruct Hv as [Hm Hday].
  cbn [tm_of tm_year tm_mon tm_mday tm_wday tm_yday].
  replace (y - 1900 + 1900) with y by lia. replace (m - 1 + 1) with m by lia.
  replace (Z.of_nat n + 3) with (index + 2) by lia. set (w := (index + 2) mod 7).
  assert (Hw : 0 <= w < 7) by (apply Z.mod_pos_bound; lia). rewrite rem_mod by lia.
  set (v := (w + 1) mod 7). assert (Hvr : 0 <= v < 7) by (apply Z.mod_pos_bound; lia).
  replace (v + 1 - 1) with v by lia.
  destruct (name_lookup month_names 12 (m - 1) eq_refl ltac:(lia)) as [mn ->].
  assert (Hwn : exists wn, weekday_names !! Z.to_nat v = Some wn /\ strncpy_s wn (D_DAYWEEK_LEN + 1) = wn).
  { assert (v = 0 \/ v = 1 \/ v = 2 \/ v = 3 \/ v = 4 \/ v = 5 \/ v = 6) as Hc by lia.
    destruct Hc as [->|[->|[->|[->|[->|[->| ->]]]]]]; eexists; split; reflexivity. }
  destruct Hwn as (wn & Hwn & Hcpy). rewrite Hwn.
  cbn [mbind option_bind]. unfold is_last_day_in_month. rewrite month_table by lia.
  cbn [mbind option_bind]. eexists. split; [reflexivity|].
  cbn [daynuminweek dayofweek weekdayfl lastdayinweekfl lastdayinmonthfl].
  split_and!; [reflexivity|now rewrite Hcpy| | |].
  - destruct (Z.eqb_spec (v + 1) 1), (Z.eqb_spec (v + 1) 7); cbn [negb andb]; split; intros; lia || done.
  - destruct (Z.eqb_spec (v + 1) 7); split; intros; lia || done.
  - unfold next_day. destruct (Z.eqb_spec day (month_length y m)), (Z.ltb_spec day (month_length y m));
      cbn [Z.eqb]; try lia; destruct (Z.ltb_spec m 12); cbn [snd]; split; intros; lia || done.
Qed.

Lemma mk_date_week_columns_witness :
  (zone_ok (fun _ => 0) /\ 1 <= 1 <= 2922) /\
  exists r, mk_date (fun _ => 0) 1 = Some r /\ daynuminweek r = 5 /\ Some "Thursday" = Some (dayofweek r).
Proof.
  assert (Hz : zone_ok (fun _ => 0)) by (unfold zone_ok, clock0; lia).
  split; [split; [exact Hz|lia]|].
  destruct (mk_date_week_columns (fun _ => 0) 1 Hz ltac:(lia)) as (r & Hr & Hk & Hn & _).
  exists r. split; [exact Hr|]. split; [exact Hk|exact Hn].
Defined.

Definition one_season (m day : Z) : bool :=
  match filter (fun x => in_season m day x = true) seasons with
  | [seas] => bool_decide (gen_season m day = season_name seas) && negb (bool_decide (gen_season m day = ""))
  | _ => false
  end.

(** Every day of the year falls in exactly one selling season, and [gen_season] gives
    its name. *)
Theorem gen_season_partition y m day :
  1 <= m <= 12 -> 1 <= day <= month_length y m ->
  exists seas, filter (fun x => in_season m day x = true) seasons = [seas] /\
    gen_season m day = season_name seas /\ gen_season m day <> "".
Proof.
  intros Hm Hd.
  assert (H : one_season m day = true).
  { assert (Hall : forallb (fun m => forallb (one_season m)
        (map Z.of_nat (seq 1 (Z.to_nat (month_length 1992 m))))) (map Z.of_nat (seq 1 12)) = true)
      by (vm_compute; reflexivity).
    rewrite forallb_forall in Hall. specialize (Hall m (in_Z_seq m 1 12 ltac:(lia))).
    rewrite forallb_forall in Hall. apply Hall, in_Z_seq.
    enough (month_length y m <= month_length 1992 m) by lia.
    unfold month_length. change (gregorian_leap 1992) with true. repeat case_match; lia. }
  unfold one_season in H. destruct (filter _ seasons) as [|seas [|]]; try discriminate.
  apply andb_true_iff in H as [H1 H2]. apply bool_decide_eq_true in H1.
  apply negb_true_iff, bool_decide_eq_false in H2. eauto.
Qed.

Lemma gen_season_partition_witness :
  (1 <= 4 <= 12 /\ 1 <= 30 <= month_length 1992 4) /\ gen_season 4 30 <> "".
Proof.
  split; [cbn; lia|].
  destruct (gen_season_partition 1992 4 30 ltac:(lia) ltac:(cbn; lia)) as (seas & _ & _ & H). exact H.
Defined.
