(* ===== verification/Dist.v ===== *)
(** Distributions and random strings: the selection functions of bm_utils.c and the
    permutation generator of permute.c. *)
From Stdlib Require Import Permutation.
From S2P Require Import Prelude CString Float64 Rng State Consts Streams.

(** ** bm_utils.c: random strings *)

Definition alpha_num : string := "0123456789abcdefghijklmnopqrstuvwxyz ABCDEFGHIJKLMNOPQRSTUVWXYZ,".

(** The loop of [a_rnd]: [n] characters left, [i] the next. *)
Fixpoint a_rnd_loop (n : nat) (i char_int column : Z) : M string :=
  match n with
  | O => ret ""
  | S n =>
      char_int <- (if i %c 5 =? 0 then RANDOM 0 MAX_LONG column else ret char_int);;
      c <- must "alpha_num" (s_at (Z.land char_int 0x3f) alpha_num);;
      rest <- a_rnd_loop n (i + 1) (Z.shiftr char_int 6) column;;
      ret (String c rest)
  end.

(** [int a_rnd(int min, int max, int column, char *dest)]: the length returned and the
    string stored. *)
Definition a_rnd (min max column : Z) : M (Z * string) :=
  len <- RANDOM min max column;;
  dest <- a_rnd_loop (Z.to_nat len) 0 0 column;;
  ret (len, dest).

(** [#define V_STR(avg, sd, tgt) a_rnd((int)(avg * V_STR_LOW), (int)(avg * V_STR_HGH), sd, tgt)] *)
Definition V_STR_LOW : f64 := f_lit 4 10.
Definition V_STR_HGH : f64 := f_lit 16 10.
Definition V_STR (avg sd : Z) : M (Z * string) :=
  a_rnd (f_to_Z (fmul (f_of_Z avg) V_STR_LOW)) (f_to_Z (fmul (f_of_Z avg) V_STR_HGH)) sd.

(** ** bm_utils.c: selection from a distribution *)

(** [while (s->list[i].weight < j) i++;], [None] past the end of the list. *)
Fixpoint pick_loop (l : list set_member) (i j : Z) : option (Z * set_member) :=
  match l with
  | [] => None
  | m :: l => if weight m <? j then pick_loop l (i + 1) j else Some (i, m)
  end.

(** [int pick_str(distribution *s, int c, char *target)]: the index and the text. *)
Definition pick_str (d : distribution) (c : Z) : M (Z * string) :=
  top <- must "list[count - 1]" (if count d - 1 <? 0 then None else dlist d !! Z.to_nat (count d - 1));;
  j <- RANDOM 1 (weight top) c;;
  p <- must "list[i]" (pick_loop (dlist d) 0 j);;
  ret (fst p, text (snd p)).

(** [void e_str(distribution *d, int min, int max, int stream, char *dest)]; a negative
    [loc] (a member longer than the string) would write before [dest]. *)
Definition e_str (d : distribution) (min max stream : Z) : M string :=
  p <- a_rnd min max stream;;
  let dest := snd p in
  q <- pick_str d stream;;
  let strtmp := snd q in
  let len := strlen strtmp in
  loc <- RANDOM 0 (strlen dest - 1 - len) stream;;
  if loc <? 0 then stop_with (Undefined "dest + loc")
  else ret (take_s loc dest +:+ strtmp +:+ drop_s (loc + len) dest).

(** ** permute.c *)

(** Swapping two cells of an array. *)
Definition swap_at (i j : nat) (a : list Z) : list Z :=
  match a !! i, a !! j with
  | Some x, Some y => <[i := y]> (<[j := x]> a)
  | _, _ => a
  end.

(** The shuffling loop: [n] iterations left, [i] the next, over an array of [c] cells. *)
Fixpoint permute_loop (n : nat) (i c s : Z) : M unit :=
  match n with
  | O => ret tt
  | S n =>
      src <- RANDOM 0 (c - 1) s;;
      modify (set_perm (fun p =>
        mk_perm 0 (swap_at (Z.to_nat i) (Z.to_nat src) (pset p)) (pdist p)));;
      permute_loop n (i + 1) c s
  end.

(** [long *permute(long *a, int c, long s)]: the number pointed to; [a] is whether the
    argument is not [NULL]. *)
Definition permute (a : bool) (c s : Z) : M Z :=
  (if a then
     modify (set_perm (fun p => mk_perm (source p) (map Z.of_nat (seq 0 (Z.to_nat c))) (pdist p)));;
     permute_loop (Z.to_nat c) 0 c s
   else modify (set_perm (fun p => mk_perm (source p + 1) (pset p) (pdist p))));;
  modify (set_perm (fun p =>
    if c <=? source p then mk_perm (source p - c) (pset p) (pdist p) else p));;
  p <- gets perm;;
  must "set + source" (if source p <? 0 then None else pset p !! Z.to_nat (source p)).

(** [long *permute_dist(distribution *d, long stream)]. The array a first call allocates
    holds the identity, which [permute] stores again. *)
Definition permute_dist (d : option distribution) (stream : Z) : M Z :=
  match d with
  | Some d =>
      modify (set_perm (fun p => mk_perm (source p) (pset p) (Some (count d))));;
      permute true (count d) stream
  | None =>
      p <- gets perm;;
      match pdist p with
      | Some n => permute false n stream
      | None => stop_with (Aborted "Bad call to permute_dist")
      end
  end.

(** [void agg_str(distribution *set, long count, long col, char *dest)]: the loop, with
    [dest] so far, then the removal of the last separator. *)
Fixpoint agg_str_loop (n : nat) (set : distribution) (d : option distribution) (col : Z)
    (dest : string) : M string :=
  match n with
  | O => ret dest
  | S n =>
      k <- permute_dist d col;;
      m <- must "DIST_MEMBER" (if k <? 0 then None else dlist set !! Z.to_nat k);;
      agg_str_loop n set None col (dest +:+ text m +:+ " ")
  end.

Definition agg_str (set : distribution) (count col : Z) : M string :=
  dest <- agg_str_loop (Z.to_nat count) set (Some set) col "";;
  if strlen dest =? 0 then stop_with (Undefined "dest - 1")
  else ret (take_s (strlen dest - 1) dest).

(** ** bm_utils.c: comparing without case *)

(** A [char] is signed. *)
Definition schar (c : ascii) : Z := wrap_s 8 (char_code (tolower c)).

(** [long dsscasecmp(char *s1, char *s2)]; a string is followed by its NUL. *)
Fixpoint dsscasecmp (s1 s2 : string) : Z :=
  match s1, s2 with
  | EmptyString, EmptyString => 0
  | String a s1, String b s2 =>
      if schar a =? schar b then dsscasecmp s1 s2 else if schar a <? schar b then -1 else 1
  | EmptyString, String b _ => if 0 <? schar b then -1 else 1
  | String a _, EmptyString => if schar a <? 0 then -1 else 1
  end.

(** [long dssncasecmp(char *s1, char *s2, int n)] *)
Fixpoint dssncasecmp (s1 s2 : string) (n : nat) : Z :=
  match n, s1, s2 with
  | O, _, _ => 0
  | S n, EmptyString, EmptyString => 0
  | S n, String a s1, String b s2 =>
      if negb (schar a =? schar b) then if schar a <? schar b then -1 else 1
      else dssncasecmp s1 s2 n
  | S n, EmptyString, String b _ => if 0 <? schar b then -1 else 1
  | S n, String a _, EmptyString => if schar a <? 0 then -1 else 1
  end.

(** ** Random strings *)

Definition in_alpha (c : ascii) : bool :=
  match strchr alpha_num c with Some _ => true | None => false end.

Lemma alpha_num_at k : 0 <= k < 64 -> exists c, s_at k alpha_num = Some c /\ in_alpha c = true.
Proof.
  intros Hk.
  assert (Hall : forallb (fun k => match s_at (Z.of_nat k) alpha_num with
      Some c => in_alpha c | None => false end) (seq 0 64) = true) by (vm_compute; reflexivity).
  rewrite forallb_forall in Hall. specialize (Hall (Z.to_nat k)).
  rewrite in_seq, Z2Nat.id in Hall by lia. specialize (Hall ltac:(lia)).
  destruct (s_at k alpha_num); [eauto|discriminate].
Qed.

Lemma land_63 x : 0 <= Z.land x 0x3f < 64.
Proof. change 0x3f with (Z.ones 6). rewrite Z.land_ones by lia. apply Z.mod_pos_bound. lia. Qed.

(** Draws for the characters [i .. i + n - 1]: one per multiple of 5. *)
Definition word_draws (i n : Z) : nat := Z.to_nat ((i + n + 4) / 5 - (i + 4) / 5).

Lemma wp_a_rnd_loop n : forall i ci col l s0 (Q : string -> st -> Prop) s,
  seeds_ok (Seed s0) -> drew l s0 s -> 0 <= i ->
  (forall str s', strlen str = Z.of_nat n -> all_chars in_alpha str = true ->
     drew (l ++ repeat col (word_draws i (Z.of_nat n))) s0 s' -> perm s' = perm s -> Q str s') ->
  wp (a_rnd_loop n i ci col) Q s.
Proof.
  induction n as [|n IH]; intros i ci col l s0 Q s H0 Hd Hi HQ; cbn [a_rnd_loop].
  - apply wp_ret, HQ; try reflexivity. replace (word_draws i (Z.of_nat 0)) with 0%nat
      by (unfold word_draws; replace (i + Z.of_nat 0 + 4) with (i + 4) by lia; lia).
    cbn [repeat]. now rewrite app_nil_r.
  - rewrite rem_mod by lia. apply wp_bind.
    assert (Hrest : forall ci s1 k, drew (l ++ repeat col k) s0 s1 -> perm s1 = perm s ->
      (k + word_draws (i + 1) (Z.of_nat n))%nat = word_draws i (Z.of_nat (S n)) ->
      wp (c <- must "alpha_num" (s_at (Z.land ci 0x3f) alpha_num);;
          rest <- a_rnd_loop n (i + 1) (Z.shiftr ci 6) col;;
          ret (String c rest)) Q s1).
    { intros ci' s1 k Hd1 Hp1 Hk. destruct (alpha_num_at _ (land_63 ci')) as (c & Hc & Hin).
      apply wp_bind. rewrite Hc. apply wp_ret, wp_bind. eapply IH; [exact H0|exact Hd1|lia|].
      intros str s' Hl Ha Hd' Hp'. apply wp_ret, HQ.
      - unfold strlen in *. cbn [String.length]. lia.
      - cbn [all_chars]. now rewrite Hin, Ha.
      - rewrite <- app_assoc, <- repeat_app, Hk in Hd'. exact Hd'.
      - congruence. }
    destruct (Z.eqb_spec (i mod 5) 0).
    + eapply wp_random_d; [exact H0|exact Hd|unfold MAX_LONG; lia|].
      intros v s1 _ Hd1 Hp1. apply (Hrest v s1 1%nat Hd1 Hp1).
      unfold word_draws. zdiv.
    + apply wp_ret, (Hrest ci s 0%nat); [cbn; now rewrite app_nil_r|reflexivity|].
      unfold word_draws. zdiv.
Qed.

Lemma wp_a_rnd min max col l s0 (Q : Z * string -> st -> Prop) s :
  seeds_ok (Seed s0) -> drew l s0 s -> 0 <= min <= max -> max < 2 ^ 31 ->
  (forall len str s', min <= len <= max -> strlen str = len -> all_chars in_alpha str = true ->
     drew (l ++ repeat col (1 + Z.to_nat ((len + 4) / 5))) s0 s' -> perm s' = perm s ->
     Q (len, str) s') ->
  wp (a_rnd min max col) Q s.
Proof.
  intros H0 Hd Hm Hmax HQ. unfold a_rnd. apply wp_bind.
  eapply wp_random_d; [exact H0|exact Hd|lia|]. intros len s1 Hlen Hd1 Hp1.
  apply wp_bind. eapply wp_a_rnd_loop; [exact H0|exact Hd1|lia|].
  intros str s' Hl Ha Hd' Hp'. rewrite Z2Nat.id in Hl, Hd' by lia.
  apply wp_ret, HQ; try assumption; [|congruence].
  rewrite <- app_assoc in Hd'. cbn [repeat Nat.add].
  replace (word_draws 0 len) with (Z.to_nat ((len + 4) / 5)) in Hd'; [exact Hd'|].
  unfold word_draws. change ((0 + 4) / 5) with 0. now rewrite Z.sub_0_r.
Qed.

(** ** Selection *)

(** A distribution that [pick_str] can select from. *)
Definition dist_ok (d : distribution) : Prop :=
  1 <= count d /\ Z.of_nat (length (dlist d)) = count d /\
  exists top, last (dlist d) = Some top /\ 1 <= weight top < 2 ^ 31.

Lemma pick_loop_first l : forall i j top,
  last l = Some top -> j <= weight top ->
  exists k m, pick_loop l i j = Some (i + Z.of_nat k, m) /\ l !! k = Some m /\ j <= weight m /\
    forall k' m', (k' < k)%nat -> l !! k' = Some m' -> weight m' < j.
Proof.
  induction l as [|m l IH]; intros i j top Ht Hj; [done|]. cbn [pick_loop].
  destruct (Z.ltb_spec (weight m) j).
  - destruct l as [|m2 l]; [cbn in Ht; injection Ht as <-; lia|].
    destruct (IH (i + 1) j top Ht Hj) as (k & m' & -> & Hk & Hw & Hf).
    exists (S k), m'. split_and!; [do 2 f_equal; lia|exact Hk|exact Hw|].
    intros [|k'] m'' Hk' Hl; [cbn in Hl; injection Hl as <-; lia|]. apply (Hf k'); [lia|exact Hl].
  - exists 0%nat, m. split_and!; [do 2 f_equal; lia|reflexivity|assumption|lia].
Qed.

Lemma wp_pick_str d c l s0 (Q : Z * string -> st -> Prop) s :
  seeds_ok (Seed s0) -> drew l s0 s -> dist_ok d ->
  (forall k m j s', dlist d !! k = Some m -> j <= weight m ->
     (forall k' m', (k' < k)%nat -> dlist d !! k' = Some m' -> weight m' < j) -> 1 <= j ->
     drew (l ++ [c]) s0 s' -> perm s' = perm s -> Q (Z.of_nat k, text m) s') ->
  wp (pick_str d c) Q s.
Proof.
  intros H0 Hd (Hc & Hlen & top & Ht & Hw) HQ. unfold pick_str. apply wp_bind.
  destruct (Z.ltb_spec (count d - 1) 0); [lia|].
  rewrite last_lookup in Ht. replace (Z.to_nat (count d - 1)) with (Init.Nat.pred (length (dlist d))) by lia.
  rewrite Ht. apply wp_ret, wp_bind. eapply wp_random_d; [exact H0|exact Hd|lia|].
  intros j s' Hj Hd' Hp. rewrite <- last_lookup in Ht.
  destruct (pick_loop_first (dlist d) 0 j top Ht ltac:(lia)) as (k & m & Hk & Hm & Hjm & Hf).
  apply wp_bind. rewrite Hk. apply wp_ret, wp_ret. cbn [fst snd].
  rewrite Z.add_0_l. eapply HQ; eauto. lia.
Qed.

Definition texts (d : distribution) : list string := map text (dlist d).

(** ** Permutations *)

Lemma swap_at_perm i j a : swap_at i j a ≡ₚ a.
Proof.
  unfold swap_at. destruct (a !! i) as [x|] eqn:Hi; [|done].
  destruct (a !! j) as [y|] eqn:Hj; [|done]. destruct (decide (i = j)) as [->|Hij].
  - rewrite list_insert_insert_eq. now rewrite list_insert_id.
  - rewrite list_insert_insert_ne by done. now apply Permutation_insert_swap.
Qed.

(** An array of [c] cells that holds each of [0 .. c - 1] once. *)
Definition perm_ok (c : Z) (a : list Z) : Prop := a ≡ₚ map Z.of_nat (seq 0 (Z.to_nat c)).

Lemma perm_ok_length c a : 0 <= c -> perm_ok c a -> Z.of_nat (length a) = c.
Proof. intros Hc Ha. rewrite Ha, length_map, length_seq. lia. Qed.

Lemma perm_ok_NoDup c a : perm_ok c a -> NoDup a.
Proof.
  intros Ha. rewrite Ha. apply (NoDup_fmap_2 Z.of_nat), NoDup_seq.
Qed.

Lemma perm_ok_range c a k : perm_ok c a -> k ∈ a -> 0 <= k < c.
Proof.
  intros Ha Hk. rewrite Ha in Hk. apply list_elem_of_In, in_map_iff in Hk as (n & <- & Hn).
  apply in_seq in Hn. lia.
Qed.

Lemma wp_permute_loop n : forall i c str l s0 (Q : unit -> st -> Prop) s,
  seeds_ok (Seed s0) -> drew l s0 s -> 1 <= c < 2 ^ 31 -> perm_ok c (pset (perm s)) ->
  (forall s', drew (l ++ repeat str n) s0 s' -> perm_ok c (pset (perm s')) ->
     pdist (perm s') = pdist (perm s) ->
     source (perm s') = (if decide (n = 0%nat) then source (perm s) else 0) -> Q tt s') ->
  wp (permute_loop n i c str) Q s.
Proof.
  induction n as [|n IH]; intros i c str l s0 Q s H0 Hd Hc Hp HQ; cbn [permute_loop].
  - apply wp_ret, HQ; try done. cbn [repeat]. now rewrite app_nil_r.
  - apply wp_bind. eapply wp_random_d; [exact H0|exact Hd|lia|]. intros src s1 Hsrc Hd1 Hp1.
    apply wp_bind, wp_modify. eapply IH; [exact H0|apply drew_perm; exact Hd1|lia| |].
    + cbn [perm set_perm pset]. rewrite Hp1. unfold perm_ok. rewrite swap_at_perm. exact Hp.
    + intros s' Hd' Hp' Hdist Hsrc'. cbn [perm set_perm pdist source] in *. rewrite Hp1 in Hdist.
      apply HQ; [|exact Hp'|exact Hdist|].
      * rewrite <- app_assoc in Hd'. exact Hd'.
      * rewrite Hsrc'. destruct (decide (n = 0%nat)); reflexivity.
Qed.

(** A first call shuffles and returns the first cell. *)
Lemma wp_permute_first c str l s0 (Q : Z -> st -> Prop) s :
  seeds_ok (Seed s0) -> drew l s0 s -> 1 <= c < 2 ^ 31 ->
  (forall k s', drew (l ++ repeat str (Z.to_nat c)) s0 s' -> perm_ok c (pset (perm s')) ->
     pdist (perm s') = pdist (perm s) -> source (perm s') = 0 ->
     pset (perm s') !! 0%nat = Some k -> Q k s') ->
  wp (permute true c str) Q s.
Proof.
  intros H0 Hd Hc HQ. unfold permute. apply wp_bind, wp_bind, wp_modify.
  eapply wp_permute_loop; [exact H0|apply drew_perm; exact Hd|lia|exact (Permutation_refl _)|].
  intros s' Hd' Hp' Hdist Hsrc. cbn [perm set_perm pdist source] in *.
  rewrite decide_False in Hsrc by lia. apply wp_bind, wp_modify, wp_bind, wp_gets.
  cbn [perm set_perm]. rewrite Hsrc. destruct (Z.leb_spec c 0); [lia|]. rewrite Hsrc.
  cbn [Z.ltb Z.compare Z.to_nat].
  pose proof (perm_ok_length c _ ltac:(lia) Hp') as Hlen.
  destruct (lookup_lt_is_Some_2 (pset (perm s')) 0%nat) as [k Hk]; [lia|].
  change (Z.to_nat 0) with 0%nat. rewrite Hk. apply wp_ret, HQ; try assumption.
  - apply drew_perm, Hd'.
  - cbn [perm set_perm]. rewrite Hsrc. destruct (Z.leb_spec c 0); [lia|exact Hp'].
  - cbn [perm set_perm]. rewrite Hsrc. destruct (Z.leb_spec c 0); [lia|exact Hdist].
  - cbn [perm set_perm]. rewrite Hsrc. destruct (Z.leb_spec c 0); [lia|exact Hsrc].
  - cbn [perm set_perm]. rewrite Hsrc. destruct (Z.leb_spec c 0); [lia|exact Hk].
Qed.

(** The next calls walk through the array. *)
Lemma wp_permute_next c str l s0 (Q : Z -> st -> Prop) s :
  drew l s0 s -> 1 <= c -> perm_ok c (pset (perm s)) -> 0 <= source (perm s) < c - 1 ->
  (forall k s', drew l s0 s' ->
     perm s' = mk_perm (source (perm s) + 1) (pset (perm s)) (pdist (perm s)) ->
     pset (perm s) !! Z.to_nat (source (perm s) + 1) = Some k -> Q k s') ->
  wp (permute false c str) Q s.
Proof.
  intros Hd Hc Hp Hs HQ. unfold permute. apply wp_bind, wp_modify, wp_bind, wp_modify, wp_bind, wp_gets.
  cbn [perm set_perm source]. destruct (Z.leb_spec c (source (perm s) + 1)); [lia|].
  cbn [source pset]. destruct (Z.ltb_spec (source (perm s) + 1) 0); [lia|].
  pose proof (perm_ok_length c _ ltac:(lia) Hp) as Hlen.
  destruct (lookup_lt_is_Some_2 (pset (perm s)) (Z.to_nat (source (perm s) + 1))) as [k Hk]; [lia|].
  rewrite Hk. apply wp_ret, HQ; [apply drew_perm, drew_perm, Hd| |exact Hk].
  cbn [perm set_perm source]. destruct (Z.leb_spec c (source (perm s) + 1)); [lia|reflexivity].
Qed.

(** ** Aggregated strings *)

(** Words followed by a blank each, and separated by blanks. *)
Definition spaced (ws : list string) : string := fold_right (fun w r => w +:+ " " +:+ r) "" ws.
Fixpoint join (ws : list string) : string :=
  match ws with [] => "" | [w] => w | w :: ws => w +:+ " " +:+ join ws end.

Lemma spaced_join ws : ws <> [] -> spaced ws = join ws +:+ " ".
Proof.
  induction ws as [|w ws IH]; intros H; [done|]. destruct ws as [|w2 ws].
  - reflexivity.
  - change (spaced (w :: w2 :: ws)) with (w +:+ " " +:+ spaced (w2 :: ws)).
    rewrite IH by done. change (join (w :: w2 :: ws)) with (w +:+ " " +:+ join (w2 :: ws)).
    rewrite !app_assoc_s. reflexivity.
Qed.

(** The members at a list of indices. *)
Definition members_at (d : distribution) (ks : list Z) (ms : list set_member) : Prop :=
  Forall2 (fun k m => 0 <= k /\ dlist d !! Z.to_nat k = Some m) ks ms.

Section AggStr.
Context (set : distribution) (col : Z) (s0 : st).
Context (H0 : seeds_ok (Seed s0)) (Hc : 1 <= count set < 2 ^ 31)
  (Hlen : Z.of_nat (length (dlist set)) = count set).

Lemma dist_member k : 0 <= k < count set -> exists m, dlist set !! Z.to_nat k = Some m.
Proof. intros Hk. apply lookup_lt_is_Some_2. lia. Qed.

Lemma wp_agg_rest l n : forall dest (Q : string -> st -> Prop) s,
  drew l s0 s -> perm_ok (count set) (pset (perm s)) -> pdist (perm s) = Some (count set) ->
  0 <= source (perm s) -> source (perm s) + Z.of_nat n < count set ->
  (forall ms s', drew l s0 s' -> perm_ok (count set) (pset (perm s')) ->
     members_at set (take n (drop (Z.to_nat (source (perm s) + 1)) (pset (perm s)))) ms ->
     Q (dest +:+ spaced (map text ms)) s') ->
  wp (agg_str_loop n set None col dest) Q s.
Proof.
  induction n as [|n IH]; intros dest Q s Hd Hp Hdist Hsrc Hn HQ; cbn [agg_str_loop].
  - apply wp_ret. specialize (HQ [] s Hd Hp ltac:(constructor)). cbn in HQ.
    now rewrite app_nil_r_s in HQ.
  - apply wp_bind. unfold permute_dist. apply wp_bind, wp_gets. rewrite Hdist.
    eapply wp_permute_next; [exact Hd|lia|exact Hp|lia|]. intros k s1 Hd1 Hp1 Hk.
    assert (Hkr : 0 <= k < count set)
      by (eapply perm_ok_range; [exact Hp|]; apply list_elem_of_lookup; eauto).
    destruct (dist_member k Hkr) as [m Hm]. apply wp_bind.
    destruct (Z.ltb_spec k 0); [lia|]. rewrite Hm. apply wp_ret.
    eapply IH; [exact Hd1|rewrite Hp1; exact Hp|rewrite Hp1; exact Hdist|rewrite Hp1; cbn; lia|
      rewrite Hp1; cbn [source]; lia|].
    intros ms s' Hd' Hp' Hms. rewrite Hp1 in Hms. cbn [source pset] in Hms.
    specialize (HQ (m :: ms) s' Hd' Hp'). cbn [map spaced fold_right] in HQ.
    rewrite !app_assoc_s. apply HQ. rewrite (drop_S _ _ _ Hk).
    cbn [take]. constructor; [split; [lia|exact Hm]|].
    replace (S (Z.to_nat (source (perm s) + 1))) with (Z.to_nat (source (perm s) + 1 + 1)) by lia.
    exact Hms.
Qed.

Lemma wp_agg_str l n (Q : string -> st -> Prop) s :
  drew l s0 s -> 1 <= n <= count set ->
  (forall ks ms s', drew (l ++ repeat col (Z.to_nat (count set))) s0 s' ->
     NoDup ks -> Z.of_nat (length ks) = n -> members_at set ks ms ->
     Q (join (map text ms)) s') ->
  wp (agg_str set n col) Q s.
Proof.
  intros Hd Hn HQ. unfold agg_str. apply wp_bind.
  replace (Z.to_nat n) with (S (Z.to_nat (n - 1))) by lia. cbn [agg_str_loop].
  apply wp_bind. unfold permute_dist. apply wp_bind, wp_modify.
  eapply wp_permute_first; [exact H0|apply drew_perm; exact Hd|lia|].
  intros k s1 Hd1 Hp1 Hdist Hsrc Hk. cbn [perm set_perm pdist] in Hdist.
  assert (Hkr : 0 <= k < count set)
    by (eapply perm_ok_range; [exact Hp1|]; apply list_elem_of_lookup; eauto).
  destruct (dist_member k Hkr) as [m Hm]. apply wp_bind.
  destruct (Z.ltb_spec k 0); [lia|]. rewrite Hm. apply wp_ret.
  pose proof (perm_ok_length (count set) _ ltac:(lia) Hp1) as Hpl.
  eapply wp_agg_rest; [exact Hd1|exact Hp1|exact Hdist|lia|lia|].
  intros ms s2 Hd2 Hp2 Hms. rewrite Hsrc in Hms.
  set (ks := k :: take (Z.to_nat (n - 1)) (drop 1 (pset (perm s1)))).
  assert (Hks : ks = take (Z.to_nat n) (pset (perm s1))).
  { unfold ks. rewrite <- (drop_0 (pset (perm s1))) at 2. rewrite (drop_S _ _ _ Hk).
    replace (Z.to_nat n) with (S (Z.to_nat (n - 1))) by lia. reflexivity. }
  assert (Hdest : "" +:+ text m +:+ " " +:+ spaced (map text ms) = join (map text (m :: ms)) +:+ " ").
  { rewrite <- spaced_join by done. reflexivity. }
  rewrite app_assoc_s, (app_assoc_s (text m)), Hdest.
  rewrite length_app_s. pose proof (strlen_nonneg (join (map text (m :: ms)))).
  change (strlen " ") with 1. destruct (Z.eqb_spec (strlen (join (map text (m :: ms))) + 1) 0); [lia|].
  apply wp_ret. rewrite Z.add_simpl_r, take_s_app. apply (HQ ks); [exact Hd2| | |].
  + rewrite Hks. eapply sublist_NoDup; [exact (perm_ok_NoDup _ _ Hp1)|]. apply sublist_take.
  + rewrite Hks, length_take. lia.
  + constructor; [split; [lia|exact Hm]|exact Hms].
Qed.
End AggStr.

(** ** Properties *)

(** C33. [a_rnd] returns a string whose length is the number drawn in [min, max], made of
    the 64 characters of [alpha_num], and takes one number for the length and one for
    each five characters from its column, and none from any other. *)
Theorem a_rnd_spec min max col s :
  seeds_ok (Seed s) -> 0 <= min <= max -> max < 2 ^ 31 ->
  wp (a_rnd min max col)
    (fun p s' => min <= fst p <= max /\ strlen (snd p) = fst p /\
       all_chars in_alpha (snd p) = true /\
       drew (repeat col (1 + Z.to_nat ((fst p + 4) / 5))) s s') s.
Proof.
  intros Hs Hm Hx. eapply (wp_a_rnd min max col []); [exact Hs|apply drew_nil|exact Hm|exact Hx|].
  intros len str s' Hlen Hl Ha Hd _. cbn [fst snd]. auto.
Qed.

Lemma a_rnd_spec_witness :
  (seeds_ok (Seed st_start) /\ 0 <= 6 <= 24 /\ 24 < 2 ^ 31) /\
  wp (a_rnd 6 24 C_ADDR_SD) (fun p s' => 6 <= fst p <= 24) st_start.
Proof.
  split; [split; [apply Seed_init_ok|lia]|].
  eapply wp_mono; [apply (a_rnd_spec 6 24 C_ADDR_SD st_start Seed_init_ok); lia|].
  intros p s' H. apply H.
Defined.

(** [pick_str] never runs past the list: it draws one number [j] of
    [1 .. total weight] and returns the first member whose cumulative weight reaches [j]. *)
Theorem pick_str_first d c s :
  seeds_ok (Seed s) -> dist_ok d ->
  wp (pick_str d c)
    (fun p s' => drew [c] s s' /\
       exists m j, dlist d !! Z.to_nat (fst p) = Some m /\ snd p = text m /\ 1 <= j <= weight m /\
         forall k m', 0 <= k < fst p -> dlist d !! Z.to_nat k = Some m' -> weight m' < j) s.
Proof.
  intros Hs Hd. eapply (wp_pick_str d c []); [exact Hs|apply drew_nil|exact Hd|].
  intros k m j s' Hm Hw Hf Hj Hdr _. cbn [fst snd]. split; [exact Hdr|]. exists m, j.
  rewrite Nat2Z.id. split_and!; try done. intros k' m' Hk' Hm'. apply (Hf (Z.to_nat k')); [lia|done].
Qed.

(** The [regions] of dists.dss, as read. *)
Definition regions_example : distribution :=
  mk_dist 5 5 [mk_member 1 "AFRICA"; mk_member 2 "AMERICA"; mk_member 3 "ASIA";
               mk_member 4 "EUROPE"; mk_member 5 "MIDDLE EAST"].

Lemma pick_str_first_witness :
  (seeds_ok (Seed st_start) /\ dist_ok regions_example) /\
  wp (pick_str regions_example P_TYPE_SD) (fun p s' => drew [P_TYPE_SD] st_start s') st_start.
Proof.
  assert (Hd : dist_ok regions_example)
    by (split; [cbn; lia|split; [reflexivity|eexists; split; [reflexivity|cbn; lia]]]).
  split; [split; [apply Seed_init_ok|exact Hd]|].
  eapply wp_mono; [apply (pick_str_first regions_example P_TYPE_SD st_start Seed_init_ok Hd)|].
  intros p s' H. apply H.
Defined.

(** C32. [agg_str] joins the texts of [n] distinct members of the distribution with single
    blanks, whatever the random numbers, and draws as many numbers as the distribution has
    members, all from its column. *)
Theorem agg_str_distinct d n col s :
  seeds_ok (Seed s) -> 1 <= n <= count d -> count d < 2 ^ 31 ->
  Z.of_nat (length (dlist d)) = count d ->
  wp (agg_str d n col)
    (fun str s' => drew (repeat col (Z.to_nat (count d))) s s' /\
       exists ks ms, NoDup ks /\ Z.of_nat (length ks) = n /\ members_at d ks ms /\
         str = join (map text ms)) s.
Proof.
  intros Hs Hn Hc Hlen. eapply (wp_agg_str d col s Hs ltac:(lia) Hlen []); [apply drew_nil|exact Hn|].
  intros ks ms s' Hd Hnd Hk Hms. split; [exact Hd|]. eauto 10.
Qed.

Lemma agg_str_distinct_witness :
  (seeds_ok (Seed st_start) /\ 1 <= 3 <= count regions_example) /\
  wp (agg_str regions_example 3 P_NAME_SD)
    (fun str s' => drew (repeat P_NAME_SD 5) st_start s') st_start.
Proof.
  split; [split; [apply Seed_init_ok|cbn; lia]|].
  eapply wp_mono; [apply (agg_str_distinct regions_example 3 P_NAME_SD st_start Seed_init_ok)|];
    [cbn; lia|cbn; lia|reflexivity|].
  intros p s' H. apply H.
Defined.

(** Equality up to case. *)
Fixpoint same_nocase (s1 s2 : string) : bool :=
  match s1, s2 with
  | EmptyString, EmptyString => true
  | String a s1, String b s2 => (schar a =? schar b) && same_nocase s1 s2
  | _, _ => false
  end.

(** A C string holds no NUL. *)
Definition cstr (s : string) : bool := all_chars (fun c => negb (schar c =? 0)) s.

(** [dsscasecmp] returns 0 exactly on strings equal up to the case of their letters,
    exchanging its arguments negates its result, and [dssncasecmp] on a length covering
    both strings is the same function. *)
Theorem dsscasecmp_spec s1 s2 n :
  cstr s1 = true -> cstr s2 = true -> (String.length s1 + String.length s2 < n)%nat ->
  (dsscasecmp s1 s2 = 0 <-> same_nocase s1 s2 = true) /\
  dsscasecmp s2 s1 = - dsscasecmp s1 s2 /\
  dssncasecmp s1 s2 n = dsscasecmp s1 s2.
Proof.
  revert s2 n. induction s1 as [|a s1 IH]; intros [|b s2] n H1 H2 Hn; destruct n as [|n];
    cbn [cstr all_chars String.length] in *; try lia;
    rewrite ?andb_true_iff, ?negb_true_iff, ?Z.eqb_neq in *; cbn [dsscasecmp dssncasecmp same_nocase].
  - done.
  - destruct H2 as [H2 _]. destruct (Z.ltb_spec 0 (schar b)), (Z.ltb_spec (schar b) 0); split_and!; done || lia.
  - destruct H1 as [H1 _]. destruct (Z.ltb_spec 0 (schar a)), (Z.ltb_spec (schar a) 0); split_and!; done || lia.
  - destruct H1 as [_ H1], H2 as [_ H2]. rewrite (Z.eqb_sym (schar b)).
    destruct (IH s2 n H1 H2 ltac:(lia)) as (I1 & I2 & I3).
    destruct (Z.eqb_spec (schar a) (schar b)) as [E|E]; cbn [negb andb]; [tauto|].
    destruct (Z.ltb_spec (schar a) (schar b)), (Z.ltb_spec (schar b) (schar a)); split_and!; done || lia.
Qed.

Lemma dsscasecmp_spec_witness :
  (cstr "BEGIN" = true /\ cstr "begin" = true) /\ dsscasecmp "begin" "BEGIN" = - dsscasecmp "BEGIN" "begin".
Proof.
  split; [split; reflexivity|].
  apply (dsscasecmp_spec "BEGIN" "begin" 11); [reflexivity|reflexivity|cbn; lia].
Defined.
