(* ===== verification/Build.v ===== *)
(** The rows of the SSBM tables: build.c ([mk_cust], [mk_order], [mk_part], [mk_supp] and
    the functions they call) with the row types of dsstypes.h. [mk_date] is in DateDim. *)
From S2P Require Import Prelude CString Float64 Rng State Consts Streams Dist Bcd2 Sparse Calendar.

(** The distributions the program loads (the [distribution] variables of dss.h). *)
Record dists := mk_dists {
  p_cntr_set : distribution; colors : distribution; p_types_set : distribution;
  nations : distribution; regions : distribution; o_priority_set : distribution;
  l_instruct_set : distribution; l_smode_set : distribution; l_category_set : distribution;
  l_rflag_set : distribution; c_mseg_set : distribution;
  nouns : distribution; verbs : distribution; adjectives : distribution;
  adverbs : distribution; auxillaries : distribution; terminators : distribution;
  articles : distribution; prepositions : distribution; grammar : distribution;
  np : distribution; vp : distribution
}.

(** ** dsstypes.h: the SSBM rows. The members the program never sets ([nlen],
    [nation_key], [region_key], [clerk]) are left out. *)

Record customer_t := mk_customer {
  c_custkey : Z; c_name : string; c_address : string; c_alen : Z; c_city : string;
  c_nation_name : string; c_region_name : string; c_phone : string; c_mktsegment : string
}.

Record lineorder_t := mk_lineorder {
  l_okey : Z * Z; l_linenumber : Z; l_custkey : Z; l_partkey : Z; l_suppkey : Z;
  l_orderdate : string; l_opriority : string; l_ship_priority : Z; l_quantity : Z;
  l_extended_price : Z; l_order_totalprice : Z; l_discount : Z; l_revenue : Z;
  l_supp_cost : Z; l_tax : Z; l_commit_date : string; l_shipmode : string
}.

Record order_t := mk_order_t {
  o_okey : Z * Z; o_custkey : Z; o_totalprice : Z; o_odate : string; o_opriority : string;
  o_spriority : Z; o_lines : Z; o_lineorders : list lineorder_t
}.

Record part_t := mk_part_t {
  p_partkey : Z; p_name : string; p_mfgr : string; p_category : string; p_brand : string;
  p_color : string; p_clen : Z; p_type : string; p_tlen : Z; p_size : Z; p_container : string
}.

Record supplier_t := mk_supplier {
  s_suppkey : Z; s_name : string; s_address : string; s_alen : Z; s_city : string;
  s_nation_name : string; s_region_name : string; s_phone : string
}.

(** ** dss.h: bounds that depend on the scale *)

Definition base_of (s : st) (t : Z) : Z :=
  match tdefs s !! Z.to_nat t with Some d => base d | None => 0 end.

Definition O_CKEY_MAX (s : st) : Z := base_of s CUST * glob s G.scale.
Definition O_ODATE_MIN : Z := STARTDATE.
Definition O_ODATE_MAX : Z := STARTDATE + TOTDATE - (L_SDTE_MAX + L_RDTE_MAX) - 1.
Definition L_SKEY_MAX (s : st) : Z := base_of s SUPP * glob s G.scale.

(** [floor(log(n))] for an integer [n >= 1]: the greatest [k] with [e^k <= n]. The
    constant is [e] to 39 decimals; below [2^40] the [double] logarithm has the same
    floor, since no such integer is that close to a power of [e]. *)
Definition e39 : Z := 2718281828459045235360287471352662497757.
Fixpoint floor_ln (fuel : nat) (k n : Z) : Z :=
  match fuel with
  | O => k
  | S fuel =>
      if e39 ^ (k + 1) <=? n * 10 ^ (39 * (k + 1)) then floor_ln fuel (k + 1) n else k
  end.
Definition floor_log (n : Z) : Z := floor_ln 30 0 n.

(** [#define L_PKEY_MAX (tdefs[PART].base * (floor(log((double)scale))+1))] *)
Definition L_PKEY_MAX (s : st) : Z := base_of s PART * (floor_log (glob s G.scale) + 1).

Definition MAX (a b : Z) : Z := if b <? a then a else b.
Definition MIN (A B : Z) : Z := if A <? B then A else B.

(** Storing a string in a member of [cap] bytes: undefined for a string that does not fit. *)
Definition strcpy_to (what : string) (cap : Z) (s : string) : M string :=
  if cap <=? strlen s then stop_with (Undefined what) else ret s.

(** The same where the bytes that follow the member, up to [room] from its beginning, hold
    nothing yet and are stored or moved before they are read: a string that runs into them is
    recorded and is whole. *)
Definition strcpy_over (what : string) (cap room : Z) (s : string) : M string :=
  if room <=? strlen s then stop_with (Undefined what)
  else
    (if cap <=? strlen s then modify (set_faults (fun l => l ++ [BufOverflow what cap (strlen s)]))
     else ret tt);;
    ret s.

(** ** build.c: helpers *)

(** [long rpb_routine(long p)] *)
Definition rpb_routine (p : Z) : Z :=
  let price := 90000 in
  let price := price + (p /c 10) %c 20001 in
  let price := price + (p %c 1000) * 100 in
  price.

(** [static void gen_phone(long ind, char *target, long seed)] *)
Definition gen_phone (ind seed : Z) : M string :=
  acode <- RANDOM 100 999 seed;;
  exchg <- RANDOM 100 999 seed;;
  number <- RANDOM 1000 9999 seed;;
  ret (fmt_0d 2 (10 + ind %c NATIONS_MAX) +:+ "-" +:+ fmt_0d 3 acode +:+ "-" +:+
       fmt_0d 3 exchg +:+ "-" +:+ fmt_0d 4 number).

(** [static void gen_category(char *target, long seed)]; nothing calls it. *)
Definition gen_category (seed : Z) : M string :=
  num1 <- RANDOM 1 5 seed;;
  num2 <- RANDOM 1 5 seed;;
  ret ("MFGR" +:+ fmt_0d 1 num1 +:+ fmt_0d 1 num2).

(** [int gen_city(char *cityName, char *nationName)]: the name cut or padded to
    [CITY_FIX - 1] characters, and a digit from stream 98. *)
Definition gen_city (nationName : string) : M string :=
  let nlen := strlen nationName in
  let cityName := strncpy_s nationName (CITY_FIX - 1) in
  let cityName := if nlen <? CITY_FIX - 1 then rpad " " (CITY_FIX - 1) cityName else cityName in
  randomPick <- RANDOM 0 9 98;;
  ret (cityName +:+ fmt_d randomPick).

(** [int gen_color(char *source, char *dest)]: the first word, the rest, and the length of
    the first word; a source without a blank would be read past its end. *)
Definition gen_color (source : string) : M (string * string * Z) :=
  i <- must "source[i]" (strchr source " ");;
  let dest := take_s i source in
  let source := drop_s (i + 1) source in
  ret (source, dest, strlen dest).

(** [list[i].text] *)
Definition dist_text (what : string) (d : distribution) (i : Z) : M set_member :=
  must what (if i <? 0 then None else dlist d !! Z.to_nat i).

(** The static [asc_date] of [mk_order], built on the first call. *)
Definition asc_date : list string := default [] mk_ascdate.
Definition asc_at (i : Z) : option string := if i <? 0 then None else asc_date !! Z.to_nat i.

(** [while (o->custkey % CUST_MORTALITY == 0) { ... }], at most [fuel] iterations. *)
Fixpoint custkey_loop (fuel : nat) (custkey delta max : Z) : option Z :=
  if custkey %c CUST_MORTALITY =? 0 then
    match fuel with
    | O => None
    | S fuel =>
        let custkey := custkey + delta in
        let custkey := MIN custkey max in
        custkey_loop fuel custkey (delta * -1) max
    end
  else Some custkey.

(** ** build.c: the rows *)

Section Rows.
Context (D : dists).

(** [long mk_cust(long n_cust, customer_t *c)] *)
Definition mk_cust (n_cust : Z) : M customer_t :=
  let name := "Customer#" +:+ fmt_0d 9 (wrap_s 32 n_cust) in
  a <- V_STR C_ADDR_LEN C_ADDR_SD;;
  i <- RANDOM 0 (count (nations D) - 1) C_NTRG_SD;;
  n <- dist_text "nations.list[i]" (nations D) i;;
  nation_name <- strcpy_to "nation_name" (C_NATION_NAME_LEN + 1) (text n);;
  r <- dist_text "regions.list[w]" (regions D) (weight n);;
  region_name <- strcpy_to "region_name" (C_REGION_NAME_LEN + 1) (text r);;
  city <- gen_city nation_name;;
  phone <- gen_phone i C_PHNE_SD;;
  m <- pick_str (c_mseg_set D) C_MSEG_SD;;
  mktsegment <- strcpy_to "mktsegment" (MAXAGG_LEN + 1) (snd m);;
  ret (mk_customer n_cust name (snd a) (fst a) city nation_name region_name phone mktsegment).

(** [long mk_supp(long index, supplier_t *s)] *)
Definition mk_supp (index : Z) : M supplier_t :=
  let name := "Supplier#" +:+ fmt_0d 9 index in
  a <- V_STR S_ADDR_LEN S_ADDR_SD;;
  i <- RANDOM 0 (count (nations D) - 1) S_NTRG_SD;;
  n <- dist_text "nations.list[i]" (nations D) i;;
  nation_name <- strcpy_to "nation_name" (S_NATION_NAME_LEN + 1) (text n);;
  r <- dist_text "regions.list[w]" (regions D) (weight n);;
  region_name <- strcpy_to "region_name" (S_REGION_NAME_LEN + 1) (text r);;
  city <- gen_city nation_name;;
  phone <- gen_phone i C_PHNE_SD;;
  ret (mk_supplier index name (snd a) (fst a) city nation_name region_name phone).

(** [long mk_part(long index, part_t *p)]; [agg_str] writes all three colors into [name],
    each followed by a blank; they may run over [nlen] (which no one looks at), [mfgr], [category] and
    [brand] (stored later) up to [color]; [gen_color] moves the first of them there and the
    rest to the front. *)
Definition PART_NAME_ROOM : Z := 53.
Definition mk_part (index : Z) : M part_t :=
  name <- agg_str (colors D) P_NAME_SCL P_NAME_SD;;
  name <- strcpy_over "name" (P_NAME_LEN + 1) PART_NAME_ROOM name;;
  c <- gen_color name;;
  let '(name, color, clen) := c in
  name <- strcpy_to "name" (P_NAME_LEN + 1) name;;
  color <- strcpy_to "color" (P_COLOR_MAX + 1) color;;
  mfgr <- RANDOM P_MFG_MIN P_MFG_MAX P_MFG_SD;;
  let p_mfgr := "MFGR#" +:+ fmt_d mfgr in
  cat <- RANDOM P_CAT_MIN P_CAT_MAX P_CAT_SD;;
  let category := p_mfgr +:+ fmt_d cat in
  brnd <- RANDOM P_BRND_MIN P_BRND_MAX P_BRND_SD;;
  let brand := category +:+ fmt_d brnd in
  t <- pick_str (p_types_set D) P_TYPE_SD;;
  type <- strcpy_to "type" (P_TYPE_MAX + 1) (snd t);;
  m <- dist_text "p_types_set.list[tlen]" (p_types_set D) (fst t);;
  let tlen := strlen (text m) in
  size <- RANDOM P_SIZE_MIN P_SIZE_MAX P_SIZE_SD;;
  k <- pick_str (p_cntr_set D) P_CNTR_SD;;
  container <- strcpy_to "container" (P_CNTR_LEN + 1) (snd k);;
  ret (mk_part_t index name p_mfgr category brand color clen type tlen size container).

(** The body of the line loop of [mk_order]; [o_pri] is the priority, whose characters
    from the 12th on fall into [ship_priority], cleared next; 19 bytes further begins the
    quantity, already drawn. *)
Definition OPRIORITY_ROOM : Z := 19.
Definition mk_lineorder_row (lcnt : Z) (okey : Z * Z) (custkey tmp_date : Z) (odate o_pri : string)
    (totalprice : Z) : M (lineorder_t * Z) :=
  s <- get;;
  partkey <- RANDOM L_PKEY_MIN (L_PKEY_MAX s) L_PKEY_SD;;
  suppkey <- RANDOM L_SKEY_MIN (L_SKEY_MAX s) L_SKEY_SD;;
  quantity <- RANDOM L_QTY_MIN L_QTY_MAX L_QTY_SD;;
  discount <- RANDOM L_DCNT_MIN L_DCNT_MAX L_DCNT_SD;;
  tax <- RANDOM L_TAX_MIN L_TAX_MAX L_TAX_SD;;
  _ <- strcpy_over "lineorders.opriority" (MAXAGG_LEN + 1) OPRIORITY_ROOM o_pri;;
  c_date <- RANDOM L_CDTE_MIN L_CDTE_MAX L_CDTE_SD;;
  let c_date := c_date + tmp_date in
  commit_date <- must "asc_date" (asc_at (c_date - STARTDATE));;
  m <- pick_str (l_smode_set D) L_SMODE_SD;;
  shipmode <- strcpy_to "shipmode" (O_SHIP_MODE_LEN + 1) (snd m);;
  let rprice := rpb_routine partkey in
  let extended_price := rprice * quantity in
  let revenue := extended_price * (100 - discount) /c PENNIES in
  let supp_cost := 6 * rprice /c 10 in
  let totalprice := wrap_s 32 (totalprice +
    (extended_price * (100 - discount)) /c PENNIES * (100 + tax) /c PENNIES) in
  ret (mk_lineorder okey (lcnt + 1) custkey partkey suppkey odate
         (take_s (MAXAGG_LEN + 1) o_pri) 0 quantity extended_price 0 discount revenue
         supp_cost tax commit_date shipmode, totalprice).

Fixpoint mk_lineorder_rows (n : nat) (lcnt : Z) (okey : Z * Z) (custkey tmp_date : Z)
    (odate o_pri : string) (totalprice : Z) : M (list lineorder_t * Z) :=
  match n with
  | O => ret ([], totalprice)
  | S n =>
      r <- mk_lineorder_row lcnt okey custkey tmp_date odate o_pri totalprice;;
      rest <- mk_lineorder_rows n (lcnt + 1) okey custkey tmp_date odate o_pri (snd r);;
      ret (fst r :: fst rest, snd rest)
  end.

Definition with_totalprice (tp : Z) (l : lineorder_t) : lineorder_t :=
  mk_lineorder (l_okey l) (l_linenumber l) (l_custkey l) (l_partkey l) (l_suppkey l)
    (l_orderdate l) (l_opriority l) (l_ship_priority l) (l_quantity l) (l_extended_price l)
    tp (l_discount l) (l_revenue l) (l_supp_cost l) (l_tax l) (l_commit_date l) (l_shipmode l).

(** [long mk_order(long index, order_t *o, long upd_num)]. The priority may run over the 16
    bytes of the unused [clerk]. *)
Definition O_OPRIORITY_ROOM : Z := 27.
Definition mk_order (index upd_num : Z) : M order_t :=
  tmp_date <- RANDOM O_ODATE_MIN O_ODATE_MAX O_ODATE_SD;;
  odate <- must "asc_date" (asc_at (tmp_date - STARTDATE));;
  s <- get;;
  seq <- (if upd_num =? 0 then ret 0
          else if (glob s G.refresh =? 0) || (10000 /c glob s G.refresh =? 0)
          then stop_with (Undefined "division by zero")
          else ret (1 + upd_num /c (10000 /c glob s G.refresh)));;
  let okey := mk_sparse (glob s G.scale) index seq in
  custkey <- RANDOM O_CKEY_MIN (O_CKEY_MAX s) O_CKEY_SD;;
  custkey <- must "custkey loop" (custkey_loop 4 custkey 1 (O_CKEY_MAX s));;
  p <- pick_str (o_priority_set D) O_PRIO_SD;;
  opriority <- strcpy_over "opriority" (MAXAGG_LEN + 1) O_OPRIORITY_ROOM (snd p);;
  clk_num <- RANDOM 1 (MAX (glob s G.scale * O_CLRK_SCL) O_CLRK_SCL) O_CLRK_SD;;
  lines <- RANDOM O_LCNT_MIN O_LCNT_MAX O_LCNT_SD;;
  rows <- mk_lineorder_rows (Z.to_nat lines) 0 okey custkey tmp_date odate opriority 0;;
  let totalprice := snd rows in
  ret (mk_order_t okey custkey totalprice odate opriority 0 lines
         (map (with_totalprice totalprice) (fst rows))).
End Rows.
