(* ===== verification/RowSpec.v ===== *)
(** What each row builder of build.c does: it always returns (no access out of bounds), its
    columns are in the ranges of the schema, and it draws a known sequence of numbers. *)
From S2P Require Import Prelude CString Float64 Rng State Consts Streams Dist Bcd2 Sparse Calendar Build.

(** ** Valid environments *)

(** The texts of a distribution have at most [n] characters. *)
Definition texts_fit (n : Z) (d : distribution) : Prop := Forall (fun m => strlen (text m) <= n) (dlist d).

Lemma texts_fit_at n d i m : texts_fit n d -> dlist d !! i = Some m -> strlen (text m) <= n.
Proof. unfold texts_fit. rewrite Forall_lookup. intros H Hm. exact (H i m Hm). Qed.

(** Distributions the builders can select from: the last cumulative weights are positive,
    every nation names a region, there are three colors to choose, and the texts fit the
    members of the rows they are stored in (priorities may run over theirs, up to 18
    characters; colors are single words). *)
Record dists_ok (D : dists) : Prop := mk_dists_ok {
  ok_nations : 1 <= count (nations D) < 2 ^ 31 /\ Z.of_nat (length (dlist (nations D))) = count (nations D);
  ok_regions : Forall (fun m => 0 <= weight m < Z.of_nat (length (dlist (regions D)))) (dlist (nations D));
  ok_mseg : dist_ok (c_mseg_set D);
  ok_types : dist_ok (p_types_set D);
  ok_cntr : dist_ok (p_cntr_set D);
  ok_smode : dist_ok (l_smode_set D);
  ok_prio : dist_ok (o_priority_set D);
  ok_fits : texts_fit C_NATION_NAME_LEN (nations D) /\ texts_fit C_REGION_NAME_LEN (regions D) /\
    texts_fit MAXAGG_LEN (c_mseg_set D) /\ texts_fit P_TYPE_MAX (p_types_set D) /\ texts_fit P_CNTR_LEN (p_cntr_set D) /\
    texts_fit O_SHIP_MODE_LEN (l_smode_set D) /\ texts_fit 18 (o_priority_set D);
  ok_words : Forall (fun m => strlen (text m) <= 10 /\ all_chars (not_char " ") (text m) = true) (dlist (colors D));
  ok_colors : 3 <= count (colors D) < 2 ^ 30 /\ Z.of_nat (length (dlist (colors D))) = count (colors D);
}.

(** A scale at which the key ranges are not empty (and below [2^50]). *)
Definition scale_ok (s : st) : Prop :=
  1 <= glob s G.scale < 2 ^ 30 /\ 1 <= O_CKEY_MAX s < 2 ^ 50 /\ 1 <= L_SKEY_MAX s < 2 ^ 50 /\
  1 <= L_PKEY_MAX s < 2 ^ 50.

Lemma scale_ok_drew l s s' : drew l s s' -> scale_ok s -> scale_ok s'.
Proof.
  intros Hd. unfold scale_ok, O_CKEY_MAX, L_SKEY_MAX, L_PKEY_MAX, base_of.
  now rewrite (drew_glob _ _ _ Hd), (drew_tdefs _ _ _ Hd).
Qed.

(** ** Rules for the helpers *)

Lemma wp_strcpy_to what cap str (Q : string -> st -> Prop) s :
  strlen str < cap -> Q str s -> wp (strcpy_to what cap str) Q s.
Proof. intros Hl HQ. unfold strcpy_to. destruct (Z.leb_spec cap (strlen str)); [lia|]. now apply wp_ret. Qed.

Lemma wp_strcpy_over l s0 what cap room str (Q : string -> st -> Prop) s :
  strlen str < room -> drew l s0 s -> (forall s', drew l s0 s' -> perm s' = perm s -> Q str s') ->
  wp (strcpy_over what cap room str) Q s.
Proof.
  intros Hl Hd HQ. unfold strcpy_over. destruct (Z.leb_spec room (strlen str)); [lia|]. apply wp_bind.
  destruct (cap <=? strlen str).
  - apply wp_modify, wp_ret, HQ; [destruct Hd; by split|reflexivity].
  - apply wp_ret, wp_ret, HQ; [exact Hd|reflexivity].
Qed.

(** A text selected from a distribution fits where the builder stores it. *)
Ltac fits HD Hm :=
  destruct (ok_fits _ HD) as (? & ? & ? & ? & ? & ? & ?);
  eapply Z.le_lt_trans; [eapply (fun H => texts_fit_at _ _ _ _ H Hm); eassumption|vm_compute; reflexivity].

(** The length of words of at most [k] characters, joined. *)
Lemma join_length k ws : 0 <= k -> Forall (fun w => strlen w <= k) ws -> ws <> [] ->
  strlen (join ws) <= (k + 1) * Z.of_nat (length ws) - 1.
Proof.
  intros Hk. induction 1 as [|w ws Hw Hws IH]; [done|]. intros _. destruct ws as [|w2 ws].
  - cbn [join length]. lia.
  - specialize (IH ltac:(done)). change (join (w :: w2 :: ws)) with (w +:+ " " +:+ join (w2 :: ws)).
    rewrite !length_app_s. change (strlen " ") with 1. cbn [length] in *. lia.
Qed.

(** Three colors and more: words without blanks. *)
Lemma color_words D ks ms : dists_ok D -> members_at (colors D) ks ms ->
  Forall (fun w => strlen w <= 10) (map text ms) /\ Forall (fun w => all_chars (not_char " ") w = true) (map text ms).
Proof.
  intros HD Hms. pose proof (ok_words D HD) as Hw. rewrite Forall_lookup in Hw.
  rewrite !Forall_map. split; apply Forall_lookup; intros i m Hm;
    destruct (Forall2_lookup_r _ _ _ _ _ Hms Hm) as (k & _ & _ & Hk); apply (Hw _ _ Hk).
Qed.

Lemma wp_dist_text what d i (Q : set_member -> st -> Prop) s m :
  0 <= i -> dlist d !! Z.to_nat i = Some m -> Q m s -> wp (dist_text what d i) Q s.
Proof.
  intros Hi Hm HQ. unfold dist_text. destruct (Z.ltb_spec i 0); [lia|]. rewrite Hm. now apply wp_ret.
Qed.

(** Bounds of a draw between constants. *)
Ltac bounds := first [lia | vm_compute; split; [intros ?; discriminate|reflexivity]].

(** Runs the program to its next draw and takes it. *)
Ltac go_random v Hv Hd' :=
  apply wp_bind; eapply wp_random_d; [eassumption|eassumption|bounds|]; intros v ? Hv Hd' _.

(** A phone number: the country code of nation [ind], and three numbers of 3, 3 and 4 digits. *)
Definition phone_ok (ind : Z) (phone : string) : Prop :=
  strlen phone = PHONE_LEN /\
  exists acode exchg number, 100 <= acode <= 999 /\ 100 <= exchg <= 999 /\ 1000 <= number <= 9999 /\
    phone = fmt_0d 2 (10 + ind mod 90) +:+ "-" +:+ fmt_0d 3 acode +:+ "-" +:+ fmt_0d 3 exchg +:+ "-" +:+ fmt_0d 4 number.

Lemma wp_gen_phone ind seed l s0 (Q : string -> st -> Prop) s :
  seeds_ok (Seed s0) -> drew l s0 s -> 0 <= ind ->
  (forall str s', phone_ok ind str -> drew (l ++ repeat seed 3) s0 s' -> Q str s') ->
  wp (gen_phone ind seed) Q s.
Proof.
  intros H0 Hd Hi HQ. unfold gen_phone.
  go_random acode Ha Hd1. go_random exchg He Hd2. go_random number Hn Hd3.
  apply wp_ret, HQ; [|rewrite <- !app_assoc in Hd3; exact Hd3].
  unfold NATIONS_MAX. rewrite rem_mod by lia. split.
  - assert (0 <= ind mod 90 < 90) by (apply Z.mod_pos_bound; lia).
    rewrite !length_app_s, !fmt_0d_length by lia. reflexivity.
  - exists acode, exchg, number. now split_and!.
Qed.

Lemma strlen_take str : forall k, String.length (String.substring 0 k str) = Nat.min k (String.length str).
Proof.
  induction str as [|c str IH]; intros [|k]; try reflexivity.
  cbn [String.substring String.length]. rewrite IH. reflexivity.
Qed.

Lemma strlen_take_s n str : 0 <= n -> strlen (take_s n str) = Z.min n (strlen str).
Proof. intros Hn. unfold take_s, strlen. rewrite strlen_take. lia. Qed.

(** A city: the name of its nation cut or padded to nine characters, and a digit. *)
Definition city_ok (nation city : string) : Prop :=
  strlen city = CITY_FIX /\
  exists k, 0 <= k <= 9 /\ city = fmt_ls (CITY_FIX - 1) (take_s (CITY_FIX - 1) nation) +:+ fmt_d k.

Lemma wp_gen_city nation l s0 (Q : string -> st -> Prop) s :
  seeds_ok (Seed s0) -> drew l s0 s ->
  (forall str s', city_ok nation str -> drew (l ++ [98]) s0 s' -> Q str s') ->
  wp (gen_city nation) Q s.
Proof.
  intros H0 Hd HQ. unfold gen_city. go_random pick Hp Hd1. apply wp_ret, HQ; [|exact Hd1].
  assert (E : (if strlen nation <? CITY_FIX - 1 then rpad " " (CITY_FIX - 1) (strncpy_s nation (CITY_FIX - 1))
     else strncpy_s nation (CITY_FIX - 1)) = fmt_ls (CITY_FIX - 1) (take_s (CITY_FIX - 1) nation)).
  { unfold fmt_ls, rpad, strncpy_s, CITY_FIX. destruct (Z.ltb_spec (strlen nation) (10 - 1)); [reflexivity|].
    rewrite strlen_take_s by lia. rewrite Z.min_l by lia. symmetry. apply app_nil_r_s. }
  rewrite E. split; [|now exists pick].
  rewrite length_app_s. assert (Hd0 : strlen (fmt_d pick) = 1).
  { unfold fmt_d. destruct (Z.ltb_spec pick 0); [lia|].
    pose proof (udec_length pick 1 ltac:(lia) ltac:(cbn; lia)). lia. }
  rewrite Hd0. pose proof (strlen_nonneg nation). unfold fmt_ls, rpad, CITY_FIX.
  rewrite length_app_s, length_rep, strlen_take_s by lia. lia.
Qed.

(** ** Customers and suppliers *)

Definition cust_draws (k : nat) : list Z :=
  repeat C_ADDR_SD (1 + k) ++ [C_NTRG_SD; 98] ++ repeat C_PHNE_SD 3 ++ [C_MSEG_SD].
Definition supp_draws (k : nat) : list Z :=
  repeat S_ADDR_SD (1 + k) ++ [S_NTRG_SD; 98] ++ repeat C_PHNE_SD 3.

(** The nation and region columns are a nation of the distribution and the region its
    weight points to; the city is one of the nation, and the phone number has its code. *)
Definition place_ok (D : dists) (nation region city phone : string) : Prop :=
  exists i m r, dlist (nations D) !! Z.to_nat i = Some m /\ dlist (regions D) !! Z.to_nat (weight m) = Some r /\
    nation = text m /\ region = text r /\ city_ok nation city /\ phone_ok i phone.

Definition member_text (d : distribution) (s : string) : Prop :=
  exists i m, dlist d !! i = Some m /\ s = text m.

Definition address_ok (a : string) (len : Z) : Prop :=
  6 <= len <= 24 /\ strlen a = len /\ all_chars in_alpha a = true.

Record customer_ok (D : dists) (n : Z) (c : customer_t) : Prop := mk_customer_ok {
  cok_key : c_custkey c = n;
  cok_addr : address_ok (c_address c) (c_alen c);
  cok_name : c_name c = "Customer#" +:+ fmt_0d 9 (wrap_s 32 n);
  cok_place : place_ok D (c_nation_name c) (c_region_name c) (c_city c) (c_phone c);
  cok_mseg : member_text (c_mseg_set D) (c_mktsegment c);
}.

Record supplier_ok (D : dists) (n : Z) (c : supplier_t) : Prop := mk_supplier_ok {
  sok_key : s_suppkey c = n;
  sok_addr : address_ok (s_address c) (s_alen c);
  sok_name : s_name c = "Supplier#" +:+ fmt_0d 9 n;
  sok_place : place_ok D (s_nation_name c) (s_region_name c) (s_city c) (s_phone c);
}.

(** [V_STR] of an average of 15: between 6 and 24 characters. *)
Lemma wp_V_STR_15 sd l s0 (Q : Z * string -> st -> Prop) s :
  seeds_ok (Seed s0) -> drew l s0 s ->
  (forall len str s', address_ok str len ->
     drew (l ++ repeat sd (1 + Z.to_nat ((len + 4) / 5))) s0 s' -> Q (len, str) s') ->
  wp (V_STR 15 sd) Q s.
Proof.
  intros H0 Hd HQ. unfold V_STR.
  change (f_to_Z (fmul (f_of_Z 15) V_STR_LOW)) with 6.
  change (f_to_Z (fmul (f_of_Z 15) V_STR_HGH)) with 24.
  eapply wp_a_rnd; [eassumption|eassumption|lia|lia|].
  intros len str s' Hlen Hl Ha Hd' _. apply HQ; [split; [lia|split; assumption]|exact Hd'].
Qed.

(** A nation drawn by its index, with its region, and the two names stored. *)
Section Nation.
Context (D : dists) (HD : dists_ok D).

Lemma nation_at i : 0 <= i <= count (nations D) - 1 ->
  exists m r, dlist (nations D) !! Z.to_nat i = Some m /\ 0 <= weight m /\
    dlist (regions D) !! Z.to_nat (weight m) = Some r.
Proof.
  intros Hi. destruct (ok_nations D HD) as [_ Hlen].
  destruct (lookup_lt_is_Some_2 (dlist (nations D)) (Z.to_nat i)) as [m Hm]; [lia|].
  pose proof (ok_regions D HD) as Hr. rewrite Forall_lookup in Hr. specialize (Hr _ _ Hm).
  cbn in Hr.
  destruct (lookup_lt_is_Some_2 (dlist (regions D)) (Z.to_nat (weight m))) as [r Hr']; [lia|].
  exists m, r. split_and!; [exact Hm|lia|exact Hr'].
Qed.

Lemma wp_mk_cust n l s0 (Q : customer_t -> st -> Prop) s :
  seeds_ok (Seed s0) -> drew l s0 s ->
  (forall c k s', customer_ok D n c -> (2 <= k <= 5)%nat -> drew (l ++ cust_draws k) s0 s' -> Q c s') ->
  wp (mk_cust D n) Q s.
Proof.
  intros H0 Hd HQ. pose proof (ok_nations D HD) as [Hn _]. unfold mk_cust.
  apply wp_bind. eapply (wp_V_STR_15 C_ADDR_SD); [eassumption|eassumption|]. intros len addr s1 Ha Hd1.
  go_random i Hi Hd2. destruct (nation_at i Hi) as (m & r & Hm & Hw & Hr).
  apply wp_bind. eapply wp_dist_text; [lia|exact Hm|].
  apply wp_bind, wp_strcpy_to; [fits HD Hm|].
  apply wp_bind. eapply wp_dist_text; [exact Hw|exact Hr|].
  apply wp_bind, wp_strcpy_to; [fits HD Hr|]. rename Hd2 into Hd4.
  apply wp_bind. eapply wp_gen_city; [exact H0|exact Hd4|]. intros city s4 Hcity Hd5.
  apply wp_bind. eapply wp_gen_phone; [exact H0|exact Hd5|lia|]. intros phone s5 Hph Hd6.
  apply wp_bind. eapply wp_pick_str; [exact H0|exact Hd6|apply ok_mseg, HD|].
  intros k m' j s6 Hm' _ _ _ Hd7 _. cbn [snd].
  apply wp_bind, wp_strcpy_to; [fits HD Hm'|]. rename Hd7 into Hd8.
  apply wp_ret. eapply (HQ _ (Z.to_nat ((len + 4) / 5))).
  - split; cbn; try done. { exists i, m, r. auto 6. } { exists k, m'. auto. }
  - destruct Ha as [Hlen _]. zdiv.
  - unfold cust_draws. rewrite <- !app_assoc in Hd8. exact Hd8.
Qed.

Lemma wp_mk_supp n l s0 (Q : supplier_t -> st -> Prop) s :
  seeds_ok (Seed s0) -> drew l s0 s ->
  (forall c k s', supplier_ok D n c -> (2 <= k <= 5)%nat -> drew (l ++ supp_draws k) s0 s' -> Q c s') ->
  wp (mk_supp D n) Q s.
Proof.
  intros H0 Hd HQ. pose proof (ok_nations D HD) as [Hn _]. unfold mk_supp.
  apply wp_bind. eapply (wp_V_STR_15 S_ADDR_SD); [eassumption|eassumption|]. intros len addr s1 Ha Hd1.
  go_random i Hi Hd2. destruct (nation_at i Hi) as (m & r & Hm & Hw & Hr).
  apply wp_bind. eapply wp_dist_text; [lia|exact Hm|].
  apply wp_bind, wp_strcpy_to; [fits HD Hm|].
  apply wp_bind. eapply wp_dist_text; [exact Hw|exact Hr|].
  apply wp_bind, wp_strcpy_to; [fits HD Hr|]. rename Hd2 into Hd4.
  apply wp_bind. eapply wp_gen_city; [exact H0|exact Hd4|]. intros city s4 Hcity Hd5.
  apply wp_bind. eapply wp_gen_phone; [exact H0|exact Hd5|lia|]. intros phone s5 Hph Hd6.
  apply wp_ret. eapply (HQ _ (Z.to_nat ((len + 4) / 5))).
  - split; cbn; try done. exists i, m, r. auto 6.
  - destruct Ha as [Hlen _]. zdiv.
  - unfold supp_draws. rewrite <- !app_assoc in Hd6. exact Hd6.
Qed.
End Nation.

(** ** Parts *)

Definition part_draws (ncolors : Z) : list Z :=
  repeat P_NAME_SD (Z.to_nat ncolors) ++ [P_MFG_SD; P_CAT_SD; P_BRND_SD; P_TYPE_SD; P_SIZE_SD; P_CNTR_SD].

Record part_ok (D : dists) (n : Z) (p : part_t) : Prop := mk_part_ok {
  pok_key : p_partkey p = n;
  pok_colors : exists ks ms, NoDup ks /\ length ks = 3%nat /\ members_at (colors D) ks ms /\
    p_color p +:+ " " +:+ p_name p = join (map text ms);
  pok_clen : p_clen p = strlen (p_color p);
  pok_mfgr : exists m c b, 1 <= m <= 5 /\ 1 <= c <= 5 /\ 1 <= b <= 40 /\
    p_mfgr p = "MFGR#" +:+ fmt_d m /\ p_category p = p_mfgr p +:+ fmt_d c /\
    p_brand p = p_category p +:+ fmt_d b;
  pok_type : member_text (p_types_set D) (p_type p) /\ p_tlen p = strlen (p_type p);
  pok_size : 1 <= p_size p <= 50;
  pok_cntr : member_text (p_cntr_set D) (p_container p);
}.

Lemma wp_mk_part D n l s0 (Q : part_t -> st -> Prop) s :
  dists_ok D -> seeds_ok (Seed s0) -> drew l s0 s ->
  (forall p s', part_ok D n p -> drew (l ++ part_draws (count (colors D))) s0 s' -> Q p s') ->
  wp (mk_part D n) Q s.
Proof.
  intros HD H0 Hd HQ. destruct (ok_colors D HD) as [Hc Hlen]. unfold mk_part.
  apply wp_bind. eapply wp_agg_str; [exact H0|lia|exact Hlen|exact Hd|unfold P_NAME_SCL; lia|].
  intros ks ms s1 Hd1 Hnd Hk Hms. destruct (color_words D ks ms HD Hms) as [Hfit Hblank].
  assert (Hj : exists w1 w2 w3, map text ms = [w1; w2; w3]).
  { pose proof (Forall2_length _ _ _ Hms). unfold P_NAME_SCL in Hk.
    destruct ms as [|m1 [|m2 [|m3 [|m4 ms]]]]; cbn [length] in *; try lia. cbn [map]. eauto. }
  destruct Hj as (w1 & w2 & w3 & Hw). rewrite Hw in *. apply Forall_cons in Hfit as [Hf1 Hf2], Hblank as [Hb1 _].
  pose proof (join_length 10 [w1; w2; w3] ltac:(lia) ltac:(now constructor) ltac:(done)) as HJ.
  pose proof (join_length 10 [w2; w3] ltac:(lia) Hf2 ltac:(done)) as HJ2. cbn [length] in HJ, HJ2.
  apply wp_bind. eapply wp_strcpy_over; [unfold PART_NAME_ROOM; lia|exact Hd1|]. intros s2 Hd2 _.
  change (join [w1; w2; w3]) with (w1 +:+ String " " (join [w2; w3])). unfold gen_color.
  apply wp_bind, wp_bind. rewrite (strchr_app _ " " _ Hb1). apply wp_ret, wp_ret. rewrite take_s_app, drop_s_after.
  apply wp_bind, wp_strcpy_to; [unfold P_NAME_LEN; lia|].
  apply wp_bind, wp_strcpy_to; [unfold P_COLOR_MAX; lia|]. rename Hd2 into Hd3.
  go_random mf Hmf Hd4. go_random ct Hct Hd5. go_random br Hbr Hd6.
  apply wp_bind. eapply wp_pick_str; [exact H0|exact Hd6|apply ok_types, HD|].
  intros k m' j s7 Hm' _ _ _ Hd7 _. cbn [fst snd].
  apply wp_bind, wp_strcpy_to; [fits HD Hm'|]. rename Hd7 into Hd8.
  apply wp_bind. eapply wp_dist_text; [lia|rewrite Nat2Z.id; exact Hm'|].
  go_random sz Hsz Hd9.
  apply wp_bind. eapply wp_pick_str; [exact H0|exact Hd9|apply ok_cntr, HD|].
  intros k2 m2 j2 s10 Hm2 _ _ _ Hd10 _. cbn [snd].
  apply wp_bind, wp_strcpy_to; [fits HD Hm2|]. rename Hd10 into Hd11.
  apply wp_ret, HQ.
  - split; cbn -[fmt_d]; try done.
    + exists ks, ms. unfold P_NAME_SCL in Hk. split_and!; [exact Hnd|lia|exact Hms|now rewrite Hw].
    + exists mf, ct, br. unfold P_MFG_MIN, P_MFG_MAX, P_CAT_MIN, P_CAT_MAX, P_BRND_MIN, P_BRND_MAX in *.
      split_and!; try lia; reflexivity.
    + split; [exists k, m'; auto|reflexivity].
    + exists k2, m2. auto.
  - unfold part_draws. rewrite <- !app_assoc in Hd11. exact Hd11.
Qed.

(** ** Orders *)

(** The text of the [i]-th day. *)
Definition day_text (i : Z) : string := fmt_d (date_key (nth_date (Z.to_nat i))).

Lemma asc_at_day i : 0 <= i < TOTDATE -> asc_at i = Some (day_text i).
Proof.
  intros Hi. unfold asc_at. destruct (Z.ltb_spec i 0); [lia|]. unfold asc_date.
  rewrite mk_ascdate_dates. cbv beta iota delta [from_option id].
  rewrite lookup_map, dates_from_nth by lia. reflexivity.
Qed.

(** What a line adds to the total price of its order, in cents. *)
Definition line_total (l : lineorder_t) : Z :=
  (l_extended_price l * (100 - l_discount l)) /c PENNIES * (100 + l_tax l) /c PENNIES.

Record line_ok (D : dists) (s : st) (okey : Z * Z) (custkey tmp_date : Z) (odate prio : string)
    (k : Z) (l : lineorder_t) : Prop := mk_line_ok {
  lok_key : l_okey l = okey /\ l_linenumber l = k + 1 /\ l_custkey l = custkey;
  lok_part : 1 <= l_partkey l <= L_PKEY_MAX s;
  lok_supp : 1 <= l_suppkey l <= L_SKEY_MAX s;
  lok_qty : 1 <= l_quantity l <= 50 /\ 0 <= l_discount l <= 10 /\ 0 <= l_tax l <= 8;
  lok_copy : l_orderdate l = odate /\ l_opriority l = take_s 11 prio /\ l_ship_priority l = 0;
  lok_price : l_extended_price l = rpb_routine (l_partkey l) * l_quantity l /\
    l_revenue l = l_extended_price l * (100 - l_discount l) / 100 /\
    l_supp_cost l = 6 * rpb_routine (l_partkey l) / 10;
  lok_commit : exists c, 30 <= c <= 90 /\ l_commit_date l = day_text (tmp_date + c - STARTDATE);
  lok_mode : member_text (l_smode_set D) (l_shipmode l);
}.

Lemma rpb_bounds p : 1 <= p -> 90000 <= rpb_routine p <= 209900.
Proof. intros Hp. unfold rpb_routine. c_arith. rewrite !rem_mod by zdiv. zdiv. Qed.

Lemma line_total_bounds l :
  1 <= l_partkey l -> 1 <= l_quantity l <= 50 -> 0 <= l_discount l <= 10 -> 0 <= l_tax l <= 8 ->
  l_extended_price l = rpb_routine (l_partkey l) * l_quantity l ->
  0 <= line_total l <= 11334600.
Proof.
  intros Hp Hq Hd Ht He. pose proof (rpb_bounds _ Hp) as Hr. unfold line_total, PENNIES.
  set (x := l_extended_price l) in *. assert (0 <= x <= 10495000) by nia.
  assert (0 <= x * (100 - l_discount l) <= 1049500000) by nia.
  rewrite (quot_div (x * _)) by lia. set (y := x * (100 - l_discount l)) in *.
  assert (0 <= y / 100 <= 10495000) by zdiv.
  assert (0 <= y / 100 * (100 + l_tax l) <= 1133460000) by nia.
  rewrite quot_div by lia. zdiv.
Qed.

Definition line_draws : list Z :=
  [L_PKEY_SD; L_SKEY_SD; L_QTY_SD; L_DCNT_SD; L_TAX_SD; L_CDTE_SD; L_SMODE_SD].

Section Order.
Context (D : dists) (HD : dists_ok D).

Lemma wp_mk_lineorder_row lcnt okey custkey tmp_date odate prio tp l s0
    (Q : lineorder_t * Z -> st -> Prop) s :
  strlen prio < OPRIORITY_ROOM -> seeds_ok (Seed s0) -> drew l s0 s -> scale_ok s0 ->
  STARTDATE <= tmp_date <= O_ODATE_MAX -> 0 <= tp < 2 ^ 31 - 11334600 ->
  (forall r s', line_ok D s0 okey custkey tmp_date odate prio lcnt r ->
     drew (l ++ line_draws) s0 s' -> Q (r, tp + line_total r) s') ->
  wp (mk_lineorder_row D lcnt okey custkey tmp_date odate prio tp) Q s.
Proof.
  intros Hprio H0 Hd Hsc Hdate Htp HQ. unfold mk_lineorder_row. apply wp_bind, wp_get.
  pose proof (scale_ok_drew _ _ _ Hd Hsc) as Hsc'.
  assert (Hp : L_PKEY_MAX s = L_PKEY_MAX s0 /\ L_SKEY_MAX s = L_SKEY_MAX s0).
  { unfold L_PKEY_MAX, L_SKEY_MAX, base_of. now rewrite (drew_glob _ _ _ Hd), (drew_tdefs _ _ _ Hd). }
  destruct Hp as [-> ->]. destruct Hsc as (Hscale & _ & Hs & Hp).
  unfold L_PKEY_MIN, L_SKEY_MIN.
  go_random pk Hpk Hd1. go_random sk Hsk Hd2. go_random q Hq Hd3. go_random dc Hdc Hd4.
  go_random tx Htx Hd5.
  apply wp_bind. eapply wp_strcpy_over; [exact Hprio|exact Hd5|]. intros s6 Hd6 _.
  go_random cd Hcd Hd7.
  unfold L_QTY_MIN, L_QTY_MAX, L_DCNT_MIN, L_DCNT_MAX, L_TAX_MIN, L_TAX_MAX, L_CDTE_MIN, L_CDTE_MAX in *.
  change O_ODATE_MAX with 94406 in Hdate. unfold STARTDATE in Hdate.
  apply wp_bind. rewrite asc_at_day by (unfold STARTDATE, TOTDATE; lia). apply wp_ret.
  apply wp_bind. eapply wp_pick_str; [exact H0|exact Hd7|apply ok_smode, HD|].
  intros k m j s8 Hm _ _ _ Hd8 _. cbn [snd].
  apply wp_bind, wp_strcpy_to; [fits HD Hm|]. rename Hd8 into Hd9.
  apply wp_ret. set (r := mk_lineorder _ _ _ _ _ _ _ _ _ _ _ _ _ _ _ _ _).
  assert (Hok : line_ok D s0 okey custkey tmp_date odate prio lcnt r).
  { pose proof (rpb_bounds pk ltac:(lia)).
    split; unfold r; cbn -[Z.mul rpb_routine Z.quot day_text PENNIES]; try lia; try done.
    - unfold PENNIES. split_and!; [reflexivity|apply quot_div; nia|apply quot_div; lia].
    - exists cd. split; [lia|]. do 2 f_equal. lia.
    - exists k, m. auto. }
  assert (Hb : 0 <= line_total r <= 11334600)
    by (apply line_total_bounds; try apply Hok; reflexivity || lia).
  match goal with |- Q (r, wrap_s 32 (tp + ?e)) _ => change e with (line_total r) end.
  rewrite wrap_s_id by (unfold in_s; lia). apply HQ; [exact Hok|].
  unfold line_draws. rewrite <- !app_assoc in Hd9. exact Hd9.
Qed.

(** The totals of a list of lines. *)
Definition lines_total (ls : list lineorder_t) : Z := fold_right Z.add 0 (map line_total ls).

Fixpoint lines_draws (n : nat) : list Z :=
  match n with O => [] | S n => line_draws ++ lines_draws n end.

Lemma wp_mk_lineorder_rows n : forall lcnt okey custkey tmp_date odate prio tp l s0
    (Q : list lineorder_t * Z -> st -> Prop) s,
  strlen prio < OPRIORITY_ROOM -> seeds_ok (Seed s0) -> drew l s0 s -> scale_ok s0 ->
  STARTDATE <= tmp_date <= O_ODATE_MAX -> 0 <= tp -> tp + Z.of_nat n * 11334600 < 2 ^ 31 ->
  (forall rs s', length rs = n ->
     (forall k r, rs !! k = Some r ->
        line_ok D s0 okey custkey tmp_date odate prio (lcnt + Z.of_nat k) r) ->
     0 <= lines_total rs <= Z.of_nat n * 11334600 ->
     drew (l ++ lines_draws n) s0 s' -> Q (rs, tp + lines_total rs) s') ->
  wp (mk_lineorder_rows D n lcnt okey custkey tmp_date odate prio tp) Q s.
Proof.
  induction n as [|n IH]; intros lcnt okey custkey tmp_date odate prio tp l s0 Q s Hprio H0 Hd Hsc Hdate Htp Hb HQ;
    cbn [mk_lineorder_rows].
  - apply wp_ret. specialize (HQ [] s eq_refl). cbn [lines_total map fold_right] in HQ.
    rewrite Z.add_0_r in HQ. apply HQ; [done|lia|]. cbn [lines_draws]. now rewrite app_nil_r.
  - apply wp_bind. eapply wp_mk_lineorder_row; [eassumption..|lia|]. intros r s1 Hr Hd1.
    assert (Hrb : 0 <= line_total r <= 11334600).
    { destruct Hr as [_ Hp _ (Hq & Hdc & Htx) _ (He & _) _ _]. apply line_total_bounds; lia. }
    apply wp_bind. eapply IH; [exact Hprio|exact H0|exact Hd1|exact Hsc|exact Hdate|cbn [snd]; lia|cbn [snd]; lia|].
    intros rs s' Hlen Hrs Htot Hd'. apply wp_ret. cbn [fst snd].
    replace (tp + line_total r + lines_total rs) with (tp + lines_total (r :: rs))
      by (unfold lines_total; cbn [map fold_right]; lia).
    apply HQ.
    + cbn [length]. lia.
    + intros [|k] r' Hk; cbn in Hk.
      * injection Hk as <-. now replace (lcnt + Z.of_nat 0) with lcnt by lia.
      * specialize (Hrs k r' Hk). now replace (lcnt + Z.of_nat (S k)) with (lcnt + 1 + Z.of_nat k) by lia.
    + unfold lines_total in *. cbn [map fold_right]. lia.
    + cbn [lines_draws]. now rewrite app_assoc.
Qed.

Lemma MIN_min a b : MIN a b = Z.min a b.
Proof. unfold MIN. destruct (Z.ltb_spec a b); lia. Qed.

(** The customer of an order: two iterations at most leave the multiples of 3. *)
Lemma custkey_loop_spec k max :
  1 <= k <= max ->
  exists k', custkey_loop 4 k 1 max = Some k' /\ 1 <= k' <= max /\ k' mod 3 <> 0 /\ k - 1 <= k' <= k + 1.
Proof.
  intros Hk. unfold CUST_MORTALITY.
  assert (Hstep : forall f c d, custkey_loop (S f) c d max =
    if c %c 3 =? 0 then custkey_loop f (MIN (c + d) max) (d * -1) max else Some c) by reflexivity.
  rewrite Hstep, rem_mod by lia. destruct (Z.eqb_spec (k mod 3) 0) as [H3|]; [|exists k; split_and!; lia || done].
  rewrite Hstep. destruct (Z_lt_le_dec k max).
  - rewrite (MIN_min (k + 1)), Z.min_l, rem_mod by lia. destruct (Z.eqb_spec ((k + 1) mod 3) 0); [zdiv|].
    exists (k + 1). split_and!; lia || done.
  - assert (max = k) as -> by lia. rewrite (MIN_min (k + 1)), Z.min_r, rem_mod by lia.
    rewrite (proj2 (Z.eqb_eq _ _) H3), Hstep. change (1 * -1) with (-1).
    rewrite MIN_min, Z.min_l, rem_mod by zdiv. destruct (Z.eqb_spec ((k + -1) mod 3) 0); [zdiv|].
    exists (k - 1). split_and!; [f_equal; lia|zdiv..].
Qed.
End Order.

Definition order_draws (n : nat) : list Z :=
  [O_ODATE_SD; O_CKEY_SD; O_PRIO_SD; O_CLRK_SD; O_LCNT_SD] ++ lines_draws n.

(** The key an order gets: update sets use the sequence numbers from 1 on. *)
Definition order_seq (s : st) (upd_num : Z) : Z :=
  if upd_num =? 0 then 0 else 1 + upd_num /c (10000 /c glob s G.refresh).

Record order_ok (D : dists) (s : st) (index upd_num : Z) (o : order_t) : Prop := mk_order_ok {
  ook_key : o_okey o = mk_sparse (glob s G.scale) index (order_seq s upd_num);
  ook_cust : 1 <= o_custkey o <= O_CKEY_MAX s /\ o_custkey o mod 3 <> 0;
  ook_lines : 1 <= o_lines o <= 7 /\ Z.of_nat (length (o_lineorders o)) = o_lines o;
  ook_prio : member_text (o_priority_set D) (o_opriority o);
  ook_date : exists tmp_date, STARTDATE <= tmp_date <= O_ODATE_MAX /\
    o_odate o = day_text (tmp_date - STARTDATE) /\
    forall k r, o_lineorders o !! k = Some r ->
      line_ok D s (o_okey o) (o_custkey o) tmp_date (o_odate o) (o_opriority o) (Z.of_nat k) r /\
      l_order_totalprice r = o_totalprice o;
  ook_total : o_totalprice o = lines_total (o_lineorders o) /\ 0 <= o_totalprice o <= 79342200;
}.

(** The refresh percentage divides: needed by update sets only. *)
Definition refresh_ok (s : st) (upd_num : Z) : Prop := upd_num = 0 \/ 1 <= glob s G.refresh <= 10000.

Lemma with_totalprice_line D s okey custkey tmp_date odate prio k tp r :
  line_ok D s okey custkey tmp_date odate prio k r ->
  line_ok D s okey custkey tmp_date odate prio k (with_totalprice tp r).
Proof. intros []. by split. Qed.

Lemma wp_mk_order D index upd_num l s0 (Q : order_t -> st -> Prop) s :
  dists_ok D -> seeds_ok (Seed s0) -> drew l s0 s -> scale_ok s0 -> refresh_ok s0 upd_num ->
  (forall o s', order_ok D s0 index upd_num o ->
     drew (l ++ order_draws (Z.to_nat (o_lines o))) s0 s' -> Q o s') ->
  wp (mk_order D index upd_num) Q s.
Proof.
  intros HD H0 Hd Hsc Href HQ. unfold mk_order. unfold O_ODATE_MIN.
  go_random dt Hdt Hd1. pose proof Hdt as Hdt0. change O_ODATE_MAX with 94406 in Hdt0. unfold STARTDATE in Hdt0.
  apply wp_bind. rewrite asc_at_day by (unfold STARTDATE, TOTDATE; lia). apply wp_ret.
  apply wp_bind, wp_get. pose proof (drew_glob _ _ _ Hd1) as Hg. rewrite Hg.
  assert (Hck : O_CKEY_MAX s' = O_CKEY_MAX s0)
    by (unfold O_CKEY_MAX, base_of; now rewrite Hg, (drew_tdefs _ _ _ Hd1)).
  rewrite Hck. pose proof Hsc as (Hscale & Hck1 & _).
  apply wp_bind. apply wp_mono with (Q := fun seq s2 => seq = order_seq s0 upd_num /\ s2 = s').
  { unfold order_seq. destruct (Z.eqb_spec upd_num 0); [now apply wp_ret|].
    destruct Href as [|Href]; [done|].
    destruct (Z.eqb_spec (glob s0 G.refresh) 0); [lia|].
    assert (1 <= 10000 /c glob s0 G.refresh) by (rewrite quot_div by lia; apply Z.div_le_lower_bound; lia).
    destruct (Z.eqb_spec (10000 /c glob s0 G.refresh) 0); [lia|]. now apply wp_ret. }
  intros seq s2 [-> ->]. unfold O_CKEY_MIN.
  go_random ck Hckr Hd2. destruct (custkey_loop_spec ck _ Hckr) as (ck' & Hloop & Hck' & Hm3 & _).
  apply wp_bind. rewrite Hloop. apply wp_ret.
  apply wp_bind. eapply wp_pick_str; [exact H0|exact Hd2|apply ok_prio, HD|].
  intros k m j s3 Hm _ _ _ Hd3 _. cbn [snd].
  assert (Hpl : strlen (text m) < OPRIORITY_ROOM) by fits HD Hm.
  apply wp_bind. eapply wp_strcpy_over; [unfold OPRIORITY_ROOM, O_OPRIORITY_ROOM in *; lia|exact Hd3|]. intros s4 Hd4 _.
  assert (Hmax : 1000 <= MAX (glob s0 G.scale * O_CLRK_SCL) O_CLRK_SCL <= glob s0 G.scale * 1000 + 1000)
    by (unfold MAX, O_CLRK_SCL; case_match; lia).
  go_random clk Hclk Hd5. go_random ln Hln Hd6. unfold O_LCNT_MIN, O_LCNT_MAX in Hln.
  apply wp_bind. eapply (wp_mk_lineorder_rows D HD); [exact Hpl|exact H0|exact Hd6|exact Hsc|exact Hdt|lia|lia|].
  intros rs s7 Hlen Hrs Htot Hd7. apply wp_ret. cbn [fst snd]. rewrite Z.add_0_l. apply HQ.
  - assert (Hsum : lines_total (map (with_totalprice (lines_total rs)) rs) = lines_total rs).
    { unfold lines_total at 1. rewrite map_map. reflexivity. }
    split; cbn [o_okey o_custkey o_lines o_lineorders o_opriority o_odate o_totalprice].
    + reflexivity.
    + done.
    + rewrite length_map. lia.
    + exists k, m. auto.
    + exists dt. split_and!; [lia|lia|reflexivity|].
      intros i r Hr. rewrite lookup_map in Hr. destruct (rs !! i) as [r0|] eqn:E; [|done].
      injection Hr as <-. split; [|reflexivity]. apply with_totalprice_line.
      specialize (Hrs i r0 E). now rewrite Z.add_0_l in Hrs.
    + rewrite Hsum. lia.
  - cbn [o_lines]. unfold order_draws. rewrite <- !app_assoc in Hd7. exact Hd7.
Qed.
