(* ===== verification/Relational.v ===== *)
(** Comparing two runs of a row builder: a relational weakest precondition, and which
    columns of a row depend on which streams. *)
From S2P Require Import Prelude CString Float64 Rng State Consts Streams Dist Bcd2 Sparse Calendar Build.

(** ** Relational triples *)

(** If both runs return, the results and final states satisfy [Q]. *)
Definition rwp {A B} (m1 : M A) (m2 : M B) (Q : A -> B -> st -> st -> Prop) (s1 s2 : st) : Prop :=
  match m1 s1, m2 s2 with Ok x s1', Ok y s2' => Q x y s1' s2' | _, _ => True end.

Lemma rwp_ret {A B} (x : A) (y : B) Q s1 s2 : Q x y s1 s2 -> rwp (ret x) (ret y) Q s1 s2.
Proof. exact id. Qed.

Lemma rwp_bind {A A' B B'} (m1 : M A) (m2 : M A') (k1 : A -> M B) (k2 : A' -> M B') Q s1 s2 :
  rwp m1 m2 (fun x y s1' s2' => rwp (k1 x) (k2 y) Q s1' s2') s1 s2 ->
  rwp (bind m1 k1) (bind m2 k2) Q s1 s2.
Proof.
  unfold rwp, bind. destruct (m1 s1) as [x a|], (m2 s2) as [y b|]; try done.
  intros _. destruct (k1 x a); done.
Qed.

Lemma rwp_must {A} what (o1 o2 : option A) Q s1 s2 :
  (forall x y, o1 = Some x -> o2 = Some y -> Q x y s1 s2) -> rwp (must what o1) (must what o2) Q s1 s2.
Proof. unfold rwp, must. destruct o1, o2; cbn; auto. Qed.

Lemma rwp_get Q s1 s2 : Q s1 s2 s1 s2 -> rwp get get Q s1 s2.
Proof. exact id. Qed.

(** ** Agreement on a set of streams *)

Definition val (s : st) (i : Z) : Z := value (seed_at s i).

Record agree (S : list Z) (s1 s2 : st) : Prop := mk_agree {
  ag_len1 : length (Seed s1) = 48%nat;
  ag_len2 : length (Seed s2) = 48%nat;
  ag_glob : glob s1 = glob s2;
  ag_tdefs : tdefs s1 = tdefs s2;
  ag_val : forall i, In i S -> 0 <= i < 48 -> val s1 i = val s2 i;
}.

Lemma draw_val j i s :
  length (Seed s) = 48%nat -> 0 <= i < 48 ->
  val (draw j s) i = if decide (drawn j = i) then NextRand (val s i) else val s i.
Proof.
  intros Hlen Hi. unfold val, seed_at. rewrite draw_Seed.
  change (draw_seed j (Seed s)) with (draw_seeds [j] (Seed s)).
  rewrite draw_seeds_lookup by exact Hi.
  destruct (lookup_lt_is_Some_2 (Seed s) (Z.to_nat i)) as [e He]; [lia|]. rewrite He.
  change (value (drawn_seed (hits i [j]) (counted i [j]) e) =
    if decide (drawn j = i) then NextRand (value e) else value e).
  rewrite hits_cons. destruct (decide (drawn j = i)); reflexivity.
Qed.

Lemma draw_length j s : length (Seed (draw j s)) = length (Seed s).
Proof. rewrite draw_Seed. unfold draw_seed. destruct (in_table j); now rewrite !length_alter. Qed.

Lemma draw_frame j s : glob (draw j s) = glob s /\ tdefs (draw j s) = tdefs s /\ perm (draw j s) = perm s.
Proof. unfold draw, count_usage. destruct (in_table j); done. Qed.

Lemma agree_draw S j s1 s2 : agree S s1 s2 -> agree S (draw j s1) (draw j s2).
Proof.
  intros [L1 L2 Hg Ht Hv]. destruct (draw_frame j s1) as (G1 & T1 & _), (draw_frame j s2) as (G2 & T2 & _).
  split; rewrite ?draw_length; try congruence.
  intros i Hin Hi. rewrite !draw_val by done. rewrite (Hv i Hin Hi). done.
Qed.

Lemma agree_perm S f g s1 s2 : agree S s1 s2 -> agree S (set_perm f s1) (set_perm g s2).
Proof. intros []. by split. Qed.

Lemma agree_faults S f g s1 s2 : agree S s1 s2 -> agree S (set_faults f s1) (set_faults g s2).
Proof. intros []. by split. Qed.

(** The number a draw gives, from the stream's value before it. *)
Definition drawn_value (lo hi v : Z) : Z :=
  let '(lo, hi) := if hi <? lo then (hi, lo) else (lo, hi) in
  lo + scaled (NextRand v) (hi - lo + 1).

Lemma dss_random_value lo hi i s :
  length (Seed s) = 48%nat -> RANDOM lo hi i s = Ok (drawn_value lo hi (val s (drawn i))) (draw i s).
Proof.
  intros Hlen. unfold dss_random, UnifInt, drawn_value. rewrite drawn_norm.
  pose proof (drawn_range i) as Hd.
  assert (Hv : value (seed_at (upd_seed (drawn i) (with_value NextRand) s) (drawn i)) =
    NextRand (val s (drawn i))).
  { unfold val, seed_at, upd_seed. cbn [Seed set_Seed]. rewrite list_lookup_alter_eq.
    destruct (lookup_lt_is_Some_2 (Seed s) (Z.to_nat (drawn i))) as [e ->]; [lia|]. reflexivity. }
  destruct (hi <? lo); unfold bind, modify, gets, ret; rewrite Hv; reflexivity.
Qed.

(** Drawing from a stream both runs agree on gives the same number. *)
Lemma rwp_random_same S lo hi i (Q : Z -> Z -> st -> st -> Prop) s1 s2 :
  agree S s1 s2 -> In (drawn i) S ->
  (forall v s1' s2', agree S s1' s2' -> perm s1' = perm s1 -> perm s2' = perm s2 -> Q v v s1' s2') ->
  rwp (RANDOM lo hi i) (RANDOM lo hi i) Q s1 s2.
Proof.
  intros Ha Hin HQ. unfold rwp. rewrite !dss_random_value by apply Ha.
  rewrite (ag_val _ _ _ Ha (drawn i) Hin (drawn_range i)).
  apply HQ; [now apply agree_draw|apply draw_frame|apply draw_frame].
Qed.

(** From any other stream, the two numbers are unrelated. *)
Lemma rwp_random_any S lo hi lo' hi' i (Q : Z -> Z -> st -> st -> Prop) s1 s2 :
  agree S s1 s2 ->
  (forall v w s1' s2', agree S s1' s2' -> perm s1' = perm s1 -> perm s2' = perm s2 -> Q v w s1' s2') ->
  rwp (RANDOM lo hi i) (RANDOM lo' hi' i) Q s1 s2.
Proof.
  intros Ha HQ. unfold rwp. rewrite !dss_random_value by apply Ha.
  apply HQ; [now apply agree_draw|apply draw_frame|apply draw_frame].
Qed.

(** ** Helpers *)

Ltac r_same v Ha' := apply rwp_bind; eapply rwp_random_same; [eassumption|cbn; tauto|]; intros v ? ? Ha' _ _.
Ltac r_any v w Ha' := apply rwp_bind; eapply rwp_random_any; [eassumption|]; intros v w ? ? Ha' _ _.

Lemma rwp_strcpy S what cap x y (Q : string -> string -> st -> st -> Prop) s1 s2 :
  agree S s1 s2 -> (forall s1' s2', agree S s1' s2' -> perm s1' = perm s1 -> perm s2' = perm s2 -> Q x y s1' s2') ->
  rwp (strcpy_to what cap x) (strcpy_to what cap y) Q s1 s2.
Proof.
  intros Ha HQ. unfold rwp, strcpy_to, stop_with, ret.
  destruct (cap <=? strlen x), (cap <=? strlen y); try done. now apply HQ.
Qed.

Lemma rwp_strcpy_over S what cap room x y (Q : string -> string -> st -> st -> Prop) s1 s2 :
  agree S s1 s2 -> (forall s1' s2', agree S s1' s2' -> perm s1' = perm s1 -> perm s2' = perm s2 -> Q x y s1' s2') ->
  rwp (strcpy_over what cap room x) (strcpy_over what cap room y) Q s1 s2.
Proof.
  intros Ha HQ. unfold rwp, strcpy_over, stop_with, ret, bind, modify.
  destruct (room <=? strlen x), (room <=? strlen y); try done;
    destruct (cap <=? strlen x), (cap <=? strlen y); try done; apply HQ; try done; destruct Ha; by split.
Qed.

Lemma rwp_a_rnd_loop S n : forall i ci col (Q : string -> string -> st -> st -> Prop) s1 s2,
  agree S s1 s2 -> In (drawn col) S ->
  (forall str s1' s2', agree S s1' s2' -> Q str str s1' s2') ->
  rwp (a_rnd_loop n i ci col) (a_rnd_loop n i ci col) Q s1 s2.
Proof.
  induction n as [|n IH]; intros i ci col Q s1 s2 Ha Hin HQ; cbn [a_rnd_loop]; [now apply rwp_ret, HQ|].
  apply rwp_bind. destruct (i %c 5 =? 0).
  - eapply rwp_random_same; [exact Ha|exact Hin|]. intros v s1' s2' Ha' _ _.
    apply rwp_bind, rwp_must. intros x y Hx Hy. rewrite Hx in Hy. injection Hy as <-.
    apply rwp_bind. eapply IH; [exact Ha'|exact Hin|]. intros str a b Hab. now apply rwp_ret, HQ.
  - apply rwp_ret, rwp_bind, rwp_must. intros x y Hx Hy. rewrite Hx in Hy. injection Hy as <-.
    apply rwp_bind. eapply IH; [exact Ha|exact Hin|]. intros str a b Hab. now apply rwp_ret, HQ.
Qed.

Lemma rwp_V_STR S avg col (Q : Z * string -> Z * string -> st -> st -> Prop) s1 s2 :
  agree S s1 s2 -> In (drawn col) S ->
  (forall p s1' s2', agree S s1' s2' -> Q p p s1' s2') ->
  rwp (V_STR avg col) (V_STR avg col) Q s1 s2.
Proof.
  intros Ha Hin HQ. unfold V_STR, a_rnd. apply rwp_bind. eapply rwp_random_same; [exact Ha|exact Hin|].
  intros len s1' s2' Ha' _ _. apply rwp_bind. eapply rwp_a_rnd_loop; [exact Ha'|exact Hin|].
  intros str a b Hab. now apply rwp_ret, HQ.
Qed.

Lemma rwp_pick_same S d c (Q : Z * string -> Z * string -> st -> st -> Prop) s1 s2 :
  agree S s1 s2 -> In (drawn c) S ->
  (forall p s1' s2', agree S s1' s2' -> Q p p s1' s2') ->
  rwp (pick_str d c) (pick_str d c) Q s1 s2.
Proof.
  intros Ha Hin HQ. unfold pick_str. apply rwp_bind, rwp_must. intros x y -> [= <-].
  apply rwp_bind. eapply rwp_random_same; [exact Ha|exact Hin|]. intros j s1' s2' Ha' _ _.
  apply rwp_bind, rwp_must. intros p q -> [= <-]. now apply rwp_ret, HQ.
Qed.

Lemma rwp_pick_any S d c (Q : Z * string -> Z * string -> st -> st -> Prop) s1 s2 :
  agree S s1 s2 -> (forall p q s1' s2', agree S s1' s2' -> Q p q s1' s2') ->
  rwp (pick_str d c) (pick_str d c) Q s1 s2.
Proof.
  intros Ha HQ. unfold pick_str. apply rwp_bind, rwp_must. intros x y -> [= <-].
  r_any j k Ha'. apply rwp_bind, rwp_must. intros p q _ _. now apply rwp_ret, HQ.
Qed.

Lemma rwp_dist_text what d i (Q : set_member -> set_member -> st -> st -> Prop) s1 s2 :
  (forall m, Q m m s1 s2) -> rwp (dist_text what d i) (dist_text what d i) Q s1 s2.
Proof. intros HQ. apply rwp_must. intros x y -> [= <-]. apply HQ. Qed.

Lemma rwp_gen_phone S ind seed (Q : string -> string -> st -> st -> Prop) s1 s2 :
  agree S s1 s2 -> In (drawn seed) S -> (forall p s1' s2', agree S s1' s2' -> Q p p s1' s2') ->
  rwp (gen_phone ind seed) (gen_phone ind seed) Q s1 s2.
Proof.
  intros Ha Hin HQ. unfold gen_phone.
  do 3 (apply rwp_bind; eapply rwp_random_same; [eassumption|exact Hin|]; intros ? ? ? ? _ _).
  now apply rwp_ret, HQ.
Qed.

Lemma rwp_gen_phone_any S i1 i2 seed (Q : string -> string -> st -> st -> Prop) s1 s2 :
  agree S s1 s2 -> (forall p q s1' s2', agree S s1' s2' -> Q p q s1' s2') ->
  rwp (gen_phone i1 seed) (gen_phone i2 seed) Q s1 s2.
Proof.
  intros Ha HQ. unfold gen_phone.
  do 3 (apply rwp_bind; eapply rwp_random_any; [eassumption|]; intros ? ? ? ? ? _ _).
  now apply rwp_ret, HQ.
Qed.

Lemma rwp_gen_city S n1 n2 (Q : string -> string -> st -> st -> Prop) s1 s2 :
  agree S s1 s2 -> (forall p q s1' s2', agree S s1' s2' -> Q p q s1' s2') ->
  rwp (gen_city n1) (gen_city n2) Q s1 s2.
Proof. intros Ha HQ. unfold gen_city. r_any v w Ha'. now apply rwp_ret, HQ. Qed.

(** ** Rows *)

(** Equal in every column but the city (drawn from a stream that does not exist). *)
Definition same_customer (a b : customer_t) : Prop :=
  c_custkey a = c_custkey b /\ c_name a = c_name b /\ c_address a = c_address b /\
  c_alen a = c_alen b /\ c_nation_name a = c_nation_name b /\ c_region_name a = c_region_name b /\
  c_phone a = c_phone b /\ c_mktsegment a = c_mktsegment b.

(** Equal in every column but the city and the phone number (drawn from the customers'
    stream). *)
Definition same_supplier (a b : supplier_t) : Prop :=
  s_suppkey a = s_suppkey b /\ s_name a = s_name b /\ s_address a = s_address b /\
  s_alen a = s_alen b /\ s_nation_name a = s_nation_name b /\ s_region_name a = s_region_name b.

(** Equal in every column but manufacturer, category and brand. *)
Definition same_part (a b : part_t) : Prop :=
  p_partkey a = p_partkey b /\ p_name a = p_name b /\ p_color a = p_color b /\
  p_clen a = p_clen b /\ p_type a = p_type b /\ p_tlen a = p_tlen b /\ p_size a = p_size b /\
  p_container a = p_container b.

(** Equal in every column but customer and priority. *)
Definition same_line (a b : lineorder_t) : Prop :=
  l_okey a = l_okey b /\ l_linenumber a = l_linenumber b /\ l_partkey a = l_partkey b /\
  l_suppkey a = l_suppkey b /\ l_orderdate a = l_orderdate b /\
  l_ship_priority a = l_ship_priority b /\ l_quantity a = l_quantity b /\
  l_extended_price a = l_extended_price b /\ l_order_totalprice a = l_order_totalprice b /\
  l_discount a = l_discount b /\ l_revenue a = l_revenue b /\ l_supp_cost a = l_supp_cost b /\
  l_tax a = l_tax b /\ l_commit_date a = l_commit_date b /\ l_shipmode a = l_shipmode b.

Definition same_order (a b : order_t) : Prop :=
  o_okey a = o_okey b /\ o_totalprice a = o_totalprice b /\ o_odate a = o_odate b /\
  o_spriority a = o_spriority b /\ o_lines a = o_lines b /\
  Forall2 same_line (o_lineorders a) (o_lineorders b).

(** The streams those columns come from. *)
Definition cust_streams : list Z := [C_ADDR_SD; C_NTRG_SD; C_PHNE_SD; C_MSEG_SD].
Definition supp_streams : list Z := [S_ADDR_SD; S_NTRG_SD].
Definition part_streams : list Z := [P_NAME_SD; P_TYPE_SD; P_SIZE_SD; P_CNTR_SD].
Definition order_streams : list Z :=
  [O_ODATE_SD; O_LCNT_SD; L_PKEY_SD; L_SKEY_SD; L_QTY_SD; L_DCNT_SD; L_TAX_SD; L_CDTE_SD; L_SMODE_SD].

Ltac in_streams := vm_compute; tauto.

Section Rows.
Context (D : dists).

Lemma rwp_mk_cust n s1 s2 :
  agree cust_streams s1 s2 -> rwp (mk_cust D n) (mk_cust D n) (fun a b _ _ => same_customer a b) s1 s2.
Proof.
  intros Ha. unfold mk_cust. apply rwp_bind. eapply rwp_V_STR; [exact Ha|in_streams|]. intros p a1 b1 Ha1.
  apply rwp_bind. eapply rwp_random_same; [exact Ha1|in_streams|]. intros i a2 b2 Ha2 _ _.
  apply rwp_bind, rwp_dist_text. intros m. apply rwp_bind. eapply rwp_strcpy; [exact Ha2|].
  intros a3 b3 Ha3 _ _. apply rwp_bind, rwp_dist_text. intros r. apply rwp_bind.
  eapply rwp_strcpy; [exact Ha3|]. intros a4 b4 Ha4 _ _.
  apply rwp_bind. eapply rwp_gen_city; [exact Ha4|]. intros c c' a5 b5 Ha5.
  apply rwp_bind. eapply rwp_gen_phone; [exact Ha5|in_streams|]. intros ph a6 b6 Ha6.
  apply rwp_bind. eapply rwp_pick_same; [exact Ha6|in_streams|]. intros q a7 b7 Ha7.
  apply rwp_bind. eapply rwp_strcpy; [exact Ha7|]. intros a8 b8 _ _ _.
  apply rwp_ret. now split_and!.
Qed.

Lemma rwp_mk_supp n s1 s2 :
  agree supp_streams s1 s2 -> rwp (mk_supp D n) (mk_supp D n) (fun a b _ _ => same_supplier a b) s1 s2.
Proof.
  intros Ha. unfold mk_supp. apply rwp_bind. eapply rwp_V_STR; [exact Ha|in_streams|]. intros p a1 b1 Ha1.
  apply rwp_bind. eapply rwp_random_same; [exact Ha1|in_streams|]. intros i a2 b2 Ha2 _ _.
  apply rwp_bind, rwp_dist_text. intros m. apply rwp_bind. eapply rwp_strcpy; [exact Ha2|].
  intros a3 b3 Ha3 _ _. apply rwp_bind, rwp_dist_text. intros r. apply rwp_bind.
  eapply rwp_strcpy; [exact Ha3|]. intros a4 b4 Ha4 _ _.
  apply rwp_bind. eapply rwp_gen_city; [exact Ha4|]. intros c c' a5 b5 Ha5.
  apply rwp_bind. eapply rwp_gen_phone_any; [exact Ha5|]. intros ph ph' a6 b6 Ha6.
  apply rwp_ret. now split_and!.
Qed.

Lemma rwp_permute_loop S n : forall i c col (Q : unit -> unit -> st -> st -> Prop) s1 s2,
  agree S s1 s2 -> In (drawn col) S -> pset (perm s1) = pset (perm s2) ->
  pdist (perm s1) = pdist (perm s2) -> (source (perm s1) = source (perm s2) \/ (0 < n)%nat) ->
  (forall s1' s2', agree S s1' s2' -> perm s1' = perm s2' -> Q tt tt s1' s2') ->
  rwp (permute_loop n i c col) (permute_loop n i c col) Q s1 s2.
Proof.
  induction n as [|n IH]; intros i c col Q s1 s2 Ha Hin Hp Hd Hs HQ; cbn [permute_loop].
  - apply rwp_ret, HQ; [exact Ha|]. destruct Hs as [Hs|]; [|lia].
    destruct (perm s1), (perm s2). cbn in *. congruence.
  - apply rwp_bind. eapply rwp_random_same; [exact Ha|exact Hin|]. intros v a b Hab P1 P2.
    apply rwp_bind. unfold rwp at 1, modify.
    eapply IH; [apply agree_perm; exact Hab|exact Hin|..|exact HQ]; cbn.
    + now rewrite P1, P2, Hp.
    + now rewrite P1, P2, Hd.
    + now left.
Qed.

(** The first call of [permute_dist] sets up the same array in both runs. *)
Lemma rwp_permute_first S d col (Q : Z -> Z -> st -> st -> Prop) s1 s2 :
  agree S s1 s2 -> In (drawn col) S -> 1 <= count d ->
  (forall k s1' s2', agree S s1' s2' -> perm s1' = perm s2' -> Q k k s1' s2') ->
  rwp (permute_dist (Some d) col) (permute_dist (Some d) col) Q s1 s2.
Proof.
  intros Ha Hin Hc HQ. unfold permute_dist, permute. apply rwp_bind. unfold rwp at 1, modify.
  apply rwp_bind, rwp_bind. unfold rwp at 1, modify.
  eapply rwp_permute_loop; [do 2 apply agree_perm; exact Ha|exact Hin|reflexivity|reflexivity|right; lia|].
  intros a b Hab Hp. apply rwp_bind. unfold rwp at 1, modify. apply rwp_bind. unfold rwp at 1, gets.
  cbn [perm set_perm]. rewrite Hp. apply rwp_must. intros x y -> [= <-].
  apply HQ; [now apply agree_perm|]. cbn. now rewrite Hp.
Qed.

Lemma rwp_agg_rest S set col n : forall dest (Q : string -> string -> st -> st -> Prop) s1 s2,
  agree S s1 s2 -> perm s1 = perm s2 ->
  (forall str s1' s2', agree S s1' s2' -> Q str str s1' s2') ->
  rwp (agg_str_loop n set None col dest) (agg_str_loop n set None col dest) Q s1 s2.
Proof.
  induction n as [|n IH]; intros dest Q s1 s2 Ha Hp HQ; cbn [agg_str_loop]; [now apply rwp_ret, HQ|].
  apply rwp_bind. unfold permute_dist. apply rwp_bind. unfold rwp at 1, gets. rewrite Hp.
  destruct (pdist (perm s2)) as [c|]; [|done].
  unfold permute. apply rwp_bind. unfold rwp at 1, modify. apply rwp_bind. unfold rwp at 1, modify.
  apply rwp_bind. unfold rwp at 1, gets. cbn [perm set_perm]. rewrite Hp.
  apply rwp_must. intros k k' -> [= <-]. apply rwp_bind, rwp_must. intros m m' -> [= <-].
  apply IH; [now do 2 apply agree_perm| |exact HQ]. cbn. now rewrite Hp.
Qed.

Lemma rwp_agg_str S set n col (Q : string -> string -> st -> st -> Prop) s1 s2 :
  agree S s1 s2 -> In (drawn col) S -> 1 <= count set -> 1 <= n ->
  (forall str s1' s2', agree S s1' s2' -> Q str str s1' s2') ->
  rwp (agg_str set n col) (agg_str set n col) Q s1 s2.
Proof.
  intros Ha Hin Hc Hn HQ. unfold agg_str. replace (Z.to_nat n) with (Datatypes.S (Z.to_nat (n - 1))) by lia.
  cbn [agg_str_loop]. apply rwp_bind, rwp_bind.
  eapply rwp_permute_first; [exact Ha|exact Hin|exact Hc|]. intros k a b Hab Hp.
  apply rwp_bind, rwp_must. intros m m' -> [= <-].
  eapply rwp_agg_rest; [exact Hab|exact Hp|]. intros str a' b' Hab'.
  destruct (strlen str =? 0); [done|]. now apply rwp_ret, HQ.
Qed.

Lemma rwp_mk_part n s1 s2 :
  agree part_streams s1 s2 -> 1 <= count (colors D) ->
  rwp (mk_part D n) (mk_part D n) (fun a b _ _ => same_part a b) s1 s2.
Proof.
  intros Ha Hc. unfold mk_part. apply rwp_bind.
  eapply rwp_agg_str; [exact Ha|in_streams|exact Hc|unfold P_NAME_SCL; lia|]. intros nm a1 b1 Ha1.
  apply rwp_bind. eapply rwp_strcpy_over; [exact Ha1|]. intros a2 b2 Ha2 _ _.
  unfold gen_color. apply rwp_bind, rwp_bind, rwp_must. intros i i' -> [= <-]. apply rwp_ret.
  apply rwp_bind. eapply rwp_strcpy; [exact Ha2|]. intros a2' b2' Ha2' _ _.
  apply rwp_bind. eapply rwp_strcpy; [exact Ha2'|]. intros a3 b3 Ha3 _ _.
  r_any v1 w1 Ha4. r_any v2 w2 Ha5.
  apply rwp_bind. eapply rwp_random_any; [exact Ha5|]. intros v3 w3 a6 b6 Ha6 _ _.
  apply rwp_bind. eapply rwp_pick_same; [exact Ha6|in_streams|]. intros t a7 b7 Ha7.
  apply rwp_bind. eapply rwp_strcpy; [exact Ha7|]. intros a8 b8 Ha8 _ _.
  apply rwp_bind, rwp_dist_text. intros m.
  apply rwp_bind. eapply rwp_random_same; [exact Ha8|in_streams|]. intros sz a9 b9 Ha9 _ _.
  apply rwp_bind. eapply rwp_pick_same; [exact Ha9|in_streams|]. intros k a10 b10 Ha10.
  apply rwp_bind. eapply rwp_strcpy; [exact Ha10|]. intros a11 b11 _ _ _.
  apply rwp_ret. now split_and!.
Qed.

Lemma rwp_lineorder_rows n : forall lcnt okey c1 c2 dt od p1 p2 tp
    (Q : list lineorder_t * Z -> list lineorder_t * Z -> st -> st -> Prop) s1 s2,
  agree order_streams s1 s2 ->
  (forall r1 r2 s1' s2', agree order_streams s1' s2' -> Forall2 same_line (fst r1) (fst r2) ->
     snd r1 = snd r2 -> Q r1 r2 s1' s2') ->
  rwp (mk_lineorder_rows D n lcnt okey c1 dt od p1 tp) (mk_lineorder_rows D n lcnt okey c2 dt od p2 tp) Q s1 s2.
Proof.
  induction n as [|n IH]; intros lcnt okey c1 c2 dt od p1 p2 tp Q s1 s2 Ha HQ; cbn [mk_lineorder_rows].
  - apply rwp_ret, HQ; [exact Ha|constructor|reflexivity].
  - apply rwp_bind. unfold mk_lineorder_row at 1 2. apply rwp_bind, rwp_get.
    assert (E : L_PKEY_MAX s1 = L_PKEY_MAX s2 /\ L_SKEY_MAX s1 = L_SKEY_MAX s2).
    { unfold L_PKEY_MAX, L_SKEY_MAX, base_of. destruct Ha as [_ _ -> -> _]. done. }
    destruct E as [-> ->].
    do 5 (apply rwp_bind; eapply rwp_random_same; [eassumption|in_streams|]; intros ? ? ? ? _ _).
    apply rwp_bind. eapply rwp_strcpy_over; [eassumption|]. intros a6 b6 Ha6 _ _.
    apply rwp_bind. eapply rwp_random_same; [exact Ha6|in_streams|]. intros cd a7 b7 Ha7 _ _.
    apply rwp_bind, rwp_must. intros x y -> [= <-].
    apply rwp_bind. eapply rwp_pick_same; [exact Ha7|in_streams|]. intros m a8 b8 Ha8.
    apply rwp_bind. eapply rwp_strcpy; [exact Ha8|]. intros a9 b9 Ha9 _ _.
    apply rwp_ret, rwp_bind. eapply IH; [exact Ha9|]. intros r1 r2 a b Hab Hf He.
    apply rwp_ret, HQ; [exact Hab| |exact He]. cbn [fst snd]. constructor; [now split_and!|exact Hf].
Qed.

Lemma rwp_any {A B} (m1 : M A) (m2 : M B) (Q : A -> B -> st -> st -> Prop) s1 s2 :
  (forall x y a b, Q x y a b) -> rwp m1 m2 Q s1 s2.
Proof. intros HQ. unfold rwp. destruct (m1 s1), (m2 s2); auto. Qed.

(** The sequence number of an update set. *)
Lemma rwp_seq S upd r (Q : Z -> Z -> st -> st -> Prop) s1 s2 :
  agree S s1 s2 -> (forall x, Q x x s1 s2) ->
  let m := (if upd =? 0 then ret 0
            else if (r =? 0) || (10000 /c r =? 0) then stop_with (Undefined "division by zero")
            else ret (1 + upd /c (10000 /c r))) in
  rwp m m Q s1 s2.
Proof. intros Ha HQ. cbv zeta. destruct (upd =? 0); [|destruct (_ || _); [done|]]; now apply rwp_ret. Qed.

Lemma rwp_seq_any S upd1 upd2 r (Q : Z -> Z -> st -> st -> Prop) s1 s2 :
  agree S s1 s2 -> (forall x y, Q x y s1 s2) ->
  rwp (if upd1 =? 0 then ret 0
       else if (r =? 0) || (10000 /c r =? 0) then stop_with (Undefined "division by zero")
       else ret (1 + upd1 /c (10000 /c r)))
    (if upd2 =? 0 then ret 0
     else if (r =? 0) || (10000 /c r =? 0) then stop_with (Undefined "division by zero")
     else ret (1 + upd2 /c (10000 /c r))) Q s1 s2.
Proof.
  intros Ha HQ. destruct (upd1 =? 0), (upd2 =? 0); try destruct (_ || _); apply HQ || exact I.
Qed.

Lemma rwp_mk_order n upd s1 s2 :
  agree order_streams s1 s2 ->
  rwp (mk_order D n upd) (mk_order D n upd) (fun a b _ _ => same_order a b) s1 s2.
Proof.
  intros Ha. unfold mk_order.
  apply rwp_bind. eapply rwp_random_same; [exact Ha|in_streams|]. intros dt a1 b1 Ha1 _ _.
  apply rwp_bind, rwp_must. intros od od' -> [= <-]. apply rwp_bind, rwp_get.
  rewrite (ag_glob _ _ _ Ha1). apply rwp_bind. eapply rwp_seq; [exact Ha1|]. intros seq.
  r_any ck1 ck2 Ha2. apply rwp_bind, rwp_must. intros c1 c2 _ _.
  apply rwp_bind. eapply rwp_pick_any; [exact Ha2|]. intros p q a3 b3 Ha3.
  apply rwp_bind. eapply rwp_strcpy_over; [exact Ha3|]. intros a4 b4 Ha4 _ _.
  r_any k1 k2 Ha5.
  apply rwp_bind. eapply rwp_random_same; [exact Ha5|in_streams|]. intros ln a6 b6 Ha6 _ _.
  apply rwp_bind. eapply rwp_lineorder_rows; [exact Ha6|]. intros r1 r2 a7 b7 _ Hf He.
  apply rwp_ret. rewrite He. split_and!; try done.
  cbn [o_lineorders]. induction Hf as [|x y l1 l2 Hxy Hl IH]; cbn [map]; constructor; [|exact IH].
  unfold same_line in *. cbn. tauto.
Qed.

(** Customer and priority come from their own streams. *)
Lemma rwp_mk_order_cust n1 n2 upd1 upd2 s1 s2 :
  agree [O_CKEY_SD; O_PRIO_SD] s1 s2 ->
  rwp (mk_order D n1 upd1) (mk_order D n2 upd2)
    (fun a b _ _ => o_custkey a = o_custkey b /\ o_opriority a = o_opriority b) s1 s2.
Proof.
  intros Ha. unfold mk_order. r_any dt1 dt2 Ha1.
  apply rwp_bind, rwp_must. intros od od' _ _. apply rwp_bind, rwp_get.
  rewrite (ag_glob _ _ _ Ha1).
  apply rwp_bind. eapply rwp_seq_any; [exact Ha1|]. intros q1 q2.
  assert (E : O_CKEY_MAX s1' = O_CKEY_MAX s2')
    by (unfold O_CKEY_MAX, base_of; destruct Ha1 as [_ _ -> -> _]; reflexivity).
  rewrite E. apply rwp_bind. eapply rwp_random_same; [exact Ha1|in_streams|]. intros ck a2 b2 Ha2 _ _.
  apply rwp_bind, rwp_must. intros c c' -> [= <-].
  apply rwp_bind. eapply rwp_pick_same; [exact Ha2|in_streams|]. intros p a3 b3 Ha3.
  apply rwp_bind. eapply rwp_strcpy_over; [exact Ha3|]. intros a4 b4 Ha4 _ _.
  r_any k1 k2 Ha5. r_any l1 l2 Ha6. apply rwp_bind, rwp_any. intros x y a b. now apply rwp_ret.
Qed.
End Rows.
