(* ===== verification/Parallel.v ===== *)
(** Serial and parallel generation: rows generated after a skip of speed_seed.c against the
    rows of one serial run. [RowBuilder] is the interface between the row builders and this
    argument: a builder promises how far a row moves each stream it uses and that its row is
    a function of these streams. *)
From S2P Require Import Prelude CString Float64 Rng SpeedSeed State Consts Streams Dist Bcd2 Sparse Calendar Build RowSpec Relational.

(** ** Rows of a table *)

(** The loop of [gen_tbl] without the output: [n] rows from [start]. *)
Definition gen_row {A} (t : Z) (mk : Z -> M A) (i : Z) : M A :=
  row_start t;; x <- mk i;; row_stop t;; ret x.
Definition gen_rows {A} (t : Z) (mk : Z -> M A) (n : nat) (start : Z) : M (list A) :=
  for_list n start (gen_row t mk).

(** ** States between rows *)

Definition layout (l : list seed_t) : list (Z * Z) := map (fun e => (table e, boundary e)) l.

(** Tables and boundaries are those of rnd.h, seeds are valid, seeds are not being
    calibrated, and [c] is the child of table [t]. *)
Record row_env_in (c t : Z) (s : st) : Prop := mk_row_env {
  re_seeds : seeds_ok (Seed s);
  re_layout : layout (Seed s) = layout Seed_init;
  re_set : glob s G.set_seeds = 0;
  re_tdef : exists d, tdefs s !! Z.to_nat (row_table t) = Some d /\ child d = c;
}.

(** How far a row that draws [l] moves stream [i]. *)
Definition row_adv_in (c t i : Z) (l : list Z) : nat :=
  match Seed_init !! Z.to_nat i with
  | Some e =>
      if accounted (row_table t) c e
      then (Z.to_nat (boundary e) + (if decide (i = 0%Z) then strays l else O))%nat
      else hits i l
  | None => O
  end.

Lemma layout_at s i :
  layout (Seed s) = layout Seed_init -> 0 <= i < 48 ->
  exists e e0, Seed s !! Z.to_nat i = Some e /\ Seed_init !! Z.to_nat i = Some e0 /\
    table e = table e0 /\ boundary e = boundary e0.
Proof.
  intros Hl Hi.
  assert (Hlen : length (Seed s) = 48%nat).
  { apply (f_equal length) in Hl. unfold layout in Hl. rewrite !length_map in Hl. exact Hl. }
  destruct (lookup_lt_is_Some_2 (Seed s) (Z.to_nat i)) as [e He]; [lia|].
  destruct (lookup_lt_is_Some_2 Seed_init (Z.to_nat i)) as [e0 He0]; [change (length Seed_init) with 48%nat; lia|].
  exists e, e0. split; [exact He|]. split; [exact He0|].
  apply (f_equal (fun l => l !! Z.to_nat i)) in Hl. unfold layout in Hl.
  rewrite !lookup_map, He, He0 in Hl. cbn in Hl. injection Hl as Ht Hb. now split.
Qed.

Lemma boundary_init i e : Seed_init !! i = Some e -> 0 <= boundary e < 2200.
Proof.
  intros He.
  assert (Hall : forallb (fun e => (0 <=? boundary e) && (boundary e <? 2200)) Seed_init = true)
    by reflexivity.
  rewrite forallb_forall in Hall. specialize (Hall e).
  rewrite andb_true_iff, Z.leb_le, Z.ltb_lt in Hall. apply Hall.
  apply list_elem_of_In, list_elem_of_lookup. eauto.
Qed.

(** A row of draws [l], as seen between rows. *)
Lemma row_seeds_env {c} t s d l :
  row_env_in c t s -> tdefs s !! Z.to_nat (row_table t) = Some d -> Z.of_nat (length l) < nM ->
  let s' := row_seeds (row_table t) (child d) l (Seed s) in
  seeds_ok s' /\ layout s' = layout (Seed s) /\
  forall i, 0 <= i < 48 ->
    option_map value (s' !! Z.to_nat i) = Some (rng_steps (row_adv_in c t i l) (val s i)).
Proof.
  intros [Hok Hlay Hset (d' & Hd' & Hchild)] Hd Hl. rewrite Hd in Hd'. injection Hd' as <-. cbv zeta.
  rewrite Hchild.
  assert (Hlook : forall i, 0 <= i < 48 -> exists e e0, Seed s !! Z.to_nat i = Some e /\
    Seed_init !! Z.to_nat i = Some e0 /\ table e = table e0 /\ boundary e = boundary e0 /\
    row_seeds (row_table t) c l (Seed s) !! Z.to_nat i =
      Some (row_seed (row_table t) c i l e) /\
    value (row_seed (row_table t) c i l e) = rng_steps (row_adv_in c t i l) (val s i)).
  { intros i Hi. destruct (layout_at s i Hlay Hi) as (e & e0 & He & He0 & Ht & Hb).
    exists e, e0. split_and!; try assumption.
    - pose proof (boundary_init _ _ He0). apply row_seeds_lookup; try assumption; [|unfold nM in *; lia].
      destruct Hok as [_ Hall]. rewrite Forall_lookup in Hall. exact (Hall _ _ He).
    - unfold row_seed, row_adv_in, accounted, val, seed_at. rewrite He, He0, Ht, Hb. cbn [value].
      change (default (mk_seed NONE 0 0 0) (Some e)) with e. destruct ((table e0 =? _) || _); reflexivity. }
  assert (Hlen : length (row_seeds (row_table t) c l (Seed s)) = 48%nat).
  { unfold row_seeds. rewrite length_map. apply seeds_ok_draws. destruct Hok as [H1 H2]. split.
    - now rewrite length_map.
    - apply List.Forall_map. exact H2. }
  assert (Hbnd : forall k e', row_seeds (row_table t) c l (Seed s) !! k = Some e' ->
    exists i, k = Z.to_nat i /\ 0 <= i < 48).
  { intros k e' Hk. apply lookup_lt_Some in Hk. exists (Z.of_nat k). lia. }
  split_and!.
  - split; [exact Hlen|]. apply Forall_lookup. intros k e' Hk.
    destruct (Hbnd _ _ Hk) as (i & -> & Hi). destruct (Hlook i Hi) as (e & e0 & He & _ & _ & _ & Hr & Hv).
    rewrite Hr in Hk. injection Hk as <-. rewrite Hv. apply rng_steps_ok, seed_at_ok; [exact Hok|lia].
  - apply list_eq. intros k. unfold layout. rewrite !lookup_map.
    destruct (decide (k < 48)%nat).
    + destruct (Hlook (Z.of_nat k) ltac:(lia)) as (e & e0 & He & _ & _ & _ & Hr & _).
      rewrite Nat2Z.id in *. now rewrite He, Hr.
    + destruct Hok as [Hls _]. rewrite !lookup_ge_None_2 by lia. reflexivity.
  - intros i Hi. destruct (Hlook i Hi) as (e & e0 & _ & _ & _ & _ & Hr & Hv). rewrite Hr. exact (f_equal Some Hv).
Qed.

(** ** The interface of a row builder *)

(** The streams [S] the builder's row is a function of, up to [same]; each moves by [adv]
    in every row. [idx] relates the row numbers for which the rows are the same. *)
Class RowBuilder_in {A} (c t : Z) (mk : Z -> M A) (S : list Z) (adv : Z -> nat)
    (idx : Z -> Z -> Prop) (same : A -> A -> Prop) (env : st -> Prop) : Prop := {
  rb_range : forall i, In i S -> 0 <= i < 48;
  rb_env : forall l s s', env s -> drew l s s' -> env s';
  rb_env_seed : forall f s, env s -> env (set_Seed f s);
  rb_runs : forall n s, seeds_ok (Seed s) -> env s ->
    wp (mk n) (fun x s' => exists l, drew l s s' /\ Z.of_nat (length l) < nM /\
      forall i, In i S -> row_adv_in c t i l = adv i) s;
  rb_rel : forall n m s1 s2, idx n m -> env s1 -> env s2 -> agree S s1 s2 ->
    rwp (mk n) (mk m) (fun a b _ _ => same a b) s1 s2;
}.

Section Builder.
Context {A} {c : Z} (t : Z) (mk : Z -> M A) (S : list Z) (adv : Z -> nat) (idx : Z -> Z -> Prop)
  (same : A -> A -> Prop) (env : st -> Prop) `{HB : !RowBuilder_in c t mk S adv idx same env}.

Definition zero_usage : list seed_t -> list seed_t := map (with_usage (fun _ => 0)).

Lemma zero_usage_ok l : seeds_ok l -> seeds_ok (zero_usage l).
Proof.
  intros [Hlen Hall]. split; [unfold zero_usage; now rewrite length_map|]. apply List.Forall_map. exact Hall.
Qed.

Lemma val_zero s i : val (set_Seed zero_usage s) i = val s i.
Proof.
  unfold val, seed_at. cbn [Seed set_Seed]. unfold zero_usage. rewrite lookup_map.
  destruct (Seed s !! Z.to_nat i); reflexivity.
Qed.

(** The state after a row and the next one. *)
Record moved_in (k : nat) (s s' : st) : Prop := mk_moved {
  mv_env : row_env_in c t s';
  mv_benv : env s';
  mv_glob : glob s' = glob s;
  mv_tdefs : tdefs s' = tdefs s;
  mv_val : forall i, In i S -> val s' i = rng_steps (k * adv i) (val s i);
}.

Lemma gen_row_moved n s :
  row_env_in c t s -> env s -> wp (gen_row t mk n) (fun _ s' => moved_in 1 s s') s.
Proof.
  intros He Henv. pose proof He as [Hok Hlay Hset (d & Hd & Hchild)].
  unfold gen_row. apply wp_bind. unfold wp at 1. rewrite row_start_eq. cbn beta iota.
  apply wp_bind. fold zero_usage.
  eapply wp_mono; [apply rb_runs; [now apply zero_usage_ok|now apply rb_env_seed]|].
  intros x s1 (l & Hdr & Hl & Hadv).
  assert (Hs1 : Seed s1 = draw_seeds l (zero_usage (Seed s))) by apply Hdr.
  pose proof (drew_glob _ _ _ Hdr) as Hg. pose proof (drew_tdefs _ _ _ Hdr) as Ht.
  cbn [glob tdefs set_Seed] in Hg, Ht.
  apply wp_bind. unfold wp at 1. rewrite (row_stop_eq t s1 d) by (rewrite ?Ht, ?Hg; assumption).
  apply wp_ret. destruct (row_seeds_env t s d l He Hd Hl) as (Rok & Rlay & Rval).
  assert (HS : Seed (set_Seed (map (row_stop_seed 0 (row_table t) (child d))) s1) =
    row_seeds (row_table t) (child d) l (Seed s)) by (cbn [Seed set_Seed]; now rewrite Hs1).
  split.
  - split; rewrite ?HS; try assumption.
    + now rewrite Rlay.
    + cbn [glob set_Seed]. now rewrite Hg.
    + exists d. cbn [tdefs set_Seed]. now rewrite Ht.
  - apply rb_env_seed. eapply rb_env; [|exact Hdr]. now apply rb_env_seed.
  - exact Hg.
  - exact Ht.
  - intros i Hi. specialize (Rval i (rb_range i Hi)). rewrite (Hadv i Hi) in Rval.
    unfold val at 1, seed_at. rewrite HS. destruct (_ !! Z.to_nat i); [|done].
    cbn in Rval. injection Rval as Rval. cbn. rewrite Nat.add_0_r. exact Rval.
Qed.

Lemma moved_refl s : row_env_in c t s -> env s -> moved_in 0 s s.
Proof. intros He Hb. now split. Qed.

Lemma moved_trans j k s1 s2 s3 : moved_in j s1 s2 -> moved_in k s2 s3 -> moved_in (j + k) s1 s3.
Proof.
  intros [A1 A2 A3 A4 A5] [B1 B2 B3 B4 B5]. split; try assumption; try congruence.
  intros i Hi. rewrite B5, A5 by exact Hi. rewrite <- rng_steps_add. f_equal. lia.
Qed.

(** Serial generation of [n] rows. *)
Lemma gen_rows_moved n : forall start s,
  row_env_in c t s -> env s ->
  wp (gen_rows t mk n start) (fun L s' => length L = n /\ moved_in n s s') s.
Proof.
  induction n as [|n IH]; intros start s He Hb; unfold gen_rows; cbn [for_list].
  - apply wp_ret. split; [reflexivity|now apply moved_refl].
  - apply wp_bind. eapply wp_mono; [now apply gen_row_moved|]. intros x s1 Hm1.
    apply wp_bind. eapply wp_mono; [apply IH; apply Hm1|]. intros L s2 [Hlen Hm2].
    apply wp_ret. split; [cbn; lia|]. exact (moved_trans 1 n s s1 s2 Hm1 Hm2).
Qed.

(** Agreement on [S] between rows. *)
Record lockstep_in (s1 s2 : st) : Prop := mk_lockstep {
  ls_env1 : row_env_in c t s1; ls_env2 : row_env_in c t s2; ls_b1 : env s1; ls_b2 : env s2;
  ls_glob : glob s1 = glob s2; ls_tdefs : tdefs s1 = tdefs s2;
  ls_val : forall i, In i S -> val s1 i = val s2 i;
}.

Lemma lockstep_row n m s1 s2 :
  idx n m -> lockstep_in s1 s2 ->
  exists x y s1' s2', gen_row t mk n s1 = Ok x s1' /\ gen_row t mk m s2 = Ok y s2' /\
    same x y /\ lockstep_in s1' s2'.
Proof.
  intros Hnm [E1 E2 B1 B2 Hg Ht Hv].
  pose proof (gen_row_moved n s1 E1 B1) as W1. pose proof (gen_row_moved m s2 E2 B2) as W2.
  assert (Hsame : rwp (gen_row t mk n) (gen_row t mk m) (fun a b _ _ => same a b) s1 s2).
  { unfold gen_row. apply rwp_bind. unfold rwp at 1. rewrite !row_start_eq. apply rwp_bind.
    fold zero_usage. assert (HR := rb_rel n m (set_Seed zero_usage s1) (set_Seed zero_usage s2) Hnm
      (rb_env_seed _ _ B1) (rb_env_seed _ _ B2)).
    assert (Ha : agree S (set_Seed zero_usage s1) (set_Seed zero_usage s2)).
    { split; try assumption; cbn [Seed set_Seed]; try (apply zero_usage_ok; apply E1 || apply E2).
      intros i Hi _. rewrite !val_zero. now apply Hv. }
    specialize (HR Ha). unfold rwp in *.
    destruct (mk n (set_Seed zero_usage s1)) as [x a|], (mk m (set_Seed zero_usage s2)) as [y b|]; try done.
    unfold bind. destruct (row_stop t a), (row_stop t b); done. }
  unfold wp in W1, W2. unfold rwp in Hsame.
  destruct (gen_row t mk n s1) as [x a|] eqn:Ex; [|done]. destruct (gen_row t mk m s2) as [y b|] eqn:Ey; [|done].
  exists x, y, a, b. split_and!; [reflexivity|reflexivity|exact Hsame|].
  destruct W1 as [V1 V2 V3 V4 V5], W2 as [U1 U2 U3 U4 U5]. split; try assumption; try congruence.
  intros i Hi. rewrite V5, U5 by exact Hi. now rewrite (Hv i Hi).
Qed.

Lemma lockstep_rows n : forall start start' s1 s2,
  (forall j, 0 <= j < Z.of_nat n -> idx (start + j) (start' + j)) -> lockstep_in s1 s2 ->
  exists L1 L2 s1' s2', gen_rows t mk n start s1 = Ok L1 s1' /\ gen_rows t mk n start' s2 = Ok L2 s2' /\
    Forall2 same L1 L2 /\ lockstep_in s1' s2'.
Proof.
  induction n as [|n IH]; intros start start' s1 s2 Hidx Hl; unfold gen_rows; cbn [for_list].
  - exists [], [], s1, s2. split_and!; try reflexivity; [constructor|exact Hl].
  - assert (H0 : idx start start') by (rewrite <- (Z.add_0_r start), <- (Z.add_0_r start'); apply Hidx; lia).
    destruct (lockstep_row start start' s1 s2 H0 Hl) as (x & y & a & b & Hx & Hy & Hs & Hl1).
    destruct (IH (start + 1) (start' + 1) a b) as (L1 & L2 & a' & b' & H1 & H2 & HF & Hl2); [|exact Hl1|].
    { intros j Hj. rewrite <- !Z.add_assoc. apply Hidx. lia. }
    unfold gen_rows in H1, H2. unfold bind. rewrite Hx, Hy, H1, H2.
    exists (x :: L1), (y :: L2), a', b'. split_and!; try reflexivity; [now constructor|exact Hl2].
Qed.

Lemma for_list_app {B} (f : Z -> M B) k m : forall start s,
  for_list (k + m) start f s =
  (L1 <- for_list k start f;; L2 <- for_list m (start + Z.of_nat k) f;; ret (L1 ++ L2)) s.
Proof.
  induction k as [|k IH]; intros start s; cbn [Nat.add for_list].
  - unfold bind, ret. replace (start + Z.of_nat 0) with start by lia.
    destruct (for_list m start f s); reflexivity.
  - unfold bind, ret in *. destruct (f start s) as [x s1|]; [|reflexivity]. rewrite IH.
    replace (start + 1 + Z.of_nat k) with (start + Z.of_nat (Datatypes.S k)) by lia.
    destruct (for_list k (start + 1) f s1) as [L1 s2|]; [|reflexivity].
    destruct (for_list m _ f s2); reflexivity.
Qed.

(** The rows of a chunk: a skip of [k] rows, then [m] rows from row [k + 1], against one
    serial run. *)
Lemma chunk_rows (skip : M Z) k m s :
  row_env_in c t s -> env s -> (forall i, idx i i) ->
  wp skip (fun _ s' => moved_in k s s') s ->
  exists L1 L2 L2' s1 s2,
    gen_rows t mk (k + m) 1 s = Ok (L1 ++ L2) s1 /\ length L1 = k /\ length L2 = m /\
    (skip;; gen_rows t mk m (1 + Z.of_nat k)) s = Ok L2' s2 /\ Forall2 same L2 L2'.
Proof.
  intros He Hb Hidx Hskip. pose proof (gen_rows_moved k 1 s He Hb) as W1.
  unfold wp in W1, Hskip. destruct (gen_rows t mk k 1 s) as [L1 a|] eqn:E1; [|done].
  destruct (skip s) as [z b|] eqn:E2; [|done]. destruct W1 as [Hlen [V1 V2 V3 V4 V5]].
  destruct Hskip as [U1 U2 U3 U4 U5].
  assert (Hl : lockstep_in a b).
  { split; try assumption; try congruence. intros i Hi. now rewrite V5, U5. }
  pose proof (gen_rows_moved m (1 + Z.of_nat k) a V1 V2) as W2. unfold wp in W2.
  destruct (lockstep_rows m (1 + Z.of_nat k) (1 + Z.of_nat k) a b) as (L2 & L2' & a' & b' & H1 & H2 & HF & _);
    [intros; apply Hidx|exact Hl|].
  rewrite H1 in W2. destruct W2 as [Hlen2 _].
  exists L1, L2, L2', a', b'. split_and!; try assumption.
  - unfold gen_rows in *. rewrite for_list_app. unfold bind. rewrite E1, H1. reflexivity.
  - unfold bind. rewrite E2. exact H2.
Qed.
End Builder.
Arguments moved_in : clear implicits.
Arguments lockstep_in : clear implicits.

(** Tables without a child. *)
Abbreviation row_env := (row_env_in NONE).
Abbreviation row_adv := (row_adv_in NONE).
Abbreviation RowBuilder := (RowBuilder_in NONE).
Abbreviation moved := (moved_in NONE).
Abbreviation lockstep := (lockstep_in NONE).

(** ** Skipping rows *)

(** How far the advances [l] (stream and count) move stream [i]: [NthElement] drops the
    bits of a count from the 31st on. *)
Definition total (i : Z) (l : list (Z * Z)) : Z :=
  fold_right (fun p acc => (if fst p =? i then snd p mod 2 ^ 31 else 0) + acc) 0 l.

(** [s] differs from [s0] by the advances [l] of its streams. *)
Record skipped (l : list (Z * Z)) (s0 s : st) : Prop := mk_skipped {
  sk_only : s = set_Seed (fun _ => Seed s) s0;
  sk_ok : seeds_ok (Seed s);
  sk_layout : layout (Seed s) = layout (Seed s0);
  sk_val : forall i, 0 <= i < 48 -> val s i = rng_steps (Z.to_nat (total i l)) (val s0 i);
}.

Lemma total_nonneg i l : 0 <= total i l.
Proof.
  induction l as [|p l IH]; cbn [total fold_right]; [lia|]. fold (total i l).
  pose proof (Z.mod_pos_bound (snd p) (2 ^ 31) ltac:(lia)). destruct (fst p =? i); lia.
Qed.

Lemma total_app i l1 l2 : total i (l1 ++ l2) = total i l1 + total i l2.
Proof. induction l1 as [|p l1 IH]; [reflexivity|]. cbn [app total fold_right]. fold (total i (l1 ++ l2)) (total i l1). lia. Qed.

Lemma skipped_nil s : seeds_ok (Seed s) -> skipped [] s s.
Proof. intros Hok. split; [now destruct s|exact Hok|reflexivity|reflexivity]. Qed.

Lemma val_alter j f s i :
  length (Seed s) = 48%nat -> 0 <= i < 48 -> 0 <= j < 48 ->
  val (upd_seed j (with_value f) s) i = if j =? i then f (val s i) else val s i.
Proof.
  intros Hlen Hi Hj. unfold val, seed_at, upd_seed. cbn [Seed set_Seed].
  destruct (lookup_lt_is_Some_2 (Seed s) (Z.to_nat i)) as [e He]; [lia|].
  destruct (Z.eqb_spec j i) as [->|Hne].
  - rewrite list_lookup_alter_eq, He. reflexivity.
  - rewrite list_lookup_alter_ne by lia. reflexivity.
Qed.

Lemma layout_alter j f l : layout (alter (with_value f) j l) = layout l.
Proof.
  apply list_eq. intros k. unfold layout. rewrite !lookup_map.
  destruct (decide (j = k)) as [->|]; [|now rewrite list_lookup_alter_ne].
  rewrite list_lookup_alter_eq. destruct (l !! k); reflexivity.
Qed.

Lemma wp_advance i n l s0 (Q : unit -> st -> Prop) s :
  skipped l s0 s -> 0 <= i < 48 -> 0 <= n ->
  (forall s', skipped (l ++ [(i, n)]) s0 s' -> Q tt s') ->
  wp (ADVANCE_STREAM i n) Q s.
Proof.
  intros [Ho [Hlen Hall] Hlay Hval] Hi Hn HQ. unfold ADVANCE_STREAM. apply wp_modify, HQ.
  assert (Hstep : forall j, 0 <= j < 48 -> val (upd_seed i (with_value (NthElement n)) s) j =
    if i =? j then rng_steps (Z.to_nat (n mod 2 ^ 31)) (val s j) else val s j).
  { intros j Hj. rewrite val_alter by done. destruct (Z.eqb_spec i j); [|reflexivity].
    apply NthElement_nonneg; [|exact Hn]. apply seed_at_ok; [now split|exact Hj]. }
  split.
  - rewrite Ho at 1. reflexivity.
  - split; [cbn; now rewrite length_alter|]. apply Forall_alter_id; [|exact Hall]. intros e He.
    cbn [value with_value]. rewrite NthElement_nonneg by assumption. now apply rng_steps_ok.
  - cbn [Seed upd_seed set_Seed]. now rewrite layout_alter.
  - intros j Hj. rewrite Hstep, Hval, total_app by exact Hj. pose proof (total_nonneg j l).
    pose proof (Z.mod_pos_bound n (2 ^ 31) ltac:(lia)).
    cbn [total fold_right fst snd]. destruct (i =? j); [|do 2 f_equal; lia].
    rewrite <- rng_steps_add. f_equal. lia.
Qed.

(** [FAKE_V_STR] advances by the boundary of the stream in rnd.h. *)
Lemma wp_FAKE_V_STR i k b l s0 (Q : unit -> st -> Prop) s :
  skipped l s0 s -> layout (Seed s0) = layout Seed_init -> 0 <= i < 48 ->
  boundary <$> (Seed_init !! Z.to_nat i) = Some b -> 0 <= b * k ->
  (forall s', skipped (l ++ [(i, b * k)]) s0 s' -> Q tt s') ->
  wp (FAKE_V_STR i k) Q s.
Proof.
  intros Hs Hlay Hi Hb Hn HQ. unfold FAKE_V_STR. apply wp_bind, wp_gets.
  destruct (layout_at s i) as (e & e0 & He & He0 & _ & Hbe); [rewrite (sk_layout _ _ _ Hs); exact Hlay|exact Hi|].
  unfold seed_at. rewrite He. rewrite He0 in Hb. injection Hb as <-.
  change (boundary (default _ (Some e))) with (boundary e). rewrite Hbe.
  eapply wp_advance; eassumption.
Qed.

(** A skip of [k] rows, from the advances it makes. *)
Lemma skipped_moved {c} S adv env t k l s s' :
  (forall f s, env s -> env (set_Seed f s)) -> (forall i, In i S -> 0 <= i < 48) ->
  row_env_in c t s -> env s -> skipped l s s' ->
  (forall i, In i S -> total i l = Z.of_nat (k * adv i)) ->
  moved_in c t S adv env k s s'.
Proof.
  intros Henv Hrange [Hok Hlay Hset Hd] Hb [Ho Hok' Hlay' Hval] Htot.
  split; try (rewrite Ho; reflexivity).
  - split; [exact Hok'|congruence|rewrite Ho; exact Hset|rewrite Ho; exact Hd].
  - rewrite Ho. now apply Henv.
  - intros i Hi. rewrite Hval by now apply Hrange. rewrite Htot by exact Hi. now rewrite Nat2Z.id.
Qed.
