(* ===== verification/Config.v ===== *)
(** Configuration: the environment ([env_config]) and the distribution file ([read_dist],
    [load_dists]) of bm_utils.c and driver.c. The environment variables and the contents of
    the files read are parameters. *)
From S2P Require Import Prelude CString Float64 State Consts Streams Dist Build.

(** ** C library: [fgets], [strtok], [sscanf] *)

Definition nl : ascii := ascii_of_nat 10.

(** [fgets(line, n + 1, fp)]: at most [n] characters, up to and with a newline. *)
Fixpoint fgets_chars (n : nat) (s : string) : string * string :=
  match n, s with
  | O, _ => ("", s)
  | _, EmptyString => ("", "")
  | S n, String c s' =>
      if Ascii.eqb c nl then (String c "", s')
      else let '(l, r) := fgets_chars n s' in (String c l, r)
  end.

(** The lines successive calls return; every call consumes a character. *)
Fixpoint fgets_all (fuel n : nat) (s : string) : list string :=
  match fuel, s with
  | S fuel, String _ _ => let '(l, r) := fgets_chars n s in l :: fgets_all fuel n r
  | _, _ => []
  end.

(** [if ((c = strchr(line, ch)) != NULL) *c = '\0';] *)
Definition cut_at (c : ascii) (line : string) : string :=
  match strchr line c with Some i => take_s i line | None => line end.

(** [strtok]: skips the delimiters, takes the characters up to the next one. *)
Definition is_delim (delims : string) (c : ascii) : bool :=
  match strchr delims c with Some _ => true | None => false end.
Fixpoint skip_delims (delims s : string) : string :=
  match s with String c s' => if is_delim delims c then skip_delims delims s' else s | _ => s end.
Fixpoint take_token (delims s : string) : string * string :=
  match s with
  | EmptyString => ("", "")
  | String c s' =>
      if is_delim delims c then ("", s')
      else let '(t, r) := take_token delims s' in (String c t, r)
  end.
Definition strtok (s delims : string) : option (string * string) :=
  match skip_delims delims s with
  | EmptyString => None
  | s => Some (take_token delims s)
  end.

(** ["%ld"]: blanks, a sign, digits; values out of range are clamped. *)
Definition starts_digit (s : string) : bool :=
  match s with String c _ => is_digit c | EmptyString => false end.
Definition scan_ld (s : string) : option Z :=
  match skip_space s with
  | String "-" s => if starts_digit s then Some (clamp64 (- dec_value 0 s)) else None
  | String "+" s => if starts_digit s then Some (clamp64 (dec_value 0 s)) else None
  | s => if starts_digit s then Some (clamp64 (dec_value 0 s)) else None
  end.

(** [sscanf(line, "%[^|]|%ld", token, &weight) == 2] *)
Definition scan_member (line : string) : option (string * Z) :=
  match strchr line "|" with
  | None => None
  | Some i =>
      if i =? 0 then None
      else match scan_ld (drop_s (i + 1) line) with
           | Some weight => Some (take_s i line, weight)
           | None => None
           end
  end.

(** ** bm_utils.c *)

Definition dist_zero : distribution := mk_dist 0 0 [].

(** What one line does once the name is set: go on (with the target, the number of members
    stored and the number the allocated list has room for) or stop. A member beyond the room,
    or before any count line, is stored outside the list; a second count line abandons the
    members stored so far. *)
Inductive line_result :=
  | Next (target : distribution) (count room : Z)
  | Found (target : distribution)
  | Halt (why : stop).

Definition is_count (token : string) : bool := dsscasecmp token "count" =? 0.

(** [sizeof(set_member)], and the bytes [malloc] is asked for: a [size_t]. A request of
    [2^63] bytes or more is refused. *)
Definition SET_MEMBER_SIZE : Z := 16.
Definition list_bytes (weight : Z) : Z := wrap_u 64 (weight * SET_MEMBER_SIZE).

(** The count and the sum of the weights are [int]s, the [long] weight read is truncated on
    its way into them; a member's own [long] weight is the sum up to it. *)
Definition read_member (line : string) (target : distribution) (n room : Z) : line_result :=
  match scan_member line with
  | None => Next target n room
  | Some (token, weight) =>
      if is_count token then
        if 2 ^ 63 <=? list_bytes weight then Halt (Exited 1)
        else if negb (n =? 0) then Halt (Undefined "list replaced")
        else Next (mk_dist (wrap_s 32 weight) 0 []) n (list_bytes weight /c SET_MEMBER_SIZE)
      else if n <? room then
        let max := wrap_s 32 (max target + weight) in
        Next (mk_dist (count target) max (dlist target ++ [mk_member max token])) (n + 1) room
      else Halt (Undefined "target->list[count]")
  end.

Definition blanks : string := String nl (String (ascii_of_nat 9) " ").

(** Does the line set the name: is it [BEGIN] and the name? [None] is a [strtok] that
    returns [NULL], which [dsscasecmp] reads. *)
Definition begin_line (line name : string) : option bool :=
  match strtok line blanks with
  | None => None
  | Some (t1, rest) =>
      if negb (dsscasecmp t1 "BEGIN" =? 0) then Some false
      else match strtok rest blanks with
           | None => None
           | Some (t2, _) => Some (dsscasecmp t2 name =? 0)
           end
  end.

(** The body of the [while (fgets(...))] loop. *)
Fixpoint read_lines (lines : list string) (name : string) (name_set : bool)
    (target : distribution) (n room : Z) : line_result :=
  match lines with
  | [] => Next target n room
  | line :: lines =>
      let line := cut_at "#" (cut_at nl line) in
      if String.eqb line "" then read_lines lines name name_set target n room
      else if negb name_set then
        match begin_line line name with
        | None => Halt (Undefined "dsscasecmp(NULL)")
        | Some b => read_lines lines name b target n room
        end
      else if dssncasecmp line "END" 3 =? 0 then Found target
      else
        match read_member line target n room with
        | Next target n room => read_lines lines name true target n room
        | r => r
        end
  end.

(** The lines of a file, as [fgets(line, 256, fp)] returns them. *)
Definition file_lines (text : string) : list string := fgets_all (String.length text) 255 text.

Section Config.
Context (getenv : string -> option string) (file_text : string -> option string).

(** [char *env_config(char *var, char *dflt)] *)
Definition env_config (var dflt : string) : string :=
  match getenv var with Some evar => evar | None => dflt end.

(** [void read_dist(char *path, char *name, distribution *target)] on a target that is
    zero. *)
Definition read_dist (path name : string) : M distribution :=
  d_path <- gets d_path;;
  line <- (match d_path with
           | None =>
               let line := env_config CONFIG_TAG CONFIG_DFLT +:+ "/" +:+ path in
               if 256 <=? strlen line then stop_with (Undefined "line") else ret line
           | Some d_path => ret d_path
           end);;
  match file_text line with
  | None => stop_with (Exited 1)
  | Some text =>
      match read_lines (file_lines text) name false dist_zero 0 0 with
      | Found target => ret target
      | Halt why => stop_with why
      | Next target n _ => if negb (n =? count target) then stop_with (Exited 1) else ret target
      end
  end.

(** [void load_dists(void)] *)
Definition load_dists : M dists :=
  let read name := read_dist (env_config DIST_TAG DIST_DFLT) name in
  p_cntr_set <- read "p_cntr";;
  colors <- read "colors";;
  p_types_set <- read "p_types";;
  nations <- read "nations";;
  regions <- read "regions";;
  o_priority_set <- read "o_oprio";;
  l_instruct_set <- read "instruct";;
  l_smode_set <- read "smode";;
  l_category_set <- read "category";;
  l_rflag_set <- read "rflag";;
  c_mseg_set <- read "msegmnt";;
  nouns <- read "nouns";;
  verbs <- read "verbs";;
  adjectives <- read "adjectives";;
  adverbs <- read "adverbs";;
  auxillaries <- read "auxillaries";;
  terminators <- read "terminators";;
  articles <- read "articles";;
  prepositions <- read "prepositions";;
  grammar <- read "grammar";;
  np <- read "np";;
  vp <- read "vp";;
  ret (mk_dists p_cntr_set colors p_types_set nations regions o_priority_set l_instruct_set
         l_smode_set l_category_set l_rflag_set c_mseg_set nouns verbs adjectives adverbs
         auxillaries terminators articles prepositions grammar np vp).
End Config.

(** ** Reading back a decimal *)

Lemma dec_value_digits l : forall a s,
  Forall (fun d => 0 <= d < 10) l ->
  dec_value a (fold_left (fun acc d => String (digit_char d) acc) l s) =
  dec_value (a * 10 ^ Z.of_nat (length l) + digits_val 10 l) s.
Proof.
  induction l as [|d l IH]; intros a s Hl; cbn [fold_left length digits_val].
  - f_equal. change (10 ^ Z.of_nat 0) with 1. lia.
  - inversion Hl as [|? ? Hd Hl']; subst. rewrite IH by assumption. cbn [dec_value].
    unfold is_digit. rewrite digit_code by assumption.
    destruct (Z.leb_spec 48 (48 + d)), (Z.leb_spec (48 + d) 57); try lia. cbn [andb].
    f_equal. rewrite Nat2Z.inj_succ, Z.pow_succ_r by lia. lia.
Qed.

Lemma dec_value_udec n : 0 <= n < 10 ^ 20 -> dec_value 0 (udec n) = n.
Proof.
  intros Hn. unfold udec, digits_string. rewrite dec_value_digits by (apply digits_of_bounds; lia).
  cbn [dec_value]. rewrite digits_of_val by lia. lia.
Qed.

Lemma starts_digits l : forall s,
  Forall (fun d => 0 <= d < 10) l -> l <> [] \/ starts_digit s = true ->
  starts_digit (fold_left (fun acc d => String (digit_char d) acc) l s) = true.
Proof.
  induction l as [|d l IH]; intros s Hl Hs; cbn [fold_left]; [now destruct Hs|].
  inversion Hl as [|? ? Hd Hl']; subst. apply IH; [assumption|]. right. cbn [starts_digit].
  unfold is_digit. rewrite digit_code by assumption.
  destruct (Z.leb_spec 48 (48 + d)), (Z.leb_spec (48 + d) 57); lia || done.
Qed.

Lemma starts_udec n : starts_digit (udec n) = true.
Proof. apply starts_digits; [apply digits_of_bounds; lia|left; discriminate]. Qed.

(** On a string that starts with a digit there is no blank to skip and no sign. *)
Lemma scan_ld_digit s : starts_digit s = true -> scan_ld s = Some (clamp64 (dec_value 0 s)).
Proof.
  destruct s as [|c s]; [done|]. intros Hc. cbn [starts_digit] in Hc.
  destruct c as [[] [] [] [] [] [] [] []]; try discriminate Hc; reflexivity.
Qed.

(** [sscanf] of ["%ld"] reads back what [printf] of ["%ld"] writes. *)
Lemma scan_ld_fmt_d n : - 2 ^ 63 <= n < 2 ^ 63 -> scan_ld (fmt_d n) = Some n.
Proof.
  intros Hn. unfold fmt_d. destruct (Z.ltb_spec n 0).
  - assert (E : scan_ld (String "-" (udec (- n))) =
      if starts_digit (udec (- n)) then Some (clamp64 (- dec_value 0 (udec (- n)))) else None) by reflexivity.
    rewrite E, starts_udec, dec_value_udec by lia. unfold clamp64. f_equal. lia.
  - rewrite scan_ld_digit by apply starts_udec. rewrite dec_value_udec by lia. unfold clamp64. f_equal. lia.
Qed.

(** ** Lines of a file *)

(** Lines, each ended by a newline. *)
Fixpoint unlines (ls : list string) : string :=
  match ls with [] => "" | l :: ls => l +:+ String nl (unlines ls) end.

Lemma fgets_chars_line l : forall n r,
  all_chars (not_char nl) l = true -> (String.length l < n)%nat ->
  fgets_chars n (l +:+ String nl r) = (l +:+ String nl "", r).
Proof.
  induction l as [|c l IH]; intros [|n] r Hl Hn; cbn [String.length] in Hn; try lia.
  - rewrite !app_nil_s. cbn [fgets_chars]. now rewrite Ascii.eqb_refl.
  - cbn [all_chars] in Hl. rewrite andb_true_iff in Hl. destruct Hl as [Hc Hl].
    unfold not_char in Hc. rewrite negb_true_iff in Hc.
    rewrite !app_cons_s. cbn [fgets_chars]. rewrite Hc, IH by (assumption || lia). reflexivity.
Qed.

(** A line that [fgets(line, n + 1, fp)] returns whole. *)
Definition line_fits_in (n : nat) (l : string) : Prop := all_chars (not_char nl) l = true /\ strlen l < Z.of_nat n.
Definition line_fits : string -> Prop := line_fits_in 255.

Lemma length_app_nat a b : String.length (a +:+ b) = (String.length a + String.length b)%nat.
Proof. pose proof (length_app_s a b). unfold strlen in *. lia. Qed.

Lemma fgets_all_lines n ls : forall fuel,
  Forall (line_fits_in n) ls -> (String.length (unlines ls) <= fuel)%nat ->
  fgets_all fuel n (unlines ls) = map (fun l => l +:+ String nl "") ls.
Proof.
  induction ls as [|l ls IH]; intros fuel Hl Hf; cbn [unlines map] in *.
  - destruct fuel; reflexivity.
  - inversion Hl as [|? ? [Hnl Hlen] Hls]; subst. rewrite length_app_nat in Hf. cbn [String.length] in Hf.
    destruct fuel as [|fuel]; [lia|].
    assert (E : exists c s, l +:+ String nl (unlines ls) = String c s).
    { destruct l as [|c l]; [exists nl, (unlines ls)|exists c, (l +:+ String nl (unlines ls))]; reflexivity. }
    destruct E as (c & s & E). cbn [fgets_all]. rewrite E, <- E.
    rewrite fgets_chars_line by (assumption || unfold strlen in Hlen; lia). f_equal. apply IH; [assumption|lia].
Qed.

Lemma cut_none c l : all_chars (not_char c) l = true -> cut_at c l = l.
Proof. intros H. unfold cut_at. now rewrite strchr_none. Qed.

Lemma cut_nl l : all_chars (not_char nl) l = true -> cut_at nl (l +:+ String nl "") = l.
Proof. intros H. unfold cut_at. rewrite strchr_app by exact H. apply take_s_app. Qed.

(** ** Writing a distribution *)

(** The characters of a member: not the separators of the format. *)
Definition plain (c : ascii) : bool := not_char nl c && not_char "#" c && not_char "|" c.

Definition render_member (m : set_member) : string := text m +:+ "|" +:+ fmt_d (weight m).
Definition render_dist (name : string) (ms : list set_member) : list string :=
  ("BEGIN " +:+ name) :: ("COUNT|" +:+ fmt_d (Z.of_nat (length ms))) :: map render_member ms ++ ["END"].

(** The members with cumulated weights. *)
Fixpoint cumulate (acc : Z) (ms : list set_member) : list set_member :=
  match ms with
  | [] => []
  | m :: ms => mk_member (acc + weight m) (text m) :: cumulate (acc + weight m) ms
  end.
Definition weights (ms : list set_member) : Z := fold_right Z.add 0 (map weight ms).

Record member_ok (m : set_member) : Prop := mk_member_ok {
  mo_plain : all_chars plain (text m) = true;
  mo_len : 1 <= strlen (text m) <= 200;
  mo_count : is_count (text m) = false;
  mo_end : dssncasecmp (render_member m) "END" 3 <> 0;
  mo_weight : - 2 ^ 63 <= weight m < 2 ^ 63;
}.

(** A line before the distribution: blank, a comment, or not the start of it. *)
Definition skip_ok (name l : string) : Prop :=
  line_fits l /\ (cut_at "#" l = "" \/ begin_line (cut_at "#" l) name = Some false).

Definition name_char (c : ascii) : bool := negb (is_delim blanks c) && not_char "#" c.
Definition name_ok (name : string) : Prop :=
  all_chars name_char name = true /\ 1 <= strlen name <= 240 /\ dsscasecmp name name = 0.

(** ** Reading it back *)

Lemma num_chars n : all_chars plain (fmt_d n) = true.
Proof.
  assert (H : forall n, all_chars plain (udec n) = true).
  { intros k. unfold udec, digits_string. pose proof (digits_of_bounds 20 10 k ltac:(lia)) as Hb.
    assert (Hg : forall l s, Forall (fun d => 0 <= d < 10) l -> all_chars plain s = true ->
      all_chars plain (fold_left (fun acc d => String (digit_char d) acc) l s) = true).
    { induction l as [|d l IH]; intros s Hl Hs; cbn [fold_left]; [exact Hs|].
      inversion Hl as [|? ? Hd Hl']; subst. apply IH; [assumption|]. cbn [all_chars]. rewrite Hs, andb_true_r.
      assert (Hin : In d [0; 1; 2; 3; 4; 5; 6; 7; 8; 9]) by (cbn; lia).
      repeat (destruct Hin as [<-|Hin]; [reflexivity|]). destruct Hin. }
    apply Hg; [exact Hb|reflexivity]. }
  unfold fmt_d. destruct (n <? 0); [cbn [all_chars]; now rewrite H|apply H].
Qed.

Lemma fmt_d_len n : - 2 ^ 63 <= n < 2 ^ 63 -> 1 <= strlen (fmt_d n) <= 20.
Proof.
  intros Hn. unfold fmt_d. destruct (Z.ltb_spec n 0).
  - pose proof (udec_length (- n) 19 ltac:(lia) ltac:(lia)) as H1. unfold strlen in *. cbn [String.length]. lia.
  - pose proof (udec_length n 19 ltac:(lia) ltac:(lia)). lia.
Qed.

Lemma plain_not c l : all_chars plain l = true -> c = nl \/ c = "#"%char \/ c = "|"%char ->
  all_chars (not_char c) l = true.
Proof.
  intros H Hc. eapply all_chars_impl; [|exact H]. unfold plain. intros a. rewrite !andb_true_iff.
  intros [[H1 H2] H3]. destruct Hc as [-> | [-> | ->]]; assumption.
Qed.

Lemma scan_render tok n :
  all_chars plain tok = true -> 1 <= strlen tok -> - 2 ^ 63 <= n < 2 ^ 63 ->
  scan_member (tok +:+ "|" +:+ fmt_d n) = Some (tok, n).
Proof.
  intros Hp Hl Hn. unfold scan_member.
  change ("|" +:+ fmt_d n) with (String "|" (fmt_d n)).
  rewrite strchr_app by (apply plain_not; auto). destruct (Z.eqb_spec (strlen tok) 0); [lia|].
  assert (E : tok +:+ String "|" (fmt_d n) = (tok +:+ "|") +:+ fmt_d n) by now rewrite app_assoc_s.
  assert (El : strlen tok + 1 = strlen (tok +:+ "|")) by now rewrite length_app_s.
  rewrite El, E at 1. rewrite drop_s_app, scan_ld_fmt_d by exact Hn. now rewrite take_s_app.
Qed.

Lemma plain_sep tok n :
  all_chars plain tok = true ->
  all_chars (not_char nl) (tok +:+ "|" +:+ fmt_d n) = true /\
  all_chars (not_char "#") (tok +:+ "|" +:+ fmt_d n) = true.
Proof.
  intros Hp. pose proof (num_chars n) as Hn. rewrite !all_chars_app.
  rewrite !(plain_not _ tok) by auto. rewrite !(plain_not _ (fmt_d n)) by auto. split; reflexivity.
Qed.

Lemma render_fits tok n :
  all_chars plain tok = true -> strlen tok <= 200 -> - 2 ^ 63 <= n < 2 ^ 63 ->
  line_fits (tok +:+ "|" +:+ fmt_d n).
Proof.
  intros Hp Hl Hn. split; [apply plain_sep, Hp|]. pose proof (fmt_d_len n Hn).
  rewrite !length_app_s. change (strlen "|") with 1. lia.
Qed.

(** A line that is not empty, as the loop sees it. *)
Lemma read_line l lines name b target n room :
  all_chars (not_char nl) l = true -> all_chars (not_char "#") l = true -> l <> "" ->
  read_lines ((l +:+ String nl "") :: lines) name b target n room =
  if negb b then
    match begin_line l name with
    | None => Halt (Undefined "dsscasecmp(NULL)")
    | Some b => read_lines lines name b target n room
    end
  else if dssncasecmp l "END" 3 =? 0 then Found target
  else match read_member l target n room with
       | Next target n room => read_lines lines name true target n room
       | r => r
       end.
Proof.
  intros Hnl Hc Hne. cbn [read_lines]. rewrite cut_nl, cut_none by assumption.
  destruct (String.eqb_spec l ""); [done|reflexivity].
Qed.

Lemma app_nonempty a c b : a +:+ String c b <> "".
Proof. destruct a; discriminate. Qed.

Notation raw := (map (fun l => l +:+ String nl "")).

(** The sums of the weights fit an [int]. *)
Definition sums_fit (acc : Z) (ms : list set_member) : Prop :=
  Forall (fun m => in_s 32 (weight m)) (cumulate acc ms).

Lemma read_members ms : forall lines name N acc L n room,
  Forall member_ok ms -> sums_fit acc ms -> n + Z.of_nat (length ms) <= room ->
  read_lines (raw (map render_member ms ++ "END" :: lines)) name true (mk_dist N acc L) n room =
  Found (mk_dist N (acc + weights ms) (L ++ cumulate acc ms)).
Proof.
  induction ms as [|m ms IH]; intros lines name N acc L n room Hms Hsum Hn; cbn [map app length cumulate] in *.
  - cbn [weights map fold_right]. rewrite Z.add_0_r, app_nil_r. reflexivity.
  - inversion Hms as [|? ? [Hp Hlen Hc He Hw] Hms']; subst.
    inversion Hsum as [|? ? Hfit Hsum']; subst. cbn [weight] in Hfit.
    destruct (plain_sep (text m) (weight m) Hp) as [Hnl Hsh].
    rewrite read_line by (assumption || apply app_nonempty). cbn [negb].
    destruct (Z.eqb_spec (dssncasecmp (render_member m) "END" 3) 0); [done|].
    unfold read_member, render_member. rewrite scan_render, Hc by (assumption || lia). cbn [count].
    destruct (Z.ltb_spec n room); [|lia]. cbn [max dlist]. rewrite wrap_s_id by (assumption || lia).
    fold (render_member m). rewrite IH by (assumption || lia).
    unfold weights. cbn [map fold_right]. rewrite Z.add_assoc, <- app_assoc. reflexivity.
Qed.

(** The lines before are skipped. *)
Lemma read_skip before : forall lines name,
  Forall (skip_ok name) before ->
  read_lines (raw (before ++ lines)) name false dist_zero 0 0 = read_lines (raw lines) name false dist_zero 0 0.
Proof.
  induction before as [|l before IH]; intros lines name Hb; [reflexivity|].
  inversion Hb as [|? ? [[Hnl _] Hs] Hb']; subst. cbn [app map read_lines]. rewrite cut_nl by exact Hnl.
  destruct (String.eqb_spec (cut_at "#" l) ""); [now apply IH|].
  destruct Hs as [Hs|Hs]; [done|]. rewrite Hs. cbn [negb]. now apply IH.
Qed.

(** The line that sets the name. *)
Lemma skip_name name : all_chars name_char name = true -> name <> "" -> skip_delims blanks (" " +:+ name) = name.
Proof.
  intros H Hne. destruct name as [|c name]; [done|]. cbn [all_chars] in H. rewrite andb_true_iff in H.
  destruct H as [H _]. unfold name_char in H. rewrite andb_true_iff, negb_true_iff in H. destruct H as [H _].
  change (" " +:+ String c name) with (String " " (String c name)). cbn [skip_delims].
  change (is_delim blanks " ") with true. cbv iota. now rewrite H.
Qed.

Lemma take_name name : all_chars name_char name = true -> take_token blanks name = (name, "").
Proof.
  induction name as [|c name IH]; [done|]. cbn [all_chars take_token]. rewrite andb_true_iff.
  intros [Hc Hn]. unfold name_char in Hc. rewrite andb_true_iff, negb_true_iff in Hc.
  destruct Hc as [-> _]. now rewrite IH.
Qed.

Lemma begin_name name : name_ok name -> begin_line ("BEGIN " +:+ name) name = Some true.
Proof.
  intros (Hc & Hl & Hs). assert (Hne : name <> "") by (intros ->; change (strlen "") with 0 in Hl; lia).
  assert (E : strtok ("BEGIN " +:+ name) blanks = Some ("BEGIN", name)) by reflexivity.
  unfold begin_line. rewrite E. change (negb (dsscasecmp "BEGIN" "BEGIN" =? 0)) with false. cbv iota.
  assert (E2 : skip_delims blanks name = name).
  { pose proof (skip_name name Hc Hne) as H. change (" " +:+ name) with (String " " name) in H. exact H. }
  unfold strtok. rewrite E2. destruct name as [|c name]; [done|]. rewrite take_name by exact Hc. now rewrite Hs.
Qed.

Lemma name_chars name : name_ok name ->
  line_fits ("BEGIN " +:+ name) /\ all_chars (not_char "#") ("BEGIN " +:+ name) = true.
Proof.
  intros (Hc & Hl & _). unfold line_fits, line_fits_in. rewrite length_app_s, !all_chars_app. change (strlen "BEGIN ") with 6.
  assert (H1 : all_chars (not_char nl) name = true).
  { eapply all_chars_impl; [|exact Hc]. intros a. unfold name_char. rewrite andb_true_iff, negb_true_iff.
    intros [Ha _]. unfold not_char. rewrite negb_true_iff. destruct (Ascii.eqb_spec a nl) as [->|]; [discriminate Ha|done]. }
  assert (H2 : all_chars (not_char "#") name = true).
  { eapply all_chars_impl; [|exact Hc]. intros a. unfold name_char. rewrite andb_true_iff. tauto. }
  rewrite H1, H2. split; [split; [reflexivity|lia]|reflexivity].
Qed.

(** C25. [read_dist] is the inverse of the file format: from a file in which a distribution
    is written as BEGIN, its count, one member per line and END, after any lines that do not
    start it and before anything, it reads back the members in order with their weights
    cumulated, and their number and sum. The number and each of the sums are below [2^31]:
    the program keeps them in [int]s. *)
Theorem read_dist_roundtrip getenv file_text path name before ms after s :
  name_ok name -> Forall (skip_ok name) before -> Forall member_ok ms -> Forall line_fits after ->
  Z.of_nat (length ms) < 2 ^ 31 -> sums_fit 0 ms -> strlen (env_config getenv CONFIG_TAG CONFIG_DFLT +:+ "/" +:+ path) < 256 ->
  d_path s = None ->
  file_text (env_config getenv CONFIG_TAG CONFIG_DFLT +:+ "/" +:+ path) =
    Some (unlines (before ++ render_dist name ms ++ after)) ->
  read_dist getenv file_text path name s =
  Ok (mk_dist (Z.of_nat (length ms)) (weights ms) (cumulate 0 ms)) s.
Proof.
  intros Hn Hb Hms Ha HN Hsum Hpath Hd Hf. unfold read_dist, bind, gets. rewrite Hd.
  destruct (Z.leb_spec 256 (strlen (env_config getenv CONFIG_TAG CONFIG_DFLT +:+ "/" +:+ path))); [lia|].
  cbv beta iota delta [ret]. rewrite Hf. destruct (name_chars name Hn) as [Hfit Hsh].
  assert (Hcount : line_fits ("COUNT|" +:+ fmt_d (Z.of_nat (length ms))))
    by (apply (render_fits "COUNT"); [reflexivity|vm_compute; discriminate|lia]).
  unfold file_lines. rewrite fgets_all_lines; [|apply Forall_app; split; [|apply Forall_app; split]|reflexivity].
  - rewrite read_skip by exact Hb. unfold render_dist. cbn [map app].
    rewrite read_line; [|exact (proj1 Hfit)|exact Hsh|discriminate]. cbn [negb].
    rewrite begin_name by exact Hn. destruct (plain_sep "COUNT" (Z.of_nat (length ms)) eq_refl) as [C1 C2].
    rewrite read_line; [|exact C1|exact C2|discriminate]. cbn [negb].
    change (dssncasecmp ("COUNT|" +:+ fmt_d (Z.of_nat (length ms))) "END" 3 =? 0) with false. cbv iota.
    unfold read_member. change ("COUNT|" +:+ fmt_d (Z.of_nat (length ms)))
      with ("COUNT" +:+ "|" +:+ fmt_d (Z.of_nat (length ms))).
    rewrite scan_render; [|reflexivity|vm_compute; discriminate|lia]. change (is_count "COUNT") with true. cbv iota.
    assert (Eb : list_bytes (Z.of_nat (length ms)) = Z.of_nat (length ms) * SET_MEMBER_SIZE)
      by (unfold list_bytes, SET_MEMBER_SIZE; apply wrap_u_id; lia).
    rewrite Eb, Z.quot_mul, wrap_s_id by (discriminate || lia || (unfold in_s; lia)).
    destruct (Z.leb_spec (2 ^ 63) (Z.of_nat (length ms) * SET_MEMBER_SIZE)) as [Hbig|_];
      [unfold SET_MEMBER_SIZE in Hbig; lia|]. cbn [Z.eqb negb].
    rewrite <- app_assoc. cbn [app]. rewrite read_members by (assumption || lia). reflexivity.
  - eapply Forall_impl; [exact Hb|]. intros l [Hlf _]. exact Hlf.
  - unfold render_dist. constructor; [exact Hfit|]. constructor; [exact Hcount|]. apply Forall_app. split.
    + rewrite Forall_map. eapply Forall_impl; [exact Hms|]. intros m [? ? ? ? ?]. apply render_fits; lia || assumption.
    + repeat constructor.
  - exact Ha.
Qed.

Lemma read_dist_roundtrip_witness :
  read_dist (fun _ => None)
    (fun _ => Some (unlines (["# regions"; ""; "begin nations"] ++
       render_dist "regions" [mk_member 1 "AFRICA"; mk_member (-4) "MIDDLE EAST"] ++ ["trailer"])))
    "dists.dss" "regions" st_start =
  Ok (mk_dist 2 (-3) [mk_member 1 "AFRICA"; mk_member (-3) "MIDDLE EAST"]) st_start.
Proof.
  apply (read_dist_roundtrip (fun _ => None) _ "dists.dss" "regions" ["# regions"; ""; "begin nations"]
    [mk_member 1 "AFRICA"; mk_member (-4) "MIDDLE EAST"] ["trailer"] st_start);
    [ | | | |cbn [length]; lia| |reflexivity|reflexivity|reflexivity].
  - split; [reflexivity|split; [vm_compute; split; discriminate|reflexivity]].
  - constructor; [|constructor; [|constructor; [|constructor]]]; (split; [split; reflexivity|]);
      [left; reflexivity|left; reflexivity|right; reflexivity].
  - constructor; [|constructor; [|constructor]]; split; cbn [text weight]; try reflexivity; try lia;
      vm_compute; try split; discriminate.
  - constructor; [split; reflexivity|constructor].
  - constructor; [|constructor; [|constructor]]; unfold in_s; cbn [weight]; lia.
Defined.

(** A count of [2^32 + 1] members: the list has room for all of them, the [int] says one. *)
Example count_truncated :
  read_lines ["COUNT|4294967297"; "a|1"; "b|1"] "" true dist_zero 0 0 =
  Next (mk_dist 1 2 [mk_member 1 "a"; mk_member 2 "b"]) 2 4294967297.
Proof. reflexivity. Qed.
