(* ===== verification/Chunks.v ===== *)
(** Parallel generation: [set_state] of bm_utils.c, which splits a table between steps and
    skips the rows of the steps before, and the builders of the four SSBM tables as
    [RowBuilder]s. *)
From S2P Require Import Prelude CString Float64 Rng SpeedSeed State Consts Streams Dist Bcd2 Sparse Calendar Build RowSpec Relational Parallel Config Shipped.

(** ** bm_utils.c: [set_state] *)

(** Calling [tdefs[table].gen_seed]. *)
Definition call_gen_seed (f : sd_fn) (child skip_count : Z) : M Z :=
  match f with
  | Fsd_part => sd_part child skip_count
  | Fsd_supp => sd_supp child skip_count
  | Fsd_cust => sd_cust child skip_count
  | Fsd_line => sd_line child skip_count
  | Fsd_psupp => sd_psupp child skip_count
  | Fsd_order => sd_order child skip_count
  end.

(** The body of the loop over the steps before. *)
Definition skip_step (table rowcount : Z) : M unit :=
  s <- get;;
  d <- must "tdefs" (tdefs s !! Z.to_nat table);;
  (if table =? LINE then
     f <- must "gen_seed" (gen_seed d);; _ <- call_gen_seed f 1 rowcount;; ret tt
   else match gen_seed d with
        | Some f => _ <- call_gen_seed f 0 rowcount;; ret tt
        | None => ret tt
        end);;
  if negb (child d =? NONE) then
    c <- must "tdefs" (tdefs s !! Z.to_nat (child d));;
    f <- must "gen_seed" (gen_seed c);;
    _ <- call_gen_seed f 0 rowcount;; ret tt
  else ret tt.

(** [long set_state(int table, long sf, long procs, long step, long *extra_rows)]: the
    result, and what is stored through [extra_rows] ([None] when it is not assigned). The
    call for [step > procs] passes one argument to a function of two. *)
Definition set_state (table sf procs step : Z) : M (Z * option Z) :=
  if (sf =? 0) || (step =? 0) then ret (0, None)
  else
    s <- get;;
    d <- must "tdefs" (tdefs s !! Z.to_nat table);;
    if procs =? 0 then stop_with (Undefined "division by zero")
    else
      let rowcount := base d /c procs in
      if MAX_32B_SCALE <? sf /c procs
      then stop_with (Aborted "SCALE OVERFLOW. RE-RUN WITH MORE CHILDREN.")
      else
        let rowcount := rowcount * sf in
        let remainder := (base d %c procs) * sf in
        let rowcount := rowcount + remainder /c procs in
        let result := rowcount in
        for_loop (Z.to_nat (step - 1)) 0 (fun _ => skip_step table rowcount);;
        let extra_rows := remainder %c procs in
        if procs <? step then stop_with (Undefined "gen_seed called with one argument")
        else ret (result, Some extra_rows).

(** ** The builders *)

Lemma hits_repeat i j n : hits i (repeat j n) = if decide (drawn j = i) then n else 0%nat.
Proof.
  induction n as [|n IH]; cbn [repeat]; [destruct (decide _); reflexivity|].
  rewrite hits_cons, IH. destruct (decide (drawn j = i)); reflexivity.
Qed.

Lemma hits_lines i n : hits i (lines_draws n) = (n * hits i line_draws)%nat.
Proof. induction n as [|n IH]; cbn [lines_draws]; [reflexivity|]. rewrite hits_app, IH. lia. Qed.

(** Case analysis on a stream of a concrete list. *)
Ltac each_stream Hi := repeat (destruct Hi as [<-|Hi]; [|]); try destruct Hi.

(** A builder that only needs valid distributions. *)
Definition any_state (s : st) : Prop := True.

Definition cust_adv (i : Z) : nat := if i =? C_ADDR_SD then 9 else if i =? C_PHNE_SD then 3 else 1.
Definition supp_adv (i : Z) : nat := if i =? S_ADDR_SD then 9 else 1.
Definition part_adv (i : Z) : nat := if i =? P_NAME_SD then 92 else 1.
Definition order_adv (i : Z) : nat := if (i =? O_ODATE_SD) || (i =? O_LCNT_SD) then 1 else 7.

(** What an order needs: key ranges that are not empty, a refresh percentage that divides. *)
Definition order_env (upd_num : Z) (s : st) : Prop := scale_ok s /\ refresh_ok s upd_num.

Lemma order_env_drew upd l s s' : order_env upd s -> drew l s s' -> order_env upd s'.
Proof.
  intros [H1 H2] Hd. split; [eapply scale_ok_drew; eauto|].
  unfold refresh_ok in *. now rewrite (drew_glob _ _ _ Hd).
Qed.

Lemma order_env_seed upd f s : order_env upd s -> order_env upd (set_Seed f s).
Proof. exact id. Qed.

Section Builders.
Context (D : dists) (HD : dists_ok D).

#[export] Instance cust_builder :
  RowBuilder CUST (mk_cust D) cust_streams cust_adv eq same_customer any_state.
Proof.
  split; [|now intros|now intros| |].
  - intros i Hi. each_stream Hi; vm_compute; split; intros; discriminate || reflexivity.
  - intros n s Hok _. eapply (wp_mk_cust D HD); [exact Hok|apply drew_nil|].
    intros c k s' _ Hk Hd. eexists. split; [exact Hd|]. cbn [app]. split.
    + unfold cust_draws. rewrite !length_app, !repeat_length. cbn [length]. unfold nM. lia.
    + intros i Hi. each_stream Hi; reflexivity.
  - intros n m s1 s2 <- _ _ Ha. now apply rwp_mk_cust.
Qed.

#[export] Instance supp_builder :
  RowBuilder SUPP (mk_supp D) supp_streams supp_adv eq same_supplier any_state.
Proof.
  split; [|now intros|now intros| |].
  - intros i Hi. each_stream Hi; vm_compute; split; intros; discriminate || reflexivity.
  - intros n s Hok _. eapply (wp_mk_supp D HD); [exact Hok|apply drew_nil|].
    intros c k s' _ Hk Hd. eexists. split; [exact Hd|]. cbn [app]. split.
    + unfold supp_draws. rewrite !length_app, !repeat_length. cbn [length]. unfold nM. lia.
    + intros i Hi. each_stream Hi; reflexivity.
  - intros n m s1 s2 <- _ _ Ha. now apply rwp_mk_supp.
Qed.

#[export] Instance part_builder :
  RowBuilder PART (mk_part D) part_streams part_adv eq same_part any_state.
Proof.
  destruct (ok_colors D HD) as [Hc _]. split; [|now intros|now intros| |].
  - intros i Hi. each_stream Hi; vm_compute; split; intros; discriminate || reflexivity.
  - intros n s Hok _. eapply (wp_mk_part D); [exact HD|exact Hok|apply drew_nil|].
    intros c s' _ Hd. eexists. split; [exact Hd|]. cbn [app]. split.
    + unfold part_draws. rewrite length_app, repeat_length. cbn [length]. unfold nM. lia.
    + intros i Hi. each_stream Hi; reflexivity.
  - intros n m s1 s2 <- _ _ Ha. apply rwp_mk_part; [exact Ha|lia].
Qed.

Lemma order_draws_length n : length (order_draws n) = (5 + 7 * n)%nat.
Proof.
  unfold order_draws. rewrite length_app. cbn [length]. f_equal.
  induction n as [|n IH]; cbn [lines_draws]; [reflexivity|]. rewrite length_app, IH.
  change (length line_draws) with 7%nat. lia.
Qed.

Lemma hits_order i n : hits i (order_draws n) =
  (hits i [O_ODATE_SD; O_CKEY_SD; O_PRIO_SD; O_CLRK_SD; O_LCNT_SD] + n * hits i line_draws)%nat.
Proof. unfold order_draws. now rewrite hits_app, hits_lines. Qed.

#[export] Instance order_builder upd :
  RowBuilder LINE (fun i => mk_order D i upd) order_streams order_adv eq same_order (order_env upd).
Proof.
  split.
  - intros i Hi. each_stream Hi; vm_compute; split; intros; discriminate || reflexivity.
  - intros l s s'. apply order_env_drew.
  - apply order_env_seed.
  - intros n s Hok [Hsc Href]. eapply (wp_mk_order D); [exact HD|exact Hok|apply drew_nil|exact Hsc|exact Href|].
    intros o s' Ho Hd. eexists. split; [exact Hd|]. cbn [app]. split.
    + rewrite order_draws_length. destruct (ook_lines _ _ _ _ _ Ho) as [Hl _]. unfold nM. lia.
    + intros i Hi. each_stream Hi; try reflexivity;
        match goal with |- row_adv _ ?i ?l = _ => transitivity (hits i l); [reflexivity|] end;
        rewrite hits_order;
        match goal with |- (?a + ?n * ?b)%nat = _ => change a with 1%nat; change b with 0%nat end;
        rewrite Nat.mul_0_r; reflexivity.
  - intros n m s1 s2 <- _ _ Ha. now apply rwp_mk_order.
Qed.
End Builders.

(** ** The skips *)

(** [skip k] moves the streams [S] as [k] rows do. *)
Class Skips (t : Z) (skip : Z -> M Z) (S : list Z) (adv : Z -> nat) (env : st -> Prop) : Prop :=
  skip_moves : forall k s,
    0 <= k -> (forall i, In i S -> k * Z.of_nat (adv i) < 2 ^ 31) -> row_env t s -> env s ->
    wp (skip k) (fun _ s' => moved t S adv env (Z.to_nat k) s s') s.

Ltac in_range := vm_compute; split; [discriminate|reflexivity].
Ltac adv_step :=
  repeat lazymatch goal with |- wp (bind _ _) _ _ => apply wp_bind end;
  lazymatch goal with
  | |- wp (FAKE_V_STR _ _) _ _ =>
      eapply wp_FAKE_V_STR; [eassumption|eassumption|in_range|vm_compute; reflexivity|lia|]
  | |- wp (ADVANCE_STREAM _ _) _ _ => eapply wp_advance; [eassumption|in_range|lia|]
  end;
  intros ? ?Hs.
Ltac skip_total Hb :=
  match goal with |- total ?i _ = _ =>
    pose proof (Hb i ltac:(cbn; tauto)) as Hbi;
    cbv -[Z.add Z.mul Z.modulo Z.pow Nat.mul Z.of_nat Z.to_nat Z.lt] in Hbi |- *;
    rewrite ?Z.mod_small by lia; lia
  end.
Ltac skip_done Hb :=
  apply wp_ret; eapply skipped_moved; [first [apply order_env_seed|now intros]| |eassumption|assumption|eassumption|];
  [intros i Hi; each_stream Hi; in_range|intros i Hi; each_stream Hi; skip_total Hb].

#[export] Instance cust_skips child : Skips CUST (sd_cust child) cust_streams cust_adv any_state.
Proof.
  intros k s Hk Hb He Henv. pose proof He as [Hok Hlay _ _]. unfold sd_cust.
  pose proof (skipped_nil s Hok) as Hs. do 6 adv_step. skip_done Hb.
Qed.

#[export] Instance supp_skips child : Skips SUPP (sd_supp child) supp_streams supp_adv any_state.
Proof.
  intros k s Hk Hb He Henv. pose proof He as [Hok Hlay _ _]. unfold sd_supp.
  pose proof (skipped_nil s Hok) as Hs. do 9 adv_step. skip_done Hb.
Qed.

(** [ADVANCE_STREAM] in a loop over consecutive streams. *)
Lemma wp_advances n k (Q : unit -> st -> Prop) s0 : forall l s i ids,
  skipped l s0 s -> 0 <= k -> 0 <= i -> i + Z.of_nat n <= 48 ->
  ids = map (fun j => i + Z.of_nat j) (seq 0 n) ->
  (forall s', skipped (l ++ map (fun j => (j, k)) ids) s0 s' -> Q tt s') ->
  wp (for_loop n i (fun i => ADVANCE_STREAM i k)) Q s.
Proof.
  induction n as [|n IH]; intros l s i ids Hs Hk Hi Hn -> HQ; cbn [for_loop].
  - apply wp_ret, HQ. cbn [seq map]. now rewrite app_nil_r.
  - apply wp_bind. eapply wp_advance; [exact Hs|lia|exact Hk|]. intros s' Hs'.
    eapply IH; [exact Hs'|exact Hk|lia|lia|reflexivity|]. intros s'' Hs''. apply HQ.
    cbn [seq map]. rewrite <- seq_shift, !map_map. rewrite <- app_assoc, map_map in Hs''. cbn [app] in Hs''.
    replace (i + Z.of_nat 0) with i by lia.
    erewrite map_ext; [exact Hs''|]. intros j. cbv beta. f_equal. lia.
Qed.

#[export] Instance part_skips child : Skips PART (sd_part child) part_streams part_adv any_state.
Proof.
  intros k s Hk Hb He Henv. pose proof He as [Hok Hlay _ _]. unfold sd_part.
  pose proof (skipped_nil s Hok) as Hs. change P_MFG_SD with 0. apply wp_bind.
  eapply (wp_advances 5 k) with (ids := [0; 1; 2; 3; 4]); [exact Hs|exact Hk|lia|lia|reflexivity|].
  clear Hs. intros s1 Hs. do 2 adv_step. skip_done Hb.
Qed.

(** The advances of one pass over the streams of the lines. *)
Definition line_pass (k : Z) : list (Z * Z) := map (fun j => (j, k)) [14; 15; 16; 17; 18; 19; 20; 21; 22; 23; 24].

Lemma wp_sd_line k s (Q : Z -> st -> Prop) :
  0 <= k -> row_env LINE s ->
  (forall s', skipped (concat (repeat (line_pass k) 7) ++
     [(L_CMNT_SD, 945 * k); (O_ODATE_SD, k); (O_LCNT_SD, k)]) s s' -> Q 0 s') ->
  wp (sd_line 1 k) Q s.
Proof.
  intros Hk [Hok Hlay _ _] HQ. unfold sd_line.
  pose proof (skipped_nil s Hok) as Hs. apply wp_bind. change (Z.to_nat O_LCNT_MAX) with 7%nat.
  cbn [for_loop]. change L_QTY_SD with 14.
  do 7 (apply wp_bind; 
    eapply (wp_advances 11 k); [exact Hs|exact Hk|lia|lia|reflexivity|]; clear Hs; intros ? Hs).
  apply wp_ret. adv_step. change (1 =? 1) with true. cbv iota. do 2 adv_step. apply wp_ret, HQ.
  rewrite <- !app_assoc in *. cbn [repeat concat]. rewrite app_nil_r, <- !app_assoc. assumption.
Qed.

#[export] Instance line_skips upd :
  Skips LINE (sd_line 1) order_streams order_adv (order_env upd).
Proof.
  intros k s Hk Hb He Henv. apply wp_sd_line; [exact Hk|exact He|]. intros s' Hs.
  eapply skipped_moved; [apply order_env_seed| |exact He|exact Henv|exact Hs|].
  - intros i Hi; each_stream Hi; in_range.
  - intros i Hi. each_stream Hi; skip_total Hb.
Qed.

(** ** Splitting a table *)

(** The rows of every step, and those the last step generates on top. *)
Definition step_rows (base sf procs : Z) : Z := base / procs * sf + (base mod procs * sf) / procs.
Definition step_extra (base sf procs : Z) : Z := (base mod procs * sf) mod procs.

Lemma step_rows_total base sf procs :
  0 < procs -> step_rows base sf procs * procs + step_extra base sf procs = base * sf.
Proof.
  intros Hp. unfold step_rows, step_extra.
  pose proof (Z.div_mod base procs ltac:(lia)). pose proof (Z.div_mod (base mod procs * sf) procs ltac:(lia)).
  nia.
Qed.

Lemma step_rows_nonneg base sf procs :
  0 <= base -> 0 <= sf -> 0 < procs -> 0 <= step_rows base sf procs /\ 0 <= step_extra base sf procs < procs.
Proof.
  intros Hb Hs Hp. unfold step_rows, step_extra.
  pose proof (Z.div_pos base procs Hb Hp). pose proof (Z.mod_pos_bound base procs Hp).
  pose proof (Z.div_pos (base mod procs * sf) procs ltac:(nia) Hp).
  pose proof (Z.mod_pos_bound (base mod procs * sf) procs Hp). nia.
Qed.

(** The hypotheses under which [set_state] splits table [t]: a positive scale within the
    limit, a step of the run, and no jump beyond [2^31] in the streams [S]. *)
Record split_ok_in (c t sf procs step : Z) (d : tdef) (S : list Z) (adv : Z -> nat) (s : st) : Prop := mk_split_ok {
  sp_tdef : tdefs s !! Z.to_nat t = Some d;
  sp_child : child d = c;
  sp_base : 0 <= base d;
  sp_sf : 1 <= sf /\ sf / procs <= MAX_32B_SCALE;
  sp_step : 1 <= step <= procs;
  sp_jump : forall i, In i S -> step_rows (base d) sf procs * Z.of_nat (adv i) < 2 ^ 31;
}.

Abbreviation split_ok := (split_ok_in NONE).

(** One pass of the loop of [set_state] skips [k] rows of the table [t], whose child is [c]. *)
Definition skips_rows (c t : Z) (d : tdef) (S : list Z) (adv : Z -> nat) (env : st -> Prop) : Prop :=
  forall k s, tdefs s !! Z.to_nat t = Some d -> 0 <= k -> (forall i, In i S -> k * Z.of_nat (adv i) < 2 ^ 31) ->
  row_env_in c t s -> env s -> wp (skip_step t k) (fun _ s' => moved_in c t S adv env (Z.to_nat k) s s') s.

Lemma wp_set_state_in c t S adv env sf procs step s d :
  skips_rows c t d S adv env -> split_ok_in c t sf procs step d S adv s -> row_env_in c t s -> env s ->
  wp (set_state t sf procs step)
    (fun r s' => r = (step_rows (base d) sf procs, Some (step_extra (base d) sf procs)) /\
       moved_in c t S adv env (Z.to_nat ((step - 1) * step_rows (base d) sf procs)) s s') s.
Proof.
  intros Hskip [Hd Hc Hbase [Hsf Hmax] Hstep Hjump] He Henv.
  pose proof (step_rows_nonneg (base d) sf procs ltac:(lia) ltac:(lia) ltac:(lia)) as [Hrc _].
  pose proof (Z.mod_pos_bound (base d) procs ltac:(lia)).
  unfold set_state. destruct (Z.eqb_spec sf 0), (Z.eqb_spec step 0); try lia. cbn [orb].
  apply wp_bind, wp_get. apply wp_bind, (wp_must _ _ _ _ d Hd).
  destruct (Z.eqb_spec procs 0); [lia|]. 
  rewrite (quot_div (base d)), (rem_mod (base d)), (quot_div sf), (quot_div (_ * sf)), (rem_mod (_ * sf)) by nia.
  destruct (Z.ltb_spec MAX_32B_SCALE (sf / procs)); [lia|]. cbv zeta.
  fold (step_rows (base d) sf procs) (step_extra (base d) sf procs).
  set (rc := step_rows (base d) sf procs) in *. apply wp_bind.
  eapply (wp_for_loop (fun j s' => moved_in c t S adv env (Z.to_nat (j * rc)) s s')).
  - change (0 * rc) with 0. now apply moved_refl.
  - intros j s1 Hj Hm. eapply wp_mono.
    + destruct Hm as [M1 M2 _ M4 _]. 
      apply (Hskip rc s1); [rewrite M4; exact Hd|exact Hrc|exact Hjump|exact M1|exact M2].
    + intros u s2 Hm2. cbv beta in Hm2. replace (Z.to_nat ((j + 1) * rc)) with (Z.to_nat (j * rc) + Z.to_nat rc)%nat by nia.
      eapply moved_trans; eassumption.
  - intros s1 Hm. destruct (Z.ltb_spec procs step); [lia|]. apply wp_ret. split; [reflexivity|].
    replace ((step - 1) * rc) with ((0 + Z.of_nat (Z.to_nat (step - 1))) * rc) by nia. exact Hm.
Qed.

Section SetState.
Context (t : Z) (f : sd_fn) (S : list Z) (adv : Z -> nat) (env : st -> Prop).
Context `{HS : !Skips t (call_gen_seed f (if t =? LINE then 1 else 0)) S adv env}.

Lemma wp_skip_step d : gen_seed d = Some f -> child d = NONE -> skips_rows NONE t d S adv env.
Proof.
  intros Hf Hc k s Hd Hk Hb He Henv. unfold skip_step. apply wp_bind, wp_get.
  apply wp_bind, (wp_must _ _ _ _ d Hd). pose proof (HS k s Hk Hb He Henv) as Hw.
  rewrite Hf, Hc. change (negb (NONE =? NONE)) with false. apply wp_bind.
  destruct (t =? LINE).
  - apply wp_bind, wp_ret, wp_bind. eapply wp_mono; [exact Hw|]. intros z s' Hm. now apply wp_ret, wp_ret.
  - apply wp_bind. eapply wp_mono; [exact Hw|]. intros z s' Hm. now apply wp_ret, wp_ret.
Qed.

Lemma wp_set_state sf procs step s d :
  gen_seed d = Some f -> split_ok t sf procs step d S adv s -> row_env t s -> env s ->
  wp (set_state t sf procs step)
    (fun r s' => r = (step_rows (base d) sf procs, Some (step_extra (base d) sf procs)) /\
       moved t S adv env (Z.to_nat ((step - 1) * step_rows (base d) sf procs)) s s') s.
Proof. intros Hf Hsp. apply wp_set_state_in; [|exact Hsp]. apply wp_skip_step; [exact Hf|apply Hsp]. Qed.
End SetState.

(** One step of a parallel run against a serial run of the whole table. *)
Section Chunk.
Context {A} {c : Z} (t : Z) (mk : Z -> M A) (S : list Z) (adv : Z -> nat)
  (same : A -> A -> Prop) (env : st -> Prop).
Context `{HB : !RowBuilder_in c t mk S adv eq same env}.

(** The rows step [step] generates: [partial] of driver.c without the output. *)
Definition step_count (base sf procs step : Z) : nat :=
  Z.to_nat (if step =? procs then step_rows base sf procs + step_extra base sf procs
            else step_rows base sf procs).

Lemma step_count_le base sf procs step :
  0 <= base -> 1 <= sf -> 1 <= step <= procs ->
  (Z.to_nat ((step - 1) * step_rows base sf procs) + step_count base sf procs step <=
   Z.to_nat (base * sf))%nat.
Proof.
  intros Hb Hs Hst. pose proof (step_rows_nonneg base sf procs ltac:(lia) ltac:(lia) ltac:(lia)).
  pose proof (step_rows_total base sf procs ltac:(lia)) as Ht. unfold step_count.
  destruct (Z.eqb_spec step procs); nia.
Qed.

(** The rows of step [step] of a parallel run and those of its range in one serial run
    over the whole table. *)
Definition step_matches (base sf procs step : Z) (s : st) : Prop :=
  exists L1 L2 L3 L2' s1 s2,
    gen_rows t mk (Z.to_nat (base * sf)) 1 s = Ok (L1 ++ L2 ++ L3) s1 /\
    Z.of_nat (length L1) = (step - 1) * step_rows base sf procs /\
    length L2 = step_count base sf procs step /\
    (r <- set_state t sf procs step;;
     gen_rows t mk (step_count base sf procs step) (fst r * (step - 1) + 1)) s = Ok L2' s2 /\
    Forall2 same L2 L2'.

Lemma parallel_chunk_in sf procs step s d :
  skips_rows c t d S adv env -> split_ok_in c t sf procs step d S adv s -> row_env_in c t s -> env s ->
  step_matches (base d) sf procs step s.
Proof.
  intros Hf Hsp He Henv. pose proof Hsp as [_ _ Hbase [Hsf _] Hstep _].
  pose proof (step_rows_nonneg (base d) sf procs ltac:(lia) ltac:(lia) ltac:(lia)) as [Hrc _].
  set (rc := step_rows (base d) sf procs) in *. set (k := Z.to_nat ((step - 1) * rc)).
  set (m := step_count (base d) sf procs step).
  pose proof (step_count_le (base d) sf procs step Hbase ltac:(lia) Hstep) as Hle. fold rc k m in Hle.
  pose proof (wp_set_state_in c t S adv env sf procs step s d Hf Hsp He Henv) as Hw.
  destruct (chunk_rows t mk S adv eq same env (r <- set_state t sf procs step;; ret (fst r)) k m s He Henv
    ltac:(reflexivity)) as (L1 & L2 & L2' & s1 & s2 & H1 & Hl1 & Hl2 & H2 & HF).
  { apply wp_bind. eapply wp_mono; [exact Hw|]. intros r s' [-> Hm]. apply wp_ret. exact Hm. }
  pose proof (gen_rows_moved t mk S adv eq same env (k + m) 1 s He Henv) as Hm1. unfold wp in Hm1.
  rewrite H1 in Hm1. destruct Hm1 as [_ [E1 B1 _ _ _]].
  pose proof (gen_rows_moved t mk S adv eq same env (Z.to_nat (base d * sf) - (k + m))
    (1 + Z.of_nat (k + m)) s1 E1 B1) as Hm3.
  unfold wp in Hm3. destruct (gen_rows t mk _ (1 + Z.of_nat (k + m)) s1) as [L3 s3|] eqn:E3; [|done].
  exists L1, L2, L3, L2', s3, s2. split_and!; try assumption.
  - replace (Z.to_nat (base d * sf)) with (k + m + (Z.to_nat (base d * sf) - (k + m)))%nat by lia.
    unfold gen_rows in *. rewrite for_list_app. unfold bind. rewrite H1, E3. unfold ret. now rewrite app_assoc.
  - rewrite Hl1. unfold k. now rewrite Z2Nat.id by nia.
  - unfold wp in Hw. unfold bind, ret in *. destruct (set_state t sf procs step s) as [r s'|]; [|done].
    destruct Hw as [-> _]. cbn [fst]. fold rc.
    replace (rc * (step - 1) + 1) with (1 + Z.of_nat k)
      by (unfold k; rewrite Z2Nat.id by nia; lia).
    exact H2.
Qed.
End Chunk.

Lemma parallel_chunk {A} t (mk : Z -> M A) f S adv same env `{HB : !RowBuilder_in NONE t mk S adv eq same env}
    `{HS : !Skips t (call_gen_seed f (if t =? LINE then 1 else 0)) S adv env} sf procs step s d :
  gen_seed d = Some f -> split_ok t sf procs step d S adv s -> row_env t s -> env s ->
  step_matches t mk same (base d) sf procs step s.
Proof.
  intros Hf Hsp. apply (parallel_chunk_in t mk S adv same env); [|exact Hsp]. eapply wp_skip_step; [exact HS|exact Hf|apply Hsp].
Qed.

(** ** The customers and priorities of orders *)

(** The streams [sd_line] does not skip. *)
Definition buyer_streams : list Z := [O_CKEY_SD; O_PRIO_SD].
Definition same_buyer (a b : order_t) : Prop := o_custkey a = o_custkey b /\ o_opriority a = o_opriority b.
Definition any_row (i j : Z) : Prop := True.

Section Buyers.
Context (D : dists) (HD : dists_ok D).

#[export] Instance buyer_builder upd :
  RowBuilder LINE (fun i => mk_order D i upd) buyer_streams (fun _ => 1%nat) any_row same_buyer (order_env upd).
Proof.
  split.
  - intros i Hi. each_stream Hi; vm_compute; split; intros; discriminate || reflexivity.
  - intros l s s'. apply order_env_drew.
  - apply order_env_seed.
  - intros n s Hok [Hsc Href]. eapply (wp_mk_order D); [exact HD|exact Hok|apply drew_nil|exact Hsc|exact Href|].
    intros o s' Ho Hd. eexists. split; [exact Hd|]. cbn [app]. split.
    + rewrite order_draws_length. destruct (ook_lines _ _ _ _ _ Ho) as [Hl _]. unfold nM. lia.
    + intros i Hi. each_stream Hi;
        match goal with |- row_adv _ ?i ?l = _ => transitivity (hits i l); [reflexivity|] end;
        rewrite hits_order;
        match goal with |- (?a + ?n * ?b)%nat = _ => change a with 1%nat; change b with 0%nat end;
        rewrite Nat.mul_0_r; reflexivity.
  - intros n m s1 s2 _ _ _ Ha. now apply rwp_mk_order_cust.
Qed.
End Buyers.

#[export] Instance line_keeps_buyers upd :
  Skips LINE (sd_line 1) buyer_streams (fun _ => 0%nat) (order_env upd).
Proof.
  intros k s Hk Hb He Henv. apply wp_sd_line; [exact Hk|exact He|]. intros s' Hs.
  eapply skipped_moved; [apply order_env_seed| |exact He|exact Henv|exact Hs|].
  - intros i Hi; each_stream Hi; in_range.
  - intros i Hi. rewrite Nat.mul_0_r. each_stream Hi; reflexivity.
Qed.

(** ** [set_state] alone *)

Lemma wp_call_gen_seed f c k s (Q : Z -> st -> Prop) :
  (forall s', tdefs s' = tdefs s -> Q 0 s') -> wp (call_gen_seed f c k) Q s.
Proof.
  intros HQ. unfold wp. destruct f; cbn [call_gen_seed]; try (apply HQ; reflexivity).
  unfold sd_line, bind, modify, ADVANCE_STREAM. destruct (c =? 1); apply HQ; reflexivity.
Qed.

Lemma wp_set_state_result t sf procs step d s :
  tdefs s !! Z.to_nat t = Some d -> (t = LINE -> gen_seed d <> None) -> child d = NONE ->
  0 <= base d -> 1 <= sf -> sf / procs <= MAX_32B_SCALE -> 1 <= step <= procs ->
  wp (set_state t sf procs step)
    (fun r _ => r = (step_rows (base d) sf procs, Some (step_extra (base d) sf procs))) s.
Proof.
  intros Hd Hf Hc Hbase Hsf Hmax Hstep. pose proof (Z.mod_pos_bound (base d) procs ltac:(lia)).
  unfold set_state. destruct (Z.eqb_spec sf 0), (Z.eqb_spec step 0); try lia. cbn [orb].
  apply wp_bind, wp_get. apply wp_bind, (wp_must _ _ _ _ d Hd).
  destruct (Z.eqb_spec procs 0); [lia|].
  rewrite (quot_div (base d)), (rem_mod (base d)), (quot_div sf), (quot_div (_ * sf)), (rem_mod (_ * sf)) by nia.
  destruct (Z.ltb_spec MAX_32B_SCALE (sf / procs)); [lia|]. cbv zeta. apply wp_bind.
  eapply (wp_for_loop (fun _ s' => tdefs s' = tdefs s)); [reflexivity| |].
  - intros j s1 _ Ht. unfold skip_step. apply wp_bind, wp_get. rewrite Ht.
    apply wp_bind, (wp_must _ _ _ _ d Hd). rewrite Hc. change (negb (NONE =? NONE)) with false.
    apply wp_bind. destruct (Z.eqb_spec t LINE) as [->|].
    + destruct (gen_seed d) as [f|]; [|now destruct Hf]. apply wp_bind, wp_ret, wp_bind, wp_call_gen_seed.
      intros s' Hs'. apply wp_ret, wp_ret. congruence.
    + destruct (gen_seed d) as [f|]; [|now apply wp_ret, wp_ret]. apply wp_bind, wp_call_gen_seed.
      intros s' Hs'. apply wp_ret, wp_ret. congruence.
  - intros s1 _. destruct (Z.ltb_spec procs step); [lia|]. now apply wp_ret.
Qed.

(** ** Properties *)

(** The rows step [step] generates run from [lo] to [hi - 1]. *)
Definition in_step (rc ex procs step row : Z) : Prop :=
  rc * (step - 1) + 1 <= row < rc * (step - 1) + 1 + (if step =? procs then rc + ex else rc).

Lemma in_step_unique rc ex procs row :
  0 <= rc -> 0 <= ex -> 1 <= procs -> 1 <= row <= rc * procs + ex ->
  exists! step, 1 <= step <= procs /\ in_step rc ex procs step row.
Proof.
  intros Hrc Hex Hp Hrow. unfold in_step. destruct (Z_le_gt_dec row (rc * (procs - 1))) as [Hle|Hgt].
  - assert (0 < rc) by nia. pose proof (Z.div_mod (row - 1) rc ltac:(lia)) as Hdm.
    pose proof (Z.mod_pos_bound (row - 1) rc ltac:(lia)). set (q := (row - 1) / rc) in *.
    assert (0 <= q < procs - 1) by nia. exists (q + 1). split.
    + destruct (Z.eqb_spec (q + 1) procs); split; nia.
    + intros q' [Hq' Hr]. destruct (Z.eqb_spec q' procs); nia.
  - exists procs. split.
    + rewrite Z.eqb_refl. nia.
    + intros q' [Hq' Hr]. destruct (Z.eqb_spec q' procs); [lia|]. nia.
Qed.

(** C13. [set_state] partitions a table: every step from 1 to [procs] gets the same row count
    and remainder, which add up to the scaled row count of the table, and the row ranges
    [partial] derives from them put every row of the table in exactly one step. *)
Theorem set_state_partition t sf procs d s :
  tdefs s !! Z.to_nat t = Some d -> (t = LINE -> gen_seed d <> None) -> child d = NONE ->
  0 <= base d -> 1 <= sf -> 1 <= procs -> sf / procs <= MAX_32B_SCALE ->
  exists rc ex, rc * procs + ex = base d * sf /\ 0 <= rc /\ 0 <= ex < procs /\
    (forall step, 1 <= step <= procs -> wp (set_state t sf procs step) (fun r _ => r = (rc, Some ex)) s) /\
    (forall row, 1 <= row <= base d * sf ->
       exists! step, 1 <= step <= procs /\ in_step rc ex procs step row).
Proof.
  intros Hd Hf Hc Hbase Hsf Hp Hmax.
  pose proof (step_rows_total (base d) sf procs ltac:(lia)) as Htot.
  destruct (step_rows_nonneg (base d) sf procs ltac:(lia) ltac:(lia) ltac:(lia)) as [Hrc Hex].
  exists (step_rows (base d) sf procs), (step_extra (base d) sf procs).
  split_and!; try lia.
  - intros step Hstep. now apply wp_set_state_result.
  - intros row Hrow. apply in_step_unique; lia.
Qed.

Definition cust_tdef : tdef :=
  mk_tdef (Some "customer.tbl") (Some "customers table") 30000 (Some Fhd_cust)
    (Some Fpr_cust, Some Fld_cust) (Some Fsd_cust) (Some Fvrf_cust) NONE 0.

Lemma set_state_partition_witness :
  tdefs st_start !! Z.to_nat CUST = Some cust_tdef /\
  exists rc ex, rc * 7 + ex = 30000 * 3 /\ 0 <= rc /\ 0 <= ex < 7 /\
    (forall step, 1 <= step <= 7 -> wp (set_state CUST 3 7 step) (fun r _ => r = (rc, Some ex)) st_start) /\
    (forall row, 1 <= row <= 30000 * 3 -> exists! step, 1 <= step <= 7 /\ in_step rc ex 7 step row).
Proof.
  split; [reflexivity|].
  apply (set_state_partition CUST 3 7 cust_tdef st_start); try reflexivity; try discriminate; cbn; try lia.
Defined.

Lemma start_row_env t :
  (exists d, tdefs st_start !! Z.to_nat (row_table t) = Some d /\ child d = NONE) -> row_env t st_start.
Proof. intros Hd. split; [apply Seed_init_ok|reflexivity|reflexivity|exact Hd]. Qed.

Ltac split_concrete :=
  split; try reflexivity; cbn; try lia;
  try (split; [lia|vm_compute; discriminate]);
  intros i Hi; each_stream Hi; vm_compute; reflexivity.

Definition supp_tdef : tdef :=
  mk_tdef (Some "supplier.tbl") (Some "suppliers table") 2000 (Some Fhd_supp)
    (Some Fpr_supp, Some Fld_supp) (Some Fsd_supp) (Some Fvrf_supp) NONE 0.

Definition part_tdef : tdef :=
  mk_tdef (Some "part.tbl") (Some "part table") 200000 (Some Fhd_part)
    (Some Fpr_part, Some Fld_part) (Some Fsd_part) (Some Fvrf_part) NONE 0.

Definition line_tdef : tdef :=
  mk_tdef (Some "lineorder.tbl") (Some "lineorder table") 150000 (Some Fhd_line)
    (Some Fpr_line, Some Fld_line) (Some Fsd_line) (Some Fvrf_line) NONE 0.

Lemma line_start : row_env LINE (set_glob G.scale 1 st_start) /\ order_env 0 (set_glob G.scale 1 st_start).
Proof.
  split.
  - split; [apply Seed_init_ok|reflexivity|reflexivity|exists line_tdef; split; reflexivity].
  - split; [|now left]. vm_compute. split_and!; discriminate || reflexivity.
Qed.

(** The customers and priorities of a parallel run repeat: [sd_line] skips neither of
    their streams, so the orders of every step have, one by one, the customers and
    priorities of the first orders of the table. *)
Theorem parallel_orders_repeat D upd sf procs step d s m start :
  dists_ok D -> gen_seed d = Some Fsd_line ->
  split_ok LINE sf procs step d buyer_streams (fun _ => 0%nat) s -> row_env LINE s -> order_env upd s ->
  exists L1 L2 s1 s2,
    gen_rows LINE (fun i => mk_order D i upd) m 1 s = Ok L1 s1 /\
    (_ <- set_state LINE sf procs step;; gen_rows LINE (fun i => mk_order D i upd) m start) s = Ok L2 s2 /\
    Forall2 same_buyer L1 L2.
Proof.
  intros HD Hf Hsp He Henv.
  pose proof (wp_set_state LINE Fsd_line buyer_streams (fun _ => 0%nat) (order_env upd) sf procs step s d
    Hf Hsp He Henv) as Hw.
  unfold wp in Hw. destruct (set_state LINE sf procs step s) as [r s'|] eqn:Es; [|done].
  destruct Hw as [_ [E1 B1 G1 T1 V1]].
  destruct (lockstep_rows LINE (fun i => mk_order D i upd) buyer_streams (fun _ => 1%nat) any_row same_buyer
    (order_env upd) (HB := buyer_builder D HD upd) m 1 start s s') as (L1 & L2 & s1 & s2 & H1 & H2 & HF & _).
  - intros; exact I.
  - split; try assumption; try congruence. intros i Hi. rewrite V1 by exact Hi. now rewrite Nat.mul_0_r.
  - exists L1, L2, s1, s2. split_and!; [exact H1| |exact HF]. unfold bind. rewrite Es. exact H2.
Qed.

Lemma parallel_orders_repeat_witness :
  split_ok LINE 1 6 4 line_tdef buyer_streams (fun _ => 0%nat) (set_glob G.scale 1 st_start) /\
  exists L1 L2 s1 s2,
    gen_rows LINE (fun i => mk_order shipped i 0) 1000 1 (set_glob G.scale 1 st_start) = Ok L1 s1 /\
    (_ <- set_state LINE 1 6 4;; gen_rows LINE (fun i => mk_order shipped i 0) 1000 75001)
      (set_glob G.scale 1 st_start) = Ok L2 s2 /\
    Forall2 same_buyer L1 L2.
Proof.
  assert (Hsp : split_ok LINE 1 6 4 line_tdef buyer_streams (fun _ => 0%nat) (set_glob G.scale 1 st_start))
    by split_concrete.
  split; [exact Hsp|].
  apply (parallel_orders_repeat shipped 0 1 6 4 line_tdef _ 1000 75001);
    [apply shipped_ok|reflexivity|exact Hsp|apply line_start|apply line_start].
Defined.
