(* ===== verification/Rows.v ===== *)
(** What the row builders promise: for valid distributions and any seeds, each returns a row
    whose columns are in their domains, and consumes a known sequence of random numbers. *)
From S2P Require Import Prelude CString Float64 Rng State Consts Streams Dist Bcd2 Sparse Calendar Build RowSpec Config Shipped.

(** C26. [mk_cust] builds a customer: the key asked for and the name made of it, an address
    of 6 to 24 characters of the alphabet, a nation of the distribution with the region it
    points to, a city that is the name of this nation cut or padded to nine characters and a
    digit, a phone number with the country code of this nation, and a market segment; it
    draws the address, nation, city, phone and segment in this order. *)
Theorem mk_cust_row D n s :
  dists_ok D -> seeds_ok (Seed s) ->
  wp (mk_cust D n) (fun c s' => customer_ok D n c /\
    exists k, (2 <= k <= 5)%nat /\ drew (cust_draws k) s s') s.
Proof.
  intros HD Hs. eapply (wp_mk_cust D HD n []); [exact Hs|apply drew_nil|].
  intros c k s' Hc Hk Hd. eauto.
Qed.

Lemma mk_cust_row_witness :
  (dists_ok shipped /\ seeds_ok (Seed st_start)) /\
  wp (mk_cust shipped 1) (fun c s' => customer_ok shipped 1 c /\
    exists k, (2 <= k <= 5)%nat /\ drew (cust_draws k) st_start s') st_start.
Proof.
  split; [split; [apply shipped_ok|apply Seed_init_ok]|].
  exact (mk_cust_row shipped 1 st_start shipped_ok Seed_init_ok).
Defined.

(** [mk_supp] builds a supplier in the same domains; its phone number is drawn from the
    customers' stream. *)
Theorem mk_supp_row D n s :
  dists_ok D -> seeds_ok (Seed s) ->
  wp (mk_supp D n) (fun c s' => supplier_ok D n c /\
    exists k, (2 <= k <= 5)%nat /\ drew (supp_draws k) s s') s.
Proof.
  intros HD Hs. eapply (wp_mk_supp D HD n []); [exact Hs|apply drew_nil|].
  intros c k s' Hc Hk Hd. eauto.
Qed.

Lemma mk_supp_row_witness :
  (dists_ok shipped /\ seeds_ok (Seed st_start)) /\
  wp (mk_supp shipped 1) (fun c s' => supplier_ok shipped 1 c /\
    exists k, (2 <= k <= 5)%nat /\ drew (supp_draws k) st_start s') st_start.
Proof.
  split; [split; [apply shipped_ok|apply Seed_init_ok]|].
  exact (mk_supp_row shipped 1 st_start shipped_ok Seed_init_ok).
Defined.

(** C21. [mk_part] builds a part: three distinct colors, the first as its color and the rest
    as its name, the hierarchy of manufacturer (1 to 5), category (1 to 5) and brand
    (1 to 40), each the prefix of the next, a type with its length, a size from 1 to 50 and
    a container; it draws one number per color and six more. *)
Theorem mk_part_row D n s :
  dists_ok D -> seeds_ok (Seed s) ->
  wp (mk_part D n) (fun p s' => part_ok D n p /\ drew (part_draws (count (colors D))) s s') s.
Proof.
  intros HD Hs. eapply (wp_mk_part D n []); [exact HD|exact Hs|apply drew_nil|]. intros p s' Hp Hd. auto.
Qed.

Lemma mk_part_row_witness :
  (dists_ok shipped /\ seeds_ok (Seed st_start)) /\
  wp (mk_part shipped 1) (fun p s' => part_ok shipped 1 p /\
    drew (part_draws (count (colors shipped))) st_start s') st_start.
Proof.
  split; [split; [apply shipped_ok|apply Seed_init_ok]|].
  exact (mk_part_row shipped 1 st_start shipped_ok Seed_init_ok).
Defined.

(** C10. [mk_order] builds an order with 1 to 7 lines: the key is the sparse key of its
    number, the customer exists and is not a multiple of 3, part and supplier keys of every
    line are in their ranges, prices, revenue and cost follow from the part key, every line
    carries the key, customer, date and priority of the order, the commit date is 30 to 90
    days after it, and the total price is the sum over the lines, below [2^31] and stored in
    every one of them. *)
Theorem mk_order_row D index upd_num s :
  dists_ok D -> seeds_ok (Seed s) -> scale_ok s -> refresh_ok s upd_num ->
  wp (mk_order D index upd_num) (fun o s' => order_ok D s index upd_num o /\
    drew (order_draws (Z.to_nat (o_lines o))) s s') s.
Proof.
  intros HD Hs Hsc Hr. eapply (wp_mk_order D index upd_num []);
    [exact HD|exact Hs|apply drew_nil|exact Hsc|exact Hr|]. intros o s' Ho Hd. auto.
Qed.

Lemma mk_order_row_witness :
  (scale_ok (set_glob G.scale 1 st_start) /\ refresh_ok (set_glob G.scale 1 st_start) 0) /\
  wp (mk_order shipped 1 0) (fun o s' => order_ok shipped (set_glob G.scale 1 st_start) 1 0 o /\
    drew (order_draws (Z.to_nat (o_lines o))) (set_glob G.scale 1 st_start) s') (set_glob G.scale 1 st_start).
Proof.
  assert (Hsc : scale_ok (set_glob G.scale 1 st_start))
    by (vm_compute; split_and!; discriminate || reflexivity).
  assert (Hr : refresh_ok (set_glob G.scale 1 st_start) 0) by now left.
  split; [split; assumption|].
  exact (mk_order_row shipped 1 0 (set_glob G.scale 1 st_start) shipped_ok Seed_init_ok Hsc Hr).
Defined.
