(* ===== verification/Output.v ===== *)
(** Opening and writing the output files: [yes_no] and [tbl_open] of bm_utils.c,
    [print_prep] and [dbg_print] of print.c, and the stubs of load_stub.c. *)
From S2P Require Import Prelude CString Float64 State Consts Streams Dist Build Config.

(** ** The operating system *)

(** What [stat] finds at a path. *)
Inductive fkind := Regular | Fifo | Other.
Inductive stat_res := StatOk (k : fkind) | StatNoent | StatFailed.

(** The environment of a run. [stale] is what the [struct stat] of [tbl_open] holds when
    [stat] fails and leaves it unset; [contents] is what the regular files hold that exist
    before the run. *)
Record os := mk_os {
  getenv : string -> option string;
  file_text : string -> option string;
  stat : string -> stat_res;
  contents : string -> string;
  stale : fkind;
  can_open : string -> bool;
  stdin : string;
}.

#[export] Instance fkind_eq : EqDecision fkind. Proof. solve_decision. Defined.

(** ** stdio *)

Definition printf (str : string) : M unit := modify (set_stdout (fun o => o +:+ str)).

Definition append (str : string) (f : file) : file := mk_file (path f) (bytes f +:+ str) (old f).

(** What is on the disk once the stream is flushed. *)
Definition disk (f : file) : string := bytes f +:+ drop_s (strlen (bytes f)) (old f).

(** [fprintf(fp, ...)] of the formatted text. *)
Definition fprintf (fp : option nat) (str : string) : M unit :=
  match fp with
  | None => stop_with (Undefined "fprintf(NULL, ...)")
  | Some n => modify (set_files (alter (append str) n))
  end.

(** A stream on [path], which holds [old], that nothing has been written to. *)
Definition new_file (path old : string) : M nat :=
  n <- gets (fun s => length (files s));;
  modify (set_files (fun l => l ++ [mk_file path "" old]));;
  ret n.

(** [sprintf(buf, ...)] into an array of [size] characters. *)
Definition sprintf (what : string) (size : Z) (str : string) : M string :=
  if size <=? strlen str then stop_with (Undefined what) else ret str.

(** ** load_stub.c *)

(** [static int count = 0; if (! count++) printf(...);] *)
Definition once (v : G.var) (msg : string) : M unit :=
  count <- gets (fun s => glob s v);;
  modify (set_glob v (wrap_s 32 (count + 1)));;
  if count =? 0 then printf (msg +:+ newline) else ret tt.

Definition hd_cust : M unit := once G.hd_cust_count "No header has been defined for the customer table".
Definition hd_part : M unit := once G.hd_part_count "No header has been defined for the part table".
Definition hd_supp : M unit := once G.hd_supp_count "No header has been defined for the supplier table".
Definition hd_line : M unit := once G.hd_line_count "No header has been defined for the lineitem table".
Definition ld_cust : M unit :=
  once G.ld_cust_count "No load routine has been defined for the customer table".
Definition ld_part : M unit := once G.ld_part_count "No load routine has been defined for the part table".
Definition ld_supp : M unit :=
  once G.ld_supp_count ("No load routine has been defined for the supplier table" +:+ newline).
Definition ld_line : M unit := once G.ld_line_count "No load routine has been defined for the line table".
Definition hd_psupp : M unit := once G.hd_psupp_count "No header has been defined for the part supplier table".
Definition hd_order : M unit := once G.hd_order_count "No header has been defined for the order table".
Definition hd_nation : M unit := once G.hd_nation_count "No header has been defined for the nation table".
Definition ld_psupp : M unit :=
  once G.ld_psupp_count ("No load routine has been defined for the psupp table" +:+ newline).
Definition ld_order : M unit := once G.ld_order_count "No load routine has been defined for the order table".
Definition ld_date : M unit := ret tt.
(** Without [SSBM]. *)
Definition ld_nation : M unit := once G.ld_nation_count "No load routine has been defined for the nation table".
Definition hd_region : M unit := once G.hd_region_count "No header has been defined for the region table".
Definition ld_region : M unit := once G.ld_region_count "No load routine has been defined for the region table".
Definition ld_order_line : M unit := ld_order;; ld_line.
Definition hd_order_line : M unit := hd_order;; hd_line.
Definition ld_part_psupp : M unit := ld_part;; ld_psupp.
Definition hd_part_psupp : M unit := hd_part;; hd_psupp.
Definition prep_direct : M unit := ret tt.
Definition close_direct : M unit := ret tt.

Definition call_header (f : hd_fn) : M unit :=
  match f with
  | Fhd_part => hd_part | Fhd_supp => hd_supp | Fhd_cust => hd_cust | Fhd_line => hd_line
  | Fhd_psupp => hd_psupp | Fhd_order => hd_order | Fhd_order_line => hd_order_line
  | Fhd_part_psupp => hd_part_psupp | Fhd_nation => hd_nation | Fhd_region => hd_region
  end.

Section Output.
Context (Os : os).

(** ** Standard input *)

(** [fgets(buf, n + 1, stdin)]; [None] at the end of the input. *)
Definition read_stdin (n : nat) : M (option string) :=
  pos <- gets (fun s => glob s G.stdin_pos);;
  match drop_s pos (stdin Os) with
  | EmptyString => ret None
  | rest =>
      let line := fst (fgets_chars n rest) in
      modify (set_glob G.stdin_pos (pos + strlen line));;
      ret (Some line)
  end.

(** The loop of [long yes_no(char *prompt)]; every turn reads a line with [gets] into an
    array of 128 characters. [reply] is not set at the end of the input. *)
Fixpoint yes_no_loop (fuel : nat) (prompt : string) : M bool :=
  match fuel with
  | O => stop_with (Undefined "gets: reply not set")
  | S fuel =>
      printf (prompt +:+ " [Y/N]: ");;
      r <- read_stdin (String.length (stdin Os));;
      match r with
      | None => stop_with (Undefined "gets: reply not set")
      | Some reply =>
          let reply := cut_at nl reply in
          if 128 <=? strlen reply then stop_with (Undefined "gets: reply")
          else match reply with
               | String "y" _ | String "Y" _ => ret true
               | String "n" _ | String "N" _ => ret false
               | _ => printf ("Please answer 'yes' or 'no'." +:+ newline);; yes_no_loop fuel prompt
               end
      end
  end.
Definition yes_no (prompt : string) : M bool := yes_no_loop (S (String.length (stdin Os))) prompt.

(** ** bm_utils.c: [FILE *tbl_open(int tbl, char *mode)] for mode "w" *)

(** What [open] finds in the file, and leaves there: the flags are [O_WRONLY|O_CREAT],
    without [O_TRUNC], and [fdopen] does not truncate either. Each print function keeps its
    stream, so that a path is opened once and this is what was there before the run (two tables
    given one name on the standard input, with [-O f], would write over each other: not
    modelled). *)
Definition old_text (path : string) : string :=
  match stat Os path with StatOk Regular => contents Os path | _ => "" end.

(** The file [tbl_open] opens, once [bytes] are written to it. *)
Definition opened (path bytes : string) : file := mk_file path bytes (old_text path).

Definition tbl_open (tbl : Z) : M nat :=
  d <- (s <- get;; must "tdefs" (tdefs s !! Z.to_nat tbl));;
  name <- must "tdefs[tbl].name" (name d);;
  fullpath <-
    match name with
    | String "/" _ => sprintf "fullpath" 256 name
    | _ => sprintf "fullpath" 256 (env_config (getenv Os) PATH_TAG PATH_DFLT +:+ "/" +:+ name)
    end;;
  s <- get;;
  mode <- match stat Os fullpath with
          | StatFailed => stop_with (Exited (-1))
          | StatOk k => ret k
          | StatNoent => ret (stale Os)
          end;;
  (if decide (mode = Regular) then
     if glob s G.force =? 0 then
       prompt <- sprintf "prompt" 256 ("Do you want to overwrite " +:+ fullpath +:+ " ?");;
       b <- yes_no prompt;;
       if negb b then stop_with (Exited 0) else ret tt
     else ret tt
   else ret tt);;
  (if negb (can_open Os fullpath) then stop_with (Exited 1) else ret tt);;
  f <- new_file fullpath (old_text fullpath);;
  s <- get;;
  (if negb (glob s G.header =? 0) && negb (glob s G.columnar =? 0) then
     match header d with Some h => call_header h | None => ret tt end
   else ret tt);;
  ret f.

(** ** print.c: [FILE *print_prep(int table, int update)] *)

Definition incr (v : G.var) : M Z :=
  x <- gets (fun s => glob s v);;
  modify (set_glob v (wrap_s 32 (x + 1)));;
  ret (wrap_s 32 (x + 1)).

(** [fopen(path, "w")] truncates. *)
Definition fopen_w (path : string) : M (option nat) :=
  if can_open Os path then f <- new_file path "";; ret (Some f) else ret None.

Definition print_prep (table update : Z) : M (option nat) :=
  s <- get;;
  d <- must "tdefs" (tdefs s !! Z.to_nat table);;
  let dir := env_config (getenv Os) PATH_TAG PATH_DFLT +:+ "/" in
  if negb (glob s G.updates =? 0) then
    upath <-
      (if 0 <? update then
         name <- must "tdefs[table].name" (name d);;
         if negb (glob s G.insert_segments =? 0) then
           this_segment <- (if negb (String.eqb name "orders.tbl") then incr G.insert_orders_segment
                            else incr G.insert_lineitem_segment);;
           ret (dir +:+ name +:+ ".u" +:+ fmt_d (update %c 10000) +:+ "." +:+ fmt_d this_segment)
         else ret (dir +:+ name +:+ ".u" +:+ fmt_d update)
       else
         if negb (glob s G.delete_segments =? 0) then
           k <- incr G.delete_segment;;
           ret (dir +:+ "delete.u" +:+ fmt_d ((- update) %c 10000) +:+ "." +:+ fmt_d k)
         else ret (dir +:+ "delete." +:+ fmt_d (- update)));;
    upath <- sprintf "upath" 128 upath;;
    fopen_w upath
  else
    f <- tbl_open table;; ret (Some f).
End Output.

(** ** print.c: [dbg_print] *)

(** [ceil] *)
Definition fceil (x : f64) : f64 := fopp (ffloor (fopp x)).

(** The format and the value it is applied to. *)
Inductive datum :=
  | DT_STR (data : string)
  | DT_INT (data : Z)
  | DT_HUGE (low high : Z)
  | DT_KEY (data : Z)
  | DT_MONEY (data : Z)
  | DT_CHR (data : ascii).

(** The text the switch prints. *)
Definition dbg_text (columnar : bool) (data : datum) (len : Z) : string :=
  match data with
  | DT_STR data => if columnar then fmt_ls len data else data
  | DT_INT data => if columnar then fmt_wd 12 data else fmt_d data
  | DT_HUGE low high =>
      if high =? 0 then if columnar then fmt_wd 12 low else fmt_d low
      else if columnar then fmt_wd 5 high +:+ fmt_0d 7 low else fmt_d high +:+ fmt_0d 7 low
  | DT_KEY data => fmt_d data
  | DT_MONEY data =>
      let cents := wrap_s 32 data in
      let sign := if cents <? 0 then "-" else "" in
      let cents := if cents <? 0 then - cents else cents in
      let dollars := cents /c 100 in
      let cents := cents %c 100 in
      sign +:+ (if columnar then fmt_wd 12 dollars else fmt_d dollars) +:+ "." +:+ fmt_0d 2 cents
  | DT_CHR data => if columnar then String data " " else String data ""
  end.

(** [#define SEPARATOR '|'] *)
Definition SEPARATOR : string := "|".

(** [int dbg_print(int format, FILE *target, void *data, int len, int sep)] *)
Definition dbg_print (target : option nat) (data : datum) (len sep : Z) : M unit :=
  columnar <- gets (fun s => negb (glob s G.columnar =? 0));;
  fprintf target (dbg_text columnar data len);;
  if negb columnar && negb (sep =? -1) then fprintf target SEPARATOR else ret tt.

(** dss.h: the output macros *)
Definition PR_STR (f : option nat) (str : string) (len : Z) : M unit := dbg_print f (DT_STR str) len 1.
Definition PR_VSTR (f : option nat) (str : string) (len : Z) : M unit := dbg_print f (DT_STR str) len 1.
Definition PR_INT (f : option nat) (n : Z) : M unit := dbg_print f (DT_INT n) 0 1.
Definition PR_HUGE (f : option nat) (n : Z * Z) : M unit := dbg_print f (DT_HUGE (fst n) (snd n)) 0 1.
Definition PR_KEY (f : option nat) (n : Z) : M unit := dbg_print f (DT_KEY n) 0 (-1).
Definition PR_END (f : option nat) : M unit := fprintf f newline.
