(* ===== verification/Print.v ===== *)
(** print.c: writing the rows of the SSBM tables ([pr_*]), their checksums ([vrf_*]) and the
    key ranges of the delete sets ([pr_drange]). *)
From S2P Require Import Prelude CString Float64 State Consts Streams Dist Bcd2 Sparse Calendar DateDim Build Config Output.

(** ** Static variables *)

Definition with_fp (p : pr_fn) (f : option nat) (x : print_st) : print_st :=
  mk_print (fun q => if decide (q = p) then f else fp x q) (last_mode x) (last_num x)
    (rows_per_segment x) (rows_this_segment x) (residual_rows x) (order_mode x).
Definition with_last_mode (m : Z) (x : print_st) : print_st :=
  mk_print (fp x) m (last_num x) (rows_per_segment x) (rows_this_segment x) (residual_rows x)
    (order_mode x).
Definition with_last_num (m : Z) (x : print_st) : print_st :=
  mk_print (fp x) (last_mode x) m (rows_per_segment x) (rows_this_segment x) (residual_rows x)
    (order_mode x).
Definition with_segments (per this residual : Z) (x : print_st) : print_st :=
  mk_print (fp x) (last_mode x) (last_num x) per this residual (order_mode x).

(** [(columnar)?a:b] *)
Definition columnar_len (a b : Z) : M Z :=
  gets (fun s => if negb (glob s G.columnar =? 0) then a else b).

(** [(long)(ceil(C_ADDR_LEN * V_STR_HGH))] *)
Definition addr_len (n : Z) : Z := f_to_Z (fceil (fmul (f_of_Z n) V_STR_HGH)).

Section Print.
Context (Os : os).

(** [static FILE *fp = NULL; if (fp == NULL) fp = print_prep(table, mode);] *)
Definition static_fp (p : pr_fn) (table mode : Z) : M (option nat) :=
  f <- gets (fun s => fp (prt s) p);;
  match f with
  | Some f => ret (Some f)
  | None =>
      f <- print_prep Os table mode;;
      modify (set_prt (with_fp p f));;
      ret f
  end.

(** [int pr_cust(customer_t *c, int mode)] *)
Definition pr_cust (c : customer_t) (mode : Z) : M Z :=
  fp <- static_fp P_cust CUST 0;;
  PR_INT fp (c_custkey c);;
  PR_VSTR fp (c_name c) C_NAME_LEN;;
  len <- columnar_len (addr_len C_ADDR_LEN) (c_alen c);;
  PR_VSTR fp (c_address c) len;;
  PR_STR fp (c_city c) CITY_FIX;;
  PR_STR fp (c_nation_name c) C_NATION_NAME_LEN;;
  PR_STR fp (c_region_name c) C_REGION_NAME_LEN;;
  PR_STR fp (c_phone c) PHONE_LEN;;
  PR_STR fp (c_mktsegment c) MAXAGG_LEN;;
  PR_END fp;;
  ret 0.

(** The body of the loop of [pr_line]. *)
Definition pr_lineorder (fp_l : option nat) (l : lineorder_t) : M unit :=
  PR_HUGE fp_l (l_okey l);;
  PR_INT fp_l (l_linenumber l);;
  PR_INT fp_l (l_custkey l);;
  PR_INT fp_l (l_partkey l);;
  PR_INT fp_l (l_suppkey l);;
  PR_STR fp_l (l_orderdate l) DATE_LEN;;
  PR_STR fp_l (l_opriority l) O_OPRIO_LEN;;
  PR_INT fp_l (l_ship_priority l);;
  PR_INT fp_l (l_quantity l);;
  PR_INT fp_l (l_extended_price l);;
  PR_INT fp_l (l_order_totalprice l);;
  PR_INT fp_l (l_discount l);;
  PR_INT fp_l (l_revenue l);;
  PR_INT fp_l (l_supp_cost l);;
  PR_INT fp_l (l_tax l);;
  PR_STR fp_l (l_commit_date l) DATE_LEN;;
  PR_STR fp_l (l_shipmode l) O_SHIP_MODE_LEN;;
  PR_END fp_l.

Fixpoint pr_lines (fp_l : option nat) (ls : list lineorder_t) : M unit :=
  match ls with
  | [] => ret tt
  | l :: ls => pr_lineorder fp_l l;; pr_lines fp_l ls
  end.

(** [int pr_line(order_t *o, int mode)]: a change of mode opens another file. *)
Definition pr_line (o : order_t) (mode : Z) : M Z :=
  p <- gets prt;;
  fp_l <-
    match fp p P_line with
    | Some f => if mode =? last_mode p then ret (Some f)
                else f <- print_prep Os LINE mode;;
                     modify (set_prt (fun p => with_last_mode mode (with_fp P_line f p)));; ret f
    | None => f <- print_prep Os LINE mode;;
              modify (set_prt (fun p => with_last_mode mode (with_fp P_line f p)));; ret f
    end;;
  pr_lines fp_l (o_lineorders o);;
  ret 0.

(** [int pr_part(part_t *part, int mode)]; [nlen], which nothing sets, is passed as the
    length of the name and not used outside columnar output. *)
Definition pr_part (part : part_t) (mode : Z) : M Z :=
  p_fp <- static_fp P_part PART 0;;
  PR_INT p_fp (p_partkey part);;
  len <- columnar_len P_NAME_LEN 0;;
  PR_VSTR p_fp (p_name part) len;;
  PR_STR p_fp (p_mfgr part) P_MFG_LEN;;
  PR_STR p_fp (p_category part) P_CAT_LEN;;
  PR_STR p_fp (p_brand part) P_BRND_LEN;;
  len <- columnar_len P_COLOR_LEN (p_clen part);;
  PR_VSTR p_fp (p_color part) len;;
  len <- columnar_len P_TYPE_LEN (p_tlen part);;
  PR_VSTR p_fp (p_type part) len;;
  PR_INT p_fp (p_size part);;
  PR_STR p_fp (p_container part) P_CNTR_LEN;;
  PR_END p_fp;;
  ret 0.

(** [int pr_supp(supplier_t *supp, int mode)] *)
Definition pr_supp (supp : supplier_t) (mode : Z) : M Z :=
  fp <- static_fp P_supp SUPP mode;;
  PR_INT fp (s_suppkey supp);;
  PR_STR fp (s_name supp) S_NAME_LEN;;
  len <- columnar_len (addr_len S_ADDR_LEN) (s_alen supp);;
  PR_VSTR fp (s_address supp) len;;
  PR_STR fp (s_city supp) CITY_FIX;;
  PR_STR fp (s_nation_name supp) C_NATION_NAME_LEN;;
  PR_STR fp (s_region_name supp) C_REGION_NAME_LEN;;
  PR_STR fp (s_phone supp) PHONE_LEN;;
  PR_END fp;;
  ret 0.

(** [int pr_date(date_t *d, int mode)] *)
Definition pr_date (d : date_t) (mode : Z) : M Z :=
  d_fp <- static_fp P_date DATE 0;;
  PR_INT d_fp (datekey d);;
  PR_STR d_fp (date d) D_DATE_LEN;;
  PR_STR d_fp (dayofweek d) D_DAYWEEK_LEN;;
  PR_STR d_fp (d_month d) D_MONTH_LEN;;
  PR_INT d_fp (year d);;
  PR_INT d_fp (yearmonthnum d);;
  PR_STR d_fp (yearmonth d) D_YEARMONTH_LEN;;
  PR_INT d_fp (daynuminweek d);;
  PR_INT d_fp (daynuminmonth d);;
  PR_INT d_fp (daynuminyear d);;
  PR_INT d_fp (monthnuminyear d);;
  PR_INT d_fp (weeknuminyear d);;
  len <- columnar_len D_SEASON_LEN (slen d);;
  PR_VSTR d_fp (sellingseason d) len;;
  PR_STR d_fp (lastdayinweekfl d) 2;;
  PR_STR d_fp (lastdayinmonthfl d) 2;;
  PR_STR d_fp (holidayfl d) 2;;
  PR_STR d_fp (weekdayfl d) 2;;
  PR_END d_fp;;
  ret 0.

(** ** [int pr_drange(int tbl, long min, long cnt, long num)] *)

(** Opening the delete file of set [num]; [false] is the early return. *)
Definition drange_open (tbl num : Z) (this : Z) : M (option nat) :=
  dfp <- print_prep Os tbl (- num);;
  modify (set_prt (with_fp P_drange dfp));;
  match dfp with
  | None => ret None
  | Some f =>
      modify (set_prt (fun p => with_segments (rows_per_segment p) this (residual_rows p)
        (with_last_num (wrap_s 32 num) p)));;
      ret (Some f)
  end.

(** The part of the loop that spreads the keys over [delete_segments] files. *)
Definition drange_segment (tbl num cnt : Z) (dfp : nat) : M (option nat) :=
  s <- get;;
  (if rows_per_segment (prt s) =? 0 then
     modify (set_prt (fun p => with_segments (cnt /c glob s G.delete_segments + 1)
       (rows_this_segment p) (cnt %c glob s G.delete_segments) p))
   else ret tt);;
  s <- get;;
  let this := rows_this_segment (prt s) + 1 in
  modify (set_prt (fun p => with_segments (rows_per_segment p) this (residual_rows p) p));;
  if (if glob s G.delete_segment <=? residual_rows (prt s) then rows_per_segment (prt s) <? this
      else rows_per_segment (prt s) <=? this)
  then drange_open tbl num 1
  else ret (Some dfp).

(** What one key prints; the file it leaves open, [None] for the early return. *)
Definition drange_print (tbl num cnt new start last : Z) (dfp : nat) : M (option nat) :=
  s <- get;;
  if negb (glob s G.gen_sql =? 0) then
    o <- must "tdefs[ORDER].name" (mbind name (tdefs s !! Z.to_nat ORDER));;
    l <- must "tdefs[LINE].name" (mbind name (tdefs s !! Z.to_nat LINE));;
    fprintf (Some dfp) ("delete from " +:+ o +:+ " where o_orderkey between " +:+ fmt_d start +:+
      " and " +:+ fmt_d last +:+ ";" +:+ newline);;
    fprintf (Some dfp) ("delete from " +:+ l +:+ " where l_orderkey between " +:+ fmt_d start +:+
      " and " +:+ fmt_d last +:+ ";" +:+ newline);;
    fprintf (Some dfp) ("commit work;" +:+ newline);;
    ret (Some dfp)
  else if negb (glob s G.gen_rng =? 0) then
    PR_INT (Some dfp) start;; PR_INT (Some dfp) last;; PR_END (Some dfp);;
    ret (Some dfp)
  else
    d <- (if negb (glob s G.delete_segments =? 0) then drange_segment tbl num cnt dfp
          else ret (Some dfp));;
    match d with
    | None => ret None
    | Some dfp => PR_KEY (Some dfp) new;; PR_END (Some dfp);; ret (Some dfp)
    end.

(** The loop, for the last [n] keys, and the range it leaves. *)
Fixpoint drange_loop (n : nat) (tbl num seq child start last : Z) (dfp : nat) : M Z :=
  match n with
  | O =>
      g <- gets (fun s => glob s G.gen_rng);;
      (if negb (g =? 0) then PR_INT (Some dfp) start;; PR_INT (Some dfp) last;; PR_END (Some dfp)
       else ret tt);;
      ret 0
  | S n' =>
      let new := MK_SPARSE child seq in
      g <- gets (fun s => glob s G.gen_rng);;
      if (g =? 1) && (new - last =? 1) then
        drange_loop n' tbl num seq (child + 1) start new dfp
      else
        d <- drange_print tbl num (Z.of_nat n) new start last dfp;;
        match d with
        | None => ret (-1)
        | Some dfp => drange_loop n' tbl num seq (child + 1) new new dfp
        end
  end.

Definition pr_drange (tbl min cnt num : Z) : M Z :=
  s <- get;;
  dfp <- (if negb (last_num (prt s) =? num) then drange_open tbl num 0
          else match fp (prt s) P_drange with
               | Some f => ret (Some f)
               | None => stop_with (Undefined "pr_drange: dfp")
               end);;
  match dfp with
  | None => ret (-1)
  | Some dfp =>
      if (glob s G.refresh =? 0) || (10000 /c glob s G.refresh =? 0)
      then stop_with (Undefined "division by zero")
      else
        let seq := (num - 1) /c (10000 /c glob s G.refresh) in
        let start := MK_SPARSE min seq in
        drange_loop (Z.to_nat cnt) tbl num seq min start (start - 1) dfp
  end.
End Print.

(** ** Checksums *)

(** [tdefs[t].vtotal += d] *)
Definition VRF_INT (t d : Z) : M unit :=
  modify (set_tdefs (alter (fun x => mk_tdef (name x) (comment x) (base x) (header x) (loader x)
    (gen_seed x) (verify x) (child x) (wrap_u 64 (vtotal x + d))) (Z.to_nat t))).

(** [*xx] as a number: a [char] is signed. *)
Definition raw_char (c : ascii) : Z := wrap_s 8 (char_code c).

(** The sum of the characters of a string, as they are. *)
Fixpoint char_sum (d : string) : Z :=
  match d with EmptyString => 0 | String c d => raw_char c + char_sum d end.
Definition VRF_STR (t : Z) (d : string) : M unit := VRF_INT t (char_sum d).
Definition VRF_HUGE (t : Z) (d : Z * Z) : M unit := VRF_INT t (fst d + snd d).

Definition vrf_cust (c : customer_t) : M Z :=
  VRF_INT CUST (c_custkey c);; VRF_STR CUST (c_name c);; VRF_STR CUST (c_address c);;
  VRF_STR CUST (c_city c);; VRF_STR CUST (c_nation_name c);; VRF_STR CUST (c_region_name c);;
  VRF_STR CUST (c_phone c);; VRF_STR CUST (c_mktsegment c);;
  ret 0.

Definition vrf_lineorder (l : lineorder_t) : M unit :=
  VRF_HUGE LINE (l_okey l);; VRF_INT LINE (l_linenumber l);; VRF_INT LINE (l_custkey l);;
  VRF_INT LINE (l_partkey l);; VRF_INT LINE (l_suppkey l);; VRF_STR LINE (l_orderdate l);;
  VRF_STR LINE (l_opriority l);; VRF_INT LINE (l_ship_priority l);; VRF_INT LINE (l_quantity l);;
  VRF_INT LINE (l_extended_price l);; VRF_INT LINE (l_order_totalprice l);;
  VRF_INT LINE (l_discount l);; VRF_INT LINE (l_revenue l);; VRF_INT LINE (l_supp_cost l);;
  VRF_INT LINE (l_tax l);; VRF_STR LINE (l_commit_date l);; VRF_STR LINE (l_shipmode l).

Fixpoint vrf_lines (ls : list lineorder_t) : M unit :=
  match ls with [] => ret tt | l :: ls => vrf_lineorder l;; vrf_lines ls end.
Definition vrf_line (o : order_t) : M Z := vrf_lines (o_lineorders o);; ret 0.

Definition vrf_part (part : part_t) : M Z :=
  VRF_INT PART (p_partkey part);; VRF_STR PART (p_name part);; VRF_STR PART (p_mfgr part);;
  VRF_STR PART (p_brand part);; VRF_STR PART (p_type part);; VRF_INT PART (p_size part);;
  VRF_STR PART (p_container part);; VRF_STR PART (p_category part);;
  ret 0.

(** [nation_key] and [region_key] are never set: whatever the stack holds. *)
Definition vrf_supp (nation_key region_key : Z) (supp : supplier_t) : M Z :=
  VRF_INT SUPP (s_suppkey supp);; VRF_STR SUPP (s_name supp);;
  VRF_STR CUST (s_address supp);; VRF_INT CUST nation_key;; VRF_STR CUST (s_nation_name supp);;
  VRF_INT CUST region_key;; VRF_STR CUST (s_region_name supp);; VRF_STR CUST (s_phone supp);;
  ret 0.

Definition vrf_date (d : date_t) : M Z :=
  VRF_INT DATE (datekey d);; VRF_STR DATE (date d);; VRF_STR DATE (dayofweek d);;
  VRF_STR DATE (d_month d);; VRF_INT DATE (year d);; VRF_INT DATE (yearmonthnum d);;
  VRF_STR DATE (yearmonth d);; VRF_INT DATE (daynuminweek d);; VRF_INT DATE (daynuminmonth d);;
  VRF_INT DATE (daynuminyear d);; VRF_INT DATE (monthnuminyear d);; VRF_INT DATE (weeknuminyear d);;
  VRF_STR DATE (sellingseason d);; VRF_STR DATE (lastdayinweekfl d);;
  VRF_STR DATE (lastdayinmonthfl d);; VRF_STR DATE (weekdayfl d);;
  ret 0.
