(* ===== verification/Driver.v ===== *)
(** driver.c: generating the tables serially, in steps and in parallel, the command line and
    [main]. *)
From S2P Require Import Prelude CString Float64 SpeedSeed State Consts Streams Dist Bcd2 Sparse Calendar DateDim Build Config Output Print Relational Parallel Chunks.

(** ** Command line *)

(** [atof] of a decimal with an optional fraction and exponent, correctly rounded (not the
    hexadecimal, infinite and NaN forms). *)
Fixpoint frac_digits (s : string) : Z :=
  match s with String c s => if is_digit c then 1 + frac_digits s else 0 | EmptyString => 0 end.
Fixpoint after_digits (s : string) : string :=
  match s with String c s' => if is_digit c then after_digits s' else s | EmptyString => "" end.
Definition exponent (s : string) : Z :=
  match s with
  | String "e" s | String "E" s =>
      match s with
      | String "-" s => - dec_value 0 s
      | String "+" s => dec_value 0 s
      | s => dec_value 0 s
      end
  | _ => 0
  end.
(** [n * 10^e] *)
Definition decimal (n e : Z) : f64 :=
  if 0 <=? e then f_of_Z (n * 10 ^ e) else fdiv (F n 0) (F (10 ^ (- e)) 0).
Definition atof_abs (s : string) : f64 :=
  let whole := dec_value 0 s in
  match after_digits s with
  | String "." frac =>
      let k := frac_digits frac in
      let e := if (0 <? frac_digits s + k) then exponent (after_digits frac) else 0 in
      decimal (whole * 10 ^ k + dec_value 0 frac) (e - k)
  | rest => decimal whole (if 0 <? frac_digits s then exponent rest else 0)
  end.
Definition atof (s : string) : f64 :=
  match skip_space s with
  | String "-" s => fopp (atof_abs s)
  | String "+" s => atof_abs s
  | s => atof_abs s
  end.

(** [MIN_SCALE] *)
Definition MIN_SCALE : f64 := F 1 0.

Definition bit (i : Z) : Z := Z.shiftl 1 i.

Definition with_base (f : Z -> Z) (d : tdef) : tdef :=
  mk_tdef (name d) (comment d) (f (base d)) (header d) (loader d) (gen_seed d) (verify d)
    (child d) (vtotal d).

Definition set (v : G.var) (x : Z) : M unit := modify (set_glob v x).
Definition glb (v : G.var) : M Z := gets (fun s => glob s v).

(** [tdefs[i].base *= flt_scale; if (tdefs[i].base < 1) tdefs[i].base = 1;] *)
Definition scale_base (flt : f64) (i : Z) : M unit :=
  d <- gets (fun s => tdefs s !! Z.to_nat i);;
  d <- must "tdefs" d;;
  b <- must "(long) of a double out of range" (f_to_s 64 (fmul (f_of_Z (base d)) flt));;
  modify (set_tdefs (alter (with_base (fun _ => if b <? 1 then 1 else b)) (Z.to_nat i))).

(** [usage(); exit(1);]; the text goes to stderr. *)
Definition usage_exit {A} : M A := stop_with (Exited 1).

(** The table letters of option [-T]. *)
Definition table_option (optarg : string) : M unit :=
  match optarg with
  | String "c" _ => set G.table (bit CUST)
  | String "p" _ => set G.table (bit PART)
  | String "s" _ => set G.table (bit SUPP)
  | String "d" _ => set G.table (bit DATE)
  | String "l" _ => set G.table (bit LINE)
  | String "a" _ =>
      set G.table (Z.lor (Z.lor (bit CUST) (bit PART)) (bit SUPP));;
      step <- glb G.step;;
      (if step =? 1 then t <- glb G.table;; set G.table (Z.lor t (bit DATE)) else ret tt);;
      t <- glb G.table;;
      set G.table (Z.lor t (bit LINE))
  | _ => usage_exit
  end.

(** Option [-s] (and [-P]). *)
Definition scale_option (optarg : string) : M unit :=
  let flt := atof optarg in
  modify (set_flt_scale flt);;
  if fltb flt MIN_SCALE then
    set G.scale 1;;
    for_loop (Z.to_nat (REGION - PART)) PART (scale_base flt)
  else
    scale <- must "(long) of a double out of range" (f_to_s 64 flt);;
    set G.scale scale.

(** The letters of option [-O]. *)
Definition action_option (optarg : string) : M unit :=
  match optarg with
  | EmptyString => usage_exit
  | String c _ =>
      let c := tolower c in
      if Ascii.eqb c "d" then set G.gen_sql 1
      else if Ascii.eqb c "f" then set G.fnames 1
      else if Ascii.eqb c "h" then set G.header 1
      else if Ascii.eqb c "m" then set G.columnar 1
      else if Ascii.eqb c "r" then set G.gen_rng 1
      else if Ascii.eqb c "s" then set G.set_seeds 1
      else if Ascii.eqb c "v" then set G.validate 1
      else usage_exit
  end.

(** An option [getopt] does not know: [next] is the text of [vector[optind]], empty when that
    is the null pointer at the end of the arguments; the second character is printed. *)
Definition unknown_msg (c : ascii) : string := "ERROR: option '" +:+ String c ("' unknown." +:+ newline).
Definition unknown_option (next : string) : M unit :=
  match next with
  | EmptyString => stop_with (Undefined "*(vector[optind] + 1)")
  | String _ EmptyString => printf (unknown_msg (ascii_of_nat 0));; usage_exit
  | String _ (String c _) => printf (unknown_msg c);; usage_exit
  end.

(** One turn of the [getopt] loop: the option and its argument as the C library's [getopt]
    returns them; for an option it does not know, [vector[optind]] stands for the argument. *)
Definition process_option (option : ascii) (optarg : string) : M unit :=
  match option with
  | "b"%char => modify (set_d_path (Some optarg))
  | "q"%char => set G.verbose (-1)
  | "i"%char => set G.insert_segments (atoi optarg)
  | "d"%char => set G.delete_segments (atoi optarg)
  | "S"%char =>
      set G.step (atoi optarg);;
      step <- glb G.step;;
      if 1 <? step then t <- glb G.table;; set G.table (Z.land t (Z.lnot (bit DATE))) else ret tt
  | "v"%char => set G.verbose 1
  | "f"%char => set G.force 1
  | "T"%char => table_option optarg
  | "s"%char | "P"%char => scale_option optarg
  | "O"%char => action_option optarg
  | "D"%char => set G.direct 1
  | "F"%char => set G.direct 0
  | "U"%char => set G.updates (atoi optarg)
  | "r"%char => set G.refresh (atoi optarg)
  | "C"%char => set G.children (atoi optarg)
  | "n"%char => modify (set_db_name (Some optarg))
  | "h"%char => usage_exit
  | _ => unknown_option optarg
  end.

(** [void process_options(int count, char **vector)], on the options [getopt] finds: the loop,
    and the allocation of [pids], which fails for a negative number of children and is left
    out (the pointer stays [NULL]) unless [step] is -1. *)
Fixpoint process_options_loop (opts : list (ascii * string)) : M unit :=
  match opts with
  | [] => ret tt
  | (option, optarg) :: opts => process_option option optarg;; process_options_loop opts
  end.
Definition alloc_pids : M unit :=
  children <- glb G.children;;
  step <- glb G.step;;
  if negb (children =? 1) && (step =? -1) then
    if children <? 0 then stop_with (Exited 1) else set G.pids children
  else ret tt.
Definition process_options (opts : list (ascii * string)) : M unit :=
  process_options_loop opts;; alloc_pids.

(** ** Rows through the table descriptions *)

(** The row a handler of [gen_tbl] passes to the verify or load function of the table. *)
Inductive row :=
  | R_order (o : order_t) | R_supp (s : supplier_t) | R_cust (c : customer_t)
  | R_part (p : part_t) | R_date (d : date_t).

Section Driver.
Context (Os : os) (utcoff : Z -> Z) (spawn_ok : Z -> Z -> bool) (nation_key region_key : Z).

Definition call_verify (f : vrf_fn) (r : row) : M Z :=
  match f, r with
  | Fvrf_line, R_order o => vrf_line o
  | Fvrf_supp, R_supp x => vrf_supp nation_key region_key x
  | Fvrf_cust, R_cust c => vrf_cust c
  | Fvrf_part, R_part p => vrf_part p
  | Fvrf_date, R_date d => vrf_date d
  | _, _ => stop_with (Undefined "verify of another table")
  end.

Definition call_loader (f : ld_fn) (r : row) (mode : Z) : M Z :=
  match f, r with
  | Fpr_line, R_order o => pr_line Os o mode
  | Fpr_supp, R_supp x => pr_supp Os x mode
  | Fpr_cust, R_cust c => pr_cust Os c mode
  | Fpr_part, R_part p => pr_part Os p mode
  | Fpr_date, R_date d => pr_date Os d mode
  | Fld_line, R_order o => ld_line;; ret 0
  | Fld_supp, R_supp x => ld_supp;; ret 0
  | Fld_cust, R_cust c => ld_cust;; ret 0
  | Fld_part, R_part p => ld_part;; ret 0
  | Fld_date, R_date d => ld_date;; ret 0
  | _, _ => stop_with (Undefined "loader of another table")
  end.

(** [if (set_seeds == 0) if (validate) tdefs[tnum].verify(&row, 0); else
    tdefs[tnum].loader[direct](&row, mode);] *)
Definition deliver (tnum : Z) (r : row) (mode : Z) : M unit :=
  s <- get;;
  if glob s G.set_seeds =? 0 then
    d <- must "tdefs" (tdefs s !! Z.to_nat tnum);;
    if negb (glob s G.validate =? 0) then
      f <- must "verify" (verify d);; _ <- call_verify f r;; ret tt
    else
      f <- must "loader" (if glob s G.direct =? 0 then fst (loader d) else snd (loader d));;
      _ <- call_loader f r mode;; ret tt
  else ret tt.

(** The local variables of [gen_tbl] that split an update set into segments. *)
Record segments := mk_segments { per_segment : Z; this_segment : Z; residual : Z }.

Definition with_this (x : Z) (g : segments) : segments := mk_segments (per_segment g) x (residual g).

(** [if (insert_segments && (upd_num > 0)) ...]: the update number after a row. *)
Definition next_segment (insert_segments upd_num : Z) (g : segments) : Z * segments :=
  if negb (insert_segments =? 0) && (0 <? upd_num) then
    let this := this_segment g + 1 in
    if upd_num /c 10000 <? residual g then
      if per_segment g <? this then (upd_num + 10000, with_this 0 g) else (upd_num, with_this this g)
    else
      if per_segment g <=? this then (upd_num + 10000, with_this 0 g) else (upd_num, with_this this g)
  else (upd_num, g).

(** The switch of [gen_tbl]. *)
Definition gen_switch (D : dists) (tnum i upd_num : Z) (g : segments) : M (Z * segments) :=
  if tnum =? LINE then
    o <- mk_order D i (upd_num %c 10000);;
    insert_segments <- glb G.insert_segments;;
    let '(upd_num, g) := next_segment insert_segments upd_num g in
    deliver tnum (R_order o) upd_num;;
    ret (upd_num, g)
  else if tnum =? SUPP then
    supp <- mk_supp D i;; deliver tnum (R_supp supp) upd_num;; ret (upd_num, g)
  else if tnum =? CUST then
    cust <- mk_cust D i;; deliver tnum (R_cust cust) upd_num;; ret (upd_num, g)
  else if tnum =? PART then
    part <- mk_part D i;; deliver tnum (R_part part) upd_num;; ret (upd_num, g)
  else if tnum =? DATE then
    dt <- must "mk_date" (mk_date utcoff i);; deliver tnum (R_date dt) 0;; ret (upd_num, g)
  else ret (upd_num, g).

(** [if (set_seeds && (i % tdefs[tnum].base) < 2) ...] *)
Definition show_seeds (tnum i : Z) : M unit :=
  s <- get;;
  if glob s G.set_seeds =? 0 then ret tt
  else
    d <- must "tdefs" (tdefs s !! Z.to_nat tnum);;
    if base d =? 0 then stop_with (Undefined "division by zero")
    else if i %c base d <? 2 then
      c <- must "comment" (comment d);;
      printf (newline +:+ "Seeds for " +:+ c +:+ " at rowcount " +:+ fmt_d i +:+ newline);;
      dump_seeds tnum
    else ret tt.

(** The loop of [gen_tbl], [n] rows from row [i]. *)
Fixpoint gen_loop (D : dists) (n : nat) (tnum i upd_num : Z) (g : segments) : M unit :=
  match n with
  | O => ret tt
  | S n =>
      row_start tnum;;
      r <- gen_switch D tnum i upd_num g;;
      row_stop tnum;;
      show_seeds tnum i;;
      gen_loop D n tnum (i + 1) (fst r) (snd r)
  end.

(** [void gen_tbl(int tnum, long start, long count, long upd_num)]; a negative count
    runs the loop until the counter wraps. *)
Definition gen_tbl (D : dists) (tnum start count upd_num : Z) : M unit :=
  insert_segments <- glb G.insert_segments;;
  let g := if negb (insert_segments =? 0) then
             let per := wrap_s 32 (count /c insert_segments) in
             mk_segments per (-1) (wrap_s 32 (count - per * insert_segments))
           else mk_segments 0 (-1) 0 in
  init <- glb G.init;;
  (if init =? 0 then set G.init 1 else ret tt);;
  (if count <? 0 then stop_with (Undefined "negative row count") else ret tt);;
  gen_loop D (Z.to_nat count) tnum start upd_num g;;
  completed <- glb G.completed;;
  set G.completed (Z.lor completed (bit tnum)).

(** ** [int set_files(int i, int pload)] *)

(** The text after [child_table:], which is run again for a child; the child's own child
    is cleared first, so it runs twice at most. *)
Fixpoint child_table (fuel : nat) (i pload : Z) : M Z :=
  match fuel with
  | O => stop_with (Undefined "child_table")
  | S fuel =>
      s <- get;;
      d <- must "tdefs" (tdefs s !! Z.to_nat i);;
      nm <- must "tdefs[i].name" (name d);;
      line <-
        (if negb (pload =? -1) then
           l <- sprintf "line" 80 (nm +:+ "." +:+ fmt_d pload);; ret (inl l)
         else
           printf ("Enter new destination for " +:+ nm +:+ " data: ");;
           r <- read_stdin Os 79;;
           match r with
           | None => ret (inr (-1))
           | Some line =>
               let line := cut_at nl line in
               if strlen line =? 0 then ret (inr 0) else ret (inl line)
           end);;
      match line with
      | inr r => ret r
      | inl line =>
          modify (set_tdefs (alter (fun d => mk_tdef (Some line) (comment d) (base d) (header d)
            (loader d) (gen_seed d) (verify d) (child d) (vtotal d)) (Z.to_nat i)));;
          if negb (child d =? NONE) then
            modify (set_tdefs (alter (fun d => mk_tdef (name d) (comment d) (base d) (header d)
              (loader d) (gen_seed d) (verify d) NONE (vtotal d)) (Z.to_nat (child d))));;
            child_table fuel (child d) pload
          else ret 0
      end
  end.

Definition set_files (i pload : Z) : M Z :=
  table <- glb G.table;;
  if negb (Z.land table (bit i) =? 0) then child_table 2 i pload else ret 0.

(** ** [int partial(int tbl, int s)] *)

Definition partial (D : dists) (tbl step : Z) : M Z :=
  direct <- glb G.direct;;
  (if direct =? 0 then _ <- set_files tbl step;; ret tt else ret tt);;
  s <- get;;
  r <- set_state tbl (glob s G.scale) (glob s G.children) step;;
  let '(rowcnt, extra) := r in
  s <- get;;
  (if step =? glob s G.children then
     extra <- must "extra" extra;;
     gen_tbl D tbl (rowcnt * (step - 1) + 1) (rowcnt + extra) (glob s G.upd_num)
   else gen_tbl D tbl (rowcnt * (step - 1) + 1) rowcnt (glob s G.upd_num));;
  ret 0.

(** ** [int pload(int tbl)] *)

(** What a child does after the fork. *)
Definition stop_proc {A} : M A := stop_with (Exited 0).
Definition child_proc (D : dists) (tbl c : Z) : M unit :=
  set G.verbose 0;;
  _ <- partial D tbl (c + 1);;
  stop_with (Exited 0).

(** [pids[c] = ...]: undefined beyond the entries allocated. *)
Definition store_pid (c : Z) : M unit :=
  pids <- glb G.pids;;
  if c <? pids then ret tt else stop_with (Undefined "pids[c]").

(** The loop that forks child [c] to child [children - 1]: each runs on a copy of the
    parent's memory, which stays as it is but for the number stored in [pids]; a fork that
    fails kills the children. *)
Fixpoint spawn_loop (D : dists) (n : nat) (tbl c : Z) : M (list (res unit)) :=
  match n with
  | O => ret []
  | S n =>
      store_pid c;;
      if negb (spawn_ok tbl c) then stop_with (Exited (-1))
      else
        run <- gets (child_proc D tbl c);;
        rest <- spawn_loop D n tbl (c + 1);;
        ret (run :: rest)
  end.

(** The children's runs, in the order they are forked; the parent waits for all. *)
Definition pload (D : dists) (tbl : Z) : M (list (res unit)) :=
  children <- glb G.children;;
  spawn_loop D (Z.to_nat children) tbl 0.

(** ** [main] *)

(** The assignments before the options. *)
Definition main_init : M unit :=
  set G.table (Z.lor (Z.lor (Z.lor (Z.lor (Z.lor (bit CUST) (bit SUPP)) (bit NATION)) (bit REGION))
    (bit PART_PSUPP)) (bit ORDER_LINE));;
  set G.force 0;; set G.insert_segments 0;; set G.delete_segments 0;;
  set G.insert_orders_segment 0;; set G.insert_lineitem_segment 0;; set G.delete_segment 0;;
  set G.verbose 0;; set G.columnar 0;; set G.set_seeds 0;; set G.header 0;; set G.direct 0;;
  set G.scale 1;; modify (set_flt_scale (F 1 0));; set G.updates 0;; set G.refresh UPD_PCT;;
  set G.step (-1);;
  modify (set_tdefs (alter (with_base (fun b => b * ORDERS_PER_CUST)) (Z.to_nat LINE)));;
  set G.fnames 0;; modify (set_db_name None);; set G.gen_sql 0;; set G.gen_rng 0;;
  set G.children 1;; modify (set_d_path None).

Definition base_is (b : Z) : tdef -> tdef := with_base (fun _ => b).

(** The update sets, at most [n] of them. *)
Fixpoint update_loop (D : dists) (n : nat) : M unit :=
  match n with
  | O => ret tt
  | S n =>
      s <- get;;
      let upd_num := glob s G.upd_num in
      if upd_num <? glob s G.updates then
        set G.insert_orders_segment 0;; set G.insert_lineitem_segment 0;; set G.delete_segment 0;;
        let rowcnt := glob s G.rowcnt in
        let minrow := upd_num * rowcnt + 1 in
        set G.minrow minrow;;
        gen_tbl D LINE minrow rowcnt (upd_num + 1);;
        _ <- pr_drange Os LINE minrow rowcnt (upd_num + 1);;
        set G.upd_num (upd_num + 1);;
        update_loop D n
      else ret tt
  end.

Definition main_updates (D : dists) : M unit :=
  s <- get;;
  _ <- set_state LINE (glob s G.scale) 1 2;;
  let fix1 := fdiv (f_of_Z (base_of s LINE)) (f_of_Z 10000) in
  rowcnt <- must "(int) of a double out of range"
    (f_to_s 32 (fmul (fmul fix1 (f_of_Z (glob s G.scale))) (f_of_Z (glob s G.refresh))));;
  set G.rowcnt rowcnt;;
  let step := glob s G.step in
  (if 0 <? step then
     _ <- sd_order 0 (rowcnt * (step - 1));;
     _ <- sd_line 0 (rowcnt * (step - 1));;
     set G.upd_num (step - 1)
   else set G.upd_num 0);;
  update_loop D (Z.to_nat (glob s G.updates));;
  stop_with (Exited 0).

(** New names for the files, asked for on the standard input. *)
Definition ask_files : M unit :=
  for_loop (Z.to_nat (REGION + 1)) PART (fun i =>
    table <- glb G.table;;
    if negb (Z.land table (bit i) =? 0) then
      r <- set_files i (-1);;
      if negb (r =? 0) then stop_with (Exited 1) else ret tt
    else ret tt).

(** The rows of a table in a serial run; [floor(1+log((double)scale)/log(2))] is one more
    than the binary logarithm of the scale, rounded down. *)
Definition serial_rows (s : st) (i : Z) : Z :=
  if i =? PART then base_of s i * (1 + Z.log2 (glob s G.scale))
  else if i =? DATE then base_of s i
  else if i <? NATION then base_of s i * glob s G.scale
  else base_of s i.

(** The body of the loop over the tables. *)
Definition main_table (D : dists) (i : Z) : M (list (res unit)) :=
  s <- get;;
  if negb (Z.land (glob s G.table) (bit i) =? 0) then
    runs <-
      (if (1 <? glob s G.children) && (i <? NATION) then
         if negb (glob s G.validate =? 0) then
           stop_with (Aborted "Cannot validate parallel data generation")
         else if 0 <=? glob s G.step then _ <- partial D i (glob s G.step);; ret []
         else pload D i
       else
         set G.minrow 1;;
         set G.rowcnt (serial_rows s i);;
         gen_tbl D i 1 (serial_rows s i) (glob s G.upd_num);;
         ret []);;
    s <- get;;
    (if negb (glob s G.validate =? 0) then
       d <- must "tdefs" (tdefs s !! Z.to_nat i);;
       nm <- must "tdefs[i].name" (name d);;
       printf ("Validation checksum for " +:+ nm +:+ " at " +:+ fmt_d (wrap_s 32 (glob s G.scale)) +:+
         " GB: " +:+ fmt_x (vtotal d) +:+ newline)
     else ret tt);;
    ret runs
  else ret [].

(** [main] after the options: the runs of the children of parallel loads. *)
Definition main_rest : M (list (res unit)) :=
  D <- load_dists (getenv Os) (file_text Os);;
  modify (set_tdefs (alter (base_is (count (nations D))) (Z.to_nat NATION)));;
  modify (set_tdefs (alter (base_is (count (regions D))) (Z.to_nat REGION)));;
  s <- get;;
  if negb (glob s G.updates =? 0) then main_updates D;; ret []
  else
    (if negb (glob s G.direct =? 0) then prep_direct
     else if negb (glob s G.fnames =? 0) then ask_files else ret tt);;
    runs <- for_list (Z.to_nat (REGION + 1)) PART (main_table D);;
    (if negb (glob s G.direct =? 0) then close_direct else ret tt);;
    ret (concat runs).

(** [int main(int ac, char **av)], on the options [getopt] finds. *)
Definition main (opts : list (ascii * string)) : M (list (res unit)) :=
  main_init;; process_options opts;; main_rest.
End Driver.
