(* ===== verification/Frame.v ===== *)
(** The row builders do not touch the output: a computation is [inner] when it neither reads
    nor writes the files, the standard output, the static variables of print.c, the names and
    the checksums of the tables and the option that asks for these, and leaves the options and the table descriptions
    alone. It then runs alike in every [View] of a state, a state with another output. Every
    builder is inner, so rows can be computed apart from what is done with them. *)
From Stdlib Require Import FunctionalExtensionality.
From S2P Require Import Prelude CString Float64 State Consts Streams Dist Bcd2 Sparse Calendar DateDim Build Config.

(** The variables that only count what has been output or generated. *)
Definition out_var (v : G.var) : bool :=
  match v with
  | G.init | G.completed | G.minrow | G.rowcnt | G.stdin_pos
  | G.insert_orders_segment | G.insert_lineitem_segment | G.delete_segment
  | G.hd_part_count | G.hd_supp_count | G.hd_cust_count | G.hd_line_count
  | G.ld_part_count | G.ld_supp_count | G.ld_cust_count | G.ld_line_count => true
  | _ => false
  end.

(** The computing part of [s] with the output part of [o]. *)
Definition with_out (o s : st) : st :=
  mk_st (Seed s) (faults s) (perm s) (tdefs s) (fun v => if out_var v then glob o v else glob s v)
    (flt_scale s) (db_name s) (d_path s) (prt o) (files o) (stdout o).

Definition map_res {A} (f : st -> st) (r : res A) : res A :=
  match r with Ok a s => Ok a (f s) | Stop w s => Stop w (f s) end.

(** Two states are equal when their fields are and their variables are one by one. *)
Lemma st_eq s1 s2 :
  Seed s1 = Seed s2 -> faults s1 = faults s2 -> perm s1 = perm s2 -> tdefs s1 = tdefs s2 ->
  (forall v, glob s1 v = glob s2 v) -> flt_scale s1 = flt_scale s2 -> db_name s1 = db_name s2 ->
  d_path s1 = d_path s2 -> prt s1 = prt s2 -> files s1 = files s2 -> stdout s1 = stdout s2 -> s1 = s2.
Proof.
  destruct s1, s2. cbn. intros -> -> -> -> Hg -> -> -> -> -> ->. f_equal.
  now apply functional_extensionality.
Qed.

Lemma set_glob_comm v w x y s : v <> w -> set_glob v x (set_glob w y s) = set_glob w y (set_glob v x s).
Proof. intros Hn. apply st_eq; try reflexivity. intros u. cbn. repeat destruct (decide _); congruence. Qed.

Lemma with_out_self s : with_out s s = s.
Proof. apply st_eq; try reflexivity. intros v. cbn. now destruct (out_var v). Qed.

Lemma with_out_twice o p s : with_out o (with_out p s) = with_out o s.
Proof. apply st_eq; try reflexivity. intros v. cbn. now destruct (out_var v). Qed.

(** ** Views of a state *)

Definition with_label (nm : option string) (x : Z) (d : tdef) : tdef :=
  mk_tdef nm (comment d) (base d) (header d) (loader d) (gen_seed d) (verify d) (child d) x.
Definition with_total (x : Z) (d : tdef) : tdef := with_label (name d) x d.

(** The variables a builder, or the loop around it, may read. *)
Definition row_var (v : G.var) : bool :=
  match v with G.scale | G.refresh | G.set_seeds | G.insert_segments => true | _ => false end.

(** A change of the output part, of the names and checksums of the tables or of other options. *)
Class View (tr : st -> st) : Prop := mk_view {
  vw_Seed : forall s, Seed (tr s) = Seed s;
  vw_perm : forall s, perm (tr s) = perm s;
  vw_d_path : forall s, d_path (tr s) = d_path s;
  vw_glob : forall s v, row_var v = true -> glob (tr s) v = glob s v;
  vw_tdefs : forall s t, with_label None 0 <$> tdefs (tr s) !! t = with_label None 0 <$> tdefs s !! t;
  vw_set_Seed : forall f s, set_Seed f (tr s) = tr (set_Seed f s);
  vw_set_perm : forall f s, set_perm f (tr s) = tr (set_perm f s);
  vw_set_faults : forall f s, set_faults f (tr s) = tr (set_faults f s);
}.

#[export] Instance with_out_view o : View (with_out o).
Proof.
  split; try reflexivity. intros s v Hv. cbn. now destruct v.
Qed.

Lemma view_tdef tr `{View tr} s t :
  (tdefs (tr s) !! t = None /\ tdefs s !! t = None) \/
  exists d nm x, tdefs (tr s) !! t = Some (with_label nm x d) /\ tdefs s !! t = Some d.
Proof.
  pose proof (vw_tdefs s t) as E. destruct (tdefs (tr s) !! t) as [d'|], (tdefs s !! t) as [d|]; try discriminate; [|now left].
  right. exists d, (name d'), (vtotal d'). split; [|reflexivity]. injection E as E1 E2 E3 E4 E5 E6 E7.
  destruct d', d. cbn in *. now subst.
Qed.

(** A description is read for anything but its name and its checksum. *)
Lemma must_view {A} tr `{View tr} what s t (k : tdef -> M A) :
  (forall nm x d, k (with_label nm x d) = k d) ->
  bind (must what (tdefs (tr s) !! t)) k = bind (must what (tdefs s !! t)) k.
Proof.
  intros Hk. destruct (view_tdef tr s t) as [[-> ->]|(d & nm & x & -> & ->)]; [reflexivity|].
  cbn [must]. unfold bind, ret. now rewrite Hk.
Qed.

Lemma view_base tr `{View tr} s t : base_of (tr s) t = base_of s t.
Proof. unfold base_of. destruct (view_tdef tr s (Z.to_nat t)) as [[-> ->]|(d & nm & x & -> & ->)]; reflexivity. Qed.

(** ** Inner computations *)

Record inner {A} (m : M A) : Prop := mk_inner {
  in_view : forall tr, View tr -> forall s, m (tr s) = map_res tr (m s);
  in_keeps : forall s a s', m s = Ok a s' -> glob s' = glob s /\ tdefs s' = tdefs s;
  in_names : forall s a s', m s = Ok a s' -> db_name s' = db_name s /\ flt_scale s' = flt_scale s;
}.

(** An inner computation leaves the output part as it is. *)
Lemma inner_out {A} (m : M A) s a s' :
  inner m -> m s = Ok a s' -> prt s' = prt s /\ files s' = files s /\ stdout s' = stdout s.
Proof.
  intros [Hf _ _] H. pose proof (Hf (with_out s) _ s) as E. rewrite with_out_self, H in E. injection E as ->. done.
Qed.

Lemma inner_through {A} (m : M A) tr `{View tr} s a s' : inner m -> m s = Ok a s' -> m (tr s) = Ok a (tr s').
Proof. intros [Hf _ _] E. now rewrite Hf, E by assumption. Qed.

Lemma inner_run {A} (m : M A) o s a s' : inner m -> m s = Ok a s' -> m (with_out o s) = Ok a (with_out o s').
Proof. apply (inner_through m (with_out o)). Qed.

Lemma inner_ret {A} (a : A) : inner (ret a).
Proof. split; [reflexivity|..]; intros s b s' [= _ <-]; done. Qed.

Lemma inner_stop {A} w : inner (@stop_with A w).
Proof. split; [reflexivity|..]; intros s b s' [=]. Qed.

Lemma inner_bind {A B} (m : M A) (k : A -> M B) : inner m -> (forall a, inner (k a)) -> inner (bind m k).
Proof.
  intros [F K N] H. split.
  - intros tr V s. unfold bind. rewrite F by exact V. destruct (m s) as [a s'|]; cbn; [now apply H|reflexivity].
  - intros s b s' Hb. unfold bind in Hb. destruct (m s) as [a s1|] eqn:E; [|done].
    destruct (K _ _ _ E) as [<- <-]. eapply H, Hb.
  - intros s b s' Hb. unfold bind in Hb. destruct (m s) as [a s1|] eqn:E; [|done].
    destruct (N _ _ _ E) as [<- <-]. eapply H, Hb.
Qed.

Lemma inner_for_list {A} n (f : Z -> M A) : (forall i, inner (f i)) -> forall i, inner (for_list n i f).
Proof.
  intros Hf. induction n as [|n IH]; intros i; cbn [for_list]; [apply inner_ret|].
  apply inner_bind; [apply Hf|intros a]. apply inner_bind; [apply IH|intros l; apply inner_ret].
Qed.

Lemma inner_must {A} what (o : option A) : inner (must what o).
Proof. destruct o; [apply inner_ret|apply inner_stop]. Qed.

Lemma inner_gets {A} (f : st -> A) : (forall tr, View tr -> forall s, f (tr s) = f s) -> inner (gets f).
Proof. intros H. split; [intros tr V s; unfold gets; now rewrite H|..]; intros s a s' [= _ <-]; done. Qed.

Lemma inner_get {A} (k : st -> M A) :
  (forall tr, View tr -> forall s, k (tr s) = k s) -> (forall s, inner (k s)) -> inner (bind get k).
Proof.
  intros He Hk. split.
  - intros tr V s. unfold bind, get. rewrite He by exact V. now apply Hk.
  - intros s a s' H. unfold bind, get in H. eapply Hk, H.
  - intros s a s' H. unfold bind, get in H. eapply Hk, H.
Qed.

Lemma inner_modify f :
  (forall tr, View tr -> forall s, f (tr s) = tr (f s)) -> 
  (forall s, glob (f s) = glob s /\ tdefs (f s) = tdefs s /\ db_name (f s) = db_name s /\ flt_scale (f s) = flt_scale s) ->
  inner (modify f).
Proof.
  intros He Hk. split.
  - intros tr V s. unfold modify. now rewrite He.
  - intros s a s' [= _ <-]. now destruct (Hk s) as (? & ? & _).
  - intros s a s' [= _ <-]. now destruct (Hk s) as (_ & _ & ? & ?).
Qed.

(** What is read and written is the same in every view. *)
Ltac view :=
  let tr := fresh "tr" in let V := fresh "V" in
  intros tr V; intros; cbv beta; unfold seed_at, upd_seed, O_CKEY_MAX, L_SKEY_MAX, L_PKEY_MAX;
  repeat first
    [ rewrite (vw_Seed (tr:=tr)) | rewrite (vw_perm (tr:=tr)) | rewrite (vw_d_path (tr:=tr)) | rewrite (vw_glob (tr:=tr)) by reflexivity
    | rewrite (view_base tr) | rewrite (vw_set_Seed (tr:=tr)) | rewrite (vw_set_perm (tr:=tr))
    | rewrite (vw_set_faults (tr:=tr)) ];
  reflexivity.

Create HintDb inner.
#[export] Hint Resolve inner_ret inner_stop inner_must : inner.

(** Goes through a program. *)
Ltac inner_step :=
  lazymatch goal with
  | |- inner (bind get _) => apply inner_get; [view|intros ?]
  | |- inner (bind _ _) => apply inner_bind; [|intros ?]
  | |- inner (gets _) => apply inner_gets; view
  | |- inner (modify _) => apply inner_modify; [view|intros ?; split_and!; reflexivity]
  | |- inner (if ?b then _ else _) => destruct b
  | |- inner (let '(_, _) := ?p in _) => destruct p
  | |- inner (match ?o with Some _ => _ | None => _ end) => destruct o
  | |- _ => solve [eauto with inner]
  end.
Ltac inner_go := cbv zeta; repeat (inner_step; cbv zeta).

Lemma inner_UnifInt lo hi i : inner (UnifInt lo hi i).
Proof. unfold UnifInt. cbv zeta. destruct (hi <? lo); inner_go. Qed.

Lemma inner_random lo hi i : inner (RANDOM lo hi i).
Proof.
  unfold dss_random. apply inner_bind.
  - apply inner_UnifInt.
  - intros v. apply inner_bind; [|inner_go]. unfold count_usage.
    destruct (in_table i); inner_go.
Qed.
#[export] Hint Resolve inner_UnifInt inner_random : inner.

Lemma inner_a_rnd_loop n : forall i c col, inner (a_rnd_loop n i c col).
Proof. induction n as [|n IH]; intros; cbn [a_rnd_loop]; inner_go. Qed.
#[export] Hint Resolve inner_a_rnd_loop : inner.

Lemma inner_V_STR avg sd : inner (V_STR avg sd).
Proof. unfold V_STR, a_rnd. inner_go. Qed.

Lemma inner_pick_str d c : inner (pick_str d c).
Proof. unfold pick_str. inner_go. Qed.

Lemma inner_strcpy what cap x : inner (strcpy_to what cap x).
Proof. unfold strcpy_to. inner_go. Qed.

Lemma inner_strcpy_over what cap room x : inner (strcpy_over what cap room x).
Proof. unfold strcpy_over. inner_go. Qed.

Lemma inner_dist_text what d i : inner (dist_text what d i).
Proof. unfold dist_text. inner_go. Qed.

Lemma inner_gen_phone i sd : inner (gen_phone i sd).
Proof. unfold gen_phone. inner_go. Qed.

Lemma inner_gen_city n : inner (gen_city n).
Proof. unfold gen_city. inner_go. Qed.

Lemma inner_gen_color x : inner (gen_color x).
Proof. unfold gen_color. inner_go. Qed.

Lemma inner_permute_loop n : forall i c sd, inner (permute_loop n i c sd).
Proof. induction n as [|n IH]; intros; cbn [permute_loop]; inner_go. Qed.
#[export] Hint Resolve inner_V_STR inner_pick_str inner_strcpy inner_strcpy_over inner_dist_text inner_gen_phone
  inner_gen_city inner_gen_color inner_permute_loop : inner.

Lemma inner_permute a c sd : inner (permute a c sd).
Proof. unfold permute. inner_go. Qed.
#[export] Hint Resolve inner_permute : inner.

Lemma inner_permute_dist d sd : inner (permute_dist d sd).
Proof. unfold permute_dist. inner_go. Qed.
#[export] Hint Resolve inner_permute_dist : inner.

Lemma inner_agg_str_loop n : forall set d col dest, inner (agg_str_loop n set d col dest).
Proof. induction n as [|n IH]; intros; cbn [agg_str_loop]; inner_go. Qed.
#[export] Hint Resolve inner_agg_str_loop : inner.

Lemma inner_agg_str set n col : inner (agg_str set n col).
Proof. unfold agg_str. inner_go. Qed.
#[export] Hint Resolve inner_agg_str : inner.

Lemma inner_mk_cust D n : inner (mk_cust D n).
Proof. unfold mk_cust. inner_go. Qed.

Lemma inner_mk_supp D n : inner (mk_supp D n).
Proof. unfold mk_supp. inner_go. Qed.

Lemma inner_mk_part D n : inner (mk_part D n).
Proof. unfold mk_part. inner_go. Qed.

Lemma inner_lines D n : forall lcnt okey ck dt od pr tp, inner (mk_lineorder_rows D n lcnt okey ck dt od pr tp).
Proof.
  induction n as [|n IH]; intros; cbn [mk_lineorder_rows]; [apply inner_ret|].
  apply inner_bind; [unfold mk_lineorder_row; inner_go|intros r; inner_go].
Qed.
#[export] Hint Resolve inner_lines : inner.

Lemma inner_mk_order D i upd : inner (mk_order D i upd).
Proof. unfold mk_order. inner_go. Qed.

Lemma inner_row_start t : inner (row_start t).
Proof. unfold row_start. inner_go. Qed.

Lemma inner_row_stop t : inner (row_stop t).
Proof.
  unfold row_stop. cbv zeta. apply inner_get; [|intros; inner_go]. intros tr V s.
  rewrite (must_view tr) by reflexivity. now rewrite (vw_glob (tr:=tr)) by reflexivity.
Qed.
#[export] Hint Resolve inner_mk_cust inner_mk_supp inner_mk_part inner_mk_order inner_row_start
  inner_row_stop : inner.

(** Reading the distribution file. *)
Lemma inner_read_dist getenv file_text path name : inner (read_dist getenv file_text path name).
Proof.
  unfold read_dist. inner_step; [apply inner_gets; view|]. inner_step.
  - destruct a as [p|]; [apply inner_ret|]. cbv zeta. destruct (_ <=? _); [apply inner_stop|apply inner_ret].
  - destruct (file_text a0) as [x|]; [|apply inner_stop].
    destruct (read_lines _ _ _ _ _); [destruct (negb _)| |]; auto with inner.
Qed.
#[export] Hint Resolve inner_read_dist : inner.

Lemma inner_load_dists getenv file_text : inner (load_dists getenv file_text).
Proof. unfold load_dists. inner_go. Qed.
