(* ===== verification/Tables.v ===== *)
(** The flat files: the text of every row, and what [gen_tbl] leaves in the file of its
    table. *)
From S2P Require Import Prelude CString Float64 Rng State Consts Streams Dist Bcd2 Sparse Calendar DateDim Build RowSpec Config Shipped Output Print Relational Parallel Chunks Driver Frame.

(** ** The text of a row *)

(** Fields, each followed by the separator, and a newline. *)
Definition row_text (fields : list string) : string :=
  fold_right (fun f rest => f +:+ SEPARATOR +:+ rest) newline fields.

(** [PR_HUGE]: the two words of a key. *)
Definition huge_text (k : Z * Z) : string :=
  if snd k =? 0 then fmt_d (fst k) else fmt_d (snd k) +:+ fmt_0d 7 (fst k).

Definition cust_fields (c : customer_t) : list string :=
  [fmt_d (c_custkey c); c_name c; c_address c; c_city c; c_nation_name c; c_region_name c;
   c_phone c; c_mktsegment c].
Definition supp_fields (s : supplier_t) : list string :=
  [fmt_d (s_suppkey s); s_name s; s_address s; s_city s; s_nation_name s; s_region_name s; s_phone s].
Definition part_fields (p : part_t) : list string :=
  [fmt_d (p_partkey p); p_name p; p_mfgr p; p_category p; p_brand p; p_color p; p_type p;
   fmt_d (p_size p); p_container p].
Definition line_fields (l : lineorder_t) : list string :=
  [huge_text (l_okey l); fmt_d (l_linenumber l); fmt_d (l_custkey l); fmt_d (l_partkey l);
   fmt_d (l_suppkey l); l_orderdate l; l_opriority l; fmt_d (l_ship_priority l);
   fmt_d (l_quantity l); fmt_d (l_extended_price l); fmt_d (l_order_totalprice l);
   fmt_d (l_discount l); fmt_d (l_revenue l); fmt_d (l_supp_cost l); fmt_d (l_tax l);
   l_commit_date l; l_shipmode l].
Definition date_fields (d : date_t) : list string :=
  [fmt_d (datekey d); date d; dayofweek d; d_month d; fmt_d (year d); fmt_d (yearmonthnum d);
   yearmonth d; fmt_d (daynuminweek d); fmt_d (daynuminmonth d); fmt_d (daynuminyear d);
   fmt_d (monthnuminyear d); fmt_d (weeknuminyear d); sellingseason d; lastdayinweekfl d;
   lastdayinmonthfl d; holidayfl d; weekdayfl d].

(** The texts of a list of rows. *)
Fixpoint texts {A} (text : A -> string) (l : list A) : string :=
  match l with [] => "" | a :: l => text a +:+ texts text l end.

Definition cust_text (c : customer_t) : string := row_text (cust_fields c).
Definition supp_text (s : supplier_t) : string := row_text (supp_fields s).
Definition part_text (p : part_t) : string := row_text (part_fields p).
Definition order_text (o : order_t) : string := texts (fun l => row_text (line_fields l)) (o_lineorders o).
Definition date_text (d : date_t) : string := row_text (date_fields d).

(** ** Printing appends it *)

(** Appending to an open file. *)
Definition emit (f : nat) (x : string) : st -> st := State.set_files (alter (append x) f).

Lemma emit_emit f x y s : emit f y (emit f x s) = emit f (x +:+ y) s.
Proof.
  unfold emit, State.set_files. cbn. f_equal. apply list_eq. intros i.
  destruct (decide (f = i)) as [->|Hne].
  - rewrite !list_lookup_alter_eq. destruct (files s !! i) as [[p b]|]; [|done].
    cbn. unfold append. cbn. now rewrite app_assoc_s.
  - now rewrite !list_lookup_alter_ne by exact Hne.
Qed.

Lemma append_nil f : append "" f = f.
Proof. destruct f. unfold append. cbn. now rewrite app_nil_r_s. Qed.

Lemma emit_nil f s : emit f "" s = s.
Proof.
  destruct s. unfold emit, State.set_files. cbn. f_equal. apply list_eq. intros i.
  destruct (decide (f = i)) as [->|Hne]; [|now rewrite list_lookup_alter_ne].
  rewrite list_lookup_alter_eq. destruct (_ !! i) as [x|]; [|done]. cbn. now rewrite append_nil.
Qed.

(** [m] appends [x] to file [f] and returns [r], outside columnar output. *)
Definition prints {A} (f : nat) (x : string) (m : M A) (r : A) : Prop :=
  forall s, glob s G.columnar = 0 -> m s = Ok r (emit f x s).

Lemma prints_ret {A} f (r : A) : prints f "" (ret r) r.
Proof. intros s _. unfold ret. now rewrite emit_nil. Qed.

Lemma prints_bind {A B} f x y (m : M A) (k : A -> M B) a r :
  prints f x m a -> prints f y (k a) r -> prints f (x +:+ y) (bind m k) r.
Proof.
  intros H1 H2 s Hs. unfold bind. rewrite H1 by exact Hs. rewrite H2 by exact Hs. now rewrite emit_emit.
Qed.

Lemma prints_dbg f d len : prints f (dbg_text false d len +:+ SEPARATOR) (dbg_print (Some f) d len 1) tt.
Proof.
  intros s Hs. unfold dbg_print, bind, gets. rewrite Hs. cbn [Z.eqb negb]. unfold fprintf, modify.
  exact (f_equal (Ok tt) (emit_emit f _ _ s)).
Qed.

(** A field, then the rest of the row. *)
Lemma prints_field {B} f d len rest (k : M B) r t :
  dbg_text false d len = t -> prints f rest k r ->
  prints f (t +:+ SEPARATOR +:+ rest) (dbg_print (Some f) d len 1;; k) r.
Proof.
  intros <- Hk. rewrite <- app_assoc_s. eapply (prints_bind f _ rest); [apply prints_dbg|exact Hk].
Qed.

Lemma prints_end {B} f (k : M B) r : prints f "" k r -> prints f newline (PR_END (Some f);; k) r.
Proof.
  intros Hk. rewrite <- (app_nil_r_s newline). eapply (prints_bind f newline ""); [|exact Hk]. intros s _. reflexivity.
Qed.

Lemma prints_len {B} f x a b (k : Z -> M B) r :
  prints f x (k b) r -> prints f x (n <- columnar_len a b;; k n) r.
Proof. intros H s Hs. unfold bind, columnar_len, gets. rewrite Hs. cbn [Z.eqb negb]. now apply H. Qed.

Ltac prints_go :=
  repeat lazymatch goal with
  | |- prints _ _ (bind (columnar_len _ _) _) _ => apply prints_len
  | |- prints _ _ (bind (PR_END _) _) _ => apply prints_end
  | |- prints _ _ (ret _) _ => apply prints_ret
  | |- prints _ _ (bind _ _) _ => eapply prints_field; [reflexivity|]
  end.

Section Rows.
Context (Os : os).

(** The print function [p] has file [f] open. *)
Definition is_open (p : pr_fn) (f : nat) (s : st) : Prop := fp (prt s) p = Some f.

Lemma static_fp_open p t mode f s :
  is_open p f s -> static_fp Os p t mode s = Ok (Some f) s.
Proof. intros H. unfold static_fp, bind, gets. now rewrite H. Qed.

Lemma pr_cust_text f c mode s :
  is_open P_cust f s -> glob s G.columnar = 0 -> pr_cust Os c mode s = Ok 0 (emit f (cust_text c) s).
Proof.
  intros Ho Hs. unfold pr_cust. rewrite (bind_ok _ _ _ _ _ (static_fp_open _ _ _ _ _ Ho)).
  revert s Ho Hs. enough (H : prints f (cust_text c) _ 0) by (intros s _ Hs; exact (H s Hs)).
  unfold cust_text, row_text, cust_fields. cbn [fold_right]. prints_go.
Qed.

Lemma pr_supp_text f c mode s :
  is_open P_supp f s -> glob s G.columnar = 0 -> pr_supp Os c mode s = Ok 0 (emit f (supp_text c) s).
Proof.
  intros Ho Hs. unfold pr_supp. rewrite (bind_ok _ _ _ _ _ (static_fp_open _ _ _ _ _ Ho)).
  revert s Ho Hs. enough (H : prints f (supp_text c) _ 0) by (intros s _ Hs; exact (H s Hs)).
  unfold supp_text, row_text, supp_fields. cbn [fold_right]. prints_go.
Qed.

Lemma pr_part_text f c mode s :
  is_open P_part f s -> glob s G.columnar = 0 -> pr_part Os c mode s = Ok 0 (emit f (part_text c) s).
Proof.
  intros Ho Hs. unfold pr_part. rewrite (bind_ok _ _ _ _ _ (static_fp_open _ _ _ _ _ Ho)).
  revert s Ho Hs. enough (H : prints f (part_text c) _ 0) by (intros s _ Hs; exact (H s Hs)).
  unfold part_text, row_text, part_fields. cbn [fold_right]. prints_go.
Qed.

Lemma pr_date_text f c mode s :
  is_open P_date f s -> glob s G.columnar = 0 -> pr_date Os c mode s = Ok 0 (emit f (date_text c) s).
Proof.
  intros Ho Hs. unfold pr_date. rewrite (bind_ok _ _ _ _ _ (static_fp_open _ _ _ _ _ Ho)).
  revert s Ho Hs. enough (H : prints f (date_text c) _ 0) by (intros s _ Hs; exact (H s Hs)).
  unfold date_text, row_text, date_fields. cbn [fold_right]. prints_go.
Qed.

Lemma prints_lineorder f l : prints f (row_text (line_fields l)) (pr_lineorder (Some f) l) tt.
Proof.
  unfold pr_lineorder, row_text, line_fields. cbn [fold_right].
  repeat (eapply prints_field; [reflexivity|]). intros s _. reflexivity.
Qed.

Lemma prints_lines f ls : prints f (texts (fun l => row_text (line_fields l)) ls) (pr_lines (Some f) ls) tt.
Proof.
  induction ls as [|l ls IH]; cbn [texts pr_lines]; [apply prints_ret|].
  eapply prints_bind; [apply prints_lineorder|exact IH].
Qed.

Lemma pr_line_text f o mode s :
  is_open P_line f s -> last_mode (prt s) = mode -> glob s G.columnar = 0 ->
  pr_line Os o mode s = Ok 0 (emit f (order_text o) s).
Proof.
  intros Ho Hm Hs. unfold pr_line, bind, gets, ret. rewrite Ho, Hm, Z.eqb_refl.
  rewrite prints_lines by exact Hs. reflexivity.
Qed.
End Rows.

(** ** One table *)

(** The settings of a plain run: flat files of whole rows, no segments, no calibration. *)
Record plain_run (s : st) : Prop := mk_plain_run {
  pr_columnar : glob s G.columnar = 0;
  pr_set_seeds : glob s G.set_seeds = 0;
  pr_validate : glob s G.validate = 0;
  pr_direct : glob s G.direct = 0;
  pr_updates : glob s G.updates = 0;
  pr_segments : glob s G.insert_segments = 0;
}.

(** The full path of a table file. *)
Definition full_path (Os : os) (nm : string) : string :=
  match nm with
  | String "/" _ => nm
  | _ => env_config (getenv Os) PATH_TAG PATH_DFLT +:+ "/" +:+ nm
  end.

(** The file of a table can be opened without a question. *)
Record openable (Os : os) (nm : string) (s : st) : Prop := mk_openable {
  oa_len : strlen (full_path Os nm) < 256;
  oa_stat : stat Os (full_path Os nm) <> StatFailed;
  oa_force : glob s G.force <> 0 \/
    match stat Os (full_path Os nm) with StatOk k => k | _ => stale Os end <> Regular;
  oa_can : can_open Os (full_path Os nm) = true;
}.

(** [s] with a new file on [nm] that print function [p] writes to. *)
Definition with_file (Os : os) (p : pr_fn) (nm : string) (s : st) : st :=
  set_prt (with_fp p (Some (length (files s))))
    (State.set_files (fun l => l ++ [opened Os (full_path Os nm) ""]) s).

Lemma sprintf_ok what n x s : strlen x < n -> sprintf what n x s = Ok x s.
Proof. intros H. unfold sprintf. destruct (Z.leb_spec n (strlen x)); [lia|reflexivity]. Qed.

Lemma tbl_open_ok Os t d nm s :
  tdefs s !! Z.to_nat t = Some d -> name d = Some nm -> glob s G.columnar = 0 -> openable Os nm s ->
  tbl_open Os t s = Ok (length (files s)) (State.set_files (fun l => l ++ [opened Os (full_path Os nm) ""]) s).
Proof.
  intros Hd Hn Hc [Hl Hs Hf Ho]. unfold tbl_open.
  rewrite (bind_ok _ _ d s s) by (unfold bind, get; now rewrite Hd).
  rewrite (bind_ok _ _ nm s s) by now rewrite Hn.
  rewrite (bind_ok _ _ (full_path Os nm) s s).
  2:{ unfold full_path in *. destruct nm as [|c nm]; [now apply sprintf_ok|].
      destruct c as [[] [] [] [] [] [] [] []]; now apply sprintf_ok. }
  rewrite (bind_ok get _ s s s) by reflexivity.
  set (k := match stat Os (full_path Os nm) with StatOk k => k | _ => stale Os end) in *.
  rewrite (bind_ok _ _ k s s) by (unfold k; destruct (stat Os (full_path Os nm)); done).
  rewrite (bind_ok _ _ tt s s).
  2:{ destruct (decide (k = Regular)) as [Hk|]; [|reflexivity].
      destruct (Z.eqb_spec (glob s G.force) 0); [|reflexivity]. destruct Hf; done. }
  rewrite Ho. rewrite (bind_ok _ _ tt s s) by reflexivity.
  unfold new_file, bind, gets, modify, ret, get. cbn [glob State.set_files]. rewrite Hc.
  rewrite andb_false_r. reflexivity.
Qed.

Lemma inner_gen_rows {A} t (mk : Z -> M A) n i : (forall i, inner (mk i)) -> inner (gen_rows t mk n i).
Proof. intros Hm. apply inner_for_list. intros j. unfold gen_row. inner_go. Qed.

Section Table.
Context (Os : os) (utcoff : Z -> Z) (nk rk : Z) (D : dists) {A} (t : Z) (p : pr_fn) (ptable pmode : Z)
  (mk : Z -> M A) (to_row : A -> row) (pr : A -> Z -> M Z) (text : A -> string) (f_ld : ld_fn).

(** How the row of the table is made and printed. *)
Record table_of (mode : Z) : Prop := mk_table_of {
  to_inner : forall i, inner (mk i);
  to_switch : forall tr, View tr -> forall i g s a s1, glob s G.insert_segments = 0 -> mk i s = Ok a s1 ->
    gen_switch Os utcoff nk rk D t i mode g (tr s) =
    (deliver Os nk rk t (to_row a) mode;; ret (mode, g)) (tr s1);
  to_load : forall a m, call_loader Os f_ld (to_row a) m = pr a m;
  to_print : forall a m f s, is_open p f s -> (p = P_line -> last_mode (prt s) = m) ->
    glob s G.columnar = 0 -> pr a m s = Ok 0 (emit f (text a) s);
  to_first : forall a s d nm, plain_run s -> fp (prt s) p = None -> (p = P_line -> last_mode (prt s) = mode) ->
    tdefs s !! Z.to_nat t = Some d -> name d = Some nm -> openable Os nm s ->
    pr a mode s = pr a mode (with_file Os p nm s);
}.

Context (mode : Z) (HT : table_of mode).

Lemma plain_out o s : plain_run s -> plain_run (with_out o s).
Proof. intros []. by split. Qed.

(** Delivering a row in a plain run is printing it. *)
Lemma deliver_plain s d a m :
  plain_run s -> tdefs s !! Z.to_nat t = Some d -> fst (loader d) = Some f_ld ->
  deliver Os nk rk t (to_row a) m s = (_ <- pr a m;; ret tt) s.
Proof.
  intros [_ H1 H2 H3 _ _] Hd Hl. unfold deliver. rewrite (bind_ok get _ s s s) by reflexivity.
  rewrite H1, H2, H3. cbn [Z.eqb negb]. rewrite (bind_ok _ _ d s s) by now rewrite Hd.
  rewrite (bind_ok _ _ f_ld s s) by now rewrite Hl. now rewrite (to_load _ HT).
Qed.

(** The rows of the loop, with the file open. *)
Lemma gen_loop_open f d n : forall i g o s L s',
  gen_rows t mk n i s = Ok L s' -> plain_run s -> tdefs s !! Z.to_nat t = Some d ->
  fst (loader d) = Some f_ld -> is_open p f o -> (p = P_line -> last_mode (prt o) = mode) ->
  gen_loop Os utcoff nk rk D n t i mode g (with_out o s) = Ok tt (with_out (emit f (texts text L) o) s').
Proof.
  induction n as [|n IH]; intros i g o s L s' HL Hp Hd Hl Ho Hm.
  - cbn in HL. injection HL as <- <-. cbn [texts gen_loop]. now rewrite emit_nil.
  - unfold gen_rows in HL. cbn [for_list] in HL. unfold bind in HL.
    destruct (gen_row t mk i s) as [a s3|] eqn:Ea; [|done].
    destruct (for_list n (i + 1) (gen_row t mk) s3) as [L' s4|] eqn:EL; [|done].
    injection HL as <- <-. unfold gen_row, bind, ret in Ea.
    destruct (row_start t s) as [[] s1|] eqn:E1; [|done]. destruct (mk i s1) as [a' s2|] eqn:E2; [|done].
    destruct (row_stop t s2) as [[] s3'|] eqn:E3; [|done]. injection Ea as <- <-.
    destruct (in_keeps _ (inner_row_start t) _ _ _ E1) as [G1 T1].
    destruct (in_keeps _ (to_inner _ HT i) _ _ _ E2) as [G2 T2].
    destruct (in_keeps _ (inner_row_stop t) _ _ _ E3) as [G3 T3].
    assert (Hp2 : plain_run s2) by (destruct Hp; split; congruence).
    assert (Hp3 : plain_run s3') by (destruct Hp; split; congruence).
    cbn [gen_loop]. rewrite (bind_ok _ _ tt _ (with_out o s1)) by (apply inner_run; [apply inner_row_start|exact E1]).
    rewrite (bind_ok _ _ (mode, g) _ (with_out (emit f (text a') o) s2)).
    2:{ rewrite (to_switch _ HT (with_out o) _ _ _ _ a' s2) by (rewrite ?G1; (apply Hp || exact E2)).
        rewrite (bind_ok _ _ tt _ (with_out (emit f (text a') o) s2)); [reflexivity|].
        rewrite (deliver_plain _ d); [|now apply plain_out|cbn; congruence|exact Hl].
        rewrite (bind_ok _ _ 0 _ (with_out (emit f (text a') o) s2)); [reflexivity|].
        rewrite (to_print _ HT _ _ f); [reflexivity|exact Ho|exact Hm|apply Hp2]. }
    rewrite (bind_ok _ _ tt _ (with_out (emit f (text a') o) s3'))
      by (apply inner_run; [apply inner_row_stop|exact E3]).
    rewrite (bind_ok _ _ tt _ (with_out (emit f (text a') o) s3')).
    2:{ unfold show_seeds. rewrite (bind_ok get _ _ _ _ eq_refl). cbn [glob with_out].
        change (out_var G.set_seeds) with false. cbv iota. now rewrite (pr_set_seeds _ Hp3). }
    cbn [fst snd texts]. rewrite (IH _ _ _ _ L' s4); [|exact EL|exact Hp3|congruence|exact Hl|exact Ho|exact Hm].
    now rewrite emit_emit.
Qed.
(** The first row opens the file. *)
Lemma gen_loop_first d nm n i g o s L s' :
  gen_rows t mk (S n) i s = Ok L s' -> plain_run s -> tdefs s !! Z.to_nat t = Some d ->
  fst (loader d) = Some f_ld -> name d = Some nm -> openable Os nm s -> fp (prt o) p = None ->
  (p = P_line -> last_mode (prt o) = mode) ->
  gen_loop Os utcoff nk rk D (S n) t i mode g (with_out o s) =
  gen_loop Os utcoff nk rk D (S n) t i mode g (with_out (with_file Os p nm o) s).
Proof.
  intros HL Hp Hd Hl Hn Hop Hfp Hm. unfold gen_rows in HL. cbn [for_list] in HL. unfold bind in HL.
  destruct (gen_row t mk i s) as [a s3|] eqn:Ea; [|done]. unfold gen_row, bind, ret in Ea.
  destruct (row_start t s) as [[] s1|] eqn:E1; [|done]. destruct (mk i s1) as [a' s2|] eqn:E2; [|done].
  destruct (in_keeps _ (inner_row_start t) _ _ _ E1) as [G1 T1].
  destruct (in_keeps _ (to_inner _ HT i) _ _ _ E2) as [G2 T2].
  assert (Hp2 : plain_run s2) by (destruct Hp; split; congruence).
  cbn [gen_loop].
  rewrite (bind_ok _ _ tt (with_out o s) (with_out o s1)) by (apply inner_run; [apply inner_row_start|exact E1]).
  rewrite (bind_ok _ _ tt (with_out (with_file Os p nm o) s) (with_out (with_file Os p nm o) s1))
    by (apply inner_run; [apply inner_row_start|exact E1]).
  assert (E : gen_switch Os utcoff nk rk D t i mode g (with_out o s1) =
              gen_switch Os utcoff nk rk D t i mode g (with_out (with_file Os p nm o) s1)).
  { rewrite (to_switch _ HT (with_out o) _ _ _ _ a' s2) by (rewrite ?G1; (apply Hp || exact E2)).
    rewrite (to_switch _ HT (with_out (with_file Os p nm o)) _ _ _ _ a' s2) by (rewrite ?G1; (apply Hp || exact E2)).
    unfold bind. rewrite !(deliver_plain _ d) by first [now apply plain_out|cbn; congruence|exact Hl].
    unfold bind. rewrite (to_first _ HT a' (with_out o s2) d nm); [reflexivity|now apply plain_out|exact Hfp|exact Hm|
      cbn; congruence|exact Hn|]. destruct Hop as [O1 O2 O3 O4]. split; try assumption.
    cbn [glob with_out]. change (out_var G.force) with false. cbv iota. now rewrite G2, G1. }
  unfold bind. rewrite E. reflexivity.
Qed.

(** What [gen_tbl] leaves: the rows of [gen_rows] in a new file. *)
Record wrote (nm : string) (L : list A) (s s2 s' : st) : Prop := mk_wrote {
  wr_files : files s' = files s ++ [opened Os (full_path Os nm) (texts text L)];
  wr_fp : fp (prt s') p = Some (length (files s));
  wr_others : forall q, q <> p -> fp (prt s') q = fp (prt s) q;
  wr_seeds : Seed s' = Seed s2;
  wr_tdefs : tdefs s' = tdefs s;
  wr_stdout : stdout s' = stdout s;
  wr_mode : last_mode (prt s') = last_mode (prt s);
  wr_glob : forall v, v <> G.init -> v <> G.completed -> glob s' v = glob s v;
  wr_inner : forall o, with_out o s' = with_out o s2;
}.

Lemma emit_new f x l path old : length l = f ->
  alter (append x) f (l ++ [mk_file path "" old]) = l ++ [mk_file path x old].
Proof.
  intros <-. induction l as [|y l IH]; cbn; [unfold append; cbn; now rewrite app_nil_s|]. f_equal. exact IH.
Qed.

Lemma gen_rows_keeps n : forall i s L s', gen_rows t mk n i s = Ok L s' ->
  glob s' = glob s /\ tdefs s' = tdefs s /\ prt s' = prt s /\ files s' = files s /\ stdout s' = stdout s.
Proof.
  intros i s L s' H. pose proof (inner_gen_rows t mk n i (to_inner _ HT)) as Hin.
  destruct (in_keeps _ Hin _ _ _ H), (inner_out _ _ _ _ Hin H) as (? & ? & ?). done.
Qed.

Lemma gen_tbl_file d nm n start s L s2 :
  gen_rows t mk (S n) start s = Ok L s2 -> plain_run s -> tdefs s !! Z.to_nat t = Some d ->
  fst (loader d) = Some f_ld -> name d = Some nm -> openable Os nm s -> fp (prt s) p = None ->
  (p = P_line -> last_mode (prt s) = mode) ->
  exists s', gen_tbl Os utcoff nk rk D t start (Z.of_nat (S n)) mode s = Ok tt s' /\ wrote nm L s s2 s'.
Proof.
  intros HL Hp Hd Hl Hn Hop Hfp Hm. unfold gen_tbl.
  rewrite (bind_ok _ _ 0 s s) by (unfold glb, gets; now rewrite (pr_segments _ Hp)).
  change (negb (0 =? 0)) with false. cbv iota zeta.
  rewrite (bind_ok _ _ (glob s G.init) s s) by reflexivity.
  set (o := if glob s G.init =? 0 then set_glob G.init 1 s else s).
  rewrite (bind_ok _ _ tt s o) by (unfold o, set, modify; destruct (glob s G.init =? 0); reflexivity).
  destruct (Z.ltb_spec (Z.of_nat (S n)) 0); [lia|]. rewrite (bind_ok _ _ tt o o) by reflexivity.
  rewrite Nat2Z.id.
  assert (Eo : o = with_out o s).
  { apply st_eq; unfold o; destruct (glob s G.init =? 0); try reflexivity; intros v; cbn [glob with_out set_glob];
      destruct v; reflexivity. }
  assert (Fo : files o = files s /\ prt o = prt s /\ stdout o = stdout s)
    by (unfold o; destruct (glob s G.init =? 0); done).
  destruct Fo as (F1 & F2 & F3).
  set (f := length (files o)). set (o2 := emit f (texts text L) (with_file Os p nm o)).
  rewrite (bind_ok _ _ tt o (with_out o2 s2)).
  2:{ rewrite Eo at 1. rewrite (gen_loop_first d nm n start _ o s L s2) by (rewrite ?F2; assumption).
      apply (gen_loop_open f d); try assumption.
      - unfold is_open. cbn. now rewrite decide_True.
      - cbn. now rewrite F2. }
  unfold bind, glb, gets, set, modify. eexists. split; [reflexivity|].
  destruct (gen_rows_keeps _ _ _ _ _ HL) as (G2 & T2 & _).
  split; cbn [files prt stdout Seed tdefs glob set_glob with_out].
  - unfold o2, emit. cbn [files State.set_files with_file set_prt]. unfold opened. rewrite emit_new by reflexivity. now rewrite F1.
  - unfold o2, f. cbn. rewrite decide_True by reflexivity. now rewrite F1.
  - intros q Hq. cbn. rewrite decide_False by exact Hq. now rewrite F2.
  - reflexivity.
  - exact T2.
  - exact F3.
  - cbn. now rewrite F2.
  - intros v V1 V2. destruct (decide (v = G.completed)) as [->|]; [done|]. rewrite G2.
    destruct (out_var v); [|reflexivity]. cbn. unfold o. destruct (glob s G.init =? 0); [|reflexivity].
    cbn. now rewrite decide_False.
  - intros o'. apply st_eq; try reflexivity. intros v. cbn. destruct (decide (v = G.completed)) as [->|]; [reflexivity|].
    now destruct (out_var v).
Qed.
End Table.

(** ** The five tables *)

Lemma print_prep_ok Os t m d nm s :
  plain_run s -> tdefs s !! Z.to_nat t = Some d -> name d = Some nm -> openable Os nm s ->
  print_prep Os t m s =
  Ok (Some (length (files s))) (State.set_files (fun l => l ++ [opened Os (full_path Os nm) ""]) s).
Proof.
  intros Hp Hd Hn Ho. unfold print_prep. rewrite (bind_ok get _ s s s) by reflexivity.
  rewrite (bind_ok _ _ d s s) by now rewrite Hd. rewrite (pr_updates _ Hp). cbn [Z.eqb negb].
  rewrite (bind_ok _ _ _ _ _ (tbl_open_ok Os t d nm s Hd Hn (pr_columnar _ Hp) Ho)). reflexivity.
Qed.

Lemma with_file_fp Os p nm s : fp (prt (with_file Os p nm s)) p = Some (length (files s)).
Proof. cbn. now rewrite decide_True. Qed.

Lemma static_fp_first Os p t m d nm s :
  plain_run s -> fp (prt s) p = None -> tdefs s !! Z.to_nat t = Some d -> name d = Some nm -> openable Os nm s ->
  static_fp Os p t m s = Ok (Some (length (files s))) (with_file Os p nm s) /\
  static_fp Os p t m (with_file Os p nm s) = Ok (Some (length (files s))) (with_file Os p nm s).
Proof.
  intros Hp Hf Hd Hn Ho. split; [|apply static_fp_open, with_file_fp].
  unfold static_fp. rewrite (bind_ok _ _ None s s) by (unfold gets; now rewrite Hf).
  rewrite (bind_ok _ _ _ _ _ (print_prep_ok Os t m d nm s Hp Hd Hn Ho)). reflexivity.
Qed.

Ltac first_file Hp Hf Hd Hn Ho :=
  match goal with |- context [static_fp ?Os ?p ?t ?m] =>
    destruct (static_fp_first Os p t m _ _ _ Hp Hf Hd Hn Ho) as [E1 E2];
    rewrite (bind_ok _ _ _ _ _ E1), (bind_ok _ _ _ _ _ E2); reflexivity
  end.

Section Tables.
Context (Os : os) (utcoff : Z -> Z) (nk rk : Z) (D : dists).

Lemma cust_table mode : table_of Os utcoff nk rk D CUST P_cust (mk_cust D) R_cust (pr_cust Os) cust_text Fpr_cust mode.
Proof.
  split.
  - intros i. apply inner_mk_cust.
  - intros tr V i g s a s1 _ Hm. unfold gen_switch. change (CUST =? LINE) with false.
    change (CUST =? SUPP) with false. change (CUST =? CUST) with true. cbv iota.
    exact (bind_ok _ _ _ _ _ (inner_through _ tr _ _ _ (inner_mk_cust D i) Hm)).
  - reflexivity.
  - intros a m f s Ho _ Hs. now apply pr_cust_text.
  - intros a s d nm Hp Hf _ Hd Hn Ho. unfold pr_cust. first_file Hp Hf Hd Hn Ho.
Qed.

Lemma supp_table mode : table_of Os utcoff nk rk D SUPP P_supp (mk_supp D) R_supp (pr_supp Os) supp_text Fpr_supp mode.
Proof.
  split.
  - intros i. apply inner_mk_supp.
  - intros tr V i g s a s1 _ Hm. unfold gen_switch. change (SUPP =? LINE) with false.
    change (SUPP =? SUPP) with true. cbv iota.
    exact (bind_ok _ _ _ _ _ (inner_through _ tr _ _ _ (inner_mk_supp D i) Hm)).
  - reflexivity.
  - intros a m f s Ho _ Hs. now apply pr_supp_text.
  - intros a s d nm Hp Hf _ Hd Hn Ho. unfold pr_supp. first_file Hp Hf Hd Hn Ho.
Qed.

Lemma part_table mode : table_of Os utcoff nk rk D PART P_part (mk_part D) R_part (pr_part Os) part_text Fpr_part mode.
Proof.
  split.
  - intros i. apply inner_mk_part.
  - intros tr V i g s a s1 _ Hm. unfold gen_switch. change (PART =? LINE) with false.
    change (PART =? SUPP) with false. change (PART =? CUST) with false. change (PART =? PART) with true.
    cbv iota. exact (bind_ok _ _ _ _ _ (inner_through _ tr _ _ _ (inner_mk_part D i) Hm)).
  - reflexivity.
  - intros a m f s Ho _ Hs. now apply pr_part_text.
  - intros a s d nm Hp Hf _ Hd Hn Ho. unfold pr_part. first_file Hp Hf Hd Hn Ho.
Qed.

(** The dates are computed from their index alone. *)
Definition date_row (i : Z) : M date_t := must "mk_date" (mk_date utcoff i).

Lemma date_table : table_of Os utcoff nk rk D DATE P_date date_row R_date (pr_date Os) date_text Fpr_date 0.
Proof.
  split.
  - intros i. apply inner_must.
  - intros tr V i g s a s1 _ Hm. unfold gen_switch. change (DATE =? LINE) with false.
    change (DATE =? SUPP) with false. change (DATE =? CUST) with false. change (DATE =? PART) with false.
    change (DATE =? DATE) with true. cbv iota.
    exact (bind_ok _ _ _ _ _ (inner_through _ tr _ _ _ (inner_must _ _) Hm)).
  - reflexivity.
  - intros a m f s Ho _ Hs. now apply pr_date_text.
  - intros a s d nm Hp Hf _ Hd Hn Ho. unfold pr_date. first_file Hp Hf Hd Hn Ho.
Qed.

(** Orders, for one update number. *)
Definition order_row (upd : Z) (i : Z) : M order_t := mk_order D i (upd %c 10000).

Lemma inner_order_row upd i : inner (order_row upd i).
Proof. apply inner_mk_order. Qed.

Lemma order_switch mode tr : View tr -> forall i g s a s1,
  glob s G.insert_segments = 0 -> order_row mode i s = Ok a s1 ->
  gen_switch Os utcoff nk rk D LINE i mode g (tr s) =
  (deliver Os nk rk LINE (R_order a) mode;; ret (mode, g)) (tr s1).
Proof.
  unfold order_row. intros V i g s a s1 Hs Hm. unfold gen_switch. rewrite Z.eqb_refl.
  pose proof (inner_through _ tr _ _ _ (inner_mk_order D i (mode %c 10000)) Hm) as Hr.
  rewrite (bind_ok _ _ _ _ _ Hr).
  destruct (in_keeps _ (inner_mk_order D i (mode %c 10000)) _ _ _ Hm) as [G _].
  assert (E : glb G.insert_segments (tr s1) = Ok 0 (tr s1)).
  { unfold glb, gets. rewrite (vw_glob (tr:=tr)) by reflexivity. now rewrite G, Hs. }
  rewrite (bind_ok _ _ _ _ _ E). reflexivity.
Qed.

Lemma pr_line_first a s d nm :
  plain_run s -> fp (prt s) P_line = None -> tdefs s !! Z.to_nat LINE = Some d -> name d = Some nm ->
  openable Os nm s ->
  pr_line Os a (last_mode (prt s)) s = pr_line Os a (last_mode (prt s)) (with_file Os P_line nm s).
Proof.
  intros Hp Hf Hd Hn Ho. unfold pr_line.
  rewrite (bind_ok (gets prt) _ (prt s) s s) by reflexivity. rewrite Hf.
  rewrite (bind_ok (gets prt) _ (prt (with_file Os P_line nm s)) (with_file Os P_line nm s)
    (with_file Os P_line nm s)) by reflexivity.
  rewrite with_file_fp.
  assert (E : last_mode (prt (with_file Os P_line nm s)) = last_mode (prt s)) by reflexivity.
  rewrite E, Z.eqb_refl. rewrite (bind_ok _ _ (Some (length (files s))) s (with_file Os P_line nm s)); [reflexivity|].
  rewrite (bind_ok _ _ _ _ _ (print_prep_ok Os LINE (last_mode (prt s)) d nm s Hp Hd Hn Ho)). reflexivity.
Qed.

Lemma order_table mode :
  table_of Os utcoff nk rk D LINE P_line (order_row mode) R_order (pr_line Os) order_text Fpr_line mode.
Proof.
  split.
  - apply inner_order_row.
  - apply order_switch.
  - reflexivity.
  - intros a m f s Ho Hm Hs. apply pr_line_text; auto.
  - intros a s d nm Hp Hf Hm Hd Hn Ho. rewrite <- (Hm eq_refl). now apply pr_line_first with d.
Qed.
End Tables.
