(* ===== verification/Format.v ===== *)
(** The format of the flat files, read back: lines of fields that end with a separator. The
    class [Flat] pairs what a row prints with a reader of it. *)
From S2P Require Import Prelude CString Float64 Rng State Consts Streams Dist Bcd2 Sparse Calendar DateDim Build RowSpec Config Shipped Output Print Relational Parallel Chunks Driver Frame Tables.

(** ** Fields that can be told apart *)

Definition bar : ascii := "|".
Definition clean_char (c : ascii) : bool := negb (Ascii.eqb c bar) && negb (Ascii.eqb c nl).
Definition clean (s : string) : Prop := all_chars clean_char s = true.

#[export] Instance clean_dec s : Decision (clean s).
Proof. unfold clean. apply _. Defined.

Lemma clean_app a b : clean a -> clean b -> clean (a +:+ b).
Proof. unfold clean. rewrite all_chars_app. now intros -> ->. Qed.

Lemma clean_app_inv a b : clean (a +:+ b) -> clean a /\ clean b.
Proof. unfold clean. rewrite all_chars_app, andb_true_iff. tauto. Qed.

Lemma clean_rep n c : clean_char c = true -> clean (rep n c).
Proof. intros Hc. unfold clean. induction n as [|n IH]; [reflexivity|]. cbn [rep all_chars]. now rewrite Hc. Qed.

Lemma clean_digits l : forall s, Forall (fun d => 0 <= d < 10) l -> clean s ->
  clean (fold_left (fun acc d => String (digit_char d) acc) l s).
Proof.
  induction l as [|d l IH]; intros s Hl Hs; cbn [fold_left]; [exact Hs|].
  inversion Hl as [|? ? Hd Hl']; subst. apply IH; [exact Hl'|]. unfold clean. cbn [all_chars].
  assert (E : clean_char (digit_char d) = true).
  { pose proof (digit_code d Hd) as Hc. unfold clean_char. rewrite andb_true_iff, !negb_true_iff.
    split; apply Ascii.eqb_neq; intros E; rewrite E in Hc;
      [change (char_code bar) with 124 in Hc|change (char_code nl) with 10 in Hc]; lia. }
  now rewrite E.
Qed.

Lemma clean_udec n : clean (udec n).
Proof. apply clean_digits; [apply digits_of_bounds; lia|reflexivity]. Qed.

Lemma clean_fmt_d n : clean (fmt_d n).
Proof. unfold fmt_d. destruct (n <? 0); [|apply clean_udec]. apply (clean_app "-"); [reflexivity|apply clean_udec]. Qed.

Lemma clean_lpad c w s : clean_char c = true -> clean s -> clean (lpad c w s).
Proof. intros Hc Hs. apply clean_app; [now apply clean_rep|exact Hs]. Qed.

Lemma clean_fmt_0d w n : clean (fmt_0d w n).
Proof.
  unfold fmt_0d. destruct (n <? 0); [apply (clean_app "-"); [reflexivity|]|];
    (apply clean_lpad; [reflexivity|apply clean_udec]).
Qed.

Lemma all_chars_take p n s : all_chars p s = true -> all_chars p (take_s n s) = true.
Proof.
  unfold take_s. generalize (Z.to_nat n) as k. induction s as [|c s IH]; intros [|k] Hs; try reflexivity.
  cbn [all_chars String.substring] in *. rewrite andb_true_iff in Hs. destruct Hs as [-> Hs]. now rewrite IH.
Qed.

Lemma clean_take n s : clean s -> clean (take_s n s).
Proof. apply all_chars_take. Qed.

Lemma clean_fmt_ls w s : clean s -> clean (fmt_ls w s).
Proof. intros Hs. apply clean_app; [exact Hs|now apply clean_rep]. Qed.

Lemma clean_alpha s : all_chars in_alpha s = true -> clean s.
Proof.
  apply all_chars_impl. intros c Hc. unfold clean_char. rewrite andb_true_iff, !negb_true_iff.
  split; apply Ascii.eqb_neq; intros ->; discriminate Hc.
Qed.

Create HintDb clean.
#[export] Hint Resolve clean_app clean_fmt_d clean_fmt_0d clean_take clean_fmt_ls clean_alpha : clean.
#[export] Hint Extern 1 (clean _) => reflexivity : clean.

(** ** Lines and fields *)

(** The pieces of a string that [c] ends, and what follows the last of them. *)
Fixpoint pieces (c : ascii) (s : string) : list string * string :=
  match s with
  | EmptyString => ([], "")
  | String a s =>
      let '(l, tail) := pieces c s in
      if Ascii.eqb a c then ("" :: l, tail)
      else match l with
           | [] => ([], String a tail)
           | x :: l => (String a x :: l, tail)
           end
  end.

Definition lines_of (s : string) : list string := fst (pieces nl s).
Definition fields_of (line : string) : list string := fst (pieces bar line).
Definition parse_table (s : string) : list (list string) := map fields_of (lines_of s).

Example parse_table_ex : parse_table (row_text ["1"; "A B"] +:+ row_text ["2"; ""]) = [["1"; "A B"]; ["2"; ""]].
Proof. reflexivity. Qed.

Lemma pieces_cons c x rest :
  all_chars (fun a => negb (Ascii.eqb a c)) x = true ->
  pieces c (x +:+ String c rest) = (x :: fst (pieces c rest), snd (pieces c rest)).
Proof.
  induction x as [|a x IH]; intros Hx.
  - rewrite app_nil_s. cbn [pieces]. destruct (pieces c rest) as [l tail]. now rewrite Ascii.eqb_refl.
  - cbn [all_chars] in Hx. rewrite andb_true_iff, negb_true_iff in Hx. destruct Hx as [Ha Hx].
    rewrite app_cons_s. cbn [pieces]. now rewrite (IH Hx), Ha.
Qed.

Lemma clean_bar s : clean s -> all_chars (fun a => negb (Ascii.eqb a bar)) s = true.
Proof. apply all_chars_impl. intros c. unfold clean_char. rewrite andb_true_iff. tauto. Qed.

Lemma clean_nl s : clean s -> all_chars (fun a => negb (Ascii.eqb a nl)) s = true.
Proof. apply all_chars_impl. intros c. unfold clean_char. rewrite andb_true_iff. tauto. Qed.

(** A row is a line, and its fields are those printed. *)
Definition row_line (fields : list string) : string := fold_right (fun f rest => f +:+ SEPARATOR +:+ rest) "" fields.

Lemma row_text_line fields : row_text fields = row_line fields +:+ newline.
Proof.
  induction fields as [|f fields IH]; [reflexivity|]. unfold row_text, row_line in *. cbn [fold_right].
  now rewrite IH, !app_assoc_s.
Qed.

Lemma row_line_nl fields : Forall clean fields -> all_chars (fun a => negb (Ascii.eqb a nl)) (row_line fields) = true.
Proof.
  induction 1 as [|f fields Hf _ IH]; [reflexivity|]. unfold row_line in *. cbn [fold_right].
  now rewrite !all_chars_app, IH, (clean_nl _ Hf).
Qed.

Lemma fields_row fields : Forall clean fields -> fields_of (row_line fields) = fields.
Proof.
  unfold fields_of. induction 1 as [|f fields Hf _ IH]; [reflexivity|]. cbn [row_line fold_right].
  change (SEPARATOR +:+ fold_right (fun f rest => f +:+ SEPARATOR +:+ rest) "" fields)
    with (String bar (row_line fields)).
  rewrite pieces_cons by now apply clean_bar. cbn [fst]. now rewrite IH.
Qed.

Lemma parse_row fields rest :
  Forall clean fields -> parse_table (row_text fields +:+ rest) = fields :: parse_table rest.
Proof.
  intros Hf. unfold parse_table, lines_of. rewrite row_text_line, app_assoc_s.
  change (newline +:+ rest) with (String nl rest). rewrite pieces_cons by now apply row_line_nl.
  cbn [fst map]. now rewrite fields_row.
Qed.

(** ** Rows *)

(** What a row prints, and a reader of it. *)
Class Flat (A : Type) := {
  row_fields : A -> list string;
  read_row : list string -> option A;
}.

(** A row that can be read back. *)
Record readable `{Flat A} (a : A) : Prop := mk_readable {
  rd_clean : Forall clean (row_fields a);
  rd_read : read_row (row_fields a) = Some a;
}.

(** Reading a whole file. *)
Definition load `{Flat A} (s : string) : option (list A) := mapM read_row (parse_table s).

Lemma load_rows `{Flat A} (L : list A) :
  Forall readable L -> load (texts (fun a => row_text (row_fields a)) L) = Some L.
Proof.
  unfold load. induction 1 as [|a L [Hc Hr] _ IH]; [reflexivity|]. cbn [texts].
  rewrite parse_row by exact Hc. cbn [mapM]. rewrite Hr, IH. reflexivity.
Qed.

(** Two files with the same text have the same rows. *)
Lemma texts_inj `{Flat A} (L L' : list A) : Forall readable L -> Forall readable L' ->
  texts (fun a => row_text (row_fields a)) L = texts (fun a => row_text (row_fields a)) L' -> L = L'.
Proof. intros H1 H2 E. apply load_rows in H1, H2. congruence. Qed.

Definition read_num : string -> option Z := scan_ld.

#[export] Instance cust_flat : Flat customer_t := {|
  row_fields := cust_fields;
  read_row f :=
    match f with
    | [key; nm; address; city; nation; region; phone; segment] =>
        key ← read_num key;
        Some (mk_customer key nm address (strlen address) city nation region phone segment)
    | _ => None
    end
|}.

#[export] Instance supp_flat : Flat supplier_t := {|
  row_fields := supp_fields;
  read_row f :=
    match f with
    | [key; nm; address; city; nation; region; phone] =>
        key ← read_num key;
        Some (mk_supplier key nm address (strlen address) city nation region phone)
    | _ => None
    end
|}.

#[export] Instance part_flat : Flat part_t := {|
  row_fields := part_fields;
  read_row f :=
    match f with
    | [key; nm; mfgr; category; brand; color; type; size; container] =>
        key ← read_num key; size ← read_num size;
        Some (mk_part_t key nm mfgr category brand color (strlen color) type (strlen type) size container)
    | _ => None
    end
|}.

(** The two words of a key print as one number; below scale 1000 the second is zero. *)
#[export] Instance line_flat : Flat lineorder_t := {|
  row_fields := line_fields;
  read_row f :=
    match f with
    | [okey; number; custkey; partkey; suppkey; orderdate; priority; ship; quantity; price; total; discount;
       revenue; cost; tax; commit; mode] =>
        okey ← read_num okey; number ← read_num number; custkey ← read_num custkey;
        partkey ← read_num partkey; suppkey ← read_num suppkey; ship ← read_num ship;
        quantity ← read_num quantity; price ← read_num price; total ← read_num total;
        discount ← read_num discount; revenue ← read_num revenue; cost ← read_num cost; tax ← read_num tax;
        Some (mk_lineorder (okey, 0) number custkey partkey suppkey orderdate priority ship quantity price total
          discount revenue cost tax commit mode)
    | _ => None
    end
|}.

#[export] Instance date_flat : Flat date_t := {|
  row_fields := date_fields;
  read_row f :=
    match f with
    | [key; dt; day; month; year; ymnum; ym; wday; mday; yday; mnum; wnum; season; lastw; lastm; holiday; weekday] =>
        key ← read_num key; year ← read_num year; ymnum ← read_num ymnum; wday ← read_num wday;
        mday ← read_num mday; yday ← read_num yday; mnum ← read_num mnum; wnum ← read_num wnum;
        Some (mk_date_t key dt day month year ymnum ym wday mday yday mnum wnum season (strlen season)
          lastw lastm holiday weekday)
    | _ => None
    end
|}.
