(* ===== verification/Partial.v ===== *)
(** One step of a parallel run, from [partial] of driver.c to its flat file. *)
From Stdlib Require Import FunctionalExtensionality.
From S2P Require Import Prelude CString Float64 Rng SpeedSeed State Consts Streams Dist Bcd2 Sparse Calendar DateDim Build RowSpec Config Shipped Output Print Relational Parallel Chunks Driver Frame Tables.

(** ** [set_state] is inner *)

Lemma inner_for_loop n body : (forall i, inner (body i)) -> forall i, inner (for_loop n i body).
Proof.
  intros Hb. induction n as [|n IH]; intros i; cbn [for_loop]; [apply inner_ret|].
  apply inner_bind; [apply Hb|intros _; apply IH].
Qed.

Lemma inner_advance i n : inner (ADVANCE_STREAM i n).
Proof. unfold ADVANCE_STREAM. inner_go. Qed.

Lemma inner_fake i n : inner (FAKE_V_STR i n).
Proof. unfold FAKE_V_STR. apply inner_bind; [apply inner_gets; view|intros; apply inner_advance]. Qed.
#[export] Hint Resolve inner_advance inner_fake : inner.

Lemma inner_gen_seed f c k : inner (call_gen_seed f c k).
Proof.
  destruct f; cbn [call_gen_seed]; unfold sd_part, sd_supp, sd_cust, sd_line, sd_psupp, sd_order; inner_go;
    apply inner_for_loop; intros; inner_go; apply inner_for_loop; auto with inner.
Qed.
#[export] Hint Resolve inner_gen_seed : inner.

Lemma inner_skip_step t k : inner (skip_step t k).
Proof.
  unfold skip_step. apply inner_get; [|intros; inner_go]. intros tr V s. rewrite (must_view tr) by reflexivity.
  f_equal. apply functional_extensionality. intros d. now rewrite (must_view tr) by reflexivity.
Qed.

Lemma inner_set_state t sf procs step : inner (set_state t sf procs step).
Proof.
  unfold set_state. destruct (_ || _); [apply inner_ret|]. apply inner_get; [intros tr V s; now apply (must_view tr)|]. intros s.
  apply inner_bind; [apply inner_must|]. intros d. cbv zeta. destruct (procs =? 0); [apply inner_stop|].
  destruct (_ <? _); [apply inner_stop|]. apply inner_bind; [apply inner_for_loop; intros; apply inner_skip_step|].
  intros _. destruct (_ <? _); [apply inner_stop|apply inner_ret].
Qed.

(** ** [set_files] in a parallel run *)

Definition renamed (nm : string) (d : tdef) : tdef :=
  mk_tdef (Some nm) (comment d) (base d) (header d) (loader d) (gen_seed d) (verify d) (child d) (vtotal d).
Definition rename (t : Z) (nm : string) : st -> st := set_tdefs (alter (renamed nm) (Z.to_nat t)).

Definition step_name (nm : string) (step : Z) : string := nm +:+ "." +:+ fmt_d step.

Lemma set_files_step Os t step d nm s :
  tdefs s !! Z.to_nat t = Some d -> name d = Some nm -> child d = NONE -> step <> -1 ->
  Z.land (glob s G.table) (bit t) <> 0 -> strlen (step_name nm step) < 80 ->
  set_files Os t step s = Ok 0 (rename t (step_name nm step) s).
Proof.
  intros Hd Hn Hc Hs Hb Hl. unfold set_files.
  rewrite (bind_ok _ _ (glob s G.table) s s) by reflexivity.
  rewrite (proj2 (Z.eqb_neq _ _) Hb). cbn [negb child_table].
  rewrite (bind_ok get _ s s s) by reflexivity. rewrite (bind_ok _ _ d s s) by now rewrite Hd.
  rewrite (bind_ok _ _ nm s s) by now rewrite Hn. rewrite (proj2 (Z.eqb_neq _ _) Hs). cbn [negb].
  rewrite (bind_ok _ _ (inl (step_name nm step)) s s).
  2:{ fold (step_name nm step). unfold bind. now rewrite sprintf_ok. }
  rewrite Hc. change (negb (NONE =? NONE)) with false. reflexivity.
Qed.

(** [partial], from what it calls. *)
Lemma partial_runs Os utcoff nk rk D t step d nm s rc ex s2 s' :
  tdefs s !! Z.to_nat t = Some d -> name d = Some nm -> child d = NONE -> step <> -1 ->
  Z.land (glob s G.table) (bit t) <> 0 -> strlen (step_name nm step) < 80 -> glob s G.direct = 0 ->
  set_state t (glob s G.scale) (glob s G.children) step (rename t (step_name nm step) s) = Ok (rc, Some ex) s2 ->
  glob s2 = glob s ->
  gen_tbl Os utcoff nk rk D t (rc * (step - 1) + 1) (if step =? glob s G.children then rc + ex else rc)
    (glob s G.upd_num) s2 = Ok tt s' ->
  partial Os utcoff nk rk D t step s = Ok 0 s'.
Proof.
  intros Hd Hn Hc Hs Htab Hlen Hdir E2 Hg Hrun. set (s1 := rename t (step_name nm step) s) in *. unfold partial.
  rewrite (bind_ok _ _ 0 s s) by (unfold glb, gets; now rewrite Hdir).
  cbn [Z.eqb]. rewrite (bind_ok _ _ tt s s1).
  2:{ unfold bind. now rewrite (set_files_step Os t step d nm s). }
  rewrite (bind_ok get _ s1 s1 s1) by reflexivity.
  change (glob s1 G.scale) with (glob s G.scale). change (glob s1 G.children) with (glob s G.children).
  rewrite (bind_ok _ _ _ _ _ E2). rewrite (bind_ok get _ s2 s2 s2) by reflexivity.
  rewrite Hg. rewrite (bind_ok _ _ tt s2 s'); [reflexivity|].
  destruct (step =? glob s G.children); [rewrite (bind_ok _ _ ex s2 s2) by reflexivity|]; exact Hrun.
Qed.

Section Partial.
Context {A} (Os : os) (utcoff : Z -> Z) (nk rk : Z) (D : dists) (t : Z) (p : pr_fn) (mk : Z -> M A)
  (to_row : A -> row) (pr : A -> Z -> M Z) (text : A -> string) (f_ld : ld_fn) (f_sd : sd_fn)
  (S : list Z) (adv : Z -> nat) (same : A -> A -> Prop) (env : st -> Prop).
Context `{HB : !RowBuilder t mk S adv eq same env}.
Context `{HS : !Skips t (call_gen_seed f_sd (if t =? LINE then 1 else 0)) S adv env}.
Context (Ht : row_table t = t) (mode : Z) (HT : table_of Os utcoff nk rk D t p mk to_row pr text f_ld mode).

(** The situation in which step [step] of table [t] is generated. *)
Record step_env (step : Z) (d : tdef) (nm : string) (s : st) : Prop := mk_step_env {
  se_split : split_ok t (glob s G.scale) (glob s G.children) step d S adv s;
  se_rows : row_env t s;
  se_env : env (rename t (step_name nm step) s);
  se_run : plain_run s;
  se_table : Z.land (glob s G.table) (bit t) <> 0;
  se_name : name d = Some nm /\ strlen (step_name nm step) < 80;
  se_fns : gen_seed d = Some f_sd /\ fst (loader d) = Some f_ld;
  se_file : openable Os (step_name nm step) s /\ fp (prt s) p = None /\
    (p = P_line -> last_mode (prt s) = mode);
  se_mode : glob s G.upd_num = mode;
  se_some : 1 <= step_rows (base d) (glob s G.scale) (glob s G.children);
}.

(** The file step [step] writes, against one serial run from the same seeds. *)
Definition step_file (step : Z) (d : tdef) (nm : string) (s : st) : Prop :=
  exists s' L1 L2 L3 L2' s1,
    partial Os utcoff nk rk D t step s = Ok 0 s' /\
    files s' = files s ++ [opened Os (full_path Os (step_name nm step)) (texts text L2')] /\
    gen_rows t mk (Z.to_nat (base d * glob s G.scale)) 1 (rename t (step_name nm step) s) =
      Ok (L1 ++ L2 ++ L3) s1 /\
    Z.of_nat (length L1) = (step - 1) * step_rows (base d) (glob s G.scale) (glob s G.children) /\
    length L2 = step_count (base d) (glob s G.scale) (glob s G.children) step /\
    Forall2 same L2 L2'.

Lemma rename_row_env nm s : row_env t s -> row_env t (rename t nm s).
Proof.
  intros [H1 H2 H3 (d & Hd & Hc)]. split; try assumption. rewrite Ht in *. exists (renamed nm d).
  cbn [rename tdefs set_tdefs]. rewrite list_lookup_alter_eq, Hd. split; [reflexivity|exact Hc].
Qed.

Lemma rename_split nm sf procs step d s :
  split_ok t sf procs step d S adv s -> split_ok t sf procs step (renamed nm d) S adv (rename t nm s).
Proof.
  intros [H1 H2 H3 H4 H5 H6]. split; try assumption. cbn [rename tdefs set_tdefs].
  now rewrite list_lookup_alter_eq, H1.
Qed.

Lemma step_count_pos base sf procs step :
  1 <= step_rows base sf procs -> 0 <= step_extra base sf procs -> exists n, step_count base sf procs step = Datatypes.S n.
Proof.
  intros H1 H2. unfold step_count. destruct (step =? procs);
    match goal with |- exists n, Z.to_nat ?x = _ => exists (Z.to_nat (x - 1)) end; lia.
Qed.

Lemma partial_file step d nm s : step_env step d nm s -> step_file step d nm s.
Proof.
  intros [Hsp Hre Henv Hrun Htab [Hn Hlen] [Hsd Hld] (Hop & Hfp & Hlm) Hmode Hsome].
  pose proof Hsp as [Hd Hc Hbase [Hsf _] Hstep _].
  set (sf := glob s G.scale) in *. set (procs := glob s G.children) in *.
  set (rc := step_rows (base d) sf procs) in *. set (ex := step_extra (base d) sf procs).
  assert (Hex : 0 <= ex < procs) by (apply step_rows_nonneg; lia).
  set (nm' := step_name nm step) in *. set (s1 := rename t nm' s).
  pose proof (rename_row_env nm' s Hre) as Hre1. pose proof (rename_split nm' sf procs step d s Hsp) as Hsp1.
  pose proof (wp_set_state t f_sd S adv env sf procs step s1 (renamed nm' d) Hsd Hsp1 Hre1 Henv) as Hw.
  destruct (parallel_chunk t mk f_sd S adv same env sf procs step s1 (renamed nm' d) Hsd Hsp1 Hre1 Henv)
    as (L1 & L2 & L3 & L2' & sa & sb & R1 & R2 & R3 & R4 & R5).
  cbn [base renamed] in R1, R2, R3, R4, Hw. fold rc ex in Hw, R2, R4.
  unfold bind in R4. unfold wp in Hw.
  destruct (set_state t sf procs step s1) as [r s2|] eqn:E2; [|done]. destruct Hw as [-> [M1 M2 M3 M4 _]].
  destruct (inner_out _ _ _ _ (inner_set_state _ _ _ _) E2) as (O1 & O2 & O3).
  cbn [fst] in R4.
  destruct (step_count_pos (base d) sf procs step Hsome ltac:(lia)) as [n Hcount]. rewrite Hcount in R4.
  destruct (gen_tbl_file Os utcoff nk rk D t p mk to_row pr text f_ld mode HT (renamed nm' d) nm' n
    (rc * (step - 1) + 1) s2 L2' sb R4) as (s' & Hrun' & W).
  - destruct Hrun. split; rewrite M3; assumption.
  - rewrite M4. unfold s1. cbn [rename tdefs set_tdefs]. now rewrite list_lookup_alter_eq, Hd.
  - exact Hld.
  - reflexivity.
  - destruct Hop as [P1 P2 P3 P4]. split; try assumption. now rewrite M3.
  - now rewrite O1.
  - now rewrite O1.
  - exists s', L1, L2, L3, L2', sa. split_and!; try assumption.
    + apply (partial_runs Os utcoff nk rk D t step d nm s rc ex s2); try assumption; [lia|apply Hrun|].
      rewrite Hmode. rewrite <- Hrun'. f_equal. fold procs.
      rewrite <- Hcount. unfold step_count. fold rc ex. destruct (step =? procs); lia.
    + rewrite (wr_files _ _ _ _ _ _ _ _ W), O2. reflexivity.
Qed.
End Partial.

(** ** Properties *)

(** A step of a parallel run writes the customers of its range: [partial] leaves one new
    file, named after the table and the step, whose lines are, row by row and in every
    column but the city, those of the step's range in one serial run from the same seeds,
    for every scale, number of children, step and distributions within the limits of
    [set_state]. *)
Theorem parallel_customers Os utcoff nk rk D mode step d nm s :
  dists_ok D ->
  step_env Os CUST P_cust Fpr_cust Fsd_cust cust_streams cust_adv any_state mode step d nm s ->
  step_file Os utcoff nk rk D CUST (mk_cust D) cust_text same_customer step d nm s.
Proof.
  intros HD. apply (partial_file Os utcoff nk rk D CUST P_cust (mk_cust D) R_cust (pr_cust Os) cust_text Fpr_cust
    Fsd_cust cust_streams cust_adv same_customer any_state (HB := cust_builder D HD) eq_refl mode).
  apply cust_table.
Qed.

(** The same for suppliers, in every column but the city and the phone number, which
    [mk_supp] draws from a stream of the customers that [sd_supp] does not skip. *)
Theorem parallel_suppliers Os utcoff nk rk D mode step d nm s :
  dists_ok D ->
  step_env Os SUPP P_supp Fpr_supp Fsd_supp supp_streams supp_adv any_state mode step d nm s ->
  step_file Os utcoff nk rk D SUPP (mk_supp D) supp_text same_supplier step d nm s.
Proof.
  intros HD. apply (partial_file Os utcoff nk rk D SUPP P_supp (mk_supp D) R_supp (pr_supp Os) supp_text Fpr_supp
    Fsd_supp supp_streams supp_adv same_supplier any_state (HB := supp_builder D HD) eq_refl mode).
  apply supp_table.
Qed.

(** The same for parts, against a serial run over [base * scale] rows, in every column
    but manufacturer, category and brand, whose streams a row moves further than a skip. *)
Theorem parallel_parts Os utcoff nk rk D mode step d nm s :
  dists_ok D ->
  step_env Os PART P_part Fpr_part Fsd_part part_streams part_adv any_state mode step d nm s ->
  step_file Os utcoff nk rk D PART (mk_part D) part_text same_part step d nm s.
Proof.
  intros HD. apply (partial_file Os utcoff nk rk D PART P_part (mk_part D) R_part (pr_part Os) part_text Fpr_part
    Fsd_part part_streams part_adv same_part any_state (HB := part_builder D HD) eq_refl mode).
  apply part_table.
Qed.

(** C9. A step of a parallel run writes the orders of its range with all their lines:
    [partial] leaves one new file, named after the table and the step, whose orders are, one
    by one and in every column but the customer and the priority, those of the step's range
    in one serial run from the same seeds, for every scale, number of children, step and
    distributions within the limits of [set_state]. *)
Theorem parallel_orders Os utcoff nk rk D step d nm s :
  dists_ok D ->
  step_env Os LINE P_line Fpr_line Fsd_line order_streams order_adv (order_env 0) 0 step d nm s ->
  step_file Os utcoff nk rk D LINE (order_row D 0) order_text same_order step d nm s.
Proof.
  intros HD. apply (partial_file Os utcoff nk rk D LINE P_line (order_row D 0) R_order (pr_line Os) order_text
    Fpr_line Fsd_line order_streams order_adv same_order (order_env 0) (HB := order_builder D HD 0) eq_refl 0).
  apply order_table.
Qed.

(** ** Witnesses: steps of a run with scale 1 on four processes, no file existing *)

Definition fresh_os : os := mk_os no_env shipped_files (fun _ => StatNoent) (fun _ => "") Other (fun _ => true) "".
Definition parallel_start (t : Z) : st :=
  set_glob G.children 4 (set_glob G.scale 1 (set_glob G.table (bit t) st_start)).

Ltac step_concrete d0 :=
  split; [split; [reflexivity|reflexivity|vm_compute; discriminate|split; vm_compute; discriminate
                 |split; vm_compute; discriminate|intros i Hi; each_stream Hi; vm_compute; reflexivity]
         |split; [apply Seed_init_ok|reflexivity|reflexivity|exists d0; split; reflexivity]
         |try exact I
         |split; reflexivity
         |vm_compute; discriminate
         |split; [reflexivity|vm_compute; reflexivity]
         |split; reflexivity
         |split; [split; [vm_compute; reflexivity|discriminate|right; discriminate|reflexivity]
                 |split; [reflexivity|intros; reflexivity]]
         |reflexivity
         |vm_compute; discriminate].

Lemma parallel_customers_witness :
  step_file fresh_os (fun _ => 0) 0 0 shipped CUST (mk_cust shipped) cust_text same_customer 3 cust_tdef
    "customer.tbl" (parallel_start CUST).
Proof.
  apply (parallel_customers fresh_os (fun _ => 0) 0 0 shipped 0); [apply shipped_ok|]. step_concrete cust_tdef.
Defined.

Lemma parallel_suppliers_witness :
  step_file fresh_os (fun _ => 0) 0 0 shipped SUPP (mk_supp shipped) supp_text same_supplier 4 supp_tdef
    "supplier.tbl" (parallel_start SUPP).
Proof.
  apply (parallel_suppliers fresh_os (fun _ => 0) 0 0 shipped 0); [apply shipped_ok|]. step_concrete supp_tdef.
Defined.

Lemma parallel_parts_witness :
  step_file fresh_os (fun _ => 0) 0 0 shipped PART (mk_part shipped) part_text same_part 2 part_tdef
    "part.tbl" (parallel_start PART).
Proof.
  apply (parallel_parts fresh_os (fun _ => 0) 0 0 shipped 0); [apply shipped_ok|]. step_concrete part_tdef.
Defined.

Lemma parallel_orders_witness :
  step_file fresh_os (fun _ => 0) 0 0 shipped LINE (order_row shipped 0) order_text same_order 2 line_tdef
    "lineorder.tbl" (parallel_start LINE).
Proof.
  apply (parallel_orders fresh_os (fun _ => 0) 0 0 shipped); [apply shipped_ok|].
  assert (He : order_env 0 (rename LINE (step_name "lineorder.tbl" 2) (parallel_start LINE))).
  { split; [|now left]. vm_compute. split_and!; discriminate || reflexivity. }
  step_concrete line_tdef. exact He.
Defined.
