(* ===== verification/Options.v ===== *)
(** The command line: every list of options ends the program with status 1 or leaves the
    state a run can start from. *)
From Stdlib Require Import QArith Qpower Lqa.
From S2P Require Import Prelude CString Float64 Rng State Consts Streams Dist Bcd2 Sparse Calendar DateDim Build RowSpec Config Shipped Output Print Driver.
Open Scope Z_scope.

(** ** Scaling a row count *)

Lemma fround_nonpos x : fm x <= 0 -> fm (fround x) <= 0.
Proof.
  intros Hx. unfold fround. cbv zeta. set (k := Z.log2 (Z.abs (fm x)) + 1 - fprec).
  destruct (Z.leb_spec k 0); [exact Hx|]. cbn [fm].
  pose proof (rne_nonneg (Z.abs (fm x)) k ltac:(lia)). destruct (Z.eq_dec (fm x) 0) as [E|].
  - rewrite E. reflexivity.
  - rewrite Z.sgn_neg by lia. lia.
Qed.

Lemma f_to_Z_nonpos x : fm x <= 0 -> f_to_Z x <= 0.
Proof.
  intros Hx. unfold f_to_Z. destruct (Z.leb_spec 0 (fe x)).
  - assert (0 < 2 ^ fe x) by (apply Z.pow_pos_nonneg; lia). nia.
  - assert (0 < 2 ^ (- fe x)) by (apply Z.pow_pos_nonneg; lia).
    replace (fm x) with (- (- fm x)) by lia. rewrite Z.quot_opp_l by lia.
    pose proof (Z.quot_pos (- fm x) (2 ^ (- fe x)) ltac:(lia) ltac:(lia)). lia.
Qed.

Lemma fltb_one_false x : fltb x (F 1 0) = false -> 1 <= f_to_Z x.
Proof.
  unfold fltb, f_to_Z. cbn [fm fe]. rewrite Z.ltb_ge. destruct (Z.leb_spec 0 (fe x)).
  - rewrite Z.min_r by lia. rewrite !Z.sub_0_r, !Z.shiftl_mul_pow2 by lia. lia.
  - rewrite Z.min_l by lia. rewrite Z.sub_diag, Z.shiftl_0_r, Z.shiftl_mul_pow2, Z.sub_0_l by lia. intros Hx.
    assert (0 < 2 ^ (- fe x)) by (apply Z.pow_pos_nonneg; lia).
    rewrite quot_div by lia. apply Z.div_le_lower_bound; lia.
Qed.

Lemma f_to_Z_opp x : f_to_Z (fopp x) = - f_to_Z x.
Proof.
  unfold f_to_Z, fopp. cbn [fm fe]. destruct (Z.leb_spec 0 (fe x)); [ring|].
  apply Z.quot_opp_l. apply Z.pow_nonzero; lia.
Qed.

(** A rounded product with a factor below [q], from above. *)
Lemma fmul_bound b x q :
  0 <= b < 2 ^ 40 -> 0 <= fm x -> (fval x < inject_Z q)%Q -> 0 < q <= 2 ^ 10 ->
  0 <= f_to_Z (fround (F (b * fm x) (fe x))) <= b * q.
Proof.
  intros Hb Hx Hq Hq0. enough (0 <= f_to_Z (fround (F (b * fm x) (fe x))) < b * q + 1) by lia.
  apply f_to_Z_bounds; [apply fround_nonneg; cbn [fm]; nia|].
  eapply Qle_lt_trans; [apply fround_upper; cbn [fm]; nia|].
  assert (E : (fval (F (b * fm x) (fe x)) == inject_Z b * fval x)%Q).
  { unfold fval. cbn [fm fe]. rewrite inject_Z_mult. ring. }
  rewrite E. assert (Hb0 : (0 <= inject_Z b)%Q) by (change 0%Q with (inject_Z 0); rewrite <- Zle_Qle; lia).
  assert (Hb1 : (inject_Z (b * q) < inject_Z (2 ^ 50))%Q).
  { rewrite <- Zlt_Qlt. change (2 ^ 50) with (2 ^ 40 * 2 ^ 10). nia. }
  change (inject_Z (2 ^ 50)) with (1125899906842624 # 1)%Q in Hb1.
  assert (Hm : (inject_Z b * fval x <= inject_Z (b * q))%Q) by (rewrite inject_Z_mult; nra).
  rewrite inject_Z_plus. change (inject_Z 1) with 1%Q. unfold funit. lra.
Qed.

(** Scaling a base down stays in range and does not let it grow. *)
Lemma scaled_base flt b :
  fltb flt MIN_SCALE = true -> 0 <= b < 2 ^ 40 ->
  match f_to_s 64 (fmul (f_of_Z b) flt) with
  | Some r => 1 <= (if r <? 1 then 1 else r) <= Z.max 1 b
  | None => fltb (F (-1024) 0) flt = false
  end.
Proof.
  intros Hf Hb. rewrite f_of_Z_exact by lia. unfold f_to_s, fmul. cbn [fm fe]. rewrite Z.add_0_l.
  apply fltb_lt in Hf. change (fval MIN_SCALE) with (inject_Z 1 * 1)%Q in Hf. rewrite Qmult_1_r in Hf.
  destruct (Z.leb_spec 0 (fm flt)) as [Hs|Hs].
  - pose proof (fmul_bound b flt 1 Hb Hs Hf ltac:(lia)) as Hr.
    destruct (Z.leb_spec (- 2 ^ (64 - 1)) (f_to_Z (fround (F (b * fm flt) (fe flt))))); [|lia].
    destruct (Z.ltb_spec (f_to_Z (fround (F (b * fm flt) (fe flt)))) (2 ^ (64 - 1))); [|lia]. cbn [andb].
    destruct (Z.ltb_spec (f_to_Z (fround (F (b * fm flt) (fe flt)))) 1); lia.
  - pose proof (f_to_Z_nonpos (fround (F (b * fm flt) (fe flt)))
      ltac:(apply fround_nonpos; cbn [fm]; nia)) as Hn.
    set (z := f_to_Z _) in *. destruct (Z.ltb_spec z (2 ^ (64 - 1))); [|lia].
    destruct (Z.leb_spec (- 2 ^ (64 - 1)) z) as [Hz|Hz]; cbn [andb].
    + destruct (Z.ltb_spec z 1); lia.
    + apply not_true_is_false. rewrite fltb_lt. intros Hl.
      assert (Ho : (fval (fopp flt) < inject_Z 1024)%Q).
      { unfold fval, fopp in *. cbn [fm fe] in *. rewrite inject_Z_opp. change (inject_Z (-1024)) with (- inject_Z 1024)%Q in Hl.
        change (2 ^ 0)%Q with 1%Q in Hl. lra. }
      pose proof (fmul_bound b (fopp flt) 1024 Hb ltac:(cbn; lia) Ho ltac:(lia)) as Hr.
      change (fm (fopp flt)) with (- fm flt) in Hr. change (fe (fopp flt)) with (fe flt) in Hr.
      rewrite Z.mul_opp_r, fround_opp, f_to_Z_opp in Hr.
      fold z in Hr. lia.
Qed.

(** ** The states the options lead to *)

(** [tdefs] as [main] sets it before the options. *)
Definition tdefs_main : list tdef := alter (with_base (fun b => b * ORDERS_PER_CUST)) (Z.to_nat LINE) tdefs_init.

(** Only the row count of a description has changed, and it has not grown. *)
Record scaled_tdef (d0 d : tdef) : Prop := mk_scaled_tdef {
  sd_same : d = with_base (fun _ => base d) d0;
  sd_base : base d = base d0 \/ 1 <= base d <= Z.max 1 (base d0);
}.

Record run_ok (s : st) : Prop := mk_run_ok {
  ro_scale : 1 <= glob s G.scale;
  ro_upd : glob s G.upd_num = 0;
  ro_tdefs : Forall2 scaled_tdef tdefs_main (tdefs s);
  ro_seeds : Seed s = Seed_init;
  ro_prt : prt s = prt st_start;
  ro_files : files s = [];
  ro_stdout : stdout s = "";
}.

(** An exit with status 1 that leaves no file, and at most a line about an unknown option on
    the standard output. *)
Definition clean_exit (why : stop) (s : st) : Prop :=
  why = Exited 1 /\ files s = [] /\ (stdout s = "" \/ exists c, stdout s = unknown_msg c).

Definition undefined (why : stop) : bool := match why with Undefined _ => true | _ => false end.

(** [m] keeps [run_ok], exits with status 1, or, when [u] allows it, is undefined. *)
Definition okay (u : bool) (m : M unit) : Prop :=
  forall s, run_ok s ->
  match m s with Ok _ s' => run_ok s' | Stop w s' => clean_exit w s' \/ u && undefined w = true end.

Lemma okay_ret u : okay u (ret tt).
Proof. intros s Hs. exact Hs. Qed.

Lemma okay_usage u : okay u usage_exit.
Proof. intros s Hs. left. split; [reflexivity|split; [apply Hs|left; apply Hs]]. Qed.

Lemma okay_exit u : okay u (stop_with (Exited 1)).
Proof. exact (okay_usage u). Qed.

Lemma okay_bind u m k : okay u m -> okay u k -> okay u (m;; k).
Proof.
  intros Hm Hk s Hs. specialize (Hm s Hs). unfold bind. destruct (m s) as [[] s'|]; [now apply Hk|exact Hm].
Qed.

Lemma okay_mono u m : okay false m -> okay u m.
Proof.
  intros H s Hs. specialize (H s Hs). destruct (m s) as [|w s']; [exact H|].
  destruct H as [H|H]; [now left|discriminate].
Qed.

Lemma okay_glb u v (k : Z -> M unit) : (forall x, okay u (k x)) -> okay u (x <- glb v;; k x).
Proof. intros Hk s Hs. unfold bind, glb, gets. now apply Hk. Qed.

Lemma okay_if u (b : bool) m1 m2 : okay u m1 -> okay u m2 -> okay u (if b then m1 else m2).
Proof. now destruct b. Qed.

Lemma okay_modify u f : (forall s, run_ok s -> run_ok (f s)) -> okay u (modify f).
Proof. intros Hf s Hs. exact (Hf s Hs). Qed.

Lemma run_ok_glob v x s : (v = G.scale -> 1 <= x) -> v <> G.upd_num -> run_ok s -> run_ok (set_glob v x s).
Proof.
  intros Hv Hu [H1 H2 H3 H4 H5 H6 H7]. split; try assumption; cbn.
  - destruct (decide (G.scale = v)) as [<-|]; [now apply Hv|exact H1].
  - destruct (decide (G.upd_num = v)) as [<-|]; [done|exact H2].
Qed.

Lemma okay_set u v x : (v = G.scale -> 1 <= x) -> v <> G.upd_num -> okay u (set v x).
Proof. intros Hv Hu. apply okay_modify. intros s. now apply run_ok_glob. Qed.

Create HintDb okay.
#[export] Hint Resolve okay_ret okay_usage okay_exit : okay.
#[export] Hint Extern 1 (okay _ (set _ _)) => apply okay_set; [intros [=]|intros [=]] : okay.
#[export] Hint Extern 1 (okay _ (modify (set_d_path _))) => apply okay_modify; intros ? []; split; assumption : okay.
#[export] Hint Extern 1 (okay _ (modify (set_db_name _))) => apply okay_modify; intros ? []; split; assumption : okay.
#[export] Hint Extern 1 (okay _ (modify (set_flt_scale _))) => apply okay_modify; intros ? []; split; assumption : okay.

Ltac okay_go :=
  repeat lazymatch goal with
  | |- okay _ (bind (glb _) _) => apply okay_glb; intros ?
  | |- okay _ (bind _ _) => apply okay_bind
  | |- okay _ (if _ then _ else _) => apply okay_if
  | |- okay _ (match ?c with _ => _ end) => destruct c
  | |- _ => solve [auto with okay]
  end.

Lemma okay_table u optarg : okay u (table_option optarg).
Proof. unfold table_option. okay_go. Qed.

Lemma okay_action u optarg : okay u (action_option optarg).
Proof. unfold action_option. okay_go. Qed.

Lemma tdefs_main_bases : Forall (fun d => 0 <= base d < 2 ^ 40) tdefs_main.
Proof. repeat constructor; vm_compute; (reflexivity || discriminate). Qed.

(** The description of a table after the options. *)
Lemma run_ok_tdef s t d0 :
  run_ok s -> tdefs_main !! t = Some d0 -> exists d, tdefs s !! t = Some d /\ scaled_tdef d0 d.
Proof.
  intros Hs Ht. pose proof (ro_tdefs s Hs) as HF. rewrite Forall2_lookup in HF. specialize (HF t).
  rewrite Ht in HF. inversion HF as [d0' d Hd E0 E1|]. subst. now exists d.
Qed.

Lemma run_ok_scaled s i d0 d b :
  run_ok s -> tdefs_main !! i = Some d0 -> tdefs s !! i = Some d -> scaled_tdef d0 d -> 1 <= b <= Z.max 1 (base d) ->
  run_ok (set_tdefs (alter (with_base (fun _ => b)) i) s).
Proof.
  intros [H1 H2 H3 H4 H5 H6 H7] Hd0 Hd [Hs Hb0] Hb. split; try assumption. cbn [tdefs set_tdefs].
  apply Forall2_lookup. intros k. rewrite Forall2_lookup in H3. specialize (H3 k).
  destruct (decide (i = k)) as [<-|]; [|now rewrite list_lookup_alter_ne].
  rewrite list_lookup_alter_eq, Hd0, Hd. cbn. constructor. split.
  - rewrite Hs at 1. reflexivity.
  - right. pose proof (proj1 (Forall_lookup _ _) tdefs_main_bases i d0 Hd0). cbn in *. lia.
Qed.

(** [dbgen] scales the bases down without leaving the range of [long] for scale factors above
    -1024. *)
Definition scale_in_range (flt : f64) : bool :=
  fltb (F (-1024) 0) flt && match f_to_s 64 flt with Some _ => true | None => false end.

Lemma okay_scale_base flt i u :
  fltb flt MIN_SCALE = true -> PART <= i < REGION -> (scale_in_range flt = false -> u = true) -> okay u (scale_base flt i).
Proof.
  intros Hf Hi Hu s Hs. unfold scale_base. unfold bind at 1, gets.
  assert (H0 : exists d0, tdefs_main !! Z.to_nat i = Some d0).
  { apply lookup_lt_is_Some. vm_compute (length tdefs_main). unfold PART, REGION in Hi. lia. }
  destruct H0 as [d0 Hd0]. destruct (run_ok_tdef s _ _ Hs Hd0) as (d & Hd & Hsd). rewrite Hd. cbn [must]. unfold bind at 1, ret.
  pose proof (proj1 (Forall_lookup _ _) tdefs_main_bases _ d0 Hd0) as Hr0. pose proof (sd_base _ _ Hsd) as Hbd.
  pose proof (scaled_base flt (base d) Hf ltac:(cbn in Hr0; lia)) as Hr.
  destruct (f_to_s 64 (fmul (f_of_Z (base d)) flt)) as [r|]; cbn [must].
  - unfold bind, ret, modify. eapply run_ok_scaled; eauto.
  - right. rewrite Hu; [reflexivity|]. unfold scale_in_range. now rewrite Hr.
Qed.

Lemma okay_for_loop u n body i :
  (forall k, i <= k < i + Z.of_nat n -> okay u (body k)) -> okay u (for_loop n i body).
Proof.
  revert i. induction n as [|n IH]; intros i Hb; cbn [for_loop]; [apply okay_ret|].
  apply okay_bind; [apply Hb; lia|apply IH; intros k Hk; apply Hb; lia].
Qed.

Lemma okay_scale u optarg : (scale_in_range (atof optarg) = false -> u = true) -> okay u (scale_option optarg).
Proof.
  intros Hu. unfold scale_option. cbv zeta. apply okay_bind; [auto with okay|].
  destruct (fltb (atof optarg) MIN_SCALE) eqn:E.
  - apply okay_bind; [apply okay_set; [lia|intros [=]]|].
    apply okay_for_loop. intros i Hi. apply okay_scale_base; auto.
  - destruct (f_to_s 64 (atof optarg)) as [z|] eqn:Ez; cbn [must].
    + intros s Hs. unfold bind, ret. apply (okay_set u); [intros _|intros [=]|exact Hs].
      apply fltb_one_false in E. unfold f_to_s in Ez. destruct (_ && _); now inversion Ez; subst.
    + intros s Hs. right. rewrite Hu; [reflexivity|]. unfold scale_in_range. now rewrite Ez, andb_false_r.
Qed.
#[export] Hint Resolve okay_table okay_action : okay.

(** Options the C code gives a meaning: a scale factor is in the range of [long], and an
    option [getopt] does not know is not the last argument (its message reads the argument
    after it). *)
Definition plain_options : list ascii := String.list_ascii_of_string "bCDdFfihnOqrSTUv".
Definition defined_option (o : ascii * string) : bool :=
  if Ascii.eqb (fst o) "s" || Ascii.eqb (fst o) "P" then scale_in_range (atof (snd o))
  else existsb (Ascii.eqb (fst o)) plain_options || negb (String.eqb (snd o) "").

Lemma okay_unknown_msg u c : okay u (printf (unknown_msg c);; usage_exit).
Proof.
  intros s Hs. left. split; [reflexivity|]. split; [apply Hs|]. right. exists c.
  change (stdout s +:+ unknown_msg c = unknown_msg c). now rewrite (ro_stdout s Hs).
Qed.

Lemma okay_unknown u a : (String.eqb a "" = true -> u = true) -> okay u (unknown_option a).
Proof.
  intros Hu. destruct a as [|c [|c' a]]; [|apply okay_unknown_msg..].
  intros s Hs. right. now rewrite Hu.
Qed.

Lemma okay_option u option optarg :
  (defined_option (option, optarg) = false -> u = true) -> okay u (process_option option optarg).
Proof.
  intros Hu. unfold process_option.
  destruct option as [[] [] [] [] [] [] [] []];
    (apply okay_scale; exact Hu) || (apply okay_unknown; intros E; apply Hu; unfold defined_option; cbn [snd]; now rewrite E) ||
    okay_go.
Qed.

Lemma okay_options u opts : (forallb defined_option opts = false -> u = true) -> okay u (process_options opts).
Proof.
  intros Hu. unfold process_options, alloc_pids. apply okay_bind.
  - induction opts as [|[o a] opts IH]; cbn [process_options_loop]; [apply okay_ret|]. cbn [forallb] in Hu.
    apply okay_bind; [apply okay_option|apply IH]; intros E; apply Hu; rewrite E; [reflexivity|apply andb_false_r].
  - okay_go.
Qed.

Lemma main_init_ok : exists s, main_init st_start = Ok tt s /\ run_ok s.
Proof.
  eexists. split; [reflexivity|]. split; try reflexivity.
  change (tdefs _) with tdefs_main. repeat constructor.
Qed.

(** The five SSBM tables. *)
Definition ssb_tables : list Z := [PART; SUPP; CUST; DATE; LINE].

Lemma ssb_base s t : run_ok s -> In t ssb_tables -> 1 <= base_of s t.
Proof.
  intros Hs Ht. unfold base_of.
  assert (H0 : exists d0, tdefs_main !! Z.to_nat t = Some d0 /\ 1 <= base d0).
  { destruct Ht as [<-|[<-|[<-|[<-|[<-|[]]]]]]; eexists; (split; [reflexivity|]); vm_compute; discriminate. }
  destruct H0 as (d0 & Hd0 & Hb0). destruct (run_ok_tdef s _ _ Hs Hd0) as (d & Hd & [_ Hb]).
  rewrite Hd. lia.
Qed.

Lemma floor_ln_ge fuel : forall k n, k <= floor_ln fuel k n.
Proof.
  induction fuel as [|fuel IH]; intros k n; cbn [floor_ln]; [lia|].
  destruct (_ <=? _); [|lia]. specialize (IH (k + 1) n). lia.
Qed.



(** The tables of [dbgen -s 0.01] have a hundredth of their rows, the dates too: 25 days are
    left of the seven years the orders refer to. *)
Example scaled_bases :
  match (main_init;; process_options [("s"%char, "0.01")]) st_start with
  | Ok _ s => map base (tdefs s)
  | Stop _ _ => []
  end = [2000; 1; 20; 300; 25; 15000; 1; 1; 1; 0].
Proof. vm_compute. reflexivity. Qed.

(** [dbgen -x]: the message about the last argument reads past the arguments. *)
Example unknown_last_option :
  (main_init;; process_options [("?"%char, "")]) st_start =
  Stop (Undefined "*(vector[optind] + 1)") (match main_init st_start with Ok _ s | Stop _ s => s end).
Proof. reflexivity. Qed.

(** The distribution file [read_dist] opens. *)
Definition dists_path (Os : os) (s : st) : string :=
  match d_path s with
  | Some path => path
  | None => env_config (getenv Os) CONFIG_TAG CONFIG_DFLT +:+ "/" +:+ env_config (getenv Os) DIST_TAG DIST_DFLT
  end.

Lemma read_dist_missing Os name s :
  file_text Os (dists_path Os s) = None -> (d_path s = None -> strlen (dists_path Os s) < 256) ->
  read_dist (getenv Os) (file_text Os) (env_config (getenv Os) DIST_TAG DIST_DFLT) name s = Stop (Exited 1) s.
Proof.
  intros Hf Hlen. unfold read_dist, dists_path in *. unfold bind at 1. unfold gets. destruct (d_path s) as [p|].
  - unfold bind, ret. now rewrite Hf.
  - specialize (Hlen eq_refl). destruct (Z.leb_spec 256 (strlen (env_config (getenv Os) CONFIG_TAG CONFIG_DFLT +:+ "/" +:+
      env_config (getenv Os) DIST_TAG DIST_DFLT))); [lia|]. unfold bind, ret. now rewrite Hf.
Qed.

(** C17. Errors before any row is generated: when the command line is rejected, or the
    distribution file it leads to cannot be opened, [main] exits with status 1, has made no
    file and has printed nothing on the standard output but the line about an unknown
    option. This is for command lines whose options are defined in C: no unknown option is the
    last argument (the message about it reads the argument that follows, a null pointer then),
    and scale factors are above -1024 and fit a [long]. *)
Theorem main_rejects Os utcoff spawn_ok nk rk opts :
  forallb defined_option opts = true ->
  match (main_init;; process_options opts) st_start with
  | Ok _ s => file_text Os (dists_path Os s) = None /\ (d_path s = None -> strlen (dists_path Os s) < 256)
  | Stop _ _ => True
  end ->
  exists s', main Os utcoff spawn_ok nk rk opts st_start = Stop (Exited 1) s' /\ files s' = [] /\
    (stdout s' = "" \/ exists c, stdout s' = unknown_msg c).
Proof.
  destruct main_init_ok as (s0 & E0 & H0). unfold bind at 1. rewrite E0. intros Hopts H.
  pose proof (okay_options false opts ltac:(congruence) s0 H0) as Hok. unfold main, main_rest. unfold bind at 1. rewrite E0. unfold bind at 1.
  destruct (process_options opts s0) as [[] s|w s]; [|destruct Hok as [(-> & Hf & Ho)|[=]]; eauto].
  destruct H as [Hf Hlen]. exists s. split; [|split; [apply Hok|left; apply Hok]]. unfold bind at 1. unfold load_dists. unfold bind at 1.
  now rewrite (read_dist_missing Os "p_cntr" s Hf Hlen).
Qed.

(** [dbgen -s 1] where there is no dists.dss. *)
Lemma main_rejects_witness :
  exists s', main (mk_os (fun _ => None) (fun _ => None) (fun _ => StatNoent) (fun _ => "") Other (fun _ => true) "") (fun _ => 0)
    (fun _ _ => true) 0 0 [("s"%char, "1")] st_start = Stop (Exited 1) s' /\ files s' = [] /\
    (stdout s' = "" \/ exists c, stdout s' = unknown_msg c).
Proof.
  apply main_rejects; vm_compute; [reflexivity|]. split; [reflexivity|]. intros _. reflexivity.
Defined.
