(* ===== verification/TableRun.v ===== *)
(** One table of a run of [main]: the rows [gen_tbl] is asked for, in one new file, each of
    them what its builder promises for its number. *)
From S2P Require Import Prelude CString Float64 Rng SpeedSeed State Consts Streams Dist Bcd2 Sparse Calendar DateDim Build RowSpec Config Shipped Output Print Relational Parallel Chunks Driver Frame Tables Options.

(** ** Rows of one table *)

(** Every row of a table satisfies what its builder promises for its number. *)
Lemma wp_gen_rows {A} t (mk : Z -> M A) (P : Z -> A -> Prop) s0 n : forall start s,
  row_env t s -> glob s = glob s0 -> tdefs s = tdefs s0 ->
  (forall i s', start <= i < start + Z.of_nat n -> seeds_ok (Seed s') -> glob s' = glob s0 -> tdefs s' = tdefs s0 ->
     wp (mk i) (fun x s'' => exists l, drew l s' s'' /\ Z.of_nat (length l) < nM /\ P i x) s') ->
  wp (gen_rows t mk n start)
    (fun L s' => length L = n /\ row_env t s' /\ forall k x, L !! k = Some x -> P (start + Z.of_nat k) x) s.
Proof.
  induction n as [|n IH]; intros start s He Hg Ht Hmk; unfold gen_rows; cbn [for_list].
  - apply wp_ret. split; [reflexivity|]. split; [exact He|]. intros k x. now rewrite lookup_nil.
  - pose proof He as [Hok Hlay Hset (d & Hd & Hc)].
    apply wp_bind. unfold gen_row. apply wp_bind. unfold wp at 1. rewrite row_start_eq. cbn beta iota.
    apply wp_bind. fold zero_usage.
    eapply wp_mono; [apply (Hmk start); [lia|now apply zero_usage_ok|exact Hg|exact Ht]|].
    intros x s1 (l & Hdr & Hl & HP).
    assert (Hs1 : Seed s1 = draw_seeds l (zero_usage (Seed s))) by apply Hdr.
    pose proof (drew_glob _ _ _ Hdr) as Hg1. pose proof (drew_tdefs _ _ _ Hdr) as Ht1.
    cbn [glob tdefs set_Seed] in Hg1, Ht1.
    apply wp_bind. unfold wp at 1. rewrite (row_stop_eq t s1 d) by (rewrite ?Ht1, ?Hg1; assumption). apply wp_ret.
    destruct (row_seeds_env t s d l He Hd Hl) as (Rok & Rlay & _).
    assert (HS : Seed (set_Seed (map (row_stop_seed 0 (row_table t) (child d))) s1) =
      row_seeds (row_table t) (child d) l (Seed s)) by (cbn [Seed set_Seed]; now rewrite Hs1).
    apply wp_bind. eapply wp_mono; [apply (IH (start + 1))|].
    + split; rewrite ?HS; [exact Rok|now rewrite Rlay|cbn [glob set_Seed]; now rewrite Hg1|].
      exists d. cbn [tdefs set_Seed]. now rewrite Ht1.
    + cbn [glob set_Seed]. congruence.
    + cbn [tdefs set_Seed]. congruence.
    + intros i s' Hi. apply Hmk. lia.
    + intros L s2 (Hlen & Henv & HL). apply wp_ret. split; [cbn; lia|]. split; [exact Henv|].
      intros [|k] y Hy; cbn in Hy.
      * injection Hy as <-. now rewrite Z.add_0_r.
      * replace (start + Z.of_nat (S k)) with (start + 1 + Z.of_nat k) by lia. exact (HL k y Hy).
Qed.

(** [order_ok] reads the scale, the refresh percentage and the row counts only. *)
Lemma order_ok_ext D s1 s2 i u o :
  glob s1 G.scale = glob s2 G.scale -> glob s1 G.refresh = glob s2 G.refresh ->
  (forall t, base_of s1 t = base_of s2 t) -> order_ok D s1 i u o -> order_ok D s2 i u o.
Proof.
  intros Hsc Href Hb [H1 H2 H3 H4 (dt & H5 & H6 & H7) H8].
  assert (E1 : O_CKEY_MAX s1 = O_CKEY_MAX s2) by (unfold O_CKEY_MAX; congruence).
  assert (E2 : L_SKEY_MAX s1 = L_SKEY_MAX s2) by (unfold L_SKEY_MAX; congruence).
  assert (E3 : L_PKEY_MAX s1 = L_PKEY_MAX s2) by (unfold L_PKEY_MAX; congruence).
  split; try assumption.
  - rewrite H1. unfold order_seq. now rewrite Hsc, Href.
  - now rewrite <- E1.
  - exists dt. split; [exact H5|]. split; [exact H6|]. intros k r Hr. destruct (H7 k r Hr) as [[] Ht].
    split; [split; try assumption; congruence|exact Ht].
Qed.

(** Variables a table leaves alone. *)
Definition kept_var (v : G.var) : Prop :=
  v <> G.init /\ v <> G.completed /\ v <> G.minrow /\ v <> G.rowcnt /\ v <> G.verbose.

Ltac kept := split_and!; intros [=].

(** The print function of a table, and its loader. *)
Definition pr_of (t : Z) : pr_fn :=
  if t =? PART then P_part else if t =? SUPP then P_supp else if t =? CUST then P_cust
  else if t =? DATE then P_date else P_line.
Definition ld_of (t : Z) : ld_fn :=
  if t =? PART then Fpr_part else if t =? SUPP then Fpr_supp else if t =? CUST then Fpr_cust
  else if t =? DATE then Fpr_date else Fpr_line.

(** Case analysis on one of the five tables. *)
Ltac each_table H := destruct H as [<-|[<-|[<-|[<-|[<-|[]]]]]].

Lemma pr_of_inj t t' : In t ssb_tables -> In t' ssb_tables -> pr_of t = pr_of t' -> t = t'.
Proof. intros H H'. each_table H; each_table H'; cbv; intros [=]; reflexivity. Qed.

Section TableRun.
Context (Os : os) (utcoff : Z -> Z) (nk rk : Z) (D : dists) (s1 : st).

(** [s] agrees with [s1] on what rows depend on. *)
Record like (s : st) : Prop := mk_like {
  lk_glob : forall v, kept_var v -> glob s v = glob s1 v;
  lk_base : forall t, base_of s t = base_of s1 t;
}.

Lemma like_plain s : like s -> plain_run s1 -> plain_run s.
Proof. intros [Hg _] []. split; (rewrite Hg by kept); assumption. Qed.

Lemma like_same s s' : like s -> glob s' = glob s -> tdefs s' = tdefs s -> like s'.
Proof.
  intros [H1 H2] Hg Ht. split; [intros v Hv; rewrite Hg; now apply H1|].
  intros t. unfold base_of. rewrite Ht. exact (H2 t).
Qed.

(** What is promised of row [i] of table [t]. *)
Definition row_fact (t i : Z) (x : string) : Prop :=
  if t =? PART then exists p, part_ok D i p /\ x = part_text p
  else if t =? SUPP then exists c, supplier_ok D i c /\ x = supp_text c
  else if t =? CUST then exists c, customer_ok D i c /\ x = cust_text c
  else if t =? DATE then exists d, mk_date utcoff i = Some d /\ x = date_text d
  else exists o, order_ok D s1 i 0 o /\ x = order_text o.

(** A file [nm] with [n] rows of table [t] from row [start]. *)
Definition rows_file (t : Z) (nm : string) (start : Z) (n : nat) (f : file) : Prop :=
  exists L, f = opened Os (full_path Os nm) (texts id L) /\ length L = n /\
    forall k x, L !! k = Some x -> row_fact t (start + Z.of_nat k) x.

Lemma texts_map {A} (text : A -> string) L : texts id (map text L) = texts text L.
Proof. induction L as [|a L IH]; [reflexivity|]. cbn [map texts]. now rewrite IH. Qed.

(** Table [t] can be generated into the file [nm]. *)
Record ready (t : Z) (nm : string) (s : st) : Prop := mk_ready {
  rd_like : like s;
  rd_env : row_env t s;
  rd_tdef : exists d, tdefs s !! Z.to_nat t = Some d /\ fst (loader d) = Some (ld_of t) /\ name d = Some nm;
  rd_open : openable Os nm s;
  rd_fp : fp (prt s) (pr_of t) = None;
  rd_mode : last_mode (prt s) = 0;
}.

(** Rows [start] to [start + n - 1] of table [t] have been generated into [nm]. *)
Record generated (t : Z) (nm : string) (start : Z) (n : nat) (s s' : st) : Prop := mk_generated {
  gd_file : exists f, files s' = files s ++ [f] /\ rows_file t nm start n f;
  gd_seeds : seeds_ok (Seed s');
  gd_layout : layout (Seed s') = layout Seed_init;
  gd_tdefs : tdefs s' = tdefs s;
  gd_fp : forall q, q <> pr_of t -> fp (prt s') q = fp (prt s) q;
  gd_mode : last_mode (prt s') = last_mode (prt s);
  gd_stdout : stdout s' = stdout s;
  gd_glob : forall v, v <> G.init -> v <> G.completed -> glob s' v = glob s v;
}.

Context (HD : dists_ok D) (Hrun : plain_run s1) (Hsc : scale_ok s1) (Hzone : zone_ok utcoff).

(** A builder whose rows satisfy [P]. *)
Definition row_wp {A} (mk : Z -> M A) (P : Z -> A -> Prop) (i : Z) : Prop :=
  forall s, seeds_ok (Seed s) -> like s ->
    wp (mk i) (fun x s' => exists l, drew l s s' /\ Z.of_nat (length l) < nM /\ P i x) s.

(** The rows of a table with a builder. *)
Lemma rows_run {A} t (mk : Z -> M A) (P : Z -> A -> Prop) nm start n s :
  (forall i, start <= i < start + Z.of_nat (S n) -> row_wp mk P i) -> ready t nm s ->
  exists L s2, gen_rows t mk (S n) start s = Ok L s2 /\ length L = S n /\ row_env t s2 /\
    forall k x, L !! k = Some x -> P (start + Z.of_nat k) x.
Proof.
  intros HP [Hlike Henv _ _ _ _]. pose proof (wp_gen_rows t mk P s (S n) start s Henv eq_refl eq_refl) as W. unfold wp at 2 in W.
  destruct (gen_rows t mk _ start s) as [L s2|].
  - exists L, s2. split; [reflexivity|]. apply W. intros i s' Hi Hok Hg Ht. apply HP; [exact Hi|exact Hok|now apply (like_same s)].
  - destruct W. intros i s' Hi Hok Hg Ht. apply HP; [exact Hi|exact Hok|now apply (like_same s)].
Qed.

(** A table with a builder, through [table_of]. *)
Lemma builder_rows {A} t (mk : Z -> M A) to_row pr text (P : Z -> A -> Prop) nm start n s :
  table_of Os utcoff nk rk D t (pr_of t) mk to_row pr text (ld_of t) 0 -> row_table t = t ->
  (forall i, start <= i < start + Z.of_nat (S n) -> row_wp mk P i) ->
  (forall i x, P i x -> row_fact t i (text x)) -> ready t nm s ->
  exists s', gen_tbl Os utcoff nk rk D t start (Z.of_nat (S n)) 0 s = Ok tt s' /\
    generated t nm start (S n) s s'.
Proof.
  intros HT Hrt HP Hfact Hr. destruct (rows_run t mk P nm start n s HP Hr) as (L & s2 & E & Hlen & Hre2 & HL).
  destruct Hr as [Hlike Henv (d & Hd & Hl & Hn) Hop Hfp Hmode]. pose proof (like_plain _ Hlike Hrun) as Hrun'.
  destruct (gen_tbl_file Os utcoff nk rk D t (pr_of t) mk to_row pr text (ld_of t) 0 HT d nm n start s L s2 E Hrun')
    as (s' & Hgen & [W1 W2 W3 W4 W5 W6 W7 W8 _]); try assumption; [now intros _|].
  exists s'. split; [exact Hgen|]. split; try assumption; [|rewrite W4; apply Hre2|rewrite W4; apply Hre2].
  exists (opened Os (full_path Os nm) (texts text L)). split; [exact W1|]. exists (map text L). split_and!.
  - now rewrite texts_map.
  - now rewrite length_map.
  - intros k x Hx. rewrite lookup_map in Hx. destruct (L !! k) as [a|] eqn:Ea; [|done]. injection Hx as <-.
    apply Hfact, (HL k a Ea).
Qed.

(** ** The five builders *)

Lemma part_wp i : row_wp (mk_part D) (part_ok D) i.
Proof.
  intros s Hok _. eapply (wp_mk_part D); [exact HD|exact Hok|apply drew_nil|].
  intros x s' Hx Hdr. exists (part_draws (count (colors D))). split; [exact Hdr|]. split; [|exact Hx].
  destruct (ok_colors D HD) as [Hco _]. unfold part_draws. rewrite length_app, repeat_length. cbn [length].
  unfold nM. lia.
Qed.

Lemma supp_wp i : row_wp (mk_supp D) (supplier_ok D) i.
Proof.
  intros s Hok _. eapply (wp_mk_supp D HD); [exact Hok|apply drew_nil|].
  intros x k s' Hx Hk Hdr. exists (supp_draws k). split; [exact Hdr|]. split; [|exact Hx].
  unfold supp_draws. rewrite !length_app, !repeat_length. cbn [length]. unfold nM. lia.
Qed.

Lemma cust_wp i : row_wp (mk_cust D) (customer_ok D) i.
Proof.
  intros s Hok _. eapply (wp_mk_cust D HD); [exact Hok|apply drew_nil|].
  intros x k s' Hx Hk Hdr. exists (cust_draws k). split; [exact Hdr|]. split; [|exact Hx].
  unfold cust_draws. rewrite !length_app, !repeat_length. cbn [length]. unfold nM. lia.
Qed.

Lemma date_wp i : 1 <= i <= 2922 -> row_wp (date_row utcoff) (fun i x => mk_date utcoff i = Some x) i.
Proof.
  intros Hi s Hok _. destruct (mk_date_row utcoff i Hzone Hi) as (r & Hr & _). unfold date_row. rewrite Hr.
  apply wp_ret. exists []. split; [apply drew_nil|]. split; reflexivity.
Qed.

Lemma order_wp i : row_wp (order_row D 0) (fun i o => order_ok D s1 i 0 o) i.
Proof.
  intros s Hok [Hg Hb]. unfold order_row. change (0 %c 10000) with 0.
  eapply (wp_mk_order D); [exact HD|exact Hok|apply drew_nil| |now left|].
  { clear - Hsc Hg Hb. unfold scale_ok, O_CKEY_MAX, L_SKEY_MAX, L_PKEY_MAX in *.
    rewrite !Hb, !Hg by kept. exact Hsc. }
  intros x s' Hx Hdr. eexists. split; [exact Hdr|]. cbn [app]. split.
  - rewrite order_draws_length. destruct (ook_lines _ _ _ _ _ Hx) as [Hlx _]. unfold nM. lia.
  - eapply order_ok_ext; [apply Hg; kept|apply Hg; kept|exact Hb|exact Hx].
Qed.

(** Rows of any table, the date dimension within the years [mk_date] knows. *)
Lemma table_rows t nm start n s :
  In t ssb_tables -> (t = DATE -> 1 <= start /\ start + Z.of_nat n <= 2922) -> ready t nm s ->
  exists s', gen_tbl Os utcoff nk rk D t start (Z.of_nat (S n)) 0 s = Ok tt s' /\
    generated t nm start (S n) s s'.
Proof.
  intros Hin Hdate Hr. each_table Hin.
  - apply (builder_rows PART (mk_part D) R_part (pr_part Os) part_text (part_ok D)); try exact Hr; try reflexivity.
    + apply part_table.
    + intros i _. apply part_wp.
    + intros i x Hx. exists x. now split.
  - apply (builder_rows SUPP (mk_supp D) R_supp (pr_supp Os) supp_text (supplier_ok D)); try exact Hr; try reflexivity.
    + apply supp_table.
    + intros i _. apply supp_wp.
    + intros i x Hx. exists x. now split.
  - apply (builder_rows CUST (mk_cust D) R_cust (pr_cust Os) cust_text (customer_ok D)); try exact Hr; try reflexivity.
    + apply cust_table.
    + intros i _. apply cust_wp.
    + intros i x Hx. exists x. now split.
  - apply (builder_rows DATE (date_row utcoff) R_date (pr_date Os) date_text (fun i x => mk_date utcoff i = Some x));
      try exact Hr; try reflexivity.
    + apply date_table.
    + intros i Hi. apply date_wp. specialize (Hdate eq_refl). lia.
    + intros i x Hx. exists x. now split.
  - apply (builder_rows LINE (order_row D 0) R_order (pr_line Os) order_text (fun i o => order_ok D s1 i 0 o));
      try exact Hr; try reflexivity.
    + apply order_table.
    + intros i _. apply order_wp.
    + intros i x Hx. exists x. now split.
Qed.
End TableRun.

(** ** Between two tables *)

(** [s], reached from [s1] with the tables below [k] done; only their names may differ. *)
Record between (s1 : st) (k : Z) (s : st) : Prop := mk_between {
  bt_like : like s1 s;
  bt_tdefs : forall t, k <= t -> 0 <= t -> tdefs s !! Z.to_nat t = tdefs s1 !! Z.to_nat t;
  bt_length : length (tdefs s) = length (tdefs s1);
  bt_seeds : seeds_ok (Seed s);
  bt_layout : layout (Seed s) = layout Seed_init;
  bt_fp : forall t, In t ssb_tables -> k <= t -> fp (prt s) (pr_of t) = None;
  bt_mode : last_mode (prt s) = 0;
  bt_stdout : stdout s = stdout s1;
}.

Lemma bt_glob s1 k s : between s1 k s -> forall v, kept_var v -> glob s v = glob s1 v.
Proof. intros H. apply H. Qed.

Lemma bt_base s1 k s : between s1 k s -> forall t, base_of s t = base_of s1 t.
Proof. intros H. apply H. Qed.

Lemma between_plain s1 k s : between s1 k s -> plain_run s1 -> plain_run s.
Proof. intros H. apply like_plain, H. Qed.

Lemma between_set s1 k s v x : ~ kept_var v -> between s1 k s -> between s1 k (set_glob v x s).
Proof.
  intros Hv [[H1 Hb] H2 H3 H4 H5 H6 H7 H8]. split; try assumption. split; [|exact Hb]. intros w Hw. cbn.
  destruct (decide (w = v)) as [->|]; [done|now apply H1].
Qed.

Lemma between_mono s1 k k' s : k <= k' -> between s1 k s -> between s1 k' s.
Proof.
  intros Hk []. split; try assumption; [|intros t Ht Hl; apply bt_fp0; [exact Ht|lia]].
  intros t Ht. apply bt_tdefs0. lia.
Qed.

Lemma openable_like Os nm s1 s : like s1 s -> openable Os nm s1 -> openable Os nm s.
Proof. intros [Hg _] [O1 O2 O3 O4]. split; try assumption. now rewrite Hg by kept. Qed.

Lemma ssb_nonneg t : In t ssb_tables -> 0 <= t.
Proof. intros H. each_table H; discriminate. Qed.

(** After a table: the tables up to it are done. *)
Lemma generated_between Os utcoff D s1 t nm start n s s' :
  In t ssb_tables -> between s1 (t + 1) s -> generated Os utcoff D s1 t nm start n s s' -> between s1 (t + 1) s'.
Proof.
  intros Hin [[Hg Hb] B2 B3 B4 B5 B6 B7 B8] [_ G2 G3 G4 G5 G6 G7 G8]. split; try congruence; try assumption.
  - split.
    + intros v Hv. rewrite G8 by apply Hv. now apply Hg.
    + intros t'. rewrite <- Hb. unfold base_of. now rewrite G4.
  - intros t' Ht'. rewrite G4. now apply B2.
  - intros t' Ht' Hl. rewrite G5; [now apply B6|]. intros E.
    apply pr_of_inj in E; [lia|exact Ht'|exact Hin].
Qed.
