(* ===== verification/Serial.v ===== *)
(** A whole serial run: [main], from the command line to the flat files. *)
From S2P Require Import Prelude CString Float64 Rng SpeedSeed State Consts Streams Dist Bcd2 Sparse Calendar DateDim Build RowSpec Config Shipped Output Print Relational Parallel Chunks Driver Frame Tables Partial Options TableRun.

(** ** One table *)

Section Serial.
Context (Os : os) (utcoff : Z -> Z) (nk rk : Z) (D : dists) (s1 : st).

(** The file of table [t]: its rows in order, all of them. *)
Definition serial_file (t : Z) (f : file) : Prop :=
  exists d nm, tdefs s1 !! Z.to_nat t = Some d /\ name d = Some nm /\
    rows_file Os utcoff D s1 t nm 1 (Z.to_nat (serial_rows s1 t)) f.

(** After table [t]. *)
Definition table_done (t : Z) (s s' : st) : Prop :=
  between s1 (t + 1) s' /\ exists f, files s' = files s ++ [f] /\ serial_file t f.

Context (HD : dists_ok D) (Hrun : plain_run s1) (Hsc : scale_ok s1) (Hzone : zone_ok utcoff)
  (Hdate : serial_rows s1 DATE <= 2922).

(** A table of the benchmark whose turn it is. *)
Lemma between_ready t d nm s :
  In t ssb_tables -> between s1 t s -> tdefs s1 !! Z.to_nat t = Some d -> child d = NONE ->
  fst (loader d) = Some (ld_of t) -> name d = Some nm -> openable Os nm s1 ->
  tdefs s !! Z.to_nat t = Some d /\ ready Os s1 t nm s.
Proof.
  intros Hin Hb Hd Hc Hl Hn Ho.
  assert (Hd' : tdefs s !! Z.to_nat t = Some d) by (rewrite (bt_tdefs _ _ _ Hb) by (reflexivity || now apply ssb_nonneg); exact Hd).
  split; [exact Hd'|]. split; [apply Hb| |exists d; now split|now apply (openable_like _ _ _ _ (bt_like _ _ _ Hb))| |apply Hb].
  - split; [apply Hb|apply Hb|apply (between_plain _ _ _ Hb Hrun)|]. exists d. split; [|exact Hc].
    rewrite <- Hd'. clear - Hin. each_table Hin; reflexivity.
  - apply (bt_fp _ _ _ Hb); [exact Hin|reflexivity].
Qed.

Lemma ssb_done t d nm s :
  In t ssb_tables -> between s1 t s -> tdefs s1 !! Z.to_nat t = Some d -> child d = NONE ->
  fst (loader d) = Some (ld_of t) -> name d = Some nm -> openable Os nm s1 -> 1 <= serial_rows s1 t ->
  exists s', gen_tbl Os utcoff nk rk D t 1 (serial_rows s1 t) 0 s = Ok tt s' /\ table_done t s s'.
Proof.
  intros Hin Hb Hd Hc Hl Hn Ho Hr. destruct (between_ready t d nm s Hin Hb Hd Hc Hl Hn Ho) as [_ Hready].
  destruct (Z.to_nat (serial_rows s1 t)) as [|n] eqn:En; [lia|].
  destruct (table_rows Os utcoff nk rk D s1 HD Hrun Hsc Hzone t nm 1 n s Hin) as (s' & E & Hg); [intros ->; lia|exact Hready|].
  exists s'. replace (serial_rows s1 t) with (Z.of_nat (S n)) at 1 by lia. split; [exact E|].
  split; [refine (generated_between _ _ _ _ _ _ _ _ _ _ Hin _ Hg); apply (between_mono _ t); [lia|exact Hb]|].
  destruct (gd_file _ _ _ _ _ _ _ _ _ _ Hg) as (f & Hf & Hrf). exists f. split; [exact Hf|].
  exists d, nm. rewrite En. now split.
Qed.

(** The tables without a builder: their rows only move the seeds. *)
Definition idle_tables : list Z := [PSUPP; ORDER_LINE; PART_PSUPP; NATION; REGION].

Lemma stop_seeds_ok T c l :
  seeds_ok l -> layout l = layout Seed_init ->
  seeds_ok (map (row_stop_seed 0 T c) (zero_usage l)) /\
  layout (map (row_stop_seed 0 T c) (zero_usage l)) = layout Seed_init.
Proof.
  intros [Hlen Hall] Hlay. split.
  - split; [unfold zero_usage; now rewrite !length_map|]. unfold zero_usage. rewrite map_map.
    apply List.Forall_map, Forall_lookup. intros k e He. pose proof (proj1 (Forall_lookup _ _) Hall k e He) as Hok.
    assert (Hb : 0 <= boundary e).
    { pose proof (f_equal (fun x => x !! k) Hlay) as Hk. unfold layout in Hk. rewrite !lookup_map, He in Hk.
      destruct (Seed_init !! k) as [e0|] eqn:E0; [|done]. injection Hk as _ ->. apply (boundary_init _ _ E0). }
    unfold row_stop_seed. cbn [with_usage table usage boundary value]. change (negb (0 =? 0)) with false. cbn [andb].
    destruct (_ || _); [|exact Hok]. cbn [with_value value]. rewrite Z.sub_0_r, NthElement_nonneg by assumption.
    now apply rng_steps_ok.
  - rewrite <- Hlay. unfold layout, zero_usage. rewrite !map_map. apply map_ext. intros e.
    unfold row_stop_seed. cbn [with_usage table usage boundary value]. destruct (_ || _); reflexivity.
Qed.

Lemma idle_rows t d n : In t idle_tables -> forall i g s,
  seeds_ok (Seed s) -> layout (Seed s) = layout Seed_init -> glob s G.set_seeds = 0 ->
  tdefs s !! Z.to_nat (row_table t) = Some d ->
  exists l, gen_loop Os utcoff nk rk D n t i 0 g s = Ok tt (set_Seed (fun _ => l) s) /\
    seeds_ok l /\ layout l = layout Seed_init.
Proof.
  intros Hin. induction n as [|n IH]; intros i g s Hok Hlay Hset Hd; cbn [gen_loop].
  - exists (Seed s). split; [now destruct s|now split].
  - set (l := map (row_stop_seed 0 (row_table t) (child d)) (zero_usage (Seed s))).
    destruct (stop_seeds_ok (row_table t) (child d) (Seed s) Hok Hlay) as [Hok' Hlay'].
    rewrite (bind_ok _ _ tt s (set_Seed zero_usage s)) by reflexivity.
    rewrite (bind_ok _ _ (0, g) _ (set_Seed zero_usage s)).
    2:{ unfold gen_switch. destruct Hin as [<-|[<-|[<-|[<-|[<-|[]]]]]]; reflexivity. }
    rewrite (bind_ok _ _ tt _ (set_Seed (fun _ => l) s)) by (rewrite (row_stop_eq t _ d); [reflexivity|exact Hd|exact Hset]).
    rewrite (bind_ok _ _ tt _ (set_Seed (fun _ => l) s)).
    2:{ unfold show_seeds. rewrite (bind_ok get _ _ _ _ eq_refl). cbn [glob set_Seed]. now rewrite Hset. }
    destruct (IH (i + 1) g (set_Seed (fun _ => l) s) Hok' Hlay' Hset Hd) as (l' & E & H1 & H2).
    exists l'. split; [exact E|now split].
Qed.

Lemma idle_done t d rows s :
  In t idle_tables -> between s1 t s -> tdefs s !! Z.to_nat (row_table t) = Some d -> 0 <= rows ->
  exists s', gen_tbl Os utcoff nk rk D t 1 rows 0 s = Ok tt s' /\ between s1 (t + 1) s' /\ files s' = files s.
Proof.
  intros Hin Hb Hd Hr. unfold gen_tbl.
  rewrite (bind_ok _ _ 0 s s) by (unfold glb, gets; now rewrite (pr_segments _ (between_plain _ _ _ Hb Hrun))).
  change (negb (0 =? 0)) with false. cbv iota zeta. rewrite (bind_ok _ _ (glob s G.init) s s) by reflexivity.
  set (o := if glob s G.init =? 0 then set_glob G.init 1 s else s).
  rewrite (bind_ok _ _ tt s o) by (unfold o, set, modify; destruct (glob s G.init =? 0); reflexivity).
  assert (Ho : between s1 t o /\ files o = files s /\ tdefs o = tdefs s).
  { unfold o. destruct (glob s G.init =? 0); (split; [|split; reflexivity]); [|exact Hb]. apply between_set; [|exact Hb].
    intros (H & _). now apply H. }
  destruct Ho as (Ho & Fo & To). destruct (Z.ltb_spec rows 0); [lia|]. rewrite (bind_ok _ _ tt o o) by reflexivity.
  destruct (idle_rows t d (Z.to_nat rows) Hin 1 (mk_segments 0 (-1) 0) o) as (l & E & H1 & H2);
    [apply Ho|apply Ho|apply (between_plain _ _ _ Ho Hrun)|now rewrite To|].
  rewrite (bind_ok _ _ tt _ _ E). unfold bind, glb, gets, set, modify. eexists. split; [reflexivity|].
  split; [|exact Fo]. apply between_set; [intros (_ & H0 & _); now apply H0|].
  apply (between_mono _ t); [lia|]. destruct Ho as [B1 B2 B3 B4 B5 B6 B7 B8].
  split; try assumption. now apply (like_same _ o).
Qed.
End Serial.

(** ** [main] *)

(** The row counts of the code tables, set once the distributions are loaded. *)
Definition with_counts (D : dists) (s : st) : st :=
  set_tdefs (alter (base_is (count (regions D))) (Z.to_nat REGION))
    (set_tdefs (alter (base_is (count (nations D))) (Z.to_nat NATION)) s).

Definition selected (s : st) (t : Z) : bool := negb (Z.land (glob s G.table) (bit t) =? 0).

(** A serial run, of a supported scale, into files that can be opened. *)
Record serial_run (Os : os) (s : st) : Prop := mk_serial_run {
  sr_plain : plain_run s;
  sr_children : glob s G.children <= 1;
  sr_fnames : glob s G.fnames = 0;
  sr_scale : glob s G.scale <= 1000;
  sr_open : forall t d nm, In t ssb_tables -> selected s t = true -> tdefs_main !! Z.to_nat t = Some d ->
    name d = Some nm -> openable Os nm s;
}.

Lemma with_counts_low D s t : (t < 8)%nat -> tdefs (with_counts D s) !! t = tdefs s !! t.
Proof.
  intros Ht. unfold with_counts. cbn [tdefs set_tdefs]. change (Z.to_nat REGION) with 9%nat.
  change (Z.to_nat NATION) with 8%nat. now rewrite !list_lookup_alter_ne by lia.
Qed.

Lemma with_counts_ssb D s t d0 :
  run_ok s -> In t ssb_tables -> tdefs_main !! Z.to_nat t = Some d0 ->
  exists d, tdefs (with_counts D s) !! Z.to_nat t = Some d /\ scaled_tdef d0 d /\
    base_of (with_counts D s) t = base d /\ base_of s t = base d.
Proof.
  intros Hs Ht Hd0. destruct (run_ok_tdef s _ _ Hs Hd0) as (d & Hd & Hsd). exists d.
  assert (E : tdefs (with_counts D s) !! Z.to_nat t = Some d).
  { rewrite with_counts_low; [exact Hd|]. destruct Ht as [<-|[<-|[<-|[<-|[<-|[]]]]]]; cbv; lia. }
  split; [exact E|]. split; [exact Hsd|]. unfold base_of. now rewrite E, Hd.
Qed.

Lemma floor_ln_le fuel : forall k n, floor_ln fuel k n <= k + Z.of_nat fuel.
Proof.
  induction fuel as [|fuel IH]; intros k n; cbn [floor_ln]; [lia|].
  destruct (_ <=? _); [|lia]. specialize (IH (k + 1) n). lia.
Qed.

Lemma with_counts_scale D s : run_ok s -> glob s G.scale <= 1000 ->
  scale_ok (with_counts D s) /\ serial_rows (with_counts D s) DATE <= 2922.
Proof.
  intros Hs Hsc. pose proof (ro_scale s Hs) as H1.
  destruct (with_counts_ssb D s CUST _ Hs ltac:(cbn; tauto) eq_refl) as (dc & _ & [_ Bc] & Ec & _).
  destruct (with_counts_ssb D s SUPP _ Hs ltac:(cbn; tauto) eq_refl) as (ds & _ & [_ Bs] & Es & _).
  destruct (with_counts_ssb D s PART _ Hs ltac:(cbn; tauto) eq_refl) as (dp & _ & [_ Bp] & Ep & _).
  destruct (with_counts_ssb D s DATE _ Hs ltac:(cbn; tauto) eq_refl) as (dd & _ & [_ Bd] & Ed & _).
  cbn [base] in Bc, Bs, Bp, Bd.
  unfold scale_ok, O_CKEY_MAX, L_SKEY_MAX, L_PKEY_MAX, serial_rows.
  change (DATE =? PART) with false. rewrite Z.eqb_refl. rewrite Ec, Es, Ep, Ed.
  change (glob (with_counts D s) G.scale) with (glob s G.scale).
  pose proof (floor_ln_ge 30 0 (glob s G.scale)) as F1. pose proof (floor_ln_le 30 0 (glob s G.scale)) as F2.
  fold (floor_log (glob s G.scale)) in F1, F2. split_and!; nia.
Qed.

Lemma ssb_rows D s t : run_ok s -> In t ssb_tables -> 1 <= serial_rows (with_counts D s) t.
Proof.
  intros Hs Ht. pose proof (ro_scale s Hs) as Hsc. pose proof (ssb_base s t Hs Ht) as Hb.
  assert (E : base_of (with_counts D s) t = base_of s t).
  { destruct Ht as [<-|[<-|[<-|[<-|[<-|[]]]]]];
      match goal with |- base_of _ ?t = _ =>
        destruct (with_counts_ssb D s t _ Hs ltac:(cbn; tauto) eq_refl) as (? & _ & _ & -> & ->) end; reflexivity. }
  unfold serial_rows. rewrite E. change (glob (with_counts D s) G.scale) with (glob s G.scale).
  pose proof (Z.log2_nonneg (glob s G.scale)). repeat destruct (_ =? _); [nia|lia|]. destruct (_ <? _); nia.
Qed.

Section Main.
Context (Os : os) (utcoff : Z -> Z) (spawn_ok : Z -> Z -> bool) (nk rk : Z) (D : dists) (s0 : st).
Context (Hok : run_ok s0) (HD : dists_ok D) (Hreg : 0 <= count (regions D)) (Hser : serial_run Os s0)
  (Hzone : zone_ok utcoff).

Let s1 : st := with_counts D s0.

(** The tables among [t] that leave a file. *)
Definition leaves (t : Z) : list Z := if selected s0 t && existsb (Z.eqb t) ssb_tables then [t] else [].

Lemma run_plain : plain_run s1.
Proof. destruct (sr_plain _ _ Hser). now split. Qed.

Lemma idle_base t : In t idle_tables -> 0 <= base_of s1 t.
Proof.
  intros Hin. pose proof (ok_nations D HD) as [Hn _].
  assert (Hd0 : exists d0, tdefs_main !! Z.to_nat t = Some d0 /\ 0 <= base d0).
  { destruct Hin as [<-|[<-|[<-|[<-|[<-|[]]]]]]; eexists; (split; [reflexivity|]); vm_compute; discriminate. }
  destruct Hd0 as (d0 & Hd0 & Hb0). destruct (run_ok_tdef s0 _ _ Hok Hd0) as (d & Hd & [_ Hb]).
  assert (Hb' : 0 <= base d) by lia. clear Hb. unfold base_of.
  enough (E : exists d', tdefs s1 !! Z.to_nat t = Some d' /\ 0 <= base d') by (destruct E as (d' & -> & E); exact E).
  destruct (decide (Z.to_nat t < 8)%nat) as [Hlow|Hhigh].
  - exists d. unfold s1. now rewrite with_counts_low.
  - assert (Hcode : t = NATION \/ t = REGION).
    { clear - Hin Hhigh. destruct Hin as [<-|[<-|[<-|[<-|[<-|[]]]]]]; auto; exfalso; apply Hhigh; cbv; lia. }
    unfold s1, with_counts. cbn [tdefs set_tdefs]. destruct Hcode as [-> | ->].
    + rewrite list_lookup_alter_ne, list_lookup_alter_eq, Hd by discriminate.
      eexists. split; [reflexivity|]. cbn [base base_is with_base]. lia.
    + rewrite list_lookup_alter_eq, list_lookup_alter_ne, Hd by discriminate.
      eexists. split; [reflexivity|exact Hreg].
Qed.

Lemma idle_rows_pos t : In t idle_tables -> 0 <= serial_rows s1 t.
Proof.
  intros Hin. pose proof (idle_base t Hin) as Hb. pose proof (ro_scale s0 Hok) as Hsc.
  unfold serial_rows. change (glob s1 G.scale) with (glob s0 G.scale).
  pose proof (Z.log2_nonneg (glob s0 G.scale)). repeat destruct (_ =? _); [nia|lia|]. destruct (_ <? _); nia.
Qed.

(** [gen_tbl] on the rows of table [t]. *)
Lemma table_step t s :
  0 <= t <= 9 -> selected s0 t = true -> between s1 t s ->
  exists s' fs, gen_tbl Os utcoff nk rk D t 1 (serial_rows s1 t) 0 s = Ok tt s' /\ between s1 (t + 1) s' /\
    files s' = files s ++ fs /\ Forall2 (serial_file Os utcoff D s1) (leaves t) fs.
Proof.
  intros Ht Hsel Hb. destruct (with_counts_scale D s0 Hok (sr_scale _ _ Hser)) as [Hsc Hdate].
  pose proof run_plain as Hp.
  assert (Hcase : In t ssb_tables \/ In t idle_tables).
  { assert (In t [0; 1; 2; 3; 4; 5; 6; 7; 8; 9]) by (cbn; lia). cbn in H |- *.
    destruct H as [<-|[<-|[<-|[<-|[<-|[<-|[<-|[<-|[<-|[<-|[]]]]]]]]]]]; unfold PART, SUPP, CUST, DATE, LINE; auto 10. }
  destruct Hcase as [Hin|Hin].
  - assert (Hl : leaves t = [t]).
    { unfold leaves. rewrite Hsel. clear - Hin. destruct Hin as [<-|[<-|[<-|[<-|[<-|[]]]]]]; reflexivity. }
    enough (exists s', gen_tbl Os utcoff nk rk D t 1 (serial_rows s1 t) 0 s = Ok tt s' /\
      table_done Os utcoff D s1 t s s') as (s' & E & Hb' & f & Hf & Hsf).
    { exists s', [f]. rewrite Hl. split_and!; try assumption. now constructor. }
    pose proof (ssb_rows D s0 t Hok Hin) as Hrows. fold s1 in Hrows.
    assert (Hd0 : exists d0 nm, tdefs_main !! Z.to_nat t = Some d0 /\ name d0 = Some nm /\ child d0 = NONE /\
      fst (loader d0) = Some (ld_of t)).
    { clear - Hin. each_table Hin; do 2 eexists; split_and!; reflexivity. }
    destruct Hd0 as (d0 & nm & Hd0 & Hn & Hc & Hl0).
    destruct (with_counts_ssb D s0 t d0 Hok Hin Hd0) as (d & Hd & [Hsd _] & _). fold s1 in Hd.
    apply (ssb_done Os utcoff nk rk D s1 HD Hp Hsc Hzone Hdate t d nm s Hin Hb Hd); try (now rewrite Hsd); [|exact Hrows].
    destruct (sr_open _ _ Hser t d0 nm Hin Hsel Hd0 Hn). now split.
  - assert (Hl : leaves t = []).
    { unfold leaves. rewrite Hsel. clear - Hin. destruct Hin as [<-|[<-|[<-|[<-|[<-|[]]]]]]; reflexivity. }
    assert (Hlen : length (tdefs s) = 10%nat).
    { rewrite (bt_length _ _ _ Hb). unfold s1, with_counts. cbn [tdefs set_tdefs]. rewrite !length_alter.
      pose proof (Forall2_length _ _ _ (ro_tdefs _ Hok)) as E. now rewrite <- E. }
    destruct (lookup_lt_is_Some_2 (tdefs s) (Z.to_nat (row_table t))) as [d Hd].
    { rewrite Hlen. clear - Hin. destruct Hin as [<-|[<-|[<-|[<-|[<-|[]]]]]]; vm_compute; lia. }
    destruct (idle_done Os utcoff nk rk D s1 Hp t d (serial_rows s1 t) s Hin Hb Hd) as (s' & E & Hb' & Hf).
    { apply idle_rows_pos. exact Hin. }
    exists s', []. rewrite Hl, app_nil_r. split_and!; try assumption. constructor.
Qed.

Lemma serial_rows_eq t s : between s1 t s -> forall i, serial_rows s i = serial_rows s1 i.
Proof.
  intros Hb i. unfold serial_rows. now rewrite !(bt_base _ _ _ Hb), !(bt_glob _ _ _ Hb) by kept.
Qed.

Lemma between_next t s : between s1 t s -> between s1 (t + 1) s.
Proof. apply between_mono. lia. Qed.

(** One turn of the loop of [main]. *)
Lemma main_table_step t s :
  0 <= t <= 9 -> between s1 t s ->
  exists s' fs, main_table Os utcoff spawn_ok nk rk D t s = Ok [] s' /\ between s1 (t + 1) s' /\
    files s' = files s ++ fs /\ Forall2 (serial_file Os utcoff D s1) (leaves t) fs.
Proof.
  intros Ht Hb. unfold main_table. rewrite (bind_ok get _ s s s) by reflexivity.
  rewrite !(bt_glob _ _ _ Hb) by kept. change (glob s1 G.table) with (glob s0 G.table).
  fold (selected s0 t). destruct (selected s0 t) eqn:Hsel.
  2:{ exists s, []. rewrite app_nil_r. unfold leaves. rewrite Hsel. split_and!; [reflexivity|now apply between_next|
        reflexivity|constructor]. }
  assert (Hc : (1 <? glob s1 G.children) && (t <? NATION) = false).
  { pose proof (sr_children _ _ Hser). change (glob s1 G.children) with (glob s0 G.children).
    destruct (Z.ltb_spec 1 (glob s0 G.children)); [lia|reflexivity]. }
  rewrite Hc. set (sa := set_glob G.rowcnt (serial_rows s t) (set_glob G.minrow 1 s)).
  assert (Hba : between s1 t sa).
  { apply between_set; [intros (_ & _ & _ & H & _); now apply H|]. apply between_set; [|exact Hb].
    intros (_ & _ & H & _). now apply H. }
  destruct (table_step t sa Ht Hsel Hba) as (s' & fs & Hgen & Hb' & Hf & HF).
  rewrite (bind_ok _ _ [] s s').
  2:{ rewrite (bind_ok _ _ tt s (set_glob G.minrow 1 s)) by reflexivity.
      rewrite (bind_ok _ _ tt (set_glob G.minrow 1 s) sa) by reflexivity.
      rewrite (serial_rows_eq t s Hb). change (glob s1 G.upd_num) with (glob s0 G.upd_num).
      rewrite (ro_upd _ Hok). rewrite (bind_ok _ _ _ _ _ Hgen). reflexivity. }
  rewrite (bind_ok get _ s' s' s') by reflexivity.
  rewrite (pr_validate _ (between_plain _ _ _ Hb' run_plain)).
  exists s', fs. split_and!; [reflexivity|exact Hb'|exact Hf|exact HF].
Qed.

(** The loop over the tables, for a turn that leaves the files [F] allows. *)
Lemma tables_loop (body : Z -> M (list (res unit))) (F : Z -> file -> Prop) :
  (forall t s, 0 <= t <= 9 -> between s1 t s ->
     exists s' fs, body t s = Ok [] s' /\ between s1 (t + 1) s' /\ files s' = files s ++ fs /\
       Forall2 F (leaves t) fs) ->
  forall n t s, 0 <= t -> t + Z.of_nat n <= 10 -> between s1 t s ->
  exists s' rs fs, for_list n t body s = Ok rs s' /\ concat rs = [] /\
    between s1 (t + Z.of_nat n) s' /\ files s' = files s ++ fs /\
    Forall2 F (concat (map (fun i => leaves (t + Z.of_nat i)) (seq 0 n))) fs.
Proof.
  intros Hbody. induction n as [|n IH]; intros t s Ht Hn Hb.
  - exists s, [], []. rewrite app_nil_r, Z.add_0_r. split_and!; try reflexivity; [exact Hb|constructor].
  - destruct (Hbody t s ltac:(lia) Hb) as (sa & fa & E1 & B1 & F1 & L1).
    destruct (IH (t + 1) sa ltac:(lia) ltac:(lia) B1) as (sb & rs & fb & E2 & C2 & B2 & F2 & L2).
    exists sb, ([] :: rs), (fa ++ fb). split_and!.
    + cbn [for_list]. rewrite (bind_ok _ _ _ _ _ E1), (bind_ok _ _ _ _ _ E2). reflexivity.
    + exact C2.
    + replace (t + Z.of_nat (S n)) with (t + 1 + Z.of_nat n) by lia. exact B2.
    + now rewrite F2, F1, app_assoc.
    + cbn [seq map concat]. rewrite Z.add_0_r. apply Forall2_app; [exact L1|].
      rewrite <- seq_shift, map_map. erewrite map_ext; [exact L2|].
      intros i. now replace (t + Z.of_nat (S i)) with (t + 1 + Z.of_nat i) by lia.
Qed.

Lemma leaves_all : concat (map (fun i => leaves (PART + Z.of_nat i)) (seq 0 10)) = List.filter (selected s0) ssb_tables.
Proof.
  cbn [seq map concat]. unfold leaves, ssb_tables. cbn [List.filter]. unfold PART, SUPP, CUST, DATE, LINE.
  change (0 + Z.of_nat 0) with 0. change (0 + Z.of_nat 1) with 1. change (0 + Z.of_nat 2) with 2.
  change (0 + Z.of_nat 3) with 3. change (0 + Z.of_nat 4) with 4. change (0 + Z.of_nat 5) with 5.
  change (0 + Z.of_nat 6) with 6. change (0 + Z.of_nat 7) with 7. change (0 + Z.of_nat 8) with 8.
  change (0 + Z.of_nat 9) with 9. cbn [existsb Z.eqb Pos.eqb orb]. rewrite !andb_true_r, !andb_false_r.
  destruct (selected s0 0), (selected s0 2), (selected s0 3), (selected s0 4), (selected s0 5); reflexivity.
Qed.

Lemma between_start : between s1 PART s1.
Proof.
  split; try reflexivity.
  - split; reflexivity.
  - change (Seed s1) with (Seed s0). rewrite (ro_seeds _ Hok). apply Seed_init_ok.
  - change (Seed s1) with (Seed s0). now rewrite (ro_seeds _ Hok).
  - intros t Ht _. change (prt s1) with (prt s0). rewrite (ro_prt _ Hok). reflexivity.
  - change (prt s1) with (prt s0). now rewrite (ro_prt _ Hok).
Qed.
End Main.

Lemma bind_next {A B} (m : M A) (k : A -> M B) a b s sa s' :
  m s = Ok a sa -> bind m k s = Ok b s' -> k a sa = Ok b s'.
Proof. intros E. now rewrite (bind_ok m k a s sa E). Qed.

Lemma main_tables : Z.to_nat (REGION + 1) = 10%nat.
Proof. reflexivity. Qed.

(** Options that [main] accepts leave a state it can run from. *)
Lemma options_run_ok opts s : (main_init;; process_options opts) st_start = Ok tt s -> run_ok s.
Proof.
  intros Hopts. destruct main_init_ok as (si & Ei & Hi). pose proof (okay_options true opts (fun _ => eq_refl) si Hi) as Hok.
  now rewrite (bind_next _ _ _ _ _ _ _ Ei Hopts) in Hok.
Qed.

(** [main] into flat files, up to the loop over the tables. *)
Lemma main_flat Os utcoff spawn_ok nk rk opts D s rs s' :
  (main_init;; process_options opts) st_start = Ok tt s -> load_dists (getenv Os) (file_text Os) s = Ok D s ->
  glob s G.direct = 0 -> glob s G.updates = 0 -> glob s G.fnames = 0 ->
  for_list 10 PART (main_table Os utcoff spawn_ok nk rk D) (with_counts D s) = Ok rs s' ->
  main Os utcoff spawn_ok nk rk opts st_start = Ok (concat rs) s'.
Proof.
  intros Hopts Hload Hdir Hupd Hfn E. destruct main_init_ok as (si & Ei & _).
  pose proof (bind_next _ _ _ _ _ _ _ Ei Hopts) as Hopt.
  unfold main, main_rest. rewrite (bind_ok _ _ _ _ _ Ei), (bind_ok _ _ _ _ _ Hopt), (bind_ok _ _ _ _ _ Hload).
  set (f8 := set_tdefs (alter (base_is (count (nations D))) (Z.to_nat NATION))).
  set (f9 := set_tdefs (alter (base_is (count (regions D))) (Z.to_nat REGION))).
  rewrite (bind_ok (modify f8) _ tt s (f8 s) eq_refl), (bind_ok (modify f9) _ tt (f8 s) (with_counts D s) eq_refl).
  rewrite (bind_ok get _ _ _ _ eq_refl).
  assert (Eg : glob (with_counts D s) = glob s) by reflexivity.
  rewrite Eg, Hupd, Hdir, Hfn. cbn [Z.eqb negb].
  rewrite (bind_ok (ret tt) _ tt _ (with_counts D s) eq_refl).
  rewrite main_tables, (bind_ok _ _ _ _ _ E). now rewrite (bind_ok (ret tt) _ tt _ s' eq_refl).
Qed.

(** [main] without [-S] and [-C]. *)
Lemma serial_main Os utcoff spawn_ok nk rk opts D s :
  (main_init;; process_options opts) st_start = Ok tt s ->
  load_dists (getenv Os) (file_text Os) s = Ok D s -> dists_ok D -> 0 <= count (regions D) ->
  serial_run Os s -> zone_ok utcoff ->
  exists s', main Os utcoff spawn_ok nk rk opts st_start = Ok [] s' /\ stdout s' = "" /\
    Forall2 (serial_file Os utcoff D (with_counts D s)) (List.filter (selected s) ssb_tables) (files s').
Proof.
  intros Hopts Hload HD Hreg Hser Hzone. pose proof (options_run_ok _ _ Hopts) as Hok.
  destruct (tables_loop D s _ _ (main_table_step Os utcoff spawn_ok nk rk D s Hok HD Hreg Hser Hzone)
    10 PART (with_counts D s)) as (s' & rs & fs & E & Hrs & Hb & Hf & HF);
    [cbv; discriminate|cbv; discriminate|exact (between_start D s Hok)|].
  exists s'. split_and!.
  - rewrite <- Hrs. apply (main_flat Os utcoff spawn_ok nk rk opts D s); try assumption; apply Hser.
  - rewrite (bt_stdout _ _ _ Hb). apply Hok.
  - rewrite Hf, <- leaves_all. change (files (with_counts D s)) with (files s). rewrite (ro_files _ Hok). exact HF.
Qed.

(** C1. A whole serial run, from the command line to the files: when the options ask for a
    serial run of a supported scale into files that can be opened, [main] returns and leaves
    exactly one file per selected SSBM table, in the order part, supplier, customer, date,
    lineorder, to each of which it has written the text of as many rows as the scale gives the
    table, row [i] being one its builder promises for number [i]; nothing is printed on the
    standard output, and the table numbers of TPC-H leave no file. (A longer file overwritten
    with [-F] keeps what it had beyond the text written.) *)
Theorem main_serial Os utcoff spawn_ok nk rk opts D s :
  (main_init;; process_options opts) st_start = Ok tt s ->
  load_dists (getenv Os) (file_text Os) s = Ok D s -> dists_ok D -> 0 <= count (regions D) ->
  serial_run Os s -> zone_ok utcoff ->
  exists s', main Os utcoff spawn_ok nk rk opts st_start = Ok [] s' /\ stdout s' = "" /\
    Forall2 (serial_file Os utcoff D (with_counts D s)) (List.filter (selected s) ssb_tables) (files s').
Proof. apply serial_main. Qed.

Lemma end_state (m : M unit) s :
  match m s with Ok _ _ => true | Stop _ _ => false end = true ->
  m s = Ok tt (match m s with Ok _ s | Stop _ s => s end).
Proof. now destruct (m s) as [[] s'|]. Qed.

(** All five tables at scale 1, no file existing: [dbgen -s 1 -S 1 -T a]. *)
Definition opts_all : list (ascii * string) := [("s"%char, "1"); ("S"%char, "1"); ("T"%char, "a")].
Definition opts_state : st :=
  match (main_init;; process_options opts_all) st_start with Ok _ s | Stop _ s => s end.

Lemma opts_all_serial : serial_run fresh_os opts_state.
Proof.
  split; [split; vm_compute; reflexivity|vm_compute; discriminate|vm_compute; reflexivity|vm_compute; discriminate|].
  intros t d nm Hin _ Hd Hn. destruct Hin as [<-|[<-|[<-|[<-|[<-|[]]]]]];
    (vm_compute in Hd; injection Hd as <-; injection Hn as <-;
     split; [vm_compute; reflexivity|discriminate|right; discriminate|reflexivity]).
Qed.

Lemma main_serial_witness :
  exists s', main fresh_os (fun _ => 0) (fun _ _ => true) 0 0 opts_all st_start = Ok [] s' /\ stdout s' = "" /\
    Forall2 (serial_file fresh_os (fun _ => 0) shipped (with_counts shipped opts_state))
      (List.filter (selected opts_state) ssb_tables) (files s').
Proof.
  apply (main_serial fresh_os (fun _ => 0) (fun _ _ => true) 0 0 opts_all shipped opts_state).
  - apply end_state. vm_compute. reflexivity.
  - apply shipped_loaded. vm_compute. reflexivity.
  - apply shipped_ok.
  - vm_compute. discriminate.
  - exact opts_all_serial.
  - intros t. unfold clock0. lia.
Defined.
