(* ===== verification/Forked.v ===== *)
(** Whole parallel runs of [main]: the children it forks without [-S], and the one step it
    generates with [-S]. *)
From S2P Require Import Prelude CString Float64 Rng SpeedSeed State Consts Streams Dist Bcd2 Sparse Calendar DateDim Build RowSpec Config Shipped Output Print Relational Parallel Chunks Driver Frame Tables Partial Options TableRun Serial.

(** ** The rows of a step *)

Lemma step_rows_le base base0 sf procs q :
  0 <= base <= base0 -> 0 <= sf <= q * procs -> 0 < procs -> step_rows base sf procs <= base0 * q.
Proof.
  intros Hb Hs Hp. pose proof (step_rows_total base sf procs Hp) as Ht.
  destruct (step_rows_nonneg base sf procs ltac:(lia) ltac:(lia) Hp) as [H1 H2]. nia.
Qed.

(** The row numbers of step [step]. *)
Definition step_range (base sf procs step : Z) : list Z :=
  seqZ (step_rows base sf procs * (step - 1) + 1) (Z.of_nat (step_count base sf procs step)).

Lemma step_count_nonneg base sf procs step :
  0 <= base -> 0 <= sf -> 0 < procs ->
  Z.of_nat (step_count base sf procs step) =
    if step =? procs then step_rows base sf procs + step_extra base sf procs else step_rows base sf procs.
Proof.
  intros Hb Hs Hp. pose proof (step_rows_nonneg base sf procs Hb Hs Hp). unfold step_count.
  destruct (step =? procs); lia.
Qed.

Lemma seqZ_one m : seqZ m 1 = [m].
Proof. reflexivity. Qed.

(** The steps go through the rows of a table in order, without a gap or an overlap. *)
Lemma step_ranges_cover base sf procs :
  0 <= base -> 0 <= sf -> 0 < procs ->
  concat (map (step_range base sf procs) (seqZ 1 procs)) = seqZ 1 (base * sf).
Proof.
  intros Hb Hs Hp. pose proof (step_rows_nonneg base sf procs Hb Hs Hp) as [Hr He].
  assert (Hlow : forall n : nat, Z.of_nat n < procs ->
    concat (map (step_range base sf procs) (seqZ 1 (Z.of_nat n))) = seqZ 1 (step_rows base sf procs * Z.of_nat n)).
  { induction n as [|n IH]; intros Hn; [now rewrite Z.mul_0_r|].
    rewrite Nat2Z.inj_succ, <- Z.add_1_r, seqZ_app, map_app, concat_app by lia. rewrite IH by lia.
    rewrite seqZ_one. cbn [map concat]. rewrite app_nil_r.
    unfold step_range. rewrite step_count_nonneg by lia. destruct (Z.eqb_spec (1 + Z.of_nat n) procs); [lia|].
    rewrite Z.mul_add_distr_l, Z.mul_1_r, seqZ_app by nia. do 2 f_equal. lia. }
  replace procs with (Z.of_nat (Z.to_nat (procs - 1)) + 1) at 2 by lia.
  rewrite seqZ_app, map_app, concat_app by lia. rewrite Hlow by lia.
  rewrite seqZ_one. cbn [map concat]. rewrite app_nil_r. unfold step_range. rewrite step_count_nonneg by lia.
  destruct (Z.eqb_spec (1 + Z.of_nat (Z.to_nat (procs - 1))) procs); [|lia].
  rewrite <- (step_rows_total base sf procs Hp).
  replace (step_rows base sf procs * procs + step_extra base sf procs) with
    (step_rows base sf procs * (procs - 1) + (step_rows base sf procs + step_extra base sf procs)) by lia.
  rewrite (seqZ_app _ (step_rows base sf procs * (procs - 1))) by nia. rewrite Z2Nat.id by lia. do 2 f_equal. ring.
Qed.

(** ** [set_state] on the five tables *)

(** A table without a seed function: nothing to skip. *)
Lemma set_state_no_seeds t sf procs step s d :
  tdefs s !! Z.to_nat t = Some d -> gen_seed d = None -> child d = NONE -> t <> LINE -> 0 <= base d ->
  1 <= sf -> 1 <= step <= procs -> sf / procs <= MAX_32B_SCALE ->
  set_state t sf procs step s = Ok (step_rows (base d) sf procs, Some (step_extra (base d) sf procs)) s.
Proof.
  intros Hd Hf Hc Ht Hb Hsf Hstep Hmax. unfold set_state.
  destruct (Z.eqb_spec sf 0), (Z.eqb_spec step 0); try lia. cbn [orb].
  rewrite (bind_ok get _ s s s) by reflexivity. rewrite (bind_ok _ _ d s s) by now rewrite Hd.
  destruct (Z.eqb_spec procs 0); [lia|]. pose proof (Z.mod_pos_bound (base d) procs ltac:(lia)).
  rewrite (quot_div (base d)), (rem_mod (base d)), (quot_div sf), (quot_div (_ * sf)), (rem_mod (_ * sf)) by nia.
  destruct (Z.ltb_spec MAX_32B_SCALE (sf / procs)); [lia|]. cbv zeta.
  fold (step_rows (base d) sf procs) (step_extra (base d) sf procs).
  assert (Hl : forall k i, for_loop k i (fun _ => skip_step t (step_rows (base d) sf procs)) s = Ok tt s).
  { induction k as [|k IH]; intros i; cbn [for_loop]; [reflexivity|].
    rewrite (bind_ok _ _ tt s s); [apply IH|]. unfold skip_step.
    rewrite (bind_ok get _ s s s) by reflexivity. rewrite (bind_ok _ _ d s s) by now rewrite Hd.
    destruct (Z.eqb_spec t LINE); [done|]. rewrite Hf, Hc. reflexivity. }
  rewrite (bind_ok _ _ tt s s) by apply Hl. destruct (Z.ltb_spec procs step); [lia|reflexivity].
Qed.

(** What [set_state] returns, and what it leaves of the state. *)
Definition state_set (t sf procs step : Z) (d : tdef) (s : st) : Prop :=
  exists s', set_state t sf procs step s = Ok (step_rows (base d) sf procs, Some (step_extra (base d) sf procs)) s' /\
    row_env t s' /\ glob s' = glob s /\ tdefs s' = tdefs s.

(** A table with a skip, at most 100 units of scale a step. *)
Lemma set_state_skips t f ids adv env sf procs step s d most :
  Skips t (call_gen_seed f (if t =? LINE then 1 else 0)) ids adv env ->
  tdefs s !! Z.to_nat t = Some d -> gen_seed d = Some f -> child d = NONE -> row_env t s -> env s ->
  0 <= base d <= most -> 1 <= sf <= 100 * procs -> 1 <= step <= procs -> sf / procs <= MAX_32B_SCALE ->
  (forall i, In i ids -> most * 100 * Z.of_nat (adv i) < 2 ^ 31) -> state_set t sf procs step d s.
Proof.
  intros HS Hd Hf Hc He Henv Hb Hsf Hstep Hmax Hadv.
  pose proof (step_rows_le (base d) most sf procs 100 Hb ltac:(lia) ltac:(lia)) as Hle.
  pose proof (wp_set_state t f ids adv env sf procs step s d Hf) as W. unfold wp in W.
  assert (Hsp : split_ok t sf procs step d ids adv s).
  { split; try assumption; [lia|lia|]. intros i Hi. specialize (Hadv i Hi). nia. }
  specialize (W Hsp He Henv). unfold state_set.
  destruct (set_state t sf procs step s) as [r s'|]; [|done]. destruct W as (-> & [M1 M2 M3 M4 _]).
  exists s'. now split_and!.
Qed.

(** A description with the functions of [d0] and at most its rows. *)
Record shaped (d0 d : tdef) : Prop := mk_shaped {
  sh_seed : gen_seed d = gen_seed d0;
  sh_loader : loader d = loader d0;
  sh_child : child d = child d0;
  sh_base : 1 <= base d <= base d0;
}.

Lemma shaped_ssb t d0 d :
  In t ssb_tables -> tdefs_main !! Z.to_nat t = Some d0 -> scaled_tdef d0 d -> shaped d0 d.
Proof.
  intros Hin Hd0 [Hsd Hb]. assert (Hb0 : 1 <= base d0) by (each_table Hin; injection Hd0 as <-; vm_compute; discriminate).
  split; try (now rewrite Hsd). lia.
Qed.

Lemma shaped_renamed nm d0 d : shaped d0 d -> shaped d0 (renamed nm d).
Proof. intros []. now split. Qed.

(** The five tables. *)
Lemma set_state_ssb t d0 d sf procs step s :
  In t ssb_tables -> tdefs_main !! Z.to_nat t = Some d0 -> shaped d0 d ->
  tdefs s !! Z.to_nat t = Some d -> row_env t s -> (t = LINE -> order_env 0 s) ->
  1 <= sf <= 100 * procs -> 1 <= step <= procs -> state_set t sf procs step d s.
Proof.
  intros Hin Hd0 [Hf _ Hc Hbase] Hd He Henv Hsf Hstep.
  assert (Hmax : sf / procs <= MAX_32B_SCALE).
  { etransitivity; [apply (Z.div_le_mono _ (100 * procs)); lia|]. rewrite Z.div_mul by lia. vm_compute. discriminate. }
  each_table Hin; injection Hd0 as <-; cbn [base with_base child gen_seed] in *.
  - apply (set_state_skips PART Fsd_part part_streams part_adv any_state) with (most := 200000);
      try assumption; [apply part_skips|exact I|lia|]. intros i Hi. each_stream Hi; reflexivity.
  - apply (set_state_skips SUPP Fsd_supp supp_streams supp_adv any_state) with (most := 2000);
      try assumption; [apply supp_skips|exact I|lia|]. intros i Hi. each_stream Hi; reflexivity.
  - apply (set_state_skips CUST Fsd_cust cust_streams cust_adv any_state) with (most := 30000);
      try assumption; [apply cust_skips|exact I|lia|]. intros i Hi. each_stream Hi; reflexivity.
  - exists s. split_and!; try assumption; try reflexivity.
    apply set_state_no_seeds; try assumption; lia || discriminate.
  - apply (set_state_skips LINE Fsd_line order_streams order_adv (order_env 0)) with (most := 1500000);
      try assumption; [apply line_skips|now apply Henv|unfold ORDERS_PER_CUST in Hbase; lia|].
    intros i Hi. each_stream Hi; reflexivity.
Qed.

(** ** A step of one table *)

Lemma base_of_rename t nm s t' : base_of (rename t nm s) t' = base_of s t'.
Proof.
  unfold base_of. cbn [rename tdefs set_tdefs]. destruct (decide (Z.to_nat t = Z.to_nat t')) as [<-|Hne].
  - rewrite list_lookup_alter_eq. destruct (tdefs s !! Z.to_nat t) as [d|]; reflexivity.
  - now rewrite list_lookup_alter_ne.
Qed.

Lemma between_rename s1 t k nm s : 0 <= t < k -> between s1 k s -> between s1 k (rename t nm s).
Proof.
  intros Ht [[B0 B1] B2 B3 B4 B5 B6 B7 B8]. split; try assumption.
  - split; [exact B0|]. intros t'. now rewrite base_of_rename.
  - intros t' Hk Hp. cbn [rename tdefs set_tdefs]. rewrite list_lookup_alter_ne by lia. now apply B2.
  - cbn [rename tdefs set_tdefs]. now rewrite length_alter.
Qed.

Section Step.
Context (Os : os) (utcoff : Z -> Z) (nk rk : Z) (D : dists) (s1 : st).
Context (HD : dists_ok D) (Hrun : plain_run s1) (Hsc : scale_ok s1) (Hzone : zone_ok utcoff).

Let sf : Z := glob s1 G.scale.
Let procs : Z := glob s1 G.children.

(** Step [step] of table [t] can be generated into [nm] with its number. *)
Record step_ready (t step : Z) (d0 d : tdef) (nm : string) (s : st) : Prop := mk_step_ready {
  rs_like : like s1 s;
  rs_seeds : seeds_ok (Seed s) /\ layout (Seed s) = layout Seed_init;
  rs_tdef : tdefs_main !! Z.to_nat t = Some d0 /\ shaped d0 d /\ tdefs s !! Z.to_nat t = Some d;
  rs_table : Z.land (glob s1 G.table) (bit t) <> 0;
  rs_name : name d = Some nm /\ strlen (step_name nm step) < 80;
  rs_open : openable Os (step_name nm step) s;
  rs_fp : fp (prt s) (pr_of t) = None /\ last_mode (prt s) = 0;
}.

Context (Hupd : glob s1 G.upd_num = 0) (Hsf : 1 <= sf <= 100 * procs).

(** The first row of a step. *)
Definition step_first (d : tdef) (step : Z) : Z := step_rows (base d) sf procs * (step - 1) + 1.

Lemma partial_done t step d0 d nm s :
  In t ssb_tables -> 1 <= step <= procs -> procs <= base d -> (t = DATE -> base d * sf < 2922) ->
  step_ready t step d0 d nm s ->
  exists s', partial Os utcoff nk rk D t step s = Ok 0 s' /\
    generated Os utcoff D s1 t (step_name nm step) (step_first d step) (step_count (base d) sf procs step)
      (rename t (step_name nm step) s) s'.
Proof.
  intros Hin Hstep Hbase Hdate [Hl [Hsd Hlay] (Hd0 & Hsh & Hd) Htab [Hn Hlen] Hop [Hfp Hlm]].
  set (nm' := step_name nm step) in *. set (sr := rename t nm' s).
  assert (Hl' : like s1 sr).
  { destruct Hl as [L1 L2]. split; [exact L1|]. intros t'. unfold sr. now rewrite base_of_rename. }
  assert (Hdr : tdefs sr !! Z.to_nat t = Some (renamed nm' d)).
  { unfold sr. cbn [rename tdefs set_tdefs]. now rewrite list_lookup_alter_eq, Hd. }
  assert (Hrt : row_table t = t) by (clear - Hin; each_table Hin; reflexivity).
  assert (Hc : child d = NONE).
  { rewrite (sh_child _ _ Hsh). clear - Hin Hd0. each_table Hin; injection Hd0 as <-; reflexivity. }
  assert (Hre : row_env t sr).
  { split; [exact Hsd|exact Hlay|apply (like_plain _ _ Hl' Hrun)|]. exists (renamed nm' d). now rewrite Hrt. }
  pose proof (step_rows_total (base d) sf procs ltac:(lia)) as Htot.
  pose proof (step_rows_nonneg (base d) sf procs ltac:(lia) ltac:(lia) ltac:(lia)) as [_ Hex].
  assert (Hrows : 1 <= step_rows (base d) sf procs) by nia.
  destruct (set_state_ssb t d0 (renamed nm' d) sf procs step sr Hin Hd0 (shaped_renamed _ _ _ Hsh) Hdr Hre)
    as (s2 & E2 & Hre2 & Hg2 & Ht2); [|exact Hsf|exact Hstep|].
  { intros _. split; [|now left]. clear - Hsc Hl'. destruct Hl' as [Hg Hb].
    unfold scale_ok, O_CKEY_MAX, L_SKEY_MAX, L_PKEY_MAX in *. rewrite !Hb, !Hg by kept. exact Hsc. }
  cbn [base renamed] in E2. destruct (inner_out _ _ _ _ (inner_set_state _ _ _ _) E2) as (O1 & O2 & O3).
  destruct (step_count_pos (base d) sf procs step Hrows ltac:(lia)) as [n Hcount].
  pose proof (step_count_nonneg (base d) sf procs step ltac:(lia) ltac:(lia) ltac:(lia)) as Hz.
  destruct (table_rows Os utcoff nk rk D s1 HD Hrun Hsc Hzone t nm' (step_first d step) n s2 Hin)
    as (s' & E & [G1 G2 G3 G4 G5 G6 G7 G8]).
  - intros Ht. specialize (Hdate Ht). unfold step_first. rewrite Hcount in Hz. destruct (Z.eqb_spec step procs); nia.
  - split; [now apply (like_same s1 sr)|exact Hre2| | |rewrite O1; exact Hfp|rewrite O1; exact Hlm].
    + exists (renamed nm' d). rewrite Ht2. split_and!; [exact Hdr| |reflexivity].
      cbn [loader renamed]. rewrite (sh_loader _ _ Hsh). clear - Hin Hd0. each_table Hin; injection Hd0 as <-; reflexivity.
    + destruct Hop as [P1 P2 P3 P4]. split; try assumption. now rewrite Hg2.
  - assert (Eg : glob s G.scale = sf /\ glob s G.children = procs /\ glob s G.upd_num = 0 /\
      glob s G.table = glob s1 G.table /\ glob s G.direct = 0).
    { pose proof (lk_glob _ _ Hl) as Hg. rewrite !Hg by kept. split_and!; try reflexivity; [exact Hupd|apply Hrun]. }
    destruct Eg as (Gs & Gc & Gu & Gt & Gd). exists s'. split.
    + apply (partial_runs Os utcoff nk rk D t step d nm s (step_rows (base d) sf procs)
        (step_extra (base d) sf procs) s2); rewrite ?Gt; try assumption; [lia| |].
      * rewrite Gs, Gc. exact E2.
      * rewrite Gu, Gc, <- Hz, Hcount. exact E.
    + rewrite Hcount. split; fold nm' sr; rewrite <- ?O1, <- ?O2, <- ?O3, <- ?Hg2; congruence || assumption.
Qed.
End Step.

(** ** The run *)

(** A parallel run of a supported scale over SSBM tables, into files that can be opened;
    the date table is not scaled, and no table has fewer rows than the run has steps. *)
Record parallel_run (Os : os) (s : st) : Prop := mk_parallel_run {
  pl_plain : plain_run s;
  pl_fnames : glob s G.fnames = 0;
  pl_scale : glob s G.scale <= 1000 /\ glob s G.scale <= 100 * glob s G.children;
  pl_children : 1 < glob s G.children;
  pl_tables : forall t, 0 <= t <= 9 -> selected s t = true -> In t ssb_tables;
  pl_rows : forall t, In t ssb_tables -> selected s t = true -> glob s G.children <= base_of s t;
  pl_date : selected s DATE = true -> base_of s DATE * glob s G.scale < 2922;
  pl_open : forall t d nm step, In t ssb_tables -> selected s t = true -> tdefs_main !! Z.to_nat t = Some d ->
    name d = Some nm -> 1 <= step <= glob s G.children -> openable Os (step_name nm step) s;
}.

(** File names of steps fit the line [set_files] builds them in. *)
Lemma step_name_short t d nm step :
  In t ssb_tables -> tdefs_main !! Z.to_nat t = Some d -> name d = Some nm -> 1 <= step <= base d ->
  strlen (step_name nm step) < 80.
Proof.
  intros Hin Hd Hn Hs.
  assert (E : strlen nm <= 20 /\ base d <= 1500000).
  { each_table Hin; injection Hd as <-; injection Hn as <-; vm_compute; split; discriminate. }
  unfold step_name. rewrite !length_app_s. unfold fmt_d. destruct (Z.ltb_spec step 0); [lia|].
  pose proof (udec_length step 7 ltac:(lia) ltac:(lia)). change (strlen ".") with 1. lia.
Qed.

(** Where [pids] has an entry, storing one changes nothing that matters. *)
Lemma store_pid_ok {A} c (k : M A) s : c < glob s G.pids -> (store_pid c;; k) s = k s.
Proof. intros H. unfold store_pid, bind, glb, gets. destruct (Z.ltb_spec c (glob s G.pids)); [reflexivity|lia]. Qed.

(** [process_options] allocates [pids] when [step] is -1, its initial value. *)
Lemma alloc_pids_done s s' : alloc_pids s = Ok tt s' ->
  glob s' G.step = -1 -> glob s' G.children <> 1 -> glob s' G.pids = glob s' G.children.
Proof.
  unfold alloc_pids, bind, glb, gets. destruct (negb (glob s G.children =? 1) && (glob s G.step =? -1)) eqn:E.
  - destruct (glob s G.children <? 0); [discriminate|]. intros [= <-] _ _. reflexivity.
  - intros [= <-] Hs Hc. rewrite Hs in E. destruct (Z.eqb_spec (glob s G.children) 1); [done|discriminate E].
Qed.

Lemma options_pids opts s0 s : (main_init;; process_options opts) s0 = Ok tt s ->
  glob s G.step = -1 -> glob s G.children <> 1 -> glob s G.pids = glob s G.children.
Proof.
  intros H. apply bind_inv in H as (? & s1 & _ & H). apply bind_inv in H as (? & s2 & _ & H). now apply (alloc_pids_done s2).
Qed.

Section Forked.
Context (Os : os) (utcoff : Z -> Z) (spawn_ok : Z -> Z -> bool) (nk rk : Z) (D : dists) (s0 : st).
Context (Hok : run_ok s0) (HD : dists_ok D) (Hpar : parallel_run Os s0) (Hzone : zone_ok utcoff).

Let s1 : st := with_counts D s0.
Let sf : Z := glob s1 G.scale.
Let procs : Z := glob s1 G.children.

(** The file of step [step] of table [t]: its rows, in order. *)
Definition step_rows_file (t step : Z) (f : file) : Prop :=
  exists d nm, tdefs s1 !! Z.to_nat t = Some d /\ name d = Some nm /\
    rows_file Os utcoff D s1 t (step_name nm step) (step_first s1 d step) (step_count (base d) sf procs step) f.

Lemma par_plain : plain_run s1.
Proof. destruct (pl_plain _ _ Hpar). now split. Qed.

Lemma par_scale : 1 <= sf <= 100 * procs /\ scale_ok s1.
Proof.
  destruct (pl_scale _ _ Hpar) as [H1 H2]. split; [split; [exact (ro_scale _ Hok)|exact H2]|].
  apply (with_counts_scale D s0 Hok H1).
Qed.

(** A selected table at the start of step [step], from any state with its description. *)
Lemma par_ready t step s :
  In t ssb_tables -> selected s0 t = true -> 1 <= step <= procs -> between s1 t s ->
  exists d0 d nm, step_ready Os s1 t step d0 d nm s /\ tdefs s1 !! Z.to_nat t = Some d /\ name d = Some nm /\
    procs <= base d /\ (t = DATE -> base d * sf < 2922).
Proof.
  intros Hin Hsel Hstep Hb.
  assert (Hd0 : exists d0 nm, tdefs_main !! Z.to_nat t = Some d0 /\ name d0 = Some nm).
  { clear - Hin. each_table Hin; do 2 eexists; split; reflexivity. }
  destruct Hd0 as (d0 & nm & Hd0 & Hn).
  destruct (with_counts_ssb D s0 t d0 Hok Hin Hd0) as (d & Hd & Hsd & _ & Hbase). fold s1 in Hd.
  pose proof (pl_rows _ _ Hpar t Hin Hsel) as Hrows. rewrite Hbase in Hrows. change (glob s0 G.children) with procs in Hrows.
  pose proof (shaped_ssb t d0 d Hin Hd0 Hsd) as Hsh. pose proof (sh_base _ _ Hsh).
  assert (Hn' : name d = Some nm) by (destruct Hsd as [-> _]; exact Hn).
  exists d0, d, nm. split_and!; try assumption.
  - split.
    + apply Hb.
    + split; apply Hb.
    + split_and!; try assumption. rewrite (bt_tdefs _ _ _ Hb); [exact Hd|reflexivity|now apply ssb_nonneg].
    + unfold selected in Hsel. change (glob s1 G.table) with (glob s0 G.table).
      destruct (Z.eqb_spec (Z.land (glob s0 G.table) (bit t)) 0); [discriminate|assumption].
    + split; [exact Hn'|]. apply (step_name_short t d0 nm step Hin Hd0 Hn). lia.
    + apply (openable_like _ _ _ _ (bt_like _ _ _ Hb)).
      destruct (pl_open _ _ Hpar t d0 nm step Hin Hsel Hd0 Hn Hstep). now split.
    + split; [apply (bt_fp _ _ _ Hb); [exact Hin|reflexivity]|apply Hb].
  - intros ->. rewrite <- Hbase. apply (pl_date _ _ Hpar Hsel).
Qed.

(** One step of a table, from any such state. *)
Lemma par_step t step s :
  In t ssb_tables -> selected s0 t = true -> 1 <= step <= procs -> between s1 t s ->
  exists s' f, partial Os utcoff nk rk D t step s = Ok 0 s' /\ between s1 (t + 1) s' /\
    files s' = files s ++ [f] /\ step_rows_file t step f.
Proof.
  intros Hin Hsel Hstep Hb. destruct (par_ready t step s Hin Hsel Hstep Hb) as (d0 & d & nm & Hr & Hd & Hn & Hrows & Hdate).
  destruct par_scale as [Hsf Hsc].
  destruct (partial_done Os utcoff nk rk D s1 HD par_plain Hsc Hzone (ro_upd _ Hok) Hsf t step d0 d nm s Hin Hstep
    Hrows Hdate Hr) as (s' & E & Hg).
  destruct (gd_file _ _ _ _ _ _ _ _ _ _ Hg) as (f & Hf & Hrf).
  exists s', f. split_and!; [exact E| |exact Hf|now exists d, nm].
  refine (generated_between _ _ _ _ _ _ _ _ _ _ Hin _ Hg). apply (between_rename _ t); [split; [now apply ssb_nonneg|lia]|].
  apply (between_mono _ t); [lia|exact Hb].
Qed.

(** The rows of a step against one serial run of the table alone, column by column. *)
Definition aligned {A} (t : Z) (mk : Z -> M A) (text : A -> string) (same : A -> A -> Prop) (step : Z) (d : tdef)
    (f : file) : Prop :=
  exists s L1 L2 L3 L2' s', like s1 s /\ Seed s = Seed s1 /\
    gen_rows t mk (Z.to_nat (base d * sf)) 1 s = Ok (L1 ++ L2 ++ L3) s' /\
    Z.of_nat (length L1) = (step - 1) * step_rows (base d) sf procs /\
    length L2 = step_count (base d) sf procs step /\ Forall2 same L2 L2' /\ bytes f = texts text L2'.

(** The columns the skips of [set_state] keep; the date dimension is not random. *)
Definition table_aligned (t step : Z) (d : tdef) (f : file) : Prop :=
  if t =? PART then aligned PART (mk_part D) part_text same_part step d f
  else if t =? SUPP then aligned SUPP (mk_supp D) supp_text same_supplier step d f
  else if t =? CUST then aligned CUST (mk_cust D) cust_text same_customer step d f
  else if t =? DATE then True
  else aligned LINE (order_row D 0) order_text same_order step d f.

Lemma step_ready_env {A} t step d0 d nm s p (mk : Z -> M A) to_row pr text f_ld f_sd ids adv same env s' f
    (HB : RowBuilder t mk ids adv eq same env)
    (HS : Skips t (call_gen_seed f_sd (if t =? LINE then 1 else 0)) ids adv env) :
  In t ssb_tables -> 1 <= step <= procs -> procs <= base d -> step_ready Os s1 t step d0 d nm s ->
  p = pr_of t -> gen_seed d0 = Some f_sd -> fst (loader d0) = Some f_ld -> child d0 = NONE ->
  table_of Os utcoff nk rk D t p mk to_row pr text f_ld 0 ->
  (forall i, In i ids -> base d0 * 100 * Z.of_nat (adv i) < 2 ^ 31) ->
  env (rename t (step_name nm step) s) ->
  partial Os utcoff nk rk D t step s = Ok 0 s' -> files s' = files s ++ [f] -> Seed s = Seed s1 ->
  aligned t mk text same step d f.
Proof.
  intros Hin Hstep Hrows [Hl [Hsd Hlay] (Hd0 & Hsh & Hd) Htab [Hn Hlen] Hop [Hfp Hlm]] Hp Hf Hld Hc HT Hadv Henv E Ef Hseed.
  destruct par_scale as [Hsf Hsc]. pose proof (sh_base _ _ Hsh) as Hb.
  assert (Eg : glob s G.scale = sf /\ glob s G.children = procs /\ glob s G.upd_num = 0 /\ glob s G.table = glob s1 G.table).
  { pose proof (lk_glob _ _ Hl) as Hg. rewrite !Hg by kept. split_and!; try reflexivity. exact (ro_upd _ Hok). }
  destruct Eg as (Gs & Gc & Gu & Gt).
  pose proof (step_rows_le (base d) (base d0) sf procs 100 ltac:(lia) ltac:(lia) ltac:(lia)) as Hle.
  assert (Hmax : sf / procs <= MAX_32B_SCALE).
  { etransitivity; [apply (Z.div_le_mono _ (100 * procs)); lia|]. rewrite Z.div_mul by lia. vm_compute. discriminate. }
  pose proof (step_rows_total (base d) sf procs ltac:(lia)) as Htot.
  pose proof (step_rows_nonneg (base d) sf procs ltac:(lia) ltac:(lia) ltac:(lia)) as [Hr0 Hex].
  assert (Hrt : row_table t = t) by (clear - Hin; each_table Hin; reflexivity).
  destruct (partial_file Os utcoff nk rk D t p mk to_row pr text f_ld f_sd ids adv same env Hrt 0 HT step d nm s)
    as (sb & L1 & L2 & L3 & L2' & sc & E' & Ef' & HR & H1 & H2 & H3).
  - split; rewrite ?Gs, ?Gc, ?Gu, ?Gt; try assumption; try reflexivity.
    + split; try assumption; try lia; [now rewrite (sh_child _ _ Hsh)|].
      intros i Hi. specialize (Hadv i Hi). nia.
    + split; [exact Hsd|exact Hlay|apply (like_plain _ _ Hl par_plain)|]. exists d. rewrite Hrt, (sh_child _ _ Hsh). now split.
    + apply (like_plain _ _ Hl par_plain).
    + now split.
    + rewrite (sh_seed _ _ Hsh), (sh_loader _ _ Hsh). now split.
    + subst p. now split_and!.
    + nia.
  - rewrite E in E'. injection E' as <-. rewrite Ef in Ef'. apply app_inj_tail in Ef' as [_ ->].
    rewrite Gs, Gc in *. exists (rename t (step_name nm step) s), L1, L2, L3, L2', sc. split_and!; try assumption; [|reflexivity].
    destruct Hl as [B0 B1]. split; [exact B0|]. intros t'. now rewrite base_of_rename.
Qed.

Lemma par_aligned t step d0 d nm s s' f :
  In t ssb_tables -> 1 <= step <= procs -> procs <= base d -> step_ready Os s1 t step d0 d nm s ->
  partial Os utcoff nk rk D t step s = Ok 0 s' -> files s' = files s ++ [f] -> Seed s = Seed s1 ->
  table_aligned t step d f.
Proof.
  intros Hin Hstep Hrows Hr E Ef Hseed. pose proof (rs_tdef _ _ _ _ _ _ _ _ Hr) as (Hd0 & _ & _).
  each_table Hin; injection Hd0 as E0; unfold table_aligned; cbv [PART SUPP CUST DATE LINE Z.eqb Pos.eqb];
    try exact I.
  - apply (step_ready_env PART step d0 d nm s P_part (mk_part D) R_part (pr_part Os) part_text Fpr_part Fsd_part
      part_streams part_adv same_part any_state s' f (part_builder D HD) (part_skips 0));
      try assumption; try (subst d0; reflexivity); [cbn; tauto|apply part_table|].
    intros i Hi. subst d0. each_stream Hi; reflexivity.
  - apply (step_ready_env SUPP step d0 d nm s P_supp (mk_supp D) R_supp (pr_supp Os) supp_text Fpr_supp Fsd_supp
      supp_streams supp_adv same_supplier any_state s' f (supp_builder D HD) (supp_skips 0));
      try assumption; try (subst d0; reflexivity); [cbn; tauto|apply supp_table|].
    intros i Hi. subst d0. each_stream Hi; reflexivity.
  - apply (step_ready_env CUST step d0 d nm s P_cust (mk_cust D) R_cust (pr_cust Os) cust_text Fpr_cust Fsd_cust
      cust_streams cust_adv same_customer any_state s' f (cust_builder D HD) (cust_skips 0));
      try assumption; try (subst d0; reflexivity); [cbn; tauto|apply cust_table|].
    intros i Hi. subst d0. each_stream Hi; reflexivity.
  - apply (step_ready_env LINE step d0 d nm s P_line (order_row D 0) R_order (pr_line Os) order_text Fpr_line Fsd_line
      order_streams order_adv same_order (order_env 0) s' f (order_builder D HD 0) (line_skips 0));
      try assumption; try (subst d0; reflexivity); [cbn; tauto|apply order_table| |].
    + intros i Hi. subst d0. each_stream Hi; reflexivity.
    + destruct par_scale as [_ Hsc]. split; [|now left].
      destruct (rs_like _ _ _ _ _ _ _ _ Hr) as [Hg Hb].
      unfold scale_ok, O_CKEY_MAX, L_SKEY_MAX, L_PKEY_MAX in *. cbn [rename glob set_tdefs].
      rewrite !base_of_rename, !Hb, !Hg by kept. exact Hsc.
Qed.

(** ** The children *)

Lemma par_start : between s1 PART s1.
Proof. apply (between_start D s0 Hok). Qed.

(** A child that exits with status 0, and its file. *)
Definition child_run (t step : Z) (r : res unit) : Prop :=
  exists s' d f, r = Stop (Exited 0) s' /\ stdout s' = "" /\ files s' = [f] /\ step_rows_file t step f /\
    tdefs s1 !! Z.to_nat t = Some d /\ table_aligned t step d f.

Lemma child_proc_runs t c :
  In t ssb_tables -> selected s0 t = true -> 0 <= c < procs ->
  child_run t (c + 1) (child_proc Os utcoff nk rk D t c s1).
Proof.
  intros Hin Hsel Hc. set (sc := set_glob G.verbose 0 s1).
  assert (Hb : between s1 t sc).
  { apply between_set; [intros (_ & _ & _ & _ & H); now apply H|].
    apply (between_mono _ PART); [now apply ssb_nonneg|exact par_start]. }
  destruct (par_step t (c + 1) sc Hin Hsel ltac:(lia) Hb) as (s' & f & E & Hb' & Hf & Hrf).
  destruct (par_ready t (c + 1) sc Hin Hsel ltac:(lia) Hb) as (d0 & d & nm & Hr & Hd & _ & Hrows & _).
  pose proof (par_aligned t (c + 1) d0 d nm sc s' f Hin ltac:(lia) Hrows Hr E Hf eq_refl) as Hal.
  exists s', d, f. split_and!; try assumption.
  - unfold child_proc. rewrite (bind_ok _ _ tt s1 sc) by reflexivity. now rewrite (bind_ok _ _ _ _ _ E).
  - rewrite (bt_stdout _ _ _ Hb'). apply Hok.
  - rewrite Hf. change (files sc) with (files s0). now rewrite (ro_files _ Hok).
Qed.

Context (Hspawn : forall t c, spawn_ok t c = true) (Hpids : procs <= glob s1 G.pids).

Lemma spawn_loop_runs t n : In t ssb_tables -> selected s0 t = true -> forall c,
  0 <= c -> c + Z.of_nat n <= procs ->
  exists rs, spawn_loop Os utcoff spawn_ok nk rk D n t c s1 = Ok rs s1 /\
    Forall2 (child_run t) (seqZ (c + 1) (Z.of_nat n)) rs.
Proof.
  intros Hin Hsel. induction n as [|n IH]; intros c Hc Hn.
  - exists []. split; [reflexivity|constructor].
  - destruct (IH (c + 1) ltac:(lia) ltac:(lia)) as (rs & E & HF).
    exists (child_proc Os utcoff nk rk D t c s1 :: rs). split.
    + cbn [spawn_loop]. rewrite store_pid_ok by lia. rewrite Hspawn. cbn [negb].
      rewrite (bind_ok _ _ (child_proc Os utcoff nk rk D t c s1) s1 s1) by reflexivity.
      rewrite (bind_ok _ _ _ _ _ E). reflexivity.
    + rewrite Nat2Z.inj_succ, seqZ_cons by lia. rewrite Z.pred_succ.
      constructor; [now apply child_proc_runs; [| |lia]|]. now rewrite <- Z.add_1_r.
Qed.

(** ** The loop over the tables *)

(** The tables a turn of the loop generates. *)
Lemma leaves_selected t : 0 <= t <= 9 -> leaves s0 t = if selected s0 t then [t] else [].
Proof.
  intros Ht. unfold leaves. destruct (selected s0 t) eqn:Hsel; [|reflexivity].
  pose proof (pl_tables _ _ Hpar t Ht Hsel) as Hin. clear - Hin. each_table Hin; reflexivity.
Qed.

(** Up to the call, a turn of the loop only looks at the options. *)
Lemma main_table_parallel t s runs s' :
  In t ssb_tables -> selected s0 t = true -> between s1 t s ->
  (if 0 <=? glob s1 G.step then _ <- partial Os utcoff nk rk D t (glob s1 G.step);; ret []
   else pload Os utcoff spawn_ok nk rk D t) s = Ok runs s' -> glob s' G.validate = 0 ->
  main_table Os utcoff spawn_ok nk rk D t s = Ok runs s'.
Proof.
  intros Hin Hsel Hb E Hv. unfold main_table. rewrite (bind_ok get _ s s s) by reflexivity.
  rewrite !(bt_glob _ _ _ Hb) by kept. change (glob s1 G.table) with (glob s0 G.table).
  unfold selected in Hsel. rewrite Hsel.
  assert (Hc : (1 <? glob s1 G.children) && (t <? NATION) = true).
  { pose proof (pl_children _ _ Hpar) as H. change (glob s1 G.children) with (glob s0 G.children).
    rewrite (proj2 (Z.ltb_lt _ _) H). clear - Hin. each_table Hin; reflexivity. }
  rewrite Hc, (pr_validate _ par_plain). change (negb (0 =? 0)) with false. cbv iota.
  rewrite (bind_ok _ _ _ _ _ E). rewrite (bind_ok get _ s' s' s') by reflexivity. rewrite Hv. reflexivity.
Qed.

Lemma main_table_skip t s : selected s0 t = false -> between s1 t s ->
  main_table Os utcoff spawn_ok nk rk D t s = Ok [] s.
Proof.
  intros Hsel Hb. unfold main_table. rewrite (bind_ok get _ s s s) by reflexivity.
  rewrite !(bt_glob _ _ _ Hb) by kept. change (glob s1 G.table) with (glob s0 G.table).
  unfold selected in Hsel. now rewrite Hsel.
Qed.

(** The runs of the children of a turn. *)
Definition children_of (t : Z) : list (Z * Z) := list_prod (leaves s0 t) (seqZ 1 procs).

Lemma fork_table t :
  0 <= t <= 9 -> glob s0 G.step < 0 ->
  exists rs, main_table Os utcoff spawn_ok nk rk D t s1 = Ok rs s1 /\
    Forall2 (fun c r => child_run (fst c) (snd c) r) (children_of t) rs.
Proof.
  intros Ht Hstep. assert (Hb : between s1 t s1) by (apply (between_mono _ PART); [unfold PART; lia|exact par_start]).
  unfold children_of. rewrite leaves_selected by exact Ht. destruct (selected s0 t) eqn:Hsel.
  2:{ exists []. split; [now apply main_table_skip|constructor]. }
  pose proof (pl_tables _ _ Hpar t Ht Hsel) as Hin. pose proof (pl_children _ _ Hpar) as Hc.
  change (glob s0 G.children) with procs in Hc.
  destruct (spawn_loop_runs t (Z.to_nat procs) Hin Hsel 0 ltac:(lia) ltac:(lia)) as (rs & E & HF).
  exists rs. split.
  - apply main_table_parallel; try assumption; [|apply par_plain].
    change (glob s1 G.step) with (glob s0 G.step). destruct (Z.leb_spec 0 (glob s0 G.step)); [lia|].
    unfold pload. rewrite (bind_ok _ _ procs s1 s1) by reflexivity. exact E.
  - rewrite Z2Nat.id in HF by lia. cbn [list_prod]. rewrite app_nil_r. apply Forall2_fmap_l. exact HF.
Qed.

Lemma fork_loop n : forall t, 0 <= t -> t + Z.of_nat n <= 10 -> glob s0 G.step < 0 ->
  exists rs, for_list n t (main_table Os utcoff spawn_ok nk rk D) s1 = Ok rs s1 /\
    Forall2 (fun c r => child_run (fst c) (snd c) r)
      (concat (map (fun i => children_of (t + Z.of_nat i)) (seq 0 n))) (concat rs).
Proof.
  induction n as [|n IH]; intros t Ht Hn Hstep.
  - exists []. split; [reflexivity|constructor].
  - destruct (fork_table t ltac:(lia) Hstep) as (ra & Ea & Fa).
    destruct (IH (t + 1) ltac:(lia) ltac:(lia) Hstep) as (rb & Eb & Fb). exists (ra :: rb). split.
    + cbn [for_list]. now rewrite (bind_ok _ _ _ _ _ Ea), (bind_ok _ _ _ _ _ Eb).
    + cbn [seq map concat]. rewrite Z.add_0_r. apply Forall2_app; [exact Fa|].
      rewrite <- seq_shift, map_map. erewrite map_ext; [exact Fb|].
      intros i. now replace (t + Z.of_nat (S i)) with (t + 1 + Z.of_nat i) by lia.
Qed.

(** With [-S], one step of every table. *)
Lemma step_table t s :
  0 <= t <= 9 -> 1 <= glob s0 G.step <= procs -> between s1 t s ->
  exists s' fs, main_table Os utcoff spawn_ok nk rk D t s = Ok [] s' /\ between s1 (t + 1) s' /\
    files s' = files s ++ fs /\ Forall2 (fun t f => step_rows_file t (glob s0 G.step) f) (leaves s0 t) fs.
Proof.
  intros Ht Hstep Hb. rewrite leaves_selected by exact Ht. destruct (selected s0 t) eqn:Hsel.
  2:{ exists s, []. rewrite app_nil_r. split_and!; [now apply main_table_skip| |reflexivity|constructor].
      apply (between_mono _ t); [lia|exact Hb]. }
  pose proof (pl_tables _ _ Hpar t Ht Hsel) as Hin.
  destruct (par_step t (glob s0 G.step) s Hin Hsel Hstep Hb) as (s' & f & E & Hb' & Hf & Hrf).
  exists s', [f]. split_and!; [|exact Hb'|exact Hf|now constructor].
  apply main_table_parallel; try assumption; [|now apply (between_plain _ _ _ Hb'), par_plain].
  change (glob s1 G.step) with (glob s0 G.step). destruct (Z.leb_spec 0 (glob s0 G.step)); [|lia].
  now rewrite (bind_ok _ _ _ _ _ E).
Qed.

End Forked.

Lemma list_prod_app {A B} (l1 l2 : list A) (m : list B) : list_prod (l1 ++ l2) m = list_prod l1 m ++ list_prod l2 m.
Proof. induction l1 as [|x l1 IH]; [reflexivity|]. cbn [list_prod app]. now rewrite IH, app_assoc. Qed.

Lemma list_prod_concat {A B C} (f : A -> list B) (m : list C) l :
  concat (map (fun i => list_prod (f i) m) l) = list_prod (concat (map f l)) m.
Proof. induction l as [|x l IH]; [reflexivity|]. cbn [map concat]. now rewrite IH, list_prod_app. Qed.

(** ** Properties *)

(** Every row number of table [t] is in the range of exactly one step, and the ranges follow
    one another. *)
Definition steps_cover (s : st) (t : Z) : Prop :=
  concat (map (step_range (base_of s t) (glob s G.scale) (glob s G.children)) (seqZ 1 (glob s G.children))) =
  seqZ 1 (base_of s t * glob s G.scale).

(** C2. A parallel run by forks, from the command line to the files: [main -C n] without [-S]
    forks [n] children for every selected table, in the order of the tables and steps, and
    writes nothing itself; child [c] exits with status 0 and leaves one file, named after
    the table and [c], to which it has written the rows of step [c], each what its builder promises for its
    number, and, but for the columns whose streams are not skipped, the row that number [i] has
    when the builder of the table makes all [base * scale] rows one after the other from the
    seeds of the program. The steps cover those rows without gap or overlap. (A serial
    run makes the same number of rows but for parts, of which it makes
    [base * floor(1 + log2 scale)], and dates, which it does not scale.) The run: [step] is -1, as it is
    without [-S] ([pids] is allocated then only: for any other negative step the program
    stores through [NULL]); scale at most 1000 and at most 100 times [n], 1 < [n], no selected
    table of fewer than [n] rows, dates only while [base * scale] is below 2922; SSBM tables,
    every file can be opened without a question, every fork succeeds. *)
Theorem main_forked Os utcoff spawn_ok nk rk opts D s :
  (main_init;; process_options opts) st_start = Ok tt s ->
  load_dists (getenv Os) (file_text Os) s = Ok D s -> dists_ok D ->
  parallel_run Os s -> glob s G.step = -1 -> zone_ok utcoff -> (forall t c, spawn_ok t c = true) ->
  exists runs s', main Os utcoff spawn_ok nk rk opts st_start = Ok runs s' /\ stdout s' = "" /\ files s' = [] /\
    Forall2 (fun c r => child_run Os utcoff D s (fst c) (snd c) r)
      (list_prod (List.filter (selected s) ssb_tables) (seqZ 1 (glob s G.children))) runs /\
    forall t, In t ssb_tables -> steps_cover s t.
Proof.
  intros Hopts Hload HD Hpar Hstep Hzone Hspawn. pose proof (options_run_ok _ _ Hopts) as Hok.
  pose proof (pl_children _ _ Hpar) as Hc.
  assert (Hpids : glob (with_counts D s) G.children <= glob (with_counts D s) G.pids).
  { change (glob s G.children <= glob s G.pids). rewrite (options_pids _ _ _ Hopts Hstep) by lia. lia. }
  destruct (fork_loop Os utcoff spawn_ok nk rk D s Hok HD Hpar Hzone Hspawn Hpids 10 PART) as (rs & E & HF);
    [cbv; discriminate|cbv; discriminate|lia|].
  exists (concat rs), (with_counts D s). split_and!.
  - apply (main_flat Os utcoff spawn_ok nk rk opts D s); try assumption; apply Hpar.
  - apply Hok.
  - apply Hok.
  - rewrite <- leaves_all, <- list_prod_concat. exact HF.
  - intros t Hin. pose proof (ssb_base s t Hok Hin). pose proof (ro_scale _ Hok).
    apply step_ranges_cover; lia.
Qed.

(** C6. One step of a parallel run: [main -C n -S c] returns and leaves exactly one file per
    selected table, in the order of the tables, named after the table and the step, to
    which it has written the rows of step [c], each what its builder promises for its number, provided that
    1 <= [c] <= [n], 1 < [n], the scale is at most 1000 and at most 100 times [n], no selected
    table has fewer than [n] rows (a step without rows leaves no file),
    dates are selected only while [base * scale] is below 2922, the tables are SSBM's and
    every file can be opened. *)
Theorem main_step Os utcoff spawn_ok nk rk opts D s :
  (main_init;; process_options opts) st_start = Ok tt s ->
  load_dists (getenv Os) (file_text Os) s = Ok D s -> dists_ok D ->
  parallel_run Os s -> 1 <= glob s G.step <= glob s G.children -> zone_ok utcoff ->
  exists s', main Os utcoff spawn_ok nk rk opts st_start = Ok [] s' /\ stdout s' = "" /\
    Forall2 (fun t f => step_rows_file Os utcoff D s t (glob s G.step) f)
      (List.filter (selected s) ssb_tables) (files s').
Proof.
  intros Hopts Hload HD Hpar Hstep Hzone. pose proof (options_run_ok _ _ Hopts) as Hok.
  destruct (tables_loop D s _ _ (fun t st Ht Hb => step_table Os utcoff spawn_ok nk rk D s Hok HD Hpar Hzone
    t st Ht Hstep Hb) 10 PART (with_counts D s)) as (s' & rs & fs & E & Hrs & Hb & Hf & HF);
    [cbv; discriminate|cbv; discriminate|exact (between_start D s Hok)|].
  exists s'. split_and!.
  - rewrite <- Hrs. apply (main_flat Os utcoff spawn_ok nk rk opts D s); try assumption; apply Hpar.
  - rewrite (bt_stdout _ _ _ Hb). apply Hok.
  - rewrite Hf, <- leaves_all. change (files (with_counts D s)) with (files s). rewrite (ro_files _ Hok). exact HF.
Qed.

Lemma fmt_d_short n : 0 <= n < 10 ^ 7 -> strlen (fmt_d n) <= 7.
Proof.
  intros Hn. unfold fmt_d. destruct (Z.ltb_spec n 0); [lia|]. apply (udec_length n 7); [lia|exact Hn].
Qed.

Lemma full_path_length nm : strlen (full_path fresh_os nm) <= 2 + strlen nm.
Proof.
  assert (E : full_path fresh_os nm = nm \/ full_path fresh_os nm = env_config (getenv fresh_os) PATH_TAG PATH_DFLT +:+ "/" +:+ nm).
  { destruct nm as [|[[] [] [] [] [] [] [] []] nm]; (right; reflexivity) || (left; reflexivity). }
  destruct E as [-> | ->]; [lia|]. rewrite !length_app_s.
  change (strlen (env_config (getenv fresh_os) PATH_TAG PATH_DFLT) + (1 + strlen nm) <= 2 + strlen nm).
  vm_compute (env_config _ _ _). change (strlen ".") with 1. lia.
Qed.

Lemma step_path_short nm step : strlen nm <= 20 -> 0 <= step < 10 ^ 7 -> strlen (full_path fresh_os (step_name nm step)) < 256.
Proof.
  intros Hn Hs. pose proof (fmt_d_short step Hs). pose proof (strlen_nonneg nm).
  assert (E : strlen (step_name nm step) <= 28) by (unfold step_name; rewrite !length_app_s; change (strlen ".") with 1; lia).
  pose proof (full_path_length (step_name nm step)). lia.
Qed.

(** Four processes at scale 2, no file existing: [dbgen -s 2 -C 4 -T a]; and the second of
    them, [dbgen -s 2 -C 4 -S 2 -T a]. *)
Definition opts_forks : list (ascii * string) := [("s"%char, "2"); ("C"%char, "4"); ("T"%char, "a")].
Definition opts_second : list (ascii * string) :=
  [("s"%char, "2"); ("C"%char, "4"); ("S"%char, "2"); ("T"%char, "a")].
Definition options_end (opts : list (ascii * string)) : st :=
  match (main_init;; process_options opts) st_start with Ok _ s | Stop _ s => s end.

Ltac parallel_concrete :=
  split; [split; vm_compute; reflexivity|vm_compute; reflexivity|vm_compute; split; discriminate
         |vm_compute; reflexivity| | |vm_compute; discriminate|];
  [intros t Ht Hsel;
   assert (H : In t [0; 1; 2; 3; 4; 5; 6; 7; 8; 9]) by (cbn; lia);
   cbn in H; destruct H as [<-|[<-|[<-|[<-|[<-|[<-|[<-|[<-|[<-|[<-|[]]]]]]]]]]];
     vm_compute in Hsel; try discriminate Hsel; cbv; tauto
  |intros t Hin _; each_table Hin; vm_compute; discriminate
  |intros t d nm step Hin _ Hd Hn Hs; split; [|discriminate|right; discriminate|reflexivity];
   assert (strlen nm <= 20) by (each_table Hin; injection Hd as <-; injection Hn as <-; vm_compute; discriminate);
   apply step_path_short; [assumption|];
   match type of Hs with _ <= _ <= ?n => assert (n = 4) by (vm_compute; reflexivity) end; lia].

Lemma main_forked_witness :
  exists runs s', main fresh_os (fun _ => 0) (fun _ _ => true) 0 0 opts_forks st_start = Ok runs s' /\
    stdout s' = "" /\ files s' = [] /\
    Forall2 (fun c r => child_run fresh_os (fun _ => 0) shipped (options_end opts_forks) (fst c) (snd c) r)
      (list_prod (List.filter (selected (options_end opts_forks)) ssb_tables)
         (seqZ 1 (glob (options_end opts_forks) G.children))) runs /\
    forall t, In t ssb_tables -> steps_cover (options_end opts_forks) t.
Proof.
  apply (main_forked fresh_os (fun _ => 0) (fun _ _ => true) 0 0 opts_forks shipped (options_end opts_forks)).
  - apply end_state. vm_compute. reflexivity.
  - apply shipped_loaded. vm_compute. reflexivity.
  - apply shipped_ok.
  - parallel_concrete.
  - vm_compute. reflexivity.
  - intros t. unfold clock0. lia.
  - reflexivity.
Defined.

Lemma main_step_witness :
  exists s', main fresh_os (fun _ => 0) (fun _ _ => true) 0 0 opts_second st_start = Ok [] s' /\ stdout s' = "" /\
    Forall2 (fun t f => step_rows_file fresh_os (fun _ => 0) shipped (options_end opts_second) t
        (glob (options_end opts_second) G.step) f)
      (List.filter (selected (options_end opts_second)) ssb_tables) (files s').
Proof.
  apply (main_step fresh_os (fun _ => 0) (fun _ _ => true) 0 0 opts_second shipped (options_end opts_second)).
  - apply end_state. vm_compute. reflexivity.
  - apply shipped_loaded. vm_compute. reflexivity.
  - apply shipped_ok.
  - parallel_concrete.
  - vm_compute. split; discriminate.
  - intros t. unfold clock0. lia.
Defined.
