(* ===== verification/Validate.v ===== *)
(** The validation run ([-O v]): the rows of a serial run, added up instead of written. Every
    table's checksum is that of the rows the run without [-O v] writes. *)
From S2P Require Import Prelude CString Float64 Rng SpeedSeed State Consts Streams Dist Bcd2 Sparse Calendar DateDim Build RowSpec Config Shipped Output Print Relational Parallel Chunks Driver Frame Tables Partial Options TableRun Serial.

(** ** What a row adds to the checksums *)

(** Amounts, each with the table whose checksum takes it. *)
Definition sums : Type := list (Z * Z).

Definition cust_sums (c : customer_t) : sums :=
  map (pair CUST) [c_custkey c; char_sum (c_name c); char_sum (c_address c); char_sum (c_city c);
    char_sum (c_nation_name c); char_sum (c_region_name c); char_sum (c_phone c); char_sum (c_mktsegment c)].
Definition lineorder_sums (l : lineorder_t) : sums :=
  map (pair LINE) [fst (l_okey l) + snd (l_okey l); l_linenumber l; l_custkey l; l_partkey l; l_suppkey l;
    char_sum (l_orderdate l); char_sum (l_opriority l); l_ship_priority l; l_quantity l; l_extended_price l;
    l_order_totalprice l; l_discount l; l_revenue l; l_supp_cost l; l_tax l; char_sum (l_commit_date l);
    char_sum (l_shipmode l)].
Definition order_sums (o : order_t) : sums := concat (map lineorder_sums (o_lineorders o)).
Definition part_sums (p : part_t) : sums :=
  map (pair PART) [p_partkey p; char_sum (p_name p); char_sum (p_mfgr p); char_sum (p_brand p);
    char_sum (p_type p); p_size p; char_sum (p_container p); char_sum (p_category p)].
(** [vrf_supp] adds most columns to the checksum of the customers, and two fields that are
    never set. *)
Definition supp_sums (nk rk : Z) (s : supplier_t) : sums :=
  map (pair SUPP) [s_suppkey s; char_sum (s_name s)] ++
  map (pair CUST) [char_sum (s_address s); nk; char_sum (s_nation_name s); rk; char_sum (s_region_name s);
    char_sum (s_phone s)].
Definition date_sums (d : date_t) : sums :=
  map (pair DATE) [datekey d; char_sum (date d); char_sum (dayofweek d); char_sum (d_month d); year d;
    yearmonthnum d; char_sum (yearmonth d); daynuminweek d; daynuminmonth d; daynuminyear d; monthnuminyear d;
    weeknuminyear d; char_sum (sellingseason d); char_sum (lastdayinweekfl d); char_sum (lastdayinmonthfl d);
    char_sum (weekdayfl d)].

Definition row_sums (nk rk : Z) (r : row) : sums :=
  match r with
  | R_order o => order_sums o | R_supp s => supp_sums nk rk s | R_cust c => cust_sums c
  | R_part p => part_sums p | R_date d => date_sums d
  end.

(** The checksums after the amounts of [l]. *)
Definition add_total (T : nat -> Z) (p : Z * Z) : nat -> Z :=
  fun i => if decide (i = Z.to_nat (fst p)) then wrap_u 64 (T i + snd p) else T i.
Definition totals (l : sums) (T : nat -> Z) : nat -> Z := fold_left add_total l T.

Lemma totals_app a b T : totals (a ++ b) T = totals b (totals a T).
Proof. apply fold_left_app. Qed.

(** The checksum of a table: the amounts it takes, modulo [2^64]. *)
Definition amounts (t : Z) (l : sums) : Z :=
  fold_right Z.add 0 (map snd (List.filter (fun p => Nat.eqb (Z.to_nat t) (Z.to_nat (fst p))) l)).

Lemma totals_amounts t l : forall T, T (Z.to_nat t) = wrap_u 64 (T (Z.to_nat t)) ->
  totals l T (Z.to_nat t) = wrap_u 64 (T (Z.to_nat t) + amounts t l).
Proof.
  unfold totals, amounts. induction l as [|[t' d] l IH]; intros T HT; cbn [fold_left List.filter map fold_right].
  - now rewrite Z.add_0_r.
  - cbn [fst]. unfold add_total at 2. cbn [fst snd]. destruct (Nat.eqb_spec (Z.to_nat t) (Z.to_nat t')) as [E|E].
    + rewrite IH; unfold add_total; cbn [fst snd map fold_right]; rewrite decide_True by exact E.
      * unfold wrap_u. rewrite Zplus_mod_idemp_l. f_equal. ring.
      * unfold wrap_u. now rewrite Z.mod_mod by lia.
    + rewrite IH; unfold add_total; cbn [fst snd]; rewrite decide_False by exact E; [reflexivity|exact HT].
Qed.

(** ** A state in a validation run *)

(** [s] with the output part of [o], the option [-O v] and the checksums [T]. *)
Definition check_view (o : st) (T : nat -> Z) (s : st) : st :=
  set_glob G.validate 1 (set_tdefs (imap (fun i => with_total (T i))) (with_out o s)).

#[export] Instance check_view_view o T : View (check_view o T).
Proof.
  split; try reflexivity.
  - intros s v Hv. cbn. destruct (decide (v = G.validate)) as [->|]; [discriminate|].
    now destruct v.
  - intros s t. cbn. rewrite list_lookup_imap. destruct (tdefs s !! t); reflexivity.
Qed.

Lemma check_tdef o T s t d :
  tdefs s !! t = Some d -> tdefs (check_view o T s) !! t = Some (with_total (T t) d).
Proof. intros Hd. cbn. now rewrite list_lookup_imap, Hd. Qed.

(** [m] adds the amounts [l] to the checksums and returns [r]. *)
Definition adds {A} (m : M A) (l : sums) (r : A) : Prop :=
  forall o T s, m (check_view o T s) = Ok r (check_view o (totals l T) s).

Lemma adds_ret {A} (r : A) : adds (ret r) [] r.
Proof. intros o T s. reflexivity. Qed.

Lemma adds_bind {A B} (m : M A) (k : A -> M B) l l' a r :
  adds m l a -> adds (k a) l' r -> adds (bind m k) (l ++ l') r.
Proof. intros H1 H2 o T s. unfold bind. now rewrite H1, H2, totals_app. Qed.

Lemma adds_next {B} t d (k : M B) l r : adds (VRF_INT t d) [(t, d)] tt -> adds k l r -> adds (VRF_INT t d;; k) ((t, d) :: l) r.
Proof. exact (adds_bind _ (fun _ => k) [(t, d)] l tt r). Qed.

Lemma adds_vrf t d : adds (VRF_INT t d) [(t, d)] tt.
Proof.
  intros o T s. unfold VRF_INT, modify. f_equal. apply st_eq; try reflexivity. cbn [tdefs set_tdefs set_glob check_view].
  apply list_eq. intros i. destruct (decide (i = Z.to_nat t)) as [->|Hne].
  - rewrite list_lookup_alter_eq, !list_lookup_imap. destruct (_ !! _) as [x|]; [|reflexivity]. cbn.
    unfold add_total. cbn [fst snd]. now rewrite decide_True.
  - rewrite list_lookup_alter_ne, !list_lookup_imap by congruence. destruct (_ !! _) as [x|]; [|reflexivity]. cbn.
    unfold add_total. cbn [fst snd]. now rewrite decide_False.
Qed.

Ltac adds_go := repeat (apply adds_next; [apply adds_vrf|]); first [apply adds_ret|apply adds_vrf].

Lemma adds_lineorder l : adds (vrf_lineorder l) (lineorder_sums l) tt.
Proof. unfold vrf_lineorder, VRF_STR, VRF_HUGE, lineorder_sums. cbn [map]. adds_go. Qed.

Lemma adds_lines ls : adds (vrf_lines ls) (concat (map lineorder_sums ls)) tt.
Proof.
  induction ls as [|l ls IH]; [apply adds_ret|]. eapply adds_bind; [apply adds_lineorder|exact IH].
Qed.

(** The function that verifies a row. *)
Definition vrf_of (r : row) : vrf_fn :=
  match r with
  | R_order _ => Fvrf_line | R_supp _ => Fvrf_supp | R_cust _ => Fvrf_cust | R_part _ => Fvrf_part | R_date _ => Fvrf_date
  end.

Lemma adds_row nk rk r : adds (call_verify nk rk (vrf_of r) r) (row_sums nk rk r) 0.
Proof.
  destruct r as [o|s|c|p|d]; cbn [call_verify vrf_of row_sums].
  - unfold vrf_line, order_sums. rewrite <- (app_nil_r (concat _)). eapply adds_bind; [apply adds_lines|apply adds_ret].
  - unfold vrf_supp, VRF_STR, supp_sums. cbn [map app]. adds_go.
  - unfold vrf_cust, VRF_STR, cust_sums. cbn [map]. adds_go.
  - unfold vrf_part, VRF_STR, part_sums. cbn [map]. adds_go.
  - unfold vrf_date, VRF_STR, date_sums. cbn [map]. adds_go.
Qed.

(** ** One table *)

(** Output parts that differ in counters at most. *)
Definition same_out (o o' : st) : Prop := files o' = files o /\ stdout o' = stdout o.

Lemma check_set o T s v x : out_var v = true -> set_glob v x (check_view o T s) = check_view (set_glob v x o) T s.
Proof.
  intros Hv. apply st_eq; try reflexivity. intros w. cbn. destruct (decide (w = G.validate)) as [->|Hw].
  - destruct (decide (G.validate = v)) as [E|]; [now rewrite <- E in Hv|reflexivity].
  - destruct (decide (w = v)) as [->|]; [now rewrite Hv|reflexivity].
Qed.

Lemma check_over o T s v x : out_var v = true -> check_view o T (set_glob v x s) = check_view o T s.
Proof.
  intros Hv. apply st_eq; try reflexivity. intros w. cbn. destruct (decide (w = G.validate)); [reflexivity|].
  destruct (out_var w) eqn:Ew; [reflexivity|]. destruct (decide (w = v)); [congruence|reflexivity].
Qed.

#[export] Instance set_glob_view v x : row_var v = false -> View (set_glob v x).
Proof.
  intros Hv. split; try reflexivity. intros s w Hw. cbn. destruct (decide (w = v)) as [->|]; [congruence|reflexivity].
Qed.

Section Table.
Context (Os : os) (utcoff : Z -> Z) (nk rk : Z) (D : dists) {A} (t : Z) (p : pr_fn)
  (mk : Z -> M A) (to_row : A -> row) (pr : A -> Z -> M Z) (text : A -> string) (f_ld : ld_fn)
  (HT : table_of Os utcoff nk rk D t p mk to_row pr text f_ld 0).

Definition rows_sums (L : list A) : sums := concat (map (fun a => row_sums nk rk (to_row a)) L).

Lemma deliver_check o T s d a m :
  plain_run s -> tdefs s !! Z.to_nat t = Some d -> verify d = Some (vrf_of (to_row a)) ->
  deliver Os nk rk t (to_row a) m (check_view o T s) = Ok tt (check_view o (totals (row_sums nk rk (to_row a)) T) s).
Proof.
  intros Hp Hd Hv. unfold deliver. rewrite (bind_ok get _ _ _ _ eq_refl).
  rewrite (vw_glob (tr:=check_view o T)) by reflexivity. rewrite (pr_set_seeds _ Hp). cbn [Z.eqb].
  rewrite (bind_ok _ _ (with_total (T (Z.to_nat t)) d) _ (check_view o T s)) by now rewrite (check_tdef _ _ _ _ _ Hd).
  change (glob (check_view o T s) G.validate) with 1. cbn [Z.eqb negb].
  rewrite (bind_ok _ _ (vrf_of (to_row a)) _ (check_view o T s)) by (cbn [verify with_label with_total]; now rewrite Hv).
  rewrite (bind_ok _ _ _ _ _ (adds_row nk rk (to_row a) o T s)). reflexivity.
Qed.

Lemma gen_loop_check d n : (forall a, verify d = Some (vrf_of (to_row a))) -> forall i g o T s L s',
  gen_rows t mk n i s = Ok L s' -> plain_run s -> tdefs s !! Z.to_nat t = Some d ->
  gen_loop Os utcoff nk rk D n t i 0 g (check_view o T s) = Ok tt (check_view o (totals (rows_sums L) T) s').
Proof.
  intros Hv. induction n as [|n IH]; intros i g o T s L s' HL Hp Hd; unfold gen_rows in HL; cbn [for_list] in HL.
  - injection HL as <- <-. reflexivity.
  - unfold bind in HL. destruct (gen_row t mk i s) as [a s3|] eqn:Ea; [|done].
    destruct (for_list n (i + 1) (gen_row t mk) s3) as [L' s4|] eqn:EL; [|done].
    injection HL as <- <-. unfold gen_row, bind, ret in Ea.
    destruct (row_start t s) as [[] s1|] eqn:E1; [|done]. destruct (mk i s1) as [a' s2|] eqn:E2; [|done].
    destruct (row_stop t s2) as [[] s3'|] eqn:E3; [|done]. injection Ea as <- <-.
    destruct (in_keeps _ (inner_row_start t) _ _ _ E1) as [G1 T1].
    destruct (in_keeps _ (to_inner _ _ _ _ _ _ _ _ _ _ _ _ _ HT i) _ _ _ E2) as [G2 T2].
    destruct (in_keeps _ (inner_row_stop t) _ _ _ E3) as [G3 T3].
    assert (Hp2 : plain_run s2) by (destruct Hp; split; congruence).
    assert (Hp3 : plain_run s3') by (destruct Hp; split; congruence).
    set (T' := totals (row_sums nk rk (to_row a')) T).
    cbn [gen_loop]. rewrite (bind_ok _ _ _ _ _ (inner_through _ (check_view o T) _ _ _ (inner_row_start t) E1)).
    rewrite (bind_ok _ _ (0, g) _ (check_view o T' s2)).
    2:{ rewrite (to_switch _ _ _ _ _ _ _ _ _ _ _ _ _ HT (check_view o T) _ _ _ _ a' s2) by (rewrite ?G1; (apply Hp || exact E2)).
        rewrite (bind_ok _ _ tt _ (check_view o T' s2)); [reflexivity|]. apply (deliver_check _ _ _ d); [exact Hp2|congruence|apply Hv]. }
    rewrite (bind_ok _ _ _ _ _ (inner_through _ (check_view o T') _ _ _ (inner_row_stop t) E3)).
    rewrite (bind_ok _ _ tt _ (check_view o T' s3')).
    2:{ unfold show_seeds. rewrite (bind_ok get _ _ _ _ eq_refl).
        rewrite (vw_glob (tr:=check_view o T')) by reflexivity. now rewrite (pr_set_seeds _ Hp3). }
    cbn [fst snd]. rewrite (IH _ _ _ _ _ L' s4); [|exact EL|exact Hp3|congruence].
    unfold rows_sums. cbn [map concat]. now rewrite totals_app.
Qed.

Lemma gen_tbl_check d n start o T s L s2 :
  gen_rows t mk n start s = Ok L s2 -> plain_run s -> tdefs s !! Z.to_nat t = Some d ->
  (forall a, verify d = Some (vrf_of (to_row a))) ->
  exists o', gen_tbl Os utcoff nk rk D t start (Z.of_nat n) 0 (check_view o T s) =
    Ok tt (check_view o' (totals (rows_sums L) T) s2) /\ same_out o o'.
Proof.
  intros HL Hp Hd Hv. unfold gen_tbl.
  rewrite (bind_ok _ _ 0 _ (check_view o T s)).
  2:{ unfold glb, gets. rewrite (vw_glob (tr:=check_view o T)) by reflexivity. now rewrite (pr_segments _ Hp). }
  change (negb (0 =? 0)) with false. cbv iota zeta. rewrite (bind_ok (glb G.init) _ _ _ _ eq_refl).
  set (o1 := if glob (check_view o T s) G.init =? 0 then set_glob G.init 1 o else o).
  rewrite (bind_ok _ _ tt _ (check_view o1 T s)).
  2:{ unfold o1, set, modify. destruct (_ =? 0); [now rewrite check_set|reflexivity]. }
  destruct (Z.ltb_spec (Z.of_nat n) 0); [lia|]. rewrite (bind_ok (ret tt) _ _ _ _ eq_refl). rewrite Nat2Z.id.
  rewrite (bind_ok _ _ _ _ _ (gen_loop_check d n Hv _ _ o1 T s L s2 HL Hp Hd)).
  rewrite (bind_ok (glb G.completed) _ _ _ _ eq_refl). unfold set, modify. rewrite check_set by reflexivity.
  eexists. split; [reflexivity|]. unfold o1. destruct (_ =? 0); now split.
Qed.
End Table.

(** ** The same rows, written and checked *)

(** The text of a row. *)
Definition row_line (r : row) : string :=
  match r with
  | R_order o => order_text o | R_supp s => supp_text s | R_cust c => cust_text c
  | R_part p => part_text p | R_date d => date_text d
  end.

(** The rows of a table without their output. *)
Definition table_gen (utcoff : Z -> Z) (D : dists) (t start : Z) (n : nat) : M (list row) :=
  if t =? PART then L <- gen_rows PART (mk_part D) n start;; ret (map R_part L)
  else if t =? SUPP then L <- gen_rows SUPP (mk_supp D) n start;; ret (map R_supp L)
  else if t =? CUST then L <- gen_rows CUST (mk_cust D) n start;; ret (map R_cust L)
  else if t =? DATE then L <- gen_rows DATE (date_row utcoff) n start;; ret (map R_date L)
  else L <- gen_rows LINE (order_row D 0) n start;; ret (map R_order L).

Lemma inner_table_gen utcoff D t start n : inner (table_gen utcoff D t start n).
Proof.
  unfold table_gen. repeat case_match; (apply inner_bind; [|auto with inner]);
    apply inner_gen_rows; intros i; unfold date_row, order_row; auto with inner.
Qed.

(** The verification function of a table. *)
Definition vrf_fn_of (t : Z) : vrf_fn :=
  if t =? PART then Fvrf_part else if t =? SUPP then Fvrf_supp else if t =? CUST then Fvrf_cust
  else if t =? DATE then Fvrf_date else Fvrf_line.

Section Check.
Context (Os : os) (utcoff : Z -> Z) (nk rk : Z) (D : dists) (s1 : st).
Context (HD : dists_ok D) (Hrun : plain_run s1) (Hsc : scale_ok s1) (Hzone : zone_ok utcoff).

(** [gen_tbl] took [s] to [s'] and wrote rows to [nm]; in a validation run it adds them up. *)
Definition checked (t : Z) (nm : string) (start : Z) (n : nat) (s s' : st) : Prop :=
  exists rows s2, table_gen utcoff D t start n s = Ok rows s2 /\ Seed s' = Seed s2 /\
  length rows = n /\ files s' = files s ++ [opened Os (full_path Os nm) (texts row_line rows)] /\
  tdefs s' = tdefs s /\ forall o T, exists o', gen_tbl Os utcoff nk rk D t start (Z.of_nat n) 0 (check_view o T s) =
    Ok tt (check_view o' (totals (concat (map (row_sums nk rk) rows)) T) s') /\ same_out o o'.

Lemma builder_check {A} t (mk : Z -> M A) to_row pr text (P : Z -> A -> Prop) nm start n s s' :
  table_of Os utcoff nk rk D t (pr_of t) mk to_row pr text (ld_of t) 0 -> row_table t = t ->
  table_gen utcoff D t start (S n) = (L <- gen_rows t mk (S n) start;; ret (map to_row L)) ->
  (forall i, start <= i < start + Z.of_nat (S n) -> row_wp s1 mk P i) ->
  (forall a, row_line (to_row a) = text a) -> (forall a, vrf_of (to_row a) = vrf_fn_of t) ->
  (forall d, tdefs s !! Z.to_nat t = Some d -> verify d = Some (vrf_fn_of t)) -> ready Os s1 t nm s ->
  gen_tbl Os utcoff nk rk D t start (Z.of_nat (S n)) 0 s = Ok tt s' -> checked t nm start (S n) s s'.
Proof.
  intros HT Hrt Htg HP Htext Hvr Hv Hr Hgen.
  destruct (rows_run Os s1 t mk P nm start n s HP Hr) as (L & s2 & E & Hlen & _ & _).
  destruct Hr as [Hlike Henv (d & Hd & Hl & Hn) Hop Hfp Hmode]. pose proof (like_plain _ _ Hlike Hrun) as Hrun'.
  destruct (gen_tbl_file Os utcoff nk rk D t (pr_of t) mk to_row pr text (ld_of t) 0 HT d nm n start s L s2 E Hrun')
    as (s'' & Hgen' & W); try assumption; [now intros _|].
  rewrite Hgen in Hgen'. injection Hgen' as <-. exists (map to_row L), s2.
  split; [rewrite Htg; unfold bind; now rewrite E|]. split; [apply W|]. split; [now rewrite length_map|]. split.
  - rewrite (wr_files _ _ _ _ _ _ _ _ W). do 3 f_equal. clear - Htext. induction L as [|a L IH]; [reflexivity|].
    cbn [map texts]. now rewrite Htext, IH.
  - split; [apply W|]. intros o T. destruct (gen_tbl_check Os utcoff nk rk D t (pr_of t) mk to_row pr text (ld_of t) HT d (S n) start o T s L s2 E Hrun' Hd)
      as (o' & Ec & So); [intros a; rewrite Hvr; now apply Hv|].
    exists o'. split; [|exact So]. rewrite Ec, map_map. unfold rows_sums.
    unfold check_view at 1 2. now rewrite (wr_inner _ _ _ _ _ _ _ _ W).
Qed.

Lemma table_check t nm start n s s' :
  In t ssb_tables -> (t = DATE -> 1 <= start /\ start + Z.of_nat n <= 2922) -> ready Os s1 t nm s ->
  (forall d, tdefs s !! Z.to_nat t = Some d -> verify d = Some (vrf_fn_of t)) ->
  gen_tbl Os utcoff nk rk D t start (Z.of_nat (S n)) 0 s = Ok tt s' -> checked t nm start (S n) s s'.
Proof.
  intros Hin Hdate Hr Hv Hgen. each_table Hin.
  - apply (builder_check PART (mk_part D) R_part (pr_part Os) part_text (part_ok D)); try assumption; try reflexivity.
    + apply part_table.
    + intros i _. now apply part_wp.
  - apply (builder_check SUPP (mk_supp D) R_supp (pr_supp Os) supp_text (supplier_ok D)); try assumption; try reflexivity.
    + apply supp_table.
    + intros i _. now apply supp_wp.
  - apply (builder_check CUST (mk_cust D) R_cust (pr_cust Os) cust_text (customer_ok D)); try assumption; try reflexivity.
    + apply cust_table.
    + intros i _. now apply cust_wp.
  - apply (builder_check DATE (date_row utcoff) R_date (pr_date Os) date_text (fun i x => mk_date utcoff i = Some x));
      try assumption; try reflexivity.
    + apply date_table.
    + intros i Hi. apply date_wp; [exact Hzone|]. specialize (Hdate eq_refl). lia.
  - apply (builder_check LINE (order_row D 0) R_order (pr_line Os) order_text (fun i o => order_ok D s1 i 0 o));
      try assumption; try reflexivity.
    + apply order_table.
    + intros i _. now apply order_wp.
Qed.
End Check.

(** ** The loop over the tables *)

(** The line [main] prints for a table: its checksum is shown as an [unsigned int]. *)
Definition check_line (scale : Z) (nm : string) (total : Z) : string :=
  "Validation checksum for " +:+ nm +:+ " at " +:+ fmt_d (wrap_s 32 scale) +:+ " GB: " +:+
  fmt_x total +:+ newline.

(** The rows of some tables, each with its number and its file name. *)
Definition table_rows_list : Type := list (Z * string * list row).

(** What a validation run prints: after a table its own checksum, to which the tables before
    it have contributed as well. *)
Fixpoint report (nk rk scale : Z) (before : sums) (tabs : table_rows_list) : string :=
  match tabs with
  | [] => ""
  | (t, nm, rows) :: tabs =>
      let sofar := before ++ concat (map (row_sums nk rk) rows) in
      check_line scale nm (amounts t sofar) +:+ report nk rk scale sofar tabs
  end.

Fixpoint after (nk rk : Z) (before : sums) (tabs : table_rows_list) : sums :=
  match tabs with
  | [] => before
  | (_, _, rows) :: tabs => after nk rk (before ++ concat (map (row_sums nk rk) rows)) tabs
  end.

Lemma report_app nk rk scale a b : forall before,
  report nk rk scale before (a ++ b) = report nk rk scale before a +:+ report nk rk scale (after nk rk before a) b.
Proof.
  induction a as [|[[t nm] rows] a IH]; intros before; cbn [report after app]; [reflexivity|]. now rewrite IH, app_assoc_s.
Qed.

Lemma after_app nk rk a b : forall before, after nk rk before (a ++ b) = after nk rk (after nk rk before a) b.
Proof. induction a as [|[[t nm] rows] a IH]; intros before; cbn [after app]; [reflexivity|apply IH]. Qed.

Lemma fmt_x_total n : fmt_x (wrap_u 64 n) = fmt_x n.
Proof.
  unfold fmt_x. f_equal. unfold wrap_u. change (2 ^ 64) with (2 ^ 32 * 2 ^ 32).
  rewrite Z.rem_mul_r by lia. rewrite Z.mul_comm, Z.mod_add by lia. apply Z.mod_mod. lia.
Qed.

Definition zero_totals : nat -> Z := fun _ => 0.

Lemma total_printed t l : fmt_x (totals l zero_totals (Z.to_nat t)) = fmt_x (amounts t l).
Proof. rewrite totals_amounts by reflexivity. apply fmt_x_total. Qed.

Section Main.
Context (Os : os) (utcoff : Z -> Z) (spawn_ok : Z -> Z -> bool) (nk rk : Z) (D : dists) (s0 : st).
Context (Hok : run_ok s0) (HD : dists_ok D) (Hreg : 0 <= count (regions D)) (Hser : serial_run Os s0)
  (Hzone : zone_ok utcoff) (Hssb : forall t, 0 <= t <= 9 -> selected s0 t = true -> In t ssb_tables).

Let s1 : st := with_counts D s0.

Definition tab_number (tab : Z * string * list row) : Z := fst (fst tab).

(** A table has the name of its description and as many rows as the scale gives it. *)
Definition tab_ok (tab : Z * string * list row) : Prop :=
  let '(t, nm, rows) := tab in
  (exists d, tdefs_main !! Z.to_nat t = Some d /\ name d = Some nm) /\ length rows = Z.to_nat (serial_rows s1 t).

(** An invariant of the loop, and what it makes true of the tables that are generated. *)
Record step_facts (Inv : Z -> st -> Prop) (Fact : Z * string * list row -> Prop) : Prop := mk_step_facts {
  sf_skip : forall t s, selected s0 t = false -> Inv t s -> Inv (t + 1) s;
  sf_table : forall t s s' nm rows s2, In t ssb_tables -> selected s0 t = true -> between s1 t s -> row_env t s ->
    Inv t s -> table_gen utcoff D t 1 (Z.to_nat (serial_rows s1 t)) s = Ok rows s2 ->
    Seed s' = Seed s2 -> tdefs s' = tdefs s -> Inv (t + 1) s' /\ Fact (t, nm, rows);
}.

Section Loop.
Context (Inv : Z -> st -> Prop) (Fact : Z * string * list row -> Prop) (HF : step_facts Inv Fact).

(** The tables among [ts] that are generated. *)
Definition tabs_of (ts : list Z) (tabs : table_rows_list) : Prop :=
  map tab_number tabs = List.filter (selected s0) ts /\ Forall tab_ok tabs /\ Forall Fact tabs.

Lemma tabs_of_app ts ts' tabs tabs' : tabs_of ts tabs -> tabs_of ts' tabs' -> tabs_of (ts ++ ts') (tabs ++ tabs').
Proof.
  intros (E & F & G) (E' & F' & G'). split; [now rewrite map_app, List.filter_app, E, E'|]. split; now apply Forall_app.
Qed.

(** The file with the rows of a table. *)
Definition tab_file (tab : Z * string * list row) : file :=
  opened Os (full_path Os (snd (fst tab))) (texts row_line (snd tab)).

(** The description of a table that is generated. *)
Lemma ssb_tdef t : In t ssb_tables -> exists d0 d nm,
  tdefs_main !! Z.to_nat t = Some d0 /\ tdefs s1 !! Z.to_nat t = Some d /\ name d0 = Some nm /\ name d = Some nm /\
  child d = NONE /\ fst (loader d) = Some (ld_of t) /\ verify d = Some (vrf_fn_of t).
Proof.
  intros Hin. assert (E : exists d0 nm, tdefs_main !! Z.to_nat t = Some d0 /\ name d0 = Some nm /\ child d0 = NONE /\
    fst (loader d0) = Some (ld_of t) /\ verify d0 = Some (vrf_fn_of t)).
  { each_table Hin; do 2 eexists; split_and!; reflexivity. }
  destruct E as (d0 & nm & Hd0 & Hn & Hc & Hl & Hv).
  destruct (with_counts_ssb D s0 t d0 Hok Hin Hd0) as (d & Hd & [Hsd _] & _). exists d0, d, nm.
  split_and!; try assumption; now rewrite Hsd.
Qed.

Lemma check_glob o T s v : v <> G.validate -> out_var v = false -> glob (check_view o T s) v = glob s v.
Proof. intros Hv Ho. cbn. destruct (decide (v = G.validate)); [done|]. now rewrite Ho. Qed.

Lemma check_rows o T s t : serial_rows (check_view o T s) t = serial_rows s t.
Proof. unfold serial_rows. now rewrite (view_base (check_view o T)), check_glob by done. Qed.

Lemma check_printf o T s x :
  printf x (check_view o T s) = Ok tt (check_view (set_stdout (fun y => y +:+ x) o) T s).
Proof. reflexivity. Qed.

(** A turn of the loop of [main] for a table that is generated serially, in any mode. *)
Lemma main_table_serial t s s' :
  selected s t = true -> glob s G.children <= 1 ->
  gen_tbl Os utcoff nk rk D t 1 (serial_rows s t) (glob s G.upd_num)
    (set_glob G.rowcnt (serial_rows s t) (set_glob G.minrow 1 s)) = Ok tt s' ->
  main_table Os utcoff spawn_ok nk rk D t s =
    if glob s' G.validate =? 0 then Ok [] s'
    else (d <- must "tdefs" (tdefs s' !! Z.to_nat t);; nm <- must "tdefs[i].name" (name d);;
          printf (check_line (glob s' G.scale) nm (vtotal d));; ret []) s'.
Proof.
  intros Hsel Hc Hgen. unfold main_table. rewrite (bind_ok get _ s s s) by reflexivity.
  fold (selected s t). rewrite Hsel.
  assert (Hc' : (1 <? glob s G.children) && (t <? NATION) = false) by (destruct (Z.ltb_spec 1 (glob s G.children)); [lia|reflexivity]).
  rewrite Hc', (bind_ok _ _ [] s s').
  - rewrite (bind_ok get _ s' s' s') by reflexivity. destruct (glob s' G.validate =? 0); [reflexivity|].
    unfold bind, check_line. cbn [negb]. destruct (must _ _ s'); [|reflexivity]. now destruct (must _ _ s2).
  - rewrite (bind_ok _ _ tt s (set_glob G.minrow 1 s)) by reflexivity.
    rewrite (bind_ok _ _ tt _ (set_glob G.rowcnt (serial_rows s t) (set_glob G.minrow 1 s))) by reflexivity.
    rewrite (bind_ok _ _ _ _ _ Hgen). reflexivity.
Qed.

(** The rows of a table, written by a serial run and added up by a validation run. *)
Lemma both_rows t s :
  In t ssb_tables -> selected s0 t = true -> between s1 t s ->
  exists s' d nm, tdefs_main !! Z.to_nat t = Some d /\ name d = Some nm /\
    gen_tbl Os utcoff nk rk D t 1 (serial_rows s1 t) 0 s = Ok tt s' /\ between s1 (t + 1) s' /\ row_env t s /\
    (exists dv, tdefs s' !! Z.to_nat t = Some dv /\ name dv = Some nm) /\
    checked Os utcoff nk rk D t nm 1 (Z.to_nat (serial_rows s1 t)) s s'.
Proof.
  intros Hin Hsel Hb. destruct (ssb_tdef t Hin) as (d0 & d & nm & Hd0 & Hd & Hn0 & Hn & Hc & Hl & Hv).
  pose proof (run_plain Os D s0 Hser) as Hp. destruct (with_counts_scale D s0 Hok (sr_scale _ _ Hser)) as [Hsc Hdate].
  pose proof (ssb_rows D s0 t Hok Hin) as Hrows. fold s1 in Hrows, Hp, Hsc, Hdate.
  assert (Ho : openable Os nm s1) by (destruct (sr_open _ _ Hser t d0 nm Hin Hsel Hd0 Hn0); now split).
  destruct (ssb_done Os utcoff nk rk D s1 HD Hp Hsc Hzone Hdate t d nm s) as (s' & E & Hb' & _); try assumption.
  destruct (between_ready Os s1 Hp t d nm s) as [Hd' Hready]; try assumption.
  assert (Hcheck : checked Os utcoff nk rk D t nm 1 (Z.to_nat (serial_rows s1 t)) s s').
  { destruct (Z.to_nat (serial_rows s1 t)) as [|n] eqn:En; [lia|].
    apply (table_check Os utcoff nk rk D s1 HD Hp Hsc Hzone); try assumption.
    - intros ->. lia.
    - intros d' Hd''. rewrite Hd' in Hd''. now injection Hd'' as <-.
    - replace (Z.of_nat (S n)) with (serial_rows s1 t) by lia. exact E. }
  exists s', d0, nm. split_and!; try assumption; [apply Hready|]. exists d. split; [|exact Hn].
  destruct Hcheck as (rows & s2 & _ & _ & _ & _ & -> & _). exact Hd'.
Qed.

(** One turn of the loop of [main], in the serial run and in the validation run. *)
Lemma check_step t s o before :
  0 <= t <= 9 -> between s1 t s -> Inv t s ->
  exists s' tabs o', main_table Os utcoff spawn_ok nk rk D t s = Ok [] s' /\ between s1 (t + 1) s' /\ Inv (t + 1) s' /\
    tabs_of [t] tabs /\ files s' = files s ++ map tab_file tabs /\
    main_table Os utcoff spawn_ok nk rk D t (check_view o (totals before zero_totals) s) =
      Ok [] (check_view o' (totals (after nk rk before tabs) zero_totals) s') /\
    files o' = files o /\ stdout o' = stdout o +:+ report nk rk (glob s1 G.scale) before tabs.
Proof.
  intros Ht Hb HI. set (T := totals before zero_totals).
  assert (Hsel : selected s t = selected s0 t).
  { unfold selected. rewrite (bt_glob _ _ _ Hb) by kept. reflexivity. }
  unfold tabs_of. cbn [List.filter]. destruct (selected s0 t) eqn:Hs0.
  2:{ exists s, [], o. rewrite app_nil_r, app_nil_r_s. split_and!; try reflexivity; [|now apply between_next|now apply (sf_skip _ _ HF)|constructor|constructor|].
      all: unfold main_table; rewrite (bind_ok get _ _ _ _ eq_refl); rewrite ?check_glob by done; fold (selected s t); now rewrite Hsel. }
  assert (Hin : In t ssb_tables) by (now apply Hssb).
  assert (Hrows : serial_rows s t = serial_rows s1 t) by exact (serial_rows_eq D s0 t s Hb t).
  set (sa := set_glob G.rowcnt (serial_rows s1 t) (set_glob G.minrow 1 s)).
  assert (Hba : between s1 t sa).
  { apply between_set; [intros (_ & _ & _ & H & _); now apply H|]. apply between_set; [|exact Hb].
    intros (_ & _ & H & _). now apply H. }
  destruct (both_rows t sa Hin Hs0 Hba) as (s' & d & nm & Hd & Hn & Hgen & Hb' & He & (dv & Hdv & Hnv) & rows & s2 & Htg & Hs2 & Hlen & Hf & Htd & Hcheck).
  set (oa := set_glob G.rowcnt (serial_rows s1 t) (set_glob G.minrow 1 o)).
  destruct (Hcheck oa T) as (ob & Hgen' & Ff & Fo). clear Hcheck.
  assert (Hchild : glob s G.children <= 1) by (rewrite (bt_glob _ _ _ Hb) by kept; apply Hser).
  assert (Hupd : glob s G.upd_num = 0) by (rewrite (bt_glob _ _ _ Hb) by kept; apply Hok).
  assert (Hfact : Inv (t + 1) s' /\ Fact (t, nm, rows)).
  { destruct (table_gen utcoff D t 1 (Z.to_nat (serial_rows s1 t)) s) as [rows' s3|] eqn:E3.
    - pose proof (in_view _ (inner_table_gen utcoff D t 1 (Z.to_nat (serial_rows s1 t)))) as Hv.
      unfold sa in Htg. rewrite Hv, Hv in Htg by now apply set_glob_view. rewrite E3 in Htg. injection Htg as -> <-.
      apply (sf_table _ _ HF t s s' nm rows s3); try assumption.
      destruct He. now constructor.
    - pose proof (in_view _ (inner_table_gen utcoff D t 1 (Z.to_nat (serial_rows s1 t)))) as Hv.
      unfold sa in Htg. rewrite Hv, Hv in Htg by now apply set_glob_view. rewrite E3 in Htg. discriminate. }
  set (rs := concat (map (row_sums nk rk) rows)) in *.
  exists s', [(t, nm, rows)], (set_stdout (fun y => y +:+ check_line (glob s' G.scale) nm (totals rs T (Z.to_nat t))) ob).
  split_and!.
  - rewrite (main_table_serial t s s'); [|congruence|exact Hchild|rewrite Hupd, Hrows; exact Hgen].
    now rewrite (pr_validate _ (between_plain _ _ _ Hb' (run_plain Os D s0 Hser))).
  - exact Hb'.
  - apply Hfact.
  - reflexivity.
  - constructor; [|constructor]. split; [exists d; now split|exact Hlen].
  - constructor; [apply Hfact|constructor].
  - exact Hf.
  - rewrite (main_table_serial t _ (check_view ob (totals rs T) s')).
    + change (glob (check_view ob (totals rs T) s') G.validate) with 1. cbn [Z.eqb].
      rewrite (check_tdef _ _ _ _ _ Hdv). cbn [must]. rewrite (bind_ok (ret _) _ _ _ _ eq_refl).
      cbn [name with_label with_total]. rewrite Hnv. cbn [must]. rewrite (bind_ok (ret _) _ _ _ _ eq_refl), (bind_ok _ _ _ _ _ (check_printf _ _ _ _)).
      cbn [after]. unfold T, rs. rewrite totals_app. reflexivity.
    + unfold selected in *. rewrite check_glob by done. congruence.
    + now rewrite check_glob by done.
    + rewrite check_rows, check_glob, Hupd, Hrows by done. rewrite !check_set by reflexivity.
      rewrite <- Hgen'. unfold oa, sa. rewrite !check_over by reflexivity.
      rewrite Z2Nat.id; [reflexivity|]. pose proof (ssb_rows D s0 t Hok Hin). fold s1 in H. lia.
  - exact Ff.
  - cbn [stdout set_stdout report]. rewrite Fo, app_nil_r_s. f_equal. unfold check_line.
    unfold T, rs. rewrite <- totals_app, total_printed. rewrite (bt_glob _ _ _ Hb') by kept. reflexivity.
Qed.

(** The loop over the tables, in the serial run and in the validation run. *)
Lemma check_loop n : forall t s o before, 0 <= t -> t + Z.of_nat n <= 10 -> between s1 t s -> Inv t s ->
  exists s' rs tabs o', for_list n t (main_table Os utcoff spawn_ok nk rk D) s = Ok rs s' /\ concat rs = [] /\
    stdout s' = stdout s1 /\ tabs_of (seqZ t (Z.of_nat n)) tabs /\ files s' = files s ++ map tab_file tabs /\
    for_list n t (main_table Os utcoff spawn_ok nk rk D) (check_view o (totals before zero_totals) s) =
      Ok rs (check_view o' (totals (after nk rk before tabs) zero_totals) s') /\
    files o' = files o /\ stdout o' = stdout o +:+ report nk rk (glob s1 G.scale) before tabs.
Proof.
  induction n as [|n IH]; intros t s o before Ht Hn Hb HI.
  - exists s, [], [], o. cbn [map for_list report after]. rewrite app_nil_r, app_nil_r_s. split_and!; try reflexivity; [apply Hb|]. split; [reflexivity|split; constructor].
  - destruct (check_step t s o before ltac:(lia) Hb HI) as (sa & ta & oa & E1 & B1 & I1 & T1 & F1 & C1 & O1 & S1).
    destruct (IH (t + 1) sa oa (after nk rk before ta) ltac:(lia) ltac:(lia) B1 I1)
      as (sb & rs & tb & ob & E2 & R2 & B2 & T2 & F2 & C2 & O2 & S2).
    exists sb, ([] :: rs), (ta ++ tb), ob. cbn [for_list concat]. split_and!.
    + rewrite (bind_ok _ _ _ _ _ E1), (bind_ok _ _ _ _ _ E2). reflexivity.
    + exact R2.
    + exact B2.
    + rewrite seqZ_cons by lia. replace (Z.succ t) with (t + 1) by lia. replace (Z.pred (Z.of_nat (S n))) with (Z.of_nat n) by lia.
      now apply (tabs_of_app [t]).
    + now rewrite F2, F1, map_app, app_assoc.
    + rewrite (bind_ok _ _ _ _ _ C1), (bind_ok _ _ _ _ _ C2), after_app. reflexivity.
    + congruence.
    + now rewrite S2, S1, report_app, app_assoc_s.
Qed.
End Loop.

Lemma no_facts : step_facts (fun _ _ => True) (fun _ => True).
Proof. now split. Qed.

Lemma selected_ssb : List.filter (selected s0) (seqZ PART 10) = List.filter (selected s0) ssb_tables.
Proof.
  assert (Hno : forall t, In t idle_tables -> selected s0 t = false).
  { intros t Ht. destruct (selected s0 t) eqn:E; [|reflexivity]. exfalso.
    assert (H : In t ssb_tables) by (apply Hssb; [clear - Ht; each_table Ht; cbv; split; discriminate|exact E]).
    clear - Ht H. each_table Ht; cbn in H; unfold PART, SUPP, CUST, DATE, LINE, PSUPP, ORDER_LINE, PART_PSUPP, NATION, REGION in H; lia. }
  change (seqZ PART 10) with [PART; PSUPP; SUPP; CUST; DATE; LINE; ORDER_LINE; PART_PSUPP; NATION; REGION].
  unfold ssb_tables. cbn [List.filter].
  rewrite !(Hno PSUPP), !(Hno ORDER_LINE), !(Hno PART_PSUPP), !(Hno NATION), !(Hno REGION) by (cbn; tauto). reflexivity.
Qed.
End Main.

(** The option [-O v], given last, only sets [validate]. *)
Lemma validate_last opts s :
  (main_init;; process_options opts) st_start = Ok tt s ->
  (main_init;; process_options (opts ++ [("O"%char, "v")])) st_start = Ok tt (set_glob G.validate 1 s).
Proof.
  assert (Happ : forall s, process_options_loop (opts ++ [("O"%char, "v")]) s =
    (process_options_loop opts;; set G.validate 1) s).
  { induction opts as [|[c a] l IH]; intros s'; [reflexivity|]. cbn [process_options_loop app].
    unfold bind in *. destruct (process_option c a s'); [apply IH|reflexivity]. }
  intros H. apply bind_inv in H as (u & si & Ei & H). rewrite (bind_ok _ _ _ _ _ Ei). unfold process_options in *.
  apply bind_inv in H as (u' & so & Eo & H). rewrite (bind_ok _ _ tt _ (set_glob G.validate 1 so)).
  - revert H. unfold alloc_pids, bind, glb, gets. cbn [glob set_glob].
    destruct (decide (G.children = G.validate)); [discriminate|]. destruct (decide (G.step = G.validate)); [discriminate|].
    destruct (_ && _); [|now intros [= <-]]. destruct (_ <? 0); [discriminate|]. intros [= <-].
    unfold set, modify. now rewrite set_glob_comm by discriminate.
  - rewrite Happ, (bind_ok _ _ _ _ _ Eo). reflexivity.
Qed.

(** Before the tables no checksum has moved. *)
Lemma check_start s : Forall (fun d => vtotal d = 0) (tdefs s) ->
  set_glob G.validate 1 s = check_view s zero_totals s.
Proof.
  intros Hv. apply st_eq; try reflexivity.
  - cbn. apply list_eq. intros i. rewrite list_lookup_imap. destruct (tdefs s !! i) as [d|] eqn:E; [|reflexivity].
    cbn. f_equal. rewrite Forall_lookup in Hv. pose proof (Hv _ _ E). destruct d. cbn in *. now subst.
  - intros v. cbn. destruct (decide (v = G.validate)); [reflexivity|]. now destruct (out_var v).
Qed.

Lemma run_ok_totals s : run_ok s -> Forall (fun d => vtotal d = 0) (tdefs s).
Proof.
  intros Hs. assert (H0 : Forall (fun d => vtotal d = 0) tdefs_main) by (vm_compute; repeat constructor).
  pose proof (ro_tdefs s Hs) as H. induction H as [|d0 d l0 l [Hd _] _ IH]; [constructor|].
  inversion H0 as [|? ? V0 V1]; subst. constructor; [|now apply IH]. now rewrite Hd.
Qed.

Lemma with_counts_totals D s : Forall (fun d => vtotal d = 0) (tdefs s) ->
  Forall (fun d => vtotal d = 0) (tdefs (with_counts D s)).
Proof.
  intros H. unfold with_counts. cbn [tdefs set_tdefs].
  repeat (apply Forall_alter; [|intros d _ Hd; exact Hd]). exact H.
Qed.

(** C7. The validation run [-O v] is faithful to the run it replaces: for options of a serial
    run whose selected tables are all SSBM tables, [main] with these options leaves a file per
    selected table, whose lines are those of some rows, as many as the scale gives the table;
    with [-O v] added it generates the very same rows, writes no file, and prints for every
    table, in order, its checksum: the sum of the fields of the rows so far that are charged
    to it, the character codes of the texts included. *)
Theorem main_validate Os utcoff spawn_ok nk rk opts D s :
  (main_init;; process_options opts) st_start = Ok tt s ->
  load_dists (getenv Os) (file_text Os) s = Ok D s -> dists_ok D -> 0 <= count (regions D) ->
  serial_run Os s -> zone_ok utcoff -> (forall t, 0 <= t <= 9 -> selected s t = true -> In t ssb_tables) ->
  exists tabs s' sv,
    map tab_number tabs = List.filter (selected s) ssb_tables /\ Forall (tab_ok D s) tabs /\
    main Os utcoff spawn_ok nk rk opts st_start = Ok [] s' /\
    files s' = map (tab_file Os) tabs /\ stdout s' = "" /\
    main Os utcoff spawn_ok nk rk (opts ++ [("O"%char, "v")]) st_start = Ok [] sv /\
    files sv = [] /\ stdout sv = report nk rk (glob s G.scale) [] tabs.
Proof.
  intros Hopts Hload HD Hreg Hser Hzone Hssb. pose proof (options_run_ok _ _ Hopts) as Hok.
  pose proof (run_ok_totals s Hok) as Hzero. pose proof (between_start D s Hok) as Hb.
  destruct (check_loop Os utcoff spawn_ok nk rk D s Hok HD Hser Hzone Hssb _ _ (no_facts utcoff D s)
    10 PART (with_counts D s) (with_counts D s) [] ltac:(cbv; discriminate) ltac:(cbv; discriminate) Hb I)
    as (s' & rs & tabs & o' & E & Hrs & Hout & (Hnum & Hall & _) & Hf & Ec & Fo & So).
  destruct Hser as [[_ _ _ Hdir Hupd _] _ Hfn _ _].
  assert (Hload' : load_dists (getenv Os) (file_text Os) (set_glob G.validate 1 s) = Ok D (set_glob G.validate 1 s)).
  { rewrite (check_start s Hzero). exact (inner_through _ _ _ _ _ (inner_load_dists _ _) Hload). }
  pose proof (check_start _ (with_counts_totals D s Hzero)) as Hstart.
  exists tabs, s', (check_view o' (totals (after nk rk [] tabs) zero_totals) s'). rewrite <- Hrs.
  change (files (with_counts D s)) with (files s) in *. rewrite (ro_files s Hok) in *. split_and!.
  - rewrite Hnum. now apply selected_ssb.
  - exact Hall.
  - now apply (main_flat Os utcoff spawn_ok nk rk opts D s).
  - exact Hf.
  - rewrite Hout. apply Hok.
  - apply (main_flat Os utcoff spawn_ok nk rk _ D (set_glob G.validate 1 s)); try assumption; [now apply validate_last|].
    change (with_counts D (set_glob G.validate 1 s)) with (set_glob G.validate 1 (with_counts D s)). rewrite Hstart. exact Ec.
  - exact Fo.
  - cbn [stdout check_view with_out set_tdefs set_glob]. rewrite So. change (stdout (with_counts D s)) with (stdout s).
    now rewrite (ro_stdout s Hok).
Qed.

Lemma main_validate_witness :
  exists tabs s' sv,
    map tab_number tabs = List.filter (selected opts_state) ssb_tables /\ Forall (tab_ok shipped opts_state) tabs /\
    main fresh_os (fun _ => 0) (fun _ _ => true) 0 0 opts_all st_start = Ok [] s' /\
    files s' = map (tab_file fresh_os) tabs /\ stdout s' = "" /\
    main fresh_os (fun _ => 0) (fun _ _ => true) 0 0 (opts_all ++ [("O"%char, "v")]) st_start = Ok [] sv /\
    files sv = [] /\ stdout sv = report 0 0 (glob opts_state G.scale) [] tabs.
Proof.
  apply (main_validate fresh_os (fun _ => 0) (fun _ _ => true) 0 0 opts_all shipped opts_state).
  - apply end_state. vm_compute. reflexivity.
  - apply shipped_loaded. vm_compute. reflexivity.
  - apply shipped_ok.
  - vm_compute. discriminate.
  - exact opts_all_serial.
  - intros t. unfold clock0. lia.
  - intros t Ht. assert (Hin : In t [0; 1; 2; 3; 4; 5; 6; 7; 8; 9]) by (cbn; lia). clear Ht.
    repeat (destruct Hin as [<-|Hin]; [first [discriminate|intros _; cbn; tauto]|]). destruct Hin.
Defined.
