(* ===== verification/Apart.v ===== *)
(** Runs over different tables. [-T] selects the tables a run generates, but all tables draw
    from one array of streams: the values of the 48 streams before a table, as a function of
    the tables generated before it, and what of a table's rows depends on them. *)
From Stdlib Require Import FunctionalExtensionality.
From S2P Require Import Prelude CString Float64 Rng SpeedSeed State Consts Streams Dist Bcd2 Sparse Calendar DateDim Build RowSpec Config Shipped Output Print Relational Parallel Chunks Driver Frame Tables Partial Options TableRun Serial Validate.

(** ** How far a row moves the streams *)

(** Draws of a row of the table [u], less those of the streams whose number varies. *)
Definition fixed_draws (u : Z) : list Z :=
  if u =? PART then part_draws 0 else if u =? SUPP then supp_draws 0 else if u =? CUST then cust_draws 0 else [].

(** How far a row of the table [u], LINE excepted, moves the stream [i]. *)
Definition row_moves (u i : Z) : nat := row_adv u i (fixed_draws u).

(** Draws from a stream of the table's own do not count: [row_stop] makes up for them. *)
Lemma row_adv_own t i j e n l :
  Seed_init !! Z.to_nat j = Some e -> accounted (row_table t) NONE e = true -> in_table j = true ->
  row_adv t i (repeat j n ++ l) = row_adv t i l.
Proof.
  intros He Hacc Hj. unfold row_adv_in. destruct (Seed_init !! Z.to_nat i) as [e'|] eqn:Ei; [|reflexivity].
  destruct (accounted (row_table t) NONE e') eqn:Ea.
  - rewrite strays_app. replace (strays (repeat j n)) with 0%nat; [reflexivity|].
    induction n as [|n IH]; [reflexivity|]. unfold strays in *. cbn [repeat]. rewrite filter_cons.
    destruct (decide _); [congruence|exact IH].
  - rewrite hits_app, hits_repeat. unfold drawn. rewrite Hj. destruct (decide (j = i)) as [->|]; [congruence|reflexivity].
Qed.

(** Every row of the table moves every stream as [row_moves] says. *)
Definition moves_ok {A} (t : Z) (mk : Z -> M A) : Prop :=
  forall n s, seeds_ok (Seed s) ->
  wp (mk n) (fun _ s' => exists l, drew l s s' /\ Z.of_nat (length l) < nM /\
    forall i, row_adv t i l = row_moves t i) s.

Section Moves.
Context (D : dists) (HD : dists_ok D).

Lemma part_moves : moves_ok PART (mk_part D).
Proof.
  intros n s Hok. destruct (ok_colors D HD) as [Hc _]. eapply (wp_mk_part D); [exact HD|exact Hok|apply drew_nil|].
  intros c s' _ Hd. eexists. split; [exact Hd|]. cbn [app]. split.
  - unfold part_draws. rewrite length_app, repeat_length. cbn [length]. unfold nM. lia.
  - intros i. unfold row_moves. change (fixed_draws PART) with (part_draws 0). unfold part_draws.
    now rewrite !(row_adv_own PART i P_NAME_SD _ _ _ eq_refl).
Qed.

Lemma supp_moves : moves_ok SUPP (mk_supp D).
Proof.
  intros n s Hok. eapply (wp_mk_supp D HD); [exact Hok|apply drew_nil|].
  intros c k s' _ Hk Hd. eexists. split; [exact Hd|]. cbn [app]. split.
  - unfold supp_draws. rewrite !length_app, !repeat_length. cbn [length]. unfold nM. lia.
  - intros i. unfold row_moves. change (fixed_draws SUPP) with (supp_draws 0). unfold supp_draws.
    now rewrite !(row_adv_own SUPP i S_ADDR_SD _ _ _ eq_refl).
Qed.

Lemma cust_moves : moves_ok CUST (mk_cust D).
Proof.
  intros n s Hok. eapply (wp_mk_cust D HD); [exact Hok|apply drew_nil|].
  intros c k s' _ Hk Hd. eexists. split; [exact Hd|]. cbn [app]. split.
  - unfold cust_draws. rewrite !length_app, !repeat_length. cbn [length]. unfold nM. lia.
  - intros i. unfold row_moves. change (fixed_draws CUST) with (cust_draws 0). unfold cust_draws.
    now rewrite !(row_adv_own CUST i C_ADDR_SD _ _ _ eq_refl).
Qed.

(** A builder of such rows, for the columns that the streams [S] determine. *)
Lemma moves_builder {A} t (mk : Z -> M A) (S : list Z) (same : A -> A -> Prop) :
  moves_ok t mk -> forallb (fun i => (0 <=? i) && (i <? 48)) S = true ->
  (forall n s1 s2, agree S s1 s2 -> rwp (mk n) (mk n) (fun a b _ _ => same a b) s1 s2) ->
  RowBuilder t mk S (row_moves t) eq same any_state.
Proof.
  intros Hm HS Hr. split; [|now intros|now intros| |].
  - intros i Hi. rewrite forallb_forall in HS. specialize (HS i Hi). lia.
  - intros n s Hok _. eapply wp_mono; [now apply Hm|]. intros x s' (l & Hd & Hl & Hi). exists l. split_and!; auto.
  - intros n m s1 s2 <- _ _ Ha. now apply Hr.
Qed.
End Moves.

(** The streams of rnd.h. *)
Definition all_streams : list Z := seqZ 0 48.

(** Rows of a table move all streams. *)
Lemma table_moves {A} t (mk : Z -> M A) n start s L s2 :
  moves_ok t mk -> row_env t s -> gen_rows t mk n start s = Ok L s2 ->
  forall i, 0 <= i < 48 -> val s2 i = rng_steps (n * row_moves t i) (val s i).
Proof.
  intros Hm He E i Hi.
  assert (HB : RowBuilder t mk all_streams (row_moves t) eq (fun _ _ => True) any_state)
    by (apply moves_builder; [exact Hm|reflexivity|intros; now apply rwp_any]).
  pose proof (gen_rows_moved t mk all_streams (row_moves t) eq (fun _ _ => True) any_state n start s He I) as W.
  unfold wp in W. rewrite E in W. apply W. apply list_elem_of_In, elem_of_seqZ. lia.
Qed.

(** Rows of the date dimension draw nothing, but [row_stop] takes their table number, 4, for
    that of the orders: the streams of the orders move. *)
Lemma date_moves utcoff n : forall start s L s2,
  row_env DATE s -> gen_rows DATE (date_row utcoff) n start s = Ok L s2 ->
  forall i, 0 <= i < 48 -> val s2 i = rng_steps (n * row_moves DATE i) (val s i).
Proof.
  induction n as [|n IH]; intros start s L s2 He E i Hi; unfold gen_rows in E; cbn [for_list] in E.
  - now injection E as _ <-.
  - pose proof He as [Hok Hlay Hset (d & Hd & Hc)]. apply bind_inv in E as (x & sa & E1 & E).
    apply bind_inv in E as (L' & sb & E2 & [= _ <-]). unfold gen_row in E1. rewrite (bind_ok _ _ _ _ _ (row_start_eq DATE s)) in E1.
    apply bind_inv in E1 as (x' & s1 & Ed & E1). unfold date_row in Ed. destruct (mk_date utcoff start); [|done].
    injection Ed as _ <-. rewrite (bind_ok _ _ tt _ (set_Seed (map (row_stop_seed 0 (row_table DATE) (child d))) (set_Seed zero_usage s))) in E1
      by now apply row_stop_eq.
    injection E1 as _ <-. destruct (row_seeds_env DATE s d [] He Hd ltac:(reflexivity)) as (Rok & Rlay & Rval).
    set (sa := set_Seed _ (set_Seed _ s)) in E2.
    assert (Ha : row_env DATE sa) by (split; [exact Rok|now rewrite <- Hlay, <- Rlay|exact Hset|now exists d]).
    rewrite (IH _ _ _ _ Ha E2 i Hi). specialize (Rval i Hi).
    change (val sa i) with (value (default (mk_seed NONE 0 0 0) (row_seeds (row_table DATE) (child d) [] (Seed s) !! Z.to_nat i))).
    destruct (row_seeds _ _ _ _ !! Z.to_nat i) as [e|]; [|done]. cbn in Rval. injection Rval as Rval.
    change (default _ (Some e)) with e. rewrite Rval, <- rng_steps_add.
    f_equal. unfold row_moves. change (fixed_draws DATE) with (@nil Z). lia.
Qed.

(** ** The streams before a table *)

(** How far the tables before [t] among those selected move the stream [i]. *)
Definition gone (sel : Z -> bool) (rows : Z -> Z) (t i : Z) : nat :=
  sum_list_with (fun u => if sel u then (Z.to_nat (rows u) * row_moves u i)%nat else 0%nat) (seqZ 0 t).

Lemma gone_next sel rows t i : 0 <= t ->
  gone sel rows (t + 1) i = (gone sel rows t i + if sel t then Z.to_nat (rows t) * row_moves t i else 0)%nat.
Proof.
  intros Ht. unfold gone. rewrite seqZ_app by lia. rewrite sum_list_with_app. f_equal.
  change (seqZ (0 + t) 1) with [0 + t]. cbn [sum_list_with]. rewrite Z.add_0_l. lia.
Qed.

(** Tables that differ do not matter when they do not move the stream. *)
Lemma gone_ext sel sel' rows t i :
  (forall u, 0 <= u < t -> sel u = sel' u \/ row_moves u i = 0%nat) -> gone sel rows t i = gone sel' rows t i.
Proof.
  intros H. unfold gone. assert (Hin : Forall (fun u => 0 <= u < t) (seqZ 0 t)) by (apply Forall_seqZ; lia).
  induction Hin as [|u l Hu _ IH]; [reflexivity|]. cbn [sum_list_with]. rewrite IH. f_equal.
  destruct (H u Hu) as [->| ->]; [reflexivity|]. rewrite Nat.mul_0_r. now destruct (sel u), (sel' u).
Qed.

Section Run.
Context (utcoff : Z -> Z) (D : dists) (s0 : st) (HD : dists_ok D).

Let s1 : st := with_counts D s0.

(** The state before the table [t], as far as the rows of the tables depend on it. *)
Record streams_at (t : Z) (s : st) : Prop := mk_streams_at {
  sa_tdefs : tdefs s = tdefs s1;
  sa_val : t <= LINE -> forall i, 0 <= i < 48 -> val s i = rng_steps (gone (selected s0) (serial_rows s1) t i) (val s1 i);
}.

(** Rows generated from such a state. *)
Definition drawn_rows (tab : Z * string * list row) : Prop :=
  let '(t, nm, rows) := tab in
  exists s s2, row_env t s /\ like s1 s /\ streams_at t s /\
    table_gen utcoff D t 1 (Z.to_nat (serial_rows s1 t)) s = Ok rows s2.

Lemma rows_moves t s rows s2 :
  In t ssb_tables -> t <> LINE -> row_env t s -> table_gen utcoff D t 1 (Z.to_nat (serial_rows s1 t)) s = Ok rows s2 ->
  forall i, 0 <= i < 48 -> val s2 i = rng_steps (Z.to_nat (serial_rows s1 t) * row_moves t i) (val s i).
Proof.
  intros Hin Ht He E. each_table Hin; unfold table_gen in E; cbn in E; apply bind_inv in E as (L & sa & E & [= _ <-]).
  - eapply (table_moves PART (mk_part D)); [now apply part_moves|exact He|exact E].
  - eapply (table_moves SUPP (mk_supp D)); [now apply supp_moves|exact He|exact E].
  - eapply (table_moves CUST (mk_cust D)); [now apply cust_moves|exact He|exact E].
  - eapply date_moves; [exact He|exact E].
  - now destruct Ht.
Qed.

Lemma streams_steps : step_facts utcoff D s0 streams_at drawn_rows.
Proof.
  split.
  - intros t s Hs [Ht Hv]. split; [exact Ht|]. intros Hle i Hi. rewrite Hv by (exact Hi || lia). f_equal.
    destruct (Z.le_gt_cases 0 t); [rewrite gone_next, Hs by lia; lia|]. unfold gone. rewrite !seqZ_nil by lia. reflexivity.
  - intros t s s' nm rows s2 Hin Hs Hb He [Ht Hv] E HS Htd. split.
    + split; [congruence|]. intros Hle i Hi. assert (H0 : 0 <= t) by (each_table Hin; cbv; discriminate).
      assert (Hv' : val s' i = val s2 i) by (unfold val, seed_at; now rewrite HS).
      rewrite Hv', (rows_moves t s rows s2 Hin ltac:(lia) He E i Hi), (Hv ltac:(lia) i Hi), <- rng_steps_add, gone_next, Hs by lia.
      f_equal. lia.
    + exists s, s2. split_and!; try assumption; [apply Hb|now split].
Qed.
End Run.

(** ** What rows depend on *)

(** A draw gives the same number when both runs agree on its stream. *)
Lemma rwp_random_on S lo hi i (Q : Z -> Z -> st -> st -> Prop) s1 s2 :
  agree S s1 s2 ->
  (forall v w s1' s2', agree S s1' s2' -> perm s1' = perm s1 -> perm s2' = perm s2 -> (In (drawn i) S -> v = w) -> Q v w s1' s2') ->
  rwp (RANDOM lo hi i) (RANDOM lo hi i) Q s1 s2.
Proof.
  intros Ha HQ. destruct (in_dec Z.eq_dec (drawn i) S) as [Hin|Hout].
  - eapply rwp_random_same; [exact Ha|exact Hin|]. intros v a b Hab P1 P2. now apply HQ.
  - eapply rwp_random_any; [exact Ha|]. intros v w a b Hab P1 P2. now apply HQ.
Qed.

Lemma rwp_phone_on S ind seed (Q : string -> string -> st -> st -> Prop) s1 s2 :
  agree S s1 s2 -> (forall p q s1' s2', agree S s1' s2' -> (In (drawn seed) S -> p = q) -> Q p q s1' s2') ->
  rwp (gen_phone ind seed) (gen_phone ind seed) Q s1 s2.
Proof.
  intros Ha HQ. unfold gen_phone.
  apply rwp_bind. eapply rwp_random_on; [exact Ha|]. intros v w a b Hab _ _ E1.
  apply rwp_bind. eapply rwp_random_on; [exact Hab|]. intros v' w' a' b' Hab' _ _ E2.
  apply rwp_bind. eapply rwp_random_on; [exact Hab'|]. intros v'' w'' a'' b'' Hab'' _ _ E3.
  apply rwp_ret, HQ; [exact Hab''|]. intros Hin. now rewrite (E1 Hin), (E2 Hin), (E3 Hin).
Qed.

(** The city is drawn from stream 98, which is not in the table: stream 0 stands in. *)
Definition city_stream : Z := drawn 98.

Lemma rwp_city_on S n (Q : string -> string -> st -> st -> Prop) s1 s2 :
  agree S s1 s2 -> (forall p q s1' s2', agree S s1' s2' -> (In city_stream S -> p = q) -> Q p q s1' s2') ->
  rwp (gen_city n) (gen_city n) Q s1 s2.
Proof.
  intros Ha HQ. unfold gen_city. apply rwp_bind. eapply rwp_random_on; [exact Ha|].
  intros v w a b Hab _ _ E. apply rwp_ret, HQ; [exact Hab|]. intros Hin. now rewrite (E Hin).
Qed.

(** Suppliers: every column but city and phone number depends on two streams. *)
Definition supp_on (S : list Z) (a b : supplier_t) : Prop :=
  same_supplier a b /\ (In C_PHNE_SD S -> s_phone a = s_phone b) /\ (In city_stream S -> s_city a = s_city b).

Definition same_cust_base (a b : customer_t) : Prop :=
  c_custkey a = c_custkey b /\ c_name a = c_name b /\ c_address a = c_address b /\
  c_alen a = c_alen b /\ c_nation_name a = c_nation_name b /\ c_region_name a = c_region_name b /\
  c_mktsegment a = c_mktsegment b.

Definition cust_on (S : list Z) (a b : customer_t) : Prop :=
  same_cust_base a b /\ (In C_PHNE_SD S -> c_phone a = c_phone b) /\ (In city_stream S -> c_city a = c_city b).

Definition all_part_streams : list Z := P_MFG_SD :: P_BRND_SD :: part_streams.

Section On.
Context (D : dists) (S : list Z).

Lemma rwp_supp_on n s1 s2 : In S_ADDR_SD S -> In S_NTRG_SD S -> agree S s1 s2 ->
  rwp (mk_supp D n) (mk_supp D n) (fun a b _ _ => supp_on S a b) s1 s2.
Proof.
  intros I1 I2 Ha. unfold mk_supp. apply rwp_bind. eapply rwp_V_STR; [exact Ha|exact I1|]. intros p a1 b1 Ha1.
  apply rwp_bind. eapply rwp_random_same; [exact Ha1|exact I2|]. intros i a2 b2 Ha2 _ _.
  apply rwp_bind, rwp_dist_text. intros m. apply rwp_bind. eapply rwp_strcpy; [exact Ha2|].
  intros a3 b3 Ha3 _ _. apply rwp_bind, rwp_dist_text. intros r. apply rwp_bind.
  eapply rwp_strcpy; [exact Ha3|]. intros a4 b4 Ha4 _ _.
  apply rwp_bind. eapply rwp_city_on; [exact Ha4|]. intros c c' a5 b5 Ha5 Ec.
  apply rwp_bind. eapply rwp_phone_on; [exact Ha5|]. intros ph ph' a6 b6 Ha6 Ep.
  apply rwp_ret. split; [now split_and!|]. now split.
Qed.

Lemma rwp_cust_on n s1 s2 : In C_ADDR_SD S -> In C_NTRG_SD S -> In C_MSEG_SD S -> agree S s1 s2 ->
  rwp (mk_cust D n) (mk_cust D n) (fun a b _ _ => cust_on S a b) s1 s2.
Proof.
  intros I1 I2 I3 Ha. unfold mk_cust. apply rwp_bind. eapply rwp_V_STR; [exact Ha|exact I1|]. intros p a1 b1 Ha1.
  apply rwp_bind. eapply rwp_random_same; [exact Ha1|exact I2|]. intros i a2 b2 Ha2 _ _.
  apply rwp_bind, rwp_dist_text. intros m. apply rwp_bind. eapply rwp_strcpy; [exact Ha2|].
  intros a3 b3 Ha3 _ _. apply rwp_bind, rwp_dist_text. intros r. apply rwp_bind.
  eapply rwp_strcpy; [exact Ha3|]. intros a4 b4 Ha4 _ _.
  apply rwp_bind. eapply rwp_city_on; [exact Ha4|]. intros c c' a5 b5 Ha5 Ec.
  apply rwp_bind. eapply rwp_phone_on; [exact Ha5|]. intros ph ph' a6 b6 Ha6 Ep.
  apply rwp_bind. eapply rwp_pick_same; [exact Ha6|exact I3|]. intros q a7 b7 Ha7.
  apply rwp_bind. eapply rwp_strcpy; [exact Ha7|]. intros a8 b8 _ _ _.
  apply rwp_ret. split; [now split_and!|]. now split.
Qed.

Lemma rwp_part_on n s1 s2 : 1 <= count (colors D) -> (forall i, In i all_part_streams -> In i S) -> agree S s1 s2 ->
  rwp (mk_part D n) (mk_part D n) (fun a b _ _ => a = b) s1 s2.
Proof.
  intros Hc HS Ha. unfold mk_part. apply rwp_bind.
  eapply rwp_agg_str; [exact Ha|apply HS; in_streams|exact Hc|unfold P_NAME_SCL; lia|]. intros nm a1 b1 Ha1.
  apply rwp_bind. eapply rwp_strcpy_over; [exact Ha1|]. intros a2 b2 Ha2 _ _.
  unfold gen_color. apply rwp_bind, rwp_bind, rwp_must. intros i i' -> [= <-]. apply rwp_ret.
  apply rwp_bind. eapply rwp_strcpy; [exact Ha2|]. intros a2' b2' Ha2' _ _.
  apply rwp_bind. eapply rwp_strcpy; [exact Ha2'|]. intros a3 b3 Ha3 _ _.
  do 3 (apply rwp_bind; eapply rwp_random_same; [eassumption|apply HS; in_streams|]; intros ? ? ? ? _ _).
  apply rwp_bind. eapply rwp_pick_same; [eassumption|apply HS; in_streams|]. intros t a7 b7 Ha7.
  apply rwp_bind. eapply rwp_strcpy; [exact Ha7|]. intros a8 b8 Ha8 _ _.
  apply rwp_bind, rwp_dist_text. intros m.
  apply rwp_bind. eapply rwp_random_same; [exact Ha8|apply HS; in_streams|]. intros sz a9 b9 Ha9 _ _.
  apply rwp_bind. eapply rwp_pick_same; [exact Ha9|apply HS; in_streams|]. intros k a10 b10 Ha10.
  apply rwp_bind. eapply rwp_strcpy; [exact Ha10|]. intros a11 b11 _ _ _.
  now apply rwp_ret.
Qed.
End On.

(** ** Two runs *)

(** A state without its output and the variables rows do not depend on. *)
Definition bare (s : st) : st :=
  mk_st (Seed s) (faults s) (perm s) (map (with_total 0) (tdefs s)) (fun v => if row_var v then glob s v else 0)
    (f_of_Z 0) None (d_path s) (prt st_start) [] "".

Instance bare_view : View bare.
Proof.
  split; try reflexivity.
  - intros s v Hv. cbn. now rewrite Hv.
  - intros s t. cbn. rewrite lookup_map. destruct (tdefs s !! t); reflexivity.
Qed.

(** Two states that differ in streams and output at most. *)
Record alike (sa sb : st) : Prop := mk_alike {
  ak_glob : forall v, row_var v = true -> glob sa v = glob sb v;
  ak_tdefs : tdefs sa = tdefs sb;
}.

Lemma bare_env t s : row_env t s -> row_env t (bare s).
Proof.
  intros [H1 H2 H3 (d & Hd & Hc)]. split; try assumption. exists (with_total 0 d). split; [|exact Hc].
  cbn. now rewrite lookup_map, Hd.
Qed.

Lemma bare_order_env s : scale_ok s -> order_env 0 (bare s).
Proof. intros Hs. split; [|now left]. unfold scale_ok, O_CKEY_MAX, L_SKEY_MAX, L_PKEY_MAX in *. now rewrite !(view_base bare). Qed.

(** The streams two states agree on. *)
Definition agreed (sa sb : st) : list Z := List.filter (fun i => val sa i =? val sb i) all_streams.

Lemma agreed_in sa sb i : 0 <= i < 48 -> val sa i = val sb i -> In i (agreed sa sb).
Proof.
  intros Hi Hv. apply List.filter_In. split; [apply list_elem_of_In, elem_of_seqZ; lia|now apply Z.eqb_eq].
Qed.

Lemma agreed_val sa sb i : In i (agreed sa sb) -> val sa i = val sb i.
Proof. intros Hi. apply List.filter_In in Hi as [_ Hi]. now apply Z.eqb_eq. Qed.

Lemma agreed_range sa sb : forallb (fun i => (0 <=? i) && (i <? 48)) (agreed sa sb) = true.
Proof.
  apply forallb_forall. intros i Hi. apply List.filter_In in Hi as [Hi _]. apply list_elem_of_In, elem_of_seqZ in Hi. lia.
Qed.

(** Rows of two runs, from states that agree on the streams [S]. *)
Lemma two_rows {A} t (mk : Z -> M A) S adv same env n sa sb La Lb sa' sb' :
  RowBuilder t mk S adv eq same env -> (forall i, inner (mk i)) -> alike sa sb -> env (bare sa) -> env (bare sb) ->
  row_env t sa -> row_env t sb -> (forall i, In i S -> val sa i = val sb i) ->
  gen_rows t mk n 1 sa = Ok La sa' -> gen_rows t mk n 1 sb = Ok Lb sb' -> Forall2 same La Lb.
Proof.
  intros HB Hin [Hg Ht] Ea Eb Ra Rb Hv H1 H2.
  assert (Hl : lockstep t S env (bare sa) (bare sb)).
  { split; try assumption; try (now apply bare_env); [|cbn; now rewrite Ht].
    apply functional_extensionality. intros v. cbn. specialize (Hg v). destruct (row_var v); [now apply Hg|reflexivity]. }
  destruct (lockstep_rows t mk S adv eq same env n 1 1 _ _ ltac:(reflexivity) Hl) as (L1 & L2 & a & b & E1 & E2 & HF & _).
  pose proof (inner_through _ bare _ _ _ (inner_gen_rows t mk n 1 Hin) H1) as B1.
  pose proof (inner_through _ bare _ _ _ (inner_gen_rows t mk n 1 Hin) H2) as B2. congruence.
Qed.

(** ** The same table in two runs *)

(** What two runs that select different tables have in common in a row. *)
Definition same_row (sA sB : st) (a b : row) : Prop :=
  let both t := selected sA t = selected sB t in
  match a, b with
  | R_part a, R_part b => a = b
  | R_supp a, R_supp b => same_supplier a b /\ s_phone a = s_phone b /\ (both PART -> s_city a = s_city b)
  | R_cust a, R_cust b =>
      same_cust_base a b /\ (both SUPP -> c_phone a = c_phone b) /\ (both PART -> both SUPP -> c_city a = c_city b)
  | R_date a, R_date b => a = b
  | R_order a, R_order b => both DATE -> a = b
  | _, _ => False
  end.

(** The columns of an order its own streams determine, those of the buyer, and nothing else. *)
Lemma same_order_all D s i a b :
  order_ok D s i 0 a -> order_ok D s i 0 b -> same_order a b -> same_buyer a b -> a = b.
Proof.
  intros [_ _ _ _ (da & _ & _ & La) _] [_ _ _ _ (db & _ & _ & Lb) _] (E1 & E2 & E3 & E4 & E5 & HF) [E6 E7].
  assert (El : o_lineorders a = o_lineorders b).
  { apply list_eq_Forall2. apply Forall2_same_length_lookup_2; [now apply Forall2_length in HF|].
    intros k x y Hx Hy. destruct (La k x Hx) as [[K1 _ _ _ C1 _ _ _] _], (Lb k y Hy) as [[K2 _ _ _ C2 _ _ _] _].
    pose proof (Forall2_lookup_lr _ _ _ _ _ _ HF Hx Hy) as Hs. destruct K1 as (_ & _ & K1), K2 as (_ & _ & K2), C1 as (_ & C1 & _), C2 as (_ & C2 & _).
    unfold same_line in Hs. destruct x, y. cbn in *.
    destruct Hs as (-> & -> & -> & -> & -> & -> & -> & -> & -> & -> & -> & -> & -> & -> & ->). f_equal; congruence. }
  destruct a, b. cbn in *. congruence.
Qed.

Section Two.
Context (utcoff : Z -> Z) (D : dists) (HD : dists_ok D) (OsA OsB : os) (sA sB : st).
Context (HA : run_ok sA) (HB : run_ok sB) (HsA : serial_run OsA sA) (HsB : serial_run OsB sB).
Context (Hscale : glob sA G.scale = glob sB G.scale) (Hrefresh : glob sA G.refresh = glob sB G.refresh)
  (Htdefs : tdefs sA = tdefs sB).

Let a1 : st := with_counts D sA.
Let b1 : st := with_counts D sB.

Lemma two_tdefs : tdefs a1 = tdefs b1.
Proof. unfold a1, b1, with_counts. cbn [tdefs set_tdefs]. now rewrite Htdefs. Qed.

Lemma two_serial_rows t : serial_rows a1 t = serial_rows b1 t.
Proof.
  unfold serial_rows, base_of. rewrite two_tdefs. change (glob a1) with (glob sA). change (glob b1) with (glob sB).
  now rewrite Hscale.
Qed.

(** The states before the table [t] in the two runs. *)
Section Before.
Context (t : Z) (sa sb : st) (Ht : t <= LINE) (La : like a1 sa) (Lb : like b1 sb)
  (Sa : streams_at D sA t sa) (Sb : streams_at D sB t sb).

Lemma two_alike : alike sa sb.
Proof.
  split; [|rewrite (sa_tdefs _ _ _ _ Sa), (sa_tdefs _ _ _ _ Sb); exact two_tdefs].
  intros v Hv. assert (Hk : kept_var v) by (split_and!; intros ->; discriminate).
  rewrite (lk_glob _ _ La v Hk), (lk_glob _ _ Lb v Hk). change (glob a1 v) with (glob sA v). change (glob b1 v) with (glob sB v).
  destruct (sr_plain _ _ HsA), (sr_plain _ _ HsB). destruct v; try discriminate; congruence.
Qed.

Lemma two_stream i : 0 <= i < 48 ->
  (forall u, 0 <= u < t -> selected sA u = selected sB u \/ row_moves u i = 0%nat) -> In i (agreed sa sb).
Proof.
  intros Hi Hu. apply agreed_in; [exact Hi|]. rewrite (sa_val _ _ _ _ Sa Ht i Hi), (sa_val _ _ _ _ Sb Ht i Hi).
  rewrite (gone_ext _ (selected sB) _ t i Hu). unfold val, seed_at. change (Seed (with_counts D ?s)) with (Seed s).
  rewrite (ro_seeds _ HA), (ro_seeds _ HB). f_equal. unfold gone. fold a1 b1.
  induction (seqZ 0 t) as [|u l IH]; [reflexivity|]. cbn [sum_list_with]. now rewrite two_serial_rows, IH.
Qed.

Ltac each_before u Hu :=
  let H := fresh in
  assert (H : u = 0 \/ u = 1 \/ u = 2 \/ u = 3 \/ u = 4) by (unfold LINE, PART, SUPP, CUST, DATE in *; lia);
  repeat (destruct H as [->|H]); try subst u; first [right; reflexivity|left; assumption|exfalso; unfold PART, SUPP, CUST in *; lia].
Ltac stream_same := apply two_stream; [in_range|intros u Hu; each_before u Hu].

Context (Ra : row_env t sa) (Rb : row_env t sb).

Lemma two_parts n la lb sa' sb' : t = PART ->
  gen_rows PART (mk_part D) n 1 sa = Ok la sa' -> gen_rows PART (mk_part D) n 1 sb = Ok lb sb' -> la = lb.
Proof.
  intros Et EA EB. rewrite Et in Ra, Rb. destruct (ok_colors D HD) as [Hc _]. apply list_eq_Forall2.
  refine (two_rows PART (mk_part D) (agreed sa sb) (row_moves PART) eq any_state n sa sb la lb sa' sb' _ _ two_alike I I Ra Rb (agreed_val sa sb) EA EB).
  - apply moves_builder; [now apply part_moves|apply agreed_range|]. intros k x y. apply rwp_part_on; [lia|].
    intros i Hi. each_stream Hi; stream_same.
  - auto with inner.
Qed.

Lemma two_supps n la lb sa' sb' : t = SUPP ->
  gen_rows SUPP (mk_supp D) n 1 sa = Ok la sa' -> gen_rows SUPP (mk_supp D) n 1 sb = Ok lb sb' ->
  Forall2 (fun a b => same_row sA sB (R_supp a) (R_supp b)) la lb.
Proof.
  intros Et EA EB. rewrite Et in Ra, Rb. eapply Forall2_impl.
  - refine (two_rows SUPP (mk_supp D) (agreed sa sb) (row_moves SUPP) (supp_on (agreed sa sb)) any_state n sa sb la lb sa' sb' _ _ two_alike I I Ra Rb (agreed_val sa sb) EA EB).
    + apply moves_builder; [now apply supp_moves|apply agreed_range|]. intros k x y. apply rwp_supp_on; stream_same.
    + auto with inner.
  - intros x y (H & Hp & Hc). split_and!; [exact H|apply Hp; stream_same|]. intros Hsel. apply Hc. stream_same.
Qed.

Lemma two_custs n la lb sa' sb' : t = CUST ->
  gen_rows CUST (mk_cust D) n 1 sa = Ok la sa' -> gen_rows CUST (mk_cust D) n 1 sb = Ok lb sb' ->
  Forall2 (fun a b => same_row sA sB (R_cust a) (R_cust b)) la lb.
Proof.
  intros Et EA EB. rewrite Et in Ra, Rb. eapply Forall2_impl.
  - refine (two_rows CUST (mk_cust D) (agreed sa sb) (row_moves CUST) (cust_on (agreed sa sb)) any_state n sa sb la lb sa' sb' _ _ two_alike I I Ra Rb (agreed_val sa sb) EA EB).
    + apply moves_builder; [now apply cust_moves|apply agreed_range|]. intros k x y. apply rwp_cust_on; stream_same.
    + auto with inner.
  - intros x y (H & Hp & Hc). split_and!; [exact H|intros Hsel; apply Hp; stream_same|]. intros Hsel Hsel'. apply Hc. stream_same.
Qed.

(** The date dimension is a function of the day number. *)
Lemma two_dates n : forall i ta tb la lb sa' sb',
  gen_rows DATE (date_row utcoff) n i ta = Ok la sa' -> gen_rows DATE (date_row utcoff) n i tb = Ok lb sb' -> la = lb.
Proof.
  assert (Hrow : forall i s x s', gen_row DATE (date_row utcoff) i s = Ok x s' -> mk_date utcoff i = Some x).
  { intros i s x s' E. apply bind_inv in E as (? & ? & _ & E). apply bind_inv in E as (x' & ? & E & E2).
    apply bind_inv in E2 as (? & ? & _ & [= -> _]). unfold date_row in E. destruct (mk_date utcoff i); [|done]. now injection E as ->. }
  induction n as [|n IH]; intros i ta tb la lb sa' sb' EA EB; unfold gen_rows in EA, EB; cbn [for_list] in EA, EB.
  - injection EA as <- _. now injection EB as <- _.
  - apply bind_inv in EA as (x & ? & XA & EA). apply bind_inv in EA as (l & ? & LA & [= <- _]).
    apply bind_inv in EB as (y & ? & XB & EB). apply bind_inv in EB as (l' & ? & LB & [= <- _]).
    apply Hrow in XA, XB. f_equal; [congruence|now apply (IH _ _ _ _ _ _ _ LA LB)].
Qed.

Lemma buyers_eq : RowBuilder LINE (fun i => mk_order D i 0) buyer_streams (fun _ => 1%nat) eq same_buyer (order_env 0).
Proof. destruct (buyer_builder D HD 0) as [B1 B2 B3 B4 B5]. split; try assumption. intros k m x y _. exact (B5 k m x y I). Qed.

Lemma two_orders n la lb sa' sb' : t = LINE -> scale_ok a1 -> scale_ok b1 ->
  gen_rows LINE (order_row D 0) n 1 sa = Ok la sa' -> gen_rows LINE (order_row D 0) n 1 sb = Ok lb sb' ->
  Forall2 (fun a b => same_row sA sB (R_order a) (R_order b)) la lb.
Proof.
  intros Et Sca Scb EA EB. rewrite Et in Ra, Rb.
  assert (Hord : forall s1 s l s', scale_ok s1 -> like s1 s -> row_env LINE s -> gen_rows LINE (order_row D 0) n 1 s = Ok l s' ->
    scale_ok s /\ length l = n /\ forall k o, l !! k = Some o -> order_ok D s (1 + Z.of_nat k) 0 o).
  { intros s1 s l s' Hsc Hl Hr E. assert (Hs : scale_ok s).
    { destruct Hl as [Hg Hb]. unfold scale_ok, O_CKEY_MAX, L_SKEY_MAX, L_PKEY_MAX in *. rewrite !Hb, !Hg by kept. exact Hsc. }
    split; [exact Hs|]. pose proof (wp_gen_rows LINE (order_row D 0) (fun i o => order_ok D s i 0 o) s n 1 s Hr eq_refl eq_refl) as W.
    unfold wp in W at 2. rewrite E in W. destruct W as (W1 & _ & W2); [|now split]. intros i x _ Hok Hg Htd.
    apply (order_wp D s HD Hs i x Hok). split; [now intros v _; rewrite Hg|]. intros u. unfold base_of. now rewrite Htd. }
  destruct (Hord _ _ _ _ Sca La Ra EA) as (Hsa & Na & Oa), (Hord _ _ _ _ Scb Lb Rb EB) as (Hsb & Nb & Ob). clear Hord.
  assert (Hrow : order_row D 0 = fun i => mk_order D i 0) by (unfold order_row; change (0 %c 10000) with 0; reflexivity).
  rewrite Hrow in EA, EB. pose proof (fun i => inner_mk_order D i 0) as Hin.
  assert (Hsame : selected sA DATE = selected sB DATE -> Forall2 same_order la lb /\ Forall2 same_buyer la lb).
  { intros Hsel. split.
    - refine (two_rows LINE _ order_streams order_adv same_order (order_env 0) n sa sb la lb sa' sb' (order_builder D HD 0)
        Hin two_alike (bare_order_env _ Hsa) (bare_order_env _ Hsb) Ra Rb _ EA EB).
      intros i Hi. apply agreed_val. each_stream Hi; stream_same.
    - refine (two_rows LINE _ buyer_streams (fun _ => 1%nat) same_buyer (order_env 0) n sa sb la lb sa' sb' buyers_eq
        Hin two_alike (bare_order_env _ Hsa) (bare_order_env _ Hsb) Ra Rb _ EA EB).
      intros i Hi. apply agreed_val. each_stream Hi; stream_same. }
  apply Forall2_same_length_lookup_2.
  - congruence.
  - intros k x y Hx Hy Hsel. destruct (Hsame Hsel) as [H1 H2]. apply (same_order_all D sa (1 + Z.of_nat k)); [now apply Oa| |..].
    + pose proof two_alike as [Hg Htd]. apply (order_ok_ext D sb); [now rewrite Hg|now rewrite Hg| |now apply Ob].
      intros u. unfold base_of. now rewrite Htd.
    + exact (Forall2_lookup_lr _ _ _ _ _ _ H1 Hx Hy).
    + exact (Forall2_lookup_lr _ _ _ _ _ _ H2 Hx Hy).
Qed.
End Before.

(** The rows of a table in the two runs. *)
Lemma two_drawn t nmA nmB ra rb : In t ssb_tables ->
  drawn_rows utcoff D sA (t, nmA, ra) -> drawn_rows utcoff D sB (t, nmB, rb) -> Forall2 (same_row sA sB) ra rb.
Proof.
  intros Hin (sa & sa' & Ra & La & Sa & EA) (sb & sb' & Rb & Lb & Sb & EB).
  fold a1 b1 in La, Lb, EA, EB. rewrite <- two_serial_rows in EB. revert EA EB. generalize (Z.to_nat (serial_rows a1 t)). intros n EA EB.
  destruct (with_counts_scale D sA HA (sr_scale _ _ HsA)) as [Sca _], (with_counts_scale D sB HB (sr_scale _ _ HsB)) as [Scb _].
  unfold table_gen in EA, EB. each_table Hin; cbn in EA, EB;
    apply bind_inv in EA as (la & ? & EA & [= <- _]); apply bind_inv in EB as (lb & ? & EB & [= <- _]).
  - rewrite (two_parts PART sa sb ltac:(cbv; discriminate) La Lb Sa Sb Ra Rb n la lb _ _ eq_refl EA EB).
    apply Forall2_fmap_2, Forall_Forall2_diag. now apply Forall_true.
  - apply Forall2_fmap_2. exact (two_supps SUPP sa sb ltac:(cbv; discriminate) La Lb Sa Sb Ra Rb n la lb _ _ eq_refl EA EB).
  - apply Forall2_fmap_2. exact (two_custs CUST sa sb ltac:(cbv; discriminate) La Lb Sa Sb Ra Rb n la lb _ _ eq_refl EA EB).
  - rewrite (two_dates n 1 sa sb la lb _ _ EA EB). apply Forall2_fmap_2, Forall_Forall2_diag. now apply Forall_true.
  - apply Forall2_fmap_2. exact (two_orders LINE sa sb ltac:(cbv; discriminate) La Lb Sa Sb Ra Rb n la lb _ _ eq_refl Sca Scb EA EB).
Qed.
End Two.

(** A serial run, with the streams each table starts from. *)
Lemma run_drawn Os utcoff spawn_ok nk rk opts D s :
  (main_init;; process_options opts) st_start = Ok tt s ->
  load_dists (getenv Os) (file_text Os) s = Ok D s -> dists_ok D -> 0 <= count (regions D) ->
  serial_run Os s -> zone_ok utcoff -> (forall t, 0 <= t <= 9 -> selected s t = true -> In t ssb_tables) ->
  exists tabs s', main Os utcoff spawn_ok nk rk opts st_start = Ok [] s' /\ files s' = map (tab_file Os) tabs /\
    map tab_number tabs = List.filter (selected s) ssb_tables /\ Forall (tab_ok D s) tabs /\ Forall (drawn_rows utcoff D s) tabs.
Proof.
  intros Hopts Hload HD Hreg Hser Hzone Hssb. pose proof (options_run_ok _ _ Hopts) as Hok.
  assert (H0 : streams_at D s PART (with_counts D s)) by (split; [reflexivity|now intros _]).
  destruct (check_loop Os utcoff spawn_ok nk rk D s Hok HD Hser Hzone Hssb _ _ (streams_steps utcoff D s HD)
    10 PART (with_counts D s) (with_counts D s) [] ltac:(cbv; discriminate) ltac:(cbv; discriminate) (between_start D s Hok) H0)
    as (s' & rs & tabs & _ & E & Hrs & _ & (Hnum & Hall & Hdrawn) & Hf & _).
  exists tabs, s'. rewrite <- Hrs. change (files (with_counts D s)) with (files s) in Hf. rewrite (ro_files s Hok) in Hf.
  split_and!; try assumption.
  - pose proof Hser as [[_ _ _ Hdir Hupd _] _ Hfn _ _]. now apply (main_flat Os utcoff spawn_ok nk rk opts D s).
  - rewrite Hnum. now apply selected_ssb.
Qed.

(** C8. Two serial runs of the same scale that select different SSBM tables, one table alone for
    instance and all of them: in a table that both generate, part and date rows are the same,
    suppliers differ in the city at most, customers in city and phone number, and orders are
    the same when both runs or neither generate the date dimension. The city is the same
    when the earlier tables are, and so is the customers' phone number. *)
Theorem tables_apart Os utcoff spawn_ok nk rk optsA optsB D sA sB :
  (main_init;; process_options optsA) st_start = Ok tt sA -> (main_init;; process_options optsB) st_start = Ok tt sB ->
  load_dists (getenv Os) (file_text Os) sA = Ok D sA -> load_dists (getenv Os) (file_text Os) sB = Ok D sB ->
  dists_ok D -> 0 <= count (regions D) -> serial_run Os sA -> serial_run Os sB -> zone_ok utcoff ->
  (forall t, 0 <= t <= 9 -> selected sA t || selected sB t = true -> In t ssb_tables) ->
  glob sA G.scale = glob sB G.scale -> glob sA G.refresh = glob sB G.refresh -> tdefs sA = tdefs sB ->
  exists tabsA tabsB eA eB,
    main Os utcoff spawn_ok nk rk optsA st_start = Ok [] eA /\ files eA = map (tab_file Os) tabsA /\
    map tab_number tabsA = List.filter (selected sA) ssb_tables /\
    main Os utcoff spawn_ok nk rk optsB st_start = Ok [] eB /\ files eB = map (tab_file Os) tabsB /\
    map tab_number tabsB = List.filter (selected sB) ssb_tables /\
    forall t nmA nmB ra rb, In (t, nmA, ra) tabsA -> In (t, nmB, rb) tabsB -> nmA = nmB /\ Forall2 (same_row sA sB) ra rb.
Proof.
  intros OA OB LA LB HD Hreg SA SB Hzone Hssb Hsc Href Htd.
  destruct (run_drawn Os utcoff spawn_ok nk rk optsA D sA OA LA HD Hreg SA Hzone) as (ta & ea & MA & FA & NA & TA & DA).
  { intros t Ht Hs. apply Hssb; [exact Ht|now rewrite Hs]. }
  destruct (run_drawn Os utcoff spawn_ok nk rk optsB D sB OB LB HD Hreg SB Hzone) as (tb & eb & MB & FB & NB & TB & DB).
  { intros t Ht Hs. apply Hssb; [exact Ht|now rewrite Hs, orb_true_r]. }
  exists ta, tb, ea, eb. split_and!; try assumption. intros t nmA nmB ra rb Ia Ib. 
  rewrite List.Forall_forall in TA, TB, DA, DB. pose proof (TA _ Ia) as ((d & Hd & Hn) & _). pose proof (TB _ Ib) as ((d' & Hd' & Hn') & _).
  split; [congruence|].
  assert (Hin : In t ssb_tables).
  { apply (in_map tab_number) in Ia. rewrite NA in Ia. now apply List.filter_In in Ia as [Ia _]. }
  apply (two_drawn utcoff D HD Os Os sA sB (options_run_ok _ _ OA) (options_run_ok _ _ OB) SA SB Hsc Href Htd t nmA nmB); auto.
Qed.

Definition opts_line : list (ascii * string) := [("s"%char, "1"); ("S"%char, "1"); ("T"%char, "l")].
Definition line_state : st :=
  match (main_init;; process_options opts_line) st_start with Ok _ s | Stop _ s => s end.

Lemma opts_line_serial : serial_run fresh_os line_state.
Proof.
  split; [split; vm_compute; reflexivity|vm_compute; discriminate|vm_compute; reflexivity|vm_compute; discriminate|].
  intros t d nm Hin _ Hd Hn. each_table Hin;
    (vm_compute in Hd; injection Hd as <-; injection Hn as <-;
     split; [vm_compute; reflexivity|discriminate|right; discriminate|reflexivity]).
Qed.

Lemma tables_apart_witness :
  exists tabsA tabsB eA eB,
    main fresh_os (fun _ => 0) (fun _ _ => true) 0 0 opts_all st_start = Ok [] eA /\ files eA = map (tab_file fresh_os) tabsA /\
    map tab_number tabsA = List.filter (selected opts_state) ssb_tables /\
    main fresh_os (fun _ => 0) (fun _ _ => true) 0 0 opts_line st_start = Ok [] eB /\ files eB = map (tab_file fresh_os) tabsB /\
    map tab_number tabsB = List.filter (selected line_state) ssb_tables /\
    forall t nmA nmB ra rb, In (t, nmA, ra) tabsA -> In (t, nmB, rb) tabsB ->
      nmA = nmB /\ Forall2 (same_row opts_state line_state) ra rb.
Proof.
  apply (tables_apart fresh_os (fun _ => 0) (fun _ _ => true) 0 0 opts_all opts_line shipped).
  - apply end_state. vm_compute. reflexivity.
  - apply end_state. vm_compute. reflexivity.
  - apply shipped_loaded. vm_compute. reflexivity.
  - apply shipped_loaded. vm_compute. reflexivity.
  - apply shipped_ok.
  - vm_compute. discriminate.
  - exact opts_all_serial.
  - exact opts_line_serial.
  - intros t. unfold clock0. lia.
  - intros t Ht. assert (Hin : In t [0; 1; 2; 3; 4; 5; 6; 7; 8; 9]) by (cbn; lia). clear Ht.
    repeat (destruct Hin as [<-|Hin]; [first [discriminate|intros _; cbn; tauto]|]). destruct Hin.
  - vm_compute. reflexivity.
  - vm_compute. reflexivity.
  - vm_compute. reflexivity.
Defined.

(** Orders do depend on the date dimension: already the first order of the full run has
    another customer than that of the run of the orders alone. *)
Definition first_custkey (s : st) : option Z :=
  match table_gen (fun _ => 0) shipped LINE 1 1 s with Ok [R_order o] _ => Some (o_custkey o) | _ => None end.

Definition first_custkeys : res (option Z * option Z) :=
  (_ <- table_gen (fun _ => 0) shipped DATE 1 2556;; s <- get;;
   ret (first_custkey s, first_custkey (with_counts shipped opts_state))) (with_counts shipped opts_state).

Example dates_move_orders :
  match first_custkeys with Ok (Some a, Some b) _ => a <> b | _ => False end.
Proof.
  assert (E : match first_custkeys with Ok (Some a, Some b) _ => negb (a =? b) | _ => false end = true) by (vm_compute; reflexivity).
  destruct first_custkeys as [[[a|] [b|]] s|]; try discriminate. intros ->. now rewrite Z.eqb_refl in E.
Qed.
