(* ===== verification/Readback.v ===== *)
(** Loading the flat files back: the rows of every table can be read from the text that is
    printed of them, since no column holds a separator. *)
From S2P Require Import Prelude CString Float64 Rng State Consts Streams Dist Bcd2 Sparse Calendar DateDim Build RowSpec Config Shipped Output Print Relational Parallel Chunks Driver Frame Tables Format Partial Options TableRun Serial Forked.

(** ** Distributions without separators *)

Definition dist_clean (d : distribution) : Prop := Forall (fun m => clean (text m)) (dlist d).

(** The distributions the columns of the SSBM tables are drawn from. *)
Definition dists_clean (D : dists) : Prop :=
  Forall dist_clean [nations D; regions D; c_mseg_set D; p_types_set D; p_cntr_set D; l_smode_set D;
    o_priority_set D; colors D].

Lemma strchr_from_bound s c : forall i k, strchr_from i s c = Some k -> i <= k.
Proof.
  induction s as [|a s IH]; intros i k; [done|]. cbn [strchr_from].
  destruct (Ascii.eqb a c); [intros [= ->]; lia|]. intros E. apply IH in E. lia.
Qed.

(** The text before the first [c] has none. *)
Lemma strchr_take c s : forall i, strchr s c = Some i ->
  all_chars (fun a => negb (Ascii.eqb a c)) (take_s i s) = true.
Proof.
  unfold strchr. induction s as [|a s IH]; intros i; [done|]. cbn [strchr_from].
  destruct (Ascii.eqb a c) eqn:Ea; [intros [= <-]; reflexivity|].
  rewrite strchr_from_shift. destruct (strchr_from 0 s c) as [k|] eqn:E; [|done]. intros Hi.
  assert (Hk : 0 <= k) by (exact (strchr_from_bound s c 0 k E)).
  change (Some (0 + 1 + k) = Some i) in Hi. injection Hi as <-. replace (0 + 1 + k) with (k + 1) by lia.
  rewrite take_S_cons by exact Hk. cbn [all_chars]. now rewrite Ea, IH.
Qed.

Lemma cut_at_free c s : all_chars (fun a => negb (Ascii.eqb a c)) (cut_at c s) = true.
Proof.
  unfold cut_at. destruct (strchr s c) as [i|] eqn:E; [now apply strchr_take|].
  unfold strchr in E. revert E. generalize 0 as i. induction s as [|a s IH]; intros i; [done|].
  cbn [strchr_from all_chars]. destruct (Ascii.eqb a c); [done|]. apply IH.
Qed.

Lemma cut_at_keeps p c s : all_chars p s = true -> all_chars p (cut_at c s) = true.
Proof. intros H. unfold cut_at. destruct (strchr s c); [now apply all_chars_take|exact H]. Qed.

(** [sscanf] stops a name at the separator, [read_dist] cuts a line at its end. *)
Lemma scan_member_clean line token w :
  all_chars (fun a => negb (Ascii.eqb a nl)) line = true -> scan_member line = Some (token, w) -> clean token.
Proof.
  intros Hl. unfold scan_member. destruct (strchr line "|") as [i|] eqn:E; [|done].
  destruct (i =? 0); [done|]. destruct (scan_ld _); [|done]. intros [= <- _]. unfold clean.
  pose proof (strchr_take _ _ _ E) as H1. pose proof (all_chars_take _ i _ Hl) as H2.
  revert H1 H2. generalize (take_s i line) as s. induction s as [|a s IH]; [done|]. cbn [all_chars].
  rewrite !andb_true_iff. intros [A1 A2] [B1 B2]. unfold clean_char. unfold bar. rewrite A1, B1. auto.
Qed.

Lemma read_lines_clean lines name : forall set target n room d,
  dist_clean target ->
  (read_lines lines name set target n room = Found d \/
   exists k r, read_lines lines name set target n room = Next d k r) ->
  dist_clean d.
Proof.
  induction lines as [|line lines IH]; intros set target n room d Ht; cbn [read_lines].
  - intros [[=]|(k & r & [= <- _ _])]. exact Ht.
  - set (l := cut_at "#" (cut_at nl line)). destruct (String.eqb l ""); [now apply IH|].
    destruct set; cbn [negb].
    2:{ destruct (begin_line l name); [now apply IH|]. intros [[=]|(k & r & [=])]. }
    destruct (dssncasecmp l "END" 3 =? 0); [intros [[= <-]|(k & r & [=])]; exact Ht|].
    unfold read_member. destruct (scan_member l) as [[token w]|] eqn:Es; [|now apply IH].
    assert (Hc : clean token).
    { apply (scan_member_clean l token w); [|exact Es]. apply cut_at_keeps, cut_at_free. }
    destruct (is_count token).
    + destruct (2 ^ 63 <=? list_bytes w); [intros [[=]|(k & r & [=])]|].
      destruct (negb (n =? 0)); [intros [[=]|(k & r & [=])]|]. apply IH. constructor.
    + destruct (n <? room); [|intros [[=]|(k & r & [=])]]. apply IH. unfold dist_clean. cbn [dlist].
      apply Forall_app. split; [exact Ht|]. now constructor.
Qed.

Lemma read_dist_clean getenv file_text path name s d s' :
  read_dist getenv file_text path name s = Ok d s' -> dist_clean d.
Proof.
  unfold read_dist. intros H. apply bind_inv in H as (p & s1 & _ & H). apply bind_inv in H as (line & s2 & _ & H).
  destruct (file_text line) as [txt|]; [|done].
  destruct (read_lines (file_lines txt) name false dist_zero 0 0) as [target k r|target|w] eqn:E; [| |done].
  - destruct (negb (k =? count target)); [done|]. injection H as <- _.
    eapply read_lines_clean; [|right; exists k, r; exact E]. constructor.
  - injection H as <- _. eapply read_lines_clean; [|left; exact E]. constructor.
Qed.

(** What [load_dists] loads has no separators. *)
Lemma load_dists_clean getenv file_text s D s' : load_dists getenv file_text s = Ok D s' -> dists_clean D.
Proof.
  unfold load_dists. intros H.
  do 22 (apply bind_inv in H as (? & ? & ?E & H); cbv beta in H).
  injection H as <- _. unfold dists_clean. cbn. 
  repeat (apply Forall_cons; split; [eapply read_dist_clean; eassumption|]). constructor.
Qed.

(** ** Rows that can be read back *)

Lemma clean_at d i m : dist_clean d -> dlist d !! i = Some m -> clean (text m).
Proof. unfold dist_clean. rewrite Forall_lookup. intros H Hm. exact (H i m Hm). Qed.

Lemma clean_member d x : dist_clean d -> member_text d x -> clean x.
Proof. intros H (i & m & Hm & ->). exact (clean_at d i m H Hm). Qed.

Lemma clean_join ws : Forall clean ws -> clean (join ws).
Proof.
  induction 1 as [|w ws Hw _ IH]; [reflexivity|]. destruct ws; [exact Hw|].
  change (clean (w +:+ " " +:+ join (s :: ws))). apply clean_app; [exact Hw|]. now apply (clean_app " ").
Qed.

Lemma read_num_fmt n : - 2 ^ 63 <= n < 2 ^ 63 -> read_num (fmt_d n) = Some n.
Proof. exact (scan_ld_fmt_d n). Qed.

Section Readable.
Context (D : dists) (HD : dists_clean D).

Lemma clean_of d : In d [nations D; regions D; c_mseg_set D; p_types_set D; p_cntr_set D; l_smode_set D;
    o_priority_set D; colors D] -> dist_clean d.
Proof. intros Hin. exact (proj1 (List.Forall_forall _ _) HD d Hin). Qed.

Lemma clean_place nation region city phone :
  place_ok D nation region city phone -> clean nation /\ clean region /\ clean city /\ clean phone.
Proof.
  intros (i & m & r & Hm & Hr & -> & -> & [_ (k & _ & ->)] & [_ (a & e & n & _ & _ & _ & ->)]).
  assert (Hn : clean (text m)) by (eapply clean_at; [|exact Hm]; apply clean_of; cbn; tauto).
  split_and!; [exact Hn| | |].
  - eapply clean_at; [|exact Hr]. apply clean_of. cbn. tauto.
  - apply clean_app; auto with clean.
  - repeat apply clean_app; auto with clean.
Qed.

(** The fields of a record, one by one. *)
Ltac clean_fields := repeat (apply Forall_cons; split); try apply Forall_nil_2; auto with clean.

Lemma customer_readable n c : 0 <= n < 2 ^ 63 -> customer_ok D n c -> readable c.
Proof.
  intros Hn [Hk [_ [Hlen Ha]] Hname Hp Hm]. destruct c as [key nm addr alen city nation region phone seg].
  cbn [c_custkey c_address c_alen c_name c_nation_name c_region_name c_city c_phone c_mktsegment] in *. subst key nm alen.
  destruct (clean_place _ _ _ _ Hp) as (P1 & P2 & P3 & P4). split.
  - cbn [row_fields cust_flat cust_fields]. 
    assert (clean seg) by (eapply clean_member; [|exact Hm]; apply clean_of; cbn; tauto).
    assert (clean ("Customer#" +:+ fmt_0d 9 (wrap_s 32 n))) by (apply clean_app; auto with clean).
    clean_fields.
  - cbn [row_fields read_row cust_flat cust_fields c_custkey c_name c_address c_city c_nation_name c_region_name c_phone c_mktsegment].
    rewrite read_num_fmt by lia. reflexivity.
Qed.

Lemma supplier_readable n c : 0 <= n < 2 ^ 63 -> supplier_ok D n c -> readable c.
Proof.
  intros Hn [Hk [_ [Hlen Ha]] Hname Hp]. destruct c as [key nm addr alen city nation region phone].
  cbn [s_suppkey s_address s_alen s_name s_nation_name s_region_name s_city s_phone] in *. subst key nm alen.
  destruct (clean_place _ _ _ _ Hp) as (P1 & P2 & P3 & P4). split.
  - cbn [row_fields supp_flat supp_fields].
    assert (clean ("Supplier#" +:+ fmt_0d 9 n)) by (apply clean_app; auto with clean).
    clean_fields.
  - cbn [row_fields read_row supp_flat supp_fields s_suppkey s_name s_address s_city s_nation_name s_region_name s_phone].
    rewrite read_num_fmt by lia. reflexivity.
Qed.

Lemma part_readable n p : 0 <= n < 2 ^ 63 -> part_ok D n p -> readable p.
Proof.
  intros Hn [Hk (ks & ms & _ & _ & Hms & Hcol) Hcl (m & cat & b & _ & _ & _ & Em & Ec & Eb) [Ht Htl] Hsz Hct].
  destruct p as [key nm mfgr cg br color clen ty tlen sz ct].
  cbn [p_partkey p_name p_mfgr p_category p_brand p_color p_clen p_type p_tlen p_size p_container] in *.
  subst key clen tlen.
  assert (Hj : clean (color +:+ " " +:+ nm)).
  { rewrite Hcol. apply clean_join, Forall_map. apply Forall_lookup. intros i x Hx.
    pose proof (Forall2_lookup_r _ _ _ _ _ Hms Hx) as (k & _ & _ & Hk).
    eapply clean_at; [|exact Hk]. apply clean_of. cbn. tauto. }
  apply clean_app_inv in Hj as [C1 C2]. apply clean_app_inv in C2 as [_ C2].
  assert (clean mfgr) by (rewrite Em; apply clean_app; auto with clean).
  assert (clean cg) by (rewrite Ec; apply clean_app; auto with clean).
  assert (clean br) by (rewrite Eb; apply clean_app; auto with clean).
  assert (clean ty) by (eapply clean_member; [|exact Ht]; apply clean_of; cbn; tauto).
  assert (clean ct) by (eapply clean_member; [|exact Hct]; apply clean_of; cbn; tauto).
  split.
  - cbn [row_fields part_flat part_fields]. clean_fields.
  - cbn [row_fields read_row part_flat part_fields p_partkey p_name p_mfgr p_category p_brand p_color p_type p_size p_container].
    rewrite !read_num_fmt by lia. reflexivity.
Qed.

(** A line of an order whose key has one word. *)
Lemma line_readable s okey custkey tmp_date odate prio k l :
  scale_ok s -> clean odate -> clean prio -> snd okey = 0 -> 0 <= fst okey < 2 ^ 63 -> 0 <= custkey < 2 ^ 50 ->
  0 <= k <= 7 -> 0 <= l_order_totalprice l < 2 ^ 63 ->
  line_ok D s okey custkey tmp_date odate prio k l -> readable l.
Proof.
  intros (_ & _ & Hs & Hp) Co Cp Hk0 Hk1 Hck Hk Htot
    [(E1 & E2 & E3) Hpk Hsk (Hq & Hdi & Htx) (E4 & E5 & E6) (E7 & E8 & E9) (c & _ & E10) Hmode].
  pose proof (rpb_bounds (l_partkey l) ltac:(lia)) as Hrpb.
  assert (Cm : clean (l_shipmode l)) by (eapply clean_member; [|exact Hmode]; apply clean_of; cbn; tauto).
  assert (Cc : clean (l_commit_date l)) by (rewrite E10; apply clean_fmt_d).
  assert (Cpr : clean (l_opriority l)) by (rewrite E5; now apply clean_take).
  assert (Hext : 0 <= l_extended_price l < 2 ^ 50) by (rewrite E7; nia).
  assert (Hrev : 0 <= l_revenue l < 2 ^ 63) by (rewrite E8; split; [apply Z.div_pos; nia|apply Z.div_lt_upper_bound; nia]).
  assert (Hcost : 0 <= l_supp_cost l < 2 ^ 63) by (rewrite E9; split; [apply Z.div_pos; lia|apply Z.div_lt_upper_bound; lia]).
  destruct l as [lok ln lck lpk lsk od op sp qty ext tot disc rev cost tax cd mode].
  cbn [l_okey l_linenumber l_custkey l_partkey l_suppkey l_orderdate l_opriority l_ship_priority l_quantity
    l_extended_price l_order_totalprice l_discount l_revenue l_supp_cost l_tax l_commit_date l_shipmode] in *.
  subst lok ln lck od sp. destruct okey as [ok0 ok1]. cbn [fst snd] in Hk0, Hk1. subst ok1.
  assert (Eh : huge_text (ok0, 0) = fmt_d ok0) by reflexivity.
  split.
  - change (Forall clean (line_fields (mk_lineorder (ok0, 0) (k + 1) custkey lpk lsk odate op 0 qty ext tot disc rev
      cost tax cd mode))). unfold line_fields. cbn [l_okey]. rewrite Eh. clean_fields.
  - change (read_row (line_fields (mk_lineorder (ok0, 0) (k + 1) custkey lpk lsk odate op 0 qty ext tot disc rev
      cost tax cd mode)) = Some (mk_lineorder (ok0, 0) (k + 1) custkey lpk lsk odate op 0 qty ext tot disc rev
      cost tax cd mode)).
    unfold line_fields. cbn [l_okey]. rewrite Eh. cbn [read_row line_flat l_okey l_linenumber l_custkey l_partkey l_suppkey
      l_orderdate l_opriority l_ship_priority l_quantity l_extended_price l_order_totalprice l_discount l_revenue
      l_supp_cost l_tax l_commit_date l_shipmode]. rewrite !read_num_fmt by lia. reflexivity.
Qed.
End Readable.

(** ** Rows of the date dimension *)

Lemma sum_months y l : 0 <= fold_right Z.add 0 (map (fun k => month_length y (Z.of_nat k)) l) <= 31 * Z.of_nat (length l).
Proof.
  induction l as [|k l IH]; cbn [map fold_right length]; [lia|].
  pose proof (month_length_range y (Z.of_nat k)). lia.
Qed.

Lemma day_of_year_bounds y m day : 1 <= m <= 12 -> 1 <= day <= 31 -> 1 <= day_of_year (y, m, day) <= 372.
Proof.
  intros Hm Hd. unfold day_of_year. pose proof (sum_months y (seq 1 (Z.to_nat (m - 1)))) as H.
  rewrite length_seq in H. lia.
Qed.

Lemma clean_lookup l i s : forallb (all_chars clean_char) l = true -> l !! i = Some s -> clean s.
Proof.
  intros Hl Hi. rewrite forallb_forall in Hl. apply Hl, list_elem_of_In, list_elem_of_lookup. now exists i.
Qed.

Lemma clean_season month day : clean (gen_season month day).
Proof.
  unfold gen_season. destruct (List.find _ _) as [x|] eqn:E; [|reflexivity]. apply find_some in E as [Hin _].
  cbn in Hin. repeat (destruct Hin as [<-|Hin]; [reflexivity|]). destruct Hin.
Qed.

Lemma clean_flag (b : bool) x y : clean x -> clean y -> clean (if b then x else y).
Proof. now destruct b. Qed.
#[export] Hint Resolve clean_season clean_flag : clean.

Lemma date_row_readable utcoff i r :
  zone_ok utcoff -> 1 <= i <= 2922 -> mk_date utcoff i = Some r -> readable r.
Proof.
  intros Hz Hi. unfold mk_date. cbv zeta. rewrite localtime_tm by assumption.
  set (n := Z.to_nat (i - 1)). pose proof (nth_date_valid n) as Hv. pose proof (nth_date_years n ltac:(lia)) as Hy.
  destruct (nth_date n) as [[y m] day]. cbn [valid_date date_year fst snd] in Hv, Hy. destruct Hv as [Hm Hday].
  pose proof (month_length_range y m) as Hml. pose proof (day_of_year_bounds y m day Hm ltac:(lia)) as Hdoy.
  cbn [tm_of tm_year tm_mon tm_mday tm_wday tm_yday]. set (doy := day_of_year (y, m, day)) in *. clearbody doy.
  set (w := ((Z.of_nat n + 3) mod 7 + 1) %c 7 + 1). assert (Hw : 1 <= w <= 7) by (unfold w; rewrite rem_mod by zdiv; zdiv).
  destruct (weekday_names !! _) as [wn|] eqn:Ew; [|done]. destruct (month_names !! _) as [mn|] eqn:Em; [|done].
  pose proof (clean_lookup weekday_names _ _ eq_refl Ew) as Cw. pose proof (clean_lookup month_names _ _ eq_refl Em) as Cm.
  cbn [mbind option_bind]. destruct (is_last_day_in_month _ _ _) as [last|]; [|done]. cbn [mbind option_bind].
  intros [= <-]. assert (Hwk : 0 <= (doy - 1 + 1) /c 7 <= 372) by (rewrite quot_div by lia; zdiv).
  assert (Cm' : clean (strncpy_s mn (D_MONTH_LEN + 1))) by now apply clean_take.
  split; unfold row_fields, read_row, date_flat, date_fields; cbn [datekey date dayofweek d_month year yearmonthnum yearmonth
    daynuminweek daynuminmonth daynuminyear monthnuminyear weeknuminyear sellingseason lastdayinweekfl
    lastdayinmonthfl holidayfl weekdayfl].
  - repeat (apply Forall_cons; split); try apply Forall_nil_2; try apply clean_fmt_d; try now apply clean_take.
    all: unfold gen_holiday_fl; repeat apply clean_app; auto 7 with clean.
  - rewrite !read_num_fmt by lia. reflexivity.
Qed.

(** ** Files *)

(** Rows for the texts of a list. *)
Lemma rows_choice {A} (P : Z -> A -> Prop) (text : A -> string) L : forall start,
  (forall k x, L !! k = Some x -> exists a, P (start + Z.of_nat k) a /\ x = text a) ->
  exists La, L = map text La /\ length La = length L /\ forall k a, La !! k = Some a -> P (start + Z.of_nat k) a.
Proof.
  induction L as [|x L IH]; intros start H.
  - exists []. split_and!; [reflexivity|reflexivity|]. intros k a. now rewrite lookup_nil.
  - destruct (H 0%nat x eq_refl) as (a & Ha & ->). destruct (IH (start + 1)) as (La & -> & Hlen & HP).
    { intros k y Hy. destruct (H (S k) y Hy) as (b & Hb & ->). exists b. split; [|reflexivity].
      now replace (start + 1 + Z.of_nat k) with (start + Z.of_nat (S k)) by lia. }
    exists (a :: La). split_and!; [reflexivity|cbn; now rewrite Hlen|]. intros [|k] b Hb; cbn in Hb.
    + injection Hb as <-. exact Ha.
    + replace (start + Z.of_nat (S k)) with (start + 1 + Z.of_nat k) by lia. now apply HP.
Qed.

Lemma texts_concat {A} (text : A -> string) Ls : texts (texts text) Ls = texts text (concat Ls).
Proof.
  induction Ls as [|L Ls IH]; [reflexivity|]. cbn [texts concat]. rewrite IH.
  induction L as [|a L IHL]; [reflexivity|]. cbn [texts app]. now rewrite app_assoc_s, IHL.
Qed.

Lemma texts_ext {A B} (f : A -> string) (g : B -> string) (h : A -> B) L :
  (forall a, f a = g (h a)) -> texts f L = texts g (map h L).
Proof. intros E. induction L as [|a L IH]; [reflexivity|]. cbn [texts map]. now rewrite E, IH. Qed.

Section Loads.
Context (Os : os) (utcoff : Z -> Z) (D : dists) (s1 : st).

(** The text loads as [n] rows of table [t] from row [start], each what its builder
    promises; the lines of the orders follow one another. *)
Definition table_loads (t start : Z) (n : nat) (bytes : string) : Prop :=
  if t =? PART then exists L, load bytes = Some L /\ length L = n /\
    forall k p, L !! k = Some p -> part_ok D (start + Z.of_nat k) p
  else if t =? SUPP then exists L, load bytes = Some L /\ length L = n /\
    forall k c, L !! k = Some c -> supplier_ok D (start + Z.of_nat k) c
  else if t =? CUST then exists L, load bytes = Some L /\ length L = n /\
    forall k c, L !! k = Some c -> customer_ok D (start + Z.of_nat k) c
  else if t =? DATE then exists L, load bytes = Some L /\ length L = n /\
    forall k d, L !! k = Some d -> mk_date utcoff (start + Z.of_nat k) = Some d
  else exists L, load bytes = Some (concat (map o_lineorders L)) /\ length L = n /\
    forall k o, L !! k = Some o -> order_ok D s1 (start + Z.of_nat k) 0 o.

Context (HD : dists_clean D) (Hsc : scale_ok s1) (Hlow : glob s1 G.scale < MAX_32B_SCALE) (Hzone : zone_ok utcoff).

(** The lines of an order. *)
Lemma order_readable i o : 0 <= i < 2 ^ 50 -> order_ok D s1 i 0 o -> Forall readable (o_lineorders o).
Proof.
  intros Hi [H1 [H2 _] [H3 H4] H5 (dt & _ & H7 & H8) [H9 H10]]. apply Forall_lookup. intros k l Hl.
  destruct (H8 k l Hl) as [Hline Htot]. pose proof (lookup_lt_Some _ _ _ Hl) as Hk.
  assert (Ekey : o_okey o = (32 * (i / 8) + 8 * order_seq s1 0 + i mod 8, 0)).
  { rewrite H1. unfold mk_sparse. destruct (Z.ltb_spec (glob s1 G.scale) MAX_32B_SCALE); [|lia]. apply ez_sparse_arith. }
  change (order_seq s1 0) with 0 in Ekey.
  apply (line_readable D HD s1 (o_okey o) (o_custkey o) dt (o_odate o) (o_opriority o) (Z.of_nat k)); try assumption.
  - rewrite H7. apply clean_fmt_d.
  - eapply clean_member; [|exact H5]. apply (clean_of D HD). cbn. tauto.
  - now rewrite Ekey.
  - rewrite Ekey. cbn [fst]. zdiv.
  - destruct Hsc as (_ & Hc & _ & _). lia.
  - lia.
  - rewrite Htot. lia.
Qed.

Lemma load_table {A} `{Flat A} (P : Z -> A -> Prop) (text : A -> string) L start :
  (forall a, text a = row_text (row_fields a)) ->
  (forall k x, L !! k = Some x -> exists a, P (start + Z.of_nat k) a /\ x = text a) ->
  (forall k a, (k < length L)%nat -> P (start + Z.of_nat k) a -> readable a) ->
  exists La, load (texts id L) = Some La /\ length La = length L /\ forall k a, La !! k = Some a -> P (start + Z.of_nat k) a.
Proof.
  intros Ht HL HP. destruct (rows_choice P text L start HL) as (La & -> & Hlen & Ha). exists La.
  split; [|now split]. rewrite texts_map, (texts_ext text (fun a => row_text (row_fields a)) id), map_id by exact Ht.
  apply load_rows, Forall_lookup. intros k a Hk. apply (HP k); [|now apply Ha].
  rewrite <- Hlen. now apply lookup_lt_Some in Hk.
Qed.

Lemma rows_file_loads t nm start n f :
  In t ssb_tables -> 1 <= start -> start + Z.of_nat n <= 2 ^ 50 -> (t = DATE -> start + Z.of_nat n <= 2923) ->
  rows_file Os utcoff D s1 t nm start n f -> table_loads t start n (bytes f).
Proof.
  intros Hin Hs Hn Hdate (L & -> & Hlen & HL). cbn [opened bytes]. unfold row_fact in HL. unfold table_loads.
  each_table Hin; cbv [PART SUPP CUST DATE LINE Z.eqb Pos.eqb] in *; rewrite <- Hlen in *.
  - apply (load_table _ part_text); [reflexivity|exact HL|].
    intros k a Hk Ha. apply (part_readable D HD (start + Z.of_nat k)); [lia|exact Ha].
  - apply (load_table _ supp_text); [reflexivity|exact HL|].
    intros k a Hk Ha. apply (supplier_readable D HD (start + Z.of_nat k)); [lia|exact Ha].
  - apply (load_table _ cust_text); [reflexivity|exact HL|].
    intros k a Hk Ha. apply (customer_readable D HD (start + Z.of_nat k)); [lia|exact Ha].
  - apply (load_table (fun i d => mk_date utcoff i = Some d) date_text); [reflexivity|exact HL|].
    intros k a Hk Ha. apply (date_row_readable utcoff (start + Z.of_nat k)); [exact Hzone| |exact Ha].
    specialize (Hdate eq_refl). lia.
  - destruct (rows_choice (fun i o => order_ok D s1 i 0 o) order_text L start HL) as (O & -> & HlenO & HO).
    exists O. split; [|split; [exact HlenO|exact HO]].
    rewrite texts_map, (texts_ext order_text (texts (fun l => row_text (row_fields l))) o_lineorders), texts_concat by reflexivity.
    apply load_rows, Forall_concat, Forall_map, Forall_lookup. intros k o Hk.
    apply (order_readable (start + Z.of_nat k)); [|now apply HO]. apply lookup_lt_Some in Hk. lia.
Qed.
End Loads.

Lemma serial_rows_below D s t :
  run_ok s -> glob s G.scale < MAX_32B_SCALE -> In t ssb_tables -> serial_rows (with_counts D s) t < 2 ^ 49.
Proof.
  intros Hok Hlow Hin. assert (Hd0 : exists d0, tdefs_main !! Z.to_nat t = Some d0 /\ base d0 <= 1500000).
  { clear - Hin. each_table Hin; eexists; (split; [reflexivity|]); vm_compute; discriminate. }
  destruct Hd0 as (d0 & Hd0 & Hb0). destruct (with_counts_ssb D s t d0 Hok Hin Hd0) as (d & _ & [_ Hb] & Eb & Eb').
  pose proof (ssb_base s t Hok Hin) as Hpos. rewrite Eb' in Hpos. pose proof (ro_scale _ Hok). unfold MAX_32B_SCALE in Hlow.
  pose proof (Z.log2_nonneg (glob s G.scale)). pose proof (Z.log2_lt_lin (glob s G.scale) ltac:(lia)).
  unfold serial_rows. rewrite Eb. change (glob (with_counts D s) G.scale) with (glob s G.scale).
  repeat destruct (_ =? _); [nia|lia|]. destruct (_ <? _); nia.
Qed.

(** ** Properties *)

(** A file that held no more than was written to it. *)
Lemma disk_whole f : strlen (old f) <= strlen (bytes f) -> disk f = bytes f.
Proof. intros H. unfold disk. now rewrite drop_s_past, app_nil_r_s by exact H. Qed.

(** A longer one keeps its end. *)
Example disk_tail : disk (mk_file "./date.tbl" "1|" "23|4|") = "1||4|".
Proof. reflexivity. Qed.

(** C4. The flat files of a serial run can be loaded: below scale 1000, a reader that splits
    lines at newlines and fields at separators, and reads numbers as [scanf] does, gets back
    from each file on the disk the rows the program built, all of their columns, as many as
    the scale gives the table and in the order of their numbers, provided that no longer file
    was there before the run: files are opened without truncating them, so that an older file
    keeps what it has beyond the text written. No column holds a separator, since [read_dist]
    cuts the texts of the distributions at them. *)
Theorem serial_files_load Os utcoff spawn_ok nk rk opts D s :
  (main_init;; process_options opts) st_start = Ok tt s ->
  load_dists (getenv Os) (file_text Os) s = Ok D s -> dists_ok D -> 0 <= count (regions D) ->
  serial_run Os s -> zone_ok utcoff -> glob s G.scale < MAX_32B_SCALE ->
  exists s', main Os utcoff spawn_ok nk rk opts st_start = Ok [] s' /\
    Forall2 (fun t f => old f = old_text Os (path f) /\
        (strlen (old_text Os (path f)) <= strlen (bytes f) ->
         table_loads utcoff D (with_counts D s) t 1 (Z.to_nat (serial_rows (with_counts D s) t)) (disk f)))
      (List.filter (selected s) ssb_tables) (files s').
Proof.
  intros Hopts Hload HD Hreg Hser Hzone Hlow. pose proof (options_run_ok _ _ Hopts) as Hok.
  destruct (serial_main Os utcoff spawn_ok nk rk opts D s Hopts Hload HD Hreg Hser Hzone) as (s' & E & _ & HF).
  destruct (with_counts_scale D s Hok (sr_scale _ _ Hser)) as [Hsc Hdate].
  exists s'. split; [exact E|]. apply Forall2_same_length_lookup. split; [now apply Forall2_length in HF|].
  intros i t f Ht Hf. pose proof (Forall2_lookup_lr _ _ _ _ _ _ HF Ht Hf) as (d & nm & _ & _ & Hrf).
  assert (Hin : In t ssb_tables).
  { apply list_elem_of_lookup_2 in Ht. rewrite list_elem_of_In, List.filter_In in Ht. apply Ht. }
  pose proof (ssb_rows D s t Hok Hin) as Hpos.
  assert (Eo : old f = old_text Os (path f)) by (destruct Hrf as (L & -> & _); reflexivity).
  split; [exact Eo|]. rewrite <- Eo. intros Hold. rewrite disk_whole by exact Hold.
  apply (rows_file_loads Os utcoff D (with_counts D s) (load_dists_clean _ _ _ _ _ Hload) Hsc Hlow Hzone t nm 1);
    [exact Hin|lia| |intros ->; lia|exact Hrf].
  pose proof (serial_rows_below D s t Hok Hlow Hin). lia.
Qed.

Lemma serial_files_load_witness :
  exists s', main fresh_os (fun _ => 0) (fun _ _ => true) 0 0 opts_all st_start = Ok [] s' /\
    Forall2 (fun t f => old f = old_text fresh_os (path f) /\
        (strlen (old_text fresh_os (path f)) <= strlen (bytes f) ->
         table_loads (fun _ => 0) shipped (with_counts shipped opts_state) t 1
           (Z.to_nat (serial_rows (with_counts shipped opts_state) t)) (disk f)))
      (List.filter (selected opts_state) ssb_tables) (files s').
Proof.
  apply (serial_files_load fresh_os (fun _ => 0) (fun _ _ => true) 0 0 opts_all shipped opts_state).
  - apply end_state. vm_compute. reflexivity.
  - apply shipped_loaded. vm_compute. reflexivity.
  - apply shipped_ok.
  - vm_compute. discriminate.
  - apply opts_all_serial.
  - intros t. unfold clock0. lia.
  - vm_compute. reflexivity.
Defined.
