(* ===== verification/Text.v ===== *)
(** The pseudo-text of the comment columns: the verb phrases, noun phrases and sentences of
    text.c, written into C buffers, and the proof that the text is a cut of sentences the
    grammar of the distribution file derives. *)
From S2P Require Import Prelude CString Float64 Rng State Consts Streams Dist Build RowSpec Config Shipped.

(** ** Character buffers *)

(** [char buf[n]]: [n] characters, [None] until they are written. *)
Notation mem := (list (option ascii)).
Definition uninit (n : Z) : mem := repeat None (Z.to_nat n).
Definition NUL : ascii := ascii_of_nat 0.

(** [*(buf + off) = c;] *)
Definition store (off : Z) (c : ascii) (m : mem) : M mem :=
  if (0 <=? off) && (off <? Z.of_nat (length m)) then ret (<[Z.to_nat off := Some c]> m)
  else stop_with (Undefined "store outside the buffer").

(** [strcpy(buf + off, s)] *)
Fixpoint strcpy (off : Z) (s : string) (m : mem) : M mem :=
  match s with
  | EmptyString => store off NUL m
  | String c s => m <- store off c m;; strcpy (off + 1) s m
  end.

(** The string at an address: the characters up to the first NUL; [None] when an unwritten
    character or the end of the buffer comes first. *)
Fixpoint c_string (m : mem) : option string :=
  match m with
  | Some c :: m => if Ascii.eqb c NUL then Some "" else String c <$> c_string m
  | _ => None
  end.

(** [pick_str(d, sd, buf + off)] with [d] possibly [NULL], and [DIST_MEMBER(d, i)] for the
    index it returns. *)
Definition pick_str_to (d : option distribution) (sd off : Z) (m : mem) : M (mem * string) :=
  d <- must "pick_str(NULL)" d;;
  p <- pick_str d sd;;
  m <- strcpy off (snd p) m;;
  ret (m, snd p).

(** ** text.c *)

Definition MAX_GRAMMAR_LEN : Z := 12.
Definition MAX_SENT_LEN : Z := 256.

(** [pick_str(&d, sd, &syntax[0])]: a form. *)
Definition pick_syntax (d : distribution) (sd : Z) : M string :=
  p <- pick_str d sd;;
  if MAX_GRAMMAR_LEN <? strlen (snd p) then stop_with (Undefined "syntax") else ret (snd p).

Section Text.
Context (D : dists).

(** The loops of [txt_vp] and [txt_np] on what [strtok] returns: the buffer, the offset [dest]
    in it and [res]. They differ in the parts of speech [src], and in the place of a
    punctuation mark: [txt_vp] advances [dest] before it stores it ([gap] 1), so that the
    blank overwrites it, [txt_np] after ([gap] 0). *)
Fixpoint phrase_loop (src : ascii -> option distribution) (gap : Z) (fuel : nat)
    (parse_target : string) (m : mem) (dest res sd : Z) : M (mem * Z) :=
  match fuel with
  | O => stop_with (Undefined "fuel")
  | S fuel =>
      match strtok parse_target " " with
      | Some (String c cptr, rest) =>
          '(m, w) <- pick_str_to (src c) sd dest m;;
          let i := strlen w in
          let dest := dest + i in
          let res := res + i in
          '(m, dest, res) <- (match cptr with
                              | String c _ =>
                                  m <- store (dest + gap) c m;; ret (m, dest + 1, res + 1)
                              | EmptyString => ret (m, dest, res)
                              end);;
          m <- store dest " " m;;
          phrase_loop src gap fuel rest m (dest + 1) (res + 1) sd
      | _ => ret (m, res)
      end
  end.

(** [txt_vp] *)
Definition vp_src (c : ascii) : option distribution :=
  if Ascii.eqb c "D" then Some (adverbs D)
  else if Ascii.eqb c "V" then Some (verbs D)
  else if Ascii.eqb c "X" then Some (auxillaries D)
  else None.
Definition txt_vp (m : mem) (dest sd : Z) : M (mem * Z) :=
  syntax <- pick_syntax (vp D) sd;;
  phrase_loop vp_src 1 (S (String.length syntax)) syntax m dest 0 sd.

(** [txt_np] *)
Definition np_src (c : ascii) : option distribution :=
  if Ascii.eqb c "A" then Some (articles D)
  else if Ascii.eqb c "J" then Some (adjectives D)
  else if Ascii.eqb c "D" then Some (adverbs D)
  else if Ascii.eqb c "N" then Some (nouns D)
  else None.
Definition txt_np (m : mem) (dest sd : Z) : M (mem * Z) :=
  syntax <- pick_syntax (np D) sd;;
  phrase_loop np_src 0 (S (String.length syntax)) syntax m dest 0 sd.

(** The [switch] of [txt_sentence] on the next character: the buffer, [dest] and [len]
    after it. Other characters change nothing: [len] keeps its last value. *)
Definition sentence_part (c : ascii) (m : mem) (dest len sd : Z) : M (mem * Z * Z) :=
  if Ascii.eqb c "V" then '(m, len) <- txt_vp m dest sd;; ret (m, dest, len)
  else if Ascii.eqb c "N" then '(m, len) <- txt_np m dest sd;; ret (m, dest, len)
  else if Ascii.eqb c "P" then
    '(m, w) <- pick_str_to (Some (prepositions D)) sd dest m;;
    let len := strlen w in
    m <- strcpy (dest + len) " the " m;;
    let len := len + 5 in
    '(m, l) <- txt_np m (dest + len) sd;;
    ret (m, dest, len + l)
  else if Ascii.eqb c "T" then
    let dest := dest - 1 in
    '(m, w) <- pick_str_to (Some (terminators D)) sd dest m;;
    ret (m, dest, strlen w)
  else ret (m, dest, len).

(** From [next_token] to the [return]. *)
Fixpoint sentence_loop (fuel : nat) (cptr : string) (m : mem) (dest res len sd : Z) : M (mem * Z) :=
  match fuel with
  | O => stop_with (Undefined "fuel")
  | S fuel =>
      match skip_delims " " cptr with
      | EmptyString => m <- store dest NUL m;; ret (m, res - 1)
      | String c cptr =>
          '(m, dest, len) <- sentence_part c m dest len sd;;
          let dest := dest + len in
          let res := res + len in
          '(m, dest, res) <- (match cptr with
                              | String p _ =>
                                  if Ascii.eqb p " " then ret (m, dest, res)
                                  else m <- store (dest + 1) p m;; ret (m, dest + 1, res + 1)
                              | EmptyString => ret (m, dest, res)
                              end);;
          sentence_loop fuel cptr m dest res len sd
      end
  end.

Definition txt_sentence (m : mem) (dest sd : Z) : M (mem * Z) :=
  syntax <- pick_syntax (grammar D) sd;;
  sentence_loop (S (String.length syntax)) syntax m dest 0 0 sd.

(** The loop of [dbg_text]: the buffers [sentence] and [tgt], the offset in [tgt] and
    [wordlen]. *)
Fixpoint text_loop (fuel : nat) (len : Z) (sentence tgt : mem) (off wordlen sd : Z) : M (mem * Z * Z) :=
  if negb (wordlen <? len) then ret (tgt, off, wordlen)
  else match fuel with
  | O => stop_with (Undefined "fuel")
  | S fuel =>
      '(sentence, s_len) <- txt_sentence sentence 0 sd;;
      if s_len <? 0 then stop_with (Aborted "Bad sentence formation")
      else
        let needed := len - wordlen in
        if s_len + 1 <=? needed then
          s <- must "strcpy" (c_string sentence);;
          tgt <- strcpy off s tgt;;
          tgt <- store (off + s_len) " " tgt;;
          text_loop fuel len sentence tgt (off + s_len + 1) (wordlen + s_len + 1) sd
        else
          sentence <- store needed NUL sentence;;
          s <- must "strcpy" (c_string sentence);;
          tgt <- strcpy off s tgt;;
          text_loop fuel len sentence tgt (off + needed) (wordlen + needed) sd
  end.

(** [int dbg_text(char *tgt, int min, int max, int sd)] *)
Definition dbg_text (tgt : mem) (min max sd : Z) : M (mem * Z) :=
  length <- RANDOM min max sd;;
  '(tgt, off, wordlen) <- text_loop (Z.to_nat length) length (uninit (MAX_SENT_LEN + 1)) tgt 0 0 sd;;
  tgt <- store off NUL tgt;;
  ret (tgt, wordlen).

(** ** What the grammar derives *)

(** The tokens of a form. *)
Fixpoint tokens (fuel : nat) (s : string) : list string :=
  match fuel with
  | O => []
  | S fuel => match strtok s " " with Some (t, r) => t :: tokens fuel r | None => [] end
  end.
Definition form_tokens (f : string) : list string := tokens (S (String.length f)) f.

(** A word for each token, its punctuation mark, a blank. *)
Inductive words (src : ascii -> option distribution) : list string -> string -> Prop :=
  | words_nil : words src [] ""
  | words_cons c p ts d w x :
      src c = Some d -> In w (texts d) -> words src ts x ->
      words src (String c p :: ts) (w +:+ take_s 1 p +:+ " " +:+ x).
Definition phrase (src : ascii -> option distribution) (d : distribution) (x : string) : Prop :=
  exists f, In f (texts d) /\ words src (form_tokens f) x.

Inductive part : ascii -> string -> Prop :=
  | part_V x : phrase vp_src (vp D) x -> part "V" x
  | part_N x : phrase np_src (np D) x -> part "N" x
  | part_P w x : In w (texts (prepositions D)) -> phrase np_src (np D) x -> part "P" (w +:+ " the " +:+ x).
Inductive parts : list ascii -> string -> Prop :=
  | parts_nil : parts [] ""
  | parts_cons c cs x y : part c x -> parts cs y -> parts (c :: cs) (x +:+ y).

(** A sentence: its parts, the last blank replaced by a terminator. *)
Definition one (c : ascii) : string := String c "".
Definition sentence (x : string) : Prop :=
  exists f cs y t, In f (texts (grammar D)) /\ form_tokens f = map one cs ++ ["T"] /\
    parts cs (y +:+ " ") /\ In t (texts (terminators D)) /\ x = y +:+ t.

(** ** Grammars the code can use *)

Definition no_nul (s : string) : bool := all_chars (fun c => negb (Ascii.eqb c NUL)) s.
Definition texts_max (d : distribution) : Z := fold_right (fun t => Z.max (strlen t)) 0 (texts d).
Definition words_okb (d : distribution) : bool := dist_okb d && forallb no_nul (texts d).
Definition token_okb (src : ascii -> option distribution) (gap : Z) (t : string) : bool :=
  match t with
  | String c p => match src c with Some d => words_okb d | None => false end && ((gap =? 0) || String.eqb p "") && no_nul p
  | EmptyString => false
  end.
Definition forms_okb (src : ascii -> option distribution) (gap : Z) (d : distribution) : bool :=
  dist_okb d &&
  forallb (fun f => (strlen f <=? MAX_GRAMMAR_LEN) && negb (bool_decide (form_tokens f = [])) &&
                    forallb (token_okb src gap) (form_tokens f)) (texts d).

(** The longest words, phrases and sentences. *)
Definition token_max (src : ascii -> option distribution) (t : string) : Z :=
  match t with
  | String c _ => match src c with Some d => texts_max d | None => 0 end + strlen t
  | EmptyString => 0
  end.
Definition words_max (src : ascii -> option distribution) (ts : list string) : Z :=
  fold_right (fun t => Z.add (token_max src t)) 0 ts.
Definition phrase_max (src : ascii -> option distribution) (d : distribution) : Z :=
  fold_right (fun f => Z.max (words_max src (form_tokens f))) 0 (texts d).
Definition part_max (c : ascii) : option Z :=
  if Ascii.eqb c "V" then Some (phrase_max vp_src (vp D))
  else if Ascii.eqb c "N" then Some (phrase_max np_src (np D))
  else if Ascii.eqb c "P" then Some (texts_max (prepositions D) + 5 + phrase_max np_src (np D))
  else None.

(** The bound on the rest of a sentence of which some parts are written ([started]), [None]
    for a form that is not one or more of [V], [N] and [P], apart, and a [T]. *)
Fixpoint rest_max (started : bool) (ts : list string) : option Z :=
  match ts with
  | [] => None
  | t :: ts' =>
      match ts' with
      | [] => if String.eqb t "T" && started then Some (texts_max (terminators D)) else None
      | _ =>
          match t with
          | String c EmptyString =>
              match part_max c, rest_max true ts' with Some a, Some b => Some (a + b) | _, _ => None end
          | _ => None
          end
      end
  end.
Definition sentence_okb (f : string) : bool :=
  (strlen f <=? MAX_GRAMMAR_LEN) &&
  match rest_max false (form_tokens f) with Some n => n <=? MAX_SENT_LEN | None => false end.

Definition grammar_okb : bool :=
  forms_okb vp_src 1 (vp D) && forms_okb np_src 0 (np D) && words_okb (prepositions D) &&
  words_okb (terminators D) && dist_okb (grammar D) && forallb sentence_okb (texts (grammar D)).

(** The most numbers a phrase, the parts of a form and a sentence draw. *)
Definition phrase_draws (d : distribution) : nat :=
  S (max_list (map (fun f => length (form_tokens f)) (texts d))).
Definition part_draws (c : ascii) : nat :=
  if Ascii.eqb c "V" then phrase_draws (vp D)
  else if Ascii.eqb c "N" then phrase_draws (np D)
  else if Ascii.eqb c "P" then S (phrase_draws (np D)) else 1%nat.
Definition rest_draws (ts : list string) : nat :=
  fold_right (fun t => Nat.add (match t with String c _ => part_draws c | EmptyString => 0 end)) 0%nat ts.
Definition sentence_draws : nat :=
  S (max_list (map (fun f => rest_draws (form_tokens f)) (texts (grammar D)))).

(** The shortest phrases and sentences. *)
Fixpoint least (l : list Z) : Z :=
  match l with [] => 0 | [x] => x | x :: l => Z.min x (least l) end.
Definition texts_min (d : distribution) : Z := least (map strlen (texts d)).
Definition words_min (src : ascii -> option distribution) (ts : list string) : Z :=
  fold_right (fun t => Z.add (match t with
    | String c _ => match src c with Some d => texts_min d + 1 | None => 0 end
    | EmptyString => 0 end)) 0 ts.
Definition phrase_min (src : ascii -> option distribution) (d : distribution) : Z :=
  least (map (fun f => words_min src (form_tokens f)) (texts d)).
Definition part_min (c : ascii) : Z :=
  if Ascii.eqb c "V" then phrase_min vp_src (vp D)
  else if Ascii.eqb c "N" then phrase_min np_src (np D)
  else if Ascii.eqb c "P" then texts_min (prepositions D) + 5 + phrase_min np_src (np D) else 0.
Definition rest_min (ts : list string) : Z :=
  fold_right (fun t => Z.add (match t with String c _ => part_min c | EmptyString => 0 end)) 0 ts.
Definition sentence_min : Z :=
  Z.max 0 (least (map (fun f => rest_min (form_tokens f) - 1 + texts_min (terminators D)) (texts (grammar D)))).

(** The sentences, each with a blank, that start before [len] characters are written. *)
Definition sentences_in (len : Z) : nat := Z.to_nat ((len + sentence_min) / (sentence_min + 1)).
End Text.

Example shipped_grammar : grammar_okb shipped = true.
Proof. vm_compute. reflexivity. Qed.

(** ** Cuts of a string *)

Lemma strlen_cons c s : strlen (String c s) = 1 + strlen s.
Proof. unfold strlen. cbn [String.length]. lia. Qed.

Lemma strlen_nil : strlen "" = 0.
Proof. reflexivity. Qed.

Lemma substring_split n : forall x, (n <= String.length x)%nat ->
  String.length (String.substring 0 n x) = n /\ exists z, x = String.substring 0 n x +:+ z.
Proof.
  induction n as [|n IH]; intros x Hn; [destruct x; (split; [reflexivity|eexists; reflexivity])|].
  destruct x as [|c x]; cbn in Hn; [lia|]. destruct (IH x ltac:(lia)) as (H1 & z & H2). cbn [String.substring].
  split; [cbn; now rewrite H1|]. exists z. rewrite app_cons_s. now rewrite <- H2.
Qed.

Lemma take_split k x : 0 <= k <= strlen x -> strlen (take_s k x) = k /\ exists z, x = take_s k x +:+ z.
Proof.
  unfold strlen, take_s. intros Hk. destruct (substring_split (Z.to_nat k) x ltac:(lia)) as (H1 & H2).
  split; [lia|exact H2].
Qed.

Lemma take_s_all a : take_s (strlen a) a = a.
Proof. rewrite <- (app_nil_r_s a) at 2. apply take_s_app. Qed.

Lemma take_s_over a b k : strlen a <= k -> take_s k (a +:+ b) = a +:+ take_s (k - strlen a) b.
Proof.
  revert k. induction a as [|c a IH]; intros k Hk.
  - change (strlen "") with 0. now rewrite Z.sub_0_r, !app_nil_s.
  - rewrite strlen_cons in *. pose proof (strlen_nonneg a). rewrite !app_cons_s.
    replace k with (k - 1 + 1) at 1 by lia. rewrite take_S_cons, IH by lia. do 2 f_equal. f_equal. lia.
Qed.

Lemma take_app_le k a b : 0 <= k <= strlen a -> take_s k (a +:+ b) = take_s k a.
Proof.
  intros Hk. destruct (take_split k a Hk) as (H1 & z & H2). rewrite H2 at 1. rewrite <- H1 at 1.
  rewrite app_assoc_s. apply take_s_app.
Qed.

(** ** Buffers *)

(** The buffer starts with [pre] and has [n] characters. *)
Definition starts_with (m : mem) (pre : string) (n : Z) : Prop :=
  exists rest, m = map Some (String.list_ascii_of_string pre) ++ rest /\ Z.of_nat (length m) = n.

Lemma length_chars s : length (String.list_ascii_of_string s) = String.length s.
Proof. induction s as [|c s IH]; cbn; [reflexivity|now rewrite IH]. Qed.

Lemma chars_app a b : String.list_ascii_of_string (a +:+ b) = String.list_ascii_of_string a ++ String.list_ascii_of_string b.
Proof. induction a as [|c a IH]; [reflexivity|]. rewrite app_cons_s. cbn. now rewrite IH. Qed.

Lemma strlen_one c : strlen (one c) = 1.
Proof. reflexivity. Qed.

Lemma starts_prefix m a b n : starts_with m (a +:+ b) n -> starts_with m a n.
Proof.
  intros (rest & -> & Hn). rewrite chars_app, map_app, <- app_assoc in *. eexists. split; [reflexivity|exact Hn].
Qed.

Lemma starts_uninit n : 0 <= n -> starts_with (uninit n) "" n.
Proof. intros Hn. exists (uninit n). split; [reflexivity|]. unfold uninit. rewrite repeat_length. lia. Qed.

Lemma wp_store m pre c n (Q : mem -> st -> Prop) s :
  starts_with m pre n -> strlen pre < n ->
  (forall m', starts_with m' (pre +:+ one c) n -> Q m' s) ->
  wp (store (strlen pre) c m) Q s.
Proof.
  intros (rest & -> & Hn) Hlt HQ. unfold store. rewrite Hn.
  pose proof (strlen_nonneg pre). destruct (Z.leb_spec 0 (strlen pre)); [|lia].
  destruct (Z.ltb_spec (strlen pre) n); [|lia]. apply wp_ret, HQ.
  rewrite length_app, length_map, length_chars in Hn. unfold strlen in *.
  destruct rest as [|b rest]; [cbn in Hn; lia|]. exists rest.
  rewrite Nat2Z.id, insert_app_r_alt by (rewrite length_map, length_chars; lia).
  rewrite length_map, length_chars, Nat.sub_diag. cbn [insert list_insert].
  rewrite chars_app, map_app, <- app_assoc. split; [reflexivity|].
  rewrite !length_app, !length_map, !length_chars. cbn in *. lia.
Qed.

Lemma wp_strcpy w : forall m pre n (Q : mem -> st -> Prop) s,
  starts_with m pre n -> strlen pre + strlen w < n ->
  (forall m', starts_with m' (pre +:+ w +:+ one NUL) n -> Q m' s) ->
  wp (strcpy (strlen pre) w m) Q s.
Proof.
  induction w as [|c w IH]; intros m pre n Q s Hm Hlt HQ; cbn [strcpy].
  - apply (wp_store _ _ _ n); [exact Hm|change (strlen EmptyString) with 0 in Hlt; lia|exact HQ].
  - rewrite strlen_cons in Hlt. pose proof (strlen_nonneg w).
    apply wp_bind, (wp_store _ _ _ n); [exact Hm|lia|]. intros m1 Hm1.
    replace (strlen pre + 1) with (strlen (pre +:+ one c)) by (rewrite length_app_s; reflexivity).
    apply (IH _ _ n); [exact Hm1|rewrite length_app_s, strlen_one; lia|].
    intros m2 Hm2. apply HQ. rewrite app_assoc_s in Hm2. exact Hm2.
Qed.

Lemma c_string_starts x : forall m n, no_nul x = true -> starts_with m (x +:+ one NUL) n -> c_string m = Some x.
Proof.
  induction x as [|c x IH]; intros m n Hx (rest & -> & Hn); [reflexivity|].
  cbn in Hx. apply andb_true_iff in Hx as [Hc Hx].
  rewrite app_cons_s in *. cbn [String.list_ascii_of_string map app c_string].
  destruct (Ascii.eqb c NUL); [discriminate Hc|].
  rewrite (IH _ (n - 1) Hx); [reflexivity|]. eexists. split; [reflexivity|]. cbn in Hn. lia.
Qed.

(** ** Longest and shortest *)

Lemma max_list_in {A} (f : A -> nat) x l : In x l -> (f x <= max_list (map f l))%nat.
Proof. intros H. apply max_list_elem_of_le, list_elem_of_In, in_map, H. Qed.

Lemma least_in x l : In x l -> least l <= x.
Proof.
  induction l as [|y [|z l] IH]; [done| |]; cbn [In least].
  - intros [->|[]]. lia.
  - intros [->|H]; [lia|]. specialize (IH H). cbn [least] in IH. lia.
Qed.

Lemma least_ge b l : (forall x, In x l -> b <= x) -> l <> [] -> b <= least l.
Proof.
  induction l as [|y [|z l] IH]; [done| |]; intros H _; cbn [least].
  - apply H. now left.
  - pose proof (H y ltac:(now left)). enough (b <= least (z :: l)) by (cbn [least] in *; lia).
    apply IH; [|done]. intros x Hx. apply H. now right.
Qed.

(** ** Runs that draw from one stream only *)

(** At most [n] numbers. *)
Definition ran (n : nat) (sd : Z) (s0 s : st) : Prop := exists k, (k <= n)%nat /\ drew (repeat sd k) s0 s.

Lemma ran_le n n' sd s0 s : (n <= n')%nat -> ran n sd s0 s -> ran n' sd s0 s.
Proof. intros Hn (k & Hk & Hd). exists k. split; [lia|exact Hd]. Qed.

Lemma wp_pick g d sd s0 (Q : Z * string -> st -> Prop) s :
  seeds_ok (Seed s0) -> ran g sd s0 s -> dist_ok d ->
  (forall k w s', In w (texts d) -> ran (S g) sd s0 s' -> Q (k, w) s') ->
  wp (pick_str d sd) Q s.
Proof.
  intros H0 (k & Hk & Hd) Hok HQ. eapply wp_pick_str; [exact H0|exact Hd|exact Hok|].
  intros i m j s' Hm _ _ _ Hd' _. apply HQ.
  - apply in_map. apply list_elem_of_In. eapply list_elem_of_lookup_2. exact Hm.
  - exists (k + 1)%nat. rewrite repeat_app. split; [lia|exact Hd'].
Qed.

(** ** Tokens *)

Lemma skip_len delims s : (String.length (skip_delims delims s) <= String.length s)%nat.
Proof. induction s as [|c s IH]; cbn; [lia|]. destruct (is_delim delims c); cbn; lia. Qed.

Lemma take_token_len delims s t r : s <> "" -> take_token delims s = (t, r) -> (String.length r < String.length s)%nat.
Proof.
  revert t r. induction s as [|c s IH]; intros t r Hs H; [done|]. cbn in H.
  destruct (is_delim delims c); [injection H as <- <-; cbn; lia|].
  destruct (take_token delims s) as [t' r'] eqn:E. injection H as <- <-.
  destruct (decide (s = "")) as [->|Hne]; [cbn in E; injection E as <- <-; cbn; lia|].
  specialize (IH t' r' Hne eq_refl). cbn. lia.
Qed.

Lemma skip_head delims s c r : skip_delims delims s = String c r -> is_delim delims c = false.
Proof.
  induction s as [|a s IH]; cbn; [discriminate|]. destruct (is_delim delims a) eqn:E; [exact IH|].
  intros H. injection H as -> ->. exact E.
Qed.

Lemma strtok_some s delims t r :
  strtok s delims = Some (t, r) -> (String.length r < String.length s)%nat /\ exists c p, t = String c p.
Proof.
  unfold strtok. pose proof (skip_len delims s) as Hl. destruct (skip_delims delims s) as [|c s'] eqn:E; [discriminate|].
  intros H. injection H as H. split.
  - pose proof (take_token_len delims (String c s') t r ltac:(discriminate) H). lia.
  - cbn [take_token] in H. rewrite (skip_head _ _ _ _ E) in H. destruct (take_token delims s') as [t' r'].
    injection H as <- <-. eauto.
Qed.

Lemma texts_max_in d w : In w (texts d) -> strlen w <= texts_max d.
Proof.
  unfold texts_max. induction (texts d) as [|t ts IH]; cbn; [done|]. intros [->|H]; [lia|]. specialize (IH H). lia.
Qed.

Lemma texts_max_nonneg d : 0 <= texts_max d.
Proof. unfold texts_max. induction (texts d) as [|t ts IH]; cbn; lia. Qed.

Lemma words_max_nonneg src ts : 0 <= words_max src ts.
Proof.
  induction ts as [|t ts IH]; [cbn; lia|]. change (words_max src (t :: ts)) with (token_max src t + words_max src ts).
  destruct t as [|c p]; cbn [token_max]; [lia|].
  pose proof (strlen_nonneg (String c p)). destruct (src c) as [d|]; [pose proof (texts_max_nonneg d)|]; lia.
Qed.

Lemma words_okb_spec d : words_okb d = true -> dist_ok d /\ forall w, In w (texts d) -> no_nul w = true.
Proof.
  unfold words_okb. rewrite andb_true_iff, forallb_forall. intros [H1 H2]. split; [now apply dist_okb_ok|exact H2].
Qed.

Lemma take_one c p : take_s 1 (String c p) = one c.
Proof. now destruct p. Qed.

(** ** Phrases *)

Section Phrase.
Context (sd n : Z) (s0 : st) (Hs0 : seeds_ok (Seed s0)).

Lemma wp_pick_to g d pre m (Q : mem * string -> st -> Prop) s :
  ran g sd s0 s -> dist_ok d -> starts_with m pre n -> strlen pre + texts_max d < n ->
  (forall w m' s', In w (texts d) -> starts_with m' (pre +:+ w +:+ one NUL) n -> ran (S g) sd s0 s' -> Q (m', w) s') ->
  wp (pick_str_to (Some d) sd (strlen pre) m) Q s.
Proof.
  intros Hr Hd Hm Hlt HQ. unfold pick_str_to. apply wp_bind, wp_ret, wp_bind.
  eapply wp_pick; [exact Hs0|exact Hr|exact Hd|]. intros k w s' Hw Hr'. cbn [snd].
  pose proof (texts_max_in d w Hw). apply wp_bind, (wp_strcpy w _ _ n); [exact Hm|lia|].
  intros m' Hm'. apply wp_ret. exact (HQ w m' s' Hw Hm' Hr').
Qed.

(** The punctuation mark after a word. *)
Lemma wp_punct gap p w pre m res s :
  starts_with m (pre +:+ w) n -> (gap =? 0) || String.eqb p "" = true -> strlen (pre +:+ w) + strlen p <= n - 1 ->
  wp (match p with
      | String c _ => m <- store (strlen (pre +:+ w) + gap) c m;; ret (m, strlen (pre +:+ w) + 1, res + strlen w + 1)
      | EmptyString => ret (m, strlen (pre +:+ w), res + strlen w)
      end)
    (fun r s' => s' = s /\ exists m', r = (m', strlen (pre +:+ w +:+ take_s 1 p), res + strlen (w +:+ take_s 1 p)) /\
       starts_with m' (pre +:+ w +:+ take_s 1 p) n) s.
Proof.
  intros Hm Hp Hlt. destruct p as [|c p].
  - apply wp_ret. split; [reflexivity|]. exists m. change (take_s 1 "") with "". rewrite app_nil_r_s.
    split; [reflexivity|exact Hm].
  - destruct (Z.eqb_spec gap 0) as [->|]; [|discriminate Hp]. rewrite Z.add_0_r.
    rewrite strlen_cons in Hlt. pose proof (strlen_nonneg p).
    apply wp_bind, (wp_store _ _ _ n); [exact Hm|lia|].
    intros m2 Hm2. apply wp_ret. split; [reflexivity|]. exists m2.
    rewrite take_one. rewrite <- app_assoc_s. split; [|exact Hm2].
    rewrite (length_app_s (pre +:+ w)), (length_app_s w (one c)), strlen_one. now rewrite (Z.add_assoc res).
Qed.

Lemma wp_phrase_loop src gap fuel : forall g parse m pre res (Q : mem * Z -> st -> Prop) s,
  ran g sd s0 s -> starts_with m pre n -> (String.length parse < fuel)%nat ->
  Forall (fun t => token_okb src gap t = true) (tokens fuel parse) ->
  strlen pre + words_max src (tokens fuel parse) < n ->
  (forall x m' s', words src (tokens fuel parse) x -> starts_with m' (pre +:+ x) n ->
     ran (g + length (tokens fuel parse)) sd s0 s' -> Q (m', res + strlen x) s') ->
  wp (phrase_loop src gap fuel parse m (strlen pre) res sd) Q s.
Proof.
  induction fuel as [|fuel IH]; intros g parse m pre res Q s Hr Hm Hf Hok Hmax HQ; [lia|].
  cbn [phrase_loop tokens] in *. destruct (strtok parse " ") as [[t rest]|] eqn:Et.
  2:{ apply wp_ret. rewrite <- (Z.add_0_r res). apply (HQ ""); [constructor|now rewrite app_nil_r_s|]. cbn [length]. now rewrite Nat.add_0_r. }
  apply strtok_some in Et as (Hrest & c & p & ->).
  apply Forall_cons in Hok as [Htok Hok]. cbn [words_max fold_right token_max token_okb] in *.
  fold (words_max src (tokens fuel rest)) in *. pose proof (words_max_nonneg src (tokens fuel rest)).
  destruct (src c) as [d|] eqn:Ed; [|discriminate Htok].
  apply andb_true_iff in Htok as [[Hd Hp]%andb_true_iff _]. apply words_okb_spec in Hd as [Hd _].
  rewrite strlen_cons in Hmax. pose proof (strlen_nonneg p).
  apply wp_bind. eapply wp_pick_to; [exact Hr|exact Hd|exact Hm|lia|]. intros w m1 s1 Hw Hm1 Hr1.
  pose proof (texts_max_in d w Hw). rewrite <- app_assoc_s in Hm1. apply starts_prefix in Hm1.
  rewrite <- length_app_s. apply wp_bind.
  eapply wp_mono; [apply (wp_punct gap p w pre m1 res); [exact Hm1|exact Hp|rewrite length_app_s; lia]|]. clear Hm1.
  intros [[m2 dest2] res2] s2 (-> & m' & E & Hm2).
  injection E as <- -> ->. set (y := w +:+ take_s 1 p) in *.
  assert (Hy : strlen y <= strlen w + strlen p).
  { subst y. rewrite length_app_s. destruct p as [|c0 p]; [change (take_s 1 "") with ""; change (strlen "") with 0; lia|].
    rewrite take_one. rewrite strlen_one, strlen_cons. pose proof (strlen_nonneg p). lia. }
  apply wp_bind, (wp_store _ _ _ n); [exact Hm2|rewrite length_app_s; lia|]. intros m3 Hm3.
  replace (strlen (pre +:+ y) + 1) with (strlen ((pre +:+ y) +:+ one " ")) by (rewrite (length_app_s (pre +:+ y)); reflexivity).
  eapply IH; [exact Hr1|exact Hm3|lia|exact Hok|rewrite !length_app_s, strlen_one; lia|].
  intros x m4 s4 Hx Hm4 Hr4. rewrite !app_assoc_s in Hm4.
  replace (res + strlen y + 1 + strlen x) with (res + strlen (w +:+ take_s 1 p +:+ " " +:+ x)).
  2:{ rewrite <- app_assoc_s. fold y. rewrite !length_app_s. change (strlen " ") with 1. lia. }
  apply HQ; [econstructor; eauto| |cbn [length]; now rewrite Nat.add_succ_r].
  rewrite <- (app_assoc_s w). exact Hm4.
Qed.

(** What is written by the words of a form. *)
Lemma words_len src ts x : words src ts x -> strlen x <= words_max src ts.
Proof.
  induction 1 as [|c p ts d w x Hc Hw _ IH]; [cbv; discriminate|].
  change (words_max src (String c p :: ts)) with (token_max src (String c p) + words_max src ts).
  cbn [token_max]. rewrite Hc, !length_app_s, (strlen_cons c p). pose proof (texts_max_in d w Hw). change (strlen " ") with 1.
  destruct p as [|c' p]; [change (take_s 1 "") with ""; rewrite !strlen_nil; lia|].
  rewrite take_one, strlen_one, strlen_cons. pose proof (strlen_nonneg p). lia.
Qed.

Lemma no_nul_app a b : no_nul (a +:+ b) = no_nul a && no_nul b.
Proof. apply all_chars_app. Qed.

Lemma words_no_nul src gap ts x :
  words src ts x -> Forall (fun t => token_okb src gap t = true) ts -> no_nul x = true.
Proof.
  induction 1 as [|c p ts d w x Hc Hw _ IH]; [reflexivity|]. intros [Ht Hts]%Forall_cons.
  cbn [token_okb] in Ht. rewrite Hc, !andb_true_iff in Ht. destruct Ht as [[Hd _] Hp].
  apply words_okb_spec in Hd as [_ Hd]. rewrite !no_nul_app, (Hd w Hw), (IH Hts).
  destruct p as [|c' p]; [reflexivity|]. cbn in Hp. apply andb_true_iff in Hp as [Hp _]. rewrite take_one. cbn.
  now rewrite Hp.
Qed.

Lemma words_blank src ts x : words src ts x -> ts <> [] -> exists y, x = y +:+ " ".
Proof.
  induction 1 as [|c p ts d w x Hc Hw Hx IH]; [done|]. intros _. destruct ts as [|t ts].
  - inversion Hx; subst. exists (w +:+ take_s 1 p). rewrite !app_assoc_s. reflexivity.
  - destruct (IH ltac:(discriminate)) as [y ->]. exists (w +:+ take_s 1 p +:+ " " +:+ y). now rewrite !app_assoc_s.
Qed.

Lemma wp_pick_syntax g d (Q : string -> st -> Prop) s :
  ran g sd s0 s -> dist_ok d -> (forall f, In f (texts d) -> strlen f <= MAX_GRAMMAR_LEN) ->
  (forall f s', In f (texts d) -> ran (S g) sd s0 s' -> Q f s') -> wp (pick_syntax d sd) Q s.
Proof.
  intros Hr Hd Hf HQ. unfold pick_syntax. apply wp_bind. eapply wp_pick; [exact Hs0|exact Hr|exact Hd|].
  intros k w s' Hw Hr'. cbn [snd]. specialize (Hf w Hw). destruct (Z.ltb_spec MAX_GRAMMAR_LEN (strlen w)); [lia|].
  apply wp_ret, HQ; assumption.
Qed.

Lemma phrase_max_in src d f : In f (texts d) -> words_max src (form_tokens f) <= phrase_max src d.
Proof.
  unfold phrase_max. induction (texts d) as [|t ts IH]; [done|]. cbn [fold_right In].
  intros [->|H]; [lia|]. specialize (IH H). lia.
Qed.

(** [txt_vp] and [txt_np]. *)
Lemma wp_phrase g src gap d m pre (Q : mem * Z -> st -> Prop) s :
  ran g sd s0 s -> forms_okb src gap d = true -> starts_with m pre n -> strlen pre + phrase_max src d < n ->
  (forall x y m' s', phrase src d x -> x = y +:+ " " -> no_nul x = true -> strlen x <= phrase_max src d ->
     starts_with m' (pre +:+ x) n -> ran (g + phrase_draws d) sd s0 s' -> Q (m', strlen x) s') ->
  wp (syntax <- pick_syntax d sd;; phrase_loop src gap (S (String.length syntax)) syntax m (strlen pre) 0 sd) Q s.
Proof.
  intros Hr Hd Hm Hlt HQ. unfold forms_okb in Hd. apply andb_true_iff in Hd as [Hd Hf].
  rewrite forallb_forall in Hf. apply dist_okb_ok in Hd.
  assert (Hform : forall f, In f (texts d) -> strlen f <= MAX_GRAMMAR_LEN /\ form_tokens f <> [] /\
    Forall (fun t => token_okb src gap t = true) (form_tokens f)).
  { intros f Hin. specialize (Hf f Hin). rewrite !andb_true_iff, Z.leb_le, negb_true_iff, bool_decide_eq_false, forallb_forall in Hf.
    destruct Hf as [[H1 H2] H3]. split_and!; [exact H1|exact H2|now apply List.Forall_forall]. }
  apply wp_bind. eapply wp_pick_syntax; [exact Hr|exact Hd|intros f Hin; now apply Hform|].
  intros f s1 Hin Hr1. destruct (Hform f Hin) as (_ & Hne & Hok). pose proof (phrase_max_in src d f Hin).
  eapply wp_phrase_loop; [exact Hr1|exact Hm|lia|exact Hok|unfold form_tokens in *; lia|].
  intros x m' s' Hx Hm' Hr'. destruct (words_blank _ _ _ Hx Hne) as [y Hy].
  pose proof (words_len _ _ _ Hx). rewrite Z.add_0_l. apply (HQ x y); try assumption.
  - exists f. split; assumption.
  - eapply words_no_nul; eassumption.
  - unfold form_tokens in *. lia.
  - eapply ran_le; [|exact Hr']. unfold phrase_draws. pose proof (max_list_in (fun f => length (form_tokens f)) _ _ Hin).
    unfold form_tokens in *. lia.
Qed.
End Phrase.

(** ** Sentences *)

Lemma grammar_parts D : grammar_okb D = true ->
  forms_okb (vp_src D) 1 (vp D) = true /\ forms_okb (np_src D) 0 (np D) = true /\
  words_okb (prepositions D) = true /\ words_okb (terminators D) = true /\
  dist_ok (grammar D) /\ forall f, In f (texts (grammar D)) -> sentence_okb D f = true.
Proof.
  unfold grammar_okb. rewrite !andb_true_iff, forallb_forall. intros [[[[[H1 H2] H3] H4] H5] H6].
  split_and!; try assumption. now apply dist_okb_ok.
Qed.

Lemma strtok_none s : strtok s " " = None -> skip_delims " " s = "".
Proof. unfold strtok. destruct (skip_delims " " s); [reflexivity|discriminate]. Qed.

Lemma delim_blank c : is_delim " " c = true -> c = " "%char.
Proof.
  unfold is_delim, strchr. cbn [strchr_from]. destruct (Ascii.eqb_spec " " c) as [<-|]; [reflexivity|discriminate].
Qed.

Lemma token_single fuel s c ts :
  tokens (S fuel) s = one c :: ts ->
  exists r, skip_delims " " s = String c r /\ (r = "" \/ exists r', r = String " " r') /\
    tokens fuel r = ts /\ (String.length r < String.length s)%nat.
Proof.
  cbn [tokens]. unfold strtok at 1. pose proof (skip_len " " s) as Hl.
  destruct (skip_delims " " s) as [|a r] eqn:E; [discriminate|]. pose proof (skip_head _ _ _ _ E) as Ha.
  cbn [take_token]. rewrite Ha. destruct (take_token " " r) as [t r2] eqn:Et. intros H. injection H as -> -> Hts.
  exists r. split; [reflexivity|]. cbn in Hl. split_and!; [| |lia].
  - destruct r as [|a r]; [now left|]. right. cbn [take_token] in Et. destruct (is_delim " " a) eqn:Eb.
    + exists r. now rewrite (delim_blank a Eb).
    + destruct (take_token " " r); discriminate Et.
  - destruct r as [|a r]; [cbn in Et; now injection Et as <-|]. cbn [take_token] in Et.
    destruct (is_delim " " a) eqn:Eb; [|destruct (take_token " " r); discriminate Et].
    injection Et as <-. rewrite <- Hts. destruct fuel as [|fuel]; [reflexivity|]. cbn [tokens].
    assert (Es : strtok (String a r) " " = strtok r " ") by (unfold strtok; cbn [skip_delims]; now rewrite Eb).
    now rewrite Es.
Qed.

Section Sentence.
Context (D : dists) (HD : grammar_okb D = true) (sd n : Z) (s0 : st) (Hs0 : seeds_ok (Seed s0)).

(** One part of a sentence after [pre]. *)
Lemma wp_part g c a m pre len (Q : mem * Z * Z -> st -> Prop) s :
  part_max D c = Some a -> ran g sd s0 s -> starts_with m pre n -> strlen pre + a < n ->
  (forall x y m' s', part D c x -> x = y +:+ " " -> no_nul x = true -> strlen x <= a ->
     starts_with m' (pre +:+ x) n -> ran (g + part_draws D c) sd s0 s' -> Q (m', strlen pre, strlen x) s') ->
  wp (sentence_part D c m (strlen pre) len sd) Q s.
Proof.
  destruct (grammar_parts D HD) as (Hvp & Hnp & Hprep & _). apply words_okb_spec in Hprep as [Hprep Hpn].
  intros Ha Hr Hm Hlt HQ. unfold part_max in Ha. unfold sentence_part.
  destruct (Ascii.eqb_spec c "V") as [->|]; [injection Ha as <-|destruct (Ascii.eqb_spec c "N") as [->|];
    [injection Ha as <-|destruct (Ascii.eqb_spec c "P") as [->|]; [injection Ha as <-|discriminate Ha]]].
  - apply wp_bind. unfold txt_vp. eapply wp_phrase; [exact Hs0|exact Hr|exact Hvp|exact Hm|exact Hlt|].
    intros x y m' s' Hx Hy Hn Hl Hm' Hr'. apply wp_ret, (HQ x y); try assumption. now constructor.
  - apply wp_bind. unfold txt_np. eapply wp_phrase; [exact Hs0|exact Hr|exact Hnp|exact Hm|exact Hlt|].
    intros x y m' s' Hx Hy Hn Hl Hm' Hr'. apply wp_ret, (HQ x y); try assumption. now constructor.
  - assert (Hnn : 0 <= phrase_max (np_src D) (np D)).
    { unfold phrase_max. induction (texts (np D)); [reflexivity|]. cbn [fold_right]. lia. }
    apply wp_bind. eapply (wp_pick_to sd n s0 Hs0); [exact Hr|exact Hprep|exact Hm|lia|].
    intros w m1 s1 Hw Hm1 Hr1. pose proof (texts_max_in _ _ Hw). rewrite <- app_assoc_s in Hm1. apply starts_prefix in Hm1.
    rewrite <- length_app_s. apply wp_bind, (wp_strcpy _ _ _ n); [exact Hm1|rewrite length_app_s; change (strlen " the ") with 5; lia|].
    intros m2 Hm2. rewrite <- app_assoc_s in Hm2. apply starts_prefix in Hm2.
    replace (strlen pre + (strlen w + 5)) with (strlen ((pre +:+ w) +:+ " the ")) by (rewrite !length_app_s; change (strlen " the ") with 5; lia).
    apply wp_bind. unfold txt_np. eapply wp_phrase; [exact Hs0|exact Hr1|exact Hnp|exact Hm2| |].
    { rewrite !length_app_s. change (strlen " the ") with 5. lia. }
    intros x y m' s' Hx Hy Hn Hl Hm' Hr'. apply wp_ret.
    replace (strlen w + 5 + strlen x) with (strlen (w +:+ " the " +:+ x)) by (rewrite !length_app_s; change (strlen " the ") with 5; lia).
    apply (HQ _ (w +:+ " the " +:+ y)); [now constructor|now rewrite Hy, !app_assoc_s| | |now rewrite !app_assoc_s in Hm'|].
    + rewrite !no_nul_app, (Hpn w Hw), Hn. reflexivity.
    + rewrite !length_app_s. change (strlen " the ") with 5. lia.
    + eapply ran_le; [|exact Hr']. cbn [part_draws Ascii.eqb Bool.eqb]. lia.
Qed.

Lemma rest_max_inv started ts r :
  rest_max D started ts = Some r ->
  (ts = ["T"] /\ started = true /\ r = texts_max (terminators D)) \/
  (exists c ts' a b, ts = one c :: ts' /\ part_max D c = Some a /\ rest_max D true ts' = Some b /\ r = a + b).
Proof.
  intros H. destruct ts as [|t ts]; [discriminate H|]. cbn [rest_max] in H. destruct ts as [|t2 ts].
  - destruct (String.eqb_spec t "T") as [->|]; [|discriminate H].
    destruct started; [|discriminate H]. injection H as <-. now left.
  - right. destruct t as [|c [|c2 p]]; [discriminate H| |discriminate H]. destruct (part_max D c) as [a|] eqn:Ea; [|discriminate H].
    destruct (rest_max D true (t2 :: ts)) as [b|] eqn:Eb; [|discriminate H]. injection H as <-.
    exists c, (t2 :: ts), a, b. auto.
Qed.

Lemma rest_max_nonneg ts : forall started r, rest_max D started ts = Some r -> 0 <= r.
Proof.
  induction ts as [|t ts IH]; intros started r H; [discriminate H|].
  apply rest_max_inv in H as [(_ & _ & ->)|(c & ts' & a & b & Ets & Ha & Hb & ->)]; [apply texts_max_nonneg|].
  injection Ets as -> <-. specialize (IH _ _ Hb). enough (0 <= a) by lia. unfold part_max in Ha.
  assert (Hp : forall src d, 0 <= phrase_max src d).
  { intros src d. unfold phrase_max. induction (texts d); [reflexivity|]. cbn [fold_right]. lia. }
  pose proof (Hp (vp_src D) (vp D)). pose proof (Hp (np_src D) (np D)). pose proof (texts_max_nonneg (prepositions D)).
  repeat (destruct (Ascii.eqb _ _); [injection Ha as <-; lia|]). discriminate Ha.
Qed.

(** No punctuation after the character of a part. *)
Lemma no_filler q m dest res :
  (q = "" \/ exists q', q = String " " q') ->
  match q with
  | String p _ => if Ascii.eqb p " " then ret (m, dest, res)
                  else m <- store (dest + 1) p m;; ret (m, dest + 1, res + 1)
  | EmptyString => ret (m, dest, res)
  end = ret (m, dest, res).
Proof. now intros [->|[q' ->]]. Qed.

(** The loop, when [pre] is written: nothing, or text that ends with a blank. *)
Lemma wp_sentence_loop fuel : forall g ts cptr m pre r len (Q : mem * Z -> st -> Prop) s,
  ts = tokens fuel cptr -> (String.length cptr < fuel)%nat ->
  ran g sd s0 s -> starts_with m pre n -> rest_max D (negb (String.eqb pre "")) ts = Some r ->
  (pre = "" \/ exists y, pre = y +:+ " ") -> no_nul pre = true -> strlen pre + r < n ->
  (forall cs z y t m' s', ts = map one cs ++ ["T"] -> parts D cs z -> pre +:+ z = y +:+ " " ->
     In t (texts (terminators D)) -> no_nul (y +:+ t) = true -> strlen (y +:+ t) < n ->
     starts_with m' ((y +:+ t) +:+ one NUL) n -> ran (g + rest_draws D ts) sd s0 s' ->
     Q (m', strlen (y +:+ t)) s') ->
  wp (sentence_loop D fuel cptr m (strlen pre) (strlen pre) len sd) Q s.
Proof.
  induction fuel as [|fuel IH]; intros g ts cptr m pre r len Q s Hts Hf Hr Hm Hmax Hpre Hnn Hlt HQ; [lia|].
  apply rest_max_inv in Hmax as [(ET & Hst & ->)|(c & ts' & a & b & Ets & Ha & Hb & ->)].
  - rewrite ET in Hts. symmetry in Hts. destruct (token_single fuel cptr "T"%char [] Hts) as (q & Hq & Hq2 & Hq3 & Hq4).
    cbn [sentence_loop]. rewrite Hq. destruct Hpre as [->|[y ->]]; [discriminate Hst|].
    apply wp_bind. cbn [sentence_part Ascii.eqb Bool.eqb]. rewrite length_app_s in *. change (strlen " ") with 1 in *.
    destruct (grammar_parts D HD) as (_ & _ & _ & Ht & _). apply words_okb_spec in Ht as [Htd Htn].
    replace (strlen y + 1 - 1) with (strlen y) by lia. apply starts_prefix in Hm.
    apply wp_bind. eapply (wp_pick_to sd n s0 Hs0); [exact Hr|exact Htd|exact Hm|lia|]. intros t m1 s1 Ht Hm1 Hr1.
    pose proof (texts_max_in _ _ Ht). apply wp_ret. rewrite <- app_assoc_s in Hm1.
    rewrite no_filler by exact Hq2. apply wp_bind, wp_ret.
    destruct fuel as [|fuel]; [lia|]. cbn [sentence_loop tokens] in *.
    destruct (strtok q " ") as [[]|] eqn:Eq; [discriminate Hq3|]. rewrite (strtok_none q Eq).
    rewrite <- length_app_s. apply starts_prefix in Hm1 as Hm2.
    apply wp_bind, (wp_store _ _ _ n); [exact Hm2|rewrite length_app_s; lia|]. intros m3 Hm3. apply wp_ret.
    replace (strlen y + 1 + strlen t - 1) with (strlen (y +:+ t)) by (rewrite length_app_s; lia).
    apply (HQ [] "" y t); try assumption; [constructor|now rewrite app_nil_r_s| |rewrite length_app_s; lia|].
    + rewrite no_nul_app in *. apply andb_true_iff in Hnn as [-> _]. now rewrite (Htn t Ht).
    + eapply ran_le; [|exact Hr1]. rewrite ET. cbn. lia.
  - rewrite Ets in Hts. symmetry in Hts. destruct (token_single fuel cptr c ts' Hts) as (q & Hq & Hq2 & Hq3 & Hq4).
    cbn [sentence_loop]. rewrite Hq. pose proof (rest_max_nonneg _ _ _ Hb).
    apply wp_bind. eapply (wp_part _ c a); [exact Ha|exact Hr|exact Hm|lia|]. intros x y m1 s1 Hx Hy Hxn Hxl Hm1 Hr1.
    rewrite <- length_app_s.
    rewrite no_filler by exact Hq2. apply wp_bind, wp_ret.
    assert (Hne : negb (String.eqb (pre +:+ x) "") = true).
    { subst x. destruct pre, y; reflexivity. }
    apply (IH (g + part_draws D c)%nat ts' q m1 (pre +:+ x) b); [now rewrite Hq3|lia|exact Hr1|exact Hm1|now rewrite Hne| | |rewrite length_app_s; lia|].
    + right. exists (pre +:+ y). now rewrite Hy, app_assoc_s.
    + now rewrite no_nul_app, Hnn, Hxn.
    + intros cs z y' t m' s' Hcs Hz Hyz H1 H2 H3 H4 H5. apply (HQ (c :: cs) (x +:+ z) y' t); try assumption.
      * now rewrite Ets, Hcs.
      * now constructor.
      * now rewrite <- app_assoc_s.
      * rewrite Ets. cbn [rest_draws fold_right one]. fold (rest_draws D ts'). now rewrite Nat.add_assoc.
Qed.
End Sentence.

Section Text_proofs.
Context (D : dists) (HD : grammar_okb D = true) (sd : Z) (s0 : st) (Hs0 : seeds_ok (Seed s0)).

Lemma starts_any m : starts_with m "" (Z.of_nat (length m)).
Proof. now exists m. Qed.

Lemma wp_txt_sentence g m (Q : mem * Z -> st -> Prop) s :
  ran g sd s0 s -> Z.of_nat (length m) = MAX_SENT_LEN + 1 ->
  (forall x m' s', sentence D x -> no_nul x = true -> strlen x <= MAX_SENT_LEN ->
     starts_with m' (x +:+ one NUL) (MAX_SENT_LEN + 1) -> ran (g + sentence_draws D) sd s0 s' ->
     Q (m', strlen x) s') ->
  wp (txt_sentence D m 0 sd) Q s.
Proof.
  intros Hr Hm HQ. destruct (grammar_parts D HD) as (_ & _ & _ & _ & Hg & Hok).
  assert (Hform : forall f, In f (texts (grammar D)) -> strlen f <= MAX_GRAMMAR_LEN /\
    exists r, rest_max D false (form_tokens f) = Some r /\ r <= MAX_SENT_LEN).
  { intros f Hf. specialize (Hok f Hf). unfold sentence_okb in Hok. apply andb_true_iff in Hok as [H1 H2].
    apply Z.leb_le in H1. split; [exact H1|]. destruct (rest_max D false (form_tokens f)) as [r|]; [|discriminate H2].
    apply Z.leb_le in H2. eauto. }
  unfold txt_sentence. apply wp_bind. eapply (wp_pick_syntax sd s0 Hs0); [exact Hr|exact Hg|intros f Hf; now apply Hform|].
  intros f s1 Hf Hr1. destruct (Hform f Hf) as (_ & r & Hmax & Hle). change 0 with (strlen "") at 1 2.
  apply (wp_sentence_loop D HD sd (MAX_SENT_LEN + 1) s0 Hs0 _ (S g) (form_tokens f) f m "" r); try assumption; try reflexivity.
  - lia.
  - rewrite <- Hm. apply starts_any.
  - now left.
  - rewrite strlen_nil. lia.
  - intros cs z y t m' s' Hcs Hz Hy Ht Hnn Hlt Hm' Hr'. apply HQ; try assumption; [|lia|].
    + exists f, cs, y, t. split_and!; try assumption; [|reflexivity]. rewrite <- Hy. exact Hz.
    + eapply ran_le; [|exact Hr']. unfold sentence_draws.
      pose proof (max_list_in (fun f => rest_draws D (form_tokens f)) _ _ Hf). cbv beta in *. lia.
Qed.

Lemma words_min_le src ts x : words src ts x -> words_min src ts <= strlen x.
Proof.
  induction 1 as [|c p ts d w x Hc Hw _ IH]; [reflexivity|]. cbn [words_min fold_right]. fold (words_min src ts).
  rewrite Hc, !length_app_s. change (strlen " ") with 1. pose proof (strlen_nonneg (take_s 1 p)).
  pose proof (least_in _ _ (in_map strlen _ _ Hw)). unfold texts_min. lia.
Qed.

Lemma phrase_min_le src d x : phrase src d x -> phrase_min src d <= strlen x.
Proof.
  intros (f & Hf & Hx). apply words_min_le in Hx.
  pose proof (least_in _ _ (in_map (fun f => words_min src (form_tokens f)) _ _ Hf)). unfold phrase_min. lia.
Qed.

Lemma parts_min_le cs z : parts D cs z -> rest_min D (map one cs) <= strlen z.
Proof.
  induction 1 as [|c cs x y Hx _ IH]; [reflexivity|]. cbn [map rest_min fold_right one]. fold (rest_min D (map one cs)).
  rewrite length_app_s. enough (part_min D c <= strlen x) by lia. unfold part_min.
  destruct Hx as [x Hx|x Hx|w x Hw Hx]; cbn [Ascii.eqb Bool.eqb]; apply phrase_min_le in Hx; try exact Hx.
  rewrite !length_app_s. change (strlen " the ") with 5.
  pose proof (least_in _ _ (in_map strlen _ _ Hw)). unfold texts_min. lia.
Qed.

Lemma rest_min_app a b : rest_min D (a ++ b) = rest_min D a + rest_min D b.
Proof. unfold rest_min. induction a as [|t a IH]; cbn [app fold_right]; [reflexivity|]. rewrite IH. lia. Qed.

Lemma sentence_min_le x : sentence D x -> sentence_min D <= strlen x.
Proof.
  intros (f & cs & y & t & Hf & Hcs & Hp & Ht & ->). apply parts_min_le in Hp. rewrite length_app_s in *.
  change (strlen " ") with 1 in Hp. pose proof (strlen_nonneg y). pose proof (strlen_nonneg t).
  pose proof (least_in _ _ (in_map strlen _ _ Ht)).
  pose proof (least_in _ _ (in_map (fun f => rest_min D (form_tokens f) - 1 + texts_min (terminators D)) _ _ Hf)) as Hm.
  cbv beta in Hm. rewrite Hcs, rest_min_app in Hm. change (rest_min D ["T"]) with 0 in Hm.
  unfold sentence_min, texts_min in *. lia.
Qed.

Lemma sentence_min_nonneg : 0 <= sentence_min D.
Proof. apply Z.le_max_l. Qed.

Lemma sentences_one len : 0 < len -> (1 <= sentences_in D len)%nat.
Proof. intros Hl. pose proof sentence_min_nonneg. unfold sentences_in. zdiv. Qed.

Lemma sentences_more l len : sentence_min D <= l -> l + 1 <= len ->
  (S (sentences_in D (len - (l + 1))) <= sentences_in D len)%nat.
Proof.
  intros Hl Hlen. pose proof sentence_min_nonneg. unfold sentences_in. set (m := sentence_min D) in *.
  assert ((len - (l + 1) + m) / (m + 1) + 1 <= (len + m) / (m + 1)).
  { rewrite <- Z.div_add by lia. apply Z.div_le_mono; lia. }
  pose proof (Z.div_pos (len - (l + 1) + m) (m + 1) ltac:(lia) ltac:(lia)). lia.
Qed.

Lemma text_loop_done fuel len m tgt off : text_loop D fuel len m tgt off len sd = ret (tgt, off, len).
Proof. destruct fuel; cbn [text_loop]; now rewrite Z.ltb_irrefl. Qed.

(** The loop, when the text [pre] is written. *)
Lemma wp_text_loop cap len fuel : forall g m tgt pre (Q : mem * Z * Z -> st -> Prop) s,
  ran g sd s0 s -> Z.of_nat (length m) = MAX_SENT_LEN + 1 -> starts_with tgt pre cap -> no_nul pre = true ->
  strlen pre <= len -> len < cap -> (Z.to_nat (len - strlen pre) <= fuel)%nat ->
  (forall ss tgt' s', Forall (sentence D) ss -> len <= strlen (pre +:+ spaced ss) ->
     no_nul (take_s len (pre +:+ spaced ss)) = true -> starts_with tgt' (take_s len (pre +:+ spaced ss)) cap ->
     ran (g + sentence_draws D * sentences_in D (len - strlen pre)) sd s0 s' -> Q (tgt', len, len) s') ->
  wp (text_loop D fuel len m tgt (strlen pre) (strlen pre) sd) Q s.
Proof.
  induction fuel as [|fuel IH]; intros g m tgt pre Q s Hr Hm Htgt Hnn Hpre Hcap Hf HQ;
    pose proof (strlen_nonneg pre).
  all: destruct (decide (strlen pre = len)) as [E|Hne].
  1,3: rewrite E, text_loop_done; apply wp_ret, (HQ []); [constructor|rewrite app_nil_r_s; lia|..];
       rewrite ?app_nil_r_s, <- ?E, ?take_s_all; first [assumption|eapply ran_le; [|exact Hr]; lia].
  { lia. }
  cbn [text_loop]. destruct (Z.ltb_spec (strlen pre) len); [|lia]. cbn [negb].
  apply wp_bind. eapply wp_txt_sentence; [exact Hr|exact Hm|]. intros x m1 s1 Hx Hxn Hxl Hm1 Hr1.
  pose proof (strlen_nonneg x). destruct (Z.ltb_spec (strlen x) 0); [lia|].
  assert (Hlen : forall y m, starts_with m y (MAX_SENT_LEN + 1) -> Z.of_nat (length m) = MAX_SENT_LEN + 1)
    by (intros y m' (rest & _ & Hl); exact Hl).
  destruct (Z.leb_spec (strlen x + 1) (len - strlen pre)).
  - rewrite (c_string_starts _ _ _ Hxn Hm1). apply wp_bind, wp_ret.
    apply wp_bind, (wp_strcpy _ _ _ cap); [exact Htgt|lia|]. intros t1 Ht1.
    rewrite <- app_assoc_s in Ht1. apply starts_prefix in Ht1. rewrite <- length_app_s.
    apply wp_bind, (wp_store _ _ _ cap); [exact Ht1|rewrite length_app_s; lia|]. intros t2 Ht2.
    rewrite app_assoc_s in Ht2.
    replace (strlen (pre +:+ x) + 1) with (strlen (pre +:+ x +:+ one " ")) by (rewrite !length_app_s, strlen_one; lia).
    replace (strlen pre + strlen x + 1) with (strlen (pre +:+ x +:+ one " ")) by (rewrite !length_app_s, strlen_one; lia).
    pose proof (sentence_min_le x Hx) as Hmin. pose proof sentence_min_nonneg.
    eapply IH; [exact Hr1|now apply (Hlen _ _ Hm1)|exact Ht2| | |exact Hcap| |].
    + rewrite !no_nul_app, Hnn, Hxn. reflexivity.
    + rewrite !length_app_s, strlen_one. lia.
    + rewrite !length_app_s, strlen_one. lia.
    + intros ss t' s' Hss. rewrite !app_assoc_s. intros G1 G2 G3 G4. apply (HQ (x :: ss)); try assumption; [now constructor|].
      eapply ran_le; [|exact G4]. rewrite !length_app_s, strlen_one.
      pose proof (sentences_more (strlen x) (len - strlen pre) ltac:(lia) ltac:(lia)).
      replace (len - (strlen pre + (strlen x + 1))) with (len - strlen pre - (strlen x + 1)) by lia. nia.
  - destruct (take_split (len - strlen pre) x ltac:(lia)) as (Htk & z & Hz).
    assert (Hm1' : starts_with m1 (take_s (len - strlen pre) x) (MAX_SENT_LEN + 1)).
    { rewrite Hz, app_assoc_s in Hm1. exact (starts_prefix _ _ _ _ Hm1). }
    assert (Hxk : no_nul (take_s (len - strlen pre) x) = true).
    { rewrite Hz, no_nul_app in Hxn. now apply andb_true_iff in Hxn as [-> _]. }
    rewrite <- Htk at 1. apply wp_bind, (wp_store _ _ _ (MAX_SENT_LEN + 1)); [exact Hm1'|lia|]. intros m2 Hm2.
    rewrite (c_string_starts _ _ _ Hxk Hm2). apply wp_bind, wp_ret.
    apply wp_bind, (wp_strcpy _ _ _ cap); [exact Htgt|lia|]. intros t1 Ht1.
    rewrite <- app_assoc_s in Ht1. apply starts_prefix in Ht1.
    replace (strlen pre + (len - strlen pre)) with len by lia. rewrite text_loop_done.
    assert (Ek : take_s len (pre +:+ spaced [x]) = pre +:+ take_s (len - strlen pre) x).
    { cbn [spaced fold_right]. rewrite take_s_over by lia. f_equal. apply take_app_le. lia. }
    apply wp_ret, (HQ [x]); rewrite ?Ek; [repeat constructor; exact Hx| | |exact Ht1|].
    + cbn [spaced fold_right]. rewrite !length_app_s, strlen_nil. change (strlen " ") with 1. lia.
    + now rewrite no_nul_app, Hnn, Hxk.
    + eapply ran_le; [|exact Hr1]. pose proof (sentences_one (len - strlen pre) ltac:(lia)). nia.
Qed.
End Text_proofs.

(** A text of [len] characters, cut out of sentences. *)
Definition cut_text (D : dists) (len : Z) (x : string) : Prop :=
  strlen x = len /\ no_nul x = true /\
  exists ss, Forall (sentence D) ss /\ len <= strlen (spaced ss) /\ x = take_s len (spaced ss).

(** The numbers a text of [len] characters draws, at most. *)
Definition text_draws (D : dists) (len : Z) : nat := S (sentence_draws D * sentences_in D len).

Lemma text_draws_le D a b : a <= b -> (text_draws D a <= text_draws D b)%nat.
Proof.
  intros H. unfold text_draws, sentences_in. pose proof (sentence_min_nonneg D).
  assert ((a + sentence_min D) / (sentence_min D + 1) <= (b + sentence_min D) / (sentence_min D + 1)) by (apply Z.div_le_mono; lia).
  apply le_n_S, Nat.mul_le_mono_l. lia.
Qed.

Lemma wp_dbg_text D tgt min max sd l s0 (Q : mem * Z -> st -> Prop) s :
  grammar_okb D = true -> seeds_ok (Seed s0) -> drew l s0 s -> 0 <= min <= max -> max < 2 ^ 31 ->
  max < Z.of_nat (length tgt) ->
  (forall m x len k s', min <= len <= max -> cut_text D len x ->
     starts_with m (x +:+ one NUL) (Z.of_nat (length tgt)) -> (k <= text_draws D len)%nat ->
     drew (l ++ repeat sd k) s0 s' -> Q (m, len) s') ->
  wp (dbg_text D tgt min max sd) Q s.
Proof.
  intros HD H0 Hd0 Hmin Hmax Hcap HQ. pose proof (drew_ok _ _ _ H0 Hd0) as Hs. unfold dbg_text.
  apply wp_bind, (wp_random_d [] s); [exact Hs|apply drew_nil|lia|]. intros len s1 Hlen Hd _.
  assert (Hr1 : ran 1 sd s s1) by (exists 1%nat; split; [lia|exact Hd]).
  apply wp_bind. change 0 with (strlen "") at 1 2.
  apply (wp_text_loop D HD sd s Hs (Z.of_nat (length tgt)) len _ 1); try reflexivity;
    [exact Hr1|apply starts_any|rewrite strlen_nil; lia|lia|rewrite strlen_nil; lia|].
  intros ss t1 s2 Hss Hl Hn Ht1 (k & Hk & Hd2). rewrite app_nil_s, strlen_nil, Z.sub_0_r in *.
  destruct (take_split len (spaced ss) ltac:(lia)) as (Htk & _). rewrite <- Htk at 1.
  apply wp_bind, (wp_store _ _ _ (Z.of_nat (length tgt))); [exact Ht1|lia|]. intros t2 Ht2. apply wp_ret.
  apply (HQ t2 (take_s len (spaced ss)) len k s2 Hlen); [|exact Ht2|exact Hk|exact (drew_trans _ _ _ _ _ Hd0 Hd2)].
  split_and!; [exact Htk|exact Hn|]. exists ss. auto.
Qed.

(** C14. The comment text: for a grammar of forms the code can use, [dbg_text] returns a length
    in its bounds, and in the buffer, in which it stays when the buffer holds the longest text
    and its NUL, a string of that length, which is a cut of sentences the grammar derives, with a
    blank after each; it draws from the stream given only, at most [sentence_draws] numbers for
    each sentence that fits and one for the length. *)
Theorem dbg_text_derives D tgt min max sd s :
  grammar_okb D = true -> seeds_ok (Seed s) -> 0 <= min <= max -> max < 2 ^ 31 -> max < Z.of_nat (length tgt) ->
  wp (dbg_text D tgt min max sd)
    (fun r s' => min <= snd r <= max /\ length (fst r) = length tgt /\
       (exists ss, Forall (sentence D) ss /\ snd r <= strlen (spaced ss) /\
          c_string (fst r) = Some (take_s (snd r) (spaced ss))) /\
       ran (text_draws D (snd r)) sd s s') s.
Proof.
  intros HD Hs Hmin Hmax Hcap. apply (wp_dbg_text D tgt min max sd [] s); try assumption; [apply drew_nil|].
  intros m x len k s' Hlen (Hx & Hn & ss & Hss & Hl & ->) Hm Hk Hd. cbn [fst snd].
  split_and!; [lia|lia| | |].
  - destruct Hm as (rest & _ & Hl2). lia.
  - exists ss. split_and!; [exact Hss|exact Hl|]. exact (c_string_starts _ _ _ Hn Hm).
  - exists k. split; [exact Hk|exact Hd].
Qed.

Lemma dbg_text_derives_witness :
  exists D, wp (dbg_text D (uninit 117) 29 116 31)
    (fun r s' => 29 <= snd r <= 116 /\ length (fst r) = 117%nat /\
       (exists ss, Forall (sentence D) ss /\ snd r <= strlen (spaced ss) /\
          c_string (fst r) = Some (take_s (snd r) (spaced ss))) /\
       ran (text_draws D (snd r)) 31 st_start s') st_start.
Proof.
  exists shipped. apply (dbg_text_derives shipped (uninit 117) 29 116 31 st_start).
  - vm_compute. reflexivity.
  - apply Seed_init_ok.
  - lia.
  - lia.
  - vm_compute. reflexivity.
Defined.

(** The shipped grammar: no sentence draws more than [RNG_PER_SENT] numbers, and none is
    shorter than 10 characters. *)
Example shipped_sentences :
  (sentence_draws shipped <= Z.to_nat RNG_PER_SENT)%nat /\ sentence_min shipped = 10.
Proof. vm_compute. split; [lia|reflexivity]. Qed.
