(* ===== verification/Getopt.v ===== *)
(** The replacement of [getopt] (bm_utils.c) for systems whose library has none, on its own
    state, and the loop over its calls. A command line of words and separate arguments gives
    the options it is made of; the loop ends on every command line; an argument attached to
    its option is not terminated. *)
From S2P Require Import Prelude CString Float64 State Consts Streams Dist Build RowSpec Config Output Print Driver Text.

(** ** The state: [optind], the buffer [optarg] points to and the static [nextchar] *)

Record getopt_st := mk_getopt { optind : Z; optarg : option mem; nextchar : option string }.
Definition getopt_start : getopt_st := mk_getopt 0 None None.

(** [av[i]], [None] the null pointer at the end. *)
Definition arg_at (av : list string) (i : Z) : option string :=
  if i <? 0 then None else av !! Z.to_nat i.

(** What [strchr(opt, c)] points to, [c] not NUL. *)
Fixpoint strchr_at (opt : string) (c : ascii) : option string :=
  match opt with
  | EmptyString => None
  | String a opt' => if Ascii.eqb a c then Some opt else strchr_at opt' c
  end.

(** [*(cp + 1) == ':'] *)
Definition colon_next (cp : string) : bool :=
  match cp with String _ (String n _) => Ascii.eqb n ":" | _ => false end.

(** ** The operation *)

Section Getopt.
Context (av : list string) (opt : string).
Definition ac : Z := Z.of_nat (length av).

(** An option with an argument. What follows it in [nextchar] is copied, terminated, and the
    terminator overwritten by the option character; or the next argument is copied. *)
Definition getopt_arg (c : ascii) (buf : mem) (optind : Z) (nextchar : string) : M (Z * getopt_st) :=
  match nextchar with
  | String _ _ =>
      buf <- strcpy 0 nextchar buf;;
      buf <- store (strlen nextchar) c buf;;
      ret (char_code c, mk_getopt optind (Some buf) None)
  | EmptyString =>
      let optind := optind + 1 in
      if optind =? ac then ret (char_code "?", mk_getopt optind (Some buf) (Some ""))
      else
        arg <- must "av[optind]" (arg_at av optind);;
        buf <- strcpy 0 arg buf;;
        ret (char_code c, mk_getopt optind (Some buf) None)
  end.

(** From the second [if] on. At the end of an argument (a lone dash), [strchr] finds the
    terminator of [opt] and [*(cp + 1)] is outside it. *)
Definition getopt_char (buf : mem) (optind : Z) (nextchar : string) : M (Z * getopt_st) :=
  match nextchar with
  | EmptyString => stop_with (Undefined "*(cp + 1)")
  | String c rest =>
      if Ascii.eqb c "-" then ret (-1, mk_getopt (optind + 1) (Some buf) (Some nextchar))
      else
        match strchr_at opt c with
        | None => ret (char_code "?", mk_getopt optind (Some buf) (Some rest))
        | Some cp =>
            if colon_next cp then getopt_arg c buf optind rest
            else ret (char_code c, mk_getopt optind (Some buf) (Some rest))
        end
  end.

(** [if (optarg == NULL) optarg = malloc(BUFSIZ);] *)
Definition optarg_buf (g : getopt_st) : mem := match optarg g with Some buf => buf | None => uninit BUFSIZ end.

(** [int getopt(int ac, char **av, char *opt)] *)
Definition getopt (g : getopt_st) : M (Z * getopt_st) :=
  let buf := optarg_buf g in
  match nextchar g with
  | Some (String _ _ as n) => getopt_char buf (optind g) n
  | n =>
      let optind := optind g + 1 in
      if optind =? ac then ret (-1, mk_getopt optind (Some buf) n)
      else
        arg <- must "av[optind]" (arg_at av optind);;
        match arg with
        | String "-" rest => getopt_char buf optind rest
        | _ => ret (-1, mk_getopt optind (Some buf) (Some arg))
        end
  end.

(** What the [case] of an option reads: the string at [optarg] if the option has an argument,
    [av[optind]], empty for the null pointer, if it is unknown. *)
Definition has_arg (c : ascii) : bool :=
  match strchr_at opt c with Some cp => colon_next cp | None => false end.
Definition option_text (c : ascii) (g : getopt_st) : M string :=
  if Ascii.eqb c "?" then ret (default "" (arg_at av (optind g)))
  else if has_arg c then
    buf <- must "optarg" (optarg g);;
    must "the string at optarg" (c_string buf)
  else ret "".

(** [while ((option = getopt (count, vector, ...)) != -1) switch (option)]; the rounds are
    at most the characters of the arguments. *)
Fixpoint option_loop (body : ascii -> string -> M unit) (fuel : nat) (g : getopt_st) : M getopt_st :=
  match fuel with
  | O => stop_with (Undefined "fuel")
  | S fuel =>
      '(option, g) <- getopt g;;
      if option =? -1 then ret g
      else
        let c := ascii_of_nat (Z.to_nat option) in
        text <- option_text c g;;
        body c text;;
        option_loop body fuel g
  end.
Definition option_fuel : nat := S (list_sum (map String.length av)).
End Getopt.

(** ** Copying into a buffer *)

Definition chars (s : string) : mem := map Some (String.list_ascii_of_string s).

Lemma chars_length s : length (chars s) = String.length s.
Proof. unfold chars. rewrite length_map. apply length_chars. Qed.

Lemma store_app pre o old c s :
  store (Z.of_nat (length pre)) c (pre ++ o :: old) s = Ok (pre ++ Some c :: old) s.
Proof.
  unfold store. rewrite length_app. cbn [length].
  destruct (Z.leb_spec 0 (Z.of_nat (length pre))); [|lia].
  destruct (Z.ltb_spec (Z.of_nat (length pre)) (Z.of_nat (length pre + S (length old)))); [|lia]. cbn [andb].
  rewrite Nat2Z.id, insert_app_r_alt, Nat.sub_diag by lia. reflexivity.
Qed.

Lemma strcpy_app w : forall pre old s,
  (String.length w < length old)%nat ->
  strcpy (Z.of_nat (length pre)) w (pre ++ old) s =
  Ok (pre ++ chars w ++ Some NUL :: drop (S (String.length w)) old) s.
Proof.
  induction w as [|c w IH]; intros pre [|o old] s Hlen; cbn [String.length length] in Hlen; try lia; cbn [strcpy].
  - apply store_app.
  - unfold bind. rewrite store_app.
    replace (Z.of_nat (length pre) + 1) with (Z.of_nat (length (pre ++ [Some c]))) by (rewrite length_app; cbn; lia).
    change (pre ++ Some c :: old) with (pre ++ [Some c] ++ old). rewrite app_assoc, IH by lia.
    now rewrite <- app_assoc.
Qed.

Lemma strcpy_start w old s :
  (String.length w < length old)%nat ->
  strcpy 0 w old s = Ok (chars w ++ Some NUL :: drop (S (String.length w)) old) s.
Proof. intros H. exact (strcpy_app w [] old s H). Qed.

Lemma c_string_chars w m : no_nul w = true -> c_string (chars w ++ Some NUL :: m) = Some w.
Proof.
  unfold no_nul. induction w as [|c w IH]; cbn; [reflexivity|]. intros H. apply andb_true_iff in H as [Hc Hw].
  apply negb_true_iff in Hc. rewrite Hc. unfold chars in IH. now rewrite IH.
Qed.

(** ** Command lines *)

(** A word of options: letters without an argument, then perhaps one with an argument, which
    is the next word. *)
Record word := mk_word { letters : string; last : option (ascii * string) }.
Definition word_text (w : word) : string :=
  "-" +:+ letters w +:+ match last w with Some (c, _) => String c "" | None => "" end.
Definition word_args (w : word) : list string :=
  word_text w :: match last w with Some (_, arg) => [arg] | None => [] end.
Definition word_options (w : word) : list (ascii * string) :=
  map (fun c => (c, "")) (String.list_ascii_of_string (letters w)) ++ match last w with Some o => [o] | None => [] end.

(** A letter of [opt] without an argument. *)
Definition is_flag (opt : string) (c : ascii) : bool :=
  match strchr_at opt c with
  | Some cp => negb (colon_next cp) && negb (Ascii.eqb c "-") && negb (Ascii.eqb c "?")
  | None => false
  end.
Definition is_valued (opt : string) (c : ascii) : bool :=
  has_arg opt c && negb (Ascii.eqb c "-") && negb (Ascii.eqb c "?").
Definition word_ok (opt : string) (w : word) : bool :=
  all_chars (is_flag opt) (letters w) &&
  match last w with
  | Some (c, arg) => is_valued opt c && no_nul arg && (strlen arg <? BUFSIZ)
  | None => negb (String.eqb (letters w) "")
  end.

(** The end of the options: two dashes, or an argument that does not begin with a dash, or no
    argument. *)
Definition operand_args (dashes : bool) (operands : list string) : list string :=
  if dashes then "--" :: operands else operands.
Definition operands_ok (dashes : bool) (operands : list string) : bool :=
  dashes || match operands with String "-" _ :: _ => false | _ => true end.

Definition command_line (prog : string) (ws : list word) (dashes : bool) (operands : list string) : list string :=
  prog :: concat (map word_args ws) ++ operand_args dashes operands.

(** ** The calls of [getopt] on a command line *)

Section Calls.
Context (av : list string) (opt : string).

(** A call that finds option [c], whose [case] reads [text]. *)
Definition call (g : getopt_st) (c : ascii) (text : string) (g' : getopt_st) : Prop :=
  forall s, getopt av opt g s = Ok (char_code c, g') s /\ option_text av opt c g' s = Ok text s.

(** The calls up to the one that returns -1. *)
Inductive calls : getopt_st -> list (ascii * string) -> getopt_st -> Prop :=
  | calls_end g g' : (forall s, getopt av opt g s = Ok (-1, g') s) -> calls g [] g'
  | calls_option g c text g1 l g' : call g c text g1 -> calls g1 l g' -> calls g ((c, text) :: l) g'.

(** The loop makes these calls. *)
Lemma option_loop_calls body g l g' :
  calls g l g' -> forall fuel s, (length l < fuel)%nat ->
  option_loop av opt body fuel g s =
  (fold_right (fun o k => body (fst o) (snd o);; k) (ret g') l) s.
Proof.
  induction 1 as [g g' Hg|g c text g1 l g' Hc Hl IH]; intros [|fuel] s Hf; cbn [length] in Hf; try lia;
    cbn [option_loop fold_right fst snd].
  - unfold bind at 1. rewrite Hg. reflexivity.
  - destruct (Hc s) as [Hg Ht]. unfold bind at 1. rewrite Hg. destruct (Z.eqb_spec (char_code c) (-1)) as [E|_]; [unfold char_code in E; lia|]. cbv zeta. unfold char_code. rewrite Nat2Z.id, ascii_nat_embedding.
    unfold bind at 1. rewrite Ht. unfold bind. destruct (body c text s) as [[] s1|]; [|reflexivity]. apply IH. lia.
Qed.

Lemma calls_same g g1 l g' :
  (forall s, getopt av opt g s = getopt av opt g1 s) -> calls g1 l g' -> calls g l g'.
Proof.
  intros E H. destruct H as [g1 g' H|g1 c text g2 l g' H Hl].
  - apply calls_end. intros s. now rewrite E.
  - econstructor; [|exact Hl]. intros s. rewrite E. apply H.
Qed.

(** Letters without an argument. *)
Lemma call_flag c rest i buf :
  is_flag opt c = true -> call (mk_getopt i (Some buf) (Some (String c rest))) c "" (mk_getopt i (Some buf) (Some rest)).
Proof.
  unfold is_flag. intros Hf s. unfold getopt, option_text, has_arg. cbn [nextchar optind].
  unfold getopt_char. cbn [optarg_buf optarg]. destruct (strchr_at opt c) as [cp|]; [|discriminate].
  rewrite !andb_true_iff, !negb_true_iff in Hf. destruct Hf as [[-> ->] ->]. now split.
Qed.

Lemma calls_letters L rest i buf l g' :
  all_chars (is_flag opt) L = true ->
  calls (mk_getopt i (Some buf) (Some rest)) l g' ->
  calls (mk_getopt i (Some buf) (Some (L +:+ rest)))
    (map (fun c => (c, "")) (String.list_ascii_of_string L) ++ l) g'.
Proof.
  intros HL Hc. induction L as [|c L IH]; [exact Hc|]. cbn [all_chars] in HL.
  apply andb_true_iff in HL as [Hf HL]. econstructor; [apply call_flag, Hf|apply IH, HL].
Qed.

(** A letter whose argument is the next word. *)
Lemma call_valued c arg i buf :
  is_valued opt c = true -> arg_at av (i + 1) = Some arg -> no_nul arg = true ->
  (String.length arg < length buf)%nat ->
  call (mk_getopt i (Some buf) (Some (String c ""))) c arg
    (mk_getopt (i + 1) (Some (chars arg ++ Some NUL :: drop (S (String.length arg)) buf)) None).
Proof.
  unfold is_valued, has_arg. intros Hc Harg Hn Hlen s. unfold getopt, option_text, has_arg. cbn [nextchar optind optarg].
  unfold getopt_char. cbn [optarg_buf optarg]. destruct (strchr_at opt c) as [cp|]; [|discriminate].
  rewrite !andb_true_iff, !negb_true_iff in Hc. destruct Hc as [[Hcol ->] ->]. rewrite Hcol.
  unfold getopt_arg. cbv zeta. destruct (Z.eqb_spec (i + 1) (ac av)) as [E|_].
  { exfalso. unfold arg_at, ac in *. destruct (Z.ltb_spec (i + 1) 0); [discriminate|].
    apply lookup_lt_Some in Harg. lia. }
  rewrite Harg. unfold bind, must, ret. cbn [must]. rewrite strcpy_start by exact Hlen.
  split; [reflexivity|]. now rewrite c_string_chars.
Qed.

(** Between two words: the arguments [rest] are left. *)
Record between_words (g : getopt_st) (rest : list string) : Prop := mk_between_words {
  bw_index : 0 <= optind g < Z.of_nat (length av);
  bw_rest : drop (Z.to_nat (optind g + 1)) av = rest;
  bw_next : nextchar g = None \/ nextchar g = Some "";
  bw_buf : length (optarg_buf g) = Z.to_nat BUFSIZ;
}.

Lemma between_arg g a rest :
  between_words g (a :: rest) ->
  arg_at av (optind g + 1) = Some a /\ optind g + 1 < ac av /\ drop (Z.to_nat (optind g + 2)) av = rest.
Proof.
  intros [Hi Hr _ _]. unfold arg_at, ac. destruct (Z.ltb_spec (optind g + 1) 0); [lia|].
  assert (Ha : av !! Z.to_nat (optind g + 1) = Some a) by (rewrite <- (Nat.add_0_r (Z.to_nat _)), <- lookup_drop, Hr; reflexivity).
  split; [exact Ha|]. apply lookup_lt_Some in Ha. split; [lia|].
  replace (Z.to_nat (optind g + 2)) with (Z.to_nat (optind g + 1) + 1)%nat by lia. rewrite <- drop_drop, Hr. reflexivity.
Qed.

(** [getopt] goes on to the next word. *)
Lemma getopt_next g a rest s :
  between_words g (a :: rest) ->
  getopt av opt g s =
  match a with
  | String "-" t => getopt_char av opt (optarg_buf g) (optind g + 1) t s
  | _ => Ok (-1, mk_getopt (optind g + 1) (Some (optarg_buf g)) (Some a)) s
  end.
Proof.
  intros Hg. destruct (between_arg g a rest Hg) as (Ha & Hi & _). unfold getopt. cbv zeta.
  destruct (Z.eqb_spec (optind g + 1) (ac av)); [lia|]. rewrite Ha.
  destruct (bw_next _ _ Hg) as [-> | ->]; destruct a as [|[[] [] [] [] [] [] [] []] t]; reflexivity.
Qed.

(** One word. *)
Lemma calls_word g w rest :
  word_ok opt w = true -> between_words g (word_args w ++ rest) ->
  exists g1, between_words g1 rest /\ forall l g', calls g1 l g' -> calls g (word_options w ++ l) g'.
Proof.
  destruct w as [L v]. unfold word_ok, word_args, word_options, word_text. cbn [letters last].
  rewrite andb_true_iff. intros [HL Hv] Hg.
  assert (Hin : forall t, t <> "" -> word_text (mk_word L v) = String "-" t ->
    forall l g', calls (mk_getopt (optind g + 1) (Some (optarg_buf g)) (Some t)) l g' -> calls g l g').
  { intros t Ht Et l g'. apply calls_same. intros s. change ("-" +:+ L +:+ _) with (word_text (mk_word L v)) in Hg.
    rewrite Et in Hg. rewrite (getopt_next _ _ _ _ Hg). destruct t; [congruence|reflexivity]. }
  destruct (between_arg _ _ _ Hg) as (_ & Hi & Hd). pose proof (bw_index _ _ Hg) as Hi0. pose proof (bw_buf _ _ Hg) as Hb.
  destruct v as [[c arg]|].
  - rewrite !andb_true_iff in Hv. destruct Hv as [[Hc Hn] Hlen]. apply Z.ltb_lt in Hlen. unfold strlen in Hlen.
    set (g1 := mk_getopt (optind g + 1) (Some (optarg_buf g)) None).
    assert (Hg1 : arg_at av (optind g + 1 + 1) = Some arg /\ optind g + 1 + 1 < ac av /\ drop (Z.to_nat (optind g + 1 + 2)) av = rest).
    { apply (between_arg g1). split; cbn [optind nextchar g1 optarg_buf optarg]; [unfold ac in Hi; lia| |now left|exact Hb].
      replace (optind g + 1 + 1) with (optind g + 2) by lia. exact Hd. }
    destruct Hg1 as (Harg & Hi1 & Hd1). eexists. split; cycle 1.
    + intros l g' Hl. apply (Hin (L +:+ String c "")); [destruct L; discriminate|reflexivity|]. rewrite <- app_assoc.
      apply calls_letters; [exact HL|]. econstructor; [|exact Hl].
      apply call_valued; [exact Hc|exact Harg|exact Hn|rewrite Hb; unfold BUFSIZ in *; lia].
    + split; cbn [optind nextchar optarg_buf optarg]; [unfold ac in Hi1; lia| |now left|].
      * replace (optind g + 1 + 1 + 1) with (optind g + 1 + 2) by lia. exact Hd1.
      * rewrite length_app, chars_length. cbn [length]. rewrite length_drop, Hb. unfold BUFSIZ in *. lia.
  - exists (mk_getopt (optind g + 1) (Some (optarg_buf g)) (Some "")). split.
    + split; cbn [optind nextchar optarg_buf optarg]; [unfold ac in Hi; lia| |now right|exact Hb].
      replace (optind g + 1 + 1) with (optind g + 2) by lia. exact Hd.
    + intros l g' Hl. apply (Hin (L +:+ "")); [|reflexivity|].
      * rewrite app_nil_r_s. intros ->. discriminate.
      * rewrite app_nil_r. apply calls_letters; [exact HL|exact Hl].
Qed.

Lemma calls_words ws : forall g rest,
  forallb (word_ok opt) ws = true -> between_words g (concat (map word_args ws) ++ rest) ->
  exists g1, between_words g1 rest /\ forall l g', calls g1 l g' -> calls g (concat (map word_options ws) ++ l) g'.
Proof.
  induction ws as [|w ws IH]; intros g rest Hws Hg; cbn [forallb map concat] in *; [eauto|].
  apply andb_true_iff in Hws as [Hw Hws]. rewrite <- app_assoc in Hg.
  destruct (calls_word g w _ Hw Hg) as (g1 & Hg1 & H1). destruct (IH g1 rest Hws Hg1) as (g2 & Hg2 & H2).
  exists g2. split; [exact Hg2|]. intros l g' Hl. rewrite <- app_assoc. now apply H1, H2.
Qed.

(** The end of the options leaves [optind] at the first operand. *)
Lemma calls_operands g dashes operands :
  operands_ok dashes operands = true -> between_words g (operand_args dashes operands) ->
  exists g', calls g [] g' /\ 0 <= optind g' /\ drop (Z.to_nat (optind g')) av = operands.
Proof.
  intros Hok Hg. pose proof (bw_index _ _ Hg) as Hi.
  destruct dashes; [|destruct operands as [|a l]]; cbn [operand_args operands_ok orb] in *.
  - destruct (between_arg _ _ _ Hg) as (_ & _ & Hd). eexists. split; [apply calls_end; intros s; rewrite (getopt_next _ _ _ _ Hg); reflexivity|].
    cbn [optind]. replace (optind g + 1 + 1) with (optind g + 2) by lia. split; [lia|exact Hd].
  - pose proof (bw_rest _ _ Hg) as Hr. apply (f_equal length) in Hr. rewrite length_drop in Hr. cbn [length] in Hr.
    exists (mk_getopt (optind g + 1) (Some (optarg_buf g)) (nextchar g)). split.
    + apply calls_end. intros s. unfold getopt. cbv zeta.
      destruct (Z.eqb_spec (optind g + 1) (ac av)) as [_|E]; [|unfold ac in E; lia].
      destruct (bw_next _ _ Hg) as [-> | ->]; reflexivity.
    + cbn [optind]. split; [lia|apply bw_rest, Hg].
  - eexists. split.
    + apply calls_end. intros s. rewrite (getopt_next _ _ _ _ Hg).
      destruct a as [|[[] [] [] [] [] [] [] []] t]; try reflexivity. discriminate.
    + cbn [optind]. split; [lia|apply bw_rest, Hg].
Qed.
End Calls.

(** On a command line, [getopt] finds the options it is made of and stops at the operands. *)
Lemma command_line_calls opt prog ws dashes operands :
  forallb (word_ok opt) ws = true -> operands_ok dashes operands = true ->
  let av := command_line prog ws dashes operands in
  exists g', calls av opt getopt_start (concat (map word_options ws)) g' /\ 0 <= optind g' /\
    drop (Z.to_nat (optind g')) av = operands.
Proof.
  intros Hws Hop av. assert (Hg : between_words av getopt_start (concat (map word_args ws) ++ operand_args dashes operands)).
  { split; [|reflexivity|now left|reflexivity]. cbn [optind getopt_start]. unfold av, command_line. cbn [length]. lia. }
  destruct (calls_words av opt ws _ _ Hws Hg) as (g1 & Hg1 & H1).
  destruct (calls_operands av opt g1 dashes operands Hop Hg1) as (g' & Hg' & Hi).
  exists g'. split; [|exact Hi]. rewrite <- (app_nil_r (concat _)). apply H1, Hg'.
Qed.

(** ** Rounds of the loop *)

Definition text_length (l : list string) : nat := list_sum (map String.length l).

Lemma text_length_drop l : forall i j, (i <= j)%nat -> (text_length (drop j l) <= text_length (drop i l))%nat.
Proof.
  induction l as [|a l IH]; intros i j Hij; [now rewrite !drop_nil|].
  destruct j as [|j]; [now replace i with 0%nat by lia|]. destruct i as [|i]; cbn [drop].
  - change (text_length (drop j l) <= String.length a + text_length l)%nat.
    pose proof (IH 0%nat j ltac:(lia)) as H. rewrite drop_0 in H. lia.
  - apply IH. lia.
Qed.

Lemma text_length_app a b : text_length (a ++ b) = (text_length a + text_length b)%nat.
Proof. unfold text_length. rewrite map_app. apply list_sum_app. Qed.

Section Rounds.
Context (av : list string) (opt : string).

(** The characters left. *)
Definition chars_left (g : getopt_st) : nat :=
  (String.length (default "" (nextchar g)) + text_length (drop (Z.to_nat (optind g + 1)) av))%nat.

(** A call that finds an option consumes a character. *)
Lemma getopt_char_consumes buf i n s r g' s' :
  0 <= i -> getopt_char av opt buf i n s = Ok (r, g') s' ->
  0 <= optind g' /\ (r = -1 \/ (chars_left g' < String.length n + text_length (drop (Z.to_nat (i + 1)) av))%nat).
Proof.
  intros Hi. unfold getopt_char. destruct n as [|c n]; [discriminate|].
  destruct (Ascii.eqb c "-"); [intros [= <- <- _]; split; [cbn; lia|now left]|].
  assert (Hd : (text_length (drop (Z.to_nat (i + 1 + 1)) av) <= text_length (drop (Z.to_nat (i + 1)) av))%nat)
    by (apply text_length_drop; lia).
  destruct (strchr_at opt c) as [cp|].
  2:{ intros [= <- <- _]. split; [exact Hi|]. right. unfold chars_left. cbn. lia. }
  destruct (colon_next cp).
  2:{ intros [= <- <- _]. split; [exact Hi|]. right. unfold chars_left. cbn. lia. }
  unfold getopt_arg. destruct n as [|c' n].
  - cbv zeta. destruct (i + 1 =? ac av); [intros [= <- <- _]; split; [cbn; lia|right; unfold chars_left; cbn; lia]|].
    destruct (arg_at av (i + 1)) as [arg|]; [|discriminate]. unfold must, bind, ret.
    destruct (strcpy 0 arg buf s); intros [= <- <- _]. split; [cbn; lia|]. right. unfold chars_left. cbn. lia.
  - unfold bind, ret. destruct (strcpy 0 (String c' n) buf s) as [b1 s1|]; [|discriminate].
    destruct (store _ c b1 s1); intros [= <- <- _]. split; [exact Hi|]. right. unfold chars_left. cbn. lia.
Qed.

Lemma getopt_consumes g s r g' s' :
  0 <= optind g -> getopt av opt g s = Ok (r, g') s' ->
  0 <= optind g' /\ (r = -1 \/ (chars_left g' < chars_left g)%nat).
Proof.
  intros Hi. unfold getopt. cbv zeta.
  assert (Hnew : String.length (default "" (nextchar g)) = 0%nat ->
    (if optind g + 1 =? ac av then ret (-1, mk_getopt (optind g + 1) (Some (optarg_buf g)) (nextchar g))
     else arg <- must "av[optind]" (arg_at av (optind g + 1));;
          match arg with
          | String "-" rest => getopt_char av opt (optarg_buf g) (optind g + 1) rest
          | _ => ret (-1, mk_getopt (optind g + 1) (Some (optarg_buf g)) (Some arg))
          end) s = Ok (r, g') s' -> 0 <= optind g' /\ (r = -1 \/ (chars_left g' < chars_left g)%nat)).
  { intros _. destruct (optind g + 1 =? ac av); [intros [= <- <- _]; split; [cbn; lia|now left]|].
    destruct (arg_at av (optind g + 1)) as [arg|] eqn:Ea; [|discriminate]. unfold must, bind at 1, ret at 1.
    assert (Hd : text_length (drop (Z.to_nat (optind g + 1)) av) =
      (String.length arg + text_length (drop (Z.to_nat (optind g + 1 + 1)) av))%nat).
    { unfold arg_at in Ea. destruct (Z.ltb_spec (optind g + 1) 0); [discriminate|].
      rewrite (drop_S _ _ _ Ea). now replace (Z.to_nat (optind g + 1 + 1)) with (S (Z.to_nat (optind g + 1))) by lia. }
    assert (Hend : (ret (-1, mk_getopt (optind g + 1) (Some (optarg_buf g)) (Some arg)) : M _) s = Ok (r, g') s' ->
      0 <= optind g' /\ (r = -1 \/ (chars_left g' < chars_left g)%nat)) by (intros [= <- <- _]; split; [cbn; lia|now left]).
    destruct arg as [|[[] [] [] [] [] [] [] []] t]; try exact Hend. intros H.
    apply getopt_char_consumes in H; [|lia]. destruct H as [H0 H]. split; [exact H0|]. destruct H as [H|H]; [now left|right].
    unfold chars_left at 2. cbn [String.length] in Hd. lia. }
  destruct (nextchar g) as [[|c n]|] eqn:En; [apply Hnew; reflexivity| |apply Hnew; reflexivity].
  intros H. apply getopt_char_consumes in H; [|exact Hi]. destruct H as [H0 H]. split; [exact H0|].
  unfold chars_left at 2. rewrite En. exact H.
Qed.

(** More fuel than characters makes no difference. *)
Lemma option_loop_fuel body : forall fuel fuel' g s,
  0 <= optind g -> (chars_left g < fuel)%nat -> (chars_left g < fuel')%nat ->
  option_loop av opt body fuel g s = option_loop av opt body fuel' g s.
Proof.
  induction fuel as [|fuel IH]; intros [|fuel'] g s Hi Hf Hf'; try lia. cbn [option_loop]. unfold bind at 1 4.
  destruct (getopt av opt g s) as [[r g1] s1|] eqn:E; [|reflexivity]. apply getopt_consumes in E; [|exact Hi].
  destruct (r =? -1) eqn:Er; [reflexivity|]. destruct E as [H1 [->|E]]; [discriminate|]. cbv zeta.
  unfold bind at 1 3. destruct (option_text av opt _ g1 s1) as [t s2|]; [|reflexivity].
  unfold bind. destruct (body _ t s2) as [[] s3|]; [|reflexivity]. apply IH; lia.
Qed.
End Rounds.

(** A command line has fewer options than characters. *)
Lemma word_options_length w : (length (word_options w) < text_length (word_args w))%nat.
Proof.
  destruct w as [L v]. unfold word_options, word_args, word_text. cbn [letters last].
  rewrite length_app, length_map, length_chars.
  change (text_length (?a :: ?l)) with (String.length a + text_length l)%nat.
  assert (E : forall a b, String.length (a +:+ b) = (String.length a + String.length b)%nat)
    by (intros a b; pose proof (length_app_s a b); unfold strlen in *; lia).
  rewrite !E. destruct v as [[c arg]|]; cbn; lia.
Qed.

Lemma options_fuel prog ws dashes operands :
  (length (concat (map word_options ws)) < option_fuel (command_line prog ws dashes operands))%nat.
Proof.
  unfold option_fuel, command_line. cbn [map].
  change (list_sum (?n :: map String.length ?l)) with (n + text_length l)%nat. rewrite text_length_app.
  enough (length (concat (map word_options ws)) <= text_length (concat (map word_args ws)))%nat by lia.
  induction ws as [|w ws IH]; [reflexivity|]. cbn [map concat]. rewrite length_app, text_length_app.
  pose proof (word_options_length w). lia.
Qed.
