(* ===== verification/Qstate.v ===== *)
(** The state of the query generator qgen: the flags and tables of tpcd.h and permute.h, the
    global and static variables of qgen.c and varsub.c, and the monad its operations are
    written in, over the state [State.st] of the functions it shares with the generator. *)
From S2P Require Import Prelude CString Float64 State Consts Streams Dist.

(** ** tpcd.h: flags *)
Definition DFLT : Z := 0x0001.
Definition OUTPUT : Z := 0x0002.
Definition EXPLAIN : Z := 0x0004.
Definition DBASE : Z := 0x0008.
Definition VERBOSE : Z := 0x0010.
Definition LOG : Z := 0x0040.
Definition ANSI : Z := 0x0200.
Definition SEED : Z := 0x0400.
Definition COMMENT : Z := 0x0800.
Definition INIT : Z := 0x1000.
Definition TERMINATE : Z := 0x2000.
Definition DFLT_NUM : Z := 0x4000.

Definition VTAG : ascii := ":".
Definition QDIR_TAG : string := "DSS_QUERY".
Definition QDIR_DFLT : string := ".".

(** The macros of a database: those with a conversion are functions of its argument. *)
Record dialect := mk_dialect {
  GEN_QUERY_PLAN : string; START_TRAN : string; END_TRAN : string; SET_OUTPUT : string;
  SET_ROWCOUNT : Z -> string; SET_DBASE : string -> string
}.
Definition nl_s : string := newline.
Definition DB2 : dialect :=
  mk_dialect "SET CURRENT EXPLAIN SNAPSHOT ON;" "" "COMMIT WORK;" ""
    (fun n => "--#SET ROWS_FETCH " +:+ fmt_d n +:+ nl_s) (fun s => "CONNECT TO " +:+ s +:+ " ;" +:+ nl_s).
Definition INFORMIX : dialect :=
  mk_dialect "SET EXPLAIN ON;" "BEGIN WORK;" "COMMIT WORK;" "OUTPUT TO "
    (fun n => "FIRST " +:+ fmt_d n) (fun s => "database " +:+ s +:+ " ;" +:+ nl_s).
Definition SQLSERVER : dialect :=
  mk_dialect ("set showplan on" +:+ nl_s +:+ "set noexec on" +:+ nl_s +:+ "go" +:+ nl_s)
    ("begin transaction" +:+ nl_s +:+ "go" +:+ nl_s) ("commit transaction" +:+ nl_s +:+ "go" +:+ nl_s) ""
    (fun n => "set rowcount " +:+ fmt_d n +:+ nl_s +:+ "go" +:+ nl_s +:+ nl_s)
    (fun s => "use " +:+ s +:+ nl_s +:+ "go" +:+ nl_s).
Definition SYBASE : dialect :=
  mk_dialect ("set showplan on" +:+ nl_s +:+ "set noexec on" +:+ nl_s +:+ "go" +:+ nl_s)
    ("begin transaction" +:+ nl_s +:+ "go" +:+ nl_s) ("commit transaction" +:+ nl_s +:+ "go" +:+ nl_s) ""
    (fun n => "set rowcount " +:+ fmt_d n +:+ nl_s +:+ "go" +:+ nl_s +:+ nl_s)
    (fun s => "use " +:+ s +:+ nl_s +:+ "go" +:+ nl_s).
Definition TDAT : dialect :=
  mk_dialect "EXPLAIN" "BEGIN TRANSACTION" "END TRANSACTION"
    (".SET FORMAT OFF" +:+ nl_s +:+ ".EXPORT REPORT file=")
    (fun n => ".SET RETCANCEL ON" +:+ nl_s +:+ ".SET RETLIMIT " +:+ fmt_d n +:+ nl_s)
    (fun s => ".LOGON " +:+ s +:+ nl_s).

Definition QUERIES_PER_SET : Z := 22.
Definition MAX_PERMUTE : Z := 41.
Definition rowcnt_dflt : list Z :=
  [-1; -1; 100; 10; -1; -1; -1; -1; -1; -1; 20; -1; -1; -1; -1; -1; -1; -1; 100; -1; -1; 100; -1].

(** ** permute.h *)
Definition permutation : list (list Z) :=
  [ [14; 2; 9; 20; 6; 17; 18; 8; 21; 13; 3; 22; 16; 4; 11; 15; 1; 10; 19; 5; 7; 12];
    [21; 3; 18; 5; 11; 7; 6; 20; 17; 12; 16; 15; 13; 10; 2; 8; 14; 19; 9; 22; 1; 4];
    [6; 17; 14; 16; 19; 10; 9; 2; 15; 8; 5; 22; 12; 7; 13; 18; 1; 4; 20; 3; 11; 21];
    [8; 5; 4; 6; 17; 7; 1; 18; 22; 14; 9; 10; 15; 11; 20; 2; 21; 19; 13; 16; 12; 3];
    [5; 21; 14; 19; 15; 17; 12; 6; 4; 9; 8; 16; 11; 2; 10; 18; 1; 13; 7; 22; 3; 20];
    [21; 15; 4; 6; 7; 16; 19; 18; 14; 22; 11; 13; 3; 1; 2; 5; 8; 20; 12; 17; 10; 9];
    [10; 3; 15; 13; 6; 8; 9; 7; 4; 11; 22; 18; 12; 1; 5; 16; 2; 14; 19; 20; 17; 21];
    [18; 8; 20; 21; 2; 4; 22; 17; 1; 11; 9; 19; 3; 13; 5; 7; 10; 16; 6; 14; 15; 12];
    [19; 1; 15; 17; 5; 8; 9; 12; 14; 7; 4; 3; 20; 16; 6; 22; 10; 13; 2; 21; 18; 11];
    [8; 13; 2; 20; 17; 3; 6; 21; 18; 11; 19; 10; 15; 4; 22; 1; 7; 12; 9; 14; 5; 16];
    [6; 15; 18; 17; 12; 1; 7; 2; 22; 13; 21; 10; 14; 9; 3; 16; 20; 19; 11; 4; 8; 5];
    [15; 14; 18; 17; 10; 20; 16; 11; 1; 8; 4; 22; 5; 12; 3; 9; 21; 2; 13; 6; 19; 7];
    [1; 7; 16; 17; 18; 22; 12; 6; 8; 9; 11; 4; 2; 5; 20; 21; 13; 10; 19; 3; 14; 15];
    [21; 17; 7; 3; 1; 10; 12; 22; 9; 16; 6; 11; 2; 4; 5; 14; 8; 20; 13; 18; 15; 19];
    [2; 9; 5; 4; 18; 1; 20; 15; 16; 17; 7; 21; 13; 14; 19; 8; 22; 11; 10; 3; 12; 6];
    [16; 9; 17; 8; 14; 11; 10; 12; 6; 21; 7; 3; 15; 5; 22; 20; 1; 13; 19; 2; 4; 18];
    [1; 3; 6; 5; 2; 16; 14; 22; 17; 20; 4; 9; 10; 11; 15; 8; 12; 19; 18; 13; 7; 21];
    [3; 16; 5; 11; 21; 9; 2; 15; 10; 18; 17; 7; 8; 19; 14; 13; 1; 4; 22; 20; 6; 12];
    [14; 4; 13; 5; 21; 11; 8; 6; 3; 17; 2; 20; 1; 19; 10; 9; 12; 18; 15; 7; 22; 16];
    [4; 12; 22; 14; 5; 15; 16; 2; 8; 10; 17; 9; 21; 7; 3; 6; 13; 18; 11; 20; 19; 1];
    [16; 15; 14; 13; 4; 22; 18; 19; 7; 1; 12; 17; 5; 10; 20; 3; 9; 21; 11; 2; 6; 8];
    [20; 14; 21; 12; 15; 17; 4; 19; 13; 10; 11; 1; 16; 5; 18; 7; 8; 22; 9; 6; 3; 2];
    [16; 14; 13; 2; 21; 10; 11; 4; 1; 22; 18; 12; 19; 5; 7; 8; 6; 3; 15; 20; 9; 17];
    [18; 15; 9; 14; 12; 2; 8; 11; 22; 21; 16; 1; 6; 17; 5; 10; 19; 4; 20; 13; 3; 7];
    [7; 3; 10; 14; 13; 21; 18; 6; 20; 4; 9; 8; 22; 15; 2; 1; 5; 12; 19; 17; 11; 16];
    [18; 1; 13; 7; 16; 10; 14; 2; 19; 5; 21; 11; 22; 15; 8; 17; 20; 3; 4; 12; 6; 9];
    [13; 2; 22; 5; 11; 21; 20; 14; 7; 10; 4; 9; 19; 18; 6; 3; 1; 8; 15; 12; 17; 16];
    [14; 17; 21; 8; 2; 9; 6; 4; 5; 13; 22; 7; 15; 3; 1; 18; 16; 11; 10; 12; 20; 19];
    [10; 22; 1; 12; 13; 18; 21; 20; 2; 14; 16; 7; 15; 3; 4; 17; 5; 19; 6; 8; 9; 11];
    [10; 8; 9; 18; 12; 6; 1; 5; 20; 11; 17; 22; 16; 3; 13; 2; 15; 21; 14; 19; 7; 4];
    [7; 17; 22; 5; 3; 10; 13; 18; 9; 1; 14; 15; 21; 19; 16; 12; 8; 6; 11; 20; 4; 2];
    [2; 9; 21; 3; 4; 7; 1; 11; 16; 5; 20; 19; 18; 8; 17; 13; 10; 12; 15; 6; 14; 22];
    [15; 12; 8; 4; 22; 13; 16; 17; 18; 3; 7; 5; 6; 1; 9; 11; 21; 10; 14; 20; 19; 2];
    [15; 16; 2; 11; 17; 7; 5; 14; 20; 4; 21; 3; 10; 9; 12; 8; 13; 6; 18; 19; 22; 1];
    [1; 13; 11; 3; 4; 21; 6; 14; 15; 22; 18; 9; 7; 5; 10; 20; 12; 16; 17; 8; 19; 2];
    [14; 17; 22; 20; 8; 16; 5; 10; 1; 13; 2; 21; 12; 9; 4; 18; 3; 7; 6; 19; 15; 11];
    [9; 17; 7; 4; 5; 13; 21; 18; 11; 3; 22; 1; 6; 16; 20; 14; 15; 10; 8; 2; 12; 19];
    [13; 14; 5; 22; 19; 11; 9; 6; 18; 15; 8; 10; 7; 4; 17; 16; 3; 1; 12; 2; 21; 20];
    [20; 5; 4; 14; 11; 1; 6; 16; 8; 22; 7; 3; 2; 12; 21; 19; 17; 13; 10; 15; 18; 9];
    [3; 7; 14; 15; 6; 5; 21; 20; 18; 10; 4; 16; 19; 1; 13; 9; 8; 17; 11; 12; 22; 2];
    [13; 15; 17; 1; 22; 11; 3; 4; 7; 20; 14; 21; 9; 8; 2; 18; 16; 6; 10; 12; 5; 19] ].

(** An element of a C array; [None] out of its bounds. *)
Definition at_z {A} (l : list A) (i : Z) : option A := if i <? 0 then None else l !! Z.to_nat i.

(** [permutation[stream % MAX_PERMUTE][query - 1]] *)
Definition SEQUENCE (stream query : Z) : option Z :=
  row ← at_z permutation (stream %c MAX_PERMUTE); at_z row (query - 1).

(** ** The variables *)

Record qst := mk_qst {
  core : st;
  flags : Z; rowcnt : Z; snum : Z; rndm : Z; qnum : Z;
  osuff : option string; lfile : option string; ifile : option string; tfile : option string;
  in_comment : bool;            (* static of strip_comments *)
  param : list string;          (* static of varsub: 11 strings *)
  log : option string           (* static lfp of varsub: what was written to it *)
}.

Definition set_core (f : st -> st) (q : qst) : qst :=
  mk_qst (f (core q)) (flags q) (rowcnt q) (snum q) (rndm q) (qnum q) (osuff q) (lfile q) (ifile q)
    (tfile q) (in_comment q) (param q) (log q).
Definition set_flags (f : Z -> Z) (q : qst) : qst :=
  mk_qst (core q) (f (flags q)) (rowcnt q) (snum q) (rndm q) (qnum q) (osuff q) (lfile q) (ifile q)
    (tfile q) (in_comment q) (param q) (log q).
Definition set_rowcnt (x : Z) (q : qst) : qst :=
  mk_qst (core q) (flags q) x (snum q) (rndm q) (qnum q) (osuff q) (lfile q) (ifile q)
    (tfile q) (in_comment q) (param q) (log q).
Definition set_snum (x : Z) (q : qst) : qst :=
  mk_qst (core q) (flags q) (rowcnt q) x (rndm q) (qnum q) (osuff q) (lfile q) (ifile q)
    (tfile q) (in_comment q) (param q) (log q).
Definition set_rndm (x : Z) (q : qst) : qst :=
  mk_qst (core q) (flags q) (rowcnt q) (snum q) x (qnum q) (osuff q) (lfile q) (ifile q)
    (tfile q) (in_comment q) (param q) (log q).
Definition set_qnum (x : Z) (q : qst) : qst :=
  mk_qst (core q) (flags q) (rowcnt q) (snum q) (rndm q) x (osuff q) (lfile q) (ifile q)
    (tfile q) (in_comment q) (param q) (log q).
Definition set_osuff (x : string) (q : qst) : qst :=
  mk_qst (core q) (flags q) (rowcnt q) (snum q) (rndm q) (qnum q) (Some x) (lfile q) (ifile q)
    (tfile q) (in_comment q) (param q) (log q).
Definition set_lfile (x : string) (q : qst) : qst :=
  mk_qst (core q) (flags q) (rowcnt q) (snum q) (rndm q) (qnum q) (osuff q) (Some x) (ifile q)
    (tfile q) (in_comment q) (param q) (log q).
Definition set_ifile (x : string) (q : qst) : qst :=
  mk_qst (core q) (flags q) (rowcnt q) (snum q) (rndm q) (qnum q) (osuff q) (lfile q) (Some x)
    (tfile q) (in_comment q) (param q) (log q).
Definition set_tfile (x : string) (q : qst) : qst :=
  mk_qst (core q) (flags q) (rowcnt q) (snum q) (rndm q) (qnum q) (osuff q) (lfile q) (ifile q)
    (Some x) (in_comment q) (param q) (log q).
Definition set_in_comment (x : bool) (q : qst) : qst :=
  mk_qst (core q) (flags q) (rowcnt q) (snum q) (rndm q) (qnum q) (osuff q) (lfile q) (ifile q)
    (tfile q) x (param q) (log q).
Definition set_param (f : list string -> list string) (q : qst) : qst :=
  mk_qst (core q) (flags q) (rowcnt q) (snum q) (rndm q) (qnum q) (osuff q) (lfile q) (ifile q)
    (tfile q) (in_comment q) (f (param q)) (log q).
Definition set_log (f : option string -> option string) (q : qst) : qst :=
  mk_qst (core q) (flags q) (rowcnt q) (snum q) (rndm q) (qnum q) (osuff q) (lfile q) (ifile q)
    (tfile q) (in_comment q) (param q) (f (log q)).

(** At the start of [main], with the flags cleared; the program's [Seed] is that of rnd.h. *)
Definition q_start : qst :=
  mk_qst (set_flt_scale (F 1 0) st_start) 0 0 (-1) 0 0 None None None None false (repeat "" 11) None.

(** ** The monad *)

Inductive qres (A : Type) := QOk (a : A) (q : qst) | QStop (why : stop) (q : qst).
Arguments QOk {A} a q.
Arguments QStop {A} why q.
Definition Q (A : Type) : Type := qst -> qres A.

Definition qret {A} (a : A) : Q A := QOk a.
Definition qbind {A B} (m : Q A) (k : A -> Q B) : Q B :=
  fun q => match m q with QOk a q => k a q | QStop w q => QStop w q end.
Definition qgets {A} (f : qst -> A) : Q A := fun q => QOk (f q) q.
Definition qmodify (f : qst -> qst) : Q unit := fun q => QOk tt (f q).
Definition qstop {A} (w : stop) : Q A := fun q => QStop w q.
Definition qmust {A} (what : string) (o : option A) : Q A :=
  match o with Some a => qret a | None => qstop (Undefined what) end.

(** A function that works on the shared state only. *)
Definition lift {A} (m : M A) : Q A := fun q =>
  match m (core q) with
  | Ok a s => QOk a (set_core (fun _ => s) q)
  | Stop w s => QStop w (set_core (fun _ => s) q)
  end.

Declare Scope q_scope.
Delimit Scope q_scope with Q.
Notation "x <- m ;; k" := (qbind m (fun x => k))
  (at level 20, m at level 99, k at level 200) : q_scope.
Notation "' p <- m ;; k" := (qbind m (fun p => k))
  (at level 20, p pattern, m at level 99, k at level 200) : q_scope.
Notation "m ;; k" := (qbind m (fun _ => k)) (at level 100, k at level 200, right associativity) : q_scope.

(** [fprintf(ofp, ...)], where [ofp] is [stdout]. *)
Definition qprint (text : string) : Q unit := qmodify (set_core (set_stdout (fun o => o +:+ text))).

Definition has (fl f : Z) : bool := negb (Z.land fl f =? 0).
