(* ===== verification/Varsub.v ===== *)
(** The substitution parameters of the queries: [varsub] of varsub.c, their defaults, and what
    the parameters a run draws look like. *)
From S2P Require Import Prelude CString Float64 Rng State Consts Streams Dist Build Calendar Qstate.

#[local] Open Scope q_scope.

(** The distributions qgen loads ([setup] of qgen.c). *)
Record qdists := mk_qdists {
  q_p_cntr_set : distribution; q_colors : distribution; q_p_types_set : distribution;
  q_nations : distribution; q_nations2 : distribution; q_regions : distribution;
  q_o_priority_set : distribution; q_l_instruct_set : distribution; q_l_smode_set : distribution;
  q_l_category_set : distribution; q_l_rflag_set : distribution; q_c_mseg_set : distribution;
  q13a : distribution; q13b : distribution
}.

Definition MAX_PARAM : Z := 10.
Definition Q11_FRACTION : f64 := f_lit 1 10000.

(** The default of a parameter, [None] for [NULL]. *)
Definition defaults_row (l : list string) : list (option string) :=
  map Some l ++ repeat None (11 - length l).
Definition defaults : list (list (option string)) := map defaults_row
  [ ["90"]; ["15"; "BRASS"; "EUROPE"]; ["BUILDING"; "1995-03-15"]; ["1993-07-01"];
    ["ASIA"; "1994-01-01"]; ["1994-01-01"; ".06"; "24"]; ["FRANCE"; "GERMANY"];
    ["BRAZIL"; "AMERICA"; "ECONOMY ANODIZED STEEL"]; ["green"]; ["1993-10-01"];
    ["GERMANY"; "0.0001"]; ["MAIL"; "SHIP"; "1994-01-01"]; ["special"; "requests"];
    ["1995-09-01"]; ["1996-01-01"];
    ["Brand#45"; "MEDIUM POLISHED"; "49"; "14"; "23"; "45"; "19"; "3"; "36"; "9"];
    ["Brand#23"; "MED BOX"]; ["300"]; ["Brand#12"; "Brand#23"; "Brand#34"; "1"; "10"; "20"];
    ["forest"; "1994-01-01"; "CANADA"]; ["SAUDI ARABIA"];
    ["13"; "31"; "23"; "29"; "30"; "18"; "17"]; []; [] ].

(** [sprintf("%11.10f", x)]: the exact value rounded half to even at the tenth decimal. *)
Definition fmt_11_10f (x : f64) : string :=
  let n := Z.abs (fm x) * 10 ^ 10 in
  let r := if 0 <=? fe x then n * 2 ^ fe x else rne n (- fe x) in
  lpad " " 11 ((if fm x <? 0 then "-" else "") +:+ udec (r / 10 ^ 10) +:+ "." +:+ lpad "0" 10 (udec (r mod 10 ^ 10))).

Section Varsub.
Context (D : qdists) (asc_date : list string) (can_append : string -> bool) (fuel : nat).

(** [sprintf(param[i], ...)] and [strcpy(param[i], ...)], within [char param[11][128]]. *)
Definition put (i : Z) (s : string) : Q unit :=
  if (0 <=? i) && (i <? 11) && (strlen s <? 128) then qmodify (set_param (fun l => <[Z.to_nat i := s]> l))
  else qstop (Undefined "param").
Definition get_param (i : Z) : Q string := qgets (fun q => default "" (at_z (param q) i)).

(** [pick_str(&d, qnum, param[i])] *)
Definition pick_param (d : distribution) (qnum i : Z) : Q Z :=
  p <- lift (pick_str d qnum);; put i (snd p);; qret (fst p).
Definition unif (lo hi qnum : Z) : Q Z := lift (UnifInt lo hi qnum).

(** [while (pick_str(&d, qnum, param[i]) == tmp_date);] *)
Fixpoint pick_other (n : nat) (d : distribution) (qnum i tmp_date : Z) : Q unit :=
  match n with
  | O => qstop (Undefined "fuel")
  | S n => k <- pick_param d qnum i;; if k =? tmp_date then pick_other n d qnum i tmp_date else qret tt
  end.

(** The offset of the last blank, at which the scan backwards for one stops. *)
Fixpoint last_blank (s : string) : option Z :=
  match s with
  | EmptyString => None
  | String c s =>
      match last_blank s with
      | Some i => Some (i + 1)
      | None => if Ascii.eqb c " " then Some 0 else None
      end
  end.

(** ["19%02d-%02d-01", 93 + tmp_date/12, tmp_date%12 + 1] *)
Definition month_of (tmp_date : Z) : string :=
  "19" +:+ fmt_0d 2 (93 + tmp_date /c 12) +:+ "-" +:+ fmt_0d 2 (tmp_date %c 12 + 1) +:+ "-01".
(** ["19%d-01-01"] *)
Definition year_of (tmp_date : Z) : string := "19" +:+ fmt_d tmp_date +:+ "-01-01".

(** ["Brand#%d%d", tmp1, tmp2] *)
Definition put_brand (qnum i : Z) : Q unit :=
  tmp1 <- unif 1 5 qnum;; tmp2 <- unif 1 5 qnum;;
  put i ("Brand#" +:+ fmt_d tmp1 +:+ fmt_d tmp2).

(** [n] times: [param[i++]] gets [k] plus the number [permute(lptr, c, qnum)] points to, in
    decimal, and [lptr] is cleared. *)
Fixpoint put_permuted (n : nat) (lptr : bool) (c k qnum i : Z) : Q unit :=
  match n with
  | O => qret tt
  | S n => v <- lift (permute lptr c qnum);; put i (fmt_d (v + k));; put_permuted n false c k qnum (i + 1)
  end.

(** The cases of the [switch (qnum)]; [false] for [default], which returns. *)
Definition set_vars (qnum : Z) : Q bool :=
  match qnum with
  | 1 => v <- unif 60 120 qnum;; put 1 (fmt_d v);; put 2 "";; qret true
  | 2 =>
      v <- unif P_SIZE_MIN P_SIZE_MAX qnum;; put 1 (fmt_d v);;
      pick_param (q_p_types_set D) qnum 3;;
      p3 <- get_param 3;;
      b <- qmust "ptr - 1" (last_blank p3);;
      put 2 (drop_s (b + 1) p3);;
      pick_param (q_regions D) qnum 3;; put 4 "";; qret true
  | 3 =>
      pick_param (q_c_mseg_set D) qnum 1;;
      tmp_date <- unif 0 30 qnum;;
      d <- qmust "asc_date" (at_z asc_date (tmp_date + 1155));;
      put 2 d;; put 3 "";; qret true
  | 4 => tmp_date <- unif 1 58 qnum;; put 1 (month_of tmp_date);; put 2 "";; qret true
  | 5 =>
      pick_param (q_regions D) qnum 1;;
      tmp_date <- unif 93 97 qnum;; put 2 (year_of tmp_date);; put 3 "";; qret true
  | 6 =>
      tmp_date <- unif 93 97 qnum;; put 1 (year_of tmp_date);;
      v <- unif 2 9 qnum;; put 2 ("0.0" +:+ fmt_d v);;
      v <- unif 24 25 qnum;; put 3 (fmt_d v);; put 4 "";; qret true
  | 7 =>
      tmp_date <- pick_param (q_nations2 D) qnum 1;;
      pick_other fuel (q_nations2 D) qnum 2 tmp_date;; put 3 "";; qret true
  | 8 =>
      tmp_date <- pick_param (q_nations2 D) qnum 1;;
      n <- qmust "nations.list" (at_z (dlist (q_nations D)) tmp_date);;
      r <- qmust "regions.list" (at_z (dlist (q_regions D)) (weight n));;
      put 2 (text r);;
      pick_param (q_p_types_set D) qnum 3;; put 4 "";; qret true
  | 9 => pick_param (q_colors D) qnum 1;; put 2 "";; qret true
  | 10 => tmp_date <- unif 1 24 qnum;; put 1 (month_of tmp_date);; put 2 "";; qret true
  | 11 =>
      pick_param (q_nations2 D) qnum 1;;
      flt <- qgets (fun q => flt_scale (core q));;
      put 2 (fmt_11_10f (fdiv Q11_FRACTION flt));; put 3 "";; qret true
  | 12 =>
      tmp_date <- pick_param (q_l_smode_set D) qnum 1;;
      pick_other fuel (q_l_smode_set D) qnum 2 tmp_date;;
      tmp_date <- unif 93 97 qnum;; put 3 (year_of tmp_date);; put 4 "";; qret true
  | 13 => pick_param (q13a D) qnum 1;; pick_param (q13b D) qnum 2;; put 3 "";; qret true
  | 14 => tmp_date <- unif 1 60 qnum;; put 1 (month_of tmp_date);; put 2 "";; qret true
  | 15 => tmp_date <- unif 1 58 qnum;; put 1 (month_of tmp_date);; put 2 "";; qret true
  | 16 =>
      put_brand qnum 1;;
      pick_param (q_p_types_set D) qnum 2;;
      p2 <- get_param 2;;
      b <- qmust "--ptr" (last_blank p2);;
      put 2 (take_s b p2);;
      put_permuted 8 true 50 1 qnum 3;; qret true
  | 17 => put_brand qnum 1;; pick_param (q_p_cntr_set D) qnum 2;; put 3 "";; qret true
  | 18 => v <- unif 312 315 qnum;; put 1 (fmt_d v);; put 2 "";; qret true
  | 19 =>
      put_brand qnum 1;; put_brand qnum 2;; put_brand qnum 3;;
      v <- unif 1 10 qnum;; put 4 (fmt_d v);;
      v <- unif 10 20 qnum;; put 5 (fmt_d v);;
      v <- unif 20 30 qnum;; put 6 (fmt_d v);; put 7 "";; qret true
  | 20 =>
      pick_param (q_colors D) qnum 1;;
      tmp_date <- unif 93 97 qnum;; put 2 (year_of tmp_date);;
      pick_param (q_nations2 D) qnum 3;; put 4 "";; qret true
  | 21 => pick_param (q_nations2 D) qnum 1;; put 2 "";; qret true
  | 22 => put_permuted 8 true 25 10 qnum 1;; put 8 "";; qret true
  | 23 | 24 => qret true
  | _ => qret false
  end.

(** The parameters the log takes: up to the first [NULL] or empty one. *)
Fixpoint log_line (l : list (option string)) : string :=
  match l with
  | Some s :: l => tab +:+ s +:+ log_line l
  | _ => ""
  end.
Definition nonempty (s : string) : option string := if String.eqb s "" then None else Some s.

Definition log_vars (qnum fl : Z) : Q unit :=
  lf <- qgets lfile;;
  lfp <- qgets log;;
  (match lfp with
   | Some _ => qret tt
   | None =>
       path <- qmust "fopen(NULL)" lf;;
       if can_append path then qmodify (set_log (fun _ => Some "")) else qstop (Exited 1)
   end);;
  l <- (if has fl DFLT then row <- qmust "defaults" (at_z defaults (qnum - 1));; qret (take 10 row)
        else p <- qgets param;; qret (map nonempty (drop 1 p)));;
  qmodify (set_log (fun o => Some (default "" o +:+ fmt_d qnum +:+ log_line l +:+ newline))).

(** [void varsub(int qnum, int vnum, int flags)] *)
Definition varsub (qnum vnum fl : Z) : Q unit :=
  if vnum =? 0 then
    known <- (if has fl DFLT then qret true else set_vars qnum);;
    if negb known then qret tt
    else if has fl LOG then log_vars qnum fl else qret tt
  else if has fl DFLT then
    if (qnum =? 11) && (vnum =? 2) then
      flt <- qgets (fun q => flt_scale (core q));; qprint (fmt_11_10f (fdiv Q11_FRACTION flt))
    else
      row <- qmust "defaults" (at_z defaults (qnum - 1));;
      d <- qmust "defaults" (at_z row (vnum - 1));;
      match d with Some d => qprint d | None => qret tt end
  else if vnum <=? MAX_PARAM then
    l <- qgets param;;
    p <- qmust "param[vnum]" (at_z l vnum);; qprint p
  else qret tt.
End Varsub.
