(* ===== verification/Params.v ===== *)
(** The parameters [varsub] draws: they are those the query templates expect, and the draws
    that are repeated until they differ come to an end. *)
From S2P Require Import Prelude CString Float64 Rng State Consts Streams Dist Build RowSpec Calendar Config Shipped Text Qstate Varsub.

#[local] Open Scope q_scope.

(** ** Triples for the monad of qgen *)

Definition qwp {A} (m : Q A) (P : A -> qst -> Prop) (q : qst) : Prop :=
  match m q with QOk a q' => P a q' | QStop _ _ => False end.

Lemma qwp_ret {A} (a : A) (P : A -> qst -> Prop) q : P a q -> qwp (qret a) P q.
Proof. exact id. Qed.
Lemma qwp_bind {A B} (m : Q A) (k : A -> Q B) (P : B -> qst -> Prop) q :
  qwp m (fun a q' => qwp (k a) P q') q -> qwp (qbind m k) P q.
Proof. unfold qwp, qbind. now destruct (m q). Qed.
Lemma qwp_gets {A} (f : qst -> A) (P : A -> qst -> Prop) q : P (f q) q -> qwp (qgets f) P q.
Proof. exact id. Qed.
Lemma qwp_must {A} what (o : option A) (P : A -> qst -> Prop) q a : o = Some a -> P a q -> qwp (qmust what o) P q.
Proof. intros -> H. exact H. Qed.
Lemma qwp_lift {A} (m : M A) (P : A -> qst -> Prop) q :
  wp m (fun a s => P a (set_core (fun _ => s) q)) (core q) -> qwp (lift m) P q.
Proof. unfold qwp, wp, lift. now destruct (m (core q)). Qed.
Lemma qwp_mono {A} (m : Q A) (P P' : A -> qst -> Prop) q :
  qwp m P q -> (forall a q', P a q' -> P' a q') -> qwp m P' q.
Proof. unfold qwp. destruct (m q); auto. Qed.

(** ** Drawing and storing *)

(** A state in which parameters can be drawn, and one that differs from [q] by draws and has
    the parameters [l]. *)
Definition ready (q : qst) : Prop := seeds_ok (Seed (core q)) /\ length (param q) = 11%nat.
Record drawing (q : qst) (l : list string) (q' : qst) : Prop := mk_drawing {
  dr_seeds : seeds_ok (Seed (core q'));
  dr_param : param q' = l;
  dr_scale : flt_scale (core q') = flt_scale (core q);
}.

(** A distribution whose texts are parameters: not empty, of less than 128 characters. *)
Definition word_ok (t : string) : Prop := 1 <= strlen t < 128.
Definition words_ok (d : distribution) : Prop := dist_ok d /\ forall t, In t (texts d) -> word_ok t.

Section Draw.
Context (q0 : qst).

Lemma qwp_put_core i s l (P : unit -> qst -> Prop) q :
  drawing q0 l q -> 0 <= i < 11 -> strlen s < 128 ->
  (forall q', drawing q0 (<[Z.to_nat i := s]> l) q' -> core q' = core q -> P tt q') -> qwp (put i s) P q.
Proof.
  intros [H1 H2 H3] Hi Hs HP. unfold put.
  destruct (Z.leb_spec 0 i); [|lia]. destruct (Z.ltb_spec i 11); [|lia]. destruct (Z.ltb_spec (strlen s) 128); [|lia].
  apply HP; [|reflexivity]. split; [exact H1|cbn; now rewrite H2|exact H3].
Qed.

Lemma qwp_put i s l (P : unit -> qst -> Prop) q :
  drawing q0 l q -> 0 <= i < 11 -> strlen s < 128 ->
  (forall q', drawing q0 (<[Z.to_nat i := s]> l) q' -> P tt q') -> qwp (put i s) P q.
Proof. intros Hq Hi Hs HP. eapply qwp_put_core; eauto. Qed.

Lemma flt_draw n s : flt_scale (upd_seed n (with_value NextRand) s) = flt_scale s.
Proof. reflexivity. Qed.

Lemma qwp_unif lo hi n l (P : Z -> qst -> Prop) q :
  drawing q0 l q -> lo <= hi < lo + 2 ^ 50 ->
  (forall v q', lo <= v <= hi -> drawing q0 l q' -> P v q') -> qwp (unif lo hi n) P q.
Proof.
  intros [H1 H2 H3] Hlo HP. apply qwp_lift, wp_UnifInt; [exact H1|exact Hlo|]. intros v Hv. apply HP; [exact Hv|].
  split; [|exact H2|exact H3]. pose proof (drawn_range n). destruct H1 as [Hlen Hall].
  split; [cbn; now rewrite length_alter|]. apply Forall_alter_id; [|exact Hall]. intros e He. apply NextRand_ok, He.
Qed.

(** What [pick_str] selects when the stream's next value is [v]. *)
Definition pick_index (d : distribution) (v : Z) : option (Z * set_member) :=
  match last (dlist d) with
  | Some top => pick_loop (dlist d) 0 (1 + scaled v (weight top))
  | None => None
  end.

Lemma draw_flt i s : flt_scale (draw i s) = flt_scale s.
Proof. unfold draw, count_usage. now destruct (in_table i). Qed.

Lemma draw_value n s : 0 <= n < 48 -> (Z.to_nat n < length (Seed s))%nat ->
  value (seed_at (draw n s) n) = NextRand (value (seed_at s n)).
Proof.
  intros Hn Hl. unfold draw, count_usage, drawn. assert (Ht : in_table n = true).
  { unfold in_table, MAX_STREAM. destruct (Z.leb_spec 0 n), (Z.leb_spec n 47); lia || reflexivity. }
  rewrite Ht. unfold seed_at, upd_seed. cbn [Seed set_Seed].
  destruct (lookup_lt_is_Some_2 (Seed s) (Z.to_nat n) Hl) as [e He].
  rewrite !list_lookup_alter, !decide_True, He by reflexivity. reflexivity.
Qed.

(** [pick_str] selects the member at the stream's next value. *)
Lemma pick_str_value d n s :
  dist_ok d -> seeds_ok (Seed s) -> 0 <= n < 48 ->
  exists k m, pick_index d (NextRand (value (seed_at s n))) = Some (Z.of_nat k, m) /\ dlist d !! k = Some m /\
    pick_str d n s = Ok (Z.of_nat k, text m) (draw n s).
Proof.
  intros (Hc & Hlen & top & Ht & Hw) Hs Hn. unfold pick_index. rewrite Ht.
  assert (Hv : seed_ok (NextRand (value (seed_at s n)))) by (apply NextRand_ok, seed_at_ok; [exact Hs|lia]).
  pose proof (scaled_bounds _ (weight top) Hv ltac:(lia)) as Hsc.
  destruct (pick_loop_first (dlist d) 0 (1 + scaled (NextRand (value (seed_at s n))) (weight top)) top Ht ltac:(lia))
    as (k & m & E & Hk & _). exists k, m. rewrite Z.add_0_l in E. split_and!; [exact E|exact Hk|].
  unfold pick_str. rewrite last_lookup in Ht. destruct (Z.ltb_spec (count d - 1) 0); [lia|].
  replace (Z.to_nat (count d - 1)) with (Init.Nat.pred (length (dlist d))) by lia. rewrite Ht.
  rewrite (bind_ok (must _ (Some top)) _ top s s eq_refl).
  assert (Hr : RANDOM 1 (weight top) n s = Ok (1 + scaled (NextRand (value (seed_at s n))) (weight top)) (draw n s)).
  { unfold dss_random, UnifInt. unfold draw, drawn. assert (Hin : in_table n = true).
    { unfold in_table, MAX_STREAM. destruct (Z.leb_spec 0 n), (Z.leb_spec n 47); lia || reflexivity. }
    rewrite Hin. unfold MAX_STREAM. destruct (Z.ltb_spec n 0); [lia|]. destruct (Z.ltb_spec 47 n); [lia|].
    destruct (Z.ltb_spec (weight top) 1); [lia|]. cbn [orb]. unfold bind, modify, gets, ret.
    replace (weight top - 1 + 1) with (weight top) by lia. f_equal. do 2 f_equal.
    unfold seed_at, upd_seed. cbn [Seed set_Seed]. destruct Hs as [Hl48 _].
    destruct (lookup_lt_is_Some_2 (Seed s) (Z.to_nat n)) as [e He]; [lia|]. rewrite list_lookup_alter, decide_True, He by reflexivity. reflexivity. }
  rewrite (bind_ok _ _ _ _ _ Hr), E. reflexivity.
Qed.

Lemma qwp_pick_param d n i l (P : Z -> qst -> Prop) q :
  drawing q0 l q -> words_ok d -> 0 <= n < 48 -> 0 <= i < 11 ->
  (forall k m q', dlist d !! k = Some m -> pick_index d (NextRand (value (seed_at (core q) n))) = Some (Z.of_nat k, m) ->
     word_ok (text m) -> drawing q0 (<[Z.to_nat i := text m]> l) q' ->
     value (seed_at (core q') n) = NextRand (value (seed_at (core q) n)) -> P (Z.of_nat k) q') ->
  qwp (pick_param d n i) P q.
Proof.
  intros [H1 H2 H3] [Hd Hw] Hn Hi HP. destruct (pick_str_value d n (core q) Hd H1 Hn) as (k & m & Hk & Hm & E).
  unfold pick_param. apply qwp_bind, qwp_lift. unfold wp. rewrite E.
  assert (Hword : word_ok (text m)).
  { apply Hw, in_map, list_elem_of_In. eapply list_elem_of_lookup_2, Hm. }
  assert (Hval : value (seed_at (draw n (core q)) n) = NextRand (value (seed_at (core q) n)))
    by (apply draw_value; [exact Hn|destruct H1; lia]).
  apply qwp_bind. cbn [snd fst]. unfold put, qwp.
  destruct (Z.leb_spec 0 i); [|lia]. destruct (Z.ltb_spec i 11); [|lia]. destruct (Z.ltb_spec (strlen (text m)) 128); [|unfold word_ok in Hword; lia].
  apply (HP k m); [exact Hm|exact Hk|exact Hword| |exact Hval].
  split; cbn; [rewrite draw_Seed; now apply seeds_ok_draw|now rewrite H2|now rewrite draw_flt].
Qed.

(** ** Drawing until the choice differs *)

(** Some seed selects a member other than number [t]. *)
Definition can_differ (d : distribution) (t : Z) : Prop :=
  exists v k m, seed_ok v /\ pick_index d v = Some (k, m) /\ k <> t.

Lemma other_within d n i t (P : unit -> qst -> Prop) k : forall l q fuel,
  drawing q0 l q -> words_ok d -> 0 <= n < 48 -> 0 <= i < 11 -> (k < fuel)%nat ->
  (exists j m, pick_index d (rng_steps (S k) (value (seed_at (core q) n))) = Some (j, m) /\ j <> t) ->
  (forall j m q', dlist d !! j = Some m -> Z.of_nat j <> t -> word_ok (text m) ->
     drawing q0 (<[Z.to_nat i := text m]> l) q' -> P tt q') ->
  qwp (pick_other fuel d n i t) P q.
Proof.
  induction k as [|k IH]; intros l q fuel Hq Hd Hn Hi Hf (j & m & Hj & Hne) HP;
    (destruct fuel as [|fuel]; [lia|]); cbn [pick_other]; apply qwp_bind;
    (eapply qwp_pick_param; [exact Hq|exact Hd|exact Hn|exact Hi|]); intros k' m' q' Hm' Hk' Hw Hq' Hv.
  - change (rng_steps 1 (value (seed_at (core q) n))) with (NextRand (value (seed_at (core q) n))) in Hj.
    rewrite Hj in Hk'. injection Hk' as -> ->. destruct (Z.eqb_spec (Z.of_nat k') t); [contradiction|].
    exact (HP k' m' q' Hm' Hne Hw Hq').
  - destruct (Z.eqb_spec (Z.of_nat k') t) as [E|Hne']; [|exact (HP k' m' q' Hm' Hne' Hw Hq')].
    apply (IH _ q' fuel Hq' Hd Hn Hi); [lia| |].
    + exists j, m. rewrite Hv, rng_steps_succ_r. split; [exact Hj|exact Hne].
    + intros j2 m2 q2 Hm2 Hne2 Hw2 Hq2. rewrite list_insert_insert_eq in Hq2. exact (HP j2 m2 q2 Hm2 Hne2 Hw2 Hq2).
Qed.

Lemma qwp_other d n i t l q :
  drawing q0 l q -> words_ok d -> 0 <= n < 48 -> 0 <= i < 11 -> can_differ d t ->
  exists n0, Z.of_nat n0 < nM /\ forall fuel (P : unit -> qst -> Prop), (n0 <= fuel)%nat ->
    (forall j m q', dlist d !! j = Some m -> Z.of_nat j <> t -> word_ok (text m) ->
       drawing q0 (<[Z.to_nat i := text m]> l) q' -> P tt q') ->
    qwp (pick_other fuel d n i t) P q.
Proof.
  intros Hq Hd Hn Hi (v & j & m & Hv & Hj & Hne).
  assert (Hs : seed_ok (NextRand (value (seed_at (core q) n)))) by (apply NextRand_ok, seed_at_ok; [apply Hq|lia]).
  destruct (rng_reaches _ _ Hs Hv) as (k & Hk & Hr). exists (S k). split; [lia|].
  intros fuel P Hf HP. apply (other_within d n i t P k l q fuel); try assumption.
  exists j, m. rewrite <- rng_steps_succ_r, Hr. split; [exact Hj|exact Hne].
Qed.
End Draw.

Lemma drawing_start q : ready q -> drawing q (param q) q.
Proof. intros [H _]. now split. Qed.

(** C36. The loops that draw a parameter until it differs from the one before come to an end:
    as long as some seed selects another member, fewer draws than the period of the
    generator are enough, and the parameter stored is the text of a member with another
    number. *)
Theorem pick_other_terminates d n i t q :
  ready q -> words_ok d -> 0 <= n < 48 -> 0 <= i < 11 -> can_differ d t ->
  exists n0, Z.of_nat n0 < nM /\ forall fuel, (n0 <= fuel)%nat ->
    qwp (pick_other fuel d n i t)
      (fun _ q' => exists j m, dlist d !! j = Some m /\ Z.of_nat j <> t /\
         param q' = <[Z.to_nat i := text m]> (param q)) q.
Proof.
  intros Hq Hd Hn Hi Hdiff.
  destruct (qwp_other q d n i t (param q) q (drawing_start q Hq) Hd Hn Hi Hdiff) as (n0 & Hn0 & H).
  exists n0. split; [exact Hn0|]. intros fuel Hf. apply H; [exact Hf|].
  intros j m q' Hm Hne _ Hq'. exists j, m. split_and!; [exact Hm|exact Hne|apply Hq'].
Qed.

Definition words_okb (d : distribution) : bool :=
  dist_okb d && forallb (fun t => (1 <=? strlen t) && (strlen t <? 128)) (texts d).
Lemma words_okb_ok d : words_okb d = true -> words_ok d.
Proof.
  unfold words_okb. rewrite andb_true_iff, forallb_forall. intros [H1 H2]. split; [now apply dist_okb_ok|].
  intros t Ht. specialize (H2 t Ht). unfold word_ok. lia.
Qed.

Lemma q_start_ready : ready q_start.
Proof. split; [apply Seed_init_ok|reflexivity]. Qed.

(** The generator's smallest and largest seeds select different regions. *)
Lemma pick_other_terminates_witness :
  exists n0, Z.of_nat n0 < nM /\ forall fuel, (n0 <= fuel)%nat ->
    qwp (pick_other fuel (regions shipped) 5 2 0)
      (fun _ q' => exists j m, dlist (regions shipped) !! j = Some m /\ Z.of_nat j <> 0 /\
         param q' = <[2%nat := text m]> (param q_start)) q_start.
Proof.
  apply (pick_other_terminates (regions shipped) 5 2 0 q_start).
  - apply q_start_ready.
  - apply words_okb_ok. vm_compute. reflexivity.
  - lia.
  - lia.
  - exists (nM - 1). eexists. eexists. split; [unfold seed_ok, nM; lia|]. split; [vm_compute; reflexivity|discriminate].
Defined.

(** ** The parameters of each query *)

(** The parameters up to the first empty one. *)
Fixpoint upto_empty (l : list string) : list string :=
  match l with
  | [] => []
  | s :: l => if String.eqb s "" then [] else s :: upto_empty l
  end.
Definition used (q : qst) : list string := upto_empty (drop 1 (param q)).

(** The first of a month: months [lo] to [hi] counted from the one before February 1993. *)
Definition month_param (lo hi : Z) (p : string) : Prop :=
  exists y m, 0 <= m < 12 /\ lo <= 12 * y + m <= hi /\
    p = "19" +:+ fmt_0d 2 (93 + y) +:+ "-" +:+ fmt_0d 2 (m + 1) +:+ "-01".
Definition year_param (p : string) : Prop := exists y, 1993 <= y <= 1997 /\ p = fmt_d y +:+ "-01-01".
Definition number_param (lo hi : Z) (p : string) : Prop := exists v, lo <= v <= hi /\ p = fmt_d v.
Definition brand_param (p : string) : Prop :=
  exists m b, 1 <= m <= 5 /\ 1 <= b <= 5 /\ p = "Brand#" +:+ fmt_d (10 * m + b).
Definition text_param (d : distribution) (p : string) : Prop := In p (texts d).
(** Different numbers from [lo] to [hi]. *)
Definition distinct_params (n : nat) (lo hi : Z) (l : list string) : Prop :=
  exists vs, length vs = n /\ NoDup vs /\ Forall (fun v => lo <= v <= hi) vs /\ l = map fmt_d vs.
(** The texts of two different members. *)
Definition different_params (d : distribution) (p1 p2 : string) : Prop :=
  exists i j, i <> j /\ texts d !! i = Some p1 /\ texts d !! j = Some p2.

Definition query_ok (D : qdists) (scale : f64) (qnum : Z) (l : list string) : Prop :=
  match qnum, l with
  | 1, [p1] => number_param 60 120 p1
  | 2, [p1; p2; p3] =>
      number_param 1 50 p1 /\ text_param (q_regions D) p3 /\
      exists a, text_param (q_p_types_set D) (a +:+ " " +:+ p2) /\ all_chars (not_char " ") p2 = true
  | 3, [p1; p2] => text_param (q_c_mseg_set D) p1 /\ exists d, 1 <= d <= 31 /\ p2 = "199503" +:+ fmt_0d 2 d
  | 4, [p1] => month_param 1 58 p1
  | 5, [p1; p2] => text_param (q_regions D) p1 /\ year_param p2
  | 6, [p1; p2; p3] => year_param p1 /\ (exists v, 2 <= v <= 9 /\ p2 = "0.0" +:+ fmt_d v) /\ number_param 24 25 p3
  | 7, [p1; p2] => different_params (q_nations2 D) p1 p2
  | 8, [p1; p2; p3] =>
      text_param (q_p_types_set D) p3 /\
      exists i n r, texts (q_nations2 D) !! i = Some p1 /\ dlist (q_nations D) !! i = Some n /\
        dlist (q_regions D) !! Z.to_nat (weight n) = Some r /\ p2 = text r
  | 9, [p1] => text_param (q_colors D) p1
  | 10, [p1] => month_param 1 24 p1
  | 11, [p1; p2] => text_param (q_nations2 D) p1 /\ p2 = fmt_11_10f (fdiv Q11_FRACTION scale)
  | 12, [p1; p2; p3] => different_params (q_l_smode_set D) p1 p2 /\ year_param p3
  | 13, [p1; p2] => text_param (q13a D) p1 /\ text_param (q13b D) p2
  | 14, [p1] => month_param 1 60 p1
  | 15, [p1] => month_param 1 58 p1
  | 16, p1 :: p2 :: l =>
      brand_param p1 /\ distinct_params 8 1 50 l /\
      exists w, text_param (q_p_types_set D) (p2 +:+ " " +:+ w) /\ all_chars (not_char " ") w = true
  | 17, [p1; p2] => brand_param p1 /\ text_param (q_p_cntr_set D) p2
  | 18, [p1] => number_param 312 315 p1
  | 19, [p1; p2; p3; p4; p5; p6] =>
      brand_param p1 /\ brand_param p2 /\ brand_param p3 /\
      number_param 1 10 p4 /\ number_param 10 20 p5 /\ number_param 20 30 p6
  | 20, [p1; p2; p3] => text_param (q_colors D) p1 /\ year_param p2 /\ text_param (q_nations2 D) p3
  | 21, [p1] => text_param (q_nations2 D) p1
  | 22, l => distinct_params 7 10 34 l
  | _, _ => False
  end.

(** Distributions the queries can use. *)
Record vars_ok (D : qdists) : Prop := mk_vars_ok {
  vo_words : forall d, In d [q_p_cntr_set D; q_colors D; q_p_types_set D; q_nations2 D; q_regions D;
                             q_l_smode_set D; q_c_mseg_set D; q13a D; q13b D] -> words_ok d;
  vo_types : forall t, In t (texts (q_p_types_set D)) ->
    exists b, last_blank t = Some b /\ 1 <= b /\ b + 1 < strlen t;
  vo_nations : forall i m, dlist (q_nations2 D) !! i = Some m ->
    exists n, dlist (q_nations D) !! i = Some n /\ 0 <= weight n < Z.of_nat (length (dlist (q_regions D)));
  vo_differ : forall t, can_differ (q_nations2 D) t /\ can_differ (q_l_smode_set D) t;
}.

(** *** Shapes of parameters *)

Lemma upto_words ws rest : Forall word_ok ws -> upto_empty (ws ++ "" :: rest) = ws.
Proof.
  induction 1 as [|w ws Hw _ IH]; [reflexivity|]. cbn [app upto_empty].
  destruct (String.eqb_spec w "") as [->|]; [unfold word_ok in Hw; rewrite strlen_nil in Hw; lia|]. now rewrite IH.
Qed.

Lemma upto_all ws : Forall word_ok ws -> upto_empty ws = ws.
Proof.
  induction 1 as [|w ws Hw _ IH]; [reflexivity|]. cbn [upto_empty].
  destruct (String.eqb_spec w "") as [->|]; [unfold word_ok in Hw; rewrite strlen_nil in Hw; lia|]. now rewrite IH.
Qed.

Lemma word_fmt_d v : - 2 ^ 63 <= v < 2 ^ 63 -> word_ok (fmt_d v).
Proof. intros Hv. pose proof (fmt_d_len v Hv). unfold word_ok. lia. Qed.

Lemma lpad_long c w t : 1 <= w -> 1 <= strlen (lpad c w t).
Proof.
  intros Hw. unfold lpad. rewrite length_app_s, length_rep. pose proof (strlen_nonneg t). lia.
Qed.

(** Facts about a range of numbers, by evaluation. *)
Lemma check_range (f : Z -> bool) lo n :
  forallb f (map (fun k => lo + Z.of_nat k) (seq 0 n)) = true -> forall v, lo <= v < lo + Z.of_nat n -> f v = true.
Proof.
  rewrite forallb_forall. intros H v Hv. apply H, in_map_iff. exists (Z.to_nat (v - lo)).
  split; [lia|]. apply in_seq. lia.
Qed.

Lemma month_ok t : 1 <= t <= 60 -> word_ok (month_of t) /\ forall hi, t <= hi -> month_param 1 hi (month_of t).
Proof.
  intros Ht. pose proof (Z.div_mod t 12 ltac:(lia)). pose proof (Z.mod_pos_bound t 12 ltac:(lia)). split.
  - pose proof (check_range (fun t => (1 <=? strlen (month_of t)) && (strlen (month_of t) <? 128)) 1 60 eq_refl t ltac:(lia)) as H1.
    cbv beta in H1. unfold word_ok. lia.
  - intros hi Hhi. exists (t / 12), (t mod 12). split_and!; [lia..|]. unfold month_of.
    now rewrite quot_div, rem_mod by lia.
Qed.

Lemma year_ok y : 93 <= y <= 97 -> word_ok (year_of y) /\ year_param (year_of y).
Proof.
  intros Hy. pose proof (check_range (fun y => (1 <=? strlen (year_of y)) && (strlen (year_of y) <? 128) &&
    String.eqb (year_of y) (fmt_d (1900 + y) +:+ "-01-01")) 93 5 eq_refl y ltac:(lia)) as H.
  rewrite !andb_true_iff, String.eqb_eq in H. split; [unfold word_ok; lia|]. exists (1900 + y). split; [lia|apply H].
Qed.

Lemma brand_ok m b : 1 <= m <= 5 -> 1 <= b <= 5 ->
  word_ok ("Brand#" +:+ fmt_d m +:+ fmt_d b) /\ brand_param ("Brand#" +:+ fmt_d m +:+ fmt_d b).
Proof.
  intros Hm Hb. assert (H : fmt_d m +:+ fmt_d b = fmt_d (10 * m + b) /\ strlen (fmt_d m +:+ fmt_d b) = 2).
  { pose proof (check_range (fun m => forallb (fun b => String.eqb (fmt_d m +:+ fmt_d b) (fmt_d (10 * m + b)) &&
      (strlen (fmt_d m +:+ fmt_d b) =? 2)) [1; 2; 3; 4; 5]) 1 5 eq_refl m ltac:(lia)) as H.
    rewrite forallb_forall in H. assert (Hin : In b [1; 2; 3; 4; 5]) by (cbn; lia). specialize (H b Hin).
    rewrite andb_true_iff, String.eqb_eq, Z.eqb_eq in H. exact H. }
  destruct H as [H1 H2]. split; [|exists m, b; rewrite H1; auto].
  unfold word_ok. rewrite length_app_s, H2. change (strlen "Brand#") with 6. lia.
Qed.

(** The last blank splits a text in two parts, the second without blanks. *)
Lemma last_blank_inv s : forall b, last_blank s = Some b ->
  exists x w, s = x +:+ " " +:+ w /\ b = strlen x /\ all_chars (not_char " ") w = true.
Proof.
  induction s as [|c s IH]; intros b; cbn [last_blank]; [discriminate|].
  destruct (last_blank s) as [i|] eqn:E.
  - intros [= <-]. destruct (IH i eq_refl) as (x & w & -> & -> & Hw). exists (String c x), w.
    split_and!; [now rewrite app_cons_s|rewrite strlen_cons; lia|exact Hw].
  - destruct (Ascii.eqb_spec c " ") as [->|]; [|discriminate]. intros [= <-]. exists "", s.
    split_and!; [reflexivity|reflexivity|]. clear IH. induction s as [|a s IH]; [reflexivity|].
    cbn [last_blank] in E. destruct (last_blank s) as [|] eqn:E2; [discriminate|]. cbn [all_chars].
    unfold not_char at 1. destruct (Ascii.eqb a " "); [discriminate|]. cbn [negb andb]. apply IH. reflexivity.
Qed.

(** The dates of March 1995 in the date table. *)
Lemma march_1995 asc k : mk_ascdate = Some asc -> 0 <= k <= 30 ->
  exists d, at_z asc (k + 1155) = Some d /\ word_ok d /\ exists day, 1 <= day <= 31 /\ d = "199503" +:+ fmt_0d 2 day.
Proof.
  intros Ha Hk.
  assert (H : match mk_ascdate with Some asc => forallb (fun k =>
      match at_z asc (k + 1155) with Some d => String.eqb d ("199503" +:+ fmt_0d 2 (k + 1)) && (strlen d =? 8) | None => false end)
      (map (fun k => 0 + Z.of_nat k) (seq 0 31)) | None => false end = true) by (vm_compute; reflexivity).
  rewrite Ha in H. pose proof (check_range _ 0 31 H k ltac:(lia)) as Hd. cbv beta in Hd.
  destruct (at_z asc (k + 1155)) as [d|]; [|discriminate]. rewrite andb_true_iff, String.eqb_eq, Z.eqb_eq in Hd.
  exists d. split; [reflexivity|]. split; [unfold word_ok; lia|]. exists (k + 1). split; [lia|apply Hd].
Qed.

(** ** Drawing the parameters *)

Section Queries.
Context (D : qdists) (asc : list string) (q0 : qst) (HD : vars_ok D) (Hasc : mk_ascdate = Some asc)
  (Hscale : strlen (fmt_11_10f (fdiv Q11_FRACTION (flt_scale (core q0)))) < 128).

Definition drawn_ok (n : Z) (known : bool) (q' : qst) : Prop :=
  known = true /\ query_ok D (flt_scale (core q0)) n (used q') /\ ready q'.

Lemma finish n l q' : drawing q0 l q' -> length l = 11%nat ->
  query_ok D (flt_scale (core q0)) n (upto_empty (drop 1 l)) -> drawn_ok n true q'.
Proof. intros [H1 H2 H3] Hl Hq. split_and!; [reflexivity| |split; [exact H1|now rewrite H2]]. unfold used. now rewrite H2. Qed.

Lemma pick_text d k m : dlist d !! k = Some m -> text_param d (text m).
Proof. intros H. apply in_map, list_elem_of_In. eapply list_elem_of_lookup_2, H. Qed.

Lemma texts_lookup d k m : dlist d !! k = Some m -> texts d !! k = Some (text m).
Proof. intros H. unfold texts. change (map text (dlist d)) with (text <$> dlist d). now rewrite list_lookup_fmap, H. Qed.
End Queries.

(** The steps of a [set_vars] case: a draw, a draw from a distribution, the store of a value
    known to be a parameter, the empty string that ends the parameters. *)
Ltac v_unif v Hv := apply qwp_bind; eapply qwp_unif; [eassumption|unfold P_SIZE_MIN, P_SIZE_MAX; lia|intros v ? Hv ?; cbv [P_SIZE_MIN P_SIZE_MAX] in Hv].
Ltac v_put H := let Hw := fresh "Hw" in pose proof H as Hw;
  apply qwp_bind; eapply qwp_put; [eassumption|lia|exact (proj2 Hw)|intros ? ?].
Ltac v_pick HD k m Hm :=
  apply qwp_bind; eapply qwp_pick_param; [eassumption|apply (vo_words _ HD); cbn; tauto|lia|lia|intros k m ? Hm _ ? ? _].
Ltac v_words := repeat (apply Forall_cons; split; [assumption|]); constructor.
Ltac v_done ws :=
  apply qwp_bind; eapply qwp_put; [eassumption|lia|reflexivity|intros ? ?]; apply qwp_ret; eapply finish; [eassumption|reflexivity|];
  cbn [insert list_insert Z.to_nat Pos.to_nat Pos.iter_op Init.Nat.add drop];
  match goal with |- context [upto_empty ?l] =>
    replace (upto_empty l) with ws by (symmetry; apply (upto_words ws); v_words)
  end.

Section Simple.
Context (D : qdists) (asc : list string) (fuel : nat) (q0 : qst) (HD : vars_ok D) (Hasc : mk_ascdate = Some asc)
  (Hscale : strlen (fmt_11_10f (fdiv Q11_FRACTION (flt_scale (core q0)))) < 128)
  (p0 p1 p2 p3 p4 p5 p6 p7 p8 p9 p10 : string)
  (Hq0 : drawing q0 [p0; p1; p2; p3; p4; p5; p6; p7; p8; p9; p10] q0).

Lemma query_1 : qwp (set_vars D asc fuel 1) (drawn_ok D q0 1) q0.
Proof.
  cbn [set_vars]. v_unif v Hv. v_put (word_fmt_d v ltac:(lia)). v_done [fmt_d v]. exact (ex_intro _ v (conj Hv eq_refl)).
Qed.

Lemma query_3 : qwp (set_vars D asc fuel 3) (drawn_ok D q0 3) q0.
Proof.
  cbn [set_vars]. v_pick HD k m Hm. v_unif v Hv.
  destruct (march_1995 asc v Hasc Hv) as (d & Hd & Hdw & Hday). apply qwp_bind. eapply qwp_must; [exact Hd|].
  v_put Hdw. v_done [text m; d]. split; [exact (pick_text _ _ _ Hm)|exact Hday].
Qed.

Lemma query_4 : qwp (set_vars D asc fuel 4) (drawn_ok D q0 4) q0.
Proof.
  cbn [set_vars]. v_unif v Hv. destruct (month_ok v ltac:(lia)) as [Hw Hm]. v_put Hw.
  v_done [month_of v]. apply Hm. lia.
Qed.

Lemma query_10 : qwp (set_vars D asc fuel 10) (drawn_ok D q0 10) q0.
Proof.
  cbn [set_vars]. v_unif v Hv. destruct (month_ok v ltac:(lia)) as [Hw Hm]. v_put Hw.
  v_done [month_of v]. apply Hm. lia.
Qed.

Lemma query_14 : qwp (set_vars D asc fuel 14) (drawn_ok D q0 14) q0.
Proof.
  cbn [set_vars]. v_unif v Hv. destruct (month_ok v ltac:(lia)) as [Hw Hm]. v_put Hw.
  v_done [month_of v]. apply Hm. lia.
Qed.

Lemma query_15 : qwp (set_vars D asc fuel 15) (drawn_ok D q0 15) q0.
Proof.
  cbn [set_vars]. v_unif v Hv. destruct (month_ok v ltac:(lia)) as [Hw Hm]. v_put Hw.
  v_done [month_of v]. apply Hm. lia.
Qed.

Lemma query_5 : qwp (set_vars D asc fuel 5) (drawn_ok D q0 5) q0.
Proof.
  cbn [set_vars]. v_pick HD k m Hm. v_unif v Hv. destruct (year_ok v Hv) as [Hw Hy]. v_put Hw.
  v_done [text m; year_of v]. split; [exact (pick_text _ _ _ Hm)|exact Hy].
Qed.

Lemma query_6 : qwp (set_vars D asc fuel 6) (drawn_ok D q0 6) q0.
Proof.
  cbn [set_vars]. v_unif y Hv. destruct (year_ok y Hv) as [Hw Hy]. v_put Hw.
  v_unif d Hd. assert (Hdw : word_ok ("0.0" +:+ fmt_d d)).
  { pose proof (fmt_d_len d ltac:(lia)). unfold word_ok. rewrite length_app_s. change (strlen "0.0") with 3. lia. }
  v_put Hdw. v_unif n Hn. v_put (word_fmt_d n ltac:(lia)).
  v_done [year_of y; "0.0" +:+ fmt_d d; fmt_d n].
  exact (conj Hy (conj (ex_intro _ d (conj Hd eq_refl)) (ex_intro _ n (conj Hn eq_refl)))).
Qed.

Lemma query_9 : qwp (set_vars D asc fuel 9) (drawn_ok D q0 9) q0.
Proof. cbn [set_vars]. v_pick HD k m Hm. v_done [text m]. exact (pick_text _ _ _ Hm). Qed.

Lemma query_21 : qwp (set_vars D asc fuel 21) (drawn_ok D q0 21) q0.
Proof. cbn [set_vars]. v_pick HD k m Hm. v_done [text m]. exact (pick_text _ _ _ Hm). Qed.

Lemma query_13 : qwp (set_vars D asc fuel 13) (drawn_ok D q0 13) q0.
Proof.
  cbn [set_vars]. v_pick HD k m Hm. v_pick HD k2 m2 Hm2. v_done [text m; text m2].
  exact (conj (pick_text _ _ _ Hm) (pick_text _ _ _ Hm2)).
Qed.

Lemma query_18 : qwp (set_vars D asc fuel 18) (drawn_ok D q0 18) q0.
Proof.
  cbn [set_vars]. v_unif v Hv. v_put (word_fmt_d v ltac:(lia)). v_done [fmt_d v].
  exact (ex_intro _ v (conj Hv eq_refl)).
Qed.

Lemma query_20 : qwp (set_vars D asc fuel 20) (drawn_ok D q0 20) q0.
Proof.
  cbn [set_vars]. v_pick HD k m Hm. v_unif v Hv. destruct (year_ok v Hv) as [Hw Hy]. v_put Hw.
  v_pick HD k2 m2 Hm2. v_done [text m; year_of v; text m2].
  exact (conj (pick_text _ _ _ Hm) (conj Hy (pick_text _ _ _ Hm2))).
Qed.

Lemma qwp_get i s l (P : string -> qst -> Prop) q :
  drawing q0 l q -> at_z l i = Some s -> P s q -> qwp (get_param i) P q.
Proof. intros [_ Hl _] Hs HP. unfold get_param. apply qwp_gets. now rewrite Hl, Hs. Qed.

Lemma query_2 : qwp (set_vars D asc fuel 2) (drawn_ok D q0 2) q0.
Proof.
  cbn [set_vars]. v_unif v Hv. v_put (word_fmt_d v ltac:(lia)). v_pick HD k m Hm.
  apply qwp_bind. eapply (qwp_get 3 (text m)); [eassumption|reflexivity|].
  pose proof (pick_text _ _ _ Hm) as Ht. destruct (vo_types D HD (text m) Ht) as (b & Hb & Hb1 & Hb2).
  apply qwp_bind. eapply qwp_must; [exact Hb|]. destruct (last_blank_inv _ _ Hb) as (x & w & E & -> & Hnb).
  change (x +:+ " " +:+ w) with (x +:+ String " " w) in E. rewrite E, drop_s_after.
  assert (Hw2 : word_ok w).
  { destruct (proj2 (vo_words D HD _ (or_intror (or_intror (or_introl eq_refl)))) (text m) Ht) as [_ Hlt].
    rewrite E, length_app_s, strlen_cons in Hb2. rewrite E, length_app_s, strlen_cons in Hlt.
    pose proof (strlen_nonneg x). unfold word_ok. lia. }
  v_put Hw2. v_pick HD k2 m2 Hm2. v_done [fmt_d v; w; text m2].
  rewrite E in Ht.
  exact (conj (ex_intro _ v (conj Hv eq_refl)) (conj (pick_text _ _ _ Hm2) (ex_intro _ x (conj Ht Hnb)))).
Qed.

Lemma query_8 : qwp (set_vars D asc fuel 8) (drawn_ok D q0 8) q0.
Proof.
  cbn [set_vars]. v_pick HD k m Hm. destruct (vo_nations D HD k m Hm) as (n & Hn & Hw).
  apply qwp_bind. eapply qwp_must; [unfold at_z; destruct (Z.ltb_spec (Z.of_nat k) 0); [lia|]; rewrite Nat2Z.id; exact Hn|].
  destruct (lookup_lt_is_Some_2 (dlist (q_regions D)) (Z.to_nat (weight n)) ltac:(lia)) as [r Hr].
  apply qwp_bind. eapply qwp_must; [unfold at_z; destruct (Z.ltb_spec (weight n) 0); [lia|]; exact Hr|].
  assert (Hrw : word_ok (text r)).
  { apply (vo_words D HD (q_regions D)); [cbn; tauto|exact (pick_text _ _ _ Hr)]. }
  v_put Hrw. v_pick HD k3 m3 Hm3. v_done [text m; text r; text m3].
  refine (conj (pick_text _ _ _ Hm3) (ex_intro _ k (ex_intro _ n (ex_intro _ r _)))).
  exact (conj (texts_lookup _ _ _ Hm) (conj Hn (conj Hr eq_refl))).
Qed.

Lemma query_11 : qwp (set_vars D asc fuel 11) (drawn_ok D q0 11) q0.
Proof.
  cbn [set_vars]. v_pick HD k m Hm. apply qwp_bind, qwp_gets.
  match goal with H : drawing q0 _ ?q |- context [flt_scale (core ?q)] => rewrite (dr_scale _ _ _ H) end.
  assert (Hw : word_ok (fmt_11_10f (fdiv Q11_FRACTION (flt_scale (core q0))))).
  { split; [|exact Hscale]. unfold fmt_11_10f. apply lpad_long. lia. }
  v_put Hw. v_done [text m; fmt_11_10f (fdiv Q11_FRACTION (flt_scale (core q0)))].
  exact (conj (pick_text _ _ _ Hm) eq_refl).
Qed.
End Simple.

(** *** Permuted numbers *)

Definition keeps_scale {A} (m : M A) : Prop :=
  forall s, match m s with Ok _ s' => flt_scale s' = flt_scale s | Stop _ _ => True end.

Lemma keeps_bind {A B} (m : M A) (k : A -> M B) : keeps_scale m -> (forall a, keeps_scale (k a)) -> keeps_scale (bind m k).
Proof.
  intros Hm Hk s. unfold bind. specialize (Hm s). destruct (m s) as [a s'|]; [|exact I].
  specialize (Hk a s'). destruct (k a s') as [b s2|]; [congruence|exact I].
Qed.

Lemma keeps_random lo hi i : keeps_scale (RANDOM lo hi i).
Proof. intros s. destruct (dss_random_draw lo hi i s) as [v ->]. apply draw_flt. Qed.

Lemma keeps_loop n : forall i c str, keeps_scale (permute_loop n i c str).
Proof.
  induction n as [|n IH]; intros i c str; [now intros s|]. cbn [permute_loop].
  apply keeps_bind; [apply keeps_random|]. intros src. apply keeps_bind; [now intros s|]. intros []. apply IH.
Qed.

Lemma keeps_permute b c str : keeps_scale (permute b c str).
Proof.
  unfold permute. apply keeps_bind.
  - destruct b; [|now intros s]. apply keeps_bind; [now intros s|]. intros []. apply keeps_loop.
  - intros []. apply keeps_bind; [now intros s|]. intros []. apply keeps_bind; [now intros s|]. intros p.
    destruct (source p <? 0); [now intros s|]. destruct (pset p !! Z.to_nat (source p)); now intros s.
Qed.

Section Permuted.
Context (q0 : qst) (c n : Z) (Hc : 1 <= c < 2 ^ 31) (Hn : 0 <= n < 48).

(** The array holds each number below [c] once, and [source] is [j]. *)
Definition shuffled (j : nat) (a : list Z) (q : qst) : Prop :=
  perm_ok c a /\ pset (perm (core q)) = a /\ source (perm (core q)) = Z.of_nat j.

Lemma qwp_permute_first l (P : Z -> qst -> Prop) q :
  drawing q0 l q ->
  (forall k a q', drawing q0 l q' -> shuffled 0 a q' -> a !! 0%nat = Some k -> P k q') ->
  qwp (lift (permute true c n)) P q.
Proof.
  intros [H1 H2 H3] HP. pose proof (keeps_permute true c n (core q)) as Hk.
  apply qwp_lift. assert (H : wp (permute true c n) (fun k s => drew (repeat n (Z.to_nat c)) (core q) s /\
    perm_ok c (pset (perm s)) /\ source (perm s) = 0 /\ pset (perm s) !! 0%nat = Some k) (core q)).
  { apply (wp_permute_first c n [] (core q)); [exact H1|apply drew_nil|exact Hc|]. intros k s' Hd Hp _ Hs Hk'. auto. }
  unfold wp in *. destruct (permute true c n (core q)) as [k s'|]; [|exact H]. destruct H as (Hd & Hp & Hs & Hk').
  apply (HP k (pset (perm s'))); [split; cbn; [exact (drew_ok _ _ _ H1 Hd)|exact H2|now rewrite Hk]| |exact Hk'].
  now split.
Qed.

Lemma qwp_permute_next l j a (P : Z -> qst -> Prop) q :
  drawing q0 l q -> shuffled j a q -> Z.of_nat j < c - 1 ->
  (forall k q', drawing q0 l q' -> shuffled (S j) a q' -> a !! S j = Some k -> P k q') ->
  qwp (lift (permute false c n)) P q.
Proof.
  intros [H1 H2 H3] (Hp & Ha & Hs) Hj HP. pose proof (keeps_permute false c n (core q)) as Hk.
  apply qwp_lift. assert (H : wp (permute false c n) (fun k s => drew [] (core q) s /\
    perm s = mk_perm (Z.of_nat j + 1) a (pdist (perm (core q))) /\ a !! S j = Some k) (core q)).
  { apply (wp_permute_next c n [] (core q)); [apply drew_nil|lia|now rewrite Ha|lia|]. intros k s' Hd Hs' Hk'.
    rewrite Hs, Ha in *. replace (Z.to_nat (Z.of_nat j + 1)) with (S j) in Hk' by lia. auto. }
  unfold wp in *. destruct (permute false c n (core q)) as [k s'|]; [|exact H]. destruct H as (Hd & Hs' & Hk').
  apply HP; [split; cbn; [exact (drew_ok _ _ _ H1 Hd)|exact H2|now rewrite Hk]| |exact Hk'].
  split_and!; [exact Hp|cbn; now rewrite Hs'|cbn; rewrite Hs'; cbn; lia].
Qed.

(** Storing strings one after the other. *)
Fixpoint stores (i : Z) (ws : list string) (l : list string) : list string :=
  match ws with [] => l | w :: ws => stores (i + 1) ws (<[Z.to_nat i := w]> l) end.

Lemma qwp_permuted_rest k m : forall i j a l (P : unit -> qst -> Prop) q,
  drawing q0 l q -> shuffled j a q -> 0 <= k < 2 ^ 31 -> 0 <= i -> i + Z.of_nat m <= 11 -> Z.of_nat j + Z.of_nat m < c ->
  (forall q', drawing q0 (stores i (map (fun v => fmt_d (v + k)) (take m (drop (S j) a))) l) q' -> P tt q') ->
  qwp (put_permuted m false c k n i) P q.
Proof.
  induction m as [|m IH]; intros i j a l P q Hq Hs Hk Hi Him Hjm HP; cbn [put_permuted].
  - apply qwp_ret, HP. exact Hq.
  - apply qwp_bind. eapply qwp_permute_next; [exact Hq|exact Hs|lia|]. intros v q1 Hq1 Hs1 Hv.
    assert (Hvr : 0 <= v < c) by (apply (perm_ok_range c a); [apply Hs|eapply list_elem_of_lookup_2, Hv]).
    pose proof (fmt_d_len (v + k) ltac:(lia)).
    apply qwp_bind. eapply qwp_put_core; [exact Hq1|lia|lia|]. intros q2 Hq2 Hc2.
    assert (Hs2 : shuffled (S j) a q2) by (unfold shuffled; rewrite Hc2; exact Hs1).
    apply (IH (i + 1) (S j) a _ P q2 Hq2 Hs2); [lia..|]. intros q' Hq'. apply HP.
    rewrite (drop_S _ _ _ Hv). exact Hq'.
Qed.

(** [m + 1] different numbers from [k] on. *)
Lemma qwp_permuted k m i l (P : unit -> qst -> Prop) q :
  drawing q0 l q -> 0 <= k < 2 ^ 31 -> 0 <= i -> i + Z.of_nat (S m) <= 11 -> Z.of_nat m < c ->
  (forall vs q', length vs = S m -> NoDup vs -> Forall (fun v => k <= v < k + c) vs ->
     drawing q0 (stores i (map fmt_d vs) l) q' -> P tt q') ->
  qwp (put_permuted (S m) true c k n i) P q.
Proof.
  intros Hq Hk Hi Him Hmc HP. cbn [put_permuted]. apply qwp_bind. eapply qwp_permute_first; [exact Hq|].
  intros v a q1 Hq1 Hs1 Hv. pose proof Hs1 as (Hp & _).
  assert (Hvr : 0 <= v < c) by (apply (perm_ok_range c a); [exact Hp|eapply list_elem_of_lookup_2, Hv]).
  pose proof (fmt_d_len (v + k) ltac:(lia)).
  apply qwp_bind. eapply qwp_put_core; [exact Hq1|lia|lia|]. intros q2 Hq2 Hc2.
  apply (qwp_permuted_rest k m (i + 1) 0 a _ P q2 Hq2); [unfold shuffled; rewrite Hc2; exact Hs1|lia..|].
  intros q3 Hq3. apply (HP (map (fun v => v + k) (take (S m) a))).
  - rewrite length_map, length_take. pose proof (perm_ok_length c a ltac:(lia) Hp). lia.
  - assert (Inj (=) (=) (fun v => v + k)) by (intros x y; lia).
    apply (NoDup_fmap_2 (fun v => v + k)). eapply sublist_NoDup; [exact (perm_ok_NoDup c a Hp)|apply sublist_take].
  - apply List.Forall_forall. intros x Hx. apply in_map_iff in Hx as (y & <- & Hy).
    apply list_elem_of_In, elem_of_take in Hy as (j & Hj & _).
    pose proof (perm_ok_range c a y Hp ltac:(eapply list_elem_of_lookup_2, Hj)). lia.
  - destruct a as [|a0 a]; [discriminate Hv|]. cbn in Hv. injection Hv as ->. rewrite map_map. exact Hq3.
Qed.
End Permuted.

Section Brands.
Context (D : qdists) (asc : list string) (fuel : nat) (q0 : qst) (HD : vars_ok D)
  (p0 p1 p2 p3 p4 p5 p6 p7 p8 p9 p10 : string)
  (Hq0 : drawing q0 [p0; p1; p2; p3; p4; p5; p6; p7; p8; p9; p10] q0).

Lemma qwp_brand n i l (P : unit -> qst -> Prop) q :
  drawing q0 l q -> 0 <= i < 11 ->
  (forall p q', brand_param p -> word_ok p -> drawing q0 (<[Z.to_nat i := p]> l) q' -> P tt q') ->
  qwp (put_brand n i) P q.
Proof.
  intros Hq Hi HP. unfold put_brand. v_unif m Hm. v_unif b Hb. destruct (brand_ok m b Hm Hb) as [Hw Hbr].
  eapply qwp_put; [eassumption|exact Hi|exact (proj2 Hw)|]. intros q2 Hq2. exact (HP _ q2 Hbr Hw Hq2).
Qed.

Lemma query_17 : qwp (set_vars D asc fuel 17) (drawn_ok D q0 17) q0.
Proof.
  cbn [set_vars]. apply qwp_bind. eapply qwp_brand; [eassumption|lia|]. intros b q1 Hb Hbw Hq1.
  v_pick HD k m Hm. v_done [b; text m]. exact (conj Hb (pick_text _ _ _ Hm)).
Qed.

Lemma query_19 : qwp (set_vars D asc fuel 19) (drawn_ok D q0 19) q0.
Proof.
  cbn [set_vars]. apply qwp_bind. eapply qwp_brand; [eassumption|lia|]. intros b1 q1 Hb1 Hw1 Hq1.
  apply qwp_bind. eapply qwp_brand; [eassumption|lia|]. intros b2 q2 Hb2 Hw2 Hq2.
  apply qwp_bind. eapply qwp_brand; [eassumption|lia|]. intros b3 q3 Hb3 Hw3 Hq3.
  v_unif v1 Hv1. v_put (word_fmt_d v1 ltac:(lia)). v_unif v2 Hv2. v_put (word_fmt_d v2 ltac:(lia)).
  v_unif v3 Hv3. v_put (word_fmt_d v3 ltac:(lia)). v_done [b1; b2; b3; fmt_d v1; fmt_d v2; fmt_d v3].
  exact (conj Hb1 (conj Hb2 (conj Hb3 (conj (ex_intro _ v1 (conj Hv1 eq_refl))
    (conj (ex_intro _ v2 (conj Hv2 eq_refl)) (ex_intro _ v3 (conj Hv3 eq_refl))))))).
Qed.

Lemma words_of vs k c : 0 <= k < 2 ^ 31 -> c < 2 ^ 31 -> Forall (fun v => k <= v < k + c) vs -> Forall word_ok (map fmt_d vs).
Proof.
  intros Hk Hc. induction 1 as [|v vs Hv _ IH]; [constructor|]. cbn [map]. apply Forall_cons.
  split; [apply word_fmt_d; lia|exact IH].
Qed.

Lemma distinct_range n k c vs : length vs = n -> NoDup vs -> Forall (fun v => k <= v < k + c) vs ->
  distinct_params n k (k + c - 1) (map fmt_d vs).
Proof.
  intros Hl Hnd Hr. exists vs. split_and!; [exact Hl|exact Hnd| |reflexivity].
  eapply Forall_impl; [exact Hr|]. intros v Hv. cbn in *. lia.
Qed.

Lemma query_16 : qwp (set_vars D asc fuel 16) (drawn_ok D q0 16) q0.
Proof.
  cbn [set_vars]. apply qwp_bind. eapply qwp_brand; [eassumption|lia|]. intros b q1 Hb Hbw Hq1.
  v_pick HD k m Hm. apply qwp_bind. eapply (qwp_get q0 2 (text m)); [eassumption|reflexivity|].
  pose proof (pick_text _ _ _ Hm) as Ht. destruct (vo_types D HD (text m) Ht) as (i & Hi & Hi1 & Hi2).
  apply qwp_bind. eapply qwp_must; [exact Hi|]. destruct (last_blank_inv _ _ Hi) as (x & w & E & -> & Hnb).
  rewrite E, take_s_app.
  assert (Hx : word_ok x).
  { destruct (proj2 (vo_words D HD _ (or_intror (or_intror (or_introl eq_refl)))) (text m) Ht) as [_ Hlt].
    rewrite E, !length_app_s in Hlt. pose proof (strlen_nonneg w). change (strlen " ") with 1 in Hlt. unfold word_ok. lia. }
  v_put Hx. apply qwp_bind. eapply (qwp_permuted q0 50 16 ltac:(lia) ltac:(lia) 1 7); [eassumption|lia..|].
  intros vs q4 Hlen Hnd Hr Hq4. apply qwp_ret. eapply finish; [exact Hq4| |].
  all: destruct vs as [|v1 [|v2 [|v3 [|v4 [|v5 [|v6 [|v7 [|v8 [|]]]]]]]]]; try discriminate Hlen.
  { reflexivity. }
  cbn [map stores insert list_insert Z.to_nat Pos.to_nat Pos.iter_op Init.Nat.add drop Z.add Pos.add Pos.succ].
  pose proof (words_of _ 1 50 ltac:(lia) ltac:(lia) Hr) as Hws.
  match goal with |- context [upto_empty ?l] =>
    replace (upto_empty l) with (b :: x :: map fmt_d [v1; v2; v3; v4; v5; v6; v7; v8])
      by (symmetry; apply upto_all; apply Forall_cons; split; [exact Hbw|]; apply Forall_cons; split; [exact Hx|exact Hws])
  end.
  rewrite E in Ht. exact (conj Hb (conj (distinct_range 8 1 50 _ Hlen Hnd Hr) (ex_intro _ w (conj Ht Hnb)))).
Qed.

Lemma query_22 : qwp (set_vars D asc fuel 22) (drawn_ok D q0 22) q0.
Proof.
  cbn [set_vars]. apply qwp_bind. eapply (qwp_permuted q0 25 22 ltac:(lia) ltac:(lia) 10 7); [eassumption|lia..|].
  intros vs q4 Hlen Hnd Hr Hq4. apply qwp_bind. eapply qwp_put; [exact Hq4|lia|reflexivity|]. intros q5 Hq5.
  apply qwp_ret. eapply finish; [exact Hq5| |].
  all: destruct vs as [|v1 [|v2 [|v3 [|v4 [|v5 [|v6 [|v7 [|v8 [|]]]]]]]]]; try discriminate Hlen.
  { reflexivity. }
  cbn [map stores insert list_insert Z.to_nat Pos.to_nat Pos.iter_op Init.Nat.add drop Z.add Pos.add Pos.succ].
  change [v1; v2; v3; v4; v5; v6; v7; v8] with ([v1; v2; v3; v4; v5; v6; v7] ++ [v8]) in Hnd, Hr.
  apply NoDup_app in Hnd as [Hnd _]. apply Forall_app in Hr as [Hr _].
  pose proof (words_of _ 10 25 ltac:(lia) ltac:(lia) Hr) as Hws.
  match goal with |- context [upto_empty ?l] =>
    replace (upto_empty l) with (map fmt_d [v1; v2; v3; v4; v5; v6; v7]) by (symmetry; apply (upto_words (map fmt_d [v1; v2; v3; v4; v5; v6; v7])); exact Hws)
  end.
  exact (distinct_range 7 10 25 [v1; v2; v3; v4; v5; v6; v7] eq_refl Hnd Hr).
Qed.
End Brands.

(** *** All queries *)

Section Repeated.
Context (D : qdists) (asc : list string) (q0 : qst) (HD : vars_ok D)
  (p0 p1 p2 p3 p4 p5 p6 p7 p8 p9 p10 : string)
  (Hq0 : drawing q0 [p0; p1; p2; p3; p4; p5; p6; p7; p8; p9; p10] q0).

(** A member and another one of the same distribution, the second drawn until it differs. *)
Lemma qwp_pair d n (k : Z -> Q bool) (P : bool -> qst -> Prop) :
  words_ok d -> (forall t, can_differ d t) -> 0 <= n < 48 ->
  (forall p r q', different_params d p r -> word_ok p -> word_ok r ->
     drawing q0 (<[2%nat := r]> (<[1%nat := p]> [p0; p1; p2; p3; p4; p5; p6; p7; p8; p9; p10])) q' -> qwp (k 0) P q') ->
  exists n0, Z.of_nat n0 < nM /\ forall fuel, (n0 <= fuel)%nat ->
    qwp (t <- pick_param d n 1;; pick_other fuel d n 2 t;; k 0) P q0.
Proof.
  intros Hd Hdiff Hn Hk.
  pose (start := qwp (pick_param d n 1) (fun t q' => exists i m, dlist d !! i = Some m /\ t = Z.of_nat i /\
    word_ok (text m) /\ drawing q0 (<[1%nat := text m]> [p0; p1; p2; p3; p4; p5; p6; p7; p8; p9; p10]) q') q0).
  assert (Hs : start).
  { eapply qwp_pick_param; [exact Hq0|exact Hd|exact Hn|lia|]. intros i m q' Hm _ Hw Hq' _. exists i, m. auto. }
  unfold start, qwp in Hs. destruct (pick_param d n 1 q0) as [t q1|] eqn:E; [|destruct Hs].
  destruct Hs as (i & m & Hm & -> & Hw & Hq1).
  destruct (qwp_other q0 d n 2 (Z.of_nat i) _ q1 Hq1 Hd Hn ltac:(lia) (Hdiff (Z.of_nat i))) as (n0 & Hn0 & H).
  exists n0. split; [exact Hn0|]. intros fuel Hf. apply qwp_bind. unfold qwp at 1. rewrite E. apply qwp_bind, (H fuel); [exact Hf|].
  intros j m2 q2 Hm2 Hne Hw2 Hq2. apply (Hk (text m) (text m2)); [|exact Hw|exact Hw2|exact Hq2].
  exists i, j. split_and!; [congruence|exact (texts_lookup _ _ _ Hm)|exact (texts_lookup _ _ _ Hm2)].
Qed.

Lemma query_7 : exists n0, Z.of_nat n0 < nM /\ forall fuel, (n0 <= fuel)%nat -> qwp (set_vars D asc fuel 7) (drawn_ok D q0 7) q0.
Proof.
  cbn [set_vars]. apply (qwp_pair (q_nations2 D) 7 (fun _ => put 3 "";; qret true));
    [apply (vo_words _ HD); cbn; tauto|intros t; apply (vo_differ _ HD)|lia|].
  intros p r q1 Hpr Hp Hr Hq1. v_done [p; r]. exact Hpr.
Qed.

Lemma query_12 : exists n0, Z.of_nat n0 < nM /\ forall fuel, (n0 <= fuel)%nat -> qwp (set_vars D asc fuel 12) (drawn_ok D q0 12) q0.
Proof.
  cbn [set_vars]. apply (qwp_pair (q_l_smode_set D) 12
    (fun _ => tmp_date <- unif 93 97 12;; put 3 (year_of tmp_date);; put 4 "";; qret true));
    [apply (vo_words _ HD); cbn; tauto|intros t; apply (vo_differ _ HD)|lia|].
  intros p r q1 Hpr Hp Hr Hq1. v_unif y Hy. destruct (year_ok y Hy) as [Hw Hyp]. v_put Hw.
  v_done [p; r; year_of y]. exact (conj Hpr Hyp).
Qed.
End Repeated.

Lemma query_drawn D asc n q :
  vars_ok D -> mk_ascdate = Some asc -> ready q -> 1 <= n <= 22 ->
  strlen (fmt_11_10f (fdiv Q11_FRACTION (flt_scale (core q)))) < 128 ->
  exists n0, Z.of_nat n0 < nM /\ forall fuel, (n0 <= fuel)%nat ->
    qwp (set_vars D asc fuel n)
      (fun known q' => known = true /\ query_ok D (flt_scale (core q)) n (used q') /\ ready q') q.
Proof.
  intros HD Ha Hq Hn Hsc. pose proof (drawing_start q Hq) as Hq0. destruct Hq as [_ Hlen].
  destruct (param q) as [|p0 [|p1 [|p2 [|p3 [|p4 [|p5 [|p6 [|p7 [|p8 [|p9 [|p10 [|]]]]]]]]]]]]; try discriminate Hlen.
  fold (drawn_ok D q n).
  assert (Hcase : n = 7 \/ n = 12 \/ forall fuel, qwp (set_vars D asc fuel n) (drawn_ok D q n) q).
  { assert (H : In n (map Z.of_nat (seq 1 22))) by (apply in_map_iff; exists (Z.to_nat n); split; [lia|apply in_seq; lia]).
    cbn in H. repeat (destruct H as [<-|H]; [first [left; reflexivity|right; left; reflexivity|right; right; intros fuel]|]);
      [..|destruct H].
    all: cbn [Z.of_nat Pos.of_succ_nat Pos.succ].
    all: [> eapply query_1|eapply query_2|eapply query_3|eapply query_4|eapply query_5|eapply query_6|eapply query_8
      |eapply query_9|eapply query_10|eapply query_11|eapply query_13|eapply query_14|eapply query_15|eapply query_16
      |eapply query_17|eapply query_18|eapply query_19|eapply query_20|eapply query_21|eapply query_22]; eassumption. }
  destruct Hcase as [->|[->|H]]; [eapply query_7|eapply query_12|exists 0%nat; split; [done|]; intros fuel _; apply H]; eassumption.
Qed.

(** C15. The parameters of every query: with distributions the queries can use, a scale factor
    whose fraction for query 11 prints in fewer than 128 characters, and as many draws as the
    generator's period at most for the two queries that repeat them, the drawing of the variables
    of any query from 1 to 22 ends, and the parameters up to the first empty one are as many as
    the query has, each of the kind [query_ok] lists for it: numbers, months, years and brands
    from the ranges varsub.c draws them from, members of the right distribution, the region of
    the nation, distinct sizes, country codes and nations. Where the code and its documents
    differ this is what the code does: the date of query 3 has no dashes, and the month of
    query 10 is one of the 24 from February 1993 to January 1995, where BUGS (problem #1) says
    the first month of 1993 to the last of 1994. *)
Theorem params_drawn D asc n q :
  vars_ok D -> mk_ascdate = Some asc -> ready q -> 1 <= n <= 22 ->
  strlen (fmt_11_10f (fdiv Q11_FRACTION (flt_scale (core q)))) < 128 ->
  exists n0, Z.of_nat n0 < nM /\ forall fuel, (n0 <= fuel)%nat ->
    qwp (set_vars D asc fuel n)
      (fun known q' => known = true /\ query_ok D (flt_scale (core q)) n (used q') /\ ready q') q.
Proof. apply query_drawn. Qed.

(** ** The shipped distributions *)

(** What [setup] of qgen.c reads from the shipped file. *)
Definition qshipped : qdists :=
  Eval vm_compute in
    (let read name := match read_lines (file_lines dists_dss) name false dist_zero 0 0 with
                      | Found d => d | _ => dist_zero end in
     mk_qdists (read "p_cntr") (read "colors") (read "p_types") (read "nations") (read "nations2") (read "regions")
       (read "o_oprio") (read "instruct") (read "smode") (read "category") (read "rflag") (read "msegmnt")
       (read "Q13a") (read "Q13b")).

Lemma two_differ d v1 v2 k1 k2 m1 m2 :
  seed_ok v1 -> seed_ok v2 -> pick_index d v1 = Some (k1, m1) -> pick_index d v2 = Some (k2, m2) -> k1 <> k2 ->
  forall t, can_differ d t.
Proof.
  intros H1 H2 E1 E2 Hne t. destruct (decide (k1 = t)) as [->|H].
  - exists v2, k2, m2. auto.
  - exists v1, k1, m1. auto.
Qed.

Definition types_okb (t : string) : bool :=
  match last_blank t with Some b => (1 <=? b) && (b + 1 <? strlen t) | None => false end.

Lemma qshipped_ok : vars_ok qshipped.
Proof.
  split.
  - assert (H : forallb words_okb [q_p_cntr_set qshipped; q_colors qshipped; q_p_types_set qshipped;
      q_nations2 qshipped; q_regions qshipped; q_l_smode_set qshipped; q_c_mseg_set qshipped; q13a qshipped;
      q13b qshipped] = true) by (vm_compute; reflexivity).
    rewrite forallb_forall in H. intros d Hd. exact (words_okb_ok d (H d Hd)).
  - assert (H : forallb types_okb (texts (q_p_types_set qshipped)) = true) by (vm_compute; reflexivity).
    rewrite forallb_forall in H. intros t Ht. specialize (H t Ht). unfold types_okb in H.
    destruct (last_blank t) as [b|]; [|discriminate]. exists b. split; [reflexivity|]. lia.
  - assert (Hl : length (dlist (q_nations2 qshipped)) = length (dlist (q_nations qshipped))) by reflexivity.
    assert (H : forallb (fun n => (0 <=? weight n) && (weight n <? 5)) (dlist (q_nations qshipped)) = true) by (vm_compute; reflexivity).
    rewrite forallb_forall in H. intros i m Hm. apply lookup_lt_Some in Hm. rewrite Hl in Hm.
    destruct (lookup_lt_is_Some_2 _ _ Hm) as [n Hn]. exists n. split; [exact Hn|].
    assert (Hin : In n (dlist (q_nations qshipped))) by (apply list_elem_of_In; eapply list_elem_of_lookup_2, Hn).
    specialize (H n Hin). change (length (dlist (q_regions qshipped))) with 5%nat. lia.
  - intros t. split.
    + eapply (two_differ _ 1 (nM - 1)); [unfold seed_ok, nM; lia|unfold seed_ok, nM; lia|vm_compute; reflexivity..|discriminate].
    + eapply (two_differ _ 1 (nM - 1)); [unfold seed_ok, nM; lia|unfold seed_ok, nM; lia|vm_compute; reflexivity..|discriminate].
Qed.

Lemma params_drawn_witness :
  exists asc n0, mk_ascdate = Some asc /\ Z.of_nat n0 < nM /\ forall fuel, (n0 <= fuel)%nat ->
    qwp (set_vars qshipped asc fuel 7)
      (fun known q' => known = true /\ query_ok qshipped (flt_scale (core q_start)) 7 (used q') /\ ready q') q_start.
Proof.
  set (asc := map (fun d => fmt_d (date_key d)) (dates_from (Z.to_nat TOTDATE) (1992, 1, 1))). exists asc.
  destruct (params_drawn qshipped asc 7 q_start) as [n0 H].
  - exact qshipped_ok.
  - exact mk_ascdate_dates.
  - exact q_start_ready.
  - lia.
  - vm_compute. reflexivity.
  - exists n0. split; [exact mk_ascdate_dates|exact H].
Defined.
