(* ===== verification/Qgen.v ===== *)
(** The query generator: templates, their comments and directives, the command line and [main]
    of qgen.c. The environment, the files read, the time and the process number are
    parameters; what goes to stderr is left out. *)
From S2P Require Import Prelude CString Float64 Rng State Consts Streams Dist Build Calendar Config Driver Frame Qstate Varsub.

#[local] Open Scope q_scope.

(** ** strip_comments *)

(** The [while (1)] loop, on the line from [cp1], which stays its start, and [in_comment]. *)
Fixpoint strip_loop (fuel : nat) (in_comment : bool) (line : string) : option (bool * string) :=
  match fuel with
  | O => None
  | S fuel =>
      if in_comment then
        match strchr line "}" with
        | Some i => strip_loop fuel false (drop_s (i + 1) line)
        | None => Some (true, "")
        end
      else if match strchr line "-" with
              | Some i => match s_at (i + 1) line with Some c => Ascii.eqb c "-" | None => false end
              | None => false
              end
      then match strchr line "-" with Some i => Some (false, take_s i line) | None => None end
      else
        match strchr line "{" with
        | Some i => strip_loop fuel true (take_s i line +:+ " " +:+ drop_s (i + 1) line)
        | None => Some (false, line)
        end
  end.
Definition strip_fuel (line : string) : nat := 2 * String.length line + 2.

(** [int strip_comments(char *line)], with its static variable: the line it leaves. *)
Definition strip_comments (line : string) : Q string :=
  b <- qgets in_comment;;
  r <- qmust "fuel" (strip_loop (strip_fuel line) b line);;
  qmodify (set_in_comment (fst r));;
  qret (snd r).

Section Qgen.
Context (getenv : string -> option string) (file_text : string -> option string)
  (can_append : string -> bool) (dia : dialect) (fuel : nat).

Section Qsub.
Context (D : qdists) (asc_date : list string).

(** The directives, by their character; [rest] follows it in the line. The result is
    where [mark] goes on, and a [:n] leaves it at the start of the text before it (the scan over its digits has no
    effect). *)
Definition directive (qtag : string) (fl : Z) (before : string) (c : ascii) (rest : string) : Q string :=
  match c with
  | "b"%char | "B"%char => (if has fl ANSI then qret tt else qprint (START_TRAN dia +:+ newline));; qret rest
  | "c"%char | "C"%char =>
      db <- qgets (fun q => db_name (core q));;
      (if has fl DBASE then qprint (SET_DBASE dia (default "(null)" db)) else qret tt);; qret rest
  | "e"%char | "E"%char => (if has fl ANSI then qret tt else qprint (END_TRAN dia +:+ newline));; qret rest
  | "n"%char | "N"%char =>
      (if has fl DFLT_NUM then qret tt
       else qmodify (set_rowcnt (atoi rest));; qprint (SET_ROWCOUNT dia (atoi rest)));;
      qret before
  | "o"%char | "O"%char =>
      os <- qgets osuff;;
      n <- qgets snum;;
      (if has fl OUTPUT then
         qprint (SET_OUTPUT dia +:+ " '" +:+ default "(null)" os +:+ "/" +:+ qtag +:+ "." +:+
                 fmt_d (if n <? 0 then 0 else n) +:+ "'")
       else qret tt);; qret rest
  | "q"%char | "Q"%char => qprint qtag;; qret rest
  | "s"%char | "S"%char => n <- qgets snum;; qprint (fmt_d (if n <? 0 then 0 else n));; qret rest
  | "X"%char | "x"%char => (if has fl EXPLAIN then qprint (GEN_QUERY_PLAN dia +:+ newline) else qret tt);; qret rest
  | "1"%char | "2"%char | "3"%char | "4"%char | "5"%char | "6"%char | "7"%char | "8"%char | "9"%char =>
      n <- qgets qnum;;
      varsub D asc_date can_append fuel n (atoi (String c rest)) (Z.land fl DFLT);;
      qret (after_digits rest)
  | _ => qret rest
  end.

(** The loop on a line, from [mark]. A [:] at the very end makes the code read past the
    string. *)
Fixpoint qsub_line (n : nat) (qtag : string) (fl : Z) (mark : string) : Q unit :=
  match n with
  | O => qstop (Undefined "fuel")
  | S n =>
      match strchr mark VTAG with
      | None => qprint mark
      | Some i =>
          qprint (take_s i mark);;
          match drop_s (i + 1) mark with
          | EmptyString => qstop (Undefined "cptr")
          | String c rest => mark <- directive qtag fl (take_s i mark) c rest;; qsub_line n qtag fl mark
          end
      end
  end.

Fixpoint qsub_lines (qtag : string) (fl : Z) (lines : list string) : Q unit :=
  match lines with
  | [] => qret tt
  | line :: lines =>
      line <- (if has fl COMMENT then qret line else strip_comments line);;
      qsub_line (S (String.length line)) qtag fl line;;
      qsub_lines qtag fl lines
  end.

(** [void qsub(char *qtag, int flags)] *)
Definition qsub (qtag : string) (fl : Z) : Q unit :=
  qmodify (set_qnum (atoi qtag));;
  let qpath := env_config getenv QDIR_TAG QDIR_DFLT +:+ "/" +:+ qtag +:+ ".sql" in
  if BUFSIZ <=? strlen qpath then qstop (Undefined "qpath")
  else match file_text qpath with
  | None => qstop (Exited 1)
  | Some text =>
      rowcnt <- qmust "rowcnt_dflt" (at_z rowcnt_dflt (atoi qtag));;
      qmodify (set_rowcnt rowcnt);;
      varsub D asc_date can_append fuel (atoi qtag) 0 fl;;
      (if has fl DFLT_NUM then qprint (SET_ROWCOUNT dia rowcnt) else qret tt);;
      qsub_lines qtag fl (fgets_all (String.length text) (Z.to_nat (BUFSIZ - 1)) text)
  end.

Fixpoint qsub_all (qtags : list string) (fl : Z) : Q unit :=
  match qtags with [] => qret tt | qtag :: qtags => qsub qtag fl;; qsub_all qtags fl end.
End Qsub.

(** ** The command line *)

Definition NAME : string := "SSBM (Star Schema Benchmark)".
Definition TPC : string := "Transaction Processing Performance Council".
Definition C_DATES : string := "1994 - 2000".
(** [VERSION], [RELEASE], [MODIFICATION], [PATCH] *)
Definition VERSION_S : string := "1.0.0".

Definition line_s (s : string) : string := s +:+ newline.
(** The lines [printf] prints for the options: a letter, blanks, a text. *)
Definition opt_s (o text : string) : string := line_s (tab +:+ o +:+ text).

Definition usage (prog : string) : string :=
  line_s (NAME +:+ " Parameter Substitution (v. " +:+ VERSION_S +:+ ")") +:+
  line_s ("Copyright " +:+ TPC +:+ " " +:+ C_DATES) +:+
  line_s ("USAGE: " +:+ prog +:+ " <options> [ queries ]") +:+
  line_s "Options:" +:+
  opt_s "-a" (tab +:+ tab +:+ "-- use ANSI semantics.") +:+
  opt_s "-b <str>" (tab +:+ "-- load distributions from <str>") +:+
  opt_s "-c" (tab +:+ tab +:+ "-- retain comments found in template.") +:+
  opt_s "-d" (tab +:+ tab +:+ "-- use default substitution values.") +:+
  opt_s "-h" (tab +:+ tab +:+ "-- print this usage summary.") +:+
  opt_s "-i <str>" (tab +:+ "-- use the contents of file <str> to begin a query.") +:+
  opt_s "-l <str>" (tab +:+ "-- log parameters to <str>.") +:+
  opt_s "-n <str>" (tab +:+ "-- connect to database <str>.") +:+
  opt_s "-N" (tab +:+ tab +:+ "-- use default rowcounts and ignore :n directive.") +:+
  opt_s "-o <str>" (tab +:+ "-- set the output file base path to <str>.") +:+
  opt_s "-p <n>" (tab +:+ tab +:+ "-- use the query permutation for stream <n>") +:+
  opt_s "-r <n>" (tab +:+ tab +:+ "-- seed the random number generator with <n>") +:+
  opt_s "-s <n>" (tab +:+ tab +:+ "-- base substitutions on an SF of <n>") +:+
  opt_s "-v" (tab +:+ tab +:+ "-- verbose.") +:+
  opt_s "-t <str>" (tab +:+ "-- use the contents of file <str> to complete a query") +:+
  opt_s "-x" (tab +:+ tab +:+ "-- enable SET EXPLAIN in each query.").

Definition set_flag (f : Z) : Q unit := qmodify (set_flags (fun fl => Z.lor fl f)).

(** One option of [process_options]: what [getopt] returns and [optarg]; for an option it does
    not know, the argument [args[optind]], empty for the null pointer at the end. *)
Definition q_option (prog : string) (opt : ascii) (optarg : string) : Q unit :=
  match opt with
  | "a"%char => set_flag ANSI
  | "b"%char => qmodify (set_core (set_d_path (Some optarg)))
  | "c"%char => set_flag COMMENT
  | "d"%char => set_flag DFLT
  | "h"%char => qprint (usage prog);; qstop (Exited 0)
  | "i"%char => qmodify (set_ifile optarg);; set_flag INIT
  | "l"%char => qmodify (set_lfile optarg);; set_flag LOG
  | "N"%char => set_flag DFLT_NUM
  | "n"%char => qmodify (set_core (set_db_name (Some optarg)));; set_flag DBASE
  | "o"%char => qmodify (set_osuff optarg);; set_flag OUTPUT
  | "p"%char => qmodify (set_snum (atoi optarg))
  | "r"%char => set_flag SEED;; qmodify (set_rndm (atol optarg))
  | "s"%char => qmodify (set_core (set_flt_scale (atof optarg)))
  | "t"%char => qmodify (set_tfile optarg);; set_flag TERMINATE
  | "v"%char => set_flag VERBOSE
  | "x"%char => set_flag EXPLAIN
  | _ =>
      (if String.eqb optarg "" then qstop (Undefined "printf of args[optind]") else qret tt);;
      qprint (line_s ("unknown option '" +:+ optarg +:+ "' ignored"));;
      qprint (usage prog);; qstop (Exited 1)
  end.

Fixpoint q_options (prog : string) (opts : list (ascii * string)) : Q unit :=
  match opts with
  | [] => qret tt
  | (opt, optarg) :: opts => q_option prog opt optarg;; q_options prog opts
  end.

(** ** Setting up *)

(** [int setup(void)] *)
Definition setup : Q (list string * qdists) :=
  asc_date <- qmust "mk_ascdate" mk_ascdate;;
  let read name := lift (read_dist getenv file_text (env_config getenv DIST_TAG DIST_DFLT) name) in
  p_cntr_set <- read "p_cntr";;
  colors <- read "colors";;
  p_types_set <- read "p_types";;
  nations <- read "nations";;
  nations2 <- read "nations2";;
  regions <- read "regions";;
  o_priority_set <- read "o_oprio";;
  l_instruct_set <- read "instruct";;
  l_smode_set <- read "smode";;
  l_category_set <- read "category";;
  l_rflag_set <- read "rflag";;
  c_mseg_set <- read "msegmnt";;
  q13a <- read "Q13a";;
  q13b <- read "Q13b";;
  qret (asc_date, mk_qdists p_cntr_set colors p_types_set nations nations2 regions o_priority_set
          l_instruct_set l_smode_set l_category_set l_rflag_set c_mseg_set q13a q13b).

(** [Seed[i].value = v;] *)
Definition set_seed (i v : Z) : Q unit := qmodify (set_core (upd_seed i (with_value (fun _ => v)))).
Definition seed_value (i : Z) : Q Z := qgets (fun q => value (seed_at (core q) i)).

(** [for (i=1; i <= QUERIES_PER_SET; i++)] of [main]: [n] streams from [i] on. *)
Fixpoint seed_streams (n : nat) (i : Z) : Q unit :=
  match n with
  | O => qret tt
  | S n =>
      v <- seed_value 0;; set_seed 0 (NextRand v);;
      v <- seed_value 0;; set_seed i v;;
      seed_streams n (i + 1)
  end.

(** [DSS_PROC] is [getpid()]. *)
Definition perturb (time proc : Z) : Q unit :=
  fl <- qgets flags;;
  (if has fl SEED then qret tt else qmodify (set_rndm (wrap_u 32 (wrap_u 32 time * proc))));;
  r <- qgets rndm;;
  (if r <? 0 then qmodify (set_rndm (r + 2147483647)) else qret tt);;
  r <- qgets rndm;;
  set_seed 0 r;;
  seed_streams (Z.to_nat QUERIES_PER_SET) 1;;
  qprint (line_s ("-- using " +:+ fmt_d r +:+ " as a seed to the RNG")).

Definition LINE_SIZE : Z := 512.

(** A file copied to the standard output, [fgets] of [LINE_SIZE] by [fgets]. *)
Definition copy_file (path : option string) : Q unit :=
  path <- qmust "fopen(NULL)" path;;
  match file_text path with
  | None => qstop (Exited 1)
  | Some text => qprint (String.concat "" (fgets_all (String.length text) (Z.to_nat (LINE_SIZE - 1)) text))
  end.

(** [1 .. QUERIES_PER_SET] *)
Definition all_queries : list Z := map Z.of_nat (seq 1 (Z.to_nat QUERIES_PER_SET)).

(** The query names of [main], for the arguments that are no options. *)
Definition query_names (snum : Z) (queries : list string) : option (list string) :=
  if 0 <=? snum then
    mapM (fun q => fmt_d <$> SEQUENCE snum q) (match queries with [] => all_queries | _ => map atoi queries end)
  else Some (match queries with [] => map fmt_d all_queries | _ => queries end).

(** [main] after the options; [queries] are the arguments from [optind] on. *)
Definition qgen_rest (queries : list string) (time proc : Z) : Q Z :=
  fl <- qgets flags;;
  (if has fl VERBOSE then
     qprint (line_s ("-- TPC " +:+ NAME +:+ " Parameter Substitution (Version " +:+ VERSION_S +:+ ")"))
   else qret tt);;
  '(asc_date, D) <- setup;;
  (if has fl DFLT then qprint (line_s "-- using default substitutions") else perturb time proc);;
  ifl <- qgets ifile;;
  (if has fl INIT then copy_file ifl else qret tt);;
  sn <- qgets snum;;
  names <- qmust "permutation" (query_names sn queries);;
  qsub_all D asc_date names fl;;
  tfl <- qgets tfile;;
  (if has fl TERMINATE then copy_file tfl else qret tt);;
  qret 0.

(** [main(int ac, char **av)], on the options [getopt] finds. *)
Definition qgen_main (prog : string) (opts : list (ascii * string)) (queries : list string) (time proc : Z) : Q Z :=
  q_options prog opts;; qgen_rest queries time proc.
End Qgen.

(** ** What [strip_comments] does *)

Definition brace : ascii := "{".
(** A line with its opening braces blanked, as the code blanks them. *)
Definition blank_brace (c : ascii) : ascii := if Ascii.eqb c brace then " "%char else c.
Fixpoint blanked (s : string) : string :=
  match s with EmptyString => "" | String c s => String (blank_brace c) (blanked s) end.
Fixpoint braces (s : string) : nat :=
  match s with EmptyString => 0%nat | String c s => ((if Ascii.eqb c brace then 1 else 0) + braces s)%nat end.

Lemma blanked_app a b : blanked (a +:+ b) = blanked a +:+ blanked b.
Proof. induction a as [|c a IH]; [reflexivity|]. rewrite !app_cons_s. cbn [blanked]. now rewrite IH, app_cons_s. Qed.

Lemma blanked_brace a c : blanked (a +:+ String "{" c) = "" +:+ blanked (a +:+ " " +:+ c).
Proof. now rewrite app_nil_s, !blanked_app. Qed.

Lemma braces_app a b : braces (a +:+ b) = (braces a + braces b)%nat.
Proof. induction a as [|c a IH]; [reflexivity|]. rewrite app_cons_s. cbn [braces]. rewrite IH. lia. Qed.

Lemma braces_length s : (braces s <= String.length s)%nat.
Proof. induction s as [|c s IH]; cbn; [lia|]. destruct (Ascii.eqb c brace); lia. Qed.

(** A line whose first dash begins a comment, and what is kept of it. *)
Definition dash_comment (line : string) : bool :=
  match strchr line "-" with
  | Some i => match s_at (i + 1) line with Some c => Ascii.eqb c "-" | None => false end
  | None => false
  end.

Lemma strip_step fuel b line :
  strip_loop (S fuel) b line =
    if b then
      match strchr line "}" with
      | Some i => strip_loop fuel false (drop_s (i + 1) line)
      | None => Some (true, "")
      end
    else if dash_comment line
    then match strchr line "-" with Some i => Some (false, take_s i line) | None => None end
    else
      match strchr line "{" with
      | Some i => strip_loop fuel true (take_s i line +:+ " " +:+ drop_s (i + 1) line)
      | None => Some (false, line)
      end.
Proof. reflexivity. Qed.

(** What is left of a line: a piece of it, blanks for braces, in which no comment starts. *)
Definition stripped (line : string) (r : bool * string) : Prop :=
  (fst r = true -> snd r = "") /\
  (exists p t, blanked line = p +:+ blanked (snd r) +:+ t) /\
  (all_chars (not_char "{") (snd r) = true \/ all_chars (not_char "-") (snd r) = true).

Lemma stripped_within line line' p r :
  blanked line = p +:+ blanked line' -> stripped line' r -> stripped line r.
Proof.
  intros Hl (H1 & (p' & t & H2) & H3). split; [exact H1|]. split; [|exact H3].
  exists (p +:+ p'), t. now rewrite Hl, H2, app_assoc_s.
Qed.

Lemma strip_loop_total fuel : forall (b : bool) line,
  (2 * braces line + (if b then 1 else 0) < fuel)%nat ->
  exists r, strip_loop fuel b line = Some r /\ stripped line r.
Proof.
  induction fuel as [|fuel IH]; intros b line Hf; [lia|]. rewrite strip_step. destruct b.
  - destruct (strchr line "}") as [i|] eqn:E.
    + apply strchr_inv in E as (a & c & -> & -> & Ha). rewrite drop_s_after.
      rewrite braces_app in Hf. cbn [braces] in Hf. destruct (IH false c) as (r & Hr & Hs); [lia|].
      exists r. split; [exact Hr|]. apply (stripped_within _ c (blanked a +:+ "}")); [|exact Hs].
      now rewrite blanked_app, app_assoc_s.
    + exists (true, ""). split; [reflexivity|]. split; [reflexivity|]. split; [|now left].
      exists (blanked line), "". now rewrite !app_nil_r_s.
  - unfold dash_comment. destruct (strchr line "-") as [i|] eqn:E;
      [destruct (match s_at (i + 1) line with Some c => Ascii.eqb c "-" | None => false end)|].
    1: { apply strchr_inv in E as (a & c & -> & -> & Ha). rewrite take_s_app. eexists. split; [reflexivity|].
         split; [discriminate|]. split; [|now right]. exists "", (blanked (String "-" c)).
         rewrite app_nil_s. apply blanked_app. }
    all: destruct (strchr line "{") as [j|] eqn:Eb.
    1, 3: apply strchr_inv in Eb as (a & c & -> & -> & Ha); rewrite take_s_app, drop_s_after;
          rewrite braces_app in Hf; change (braces (String "{" c)) with (1 + braces c)%nat in Hf;
          (destruct (IH true (a +:+ " " +:+ c)) as (r & Hr & Hs);
           [rewrite !braces_app; change (braces " ") with 0%nat; lia|]);
          exists r; split; [exact Hr|]; exact (stripped_within _ _ "" r (blanked_brace a c) Hs).
    all: apply strchr_not in Eb; eexists; (split; [reflexivity|]); (split; [discriminate|]);
         (split; [|now left]); exists "", ""; now rewrite app_nil_s, app_nil_r_s.
Qed.

Lemma strip_loop_mono fuel : forall fuel' b line r,
  strip_loop fuel b line = Some r -> (fuel <= fuel')%nat -> strip_loop fuel' b line = Some r.
Proof.
  induction fuel as [|fuel IH]; intros fuel' b line r H Hle; [discriminate H|].
  destruct fuel' as [|fuel']; [lia|]. rewrite strip_step in *. destruct b.
  - destruct (strchr line "}"); [|exact H]. apply (IH fuel'); [exact H|lia].
  - destruct (dash_comment line); [exact H|]. destruct (strchr line "{"); [|exact H].
    apply (IH fuel'); [exact H|lia].
Qed.

(** The function the fuel computes. *)
Definition strip (b : bool) (line : string) : bool * string :=
  default (b, line) (strip_loop (strip_fuel line) b line).

Lemma strip_total b line : strip_loop (strip_fuel line) b line = Some (strip b line) /\ stripped line (strip b line).
Proof.
  unfold strip. pose proof (braces_length line).
  destruct (strip_loop_total (strip_fuel line) b line) as (r & -> & Hs); [unfold strip_fuel; destruct b; lia|].
  split; [reflexivity|exact Hs].
Qed.

Lemma strip_eq fuel b line r : strip_loop fuel b line = Some r -> strip b line = r.
Proof.
  intros H. destruct (strip_total b line) as [Hs _].
  pose proof (strip_loop_mono _ (Nat.max fuel (strip_fuel line)) _ _ _ H ltac:(lia)) as H1.
  pose proof (strip_loop_mono _ (Nat.max fuel (strip_fuel line)) _ _ _ Hs ltac:(lia)) as H2. congruence.
Qed.

(** C40. [strip_comments] returns on every line, in a comment or not, and changes its static
    variable only. A line that ends inside a comment is emptied; what is left of a line is
    a piece of it, up to blanks for opening braces, that has no opening brace any more, or
    was cut at the first dash. *)
Theorem strip_comments_total line q :
  exists b r, strip_comments line q = QOk r (set_in_comment b q) /\ stripped line (b, r).
Proof.
  destruct (strip_total (in_comment q) line) as [H Hs]. exists (fst (strip (in_comment q) line)), (snd (strip (in_comment q) line)).
  split.
  - unfold strip_comments, qbind, qgets. rewrite H. reflexivity.
  - now destruct (strip (in_comment q) line).
Qed.

(** A comment and the text before it on its line are removed: outside a comment, a line
    that holds a braced comment, whose first dash does not begin one, and whose text before
    the comment has no braces, is stripped to what the rest of the line alone is. *)
Theorem strip_comment_drops pre body post :
  dash_comment (pre +:+ "{" +:+ body +:+ "}" +:+ post) = false ->
  all_chars (not_char "{") pre = true -> all_chars (not_char "}") pre = true ->
  all_chars (not_char "}") body = true ->
  strip false (pre +:+ "{" +:+ body +:+ "}" +:+ post) = strip false post.
Proof.
  intros Hd Hb Hc Hbody. destruct (strip_total false post) as [Hp _]. set (r := strip false post) in *.
  apply (strip_eq (S (S (strip_fuel post)))). rewrite strip_step, Hd.
  change (pre +:+ "{" +:+ body +:+ "}" +:+ post) with (pre +:+ String "{" (body +:+ "}" +:+ post)).
  rewrite (strchr_app pre "{" _ Hb), take_s_app, drop_s_after, strip_step.
  replace (pre +:+ " " +:+ body +:+ "}" +:+ post) with ((pre +:+ " " +:+ body) +:+ String "}" post)
    by (rewrite !app_assoc_s; reflexivity).
  rewrite (strchr_app (pre +:+ " " +:+ body) "}" post), drop_s_after; [exact Hp|].
  change (all_chars (not_char "}") (pre +:+ " " +:+ body) = true).
  rewrite !all_chars_app, Hc, Hbody. reflexivity.
Qed.

Lemma strip_comment_drops_witness :
  dash_comment "select a {why} from b" = false /\ strip false "select a {why} from b" = strip false " from b".
Proof.
  split; [reflexivity|]. apply (strip_comment_drops "select a " "why" " from b"); reflexivity.
Defined.

(** ** Templates *)

(** The pieces of a template line: text, a directive, a parameter. *)
Inductive seg := Lit (s : string) | Sub (c : ascii) | Par (n : Z).

Definition render_seg (x : seg) : string :=
  match x with Lit s => s | Sub c => ":" +:+ String c "" | Par n => ":" +:+ fmt_d n end.
Fixpoint render (l : list seg) : string :=
  match l with [] => "" | x :: l => render_seg x +:+ render l end.

Definition text_char : ascii -> bool := not_char VTAG.
(** Text without a [:], a directive other than [:n] that is no parameter, a parameter the
    code can keep, not followed by a digit. *)
Definition plain_directive (c : ascii) : bool :=
  negb (Ascii.eqb c "n") && negb (Ascii.eqb c "N") && negb ((49 <=? char_code c) && (char_code c <=? 57)).
Fixpoint segs_ok (l : list seg) : bool :=
  match l with
  | [] => true
  | Lit s :: l => all_chars text_char s && segs_ok l
  | Sub c :: l => plain_directive c && segs_ok l
  | Par n :: l => (1 <=? n) && (n <=? MAX_PARAM) && negb (starts_digit (render l)) && segs_ok l
  end.

Section Meaning.
Context (can_append : string -> bool) (dia : dialect) (fuel : nat) (D : qdists) (asc_date : list string)
  (qtag : string) (fl : Z).

(** What a directive stands for: the table in the comment of [qsub]. *)
Definition sub_text (c : ascii) (q : qst) : string :=
  let stream := fmt_d (if snum q <? 0 then 0 else snum q) in
  match c with
  | "b"%char | "B"%char => if has fl ANSI then "" else START_TRAN dia +:+ newline
  | "c"%char | "C"%char => if has fl DBASE then SET_DBASE dia (default "(null)" (db_name (core q))) else ""
  | "e"%char | "E"%char => if has fl ANSI then "" else END_TRAN dia +:+ newline
  | "o"%char | "O"%char =>
      if has fl OUTPUT
      then SET_OUTPUT dia +:+ " '" +:+ default "(null)" (osuff q) +:+ "/" +:+ qtag +:+ "." +:+ stream +:+ "'"
      else ""
  | "q"%char | "Q"%char => qtag
  | "s"%char | "S"%char => stream
  | "x"%char | "X"%char => if has fl EXPLAIN then GEN_QUERY_PLAN dia +:+ newline else ""
  | _ => ""
  end.

Definition meaning (x : seg) : Q unit :=
  match x with
  | Lit s => qprint s
  | Sub c => fun q => qprint (sub_text c q) q
  | Par n => fun q => varsub D asc_date can_append fuel (qnum q) n (Z.land fl DFLT) q
  end.
Fixpoint meanings (l : list seg) : Q unit :=
  match l with [] => qret tt | x :: l => meaning x;; meanings l end.

Lemma qprint_nil q : qprint "" q = QOk tt q.
Proof.
  unfold qprint, qmodify. f_equal. destruct q as [[] ]. unfold set_core, set_stdout. cbn. now rewrite app_nil_r_s.
Qed.

Lemma qprint_app a b q : qprint (a +:+ b) q = (qprint a;; qprint b) q.
Proof.
  unfold qbind, qprint, qmodify. f_equal. destruct q as [[] ]. unfold set_core, set_stdout. cbn.
  now rewrite app_assoc_s.
Qed.

Lemma qbind_eq {A B} (m m' : Q A) (k k' : A -> Q B) q :
  m q = m' q -> (forall a q', m q = QOk a q' -> k a q' = k' a q') -> qbind m k q = qbind m' k' q.
Proof. unfold qbind. intros <- H. destruct (m q) as [a q'|]; [now apply H|reflexivity]. Qed.

Lemma qbind_ret {A B} (a : A) (k : A -> Q B) q : qbind (qret a) k q = k a q.
Proof. reflexivity. Qed.

Lemma qbind_assoc {A B C} (m : Q A) (k : A -> Q B) (h : B -> Q C) q :
  qbind (qbind m k) h q = qbind m (fun a => qbind (k a) h) q.
Proof. unfold qbind. now destruct (m q). Qed.

(** A directive that is no parameter prints its text and goes on after it. *)
Lemma directive_sub before c rest q :
  plain_directive c = true ->
  directive can_append dia fuel D asc_date qtag fl before c rest q =
  (qprint (sub_text c q);; qret rest) q.
Proof.
  intros Hc. unfold plain_directive in Hc.
  assert (E : (qprint "";; qret rest) q = QOk rest q) by (unfold qbind; now rewrite qprint_nil).
  destruct c as [[] [] [] [] [] [] [] []]; try discriminate Hc;
    unfold directive, sub_text; cbv beta iota zeta;
    repeat match goal with |- context [has ?a ?b] => destruct (has a b) end;
    try reflexivity; exact (eq_sym E).
Qed.

Lemma dec_value_stop a r : starts_digit r = false -> dec_value a r = a.
Proof. destruct r as [|c r]; [reflexivity|]. cbn. now intros ->. Qed.

Lemma after_digits_stop r : starts_digit r = false -> after_digits r = r.
Proof. destruct r as [|c r]; [reflexivity|]. cbn. now intros ->. Qed.

Lemma atol_digit c r : is_digit c = true -> atol (String c r) = clamp64 (dec_value (char_code c - 48) r).
Proof. destruct c as [[] [] [] [] [] [] [] []]; try discriminate; reflexivity. Qed.

Lemma atoi_digit c r : is_digit c = true -> starts_digit r = false -> atoi (String c r) = char_code c - 48.
Proof.
  intros Hc Hr. unfold atoi. rewrite atol_digit, dec_value_stop by assumption. unfold is_digit in Hc.
  unfold clamp64. rewrite wrap_s_id; [lia..|]. unfold in_s. lia.
Qed.

Lemma atoi_ten r : starts_digit r = false -> atoi (String "1" (String "0" r)) = 10.
Proof. intros Hr. unfold atoi. rewrite atol_digit by reflexivity. cbn [dec_value is_digit]. rewrite dec_value_stop by exact Hr. reflexivity. Qed.

(** A parameter calls [varsub] and goes on after its digits. *)
Lemma directive_par n before r :
  1 <= n <= MAX_PARAM -> starts_digit r = false ->
  exists c rest, fmt_d n +:+ r = String c rest /\ forall q,
    directive can_append dia fuel D asc_date qtag fl before c rest q =
    (meaning (Par n);; qret r) q.
Proof.
  intros Hn Hr. unfold MAX_PARAM in Hn.
  assert (Hcase : n = 1 \/ n = 2 \/ n = 3 \/ n = 4 \/ n = 5 \/ n = 6 \/ n = 7 \/ n = 8 \/ n = 9 \/ n = 10) by lia.
  pose proof (after_digits_stop r Hr) as Ha.
  repeat (destruct Hcase as [->|Hcase]); [..|rewrite Hcase].
  1-9: eexists _, r; (split; [reflexivity|]); intros q; unfold directive, meaning;
    rewrite Ha, atoi_digit by (reflexivity || exact Hr); reflexivity.
  eexists _, (String "0" r). split; [reflexivity|]. intros q. unfold directive, meaning.
  change (after_digits (String "0" r)) with (after_digits r). rewrite Ha.
  rewrite atoi_ten by exact Hr. reflexivity.
Qed.

(** A line after text that is read but not printed yet. *)
Lemma qsub_line_render l : forall n s q,
  all_chars text_char s = true -> segs_ok l = true -> (String.length (s +:+ render l) < n)%nat ->
  qsub_line can_append dia fuel D asc_date n qtag fl (s +:+ render l) q = (qprint s;; meanings l) q.
Proof.
  assert (Hskip : forall s c rest l n q, all_chars text_char s = true ->
    (forall q', (mark <- directive can_append dia fuel D asc_date qtag fl s c rest;;
                 qsub_line can_append dia fuel D asc_date n qtag fl mark) q' = meanings l q') ->
    qsub_line can_append dia fuel D asc_date (S n) qtag fl (s +:+ String VTAG (String c rest)) q =
    (qprint s;; meanings l) q).
  { intros s c rest l' n q Hs H. cbn [qsub_line]. rewrite (strchr_app s VTAG _ Hs), take_s_app, drop_s_after.
    apply qbind_eq; [reflexivity|]. intros a q' _. apply H. }
  induction l as [|x l IH]; intros n s q Hs Hl Hn; (destruct n as [|n]; [lia|]).
  - cbn [render meanings]. rewrite app_nil_r_s. cbn [qsub_line].
    rewrite (strchr_none s VTAG Hs). unfold qbind. now destruct (qprint s q) as [[] q'|].
  - destruct x as [t|c|p]; cbn [render render_seg segs_ok meanings] in *.
    + apply andb_true_iff in Hl as [Ht Hl]. rewrite <- app_assoc_s in *.
      rewrite IH; [|now rewrite all_chars_app, Hs, Ht|exact Hl|exact Hn].
      rewrite <- qbind_assoc. apply qbind_eq; [apply qprint_app|reflexivity].
    + apply andb_true_iff in Hl as [Hc Hl]. change ((":" +:+ String c "") +:+ render l) with (String VTAG (String c (render l))) in *.
      apply (Hskip s c (render l) (Sub c :: l)); [exact Hs|]. intros q'. cbn [meanings meaning].
      unfold qbind at 1. rewrite directive_sub by exact Hc. unfold qbind at 1 2. unfold qprint, qmodify, qret.
      rewrite length_app_nat in Hn. cbn [String.length] in Hn.
      rewrite <- (app_nil_s (render l)). rewrite (IH n "") by (try reflexivity; rewrite ?app_nil_s; try assumption; lia).
      unfold qbind. now rewrite qprint_nil.
    + rewrite !andb_true_iff, !Z.leb_le, negb_true_iff in Hl. destruct Hl as [[Hp Hd] Hl].
      destruct (directive_par p s (render l) Hp Hd) as (c & rest & E & H).
      change ((":" +:+ fmt_d p) +:+ render l) with (String VTAG (fmt_d p +:+ render l)) in *. rewrite E in *.
      apply (Hskip s c rest (Par p :: l)); [exact Hs|]. intros q'. cbn [meanings].
      rewrite (qbind_eq _ _ _ _ _ (H q') (fun _ _ _ => eq_refl)), qbind_assoc.
      apply qbind_eq; [reflexivity|]. intros [] q2 _. unfold qbind at 1. cbn [qret].
      rewrite <- (app_nil_s (render l)). rewrite IH; [unfold qbind; now rewrite qprint_nil|reflexivity|exact Hl|].
      rewrite app_nil_s. rewrite length_app_nat in Hn. cbn [String.length] in Hn.
      assert (El : String.length (fmt_d p +:+ render l) = S (String.length rest)) by now rewrite E.
      rewrite length_app_nat in El. assert (String.length (fmt_d p) <> 0%nat) by (pose proof (fmt_d_len p); unfold strlen, MAX_PARAM in *; lia).
      lia.
Qed.
End Meaning.

(** ** What [varsub] leaves alone *)

(** Only the streams, the parameters, the log, the row count, the number of the query and the
    standard output may differ. *)
Record same (q q' : qst) : Prop := mk_same {
  sm_flags : flags q' = flags q;
  sm_snum : snum q' = snum q;
  sm_osuff : osuff q' = osuff q;
  sm_files : lfile q' = lfile q /\ ifile q' = ifile q /\ tfile q' = tfile q;
  sm_comment : in_comment q' = in_comment q;
  sm_names : db_name (core q') = db_name (core q) /\ flt_scale (core q') = flt_scale (core q);
}.

#[export] Instance same_preorder : PreOrder same.
Proof.
  split; [intros q; split; repeat split; reflexivity|].
  intros q1 q2 q3 [A1 A2 A3 (A4 & A5 & A6) A7 (A8 & A9)] [B1 B2 B3 (B4 & B5 & B6) B7 (B8 & B9)].
  split; repeat split; congruence.
Qed.

(** [m] keeps [same], and prints nothing. *)
Definition quiet {A} (m : Q A) : Prop :=
  forall q, match m q with QOk _ q' => same q q' | QStop _ _ => True end.
Record hushed (q q' : qst) : Prop := mk_hushed {
  hu_same : same q q';
  hu_qnum : qnum q' = qnum q;
  hu_stdout : stdout (core q') = stdout (core q);
}.
Definition silent {A} (m : Q A) : Prop :=
  forall q, match m q with QOk _ q' => hushed q q' | QStop _ _ => True end.

Lemma hushed_refl q : hushed q q.
Proof. now split. Qed.

Create HintDb quiet.

Lemma silent_ret {A} (a : A) : silent (qret a).
Proof. intros q. apply hushed_refl. Qed.
Lemma silent_stop {A} w : silent (@qstop A w).
Proof. now intros q. Qed.
Lemma silent_gets {A} (f : qst -> A) : silent (qgets f).
Proof. intros q. apply hushed_refl. Qed.
Lemma silent_must {A} what (o : option A) : silent (qmust what o).
Proof. destruct o; [apply silent_ret|apply silent_stop]. Qed.
Lemma silent_lift {A} (m : M A) : inner m -> silent (lift m).
Proof.
  intros Hm q. unfold lift. destruct (m (core q)) as [a s|] eqn:E; [|exact I].
  destruct (inner_out _ _ _ _ Hm E) as (_ & _ & Ho). pose proof (in_names _ Hm _ _ _ E) as Hn.
  split; [split; try reflexivity; [now split_and!|exact Hn]|reflexivity|exact Ho].
Qed.
Lemma silent_param f : silent (qmodify (set_param f)).
Proof. intros q. now split; [split|..]. Qed.
Lemma silent_log f : silent (qmodify (set_log f)).
Proof. intros q. now split; [split|..]. Qed.
Lemma silent_bind {A B} (m : Q A) (k : A -> Q B) : silent m -> (forall a, silent (k a)) -> silent (qbind m k).
Proof.
  intros Hm Hk q. unfold qbind. specialize (Hm q). destruct (m q) as [a q'|]; [|exact I].
  specialize (Hk a q'). destruct (k a q') as [b q2|]; [|exact I]. destruct Hm, Hk. split; [now transitivity q'|congruence..].
Qed.

#[export] Hint Resolve silent_ret silent_stop silent_gets silent_must silent_param silent_log : quiet.
#[export] Hint Extern 2 (silent (lift _)) => apply silent_lift; solve [auto with inner] : quiet.
Ltac silent := repeat first [apply silent_bind; [|intros ?] | solve [auto with quiet] | case_match].

Lemma silent_put i s : silent (put i s).
Proof. unfold put. silent. Qed.
#[export] Hint Resolve silent_put : quiet.
Lemma silent_pick d n i : silent (pick_param d n i).
Proof. unfold pick_param. silent. Qed.
Lemma silent_unif lo hi n : silent (unif lo hi n).
Proof. unfold unif. silent. Qed.
Lemma silent_get i : silent (get_param i).
Proof. unfold get_param. silent. Qed.
#[export] Hint Resolve silent_pick silent_unif silent_get : quiet.
Lemma silent_other n : forall d k i t, silent (pick_other n d k i t).
Proof. induction n as [|n IH]; intros d k i t; cbn [pick_other]; silent. Qed.
Lemma silent_brand n i : silent (put_brand n i).
Proof. unfold put_brand. silent. Qed.
Lemma silent_permuted n : forall b c k q i, silent (put_permuted n b c k q i).
Proof. induction n as [|n IH]; intros b c k q i; cbn [put_permuted]; silent. Qed.
#[export] Hint Resolve silent_other silent_brand silent_permuted : quiet.

Lemma silent_set_vars D asc_date fuel n : silent (set_vars D asc_date fuel n).
Proof. unfold set_vars. silent. Qed.
Lemma silent_log_vars can n fl : silent (log_vars can n fl).
Proof. unfold log_vars. silent. Qed.
#[export] Hint Resolve silent_set_vars silent_log_vars : quiet.

Lemma quiet_silent {A} (m : Q A) : silent m -> quiet m.
Proof. intros Hm q. specialize (Hm q). destruct (m q); [apply Hm|exact I]. Qed.
Lemma quiet_bind {A B} (m : Q A) (k : A -> Q B) : quiet m -> (forall a, quiet (k a)) -> quiet (qbind m k).
Proof.
  intros Hm Hk q. unfold qbind. specialize (Hm q). destruct (m q) as [a q'|]; [|exact I].
  specialize (Hk a q'). destruct (k a q') as [b q2|]; [now transitivity q'|exact I].
Qed.
Lemma quiet_print t : quiet (qprint t).
Proof. intros q. now split. Qed.
#[export] Hint Resolve quiet_silent quiet_print : quiet.
Ltac quiet := repeat first [solve [auto with quiet] | apply quiet_bind; [|intros ?] | case_match].

Lemma quiet_varsub D asc_date can fuel n v fl : quiet (varsub D asc_date can fuel n v fl).
Proof. unfold varsub. quiet. Qed.

(** ** A template file *)

Definition template_path (getenv : string -> option string) (qtag : string) : string :=
  env_config getenv QDIR_TAG QDIR_DFLT +:+ "/" +:+ qtag +:+ ".sql".

Section Template.
Context (can_append : string -> bool) (dia : dialect) (fuel : nat) (D : qdists) (asc_date : list string)
  (qtag : string) (fl : Z).

Definition whole (l : list seg) : list seg := l ++ [Lit newline].

(** A line of a template that fits the buffer and, unless comments are kept, has none. *)
Definition line_okb (l : list seg) : bool :=
  segs_ok l && all_chars (not_char nl) (render l) && (strlen (render l) <? BUFSIZ - 1) &&
  (has fl COMMENT || negb (dash_comment (render (whole l))) && all_chars (not_char brace) (render l)).

(** The meaning of all lines. *)
Fixpoint template (tpl : list (list seg)) : Q unit :=
  match tpl with
  | [] => qret tt
  | l :: tpl => meanings can_append dia fuel D asc_date qtag fl (whole l);; template tpl
  end.

Lemma render_whole l : render (whole l) = render l +:+ newline.
Proof. unfold whole. induction l as [|x l IH]; [reflexivity|]. cbn [app render]. now rewrite IH, app_assoc_s. Qed.

Lemma segs_ok_whole l : segs_ok l = true -> segs_ok (whole l) = true.
Proof.
  unfold whole. induction l as [|x l IH]; [reflexivity|]. cbn [app segs_ok].
  destruct x as [t|c|p]; rewrite ?andb_true_iff; [tauto|tauto|]. intros [[[H1 H2] H3] H4].
  split_and!; try tauto. fold (whole l). rewrite render_whole. destruct (render l); [reflexivity|exact H3].
Qed.

Lemma quiet_meanings l : quiet (meanings can_append dia fuel D asc_date qtag fl l).
Proof.
  induction l as [|x l IH]; cbn [meanings]; [auto with quiet|]. apply quiet_bind; [|intros ?; exact IH].
  destruct x as [t|c|p]; cbn [meaning]; intros q; [apply quiet_print|apply quiet_print|apply quiet_varsub].
Qed.

Lemma strip_no_comment line :
  dash_comment line = false -> all_chars (not_char brace) line = true -> strip false line = (false, line).
Proof.
  intros Hd Hb. apply (strip_eq 1). rewrite strip_step, Hd.
  now rewrite (strchr_none line "{" Hb).
Qed.

Lemma qsub_lines_template tpl : forall q,
  forallb line_okb tpl = true -> in_comment q = false ->
  qsub_lines can_append dia fuel D asc_date qtag fl (map (fun l => render l +:+ String nl "") tpl) q = template tpl q.
Proof.
  induction tpl as [|l tpl IH]; intros q Hok Hc; [reflexivity|]. cbn [forallb map qsub_lines template] in *.
  apply andb_true_iff in Hok as [Hl Hok]. unfold line_okb in Hl. rewrite !andb_true_iff in Hl.
  destruct Hl as [[[Hs Hn] Hlen] Hcom]. change (String nl "") with newline. rewrite <- render_whole.
  assert (E : (if has fl COMMENT then qret (render (whole l)) else strip_comments (render (whole l))) q =
              QOk (render (whole l)) q).
  { destruct (has fl COMMENT); [reflexivity|]. apply andb_true_iff in Hcom as [Hd Hb]. apply negb_true_iff in Hd.
    unfold strip_comments, qbind, qgets. rewrite Hc. destruct (strip_total false (render (whole l))) as [-> _].
    rewrite strip_no_comment; [|exact Hd|].
    - unfold qmust, qret, qmodify. cbn [fst snd]. f_equal. destruct q. cbn in Hc. subst. reflexivity.
    - rewrite render_whole, all_chars_app, Hb. reflexivity. }
  unfold qbind at 1. rewrite E. clear E.
  pose proof (qsub_line_render can_append dia fuel D asc_date qtag fl (whole l) (S (String.length (render (whole l)))) "" q
    eq_refl (segs_ok_whole l Hs) ltac:(rewrite app_nil_s; lia)) as E. rewrite app_nil_s in E.
  unfold qbind at 1 in E. rewrite qprint_nil in E. unfold qbind. rewrite E.
  pose proof (quiet_meanings (whole l) q) as Hq.
  destruct (meanings can_append dia fuel D asc_date qtag fl (whole l) q) as [[] q'|]; [|reflexivity].
  apply IH; [exact Hok|rewrite (sm_comment _ _ Hq); exact Hc].
Qed.
End Template.

Lemma qsub_template getenv file_text can_append dia fuel D asc_date qtag fl rc tpl q :
  file_text (template_path getenv qtag) = Some (unlines (map render tpl)) ->
  strlen (template_path getenv qtag) < BUFSIZ -> at_z rowcnt_dflt (atoi qtag) = Some rc ->
  forallb (line_okb fl) tpl = true -> in_comment q = false ->
  qsub getenv file_text can_append dia fuel D asc_date qtag fl q =
  (qmodify (set_qnum (atoi qtag));; qmodify (set_rowcnt rc);;
   varsub D asc_date can_append fuel (atoi qtag) 0 fl;;
   (if has fl DFLT_NUM then qprint (SET_ROWCOUNT dia rc) else qret tt);;
   template can_append dia fuel D asc_date qtag fl tpl) q.
Proof.
  intros Hf Hlen Hrc Hok Hc. unfold qsub. fold (template_path getenv qtag). rewrite Hf, Hrc.
  destruct (Z.leb_spec BUFSIZ (strlen (template_path getenv qtag))); [lia|]. unfold qmust.
  apply qbind_eq; [reflexivity|]. intros [] q1 [= <-]. refine (eq_trans (qbind_ret _ _ _) _).
  apply qbind_eq; [reflexivity|]. intros [] q2 [= <-].
  apply qbind_eq; [reflexivity|]. intros [] q3 E3.
  pose proof (quiet_varsub D asc_date can_append fuel (atoi qtag) 0 fl (set_rowcnt rc (set_qnum (atoi qtag) q))) as Hq3.
  rewrite E3 in Hq3. apply qbind_eq; [reflexivity|]. intros [] q4 E4.
  assert (Hq4 : in_comment q4 = in_comment q3) by (destruct (has fl DFLT_NUM); injection E4 as <-; reflexivity).
  rewrite (fgets_all_lines (Z.to_nat (BUFSIZ - 1))); [|apply List.Forall_map, List.Forall_forall|reflexivity].
  - rewrite map_map. apply qsub_lines_template; [exact Hok|]. rewrite Hq4, (sm_comment _ _ Hq3). exact Hc.
  - intros l Hl. rewrite forallb_forall in Hok. specialize (Hok l Hl). unfold line_okb in Hok.
    rewrite !andb_true_iff, Z.ltb_lt in Hok. destruct Hok as [[[_ Hn] Hl2] _]. split; [exact Hn|]. unfold BUFSIZ in *. lia.
Qed.

(** C16. [qsub] expands a template: for a file of lines of text, known or unknown directives
    other than [:n], and parameters, without comments unless they are kept, it sets the
    variables of the query and the row count and prints, line by line, the text unchanged
    and for each directive and parameter what it stands for. *)
Theorem qsub_expands getenv file_text can_append dia fuel D asc_date qtag fl rc tpl q :
  file_text (template_path getenv qtag) = Some (unlines (map render tpl)) ->
  strlen (template_path getenv qtag) < BUFSIZ -> at_z rowcnt_dflt (atoi qtag) = Some rc ->
  forallb (line_okb fl) tpl = true -> in_comment q = false ->
  qsub getenv file_text can_append dia fuel D asc_date qtag fl q =
  (qmodify (set_qnum (atoi qtag));; qmodify (set_rowcnt rc);;
   varsub D asc_date can_append fuel (atoi qtag) 0 fl;;
   (if has fl DFLT_NUM then qprint (SET_ROWCOUNT dia rc) else qret tt);;
   template can_append dia fuel D asc_date qtag fl tpl) q.
Proof. apply qsub_template. Qed.

(** A template with text, directives and a parameter, and its expansion with default values. *)
Definition example_tpl : list (list seg) :=
  [[Sub "x"]; [Lit "select * from part where p_size = "; Par 1; Lit " or p_size = 1"]; [Lit "and q = "; Sub "q"; Lit ";"]].
Definition example_file (p : string) : option string :=
  if String.eqb p "./2.sql" then Some (unlines (map render example_tpl)) else None.
Definition example_dists : qdists :=
  mk_qdists dist_zero dist_zero dist_zero dist_zero dist_zero dist_zero dist_zero dist_zero dist_zero dist_zero
    dist_zero dist_zero dist_zero dist_zero.

Lemma qsub_expands_witness :
  forallb (line_okb DFLT) example_tpl = true /\
  qsub (fun _ => None) example_file (fun _ => true) DB2 0 example_dists [] "2" DFLT q_start =
  (qmodify (set_qnum (atoi "2"));; qmodify (set_rowcnt 100);;
   varsub example_dists [] (fun _ => true) 0 (atoi "2") 0 DFLT;;
   (if has DFLT DFLT_NUM then qprint (SET_ROWCOUNT DB2 100) else qret tt);;
   template (fun _ => true) DB2 0 example_dists [] "2" DFLT example_tpl) q_start.
Proof.
  split; [reflexivity|].
  apply (qsub_expands (fun _ => None) example_file (fun _ => true) DB2 0 example_dists [] "2" DFLT 100 example_tpl q_start);
    [reflexivity|vm_compute; reflexivity|reflexivity|reflexivity|reflexivity].
Defined.

(** ** The permutations *)

Definition row_okb (r : list Z) : bool :=
  bool_decide (NoDup r) && bool_decide (mapM (fun q => at_z r (q - 1)) all_queries = Some r) &&
  forallb (fun q => bool_decide (q ∈ all_queries)) r.

Lemma permutation_rows : forallb row_okb permutation = true /\ length permutation = Z.to_nat MAX_PERMUTE.
Proof. split; vm_compute; reflexivity. Qed.

Lemma mapM_map {A B C} (f : B -> C) (g : A -> option B) l : mapM (fun a => f <$> g a) l = map f <$> mapM g l.
Proof.
  induction l as [|a l IH]; [reflexivity|]. cbn [mapM]. destruct (g a) as [b|]; [|reflexivity].
  cbn. rewrite IH. now destruct (mapM g l).
Qed.

Lemma mapM_len {A B} (g : A -> option B) l l' : mapM g l = Some l' -> length l' = length l.
Proof. intros H. apply mapM_Some_1 in H. symmetry. exact (Forall2_length _ _ _ H). Qed.

(** With no query arguments qgen runs every query of the set once: the names [main] passes
    to [qsub] are those of a permutation of 1 to 22, whatever the stream. *)
Lemma query_names_all snum :
  exists l, query_names snum [] = Some (map fmt_d l) /\ l ≡ₚ all_queries.
Proof.
  unfold query_names. destruct (Z.leb_spec 0 snum) as [Hs|Hs]; [|exists all_queries; now split].
  destruct permutation_rows as [Hrows Hlen]. rewrite mapM_map. unfold SEQUENCE.
  destruct (at_z permutation (snum %c MAX_PERMUTE)) as [row|] eqn:E.
  2:{ unfold at_z in E. unfold MAX_PERMUTE in *. pose proof (Z.rem_bound_pos snum 41 Hs ltac:(lia)).
      destruct (Z.ltb_spec (snum %c 41) 0); [lia|]. apply lookup_ge_None in E. lia. }
  assert (Hin : In row permutation).
  { unfold at_z in E. destruct (_ <? 0); [discriminate|]. apply list_elem_of_In, (list_elem_of_lookup_2 _ _ _ E). }
  rewrite forallb_forall in Hrows. specialize (Hrows row Hin). unfold row_okb in Hrows.
  rewrite !andb_true_iff, !bool_decide_eq_true, forallb_forall in Hrows. destruct Hrows as [[Hnd Hmap] Hall].
  exists row. cbn [mbind option_bind]. rewrite Hmap. split; [reflexivity|].
  apply submseteq_length_Permutation; [|rewrite (mapM_len _ _ _ Hmap); reflexivity].
  apply NoDup_submseteq; [exact Hnd|]. intros x Hx. apply list_elem_of_In in Hx. specialize (Hall x Hx).
  now apply bool_decide_eq_true in Hall.
Qed.
