(* ===== verification/Stream.v ===== *)
(** A whole run of qgen: what [main] of qgen.c prints for a stream of queries. *)
From S2P Require Import Prelude CString Float64 Rng State Consts Streams Dist Build RowSpec Calendar Config Shipped Output Driver Frame Text Qstate Varsub Params Qgen.

#[local] Open Scope q_scope.

(** ** The text of a query *)

Fixpoint cat (l : list string) : string := match l with [] => "" | s :: l => s +:+ cat l end.

(** The default parameters of query [n]; the second of query 11 is computed from the scale. *)
Definition default_params (scale : f64) (n : Z) : list string :=
  imap (fun i d => if (n =? 11) && Nat.eqb i 1 then fmt_11_10f (fdiv Q11_FRACTION scale) else default "" d)
    (take 10 (default [] (at_z defaults (n - 1)))).

Section Text.
Context (dia : dialect) (q0 : qst) (tpl : Z -> list (list seg)).

Let fl : Z := flags q0.

(** What a piece of a template is replaced by when the parameters are [row]. *)
Definition seg_text (qtag : string) (row : list string) (x : seg) : string :=
  match x with
  | Lit s => s
  | Sub c => sub_text dia qtag fl c q0
  | Par n => default "" (at_z row (n - 1))
  end.
Definition line_text (qtag : string) (row : list string) (l : list seg) : string :=
  cat (map (seg_text qtag row) (whole l)).

(** Query [n] with the parameters [row]: the row count the database is told, if default row
    counts are asked for, and the lines of the template. *)
Definition query_text (run : Z * list string) : string :=
  let '(n, row) := run in
  (if has fl DFLT_NUM then SET_ROWCOUNT dia (default 0 (at_z rowcnt_dflt n)) else "") +:+
  cat (map (line_text (fmt_d n) row) (tpl n)).
End Text.

(** Adding to the standard output. *)
Definition say (x : string) : qst -> qst := set_core (set_stdout (fun o => o +:+ x)).

Lemma say_say x y q : say y (say x q) = say (x +:+ y) q.
Proof. destruct q as [[] ]. unfold say, set_core, set_stdout. cbn. now rewrite app_assoc_s. Qed.

Lemma say_nil q : say "" q = q.
Proof. destruct q as [[] ]. unfold say, set_core, set_stdout. cbn. now rewrite app_nil_r_s. Qed.

Lemma same_say x q q' : same q q' -> same q (say x q').
Proof. intros []. now split. Qed.

Lemma ready_say x q : ready q -> ready (say x q).
Proof. exact id. Qed.

(** *** Printing it *)

Lemma defaults_long n : 1 <= n <= 22 -> exists r, at_z defaults (n - 1) = Some r /\ (10 <= length r)%nat.
Proof.
  intros Hn. assert (H : forallb (fun r => Nat.leb 10 (length r)) defaults = true) by reflexivity.
  unfold at_z. destruct (Z.ltb_spec (n - 1) 0); [lia|].
  destruct (lookup_lt_is_Some_2 defaults (Z.to_nat (n - 1))) as [r Hr]; [change (length defaults) with 24%nat; lia|].
  exists r. split; [exact Hr|]. rewrite forallb_forall in H. apply Nat.leb_le, H, list_elem_of_In.
  eapply list_elem_of_lookup_2, Hr.
Qed.

Lemma default_param scale n r d v :
  at_z defaults (n - 1) = Some r -> at_z r (v - 1) = Some d -> 1 <= v <= 10 ->
  at_z (default_params scale n) (v - 1) =
    Some (if (n =? 11) && (v =? 2) then fmt_11_10f (fdiv Q11_FRACTION scale) else default "" d).
Proof.
  intros Er Ed Hv. unfold default_params. rewrite Er. unfold at_z in *. destruct (Z.ltb_spec (v - 1) 0); [lia|].
  cbn [default from_option]. unfold id. rewrite list_lookup_imap, lookup_take_lt, Ed by lia. cbn. do 2 f_equal.
  assert (E : Nat.eqb (Z.to_nat (v - 1)) 1 = (v =? 2)) by (destruct (Nat.eqb_spec (Z.to_nat (v - 1)) 1), (Z.eqb_spec v 2); lia).
  now rewrite E.
Qed.

Section Expand.
Context (can_append : string -> bool) (dia : dialect) (fuel : nat) (D : qdists) (asc : list string) (q0 : qst).

Let fl : Z := flags q0.

(** The state while query [n] is expanded with the parameters [row]. *)
Record expanding (n : Z) (row : list string) (q : qst) : Prop := mk_expanding {
  ex_same : same q0 q;
  ex_qnum : qnum q = n;
  ex_row : if has fl DFLT then row = default_params (flt_scale (core q0)) n /\ 1 <= n <= 22
           else exists p0, param q = p0 :: row /\ length row = 10%nat;
}.

Lemma expanding_say n row x q : expanding n row q -> expanding n row (say x q).
Proof. intros [H1 H2 H3]. split; [now apply same_say|exact H2|exact H3]. Qed.

Lemma sub_text_same qtag c q : same q0 q -> sub_text dia qtag fl c q = sub_text dia qtag fl c q0.
Proof. intros [_ Hs Ho _ _ [Hd _]]. unfold sub_text. now rewrite Hs, Ho, Hd. Qed.

Lemma has_land_dflt : has (Z.land fl DFLT) DFLT = has fl DFLT.
Proof. unfold has. now rewrite <- Z.land_assoc, Z.land_diag. Qed.

(** A parameter prints its text. *)
Lemma varsub_text n row v q :
  expanding n row q -> 1 <= v <= MAX_PARAM ->
  varsub D asc can_append fuel n v (Z.land fl DFLT) q = QOk tt (say (default "" (at_z row (v - 1))) q).
Proof.
  intros [Hs Hq Hrow] Hv. unfold varsub. destruct (Z.eqb_spec v 0); [lia|]. rewrite has_land_dflt.
  unfold MAX_PARAM in *. destruct (has fl DFLT).
  - destruct Hrow as [-> Hn]. destruct (defaults_long n Hn) as (r & Er & Hr).
    destruct (lookup_lt_is_Some_2 r (Z.to_nat (v - 1)) ltac:(lia)) as [d Ed].
    assert (Ed' : at_z r (v - 1) = Some d) by (unfold at_z; destruct (Z.ltb_spec (v - 1) 0); [lia|exact Ed]).
    rewrite (default_param _ _ r d v Er Ed' Hv). cbn [default from_option id]. destruct ((n =? 11) && (v =? 2)).
    + unfold qbind, qgets. rewrite (proj2 (sm_names _ _ Hs)). reflexivity.
    + rewrite Er. unfold qbind, qmust, qret. rewrite Ed'. destruct d as [d|]; [reflexivity|]. cbn [default from_option]. now rewrite say_nil.
  - destruct Hrow as (p0 & Ep & Hl). destruct (Z.leb_spec v 10); [|lia].
    unfold qbind, qgets. rewrite Ep. unfold at_z. destruct (Z.ltb_spec v 0); [lia|]. destruct (Z.ltb_spec (v - 1) 0); [lia|].
    replace (Z.to_nat v) with (S (Z.to_nat (v - 1))) by lia. change ((p0 :: row) !! S (Z.to_nat (v - 1))) with (row !! Z.to_nat (v - 1)).
    destruct (lookup_lt_is_Some_2 row (Z.to_nat (v - 1)) ltac:(lia)) as [d Ed]. rewrite Ed. reflexivity.
Qed.

Lemma meanings_text qtag n row l : forall q, expanding n row q -> segs_ok l = true ->
  meanings can_append dia fuel D asc qtag fl l q = QOk tt (say (cat (map (seg_text dia q0 qtag row) l)) q).
Proof.
  induction l as [|x l IH]; intros q Hq Hl; [cbn; now rewrite say_nil|].
  assert (Hx : meaning can_append dia fuel D asc qtag fl x q = QOk tt (say (seg_text dia q0 qtag row x) q) /\ segs_ok l = true).
  { destruct x as [s|c|v]; cbn [segs_ok meaning seg_text] in *; rewrite ?andb_true_iff in Hl.
    - split; [reflexivity|apply Hl].
    - split; [|apply Hl]. rewrite (sub_text_same qtag c q (ex_same _ _ _ Hq)). reflexivity.
    - split; [|apply Hl]. rewrite (ex_qnum _ _ _ Hq). apply (varsub_text n row v q Hq). lia. }
  destruct Hx as [Hx Hl']. cbn [meanings map cat]. unfold qbind. rewrite Hx, (IH _ (expanding_say _ _ _ _ Hq) Hl').
  now rewrite say_say.
Qed.

Lemma template_text qtag n row tpl : forall q, expanding n row q -> forallb (line_okb fl) tpl = true ->
  template can_append dia fuel D asc qtag fl tpl q = QOk tt (say (cat (map (line_text dia q0 qtag row) tpl)) q).
Proof.
  induction tpl as [|l tpl IH]; intros q Hq Hl; [cbn; now rewrite say_nil|]. cbn [forallb template map cat] in *.
  apply andb_true_iff in Hl as [Hl Htpl]. unfold line_okb in Hl. rewrite !andb_true_iff in Hl. destruct Hl as [[[Hs _] _] _].
  assert (Hw : segs_ok (whole l) = true) by now apply segs_ok_whole.
  unfold qbind. rewrite (meanings_text qtag n row _ q Hq Hw).
  rewrite (IH _ (expanding_say _ _ _ _ Hq) Htpl). now rewrite say_say.
Qed.
End Expand.

(** ** One query *)

Section One.
Context (getenv : string -> option string) (file_text : string -> option string) (can_append : string -> bool)
  (dia : dialect) (fuel : nat) (D : qdists) (asc : list string) (q0 : qst) (tpl : Z -> list (list seg)).

Let fl : Z := flags q0.
Let scale : f64 := flt_scale (core q0).

(** What a run needs: distributions to draw from, a log that can be opened, and a template
    for each query. *)
Record can_expand : Prop := mk_can_expand {
  ce_vars : has fl DFLT = false -> vars_ok D;
  ce_dates : mk_ascdate = Some asc;
  ce_scale : strlen (fmt_11_10f (fdiv Q11_FRACTION scale)) < 128;
  ce_log : has fl LOG = true -> exists p, lfile q0 = Some p /\ can_append p = true;
  ce_file : forall n, 1 <= n <= 22 -> file_text (template_path getenv (fmt_d n)) = Some (unlines (map render (tpl n)));
  ce_path : forall n, 1 <= n <= 22 -> strlen (template_path getenv (fmt_d n)) < BUFSIZ;
  ce_lines : forall n, 1 <= n <= 22 -> forallb (line_okb fl) (tpl n) = true;
}.

(** The parameters a query is given: its defaults, or drawn ones of the kinds it expects. *)
Definition row_ok (run : Z * list string) : Prop :=
  let '(n, row) := run in
  if has fl DFLT then row = default_params scale n
  else length row = 10%nat /\ query_ok D scale n (upto_empty row).

Context (Hce : can_expand) (Hfuel : nM <= Z.of_nat fuel) (Hcom : in_comment q0 = false).

Lemma query_tag n : 1 <= n <= 22 -> atoi (fmt_d n) = n /\ exists rc, at_z rowcnt_dflt n = Some rc.
Proof.
  intros Hn.
  pose proof (check_range (fun n => (atoi (fmt_d n) =? n) && match at_z rowcnt_dflt n with Some _ => true | None => false end)
    1 22 eq_refl n ltac:(lia)) as H. cbv beta in H. rewrite andb_true_iff, Z.eqb_eq in H. destruct H as [H1 H2].
  split; [exact H1|]. destruct (at_z rowcnt_dflt n) as [rc|]; [now exists rc|done].
Qed.

Lemma log_runs n q : 1 <= n <= 22 -> same q0 q -> has fl LOG = true ->
  exists x, log_vars can_append n fl q = QOk tt (set_log (fun _ => Some x) q).
Proof.
  intros Hn Hs Hl. destruct (ce_log Hce Hl) as (p & Ep & Hp). pose proof (sm_files _ _ Hs) as (El & _ & _).
  destruct (defaults_long n Hn) as (r & Er & _). unfold log_vars, qbind, qgets. rewrite El, Ep.
  assert (E : exists x, (match log q with
     | Some _ => qret tt
     | None => path <- qmust "fopen(NULL)" (Some p);; if can_append path then qmodify (set_log (fun _ => Some "")) else qstop (Exited 1)
     end) q = QOk tt (set_log (fun _ => Some x) q)).
  { destruct (log q) as [x|] eqn:Elog.
    - exists x. destruct q. cbn in Elog. now subst.
    - exists "". unfold qbind, qmust, qret. now rewrite Hp. }
  destruct E as (x & E). unfold qbind, qgets in E. rewrite E. clear E.
  destruct (has fl DFLT); [rewrite Er|]; eexists; reflexivity.
Qed.

(** Setting the variables of a query leaves a state to expand its template in. *)
Lemma variables_set n q : 1 <= n <= 22 -> same q0 q -> ready q -> qnum q = n ->
  exists row q', varsub D asc can_append fuel n 0 fl q = QOk tt q' /\ row_ok (n, row) /\
    expanding q0 n row q' /\ ready q' /\ stdout (core q') = stdout (core q).
Proof.
  intros Hn Hs Hr Hq.
  assert (Hset : exists row q', (if has fl DFLT then qret true else set_vars D asc fuel n) q = QOk true q' /\
    row_ok (n, row) /\ expanding q0 n row q' /\ ready q' /\ hushed q q').
  { unfold row_ok. destruct (has fl DFLT) eqn:Ed.
    - exists (default_params scale n), q. split_and!; try reflexivity; [|exact Hr|apply hushed_refl].
      split; [exact Hs|exact Hq|]. fold fl. rewrite Ed. now split.
    - assert (Esc : flt_scale (core q) = scale) by apply (sm_names _ _ Hs).
      destruct (query_drawn D asc n q (ce_vars Hce Ed) (ce_dates Hce) Hr Hn) as (n0 & Hn0 & H);
        [rewrite Esc; apply (ce_scale Hce)|].
      specialize (H fuel ltac:(lia)). pose proof (silent_set_vars D asc fuel n q) as Hsil. unfold qwp in H.
      destruct (set_vars D asc fuel n q) as [known q'|] eqn:E; [|destruct H]. destruct H as (-> & Hok & Hr').
      assert (Hp : exists p0 row, param q' = p0 :: row /\ length row = 10%nat).
      { destruct Hr' as [_ Hl]. destruct (param q') as [|p0 row]; [discriminate|]. exists p0, row. split; [reflexivity|]. cbn in Hl. lia. }
      destruct Hp as (p0 & row & Ep & Hl). exists row, q'. unfold used in Hok. rewrite Ep, Esc in Hok. cbn [drop] in Hok.
      destruct Hsil as [Hsame Hqn Hout]. split_and!; try assumption; [reflexivity| |split; assumption].
      split; [now transitivity q|congruence|]. fold fl. rewrite Ed. exists p0. now split. }
  destruct Hset as (row & q1 & E & Hrow & Hex & Hr1 & [_ _ Hout]). exists row. unfold varsub, qbind. cbn [Z.eqb].
  rewrite E. cbn [negb]. destruct (has fl LOG) eqn:El.
  - destruct (log_runs n q1 Hn (ex_same _ _ _ _ Hex) El) as (x & ->). eexists. split; [reflexivity|].
    split_and!; [exact Hrow| |exact Hr1|exact Hout]. destruct Hex as [[] H2 H3]. now split; [split|..].
  - exists q1. now split_and!.
Qed.

Lemma query_run n q : 1 <= n <= 22 -> same q0 q -> ready q ->
  exists row q', qsub getenv file_text can_append dia fuel D asc (fmt_d n) fl q = QOk tt q' /\ row_ok (n, row) /\
    same q0 q' /\ ready q' /\ stdout (core q') = stdout (core q) +:+ query_text dia q0 tpl (n, row).
Proof.
  intros Hn Hs Hr. destruct (query_tag n Hn) as [Ea (rc & Erc)].
  rewrite (qsub_template getenv file_text can_append dia fuel D asc (fmt_d n) fl rc (tpl n) q);
    [|now apply (ce_file Hce)|now apply (ce_path Hce)|now rewrite Ea|now apply (ce_lines Hce)|].
  2:{ rewrite (sm_comment _ _ Hs). exact Hcom. }
  rewrite Ea. set (q1 := set_rowcnt rc (set_qnum n q)).
  assert (Hs1 : same q0 q1) by (destruct Hs; now split).
  destruct (variables_set n q1 Hn Hs1 Hr eq_refl) as (row & q2 & Ev & Hrow & Hex & Hr2 & Hout).
  set (lead := if has fl DFLT_NUM then SET_ROWCOUNT dia rc else "").
  pose proof (template_text can_append dia fuel D asc q0 (fmt_d n) n row (tpl n) (say lead q2)
    (expanding_say _ _ _ _ _ Hex) (ce_lines Hce n Hn)) as Et. rewrite say_say in Et.
  exists row, (say (lead +:+ cat (map (line_text dia q0 (fmt_d n) row) (tpl n))) q2). split_and!.
  - unfold qbind, qmodify. fold q1. rewrite Ev.
    assert (El : (if has fl DFLT_NUM then qprint (SET_ROWCOUNT dia rc) else qret tt) q2 = QOk tt (say lead q2)).
    { unfold lead. destruct (has fl DFLT_NUM); [reflexivity|now rewrite say_nil]. }
    rewrite El. exact Et.
  - exact Hrow.
  - apply same_say, Hex.
  - exact Hr2.
  - cbn [core say set_core stdout set_stdout]. rewrite Hout. change (stdout (core q1)) with (stdout (core q)).
    unfold query_text. fold fl. now rewrite Erc.
Qed.

(** A list of queries. *)
Lemma queries_run ns : forall q, Forall (fun n => 1 <= n <= 22) ns -> same q0 q -> ready q ->
  exists runs q', qsub_all getenv file_text can_append dia fuel D asc (map fmt_d ns) fl q = QOk tt q' /\
    map fst runs = ns /\ Forall row_ok runs /\ same q0 q' /\
    stdout (core q') = stdout (core q) +:+ cat (map (query_text dia q0 tpl) runs).
Proof.
  induction ns as [|n ns IH]; intros q Hns Hs Hr.
  - exists [], q. cbn. rewrite app_nil_r_s. split_and!; try reflexivity; [constructor|exact Hs].
  - inversion Hns as [|? ? Hn Hns']; subst. destruct (query_run n q Hn Hs Hr) as (row & q1 & E1 & Hrow & Hs1 & Hr1 & O1).
    destruct (IH q1 Hns' Hs1 Hr1) as (runs & q2 & E2 & Hmap & Hrows & Hs2 & O2).
    exists ((n, row) :: runs), q2. cbn [map qsub_all cat fst]. unfold qbind. rewrite E1, E2. split_and!; [reflexivity| |now constructor|exact Hs2|].
    + now rewrite Hmap.
    + now rewrite O2, O1, app_assoc_s.
Qed.
End One.

(** ** Before the queries *)

(** What the options leave as it was. *)
Record started (q : qst) : Prop := mk_started {
  st_ready : ready q;
  st_stdout : stdout (core q) = "";
  st_comment : in_comment q = false;
}.

Lemma q_option_started prog opt optarg q q' : started q -> q_option prog opt optarg q = QOk tt q' -> started q'.
Proof.
  intros Hq. assert (H : match q_option prog opt optarg q with QOk _ q2 => started q2 | QStop _ _ => True end).
  { unfold q_option, set_flag, qmodify, qbind, qstop, qprint.
    destruct Hq as [[H1 H2] H3 H4]. destruct (String.eqb optarg "").
    all: destruct opt as [[] [] [] [] [] [] [] []];
      first [exact I | split; [split; [exact H1|exact H2]|exact H3|exact H4]]. }
  intros E. now rewrite E in H.
Qed.

Lemma q_options_started prog opts : forall q q', started q -> q_options prog opts q = QOk tt q' -> started q'.
Proof.
  induction opts as [|[opt optarg] opts IH]; intros q q' Hq; cbn [q_options]; [now intros [= <-]|].
  unfold qbind. destruct (q_option prog opt optarg q) as [[] q1|] eqn:E; [|discriminate].
  apply IH, (q_option_started _ _ _ _ _ Hq E).
Qed.

(** Reading the distributions does not depend on what has been printed. *)
Definition viewed {A} (m : Q A) : Prop :=
  forall tr, View tr -> forall q a q', m q = QOk a q' -> m (set_core tr q) = QOk a (set_core tr q').

Lemma viewed_ret {A} (a : A) : viewed (qret a).
Proof. now intros tr V q b q' [= <- <-]. Qed.
Lemma viewed_must {A} what (o : option A) : viewed (qmust what o).
Proof. destruct o; [apply viewed_ret|now intros tr V q b q'[=]]. Qed.
Lemma viewed_bind {A B} (m : Q A) (k : A -> Q B) : viewed m -> (forall a, viewed (k a)) -> viewed (qbind m k).
Proof.
  intros Hm Hk tr V q b q' H. unfold qbind in *. destruct (m q) as [a q1|] eqn:E; [|discriminate].
  rewrite (Hm tr V _ _ _ E). exact (Hk a tr V _ _ _ H).
Qed.
Lemma viewed_lift {A} (m : M A) : inner m -> viewed (lift m).
Proof.
  intros Hm tr V q a q' H. unfold lift in *. destruct (m (core q)) as [b s|] eqn:E; [|discriminate].
  injection H as <- <-. cbn [core set_core]. now rewrite (inner_through m tr _ _ _ Hm E).
Qed.

Lemma viewed_setup getenv file_text : viewed (setup getenv file_text).
Proof.
  unfold setup. apply viewed_bind; [apply viewed_must|intros asc]. cbv zeta.
  repeat (apply viewed_bind; [apply viewed_lift, inner_read_dist|intros ?]). apply viewed_ret.
Qed.

#[export] Instance set_stdout_view f : View (set_stdout f).
Proof. split; reflexivity. Qed.

(** *** Seeding the streams *)

Definition reseed (l : list seed_t) : qst -> qst := set_core (set_Seed (fun _ => l)).

Lemma seeds_ok_put l i v : seeds_ok l -> seed_ok v -> seeds_ok (alter (with_value (fun _ => v)) i l).
Proof.
  intros [Hl Hall] Hv. split; [now rewrite length_alter|]. apply Forall_alter; [exact Hall|]. intros e _ _. exact Hv.
Qed.

Lemma reseed_reseed l l' q : reseed l' (reseed l q) = reseed l' q.
Proof. reflexivity. Qed.

Lemma set_seed_eq i v l q :
  set_seed i v (reseed l q) = QOk tt (reseed (alter (with_value (fun _ => v)) (Z.to_nat i) l) q).
Proof. reflexivity. Qed.

Lemma seed_value_eq v l q : l <> [] ->
  seed_value 0 (reseed (alter (with_value (fun _ => v)) 0%nat l) q) = QOk v (reseed (alter (with_value (fun _ => v)) 0%nat l) q).
Proof. intros Hl. destruct l; [done|reflexivity]. Qed.

Lemma seed_streams_succ n i q :
  seed_streams (S n) i q =
  (v <- seed_value 0;; set_seed 0 (NextRand v);; v <- seed_value 0;; set_seed i v;; seed_streams n (i + 1)) q.
Proof. reflexivity. Qed.

Lemma seed_streams_ok n : forall i l q, seeds_ok l ->
  exists l', seed_streams n i (reseed l q) = QOk tt (reseed l' q) /\ seeds_ok l'.
Proof.
  induction n as [|n IH]; intros i l q Hl; [now exists l|]. cbn [seed_streams].
  set (v := value (seed_at (core (reseed l q)) 0)).
  assert (Hv : seed_ok (NextRand v)) by (apply NextRand_ok, seed_at_ok; [exact Hl|lia]).
  destruct (IH (i + 1) (alter (with_value (fun _ => NextRand v)) (Z.to_nat i) (alter (with_value (fun _ => NextRand v)) 0%nat l)) q) as (l' & E & Hl').
  { now repeat apply seeds_ok_put. }
  exists l'. split; [|exact Hl'].
  assert (Hne : l <> []) by (destruct Hl as [Hl _]; destruct l; [discriminate|done]).
  unfold qbind at 1. unfold seed_value at 1. unfold qgets. fold v. unfold qbind at 1. rewrite set_seed_eq.
  unfold qbind at 1. change (Z.to_nat 0) with 0%nat. rewrite seed_value_eq by exact Hne. unfold qbind. rewrite set_seed_eq. exact E.
Qed.

(** The seed [perturb] starts from. *)
Definition first_seed (q : qst) (time proc : Z) : Z :=
  let r := if has (flags q) SEED then rndm q else wrap_u 32 (wrap_u 32 time * proc) in
  if r <? 0 then r + 2147483647 else r.
Definition seed_usable (r : Z) : Prop := 0 <= r < 2 ^ 32 /\ r mod nM <> 0.
Definition seed_line (r : Z) : string := line_s ("-- using " +:+ fmt_d r +:+ " as a seed to the RNG").

Lemma alter_twice {A} (f g : A -> A) (i : nat) (l : list A) : alter f i (alter g i l) = alter (fun x => f (g x)) i l.
Proof. revert i. induction l as [|a l IH]; intros [|i]; cbn; [reflexivity..|]. f_equal. apply IH. Qed.

Lemma perturb_ok time proc q : ready q -> seed_usable (first_seed q time proc) ->
  exists q', perturb time proc q = QOk tt q' /\ same q q' /\ ready q' /\
    stdout (core q') = stdout (core q) +:+ seed_line (first_seed q time proc).
Proof.
  intros Hr [Hrange Hmod]. set (r := first_seed q time proc) in *. destruct Hr as [Hs Hp].
  set (l0 := Seed (core q)) in *. set (v := NextRand r). assert (Hv : seed_ok v) by now apply NextRand_seed.
  set (l1 := alter (with_value (fun _ => v)) 1%nat (alter (with_value (fun _ => v)) 0%nat l0)).
  destruct (seed_streams_ok 21 2 l1 (set_rndm r q)) as (l & E & Hl); [now repeat apply seeds_ok_put|].
  exists (say (seed_line r) (reseed l (set_rndm r q))). split; [|split; [|split]].
  2:{ split; [exact eq_refl..| |exact eq_refl|]; repeat split. }
  2:{ split; [exact Hl|exact Hp]. }
  2:{ exact eq_refl. }
  assert (Hne : l0 <> []) by (intros E0; destruct Hs as [Hl0 _]; rewrite E0 in Hl0; discriminate Hl0).
  assert (E1 : seed_streams 22 1 (reseed (alter (with_value (fun _ => r)) 0%nat l0) (set_rndm r q)) = QOk tt (reseed l (set_rndm r q))).
  { rewrite (seed_streams_succ 21). unfold qbind at 1. rewrite seed_value_eq by exact Hne.
    unfold qbind at 1. rewrite set_seed_eq. change (Z.to_nat 0) with 0%nat. fold v.
    rewrite alter_twice. change (fun x => with_value (fun _ => v) (with_value (fun _ => r) x)) with (with_value (fun _ => v)).
    unfold qbind at 1. rewrite seed_value_eq by exact Hne. unfold qbind. rewrite set_seed_eq. change (Z.to_nat 1) with 1%nat. change (1 + 1) with 2. fold l1. exact E. }
  unfold perturb. unfold qbind at 1. unfold qgets.
  assert (E2 : forall k : unit -> Q unit, qbind (if has (flags q) SEED then qret tt else qmodify (set_rndm (wrap_u 32 (wrap_u 32 time * proc)))) k q =
    k tt (set_rndm (if has (flags q) SEED then rndm q else wrap_u 32 (wrap_u 32 time * proc)) q)).
  { intros k. destruct (has (flags q) SEED); [now destruct q|reflexivity]. }
  rewrite E2. clear E2. unfold r, first_seed in *. set (r0 := if has (flags q) SEED then rndm q else _) in *.
  unfold qbind at 1. unfold qgets. cbn [rndm set_rndm]. unfold qbind at 1.
  assert (E3 : (if r0 <? 0 then qmodify (set_rndm (r0 + 2147483647)) else qret tt) (set_rndm r0 q) =
    QOk tt (set_rndm (if r0 <? 0 then r0 + 2147483647 else r0) q)) by (destruct (r0 <? 0); reflexivity).
  rewrite E3. unfold qbind at 1. unfold qgets. cbn [rndm set_rndm]. unfold qbind.
  assert (E4 : forall x, set_seed 0 x (set_rndm x q) = QOk tt (reseed (alter (with_value (fun _ => x)) 0%nat l0) (set_rndm x q)))
    by reflexivity.
  rewrite E4. change (Z.to_nat QUERIES_PER_SET) with 22%nat. rewrite E1. reflexivity.
Qed.

(** ** Files copied as they are *)

Lemma fgets_chars_split n : forall s, fst (fgets_chars n s) +:+ snd (fgets_chars n s) = s.
Proof.
  induction n as [|n IH]; intros [|c s]; try reflexivity. cbn [fgets_chars].
  destruct (Ascii.eqb c nl); [reflexivity|]. specialize (IH s). destruct (fgets_chars n s) as [l r].
  cbn [fst snd] in *. now rewrite app_cons_s, IH.
Qed.

Lemma concat_cons s l : String.concat "" (s :: l) = s +:+ String.concat "" l.
Proof. destruct l as [|a l]; cbn [String.concat]; [now rewrite app_nil_r_s|]. now rewrite app_nil_s. Qed.

Lemma fgets_all_concat n fuel : forall s, (0 < n)%nat -> (String.length s <= fuel)%nat ->
  String.concat "" (fgets_all fuel n s) = s.
Proof.
  induction fuel as [|fuel IH]; intros [|c s] Hn Hf; cbn [String.length] in Hf; try reflexivity; [lia|].
  cbn [fgets_all]. pose proof (fgets_chars_split n (String c s)) as E. destruct n as [|n]; [lia|].
  cbn [fgets_chars] in *. destruct (Ascii.eqb c nl); [|destruct (fgets_chars n s) as [l r] eqn:Ef]; rewrite concat_cons.
  - rewrite IH by lia. reflexivity.
  - cbn [fst snd] in E. rewrite IH; [exact E|lia|]. rewrite app_cons_s in E. injection E as E.
    apply (f_equal String.length) in E. rewrite length_app_nat in E. lia.
Qed.

(** What a flag that names a file adds to the output, when the file can be read. *)
Definition copied (file_text : string -> option string) (wanted : bool) (path : option string) : string :=
  if wanted then default "" (p ← path; file_text p) else "".
Definition readable (file_text : string -> option string) (wanted : bool) (path : option string) : Prop :=
  wanted = true -> exists p x, path = Some p /\ file_text p = Some x.

Lemma copy_runs file_text (wanted : bool) path q : readable file_text wanted path ->
  (if wanted then copy_file file_text path else qret tt) q = QOk tt (say (copied file_text wanted path) q).
Proof.
  unfold copied. destruct wanted; [|now rewrite say_nil]. intros H. destruct (H eq_refl) as (p & x & -> & E).
  unfold copy_file, qbind, qmust, qret. rewrite E. cbn [mbind option_bind]. rewrite E.
  rewrite fgets_all_concat by (reflexivity || (change (Z.to_nat (LINE_SIZE - 1)) with 511%nat; lia)). reflexivity.
Qed.

(** ** The run *)

Lemma query_names_range sn l : query_names sn [] = Some (map fmt_d l) -> l ≡ₚ all_queries -> Forall (fun n => 1 <= n <= 22) l.
Proof.
  intros _ Hp. apply Forall_forall. intros n Hn. rewrite Hp in Hn. unfold all_queries in Hn.
  apply list_elem_of_In, in_map_iff in Hn as (k & <- & Hk). apply in_seq in Hk. change (Z.to_nat QUERIES_PER_SET) with 22%nat in Hk. lia.
Qed.

Section Run.
Context (getenv : string -> option string) (file_text : string -> option string) (can_append : string -> bool)
  (dia : dialect) (fuel : nat) (time proc : Z).

(** The lines before the queries of a run whose options leave [q1]. *)
Definition banner (q1 : qst) : string :=
  if has (flags q1) VERBOSE
  then line_s ("-- TPC " +:+ NAME +:+ " Parameter Substitution (Version " +:+ VERSION_S +:+ ")") else "".
Definition seeding (q1 : qst) : string :=
  if has (flags q1) DFLT then line_s "-- using default substitutions" else seed_line (first_seed q1 time proc).

(** All that a run prints when the queries [runs] are expanded. *)
Definition run_text (q1 : qst) (tpl : Z -> list (list seg)) (runs : list (Z * list string)) : string :=
  banner q1 +:+ seeding q1 +:+ copied file_text (has (flags q1) INIT) (ifile q1) +:+
  cat (map (query_text dia q1 tpl) runs) +:+ copied file_text (has (flags q1) TERMINATE) (tfile q1).

Lemma seeding_runs q1 q : same q1 q -> ready q -> rndm q = rndm q1 ->
  (has (flags q1) DFLT = false -> seed_usable (first_seed q1 time proc)) ->
  exists q', (if has (flags q1) DFLT then qprint (line_s "-- using default substitutions") else perturb time proc) q = QOk tt q' /\
    same q1 q' /\ ready q' /\ stdout (core q') = stdout (core q) +:+ seeding q1.
Proof.
  intros Hs Hr Hn Hseed. unfold seeding. destruct (has (flags q1) DFLT).
  - eexists. split; [reflexivity|]. split; [now apply (same_say (line_s "-- using default substitutions"))|]. split; [exact Hr|reflexivity].
  - assert (E : first_seed q time proc = first_seed q1 time proc) by (unfold first_seed; now rewrite Hn, (sm_flags _ _ Hs)).
    destruct (perturb_ok time proc q Hr) as (q' & Ep & Hsame & Hr' & Ho); [rewrite E; now apply Hseed|].
    exists q'. rewrite E in Ho. split_and!; try assumption. now transitivity q.
Qed.

Lemma rest_runs q1 D asc tpl ns :
  started q1 -> setup getenv file_text q1 = QOk (asc, D) q1 ->
  can_expand getenv file_text can_append D asc q1 tpl -> nM <= Z.of_nat fuel ->
  (has (flags q1) DFLT = false -> seed_usable (first_seed q1 time proc)) ->
  readable file_text (has (flags q1) INIT) (ifile q1) -> readable file_text (has (flags q1) TERMINATE) (tfile q1) ->
  query_names (snum q1) [] = Some (map fmt_d ns) -> Forall (fun n => 1 <= n <= 22) ns ->
  exists runs q', qgen_rest getenv file_text can_append dia fuel [] time proc q1 = QOk 0 q' /\
    map fst runs = ns /\ Forall (row_ok D q1) runs /\ stdout (core q') = run_text q1 tpl runs.
Proof.
  intros [Hr Ho Hc] Hsetup Hce Hfuel Hseed Hi Ht Hnames Hns.
  set (qb := say (banner q1) q1). assert (Hsb : same q1 qb) by now apply same_say.
  assert (Esb : setup getenv file_text qb = QOk (asc, D) qb) by exact (viewed_setup _ _ _ (set_stdout_view _) _ _ _ Hsetup).
  destruct (seeding_runs q1 qb Hsb Hr eq_refl Hseed) as (q2 & E2 & Hs2 & Hr2 & O2).
  set (q3 := say (copied file_text (has (flags q1) INIT) (ifile q1)) q2).
  destruct (queries_run getenv file_text can_append dia fuel D asc q1 tpl Hce Hfuel Hc ns q3 Hns (same_say _ _ _ Hs2) Hr2)
    as (runs & q4 & E4 & Hmap & Hrows & Hs4 & O4).
  exists runs, (say (copied file_text (has (flags q1) TERMINATE) (tfile q1)) q4).
  split; [|split; [exact Hmap|split; [exact Hrows|]]].
  - unfold qgen_rest. unfold qbind at 1. unfold qgets at 1. unfold qbind at 1.
    assert (Eb : (if has (flags q1) VERBOSE then qprint (line_s ("-- TPC " +:+ NAME +:+ " Parameter Substitution (Version " +:+ VERSION_S +:+ ")"))
      else qret tt) q1 = QOk tt qb).
    { unfold qb, banner. destruct (has (flags q1) VERBOSE); [reflexivity|now rewrite say_nil]. }
    rewrite Eb. unfold qbind at 1. rewrite Esb. unfold qbind at 1. rewrite E2. unfold qbind at 1. unfold qgets at 1.
    pose proof (sm_files _ _ Hs2) as (_ & F2 & _). rewrite F2. unfold qbind at 1. rewrite (copy_runs _ _ _ _ Hi). fold q3.
    unfold qbind at 1. unfold qgets at 1. change (snum q3) with (snum q2). rewrite (sm_snum _ _ Hs2), Hnames.
    unfold qbind at 1. cbn [qmust]. unfold qbind at 1. unfold qret at 1. rewrite E4.
    unfold qbind at 1. unfold qgets at 1. pose proof (sm_files _ _ Hs4) as (_ & _ & F4). rewrite F4.
    unfold qbind. now rewrite (copy_runs _ _ _ _ Ht).
  - unfold say at 1. cbn [core set_core stdout set_stdout]. rewrite O4. unfold q3, say at 1. cbn [core set_core stdout set_stdout].
    rewrite O2. unfold qb, say at 1. cbn [core set_core stdout set_stdout]. rewrite Ho. unfold run_text. now rewrite app_nil_s, !app_assoc_s.
Qed.
End Run.

(** C5. A whole run of qgen without query arguments, for options that are accepted and a
    distribution file that can be loaded. It needs a seed from 0 to 2^32 - 1 that is no multiple
    of the modulus of the generator (or default parameters); for each of the 22 queries a
    template of lines that [fgets] returns whole, with the directives and parameters of qgen.c
    but without [:n], whose line the program does not expand properly, and without comments
    unless [-c] keeps them (the sample template of README, with a comment and [:n], is
    outside); files of [-i] and [-t] and a log that can be opened if asked for; and a scale
    factor whose fraction for query 11 prints in fewer than 128 characters. Then [main]
    returns 0, and its output is, in this order, the version line if asked for, the line
    about the seed, the file of [-i], the 22 queries in the order of their stream, a
    permutation of 1 to 22, and the file of [-t]; every query is its template with the text
    kept, the directives replaced by the statements of the database, and the parameters by
    the query's defaults or by drawn ones of the kinds [query_ok] lists. *)
Theorem qgen_run getenv file_text can_append dia fuel prog opts time proc q1 D asc tpl :
  q_options prog opts q_start = QOk tt q1 -> setup getenv file_text q1 = QOk (asc, D) q1 ->
  can_expand getenv file_text can_append D asc q1 tpl -> nM <= Z.of_nat fuel ->
  (has (flags q1) DFLT = false -> seed_usable (first_seed q1 time proc)) ->
  readable file_text (has (flags q1) INIT) (ifile q1) -> readable file_text (has (flags q1) TERMINATE) (tfile q1) ->
  exists runs q', qgen_main getenv file_text can_append dia fuel prog opts [] time proc q_start = QOk 0 q' /\
    query_names (snum q1) [] = Some (map fmt_d (map fst runs)) /\ map fst runs ≡ₚ all_queries /\
    Forall (row_ok D q1) runs /\ stdout (core q') = run_text file_text dia time proc q1 tpl runs.
Proof.
  intros Hopts Hsetup Hce Hfuel Hseed Hi Ht.
  assert (Hstart : started q1).
  { apply (q_options_started prog opts q_start); [|exact Hopts]. split; [apply q_start_ready|reflexivity..]. }
  destruct (query_names_all (snum q1)) as (ns & Hnames & Hperm).
  destruct (rest_runs getenv file_text can_append dia fuel time proc q1 D asc tpl ns Hstart Hsetup Hce Hfuel Hseed Hi Ht Hnames
    (query_names_range _ _ Hnames Hperm)) as (runs & q' & E & Hmap & Hrows & Ho).
  exists runs, q'. rewrite Hmap. split; [|now split_and!]. unfold qgen_main, qbind. now rewrite Hopts.
Qed.

(** The shipped distributions and the same small template for every query. *)
Definition run_files (p : string) : option string :=
  if String.eqb p "./dists.dss" then Some dists_dss else Some (unlines (map render example_tpl)).
Definition run_opts : list (ascii * string) := [("p"%char, "3"); ("r"%char, "42")].
Definition run_state : qst := match q_options "qgen" run_opts q_start with QOk _ q | QStop _ q => q end.

Definition run_dates : list string := map (fun d => fmt_d (date_key d)) (dates_from (Z.to_nat TOTDATE) (1992, 1, 1)).

Lemma run_setup : setup no_env run_files run_state =
  QOk (run_dates, qshipped) run_state.
Proof.
  unfold setup. rewrite mk_ascdate_dates. unfold qmust at 1, qbind at 1. cbn [qret].
  change (env_config no_env DIST_TAG DIST_DFLT) with DIST_DFLT.
  assert (H : forall name d, read_lines (file_lines dists_dss) name false dist_zero 0 0 = Found d ->
    lift (read_dist no_env run_files DIST_DFLT name) run_state = QOk d run_state).
  { intros name d E. unfold lift. now rewrite (read_shipped run_files name d (core run_state) eq_refl eq_refl E). }
  do 14 (unfold qbind at 1; erewrite H by (vm_compute; reflexivity)). reflexivity.
Qed.

Lemma run_expands : can_expand no_env run_files (fun _ => true) qshipped
  run_dates run_state (fun _ => example_tpl).
Proof.
  split.
  - intros _. exact qshipped_ok.
  - exact mk_ascdate_dates.
  - vm_compute. reflexivity.
  - discriminate.
  - intros n Hn. unfold run_files.
    pose proof (check_range (fun n => negb (String.eqb (template_path no_env (fmt_d n)) "./dists.dss")) 1 22 eq_refl n ltac:(lia)) as H.
    cbv beta in H. now destruct (String.eqb (template_path no_env (fmt_d n)) "./dists.dss").
  - intros n Hn. pose proof (check_range (fun n => strlen (template_path no_env (fmt_d n)) <? BUFSIZ) 1 22 eq_refl n ltac:(lia)) as H.
    cbv beta in H. lia.
  - intros n _. vm_compute. reflexivity.
Qed.

Lemma end_qst (m : Q unit) q :
  match m q with QOk _ _ => true | QStop _ _ => false end = true ->
  m q = QOk tt (match m q with QOk _ q' | QStop _ q' => q' end).
Proof. now destruct (m q) as [[] q'|]. Qed.

Lemma qgen_run_witness :
  exists runs q', qgen_main no_env run_files (fun _ => true) DB2 (Z.to_nat nM) "qgen" run_opts [] 0 0 q_start = QOk 0 q' /\
    query_names (snum run_state) [] = Some (map fmt_d (map fst runs)) /\ map fst runs ≡ₚ all_queries /\
    Forall (row_ok qshipped run_state) runs /\ stdout (core q') = run_text run_files DB2 0 0 run_state (fun _ => example_tpl) runs.
Proof.
  apply (qgen_run no_env run_files (fun _ => true) DB2 (Z.to_nat nM) "qgen" run_opts 0 0 run_state qshipped
    run_dates (fun _ => example_tpl)).
  - apply end_qst. vm_compute. reflexivity.
  - exact run_setup.
  - exact run_expands.
  - rewrite Z2Nat.id by discriminate. apply Z.le_refl.
  - intros _. assert (E : first_seed run_state 0 0 = 42) by (vm_compute; reflexivity). rewrite E.
    split; [split; [discriminate|reflexivity]|discriminate].
  - discriminate.
  - discriminate.
Defined.
