(* ===== verification/Argv.v ===== *)
(** The two programs from their argument vectors, with the replacement of [getopt] of
    bm_utils.c: on a command line of words and separate arguments they run as [Driver.main]
    and [Qgen.qgen_main] do on the options it is made of. *)
From S2P Require Import Prelude CString Float64 State Consts Streams Dist Build RowSpec Config Output Print Driver Text Getopt Qstate Varsub Qgen.

(** ** dbgen *)

Definition DBGEN_OPTIONS : string := "b:C:Dd:Ffi:hn:O:P:qr:s:S:T:U:v".

(** [process_options(ac, av)] *)
Definition process_options_argv (av : list string) : M unit :=
  _ <- option_loop av DBGEN_OPTIONS process_option (option_fuel av) getopt_start;;
  alloc_pids.

Lemma process_options_calls av l g' s :
  calls av DBGEN_OPTIONS getopt_start l g' -> (length l < option_fuel av)%nat ->
  process_options_argv av s = process_options l s.
Proof.
  intros Hc Hf. unfold process_options_argv, process_options. unfold bind at 1.
  rewrite (option_loop_calls _ _ _ _ _ _ Hc _ _ Hf). clear Hc Hf. revert s.
  induction l as [|[c t] l IH]; intros s; [reflexivity|]. cbn [fold_right fst snd process_options_loop].
  unfold bind. destruct (process_option c t s) as [[] s1|]; [|reflexivity]. specialize (IH s1).
  unfold bind in IH. exact IH.
Qed.

Section Dbgen.
Context (Os : os) (utcoff : Z -> Z) (spawn_ok : Z -> Z -> bool) (nation_key region_key : Z).

(** [main(ac, av)] *)
Definition main_argv (av : list string) : M (list (res unit)) :=
  main_init;; process_options_argv av;; main_rest Os utcoff spawn_ok nation_key region_key.
End Dbgen.

(** C18. The command line: for words of letters without an argument, perhaps ended by one whose
    argument is the next word, and operands after them or after two dashes, [main] with the
    [getopt] of bm_utils.c runs as on the options the words hold. *)
Theorem main_argv_options Os utcoff spawn_ok nk rk prog ws dashes operands s :
  forallb (word_ok DBGEN_OPTIONS) ws = true -> operands_ok dashes operands = true ->
  main_argv Os utcoff spawn_ok nk rk (command_line prog ws dashes operands) s =
  main Os utcoff spawn_ok nk rk (concat (map word_options ws)) s.
Proof.
  intros Hws Hop. destruct (command_line_calls DBGEN_OPTIONS prog ws dashes operands Hws Hop) as (g' & Hc & _).
  unfold main_argv, main, bind. destruct (main_init s) as [[] s1|]; [|reflexivity].
  now rewrite (process_options_calls _ _ _ _ Hc (options_fuel _ _ _ _)).
Qed.

(** [dbgen -vfF -s 2 -T c] *)
Lemma main_argv_options_witness :
  let ws := [mk_word "vfF" None; mk_word "" (Some ("s"%char, "2")); mk_word "" (Some ("T"%char, "c"))] in
  command_line "dbgen" ws false [] = ["dbgen"; "-vfF"; "-s"; "2"; "-T"; "c"] /\
  forall Os utcoff spawn_ok nk rk s,
    main_argv Os utcoff spawn_ok nk rk (command_line "dbgen" ws false []) s =
    main Os utcoff spawn_ok nk rk [("v"%char, ""); ("f"%char, ""); ("F"%char, ""); ("s"%char, "2"); ("T"%char, "c")] s.
Proof.
  split; [reflexivity|]. intros Os utcoff spawn_ok nk rk s. apply main_argv_options; vm_compute; reflexivity.
Defined.

(** C35. [process_options] reads every argument vector in at most one round more than it has
    characters: more fuel than [option_fuel] makes no difference. *)
Theorem options_rounds av body fuel s :
  (option_fuel av <= fuel)%nat ->
  option_loop av DBGEN_OPTIONS body fuel getopt_start s = option_loop av DBGEN_OPTIONS body (option_fuel av) getopt_start s.
Proof.
  intros Hf.
  assert (Hleft : (chars_left av getopt_start < option_fuel av)%nat).
  { unfold chars_left, option_fuel. cbn [nextchar getopt_start default optind String.length].
    pose proof (text_length_drop av 0 (Z.to_nat (0 + 1)) ltac:(lia)) as H. rewrite drop_0 in H. unfold text_length in *. lia. }
  apply option_loop_fuel; [cbn; lia|lia|exact Hleft].
Qed.

(** [dbgen -vf -s 1] *)
Lemma options_rounds_witness :
  (option_fuel ["dbgen"; "-vf"; "-s"; "1"] <= 100)%nat /\
  forall body s,
    option_loop ["dbgen"; "-vf"; "-s"; "1"] DBGEN_OPTIONS body 100 getopt_start s =
    option_loop ["dbgen"; "-vf"; "-s"; "1"] DBGEN_OPTIONS body (option_fuel ["dbgen"; "-vf"; "-s"; "1"]) getopt_start s.
Proof. split; [vm_compute; lia|]. intros body s. apply options_rounds. vm_compute. lia. Defined.

(** ** Attached arguments *)

(** An argument attached to its option ([-s10]) is copied without its end: [optarg] points
    to its characters, the option's letter and what the buffer held. *)
Theorem attached_argument av opt i buf c arg s :
  is_valued opt c = true -> arg <> "" -> (String.length arg < length buf)%nat ->
  getopt av opt (mk_getopt i (Some buf) (Some (String c arg))) s =
  Ok (char_code c, mk_getopt i (Some (chars arg ++ Some c :: drop (S (String.length arg)) buf)) None) s.
Proof.
  unfold is_valued, has_arg. intros Hc Hne Hlen. unfold getopt. cbn [nextchar optind].
  unfold getopt_char. cbn [optarg_buf optarg]. destruct (strchr_at opt c) as [cp|]; [|discriminate].
  rewrite !andb_true_iff, !negb_true_iff in Hc. destruct Hc as [[Hcol ->] _]. rewrite Hcol.
  destruct arg as [|a arg]; [congruence|]. unfold getopt_arg. unfold bind at 1. rewrite strcpy_start by exact Hlen.
  unfold bind, ret, strlen. rewrite <- chars_length. now rewrite store_app.
Qed.

(** [-s10] after an argument [1996]: the scale is read from [10s6]. With nothing before it, from
    characters that were never written. *)
Example attached_scale :
  option_loop ["dbgen"; "-n"; "1996"; "-s10"] DBGEN_OPTIONS
    (fun c arg => printf (String c (":" +:+ arg +:+ ";"))) 20 getopt_start st_start =
  Ok (mk_getopt 4 (Some (chars "10s6" ++ Some NUL :: uninit (BUFSIZ - 5))) None) (set_stdout (fun _ => "n:1996;s:10s6;") st_start) /\
  process_options_argv ["dbgen"; "-s10"] st_start = Stop (Undefined "the string at optarg") st_start.
Proof. vm_compute. split; reflexivity. Qed.

(** ** qgen *)

Definition QGEN_OPTIONS : string := "ab:cdhi:n:Nl:o:p:r:s:t:vx".

(** The loop of qgen's [process_options]. *)
Fixpoint q_option_loop (prog : string) (av : list string) (fuel : nat) (g : getopt_st) : Q getopt_st :=
  match fuel with
  | O => qstop (Undefined "fuel")
  | S fuel =>
      ('(option, g) <- lift (getopt av QGEN_OPTIONS g);;
       if option =? -1 then qret g
       else
         let c := ascii_of_nat (Z.to_nat option) in
         text <- lift (option_text av QGEN_OPTIONS c g);;
         q_option prog c text;;
         q_option_loop prog av fuel g)%Q
  end.

Lemma q_option_loop_calls prog av g l g' :
  calls av QGEN_OPTIONS g l g' -> forall fuel q, (length l < fuel)%nat ->
  q_option_loop prog av fuel g q = (q_options prog l;; qret g')%Q q.
Proof.
  assert (Hlift : forall A (m : M A) a q, (forall s, m s = Ok a s) -> lift m q = QOk a q).
  { intros A m a q Hm. unfold lift. rewrite Hm. now destruct q. }
  induction 1 as [g g' Hg|g c text g1 l g' Hc Hl IH]; intros [|fuel] q Hf; cbn [length] in Hf; try lia;
    cbn [q_option_loop q_options].
  - unfold qbind at 1. rewrite (Hlift _ _ _ _ Hg). reflexivity.
  - unfold qbind at 1. rewrite (Hlift _ _ _ _ (fun s => proj1 (Hc s))).
    destruct (Z.eqb_spec (char_code c) (-1)) as [E|_]; [unfold char_code in E; lia|].
    cbv zeta. unfold char_code. rewrite Nat2Z.id, ascii_nat_embedding.
    unfold qbind at 1. rewrite (Hlift _ _ _ _ (fun s => proj2 (Hc s))).
    unfold qbind. destruct (q_option prog c text q) as [[] q1|]; [|reflexivity]. rewrite IH by lia. reflexivity.
Qed.

Section Qgen.
Context (getenv file_text : string -> option string) (can_append : string -> bool) (dia : dialect) (fuel : nat).

(** [main(ac, av)] of qgen; the operands are the arguments from [optind] on. *)
Definition qgen_main_argv (av : list string) (time proc : Z) : Q Z :=
  (prog <- qmust "av[0]" (arg_at av 0);;
   g <- q_option_loop prog av (option_fuel av) getopt_start;;
   qgen_rest getenv file_text can_append dia fuel (drop (Z.to_nat (optind g)) av) time proc)%Q.
End Qgen.

(** The command line of qgen: its [main] with the [getopt] of bm_utils.c runs as on the
    options the words hold, and generates the queries the operands name. *)
Theorem qgen_argv_options getenv file_text can_append dia fuel prog ws dashes operands time proc q :
  forallb (word_ok QGEN_OPTIONS) ws = true -> operands_ok dashes operands = true ->
  qgen_main_argv getenv file_text can_append dia fuel (command_line prog ws dashes operands) time proc q =
  qgen_main getenv file_text can_append dia fuel prog (concat (map word_options ws)) operands time proc q.
Proof.
  intros Hws Hop. destruct (command_line_calls QGEN_OPTIONS prog ws dashes operands Hws Hop) as (g' & Hc & _ & Hops).
  unfold qgen_main_argv, qgen_main. unfold qbind at 1. cbn [arg_at]. unfold qmust, qret at 1. change (arg_at _ 0) with (Some prog).
  cbv iota beta. unfold qbind at 1. rewrite (q_option_loop_calls _ _ _ _ _ Hc _ _ (options_fuel _ _ _ _)).
  unfold qbind, qret. destruct (q_options prog (concat (map word_options ws)) q) as [[] q1|]; [|reflexivity]. now rewrite Hops.
Qed.

(** [qgen -d -s 2 -- 1 14] *)
Lemma qgen_argv_options_witness :
  let ws := [mk_word "d" None; mk_word "" (Some ("s"%char, "2"))] in
  command_line "qgen" ws true ["1"; "14"] = ["qgen"; "-d"; "-s"; "2"; "--"; "1"; "14"] /\
  forall getenv file_text can_append dia fuel time proc q,
    qgen_main_argv getenv file_text can_append dia fuel (command_line "qgen" ws true ["1"; "14"]) time proc q =
    qgen_main getenv file_text can_append dia fuel "qgen" [("d"%char, ""); ("s"%char, "2")] ["1"; "14"] time proc q.
Proof.
  split; [reflexivity|]. intros getenv file_text can_append dia fuel time proc q. apply qgen_argv_options; vm_compute; reflexivity.
Defined.
