(* ===== verification/Quota.v ===== *)
(** How many numbers a row draws from each stream, at most, against the [boundary] of rnd.h:
    the rules by which the proofs about the TPC-H rows count. *)
From S2P Require Import Prelude CString Float64 Rng State Consts Streams Dist Build RowSpec Text.

(** At most [n] draws from stream [i] for each [(i, n)]. *)
Definition quota (b : list (Z * nat)) (i : Z) : nat :=
  fold_right (fun p => Nat.add (if fst p =? i then snd p else 0)) 0%nat b.

(** [s'] differs from [s] by draws within the quotas, and from no other stream. *)
Definition spent (b : list (Z * nat)) (s s' : st) : Prop :=
  exists l, drew l s s' /\ Forall (fun i => 0 <= i <= MAX_STREAM) l /\
    forall i, (counted i l <= quota b i)%nat.

Lemma quota_app a b i : quota (a ++ b) i = (quota a i + quota b i)%nat.
Proof. induction a as [|p a IH]; cbn [quota app fold_right]; [reflexivity|]. unfold quota in *. rewrite IH. lia. Qed.

Lemma quota_concat n b i : quota (concat (repeat b n)) i = (n * quota b i)%nat.
Proof. induction n as [|n IH]; [reflexivity|]. cbn [repeat concat]. rewrite quota_app, IH. lia. Qed.

Lemma quota_more a b n m i : (n <= m)%nat ->
  (quota (a ++ concat (repeat b n)) i <= quota (a ++ concat (repeat b m)) i)%nat.
Proof. intros H. rewrite !quota_app, !quota_concat. nia. Qed.

Lemma counted_repeat i sd k : (counted i (repeat sd k) <= if (sd =? i)%Z then k else 0)%nat.
Proof.
  unfold counted. induction k as [|k IH]; [destruct (sd =? i)%Z; cbn; lia|]. cbn [repeat]. rewrite filter_cons.
  destruct (decide (sd = i)), (Z.eqb_spec sd i); cbn [length]; (lia || done).
Qed.

Lemma spent_nil s : spent [] s s.
Proof. exists []. split_and!; [apply drew_nil|constructor|intros i; cbn; lia]. Qed.

Lemma spent_drew b sd n l s0 s s' k :
  0 <= sd <= MAX_STREAM -> Forall (fun i => 0 <= i <= MAX_STREAM) l -> drew l s0 s ->
  (forall i, (counted i l <= quota b i)%nat) ->
  (k <= n)%nat -> drew (l ++ repeat sd k) s0 s' -> spent (b ++ [(sd, n)]) s0 s'.
Proof.
  intros Hsd Hl _ Hq Hk Hd'. exists (l ++ repeat sd k). split_and!; [exact Hd'| |].
  - apply Forall_app. split; [exact Hl|]. apply List.Forall_forall. intros x Hx%repeat_spec. now subst.
  - intros i. rewrite counted_app, quota_app. specialize (Hq i). pose proof (counted_repeat i sd k).
    cbn [quota fold_right fst snd]. destruct (sd =? i); lia.
Qed.

Lemma spent_le b b' s s' : spent b s s' -> (forall i, (quota b i <= quota b' i)%nat) -> spent b' s s'.
Proof. intros (l & Hd & Hl & Hq) Hle. exists l. split_and!; [exact Hd|exact Hl|]. intros i. specialize (Hq i). specialize (Hle i). lia. Qed.

Lemma spent_frame b s s' : spent b s s' -> glob s' = glob s /\ tdefs s' = tdefs s.
Proof. intros (l & [] & _). done. Qed.

(** ** Rules *)

Section Rules.
Context (b : list (Z * nat)) (s0 : st) (H0 : seeds_ok (Seed s0)).

(** What a rule about a list of draws gives: [k] numbers of stream [sd] after [s]. *)
Lemma spent_more sd n k s s' :
  spent b s0 s -> 0 <= sd <= MAX_STREAM -> (k <= n)%nat ->
  (forall l, drew l s0 s -> drew (l ++ repeat sd k) s0 s') -> spent (b ++ [(sd, n)]) s0 s'.
Proof.
  intros (l & Hd & Hl & Hq) Hsd Hk Hd'. eapply spent_drew; [exact Hsd|exact Hl|exact Hd|exact Hq|exact Hk|auto].
Qed.

Lemma wp_random_s lo hi i (Q : Z -> st -> Prop) s :
  spent b s0 s -> lo <= hi < lo + 2 ^ 50 -> 0 <= i <= MAX_STREAM ->
  (forall v s', lo <= v <= hi -> spent (b ++ [(i, 1%nat)]) s0 s' -> Q v s') ->
  wp (RANDOM lo hi i) Q s.
Proof.
  intros (l & Hd & Hl & Hq) Hr Hi HQ. eapply wp_random_d; [exact H0|exact Hd|exact Hr|].
  intros v s' Hv Hd' _. apply HQ; [exact Hv|].
  exact (spent_drew _ _ 1 _ _ _ _ 1 Hi Hl Hd Hq (le_n _) Hd').
Qed.

Lemma wp_strcpy_to_s what cap str (Q : string -> st -> Prop) s :
  strlen str < cap -> spent b s0 s -> (forall s', spent b s0 s' -> Q str s') -> wp (strcpy_to what cap str) Q s.
Proof. intros Hfit Hs HQ. apply wp_strcpy_to; [exact Hfit|]. now apply HQ. Qed.

Lemma wp_pick_str_s d c (Q : Z * string -> st -> Prop) s :
  spent b s0 s -> dist_ok d -> 0 <= c <= MAX_STREAM ->
  (forall k m s', dlist d !! k = Some m -> spent (b ++ [(c, 1%nat)]) s0 s' -> Q (Z.of_nat k, text m) s') ->
  wp (pick_str d c) Q s.
Proof.
  intros (l & Hd & Hl & Hq) Hok Hc HQ. eapply wp_pick_str; [exact H0|exact Hd|exact Hok|].
  intros k m j s' Hm _ _ _ Hd' _. apply HQ; [exact Hm|].
  exact (spent_drew _ _ 1 _ _ _ _ 1 Hc Hl Hd Hq (le_n _) Hd').
Qed.

Lemma wp_gen_phone_s ind seed (Q : string -> st -> Prop) s :
  spent b s0 s -> 0 <= ind -> 0 <= seed <= MAX_STREAM ->
  (forall str s', strlen str = 15 -> spent (b ++ [(seed, 3%nat)]) s0 s' -> Q str s') ->
  wp (gen_phone ind seed) Q s.
Proof.
  intros (l & Hd & Hl & Hq) Hi Hs HQ. eapply wp_gen_phone; [exact H0|exact Hd|exact Hi|].
  intros str s' Hstr Hd'. apply HQ; [apply Hstr|]. exact (spent_drew _ _ 3 _ _ _ _ 3 Hs Hl Hd Hq (le_n _) Hd').
Qed.

Lemma wp_a_rnd_s min max col (Q : Z * string -> st -> Prop) s :
  spent b s0 s -> 0 <= min <= max -> max < 2 ^ 31 -> 0 <= col <= MAX_STREAM ->
  (forall len str s', min <= len <= max -> strlen str = len -> all_chars in_alpha str = true ->
     spent (b ++ [(col, S (Z.to_nat ((max + 4) / 5)))]) s0 s' -> Q (len, str) s') ->
  wp (a_rnd min max col) Q s.
Proof.
  intros (l & Hd & Hl & Hq) Hm Hx Hc HQ. eapply wp_a_rnd; [exact H0|exact Hd|exact Hm|exact Hx|].
  intros len str s' Hlen Hstr Ha Hd' _. apply HQ; try assumption.
  eapply spent_drew; [exact Hc|exact Hl|exact Hd|exact Hq| |exact Hd'].
  assert ((len + 4) / 5 <= (max + 4) / 5) by (apply Z.div_le_mono; lia). lia.
Qed.

Lemma wp_agg_str_s set col n N (Q : string -> st -> Prop) s :
  spent b s0 s -> count set < 2 ^ 31 -> Z.of_nat (length (dlist set)) = count set -> 1 <= n <= count set ->
  (Z.to_nat (count set) <= N)%nat -> 0 <= col <= MAX_STREAM ->
  (forall ks ms s', NoDup ks -> Z.of_nat (length ks) = n -> members_at set ks ms ->
     spent (b ++ [(col, N)]) s0 s' -> Q (join (map text ms)) s') ->
  wp (agg_str set n col) Q s.
Proof.
  intros (l & Hd & Hl & Hq) Hc Hlen Hn HN Hcol HQ.
  eapply wp_agg_str; [exact H0|lia|exact Hlen|exact Hd|exact Hn|].
  intros ks ms s' Hd' Hnd Hk Hms. apply (HQ ks ms); try assumption.
  eapply spent_drew; [exact Hcol|exact Hl|exact Hd|exact Hq|exact HN|exact Hd'].
Qed.

Lemma wp_dbg_text_s D tgt min max sd N (Q : mem * Z -> st -> Prop) s :
  grammar_okb D = true -> spent b s0 s -> 0 <= min <= max -> max < 2 ^ 31 -> max < Z.of_nat (length tgt) ->
  (text_draws D max <= N)%nat -> 0 <= sd <= MAX_STREAM ->
  (forall m x len s', min <= len <= max -> cut_text D len x ->
     starts_with m (x +:+ one NUL) (Z.of_nat (length tgt)) -> spent (b ++ [(sd, N)]) s0 s' -> Q (m, len) s') ->
  wp (dbg_text D tgt min max sd) Q s.
Proof.
  intros HD (l & Hd & Hl & Hq) Hm Hx Hcap HN Hsd HQ. eapply wp_dbg_text; [exact HD|exact H0|exact Hd|exact Hm|exact Hx|exact Hcap|].
  intros m x len k s' Hlen Hcut Hst Hk Hd'. apply (HQ m x len s' Hlen Hcut Hst).
  eapply spent_drew; [exact Hsd|exact Hl|exact Hd|exact Hq| |exact Hd'].
  pose proof (text_draws_le D len max ltac:(lia)). lia.
Qed.
End Rules.

(** ** Boundaries *)

Lemma draw_seeds_length l : forall seeds, length (draw_seeds l seeds) = length seeds.
Proof.
  induction l as [|i l IH]; intros seeds; [reflexivity|]. cbn [draw_seeds fold_left].
  fold (draw_seeds l (draw_seed i seeds)). rewrite IH. unfold draw_seed.
  destruct (in_table i); now rewrite ?length_alter.
Qed.

(** A row that keeps its quotas below the boundaries keeps every usage below them. *)
Definition within (b : list (Z * nat)) (seeds : list seed_t) : Prop :=
  forall i e, seeds !! i = Some e -> Z.of_nat (quota b (Z.of_nat i)) <= boundary e.

Lemma spent_usage b s s' :
  seeds_ok (Seed s) -> Forall (fun e => usage e = 0) (Seed s) -> spent b s s' -> within b (Seed s) ->
  Forall (fun e => usage e <= boundary e) (Seed s') /\ map boundary (Seed s') = map boundary (Seed s).
Proof.
  intros [Hlen _] Hu (l & Hd & _ & Hq) Hw. rewrite (drew_seeds _ _ _ Hd).
  assert (Hl' : length (draw_seeds l (Seed s)) = 48%nat) by (rewrite draw_seeds_length; exact Hlen).
  assert (Hat : forall i, (i < 48)%nat -> draw_seeds l (Seed s) !! i = drawn_seed (hits (Z.of_nat i) l) (counted (Z.of_nat i) l) <$> Seed s !! i).
  { intros i Hi. pose proof (draw_seeds_lookup l (Seed s) (Z.of_nat i) ltac:(lia)) as E. now rewrite Nat2Z.id in E. }
  split.
  - apply Forall_lookup. intros i e He. pose proof (lookup_lt_Some _ _ _ He) as Hi. rewrite Hl' in Hi.
    rewrite Hat in He by exact Hi. destruct (Seed s !! i) as [e0|] eqn:E; [|discriminate He]. injection He as <-.
    rewrite Forall_lookup in Hu. specialize (Hu i e0 E). specialize (Hw i e0 E). specialize (Hq (Z.of_nat i)). cbn in *. lia.
  - apply list_eq. intros i. rewrite !lookup_map. destruct (decide (i < 48)%nat) as [Hi|Hi].
    + rewrite Hat by exact Hi. now destruct (Seed s !! i).
    + rewrite !lookup_ge_None_2 by lia. reflexivity.
Qed.
