(* ===== verification/Tpch.v ===== *)
(** The TPC-H rows: the branches of build.c, dsstypes.h, dss.h and shared.h taken when
    [SSBM] is not defined. The helpers both configurations share are those of Build. *)
From S2P Require Import Prelude CString Float64 Rng State Consts Streams Dist Bcd2 Sparse Calendar Build Text.

(** ** shared.h, dss.h: the constants that differ from the SSBM ones, or that SSBM does not use *)
Definition P_NAME_SCL : Z := 5.
Definition P_NAME_LEN : Z := 55.
Definition P_MFG_LEN : Z := 25.
Definition P_TYPE_LEN : Z := 25.
Definition P_CMNT_LEN : Z := 14.
Definition P_CMNT_MAX : Z := 23.
Definition S_ADDR_LEN : Z := 25.
Definition S_ADDR_MAX : Z := 40.
Definition S_CMNT_LEN : Z := 63.
Definition S_CMNT_MAX : Z := 101.
Definition PS_CMNT_LEN : Z := 124.
Definition PS_CMNT_MAX : Z := 199.
Definition C_NAME_LEN : Z := 18.
Definition C_ADDR_LEN : Z := 25.
Definition C_ADDR_MAX : Z := 40.
Definition C_MSEG_LEN : Z := 10.
Definition C_CMNT_LEN : Z := 73.
Definition C_CMNT_MAX : Z := 117.
Definition O_OPRIO_LEN : Z := 15.
Definition O_CMNT_LEN : Z := 49.
Definition O_CMNT_MAX : Z := 79.
Definition L_CMNT_LEN : Z := 27.
Definition L_CMNT_MAX : Z := 44.
Definition L_INST_LEN : Z := 25.
Definition L_SMODE_LEN : Z := 10.
Definition N_CMNT_LEN : Z := 72.
Definition N_CMNT_MAX : Z := 152.
Definition R_CMNT_LEN : Z := 72.
Definition R_CMNT_MAX : Z := 152.
Definition NATION_LEN : Z := 25.
Definition REGION_LEN : Z := 25.
Definition MAXAGG_LEN : Z := 20.
Definition S_ABAL_MIN : Z := (-99999).
Definition S_ABAL_MAX : Z := 999999.
Definition S_CMNT_BBB : Z := 10.
Definition BBB_DEADBEATS : Z := 50.
Definition BBB_BASE : string := "Customer ".
Definition BBB_COMPLAIN : string := "Complaints".
Definition BBB_COMMEND : string := "Recommends".
Definition BBB_CMNT_LEN : Z := 19.
Definition BBB_BASE_LEN : Z := 9.
Definition BBB_TYPE_LEN : Z := 10.
Definition PS_SCST_MIN : Z := 100.
Definition PS_SCST_MAX : Z := 100000.
Definition PS_QTY_MIN : Z := 1.
Definition PS_QTY_MAX : Z := 9999.

(** [#define L_PKEY_MAX (tdefs[PART].base * scale)] *)
Definition L_PKEY_MAX (s : st) : Z := base_of s PART * glob s G.scale.

(** ** dsstypes.h *)

Record customer_t := mk_customer {
  c_custkey : Z; c_name : string; c_address : string; c_alen : Z; c_nation_code : Z;
  c_phone : string; c_acctbal : Z; c_mktsegment : string; c_comment : string; c_clen : Z
}.

Record line_t := mk_line {
  l_okey : Z * Z; l_partkey : Z; l_suppkey : Z; l_lcnt : Z; l_quantity : Z; l_eprice : Z;
  l_discount : Z; l_tax : Z; l_rflag : ascii; l_lstatus : ascii;
  l_cdate : string; l_sdate : string; l_rdate : string;
  l_shipinstruct : string; l_shipmode : string; l_comment : string; l_clen : Z
}.

Record order_t := mk_order_t {
  o_okey : Z * Z; o_custkey : Z; o_orderstatus : ascii; o_totalprice : Z; o_odate : string;
  o_opriority : string; o_clerk : string; o_spriority : Z; o_lines : Z;
  o_comment : string; o_clen : Z; o_l : list line_t
}.

Record partsupp_t := mk_partsupp {
  ps_partkey : Z; ps_suppkey : Z; ps_qty : Z; ps_scost : Z; ps_comment : string; ps_clen : Z
}.

(** [nlen] is never set and left out. *)
Record part_t := mk_part_t {
  p_partkey : Z; p_name : string; p_mfgr : string; p_brand : string; p_type : string; p_tlen : Z;
  p_size : Z; p_container : string; p_retailprice : Z; p_comment : string; p_clen : Z;
  p_s : list partsupp_t
}.

Record supplier_t := mk_supplier {
  s_suppkey : Z; s_name : string; s_address : string; s_alen : Z; s_nation_code : Z;
  s_phone : string; s_acctbal : Z; s_comment : string; s_clen : Z
}.

Record code_t := mk_code {
  k_code : Z; k_text : string; k_join : Z; k_comment : string; k_clen : Z
}.

(** ** Dates *)

(** [#define PR_DATE(tgt, yr, mn, dy) sprintf(tgt, "19%02d-%02d-%02d", yr, mn, dy)] *)
Definition PR_DATE (yr mn dy : Z) : string :=
  "19" +:+ fmt_0d 2 yr +:+ "-" +:+ fmt_0d 2 mn +:+ "-" +:+ fmt_0d 2 dy.

(** [long mk_time(long index, dss_time_t *t)] with this [PR_DATE]. *)
Definition mk_time (index : Z) : option dss_time_t :=
  let y := julian (index + STARTDATE - 1) /c 1000 in
  let d := julian (index + STARTDATE - 1) %c 1000 in
  m ← month_loop 14 y d 0;
  c ← dcnt_at (m - 1);
  Some (mk_dss_time (index + JDAY_BASE)
    (PR_DATE y m (d - c - (if negb (LEAP y =? 0) && (2 <? m) then 1 else 0)))
    (1900 + y) (m + 12 * y + JMNTH_BASE) ((d + T_START_DAY - 1) /c 7 + 1)
    (d - c - LEAP_ADJ y (m - 1))).

(** [char **mk_ascdate(void)] *)
Fixpoint mk_ascdate_loop (n : nat) (i : Z) : option (list string) :=
  match n with
  | O => Some []
  | S n =>
      t ← mk_time (i + 1);
      rest ← mk_ascdate_loop n (i + 1);
      Some (alpha t :: rest)
  end.
Definition mk_ascdate : option (list string) := mk_ascdate_loop (Z.to_nat TOTDATE) 0.
Definition asc_date : list string := default [] mk_ascdate.
Definition asc_at (i : Z) : option string := if i <? 0 then None else asc_date !! Z.to_nat i.

(** ** build.c: macros *)

(** [#define PART_SUPP_BRIDGE(tgt, p, s)] *)
Definition PART_SUPP_BRIDGE (tot_scnt p s : Z) : Z :=
  (p + s * (tot_scnt /c SUPP_PER_PART + (p - 1) /c tot_scnt)) %c tot_scnt + 1.
Definition part_supp (p s : Z) : M Z :=
  x <- get;;
  let tot_scnt := base_of x SUPP * glob x G.scale in
  if tot_scnt =? 0 then stop_with (Undefined "division by zero")
  else ret (PART_SUPP_BRIDGE tot_scnt p s).

(** [memcpy(buf + off, s, strlen(s))] *)
Fixpoint memcpy (off : Z) (s : string) (m : mem) : M mem :=
  match s with
  | EmptyString => ret m
  | String c s => m <- store off c m;; memcpy (off + 1) s m
  end.

Section Rows.
Context (D : dists).

(** [#define TEXT(avg, sd, tgt)] into a member of [max + 1] characters. *)
Definition TEXT_to (max avg sd : Z) : M (mem * Z) :=
  dbg_text D (uninit (max + 1)) (f_to_Z (fmul (f_of_Z avg) V_STR_LOW))
    (f_to_Z (fmul (f_of_Z avg) V_STR_HGH)) sd.
Definition TEXT (max avg sd : Z) : M (string * Z) :=
  '(m, len) <- TEXT_to max avg sd;;
  comment <- must "comment" (c_string m);;
  ret (comment, len).

(** ** build.c: the rows *)

(** [long mk_cust(long n_cust, customer_t *c)] *)
Definition mk_cust (n_cust : Z) : M customer_t :=
  let name := "Customer#" +:+ fmt_0d 9 (wrap_s 32 n_cust) in
  a <- V_STR C_ADDR_LEN C_ADDR_SD;;
  i <- RANDOM 0 (count (nations D) - 1) C_NTRG_SD;;
  phone <- gen_phone i C_PHNE_SD;;
  acctbal <- RANDOM C_ABAL_MIN C_ABAL_MAX C_ABAL_SD;;
  m <- pick_str (c_mseg_set D) C_MSEG_SD;;
  mktsegment <- strcpy_to "mktsegment" (MAXAGG_LEN + 1) (snd m);;
  '(comment, clen) <- TEXT C_CMNT_MAX C_CMNT_LEN C_CMNT_SD;;
  ret (mk_customer n_cust name (snd a) (fst a) i phone acctbal mktsegment comment clen).

(** The statement that sets [rflag]: [pick_str] writes into [tmp_str[2]]. *)
Definition return_flag (r_date : Z) : M ascii :=
  if julian r_date <=? CURRENTDATE then
    p <- pick_str (l_rflag_set D) L_RFLG_SD;;
    match snd p with
    | String c EmptyString => ret c
    | EmptyString => ret NUL
    | _ => stop_with (Undefined "tmp_str")
    end
  else ret "N"%char.

(** The body of the line loop of [mk_order]: the line, the total price and [ocnt]. *)
Definition mk_line_row (lcnt : Z) (okey : Z * Z) (tmp_date totalprice ocnt : Z) : M (line_t * Z * Z) :=
  s <- get;;
  quantity <- RANDOM L_QTY_MIN L_QTY_MAX L_QTY_SD;;
  discount <- RANDOM L_DCNT_MIN L_DCNT_MAX L_DCNT_SD;;
  tax <- RANDOM L_TAX_MIN L_TAX_MAX L_TAX_SD;;
  i <- pick_str (l_instruct_set D) L_SHIP_SD;;
  shipinstruct <- strcpy_to "shipinstruct" (MAXAGG_LEN + 1) (snd i);;
  m <- pick_str (l_smode_set D) L_SMODE_SD;;
  shipmode <- strcpy_to "shipmode" (MAXAGG_LEN + 1) (snd m);;
  '(comment, clen) <- TEXT L_CMNT_MAX L_CMNT_LEN L_CMNT_SD;;
  partkey <- RANDOM L_PKEY_MIN (L_PKEY_MAX s) L_PKEY_SD;;
  let rprice := rpb_routine partkey in
  supp_num <- RANDOM 0 3 L_SKEY_SD;;
  suppkey <- part_supp partkey supp_num;;
  let eprice := rprice * quantity in
  let totalprice := totalprice +
    (eprice * (100 - discount)) /c PENNIES * (100 + tax) /c PENNIES in
  s_date <- RANDOM L_SDTE_MIN L_SDTE_MAX L_SDTE_SD;;
  let s_date := s_date + tmp_date in
  c_date <- RANDOM L_CDTE_MIN L_CDTE_MAX L_CDTE_SD;;
  let c_date := c_date + tmp_date in
  r_date <- RANDOM L_RDTE_MIN L_RDTE_MAX L_RDTE_SD;;
  let r_date := r_date + s_date in
  sdate <- must "asc_date" (asc_at (s_date - STARTDATE));;
  cdate <- must "asc_date" (asc_at (c_date - STARTDATE));;
  rdate <- must "asc_date" (asc_at (r_date - STARTDATE));;
  rflag <- return_flag r_date;;
  let '(ocnt, lstatus) := if julian s_date <=? CURRENTDATE then (ocnt + 1, "F"%char)
                          else (ocnt, "O"%char) in
  ret (mk_line okey partkey suppkey (lcnt + 1) quantity eprice discount tax rflag lstatus
         cdate sdate rdate shipinstruct shipmode comment clen, totalprice, ocnt).

Fixpoint mk_line_rows (n : nat) (lcnt : Z) (okey : Z * Z) (tmp_date totalprice ocnt : Z) :
    M (list line_t * Z * Z) :=
  match n with
  | O => ret ([], totalprice, ocnt)
  | S n =>
      '(l, totalprice, ocnt) <- mk_line_row lcnt okey tmp_date totalprice ocnt;;
      '(ls, totalprice, ocnt) <- mk_line_rows n (lcnt + 1) okey tmp_date totalprice ocnt;;
      ret (l :: ls, totalprice, ocnt)
  end.

(** [long mk_order(long index, order_t *o, long upd_num)] *)
Definition mk_order (index upd_num : Z) : M order_t :=
  s <- get;;
  seq <- (if upd_num =? 0 then ret 0
          else if (glob s G.refresh =? 0) || (10000 /c glob s G.refresh =? 0)
          then stop_with (Undefined "division by zero")
          else ret (1 + upd_num /c (10000 /c glob s G.refresh)));;
  let okey := mk_sparse (glob s G.scale) index seq in
  custkey <- RANDOM O_CKEY_MIN (O_CKEY_MAX s) O_CKEY_SD;;
  custkey <- must "custkey loop" (custkey_loop 4 custkey 1 (O_CKEY_MAX s));;
  tmp_date <- RANDOM O_ODATE_MIN O_ODATE_MAX O_ODATE_SD;;
  odate <- must "asc_date" (asc_at (tmp_date - STARTDATE));;
  p <- pick_str (o_priority_set D) O_PRIO_SD;;
  opriority <- strcpy_to "opriority" (MAXAGG_LEN + 1) (snd p);;
  clk_num <- RANDOM 1 (MAX (glob s G.scale * O_CLRK_SCL) O_CLRK_SCL) O_CLRK_SD;;
  let clerk := "Clerk#" +:+ fmt_0d 9 (wrap_s 32 clk_num) in
  '(comment, clen) <- TEXT O_CMNT_MAX O_CMNT_LEN O_CMNT_SD;;
  lines <- RANDOM O_LCNT_MIN O_LCNT_MAX O_LCNT_SD;;
  '(l, totalprice, ocnt) <- mk_line_rows (Z.to_nat lines) 0 okey tmp_date 0 0;;
  let orderstatus := "O"%char in
  let orderstatus := if 0 <? ocnt then "P"%char else orderstatus in
  let orderstatus := if ocnt =? lines then "F"%char else orderstatus in
  ret (mk_order_t okey custkey orderstatus totalprice odate opriority clerk 0 lines comment clen l).

(** The loop of [mk_part] over [snum]. *)
Definition mk_psupp_row (index snum : Z) : M partsupp_t :=
  suppkey <- part_supp index snum;;
  qty <- RANDOM PS_QTY_MIN PS_QTY_MAX PS_QTY_SD;;
  scost <- RANDOM PS_SCST_MIN PS_SCST_MAX PS_SCST_SD;;
  '(comment, clen) <- TEXT PS_CMNT_MAX PS_CMNT_LEN PS_CMNT_SD;;
  ret (mk_partsupp index suppkey qty scost comment clen).

(** [long mk_part(long index, part_t *p)] *)
Definition mk_part (index : Z) : M part_t :=
  name <- agg_str (colors D) P_NAME_SCL P_NAME_SD;;
  name <- strcpy_to "name" (P_NAME_LEN + 1) name;;
  temp <- RANDOM P_MFG_MIN P_MFG_MAX P_MFG_SD;;
  let mfgr := "Manufacturer#" +:+ fmt_0d 1 temp in
  brnd <- RANDOM P_BRND_MIN P_BRND_MAX P_BRND_SD;;
  let brand := "Brand#" +:+ fmt_0d 2 (temp * 10 + brnd) in
  t <- pick_str (p_types_set D) P_TYPE_SD;;
  type <- strcpy_to "type" (P_TYPE_LEN + 1) (snd t);;
  m <- dist_text "p_types_set.list[tlen]" (p_types_set D) (fst t);;
  let tlen := strlen (text m) in
  size <- RANDOM P_SIZE_MIN P_SIZE_MAX P_SIZE_SD;;
  k <- pick_str (p_cntr_set D) P_CNTR_SD;;
  container <- strcpy_to "container" (P_CNTR_LEN + 1) (snd k);;
  let retailprice := rpb_routine index in
  '(comment, clen) <- TEXT P_CMNT_MAX P_CMNT_LEN P_CMNT_SD;;
  s <- for_list (Z.to_nat SUPP_PER_PART) 0 (mk_psupp_row index);;
  ret (mk_part_t index name mfgr brand type tlen size container retailprice comment clen s).

(** [long mk_supp(long index, supplier_t *s)] *)
Definition mk_supp (index : Z) : M supplier_t :=
  let name := "Supplier#" +:+ fmt_0d 9 index in
  a <- V_STR S_ADDR_LEN S_ADDR_SD;;
  i <- RANDOM 0 (count (nations D) - 1) S_NTRG_SD;;
  phone <- gen_phone i S_PHNE_SD;;
  acctbal <- RANDOM S_ABAL_MIN S_ABAL_MAX S_ABAL_SD;;
  '(m, clen) <- TEXT_to S_CMNT_MAX S_CMNT_LEN S_CMNT_SD;;
  bad_press <- RANDOM 1 10000 BBB_CMNT_SD;;
  type <- RANDOM 0 100 BBB_TYPE_SD;;
  noise <- RANDOM 0 (clen - BBB_CMNT_LEN) BBB_JNK_SD;;
  offset <- RANDOM 0 (clen - (BBB_CMNT_LEN + noise)) BBB_OFFSET_SD;;
  m <- (if bad_press <=? S_CMNT_BBB then
          let type := if type <? BBB_DEADBEATS then 0 else 1 in
          m <- memcpy offset (take_s BBB_BASE_LEN BBB_BASE) m;;
          if type =? 0 then memcpy (BBB_BASE_LEN + offset + noise) (take_s BBB_TYPE_LEN BBB_COMPLAIN) m
          else memcpy (BBB_BASE_LEN + offset + noise) (take_s BBB_TYPE_LEN BBB_COMMEND) m
        else ret m);;
  comment <- must "comment" (c_string m);;
  ret (mk_supplier index name (snd a) (fst a) i phone acctbal comment clen).

(** [int mk_nation(long index, code_t *c)] *)
Definition mk_nation (index : Z) : M code_t :=
  n <- dist_text "nations.list" (nations D) (index - 1);;
  '(comment, clen) <- TEXT N_CMNT_MAX N_CMNT_LEN N_CMNT_SD;;
  ret (mk_code (index - 1) (text n) (weight n) comment clen).

(** [int mk_region(long index, code_t *c)] *)
Definition mk_region (index : Z) : M code_t :=
  r <- dist_text "regions.list" (regions D) (index - 1);;
  '(comment, clen) <- TEXT N_CMNT_MAX R_CMNT_LEN R_CMNT_SD;;
  ret (mk_code (index - 1) (text r) 0 comment clen).
End Rows.
