(* ===== verification/TpchSpec.v ===== *)
(** What each TPC-H row builder does: it returns, its columns are in the domains of the
    schema, and it draws no more numbers than the boundaries of rnd.h account for. *)
From S2P Require Import Prelude CString Float64 Rng State Consts Streams Dist Bcd2 Sparse Calendar Build RowSpec Config Shipped Text Quota Tpch.

(** ** Valid environments *)

(** Distributions and a grammar the builders can use: besides what the SSBM rows need, five
    colors and no more than the boundary of their stream, instructions that fit a line, return
    flags of one character, and
    sentences that draw fewer than [RNG_PER_SENT] numbers and have 10 characters. *)
Record tpch_dists (D : dists) : Prop := mk_tpch_dists {
  td_base : dists_ok D;
  td_grammar : grammar_okb D = true;
  td_instruct : dist_ok (l_instruct_set D) /\ texts_fit MAXAGG_LEN (l_instruct_set D);
  td_rflag : dist_ok (l_rflag_set D) /\ Forall (fun m => strlen (text m) = 1) (dlist (l_rflag_set D));
  td_colors : 5 <= count (colors D) <= 92;
  td_draws : (sentence_draws D < Z.to_nat RNG_PER_SENT)%nat;
  td_min : 10 <= sentence_min D;
}.

Definition supp_cnt (s : st) : Z := base_of s SUPP * glob s G.scale.

(** A scale at which the key ranges are not empty (and below [2^50]). *)
Definition tpch_scale (s : st) : Prop :=
  1 <= glob s G.scale < 2 ^ 30 /\ 1 <= O_CKEY_MAX s < 2 ^ 50 /\ 1 <= supp_cnt s < 2 ^ 50 /\
  1 <= L_PKEY_MAX s < 2 ^ 50.

(** ** Dates *)

(** The text of the [i]-th day: [yyyy-mm-dd]. *)
Definition day_dash (i : Z) : string :=
  let '(y, m, d) := nth_date (Z.to_nat i) in fmt_d y +:+ "-" +:+ fmt_0d 2 m +:+ "-" +:+ fmt_0d 2 d.

(** [CURRENTDATE], counted from [STARTDATE]: 1995-06-17. *)
Definition CURRENT_DAY : Z := 1263.

Example current_day : nth_date (Z.to_nat CURRENT_DAY) = (1995, 6, 17).
Proof. vm_compute. reflexivity. Qed.

Lemma asc_date_dates :
  mk_ascdate = Some (map (fun d => let '(y, m, d) := d in fmt_d y +:+ "-" +:+ fmt_0d 2 m +:+ "-" +:+ fmt_0d 2 d)
    (dates_from (Z.to_nat TOTDATE) (1992, 1, 1))).
Proof. vm_compute. reflexivity. Qed.

Lemma tpch_asc_at_day i : 0 <= i < TOTDATE -> asc_at i = Some (day_dash i).
Proof.
  intros Hi. unfold asc_at. destruct (Z.ltb_spec i 0); [lia|]. unfold asc_date.
  rewrite asc_date_dates. cbv beta iota delta [from_option id].
  rewrite lookup_map, dates_from_nth by lia. reflexivity.
Qed.

Lemma julian_current_all :
  forallb (fun k => Bool.eqb (julian (STARTDATE + Z.of_nat k) <=? CURRENTDATE) (Z.of_nat k <=? CURRENT_DAY))
    (seq 0 (Z.to_nat TOTDATE)) = true.
Proof. vm_compute. reflexivity. Qed.

(** Comparing [julian] dates with [CURRENTDATE] compares days. *)
Lemma julian_current i : 0 <= i < TOTDATE -> (julian (STARTDATE + i) <=? CURRENTDATE) = (i <=? CURRENT_DAY).
Proof.
  intros Hi. pose proof julian_current_all as H. rewrite forallb_forall in H.
  specialize (H (Z.to_nat i) ltac:(apply in_seq; lia)). rewrite Z2Nat.id in H by lia. now apply Bool.eqb_prop.
Qed.

(** ** The suppliers of a part *)

Lemma bridge_eq tot p k : 1 <= tot -> 1 <= p -> 0 <= k ->
  PART_SUPP_BRIDGE tot p k = (p + k * (tot / 4 + (p - 1) / tot)) mod tot + 1.
Proof.
  intros Ht Hp Hk. unfold PART_SUPP_BRIDGE, SUPP_PER_PART. rewrite (quot_div tot), (quot_div (p - 1)) by lia.
  assert (0 <= tot / 4 /\ 0 <= (p - 1) / tot) by (split; apply Z.div_pos; lia).
  rewrite rem_mod by nia. reflexivity.
Qed.

Lemma bridge_range tot p k : 1 <= tot -> 1 <= p -> 0 <= k -> 1 <= PART_SUPP_BRIDGE tot p k <= tot.
Proof.
  intros Ht Hp Hk. rewrite bridge_eq by lia.
  pose proof (Z.mod_pos_bound (p + k * (tot / 4 + (p - 1) / tot)) tot ltac:(lia)). lia.
Qed.

(** With 229 suppliers or more, and 20 parts for each supplier, the four are distinct. *)
Lemma bridge_distinct tot p j k :
  229 <= tot -> 1 <= p <= 20 * tot -> 0 <= j < k -> k <= 3 -> PART_SUPP_BRIDGE tot p j <> PART_SUPP_BRIDGE tot p k.
Proof.
  intros Ht Hp Hj Hk. rewrite !bridge_eq by lia.
  assert (0 <= (p - 1) / tot <= 19) by (split; [apply Z.div_pos; lia|]; enough ((p - 1) / tot < 20) by lia;
    apply Z.div_lt_upper_bound; lia).
  set (q := (p - 1) / tot) in *. set (w := tot / 4 + q). assert (Hw : tot / 4 <= w <= tot / 4 + 19) by lia.
  assert (4 * (tot / 4) <= tot < 4 * (tot / 4) + 4) by zdiv.
  intros E. assert (Hm : (p + k * w) mod tot = (p + j * w) mod tot) by lia.
  assert (Hd : ((k - j) * w) mod tot = 0).
  { replace ((k - j) * w) with ((p + k * w) - (p + j * w)) by lia.
    rewrite Zminus_mod, Hm, Z.sub_diag. apply Z.mod_0_l. lia. }
  assert (Hb : 0 < (k - j) * w < tot).
  { assert (k - j = 1 \/ k - j = 2 \/ k - j = 3) as [E1|[E1|E1]] by lia; rewrite E1; lia. }
  rewrite Z.mod_small in Hd by lia. lia.
Qed.

(** With 84 suppliers the first and the fourth supplier of part 589 are the same. *)
Example bridge_collides : PART_SUPP_BRIDGE 84 589 0 = PART_SUPP_BRIDGE 84 589 3.
Proof. reflexivity. Qed.

(** ** Comments *)

(** A comment of [len] characters, [lo] to [hi], cut out of sentences of the grammar. *)
Definition comment_ok (D : dists) (lo hi : Z) (x : string) (len : Z) : Prop := lo <= len <= hi /\ cut_text D len x.

(** The numbers a comment of [len] characters draws, at most. *)
Definition text_quota (len : Z) : nat := S (26 * Z.to_nat ((len + 10) / 11)).

Section Rows.
Context (D : dists) (HD : tpch_dists D).

Lemma text_quota_draws len : 0 <= len -> (text_draws D len <= text_quota len)%nat.
Proof using HD.
  intros Hl. destruct HD as [_ _ _ _ _ Hd Hm]. unfold text_draws, text_quota, sentences_in, RNG_PER_SENT in *.
  set (m := sentence_min D) in *. assert ((len + m) / (m + 1) <= (len + 10) / 11).
  { pose proof (Z.div_mod (len + m) (m + 1) ltac:(lia)). pose proof (Z.mod_pos_bound (len + m) (m + 1) ltac:(lia)).
    set (a := (len + m) / (m + 1)) in *. apply Z.div_le_lower_bound; [lia|]. nia. }
  apply le_n_S, Nat.mul_le_mono; lia.
Qed.

Section Rules.
Context (b : list (Z * nat)) (s0 : st) (H0 : seeds_ok (Seed s0)).

Lemma wp_TEXT_to max avg sd lo hi (Q : mem * Z -> st -> Prop) s :
  f_to_Z (fmul (f_of_Z avg) V_STR_LOW) = lo -> f_to_Z (fmul (f_of_Z avg) V_STR_HGH) = hi ->
  0 <= lo <= hi -> hi <= max < 2 ^ 31 -> 0 <= sd <= MAX_STREAM -> spent b s0 s ->
  (forall m x len s', comment_ok D lo hi x len -> starts_with m (x +:+ one NUL) (max + 1) ->
     spent (b ++ [(sd, text_quota hi)]) s0 s' -> Q (m, len) s') ->
  wp (TEXT_to D max avg sd) Q s.
Proof.
  intros Elo Ehi Hlo Hhi Hsd Hs HQ. unfold TEXT_to. rewrite Elo, Ehi.
  assert (Hlen : Z.of_nat (length (uninit (max + 1))) = max + 1) by (unfold uninit; rewrite repeat_length; lia).
  eapply wp_dbg_text_s; [exact H0|exact (td_grammar D HD)|exact Hs|exact Hlo|lia|lia|apply text_quota_draws; lia|exact Hsd|].
  intros m x len s' Hl Hx Hm Hs'. apply (HQ m x len s'); [split; assumption|now rewrite Hlen in Hm|exact Hs'].
Qed.

Lemma wp_TEXT max avg sd lo hi (Q : string * Z -> st -> Prop) s :
  f_to_Z (fmul (f_of_Z avg) V_STR_LOW) = lo -> f_to_Z (fmul (f_of_Z avg) V_STR_HGH) = hi ->
  0 <= lo <= hi -> hi <= max < 2 ^ 31 -> 0 <= sd <= MAX_STREAM -> spent b s0 s ->
  (forall x len s', comment_ok D lo hi x len -> spent (b ++ [(sd, text_quota hi)]) s0 s' -> Q (x, len) s') ->
  wp (TEXT D max avg sd) Q s.
Proof.
  intros Elo Ehi Hlo Hhi Hsd Hs HQ. unfold TEXT. apply wp_bind.
  eapply wp_TEXT_to; [exact Elo|exact Ehi|exact Hlo|exact Hhi|exact Hsd|exact Hs|].
  intros m x len s' Hx Hm Hs'. pose proof Hx as (_ & _ & Hn & _).
  apply wp_bind. rewrite (c_string_starts x m _ Hn Hm). apply wp_ret, wp_ret, HQ; assumption.
Qed.
End Rules.

(** Draws the next number, or the next comment, and counts it. *)
Ltac sd_bounds := first [lia | vm_compute; split; intros ?; discriminate].
Ltac go_s v Hv Hs' :=
  apply wp_bind; eapply wp_random_s; [eassumption|eassumption|bounds|sd_bounds|]; intros v ? Hv Hs'.
Ltac go_text x len Hx Hs' :=
  apply wp_bind; eapply wp_TEXT; [eassumption|vm_compute; reflexivity|vm_compute; reflexivity|bounds|bounds|sd_bounds|eassumption|];
  intros x len ? Hx Hs'.
Ltac go_pick Hok k m Hm Hs' :=
  apply wp_bind; eapply wp_pick_str_s; [eassumption|eassumption|exact Hok|sd_bounds|]; intros k m ? Hm Hs'; cbn [fst snd].
Ltac go_strcpy Hfit Hs' := apply wp_bind; eapply wp_strcpy_to_s; [Hfit|eassumption|]; intros ? Hs'.

(** ** Customers *)

Record customer_ok (n : Z) (c : customer_t) : Prop := mk_customer_ok {
  cok_key : c_custkey c = n;
  cok_addr : 10 <= c_alen c <= 40 /\ strlen (c_address c) = c_alen c /\ all_chars in_alpha (c_address c) = true;
  cok_nation : 0 <= c_nation_code c < count (nations D);
  cok_phone : strlen (c_phone c) = PHONE_LEN;
  cok_bal : C_ABAL_MIN <= c_acctbal c <= C_ABAL_MAX;
  cok_mseg : member_text (c_mseg_set D) (c_mktsegment c);
  cok_cmnt : comment_ok D 29 116 (c_comment c) (c_clen c);
}.

Definition cust_quota : list (Z * nat) :=
  [(C_ADDR_SD, 9%nat); (C_NTRG_SD, 1%nat); (C_PHNE_SD, 3%nat); (C_ABAL_SD, 1%nat); (C_MSEG_SD, 1%nat);
   (C_CMNT_SD, text_quota 116)].

Lemma wp_V_STR_25 b s0 sd (Q : Z * string -> st -> Prop) s :
  seeds_ok (Seed s0) -> spent b s0 s -> 0 <= sd <= MAX_STREAM ->
  (forall len str s', 10 <= len <= 40 -> strlen str = len -> all_chars in_alpha str = true ->
     spent (b ++ [(sd, 9%nat)]) s0 s' -> Q (len, str) s') ->
  wp (V_STR 25 sd) Q s.
Proof using.
  intros H0 Hs Hsd HQ. unfold V_STR.
  change (f_to_Z (fmul (f_of_Z 25) V_STR_LOW)) with 10. change (f_to_Z (fmul (f_of_Z 25) V_STR_HGH)) with 40.
  eapply wp_a_rnd_s; [exact H0|exact Hs|lia|lia|exact Hsd|exact HQ].
Qed.

Lemma wp_tpch_cust n (Q : customer_t -> st -> Prop) s :
  seeds_ok (Seed s) -> (forall c s', customer_ok n c -> spent cust_quota s s' -> Q c s') -> wp (mk_cust D n) Q s.
Proof using HD.
  intros H0 HQ. pose proof (td_base D HD) as HB. pose proof (ok_nations D HB) as [Hn _]. unfold mk_cust.
  apply wp_bind. eapply wp_V_STR_25; [exact H0|apply spent_nil|sd_bounds|]. intros alen addr s1 Ha1 Ha2 Ha3 Hs1.
  go_s i Hi Hs2. apply wp_bind. eapply wp_gen_phone_s; [exact H0|exact Hs2|lia|sd_bounds|]. intros ph s3 Hph Hs3.
  go_s bal Hbal Hs4. go_pick (ok_mseg D HB) k m Hm Hs5. go_strcpy ltac:(fits HB Hm) Hs6. go_text x len Hx Hs7.
  apply wp_ret, HQ; [|exact Hs7]. split; cbn; try done; [lia|]. exists k, m. auto.
Qed.

(** ** Suppliers *)

(** The comment of a supplier: a cut of sentences, or one in which two words of the same
    lengths are written over, one for the customer and one for the verdict. *)
Definition supp_comment_ok (x : string) (len : Z) : Prop :=
  comment_ok D 25 100 x len \/
  exists y a w b v c verdict, comment_ok D 25 100 y len /\ y = a +:+ w +:+ b +:+ v +:+ c /\
    strlen w = BBB_BASE_LEN /\ strlen v = BBB_TYPE_LEN /\ (verdict = BBB_COMPLAIN \/ verdict = BBB_COMMEND) /\
    x = a +:+ BBB_BASE +:+ b +:+ verdict +:+ c.

Record supplier_ok (n : Z) (c : supplier_t) : Prop := mk_supplier_ok {
  sok_key : s_suppkey c = n;
  sok_addr : 10 <= s_alen c <= 40 /\ strlen (s_address c) = s_alen c /\ all_chars in_alpha (s_address c) = true;
  sok_nation : 0 <= s_nation_code c < count (nations D);
  sok_phone : strlen (s_phone c) = PHONE_LEN;
  sok_bal : S_ABAL_MIN <= s_acctbal c <= S_ABAL_MAX;
  sok_cmnt : supp_comment_ok (s_comment c) (s_clen c) /\ strlen (s_comment c) = s_clen c;
}.

Definition supp_quota : list (Z * nat) :=
  [(S_ADDR_SD, 9%nat); (S_NTRG_SD, 1%nat); (S_PHNE_SD, 3%nat); (S_ABAL_SD, 1%nat); (S_CMNT_SD, text_quota 100);
   (BBB_CMNT_SD, 1%nat); (BBB_TYPE_SD, 1%nat); (BBB_JNK_SD, 1%nat); (BBB_OFFSET_SD, 1%nat)].

Lemma wp_store_in m a o c b n (Q : mem -> st -> Prop) s :
  starts_with m (a +:+ String o b) n -> (forall m', starts_with m' (a +:+ String c b) n -> Q m' s) ->
  wp (store (strlen a) c m) Q s.
Proof using.
  intros (rest & -> & Hn) HQ. unfold store. rewrite Hn. pose proof (strlen_nonneg a).
  rewrite length_app, length_map, length_chars in Hn.
  assert (Hlt : strlen a < n).
  { rewrite <- Hn. pose proof (length_app_s a (String o b)) as E. rewrite strlen_cons in E. pose proof (strlen_nonneg b). unfold strlen in *. lia. }
  destruct (Z.leb_spec 0 (strlen a)); [|lia]. destruct (Z.ltb_spec (strlen a) n); [|lia]. apply wp_ret, HQ.
  exists rest. rewrite !chars_app, !map_app, <- !app_assoc. cbn [String.list_ascii_of_string map app].
  unfold strlen. rewrite Nat2Z.id, insert_app_r_alt by (rewrite length_map, length_chars; lia).
  rewrite length_map, length_chars, Nat.sub_diag. split; [reflexivity|].
  rewrite <- Hn. rewrite !length_app, !length_map, !length_chars. cbn [length].
  pose proof (length_app_s a (String o b)) as E. rewrite strlen_cons in E. unfold strlen in E.
  rewrite length_insert. cbn [length]. rewrite length_app, length_map, length_chars. lia.
Qed.

Lemma wp_memcpy w : forall v m a b n (Q : mem -> st -> Prop) s,
  starts_with m (a +:+ v +:+ b) n -> strlen v = strlen w ->
  (forall m', starts_with m' (a +:+ w +:+ b) n -> Q m' s) -> wp (memcpy (strlen a) w m) Q s.
Proof using.
  induction w as [|c w IH]; intros v m a b n Q s Hm Hl HQ; cbn [memcpy].
  - destruct v as [|o v]; [now apply wp_ret, HQ|]. rewrite strlen_cons, strlen_nil in Hl. pose proof (strlen_nonneg v). lia.
  - destruct v as [|o v]; [rewrite strlen_cons, strlen_nil in Hl; pose proof (strlen_nonneg w); lia|].
    rewrite !strlen_cons in Hl. rewrite app_cons_s in Hm.
    apply wp_bind. eapply wp_store_in; [exact Hm|]. intros m' Hm'.
    replace (strlen a + 1) with (strlen (a +:+ one c)) by (rewrite length_app_s; reflexivity).
    apply (IH v m' (a +:+ one c) b n); [|lia|].
    + rewrite app_assoc_s. exact Hm'.
    + intros m2 Hm2. apply HQ. rewrite app_assoc_s in Hm2. exact Hm2.
Qed.

(** A string cut at four places. *)
Lemma cut_five x i n j k : 0 <= i -> 0 <= n -> 0 <= j -> 0 <= k -> i + n + j + k <= strlen x ->
  exists a w b v c, x = a +:+ w +:+ b +:+ v +:+ c /\ strlen a = i /\ strlen w = n /\ strlen b = j /\ strlen v = k.
Proof using.
  intros Hi Hn Hj Hk Hl. destruct (take_split i x ltac:(lia)) as (Ha & x1 & E1). rewrite E1, length_app_s in Hl.
  destruct (take_split n x1 ltac:(lia)) as (Hw & x2 & E2). rewrite E2, length_app_s in Hl.
  destruct (take_split j x2 ltac:(lia)) as (Hb & x3 & E3). rewrite E3, length_app_s in Hl.
  destruct (take_split k x3 ltac:(lia)) as (Hv & x4 & E4).
  exists (take_s i x), (take_s n x1), (take_s j x2), (take_s k x3), x4. split_and!; try assumption.
  rewrite E1 at 1. rewrite E2 at 1. rewrite E3 at 1. now rewrite E4 at 1.
Qed.

(** Writing over a text that is in the buffer. *)
Lemma wp_bad_press m y len off noise type (Q : mem -> st -> Prop) s :
  comment_ok D 25 100 y len -> starts_with m (y +:+ one NUL) (S_CMNT_MAX + 1) ->
  0 <= noise <= len - BBB_CMNT_LEN -> 0 <= off <= len - (BBB_CMNT_LEN + noise) ->
  (forall m' x, supp_comment_ok x len -> strlen x = len -> no_nul x = true ->
     starts_with m' (x +:+ one NUL) (S_CMNT_MAX + 1) -> Q m' s) ->
  wp (let type := if type <? BBB_DEADBEATS then 0 else 1 in
      m <- memcpy off (take_s BBB_BASE_LEN BBB_BASE) m;;
      if type =? 0 then memcpy (BBB_BASE_LEN + off + noise) (take_s BBB_TYPE_LEN BBB_COMPLAIN) m
      else memcpy (BBB_BASE_LEN + off + noise) (take_s BBB_TYPE_LEN BBB_COMMEND) m) Q s.
Proof using.
  intros Hy Hm Hn Ho HQ. pose proof Hy as (Hlen & Hl & Hnn & _). unfold BBB_CMNT_LEN in *.
  change (take_s BBB_BASE_LEN BBB_BASE) with BBB_BASE. change (take_s BBB_TYPE_LEN BBB_COMPLAIN) with BBB_COMPLAIN.
  change (take_s BBB_TYPE_LEN BBB_COMMEND) with BBB_COMMEND.
  destruct (cut_five y off 9 noise 10) as (a & w & b & v & c & Ey & Ea & Ew & Eb & Ev); try lia.
  rewrite <- Ea. rewrite Ey, !app_assoc_s in Hm.
  cbv zeta. apply wp_bind, (wp_memcpy BBB_BASE w m a (b +:+ v +:+ c +:+ one NUL) (S_CMNT_MAX + 1)); [exact Hm|exact Ew|].
  intros m1 Hm1.
  replace (BBB_BASE_LEN + strlen a + noise) with (strlen (a +:+ BBB_BASE +:+ b))
    by (rewrite !length_app_s, Eb; change (strlen BBB_BASE) with 9; unfold BBB_BASE_LEN; lia).
  assert (Hend : forall verdict m', verdict = BBB_COMPLAIN \/ verdict = BBB_COMMEND -> strlen verdict = 10 ->
    no_nul verdict = true ->
    starts_with m' ((a +:+ BBB_BASE +:+ b) +:+ verdict +:+ c +:+ one NUL) (S_CMNT_MAX + 1) -> Q m' s).
  { intros verdict m' Hv Hvl Hvn Hm'. apply (HQ m' (a +:+ BBB_BASE +:+ b +:+ verdict +:+ c)).
    - right. exists y, a, w, b, v, c, verdict. split_and!; try assumption. reflexivity.
    - rewrite <- Hl, Ey, !length_app_s, Ew, Ev, Hvl. reflexivity.
    - rewrite Ey in Hnn. rewrite !no_nul_app in *. rewrite Hvn. rewrite !andb_true_iff in Hnn.
      destruct Hnn as (-> & _ & -> & _ & ->). reflexivity.
    - rewrite !app_assoc_s in *. exact Hm'. }
  assert (Hm2 : starts_with m1 ((a +:+ BBB_BASE +:+ b) +:+ v +:+ c +:+ one NUL) (S_CMNT_MAX + 1))
    by (rewrite !app_assoc_s; exact Hm1).
  destruct ((if type <? BBB_DEADBEATS then 0 else 1) =? 0).
  - apply (wp_memcpy BBB_COMPLAIN v _ _ _ _ _ _ Hm2 Ev). intros m' Hm'.
    exact (Hend BBB_COMPLAIN m' (or_introl eq_refl) eq_refl eq_refl Hm').
  - apply (wp_memcpy BBB_COMMEND v _ _ _ _ _ _ Hm2 Ev). intros m' Hm'.
    exact (Hend BBB_COMMEND m' (or_intror eq_refl) eq_refl eq_refl Hm').
Qed.

Lemma wp_tpch_supp n (Q : supplier_t -> st -> Prop) s :
  seeds_ok (Seed s) -> (forall c s', supplier_ok n c -> spent supp_quota s s' -> Q c s') -> wp (mk_supp D n) Q s.
Proof using HD.
  intros H0 HQ. pose proof (td_base D HD) as HB. pose proof (ok_nations D HB) as [Hn _]. unfold mk_supp.
  apply wp_bind. eapply wp_V_STR_25; [exact H0|apply spent_nil|sd_bounds|]. intros alen addr s1 Ha1 Ha2 Ha3 Hs1.
  go_s i Hi Hs2. apply wp_bind. eapply wp_gen_phone_s; [exact H0|exact Hs2|lia|sd_bounds|]. intros ph s3 Hph Hs3.
  go_s bal Hbal Hs4.
  apply wp_bind. eapply wp_TEXT_to; [exact H0|vm_compute; reflexivity|vm_compute; reflexivity|bounds|bounds|sd_bounds|exact Hs4|].
  intros m x len s5 Hx Hm Hs5. pose proof Hx as (Hlen & Hxl & Hxn & _).
  go_s bad Hbad Hs6. go_s type Htype Hs7.
  apply wp_bind; eapply wp_random_s; [exact H0|exact Hs7|unfold BBB_CMNT_LEN; lia|sd_bounds|]. intros noise s8 Hnoise Hs8.
  apply wp_bind; eapply wp_random_s; [exact H0|exact Hs8|unfold BBB_CMNT_LEN in *; lia|sd_bounds|]. intros off s9 Hoff Hs9.
  apply wp_bind.
  apply wp_mono with (Q := fun m' s' => s' = s9 /\ exists y, supp_comment_ok y len /\ strlen y = len /\ no_nul y = true /\
    starts_with m' (y +:+ one NUL) (S_CMNT_MAX + 1)).
  { destruct (bad <=? S_CMNT_BBB).
    - eapply wp_bad_press; [exact Hx|exact Hm|exact Hnoise|exact Hoff|]. intros m' y H1 H2 H3 H4. eauto 10.
    - apply wp_ret. split; [reflexivity|]. exists x. split_and!; [now left|exact Hxl|exact Hxn|exact Hm]. }
  intros m' sz (-> & y & Hy & Hyl & Hyn & Hm').
  apply wp_bind. rewrite (c_string_starts y m' _ Hyn Hm'). apply wp_ret, wp_ret, HQ; [|exact Hs9].
  split; cbn; try done; lia.
Qed.

(** ** Parts *)

Record partsupp_ok (s : st) (n k : Z) (p : partsupp_t) : Prop := mk_partsupp_ok {
  psok_part : ps_partkey p = n;
  psok_supp : ps_suppkey p = PART_SUPP_BRIDGE (supp_cnt s) n k;
  psok_qty : PS_QTY_MIN <= ps_qty p <= PS_QTY_MAX;
  psok_cost : PS_SCST_MIN <= ps_scost p <= PS_SCST_MAX;
  psok_cmnt : comment_ok D 49 198 (ps_comment p) (ps_clen p);
}.

Record part_ok (s : st) (n : Z) (p : part_t) : Prop := mk_part_ok {
  pok_key : p_partkey p = n;
  pok_name : exists ks ms, NoDup ks /\ length ks = 5%nat /\ members_at (colors D) ks ms /\
    p_name p = join (map text ms);
  pok_brand : exists m b, 1 <= m <= 5 /\ 1 <= b <= 40 /\
    p_mfgr p = "Manufacturer#" +:+ fmt_0d 1 m /\ p_brand p = "Brand#" +:+ fmt_0d 2 (m * 10 + b);
  pok_type : member_text (p_types_set D) (p_type p) /\ p_tlen p = strlen (p_type p);
  pok_size : 1 <= p_size p <= 50;
  pok_cntr : member_text (p_cntr_set D) (p_container p);
  pok_price : p_retailprice p = rpb_routine n;
  pok_cmnt : comment_ok D 5 22 (p_comment p) (p_clen p);
  pok_supps : length (p_s p) = 4%nat;
  pok_supp : forall k q, p_s p !! k = Some q -> partsupp_ok s n (Z.of_nat k) q;
}.

Definition psupp_quota : list (Z * nat) :=
  [(PS_QTY_SD, 1%nat); (PS_SCST_SD, 1%nat); (PS_CMNT_SD, text_quota 198)].
Definition part_quota : list (Z * nat) :=
  [(P_NAME_SD, 92%nat); (P_MFG_SD, 1%nat); (P_BRND_SD, 1%nat); (P_TYPE_SD, 1%nat); (P_SIZE_SD, 1%nat);
   (P_CNTR_SD, 1%nat); (P_CMNT_SD, text_quota 22)] ++ concat (repeat psupp_quota 4).

(** The scale stays what it was. *)
Lemma spent_scale b s0 s : spent b s0 s ->
  supp_cnt s = supp_cnt s0 /\ L_PKEY_MAX s = L_PKEY_MAX s0 /\ O_CKEY_MAX s = O_CKEY_MAX s0.
Proof using.
  intros [Hg Ht]%spent_frame. unfold supp_cnt, L_PKEY_MAX, O_CKEY_MAX, base_of. now rewrite Hg, Ht.
Qed.

Lemma wp_part_supp b s0 p k (Q : Z -> st -> Prop) s :
  spent b s0 s -> 1 <= supp_cnt s0 -> Q (PART_SUPP_BRIDGE (supp_cnt s0) p k) s -> wp (part_supp p k) Q s.
Proof using.
  intros Hs Ht HQ. unfold part_supp. apply wp_bind, wp_get. fold (supp_cnt s).
  rewrite (proj1 (spent_scale _ _ _ Hs)). destruct (Z.eqb_spec (supp_cnt s0) 0); [lia|]. now apply wp_ret.
Qed.

Lemma wp_psupp_rows s0 p n : forall b k (Q : list partsupp_t -> st -> Prop) s,
  seeds_ok (Seed s0) -> 1 <= supp_cnt s0 -> spent b s0 s ->
  (forall l s', length l = n -> (forall i q, l !! i = Some q -> partsupp_ok s0 p (k + Z.of_nat i) q) ->
     spent (b ++ concat (repeat psupp_quota n)) s0 s' -> Q l s') ->
  wp (for_list n k (mk_psupp_row D p)) Q s.
Proof using HD.
  induction n as [|n IH]; intros b k Q s H0 Ht Hs HQ; cbn [for_list].
  - apply wp_ret, HQ; [reflexivity|intros i q Hq; discriminate Hq|]. cbn [repeat concat]. now rewrite app_nil_r.
  - apply wp_bind. unfold mk_psupp_row. apply wp_bind. eapply wp_part_supp; [exact Hs|exact Ht|].
    go_s qty Hq Hs1. go_s cost Hc Hs2. go_text x len Hx Hs3. apply wp_ret, wp_bind.
    eapply IH; [exact H0|exact Ht|exact Hs3|]. intros l sl Hlen Hl Hsl. apply wp_ret, HQ.
    + cbn [length]. now rewrite Hlen.
    + intros [|i] q Hi; cbn in Hi.
      * injection Hi as <-. split; cbn; try done. now replace (k + Z.of_nat 0) with k by lia.
      * specialize (Hl i q Hi). now replace (k + Z.of_nat (S i)) with (k + 1 + Z.of_nat i) by lia.
    + rewrite <- !app_assoc in Hsl. exact Hsl.
Qed.

Lemma wp_tpch_part n (Q : part_t -> st -> Prop) s :
  seeds_ok (Seed s) -> 1 <= supp_cnt s ->
  (forall p s', part_ok s n p -> spent part_quota s s' -> Q p s') -> wp (mk_part D n) Q s.
Proof using HD.
  intros H0 Ht HQ. pose proof (td_base D HD) as HB. pose proof (td_colors D HD) as Hc.
  destruct (ok_colors D HB) as [Hc2 Hlen]. unfold mk_part.
  apply wp_bind. eapply wp_agg_str_s; [exact H0|apply spent_nil|lia|exact Hlen|unfold P_NAME_SCL; lia| |sd_bounds|].
  { instantiate (1 := 92%nat). lia. }
  intros ks ms s1 Hnd Hk Hms Hs1. destruct (color_words D ks ms HB Hms) as [Hfit _].
  assert (Hms5 : length ms = 5%nat) by (apply Forall2_length in Hms; unfold P_NAME_SCL in Hk; lia).
  assert (Hname : strlen (join (map text ms)) < P_NAME_LEN + 1).
  { pose proof (join_length 10 (map text ms) ltac:(lia) Hfit ltac:(destruct ms; done)) as HJ.
    rewrite length_map, Hms5 in HJ. unfold P_NAME_LEN. lia. }
  go_strcpy ltac:(exact Hname) Hs2. go_s mf Hmf Hs3. go_s br Hbr Hs4.
  go_pick (ok_types D HB) k m Hm Hs5. go_strcpy ltac:(fits HB Hm) Hs6.
  apply wp_bind. eapply wp_dist_text; [lia|rewrite Nat2Z.id; exact Hm|].
  go_s sz Hsz Hs7. go_pick (ok_cntr D HB) k2 m2 Hm2 Hs8. go_strcpy ltac:(fits HB Hm2) Hs9. go_text x len Hx Hs10.
  apply wp_bind. eapply wp_psupp_rows; [exact H0|exact Ht|exact Hs10|].
  intros l sl Hl1 Hl2 Hsl. apply wp_ret, HQ.
  - split; cbn -[fmt_0d]; try done.
    + exists ks, ms. unfold P_NAME_SCL in Hk. split_and!; [exact Hnd|lia|exact Hms|reflexivity].
    + exists mf, br. split_and!; [apply Hmf|apply Hmf|apply Hbr|apply Hbr|reflexivity|reflexivity].
    + split; [exists k, m; auto|reflexivity].
    + exists k2, m2. auto.
  - rewrite <- !app_assoc in Hsl. exact Hsl.
Qed.

(** ** Nations and regions *)

Record code_ok (n : Z) (m : set_member) (join : Z) (c : code_t) : Prop := mk_code_ok {
  kok_code : k_code c = n - 1;
  kok_text : k_text c = text m;
  kok_join : k_join c = join;
  kok_cmnt : comment_ok D 28 115 (k_comment c) (k_clen c);
}.

Lemma wp_mk_nation n m (Q : code_t -> st -> Prop) s :
  seeds_ok (Seed s) -> 1 <= n -> dlist (nations D) !! Z.to_nat (n - 1) = Some m ->
  (forall c s', code_ok n m (weight m) c -> spent [(N_CMNT_SD, text_quota 115)] s s' -> Q c s') -> wp (mk_nation D n) Q s.
Proof using HD.
  intros H0 Hn Hm HQ. pose proof (spent_nil s) as Hs0. unfold mk_nation.
  apply wp_bind. eapply wp_dist_text; [lia|exact Hm|]. go_text x len Hx Hs1. apply wp_ret, HQ; [by split|exact Hs1].
Qed.

Lemma wp_mk_region n m (Q : code_t -> st -> Prop) s :
  seeds_ok (Seed s) -> 1 <= n -> dlist (regions D) !! Z.to_nat (n - 1) = Some m ->
  (forall c s', code_ok n m 0 c -> spent [(R_CMNT_SD, text_quota 115)] s s' -> Q c s') -> wp (mk_region D n) Q s.
Proof using HD.
  intros H0 Hn Hm HQ. pose proof (spent_nil s) as Hs0. unfold mk_region.
  apply wp_bind. eapply wp_dist_text; [lia|exact Hm|]. go_text x len Hx Hs1. apply wp_ret, HQ; [by split|exact Hs1].
Qed.

(** ** Orders *)

(** What a line adds to the total price of its order, in cents. *)
Definition line_total (l : line_t) : Z :=
  (l_eprice l * (100 - l_discount l)) /c PENNIES * (100 + l_tax l) /c PENNIES.

(** Line [k] of an order of day [day]. *)
Record line_ok (s : st) (okey : Z * Z) (day k : Z) (l : line_t) : Prop := mk_line_ok {
  lok_key : l_okey l = okey /\ l_lcnt l = k + 1;
  lok_part : 1 <= l_partkey l <= L_PKEY_MAX s;
  lok_supp : exists j, 0 <= j <= 3 /\ l_suppkey l = PART_SUPP_BRIDGE (supp_cnt s) (l_partkey l) j;
  lok_qty : 1 <= l_quantity l <= 50 /\ 0 <= l_discount l <= 10 /\ 0 <= l_tax l <= 8;
  lok_price : l_eprice l = rpb_routine (l_partkey l) * l_quantity l;
  lok_dates : exists ship commit receipt, 1 <= ship <= 121 /\ 30 <= commit <= 90 /\ 1 <= receipt <= 30 /\
    l_sdate l = day_dash (day + ship) /\ l_cdate l = day_dash (day + commit) /\
    l_rdate l = day_dash (day + ship + receipt) /\
    l_lstatus l = (if day + ship <=? CURRENT_DAY then "F"%char else "O"%char) /\
    (if day + ship + receipt <=? CURRENT_DAY then member_text (l_rflag_set D) (one (l_rflag l))
     else l_rflag l = "N"%char);
  lok_text : member_text (l_instruct_set D) (l_shipinstruct l) /\ member_text (l_smode_set D) (l_shipmode l);
  lok_cmnt : comment_ok D 10 43 (l_comment l) (l_clen l);
}.

Definition shipped_line (l : line_t) : Z := if Ascii.eqb (l_lstatus l) "F" then 1 else 0.
Definition total_of (f : line_t -> Z) (ls : list line_t) : Z := fold_right Z.add 0 (map f ls).

Definition line_quota : list (Z * nat) :=
  [(L_QTY_SD, 1%nat); (L_DCNT_SD, 1%nat); (L_TAX_SD, 1%nat); (L_SHIP_SD, 1%nat); (L_SMODE_SD, 1%nat);
   (L_CMNT_SD, text_quota 43); (L_PKEY_SD, 1%nat); (L_SKEY_SD, 1%nat); (L_SDTE_SD, 1%nat); (L_CDTE_SD, 1%nat);
   (L_RDTE_SD, 1%nat); (L_RFLG_SD, 1%nat)].

Lemma wp_return_flag b s0 day (Q : ascii -> st -> Prop) s :
  seeds_ok (Seed s0) -> spent b s0 s -> 0 <= day < TOTDATE ->
  (forall c s', (if day <=? CURRENT_DAY then member_text (l_rflag_set D) (one c) else c = "N"%char) ->
     spent (b ++ [(L_RFLG_SD, 1%nat)]) s0 s' -> Q c s') ->
  wp (return_flag D (STARTDATE + day)) Q s.
Proof using HD.
  intros H0 Hs Hday HQ. unfold return_flag. rewrite julian_current by exact Hday.
  destruct (td_rflag D HD) as [Hr Hlen]. destruct (day <=? CURRENT_DAY).
  - go_pick Hr k m Hm Hs1. rewrite Forall_lookup in Hlen. specialize (Hlen k m Hm). cbn in Hlen.
    destruct (text m) as [|c [|c2 r]] eqn:E; [discriminate Hlen| |].
    + apply wp_ret, HQ; [|exact Hs1]. exists k, m. split; [exact Hm|now rewrite E].
    + rewrite !strlen_cons in Hlen. pose proof (strlen_nonneg r). lia.
  - apply wp_ret, HQ; [reflexivity|]. eapply spent_le; [exact Hs|]. intros i. rewrite quota_app. lia.
Qed.

Lemma wp_mk_line_row b s0 lcnt okey day tp ocnt (Q : line_t * Z * Z -> st -> Prop) s :
  seeds_ok (Seed s0) -> tpch_scale s0 -> spent b s0 s -> 0 <= day <= O_ODATE_MAX - STARTDATE ->
  (forall l s', line_ok s0 okey day lcnt l -> spent (b ++ line_quota) s0 s' ->
     Q (l, tp + line_total l, ocnt + shipped_line l) s') ->
  wp (mk_line_row D lcnt okey (STARTDATE + day) tp ocnt) Q s.
Proof using HD.
  intros H0 (_ & _ & Hsc & Hpk) Hs Hday HQ. pose proof (td_base D HD) as HB. unfold mk_line_row.
  apply wp_bind, wp_get. destruct (spent_scale _ _ _ Hs) as (_ & Hpm & _). rewrite Hpm. unfold L_PKEY_MIN.
  change (O_ODATE_MAX - STARTDATE) with 2405 in Hday.
  go_s q Hq Hs1. go_s dc Hdc Hs2. go_s tx Htx Hs3.
  go_pick (proj1 (td_instruct D HD)) k1 m1 Hm1 Hs4.
  go_strcpy ltac:(apply Z.lt_succ_r, (texts_fit_at _ _ _ _ (proj2 (td_instruct D HD)) Hm1)) Hs5.
  go_pick (ok_smode D HB) k2 m2 Hm2 Hs6. go_strcpy ltac:(fits HB Hm2) Hs7.
  go_text x len Hx Hs8. go_s pk Hp Hs9. go_s sn Hsn Hs10.
  apply wp_bind. eapply wp_part_supp; [exact Hs10|lia|].
  go_s sd Hsd Hs11. go_s cd Hcd Hs12. go_s rd Hrd Hs13.
  unfold L_SDTE_MIN, L_SDTE_MAX, L_CDTE_MIN, L_CDTE_MAX, L_RDTE_MIN, L_RDTE_MAX in *.
  replace (sd + (STARTDATE + day)) with (STARTDATE + (day + sd)) by lia.
  replace (cd + (STARTDATE + day)) with (STARTDATE + (day + cd)) by lia.
  replace (rd + (STARTDATE + (day + sd))) with (STARTDATE + (day + sd + rd)) by lia.
  rewrite !Z.add_simpl_l.
  apply wp_bind. rewrite tpch_asc_at_day by (unfold TOTDATE; lia). apply wp_ret.
  apply wp_bind. rewrite tpch_asc_at_day by (unfold TOTDATE; lia). apply wp_ret.
  apply wp_bind. rewrite tpch_asc_at_day by (unfold TOTDATE; lia). apply wp_ret.
  apply wp_bind. eapply wp_return_flag; [exact H0|exact Hs13|unfold TOTDATE; lia|]. intros c sz Hc Hsz.
  rewrite julian_current by (unfold TOTDATE; lia).
  set (status := if day + sd <=? CURRENT_DAY then "F"%char else "O"%char).
  replace (if day + sd <=? CURRENT_DAY then (ocnt + 1, "F"%char) else (ocnt, "O"%char))
    with (ocnt + (if day + sd <=? CURRENT_DAY then 1 else 0), status)
    by (subst status; destruct (day + sd <=? CURRENT_DAY); [reflexivity|now rewrite Z.add_0_r]).
  apply wp_ret.
  set (l := mk_line _ _ _ _ _ _ _ _ _ _ _ _ _ _ _ _ _).
  replace (if day + sd <=? CURRENT_DAY then 1 else 0) with (shipped_line l)
    by (subst l status; unfold shipped_line; cbn [l_lstatus]; now destruct (day + sd <=? CURRENT_DAY)).
  apply (HQ l sz).
  - split; cbn -[day_dash rpb_routine PART_SUPP_BRIDGE]; try done.
    + exists sn. split; [exact Hsn|reflexivity].
    + exists sd, cd, rd. split_and!; try lia; try reflexivity. exact Hc.
    + split; [exists k1, m1; auto|exists k2, m2; auto].
  - rewrite <- !app_assoc in Hsz. exact Hsz.
Qed.

Lemma wp_mk_line_rows s0 okey day n : forall b lcnt tp ocnt (Q : list line_t * Z * Z -> st -> Prop) s,
  seeds_ok (Seed s0) -> tpch_scale s0 -> spent b s0 s -> 0 <= day <= O_ODATE_MAX - STARTDATE ->
  (forall ls s', length ls = n -> (forall k l, ls !! k = Some l -> line_ok s0 okey day (lcnt + Z.of_nat k) l) ->
     spent (b ++ concat (repeat line_quota n)) s0 s' ->
     Q (ls, tp + total_of line_total ls, ocnt + total_of shipped_line ls) s') ->
  wp (mk_line_rows D n lcnt okey (STARTDATE + day) tp ocnt) Q s.
Proof using HD.
  induction n as [|n IH]; intros b lcnt tp ocnt Q s H0 Hsc Hs Hday HQ; cbn [mk_line_rows].
  - apply wp_ret. specialize (HQ [] s eq_refl). unfold total_of in HQ. cbn [map fold_right] in HQ.
    rewrite !Z.add_0_r in HQ. apply HQ; [intros k l Hl; discriminate Hl|]. cbn [repeat concat]. now rewrite app_nil_r.
  - apply wp_bind. eapply wp_mk_line_row; [exact H0|exact Hsc|exact Hs|exact Hday|]. intros l s1 Hl Hs1.
    apply wp_bind. eapply IH; [exact H0|exact Hsc|exact Hs1|exact Hday|]. intros ls s2 Hlen Hls Hs2.
    apply wp_ret.
    replace (tp + line_total l + total_of line_total ls) with (tp + total_of line_total (l :: ls))
      by (unfold total_of; cbn [map fold_right]; lia).
    replace (ocnt + shipped_line l + total_of shipped_line ls) with (ocnt + total_of shipped_line (l :: ls))
      by (unfold total_of; cbn [map fold_right]; lia).
    apply HQ.
    + cbn [length]. now rewrite Hlen.
    + intros [|k] l' Hk; cbn in Hk.
      * injection Hk as <-. now replace (lcnt + Z.of_nat 0) with lcnt by lia.
      * specialize (Hls k l' Hk). now replace (lcnt + Z.of_nat (S k)) with (lcnt + 1 + Z.of_nat k) by lia.
    + rewrite <- app_assoc in Hs2. exact Hs2.
Qed.

(** Fulfilled when every line is shipped, pending when some are, open when none is. *)
Definition is_shipped (l : line_t) : bool := Ascii.eqb (l_lstatus l) "F".
Definition status_of (ls : list line_t) : ascii :=
  if forallb is_shipped ls then "F"%char else if existsb is_shipped ls then "P"%char else "O"%char.

Record order_ok (s : st) (index upd_num : Z) (o : order_t) : Prop := mk_order_ok {
  ook_key : o_okey o = mk_sparse (glob s G.scale) index (order_seq s upd_num);
  ook_cust : 1 <= o_custkey o <= O_CKEY_MAX s /\ o_custkey o mod 3 <> 0;
  ook_lines : 1 <= o_lines o <= 7 /\ Z.of_nat (length (o_l o)) = o_lines o;
  ook_prio : member_text (o_priority_set D) (o_opriority o);
  ook_cmnt : comment_ok D 19 78 (o_comment o) (o_clen o);
  ook_date : exists day, 0 <= day <= O_ODATE_MAX - STARTDATE /\ o_odate o = day_dash day /\
    forall k l, o_l o !! k = Some l -> line_ok s (o_okey o) day (Z.of_nat k) l;
  ook_status : o_orderstatus o = status_of (o_l o);
  ook_total : o_totalprice o = total_of line_total (o_l o);
}.

Definition order_quota : list (Z * nat) :=
  [(O_CKEY_SD, 1%nat); (O_ODATE_SD, 1%nat); (O_PRIO_SD, 1%nat); (O_CLRK_SD, 1%nat); (O_CMNT_SD, text_quota 78);
   (O_LCNT_SD, 1%nat)] ++ concat (repeat line_quota 7).

(** The final value of [ocnt] against the number of lines. *)
Lemma shipped_bounds ls : 0 <= total_of shipped_line ls <= Z.of_nat (length ls).
Proof using.
  unfold total_of. induction ls as [|l ls IH]; [cbn; lia|]. cbn [map fold_right length].
  assert (0 <= shipped_line l <= 1) by (unfold shipped_line; case_match; lia). lia.
Qed.

Lemma shipped_is l : shipped_line l = if is_shipped l then 1 else 0.
Proof using. reflexivity. Qed.

Lemma shipped_all ls : (total_of shipped_line ls =? Z.of_nat (length ls)) = forallb is_shipped ls.
Proof using.
  induction ls as [|l ls IH]; [reflexivity|]. cbn [forallb]. rewrite <- IH. pose proof (shipped_bounds ls).
  unfold total_of in *. cbn [map fold_right length]. rewrite shipped_is.
  destruct (is_shipped l); cbn [andb]; destruct (Z.eqb_spec (fold_right Z.add 0 (map shipped_line ls)) (Z.of_nat (length ls)));
    first [apply Z.eqb_eq; lia|apply Z.eqb_neq; lia].
Qed.

Lemma shipped_some ls : (0 <? total_of shipped_line ls) = existsb is_shipped ls.
Proof using.
  induction ls as [|l ls IH]; [reflexivity|]. cbn [existsb]. rewrite <- IH. pose proof (shipped_bounds ls).
  unfold total_of in *. cbn [map fold_right]. rewrite shipped_is.
  destruct (is_shipped l); cbn [orb]; [apply Z.ltb_lt; lia|now rewrite Z.add_0_l].
Qed.

Lemma orderstatus_spec ls :
  (let orderstatus := "O"%char in
   let orderstatus := if 0 <? 0 + total_of shipped_line ls then "P"%char else orderstatus in
   if 0 + total_of shipped_line ls =? Z.of_nat (length ls) then "F"%char else orderstatus) = status_of ls.
Proof using. cbv zeta. rewrite Z.add_0_l, shipped_all, shipped_some. reflexivity. Qed.

Lemma wp_tpch_order index upd_num (Q : order_t -> st -> Prop) s :
  seeds_ok (Seed s) -> tpch_scale s -> refresh_ok s upd_num ->
  (forall o s', order_ok s index upd_num o -> spent order_quota s s' -> Q o s') ->
  wp (mk_order D index upd_num) Q s.
Proof using HD.
  intros H0 Hsc Href HQ. pose proof (td_base D HD) as HB. pose proof Hsc as (Hscale & Hck & _).
  pose proof (spent_nil s) as Hs0. unfold mk_order. apply wp_bind, wp_get.
  apply wp_bind. apply wp_mono with (Q := fun seq s2 => seq = order_seq s upd_num /\ s2 = s).
  { unfold order_seq. destruct (Z.eqb_spec upd_num 0); [now apply wp_ret|].
    destruct Href as [|Href]; [done|].
    destruct (Z.eqb_spec (glob s G.refresh) 0); [lia|].
    assert (1 <= 10000 /c glob s G.refresh) by (rewrite quot_div by lia; apply Z.div_le_lower_bound; lia).
    destruct (Z.eqb_spec (10000 /c glob s G.refresh) 0); [lia|]. now apply wp_ret. }
  intros seq s2 [-> ->]. unfold O_CKEY_MIN.
  go_s ck Hckr Hs1. destruct (custkey_loop_spec ck _ Hckr) as (ck' & Hloop & Hck' & Hm3 & _).
  apply wp_bind. rewrite Hloop. apply wp_ret.
  go_s dt Hdt Hs2. unfold O_ODATE_MIN in Hdt.
  assert (Hday : 0 <= dt - STARTDATE <= O_ODATE_MAX - STARTDATE) by lia.
  change O_ODATE_MAX with 94406 in Hdt. unfold STARTDATE in Hdt.
  apply wp_bind. rewrite tpch_asc_at_day by (unfold STARTDATE, TOTDATE; lia). apply wp_ret.
  go_pick (ok_prio D HB) k m Hm Hs3. go_strcpy ltac:(fits HB Hm) Hs4.
  assert (Hmax : 1000 <= MAX (glob s G.scale * O_CLRK_SCL) O_CLRK_SCL <= glob s G.scale * 1000 + 1000)
    by (unfold MAX, O_CLRK_SCL; case_match; lia).
  go_s clk Hclk Hs5. go_text x len Hx Hs6. go_s ln Hln Hs7. unfold O_LCNT_MIN, O_LCNT_MAX in Hln.
  apply wp_bind. replace dt with (STARTDATE + (dt - STARTDATE)) at 1 by lia.
  eapply wp_mk_line_rows; [exact H0|exact Hsc|exact Hs7|exact Hday|].
  intros ls sz Hlen Hls Hsz. apply wp_ret.
  replace ln with (Z.of_nat (length ls)) by lia. rewrite orderstatus_spec.
  apply HQ.
  - split; cbn -[day_dash total_of status_of mk_sparse]; try done; [lia|exists k, m; auto|].
    exists (dt - STARTDATE). split_and!; [lia|lia|reflexivity|]. intros i l Hl. exact (Hls i l Hl).
  - rewrite <- !app_assoc in Hsz. eapply spent_le; [exact Hsz|]. intros i.
    apply (quota_more [(O_CKEY_SD, 1%nat); (O_ODATE_SD, 1%nat); (O_PRIO_SD, 1%nat); (O_CLRK_SD, 1%nat);
      (O_CMNT_SD, text_quota 78); (O_LCNT_SD, 1%nat)] line_quota (Z.to_nat ln) 7 i). lia.
Qed.
End Rows.
