(* ===== verification/TpchPrint.v ===== *)
(** Writing the TPC-H rows: the branches of print.c ([pr_*], [vrf_*]) and of driver.c
    ([tdefs], the switches of [gen_tbl] and of the [-T] option, the start of [main]) taken when
    [SSBM] is not defined. *)
From S2P Require Import Prelude CString Float64 Rng State Consts Streams Dist Bcd2 Sparse Build Config Output Print Chunks Driver Text Tpch.

(** ** driver.c: [tdefs] *)

Definition tdefs_tpch : list tdef :=
  [ mk_tdef (Some "part.tbl") (Some "part table") 200000 (Some Fhd_part)
      (Some Fpr_part, Some Fld_part) (Some Fsd_part) (Some Fvrf_part) PSUPP 0;
    mk_tdef (Some "partsupp.tbl") (Some "partsupplier table") 200000 (Some Fhd_psupp)
      (Some Fpr_psupp, Some Fld_psupp) (Some Fsd_psupp) (Some Fvrf_psupp) NONE 0;
    mk_tdef (Some "supplier.tbl") (Some "suppliers table") 10000 (Some Fhd_supp)
      (Some Fpr_supp, Some Fld_supp) (Some Fsd_supp) (Some Fvrf_supp) NONE 0;
    mk_tdef (Some "customer.tbl") (Some "customers table") 150000 (Some Fhd_cust)
      (Some Fpr_cust, Some Fld_cust) (Some Fsd_cust) (Some Fvrf_cust) NONE 0;
    mk_tdef (Some "orders.tbl") (Some "order table") 150000 (Some Fhd_order)
      (Some Fpr_order, Some Fld_order) (Some Fsd_order) (Some Fvrf_order) LINE 0;
    mk_tdef (Some "lineitem.tbl") (Some "lineitem table") 150000 (Some Fhd_line)
      (Some Fpr_line, Some Fld_line) (Some Fsd_line) (Some Fvrf_line) NONE 0;
    mk_tdef (Some "orders.tbl") (Some "orders/lineitem tables") 150000 (Some Fhd_order_line)
      (Some Fpr_order_line, Some Fld_order_line) (Some Fsd_order) (Some Fvrf_order_line) LINE 0;
    mk_tdef (Some "part.tbl") (Some "part/partsupplier tables") 200000 (Some Fhd_part_psupp)
      (Some Fpr_part_psupp, Some Fld_part_psupp) (Some Fsd_part) (Some Fvrf_part_psupp) PSUPP 0;
    mk_tdef (Some "nation.tbl") (Some "nation table") NATIONS_MAX (Some Fhd_nation)
      (Some Fpr_nation, Some Fld_nation) None (Some Fvrf_nation) NONE 0;
    mk_tdef (Some "region.tbl") (Some "region table") NATIONS_MAX (Some Fhd_region)
      (Some Fpr_region, Some Fld_region) None (Some Fvrf_region) NONE 0 ].

(** ** print.c *)

Definition PR_MONEY (f : option nat) (n : Z) : M unit := dbg_print f (DT_MONEY n) 0 1.
Definition PR_CHR (f : option nat) (c : ascii) : M unit := dbg_print f (DT_CHR c) 0 1.
Definition PR_VSTR_LAST (f : option nat) (str : string) (len : Z) : M unit := dbg_print f (DT_STR str) len 0.

Definition with_order_mode (m : Z) (x : print_st) : print_st :=
  mk_print (fp x) (last_mode x) (last_num x) (rows_per_segment x) (rows_this_segment x) (residual_rows x) m.

(** [tdefs[t].name = ...] *)
Definition set_name (t : Z) (nm : option string) : M unit :=
  modify (set_tdefs (alter (fun d => mk_tdef nm (comment d) (base d) (header d) (loader d) (gen_seed d)
    (verify d) (child d) (vtotal d)) (Z.to_nat t))).

Section Print.
Context (Os : os).

Definition pr_cust (c : customer_t) (mode : Z) : M Z :=
  fp <- static_fp Os P_cust CUST 0;;
  PR_INT fp (c_custkey c);;
  PR_VSTR fp (c_name c) C_NAME_LEN;;
  len <- columnar_len (addr_len C_ADDR_LEN) (c_alen c);;
  PR_VSTR fp (c_address c) len;;
  PR_INT fp (c_nation_code c);;
  PR_STR fp (c_phone c) PHONE_LEN;;
  PR_MONEY fp (c_acctbal c);;
  PR_STR fp (c_mktsegment c) C_MSEG_LEN;;
  len <- columnar_len (addr_len C_CMNT_LEN) (c_clen c);;
  PR_VSTR_LAST fp (c_comment c) len;;
  PR_END fp;;
  ret 0.

(** The part of [pr_order] and [pr_line] that opens the file: a change of mode opens another. *)
Definition order_fp (mode : Z) : M (option nat) :=
  p <- gets prt;;
  let reopen := f <- print_prep Os ORDER mode;;
                modify (set_prt (fun p => with_order_mode mode (with_fp P_order f p)));; ret f in
  match fp p P_order with
  | Some f => if mode =? order_mode p then ret (Some f) else reopen
  | None => reopen
  end.
Definition line_fp (mode : Z) : M (option nat) :=
  p <- gets prt;;
  let reopen := f <- print_prep Os LINE mode;;
                modify (set_prt (fun p => with_last_mode mode (with_fp P_line f p)));; ret f in
  match fp p P_line with
  | Some f => if mode =? last_mode p then ret (Some f) else reopen
  | None => reopen
  end.

Definition pr_order (o : order_t) (mode : Z) : M Z :=
  fp_o <- order_fp mode;;
  PR_HUGE fp_o (o_okey o);;
  PR_INT fp_o (o_custkey o);;
  PR_CHR fp_o (o_orderstatus o);;
  PR_MONEY fp_o (o_totalprice o);;
  PR_STR fp_o (o_odate o) DATE_LEN;;
  PR_STR fp_o (o_opriority o) O_OPRIO_LEN;;
  PR_STR fp_o (o_clerk o) O_CLRK_LEN;;
  PR_INT fp_o (o_spriority o);;
  len <- columnar_len (addr_len O_CMNT_LEN) (o_clen o);;
  PR_VSTR_LAST fp_o (o_comment o) len;;
  PR_END fp_o;;
  ret 0.

(** The body of the loop of [pr_line]. *)
Definition pr_line_row (fp_l : option nat) (l : line_t) : M unit :=
  PR_HUGE fp_l (l_okey l);;
  PR_INT fp_l (l_partkey l);;
  PR_INT fp_l (l_suppkey l);;
  PR_INT fp_l (l_lcnt l);;
  PR_INT fp_l (l_quantity l);;
  PR_MONEY fp_l (l_eprice l);;
  PR_MONEY fp_l (l_discount l);;
  PR_MONEY fp_l (l_tax l);;
  PR_CHR fp_l (l_rflag l);;
  PR_CHR fp_l (l_lstatus l);;
  PR_STR fp_l (l_sdate l) DATE_LEN;;
  PR_STR fp_l (l_cdate l) DATE_LEN;;
  PR_STR fp_l (l_rdate l) DATE_LEN;;
  PR_STR fp_l (l_shipinstruct l) L_INST_LEN;;
  PR_STR fp_l (l_shipmode l) L_SMODE_LEN;;
  len <- columnar_len (addr_len L_CMNT_LEN) (l_clen l);;
  PR_VSTR_LAST fp_l (l_comment l) len;;
  PR_END fp_l.

Fixpoint pr_line_rows (fp_l : option nat) (ls : list line_t) : M unit :=
  match ls with [] => ret tt | l :: ls => pr_line_row fp_l l;; pr_line_rows fp_l ls end.

Definition pr_line (o : order_t) (mode : Z) : M Z :=
  fp_l <- line_fp mode;;
  pr_line_rows fp_l (o_l o);;
  ret 0.

Definition pr_order_line (o : order_t) (mode : Z) : M Z :=
  s <- get;;
  d <- must "tdefs[ORDER_LINE]" (tdefs s !! Z.to_nat ORDER_LINE);;
  set_name ORDER (name d);;
  _ <- pr_order o mode;;
  _ <- pr_line o mode;;
  ret 0.

(** [nlen], which nothing sets, is not used outside columnar output. *)
Definition pr_part (part : part_t) (mode : Z) : M Z :=
  p_fp <- static_fp Os P_part PART 0;;
  PR_INT p_fp (p_partkey part);;
  len <- columnar_len P_NAME_LEN 0;;
  PR_VSTR p_fp (p_name part) len;;
  PR_STR p_fp (p_mfgr part) P_MFG_LEN;;
  PR_STR p_fp (p_brand part) P_BRND_LEN;;
  len <- columnar_len P_TYPE_LEN (p_tlen part);;
  PR_VSTR p_fp (p_type part) len;;
  PR_INT p_fp (p_size part);;
  PR_STR p_fp (p_container part) P_CNTR_LEN;;
  PR_MONEY p_fp (p_retailprice part);;
  len <- columnar_len (addr_len P_CMNT_LEN) (p_clen part);;
  PR_VSTR_LAST p_fp (p_comment part) len;;
  PR_END p_fp;;
  ret 0.

Definition pr_psupp_row (ps_fp : option nat) (p : partsupp_t) : M unit :=
  PR_INT ps_fp (ps_partkey p);;
  PR_INT ps_fp (ps_suppkey p);;
  PR_INT ps_fp (ps_qty p);;
  PR_MONEY ps_fp (ps_scost p);;
  len <- columnar_len (addr_len PS_CMNT_LEN) (ps_clen p);;
  PR_VSTR_LAST ps_fp (ps_comment p) len;;
  PR_END ps_fp.

Fixpoint pr_psupp_rows (ps_fp : option nat) (ps : list partsupp_t) : M unit :=
  match ps with [] => ret tt | p :: ps => pr_psupp_row ps_fp p;; pr_psupp_rows ps_fp ps end.

Definition pr_psupp (part : part_t) (mode : Z) : M Z :=
  ps_fp <- static_fp Os P_psupp PSUPP mode;;
  pr_psupp_rows ps_fp (p_s part);;
  ret 0.

Definition pr_part_psupp (part : part_t) (mode : Z) : M Z :=
  s <- get;;
  d <- must "tdefs[PART_PSUPP]" (tdefs s !! Z.to_nat PART_PSUPP);;
  set_name PART (name d);;
  _ <- pr_part part mode;;
  _ <- pr_psupp part mode;;
  ret 0.

Definition pr_supp (supp : supplier_t) (mode : Z) : M Z :=
  fp <- static_fp Os P_supp SUPP mode;;
  PR_INT fp (s_suppkey supp);;
  PR_STR fp (s_name supp) S_NAME_LEN;;
  len <- columnar_len (addr_len S_ADDR_LEN) (s_alen supp);;
  PR_VSTR fp (s_address supp) len;;
  PR_INT fp (s_nation_code supp);;
  PR_STR fp (s_phone supp) PHONE_LEN;;
  PR_MONEY fp (s_acctbal supp);;
  len <- columnar_len (addr_len S_CMNT_LEN) (s_clen supp);;
  PR_VSTR_LAST fp (s_comment supp) len;;
  PR_END fp;;
  ret 0.

Definition pr_nation (c : code_t) (mode : Z) : M Z :=
  fp <- static_fp Os P_nation NATION mode;;
  PR_INT fp (k_code c);;
  PR_STR fp (k_text c) NATION_LEN;;
  PR_INT fp (k_join c);;
  len <- columnar_len (addr_len N_CMNT_LEN) (k_clen c);;
  PR_VSTR_LAST fp (k_comment c) len;;
  PR_END fp;;
  ret 0.

Definition pr_region (c : code_t) (mode : Z) : M Z :=
  fp <- static_fp Os P_region REGION mode;;
  PR_INT fp (k_code c);;
  PR_STR fp (k_text c) REGION_LEN;;
  len <- columnar_len (addr_len R_CMNT_LEN) (k_clen c);;
  PR_VSTR_LAST fp (k_comment c) len;;
  PR_END fp;;
  ret 0.
End Print.

(** ** Checksums *)

(** The [long] that starts at byte [0] of a member: the first eight of its characters and
    NUL, [None] when not all are written. *)
Fixpoint le_bytes (l : list ascii) : Z :=
  match l with [] => 0 | c :: l => Z.of_nat (nat_of_ascii c) + 256 * le_bytes l end.
Definition first_long (s : string) : option Z :=
  if strlen s <? 7 then None
  else Some (le_bytes (String.list_ascii_of_string (take_s 8 (s +:+ one NUL)))).

(** [VRF_MONEY(t,d)] assigns to [tdefs[t].vtotal] the sum of the [long] at [&d] and the [long]
    at [&d + 1]: [next] is the [long] that follows [d] in the row. *)
Definition VRF_MONEY (t d : Z) (next : option Z) : M unit :=
  next <- must "VRF_MONEY" next;;
  modify (set_tdefs (alter (fun x => mk_tdef (name x) (comment x) (base x) (header x) (loader x)
    (gen_seed x) (verify x) (child x) (wrap_u 64 (d + next))) (Z.to_nat t))).
Definition VRF_CHR (t : Z) (d : ascii) : M unit := VRF_INT t (raw_char d).

Definition vrf_cust (c : customer_t) : M Z :=
  VRF_INT CUST (c_custkey c);; VRF_STR CUST (c_name c);; VRF_STR CUST (c_address c);;
  VRF_INT CUST (c_nation_code c);; VRF_STR CUST (c_phone c);;
  VRF_MONEY CUST (c_acctbal c) (first_long (c_mktsegment c));;
  VRF_STR CUST (c_mktsegment c);; VRF_STR CUST (c_comment c);;
  ret 0.

Definition vrf_order (o : order_t) : M Z :=
  VRF_HUGE ORDER (o_okey o);; VRF_INT ORDER (o_custkey o);; VRF_CHR ORDER (o_orderstatus o);;
  VRF_MONEY ORDER (o_totalprice o) (first_long (o_odate o));;
  VRF_STR ORDER (o_odate o);; VRF_STR ORDER (o_opriority o);; VRF_STR ORDER (o_clerk o);;
  VRF_INT ORDER (o_spriority o);; VRF_STR ORDER (o_comment o);;
  ret 0.

(** The three amounts of a line follow one another; the flags and the commit date follow them. *)
Definition vrf_line_row (l : line_t) : M unit :=
  VRF_HUGE LINE (l_okey l);; VRF_INT LINE (l_partkey l);; VRF_INT LINE (l_suppkey l);;
  VRF_INT LINE (l_lcnt l);; VRF_INT LINE (l_quantity l);;
  VRF_MONEY LINE (l_eprice l) (Some (l_discount l));;
  VRF_MONEY LINE (l_discount l) (Some (l_tax l));;
  VRF_MONEY LINE (l_tax l) (first_long (String (l_rflag l) (String (l_lstatus l) (l_cdate l))));;
  VRF_CHR LINE (l_rflag l);; VRF_CHR LINE (l_lstatus l);; VRF_STR LINE (l_sdate l);;
  VRF_STR LINE (l_cdate l);; VRF_STR LINE (l_rdate l);; VRF_STR LINE (l_shipinstruct l);;
  VRF_STR LINE (l_shipmode l);; VRF_STR LINE (l_comment l).

Fixpoint vrf_line_rows (ls : list line_t) : M unit :=
  match ls with [] => ret tt | l :: ls => vrf_line_row l;; vrf_line_rows ls end.
Definition vrf_line (o : order_t) : M Z := vrf_line_rows (o_l o);; ret 0.

Definition vrf_order_line (o : order_t) : M Z := _ <- vrf_order o;; _ <- vrf_line o;; ret 0.

Definition vrf_part (part : part_t) : M Z :=
  VRF_INT PART (p_partkey part);; VRF_STR PART (p_name part);; VRF_STR PART (p_mfgr part);;
  VRF_STR PART (p_brand part);; VRF_STR PART (p_type part);; VRF_INT PART (p_size part);;
  VRF_STR PART (p_container part);;
  VRF_MONEY PART (p_retailprice part) (first_long (p_comment part));;
  VRF_STR PART (p_comment part);;
  ret 0.

Definition vrf_psupp_row (p : partsupp_t) : M unit :=
  VRF_INT PSUPP (ps_partkey p);; VRF_INT PSUPP (ps_suppkey p);; VRF_INT PSUPP (ps_qty p);;
  VRF_MONEY PSUPP (ps_scost p) (first_long (ps_comment p));; VRF_STR PSUPP (ps_comment p).

Fixpoint vrf_psupp_rows (ps : list partsupp_t) : M unit :=
  match ps with [] => ret tt | p :: ps => vrf_psupp_row p;; vrf_psupp_rows ps end.
Definition vrf_psupp (part : part_t) : M Z := vrf_psupp_rows (p_s part);; ret 0.

Definition vrf_part_psupp (part : part_t) : M Z := _ <- vrf_part part;; _ <- vrf_psupp part;; ret 0.

Definition vrf_supp (supp : supplier_t) : M Z :=
  VRF_INT SUPP (s_suppkey supp);; VRF_STR SUPP (s_name supp);; VRF_STR SUPP (s_address supp);;
  VRF_INT SUPP (s_nation_code supp);; VRF_STR SUPP (s_phone supp);;
  VRF_MONEY SUPP (s_acctbal supp) (first_long (s_comment supp));;
  VRF_STR SUPP (s_comment supp);;
  ret 0.

Definition vrf_nation (c : code_t) : M Z :=
  VRF_INT NATION (k_code c);; VRF_STR NATION (k_text c);; VRF_INT NATION (k_join c);;
  VRF_STR NATION (k_comment c);;
  ret 0.

Definition vrf_region (c : code_t) : M Z :=
  VRF_INT REGION (k_code c);; VRF_STR REGION (k_text c);; VRF_STR REGION (k_comment c);;
  ret 0.

(** ** driver.c *)

Inductive row :=
  | R_order (o : order_t) | R_supp (s : supplier_t) | R_cust (c : customer_t)
  | R_part (p : part_t) | R_code (c : code_t).

Section Driver.
Context (Os : os) (D : dists).

Definition call_verify (f : vrf_fn) (r : row) : M Z :=
  match f, r with
  | Fvrf_line, R_order o => vrf_line o
  | Fvrf_order, R_order o => vrf_order o
  | Fvrf_order_line, R_order o => vrf_order_line o
  | Fvrf_supp, R_supp x => vrf_supp x
  | Fvrf_cust, R_cust c => vrf_cust c
  | Fvrf_part, R_part p => vrf_part p
  | Fvrf_psupp, R_part p => vrf_psupp p
  | Fvrf_part_psupp, R_part p => vrf_part_psupp p
  | Fvrf_nation, R_code c => vrf_nation c
  | Fvrf_region, R_code c => vrf_region c
  | _, _ => stop_with (Undefined "verify of another table")
  end.

Definition call_loader (f : ld_fn) (r : row) (mode : Z) : M Z :=
  match f, r with
  | Fpr_line, R_order o => pr_line Os o mode
  | Fpr_order, R_order o => pr_order Os o mode
  | Fpr_order_line, R_order o => pr_order_line Os o mode
  | Fpr_supp, R_supp x => pr_supp Os x mode
  | Fpr_cust, R_cust c => pr_cust Os c mode
  | Fpr_part, R_part p => pr_part Os p mode
  | Fpr_psupp, R_part p => pr_psupp Os p mode
  | Fpr_part_psupp, R_part p => pr_part_psupp Os p mode
  | Fpr_nation, R_code c => pr_nation Os c mode
  | Fpr_region, R_code c => pr_region Os c mode
  | Fld_line, R_order o => ld_line;; ret 0
  | Fld_order, R_order o => ld_order;; ret 0
  | Fld_order_line, R_order o => ld_order_line;; ret 0
  | Fld_supp, R_supp x => ld_supp;; ret 0
  | Fld_cust, R_cust c => ld_cust;; ret 0
  | Fld_part, R_part p => ld_part;; ret 0
  | Fld_psupp, R_part p => ld_psupp;; ret 0
  | Fld_part_psupp, R_part p => ld_part_psupp;; ret 0
  | Fld_nation, R_code c => ld_nation;; ret 0
  | Fld_region, R_code c => ld_region;; ret 0
  | _, _ => stop_with (Undefined "loader of another table")
  end.

Definition deliver (tnum : Z) (r : row) (mode : Z) : M unit :=
  s <- get;;
  if glob s G.set_seeds =? 0 then
    d <- must "tdefs" (tdefs s !! Z.to_nat tnum);;
    if negb (glob s G.validate =? 0) then
      f <- must "verify" (verify d);; _ <- call_verify f r;; ret tt
    else
      f <- must "loader" (if glob s G.direct =? 0 then fst (loader d) else snd (loader d));;
      _ <- call_loader f r mode;; ret tt
  else ret tt.

(** The switch of [gen_tbl]. *)
Definition gen_switch (tnum i upd_num : Z) (g : segments) : M (Z * segments) :=
  if (tnum =? LINE) || (tnum =? ORDER) || (tnum =? ORDER_LINE) then
    o <- mk_order D i (upd_num %c 10000);;
    insert_segments <- glb G.insert_segments;;
    let '(upd_num, g) := next_segment insert_segments upd_num g in
    deliver tnum (R_order o) upd_num;;
    ret (upd_num, g)
  else if tnum =? SUPP then
    supp <- mk_supp D i;; deliver tnum (R_supp supp) upd_num;; ret (upd_num, g)
  else if tnum =? CUST then
    cust <- mk_cust D i;; deliver tnum (R_cust cust) upd_num;; ret (upd_num, g)
  else if (tnum =? PSUPP) || (tnum =? PART) || (tnum =? PART_PSUPP) then
    part <- mk_part D i;; deliver tnum (R_part part) upd_num;; ret (upd_num, g)
  else if tnum =? NATION then
    code <- mk_nation D i;; deliver tnum (R_code code) 0;; ret (upd_num, g)
  else if tnum =? REGION then
    code <- mk_region D i;; deliver tnum (R_code code) 0;; ret (upd_num, g)
  else ret (upd_num, g).

Fixpoint gen_loop (n : nat) (tnum i upd_num : Z) (g : segments) : M unit :=
  match n with
  | O => ret tt
  | S n =>
      row_start tnum;;
      r <- gen_switch tnum i upd_num g;;
      row_stop tnum;;
      show_seeds tnum i;;
      gen_loop n tnum (i + 1) (fst r) (snd r)
  end.

(** [void gen_tbl(int tnum, long start, long count, long upd_num)] *)
Definition gen_tbl (tnum start count upd_num : Z) : M unit :=
  insert_segments <- glb G.insert_segments;;
  let g := if negb (insert_segments =? 0) then
             let per := wrap_s 32 (count /c insert_segments) in
             mk_segments per (-1) (wrap_s 32 (count - per * insert_segments))
           else mk_segments 0 (-1) 0 in
  init <- glb G.init;;
  (if init =? 0 then set G.init 1 else ret tt);;
  (if count <? 0 then stop_with (Undefined "negative row count") else ret tt);;
  gen_loop (Z.to_nat count) tnum start upd_num g;;
  completed <- glb G.completed;;
  set G.completed (Z.lor completed (bit tnum)).

(** The [-T] option. *)
Definition table_option (optarg : string) : M unit :=
  match optarg with
  | String "c" _ => set G.table (bit CUST)
  | String "L" _ => set G.table (bit LINE)
  | String "l" _ => set G.table (bit NATION);; table <- glb G.table;; set G.table (Z.lor table (bit REGION))
  | String "n" _ => set G.table (bit NATION)
  | String "O" _ => set G.table (bit ORDER)
  | String "o" _ => set G.table (bit ORDER_LINE)
  | String "P" _ => set G.table (bit PART)
  | String "p" _ => set G.table (bit PART_PSUPP)
  | String "r" _ => set G.table (bit REGION)
  | String "S" _ => set G.table (bit PSUPP)
  | String "s" _ => set G.table (bit SUPP)
  | _ => usage_exit
  end.

(** The base counts [main] sets before the options. *)
Definition main_bases : M unit :=
  modify (set_tdefs (alter (with_base (fun b => b * ORDERS_PER_CUST)) (Z.to_nat ORDER)));;
  modify (set_tdefs (alter (with_base (fun b => b * ORDERS_PER_CUST)) (Z.to_nat LINE)));;
  modify (set_tdefs (alter (with_base (fun b => b * ORDERS_PER_CUST)) (Z.to_nat ORDER_LINE))).

(** The update sets. *)
Fixpoint update_loop (n : nat) : M unit :=
  match n with
  | O => ret tt
  | S n =>
      s <- get;;
      let upd_num := glob s G.upd_num in
      if upd_num <? glob s G.updates then
        set G.insert_orders_segment 0;; set G.insert_lineitem_segment 0;; set G.delete_segment 0;;
        let rowcnt := glob s G.rowcnt in
        let minrow := upd_num * rowcnt + 1 in
        set G.minrow minrow;;
        gen_tbl ORDER_LINE minrow rowcnt (upd_num + 1);;
        _ <- pr_drange Os ORDER_LINE minrow rowcnt (upd_num + 1);;
        set G.upd_num (upd_num + 1);;
        update_loop n
      else ret tt
  end.
End Driver.
