(* ===== verification/TpchRows.v ===== *)
(** What the TPC-H rows promise, table by table and across tables. *)
From S2P Require Import Prelude CString Float64 Rng State Consts Streams Dist Bcd2 Sparse Build RowSpec Config Shipped Output Print Chunks Driver Text Quota Tpch TpchSpec TpchPrint.

(** ** A state to start from *)

(** The TPC-H tables at scale factor 1, after the bases are set. *)
Definition tpch_start : st :=
  match (main_bases;; modify (set_tdefs (alter (base_is 25) (Z.to_nat NATION)));;
         modify (set_tdefs (alter (base_is 5) (Z.to_nat REGION))))
        (set_tdefs (fun _ => tdefs_tpch) (set_glob G.scale 1 st_start)) with
  | Ok _ s => s | Stop _ s => s
  end.

Lemma tpch_start_scale : tpch_scale tpch_start.
Proof. vm_compute. split_and!; discriminate || reflexivity. Qed.

Lemma tpch_start_seeds : seeds_ok (Seed tpch_start).
Proof. exact Seed_init_ok. Qed.

(** The shipped distributions are valid for the TPC-H rows. *)
Lemma shipped_tpch : tpch_dists shipped.
Proof.
  split.
  - exact shipped_ok.
  - exact shipped_grammar.
  - split; [apply dist_okb_ok; reflexivity|apply texts_fitb_ok; reflexivity].
  - split; [apply dist_okb_ok; reflexivity|]. repeat constructor.
  - cbn. lia.
  - vm_compute. lia.
  - destruct shipped_sentences as [_ ->]. lia.
Qed.

(** ** Rows *)

(** C22. Parts: five colors in the name, a brand under its manufacturer, the price of the part
    number, a comment of 5 to 22 characters, and four part suppliers, each with its
    quantity, cost and comment; with 229 suppliers or more, and at most 20 parts for each,
    the four are distinct suppliers that exist. *)
Theorem mk_part_suppliers D n s :
  tpch_dists D -> seeds_ok (Seed s) -> 229 <= supp_cnt s -> 1 <= n <= 20 * supp_cnt s ->
  wp (mk_part D n) (fun p s' => part_ok D s n p /\
    NoDup (map ps_suppkey (p_s p)) /\ Forall (fun q => 1 <= ps_suppkey q <= supp_cnt s) (p_s p) /\
    spent part_quota s s') s.
Proof.
  intros HD H0 Ht Hn. apply wp_tpch_part; [exact HD|exact H0|lia|]. intros p s' Hp Hs.
  split_and!; [exact Hp| | |exact Hs]; destruct Hp as [_ _ _ _ _ _ _ _ Hlen Hall].
  - apply NoDup_alt. intros i j x Hi Hj. rewrite lookup_map in Hi, Hj.
    destruct (p_s p !! i) as [a|] eqn:Ea; [|discriminate Hi]. destruct (p_s p !! j) as [b|] eqn:Eb; [|discriminate Hj].
    pose proof (lookup_lt_Some _ _ _ Ea). pose proof (lookup_lt_Some _ _ _ Eb).
    injection Hi as Hi. injection Hj as Hj. rewrite (psok_supp _ _ _ _ _ (Hall _ _ Ea)) in Hi.
    rewrite (psok_supp _ _ _ _ _ (Hall _ _ Eb)) in Hj. rewrite <- Hj in Hi.
    destruct (Z.lt_total (Z.of_nat i) (Z.of_nat j)) as [Hlt|[Hlt|Hlt]]; [exfalso|lia|exfalso].
    + exact (bridge_distinct (supp_cnt s) n _ _ Ht Hn (conj (Zle_0_nat i) Hlt) ltac:(lia) Hi).
    + exact (bridge_distinct (supp_cnt s) n _ _ Ht Hn (conj (Zle_0_nat j) Hlt) ltac:(lia) (eq_sym Hi)).
  - apply Forall_lookup. intros i q Hq. rewrite (psok_supp _ _ _ _ _ (Hall _ _ Hq)). apply bridge_range; lia.
Qed.

Lemma mk_part_suppliers_witness :
  (229 <= supp_cnt tpch_start /\ 1 <= 200000 <= 20 * supp_cnt tpch_start) /\
  wp (mk_part shipped 200000) (fun p s' => part_ok shipped tpch_start 200000 p /\
    NoDup (map ps_suppkey (p_s p)) /\ Forall (fun q => 1 <= ps_suppkey q <= supp_cnt tpch_start) (p_s p) /\
    spent part_quota tpch_start s') tpch_start.
Proof.
  assert (H1 : 229 <= supp_cnt tpch_start) by (vm_compute; discriminate).
  assert (H2 : 1 <= 200000 <= 20 * supp_cnt tpch_start) by (vm_compute; split; discriminate).
  split; [split; assumption|].
  exact (mk_part_suppliers shipped 200000 tpch_start shipped_tpch tpch_start_seeds H1 H2).
Defined.

(** C11. Orders and their lines: 1 to 7 lines, each shipped 1 to 121 days, committed 30 to 90 days
    after the order and received 1 to 30 days after it is shipped; a line is filled when it is
    shipped by 1995-06-17 and open otherwise, it has a return flag when it is received by then
    and [N] otherwise, the order is filled, pending or open after its lines, the total price is
    their sum; and the part and the supplier of a line are one of the four rows that [mk_part]
    builds for that part in any state of the same scale. *)
Theorem mk_order_lines D index upd_num s :
  tpch_dists D -> seeds_ok (Seed s) -> tpch_scale s -> refresh_ok s upd_num ->
  wp (mk_order D index upd_num) (fun o s' => order_ok D s index upd_num o /\ spent order_quota s s' /\
    forall l s2, In l (o_l o) -> seeds_ok (Seed s2) -> supp_cnt s2 = supp_cnt s ->
      wp (mk_part D (l_partkey l)) (fun p _ => exists q, In q (p_s p) /\
        ps_partkey q = l_partkey l /\ ps_suppkey q = l_suppkey l) s2) s.
Proof.
  intros HD H0 Hsc Hr. apply wp_tpch_order; [exact HD|exact H0|exact Hsc|exact Hr|]. intros o s' Ho Hs.
  split_and!; [exact Ho|exact Hs|]. intros l s2 Hl H2 Hc. destruct Hsc as (_ & _ & Hs1 & _).
  apply wp_tpch_part; [exact HD|exact H2|lia|]. intros p s3 Hp _.
  destruct Ho as [_ _ _ _ _ (day & _ & _ & Hlines) _ _].
  apply list_elem_of_In, list_elem_of_lookup in Hl as [k Hk].
  destruct (lok_supp _ _ _ _ _ _ (Hlines k l Hk)) as (j & Hj & Hsupp).
  destruct (lookup_lt_is_Some_2 (p_s p) (Z.to_nat j)) as [q Hq]; [rewrite (pok_supps _ _ _ _ Hp); lia|].
  pose proof (pok_supp _ _ _ _ Hp _ _ Hq) as [Hq1 Hq2 _ _ _].
  exists q. split_and!; [|exact Hq1|].
  - apply list_elem_of_In. eapply list_elem_of_lookup_2. exact Hq.
  - rewrite Hq2, Hsupp, Hc. f_equal. lia.
Qed.

Lemma mk_order_lines_witness :
  (tpch_scale tpch_start /\ refresh_ok tpch_start 0) /\
  wp (mk_order shipped 1 0) (fun o s' => order_ok shipped tpch_start 1 0 o /\ spent order_quota tpch_start s' /\
    forall l s2, In l (o_l o) -> seeds_ok (Seed s2) -> supp_cnt s2 = supp_cnt tpch_start ->
      wp (mk_part shipped (l_partkey l)) (fun p _ => exists q, In q (p_s p) /\
        ps_partkey q = l_partkey l /\ ps_suppkey q = l_suppkey l) s2) tpch_start.
Proof.
  assert (Hr : refresh_ok tpch_start 0) by now left.
  split; [split; [exact tpch_start_scale|exact Hr]|].
  exact (mk_order_lines shipped 1 0 tpch_start shipped_tpch tpch_start_seeds tpch_start_scale Hr).
Defined.

(** C23. Suppliers: the columns are in their domains, and the comment is a text of the grammar in
    which, at most, the word of a customer and a verdict replace as many characters: whatever
    the place and the distance drawn, it keeps its length. *)
Theorem mk_supp_comment D n s :
  tpch_dists D -> seeds_ok (Seed s) ->
  wp (mk_supp D n) (fun c s' => supplier_ok D n c /\ spent supp_quota s s') s.
Proof. intros HD H0. apply wp_tpch_supp; [exact HD|exact H0|]. intros c s' Hc Hs. split; assumption. Qed.

Lemma mk_supp_comment_witness :
  (tpch_dists shipped /\ seeds_ok (Seed tpch_start)) /\
  wp (mk_supp shipped 1) (fun c s' => supplier_ok shipped 1 c /\ spent supp_quota tpch_start s') tpch_start.
Proof.
  split; [split; [exact shipped_tpch|exact tpch_start_seeds]|].
  exact (mk_supp_comment shipped 1 tpch_start shipped_tpch tpch_start_seeds).
Defined.

(** ** The boundaries of the streams *)

(** The most numbers a row of table [t] draws from each stream. *)
Definition table_quota (t : Z) : list (Z * nat) :=
  if (t =? LINE) || (t =? ORDER) || (t =? ORDER_LINE) then order_quota
  else if t =? SUPP then supp_quota
  else if t =? CUST then cust_quota
  else if (t =? PSUPP) || (t =? PART) || (t =? PART_PSUPP) then part_quota
  else if t =? NATION then [(N_CMNT_SD, text_quota 115)]
  else [(R_CMNT_SD, text_quota 115)].

(** The boundaries of rnd.h cover them. *)
Lemma quotas_within t :
  PART <= t <= REGION ->
  forallb (fun i => Z.of_nat (quota (table_quota t) (Z.of_nat i)) <=?
    match Seed_init !! i with Some e => boundary e | None => 0 end) (seq 0 48) = true.
Proof.
  unfold PART, REGION. intros Ht.
  assert (t = 0 \/ t = 1 \/ t = 2 \/ t = 3 \/ t = 4 \/ t = 5 \/ t = 6 \/ t = 7 \/ t = 8 \/ t = 9) as Hc by lia.
  repeat destruct Hc as [->|Hc]; [vm_compute; reflexivity..|]. rewrite Hc. vm_compute. reflexivity.
Qed.

Lemma table_within t seeds :
  PART <= t <= REGION -> length seeds = 48%nat -> map boundary seeds = map boundary Seed_init ->
  within (table_quota t) seeds.
Proof.
  intros Ht Hlen Hb i e He. pose proof (lookup_lt_Some _ _ _ He) as Hi. rewrite Hlen in Hi.
  pose proof (quotas_within t Ht) as H. rewrite forallb_forall in H.
  specialize (H i ltac:(apply in_seq; lia)). apply Z.leb_le in H.
  assert (E : Some (boundary e) = boundary <$> Seed_init !! i) by (rewrite <- lookup_map, <- Hb, lookup_map, He; reflexivity).
  destruct (Seed_init !! i); [|discriminate E]. injection E as ->. exact H.
Qed.

(** What a row of table [t] with number [i] needs. *)
Definition row_env (D : dists) (t i upd_num : Z) (s : st) : Prop :=
  tpch_scale s /\ refresh_ok s (upd_num %c 10000) /\ 1 <= i /\
  (t = NATION -> i <= count (nations D)) /\
  (t = REGION -> i <= Z.of_nat (length (dlist (regions D)))).

(** The row without its delivery. *)
Lemma wp_gen_switch Os D t i upd_num g s :
  tpch_dists D -> seeds_ok (Seed s) -> PART <= t <= REGION -> row_env D t i upd_num s ->
  glob s G.set_seeds <> 0 ->
  wp (gen_switch Os D t i upd_num g) (fun _ s' => spent (table_quota t) s s') s.
Proof.
  intros HD H0 Ht (Hsc & Hr & Hi & Hn & Hg) Hss. pose proof Hsc as (_ & _ & Hs1 & _).
  assert (Hdel : forall r m s', spent (table_quota t) s s' -> forall x : Z * segments,
    wp (deliver Os t r m;; ret x) (fun _ s' => spent (table_quota t) s s') s').
  { intros r m s' Hsp x. apply wp_bind. unfold deliver. apply wp_bind, wp_get.
    rewrite (proj1 (spent_frame _ _ _ Hsp)). destruct (Z.eqb_spec (glob s G.set_seeds) 0); [done|]. now apply wp_ret, wp_ret. }
  unfold gen_switch, table_quota in *.
  destruct ((t =? LINE) || (t =? ORDER) || (t =? ORDER_LINE)).
  { apply wp_bind, wp_tpch_order; [exact HD|exact H0|exact Hsc|exact Hr|]. intros o s' _ Hsp.
    apply wp_bind, wp_gets. destruct (next_segment _ upd_num g) as [u g']. now apply Hdel. }
  destruct (t =? SUPP).
  { apply wp_bind, wp_tpch_supp; [exact HD|exact H0|]. intros x s' _ Hsp. now apply Hdel. }
  destruct (t =? CUST).
  { apply wp_bind, wp_tpch_cust; [exact HD|exact H0|]. intros x s' _ Hsp. now apply Hdel. }
  destruct ((t =? PSUPP) || (t =? PART) || (t =? PART_PSUPP)).
  { apply wp_bind, wp_tpch_part; [exact HD|exact H0|lia|]. intros x s' _ Hsp. now apply Hdel. }
  destruct (Z.eqb_spec t NATION) as [E|E].
  { destruct (ok_nations D (td_base D HD)) as [Hc Hl]. specialize (Hn E).
    destruct (lookup_lt_is_Some_2 (dlist (nations D)) (Z.to_nat (i - 1))) as [m Hm]; [lia|].
    apply wp_bind. eapply wp_mk_nation; [exact HD|exact H0|exact Hi|exact Hm|]. intros x s' _ Hsp. now apply Hdel. }
  destruct (Z.eqb_spec t REGION) as [E2|E2].
  { specialize (Hg E2). destruct (lookup_lt_is_Some_2 (dlist (regions D)) (Z.to_nat (i - 1))) as [m Hm]; [lia|].
    apply wp_bind. eapply wp_mk_region; [exact HD|exact H0|exact Hi|exact Hm|]. intros x s' _ Hsp. now apply Hdel. }
  apply wp_ret. eapply spent_le; [apply spent_nil|]. intros j. cbn. lia.
Qed.

(** C12. The calibration run ([-O s]) raises a boundary when a row uses more numbers of a stream
    than the table of rnd.h allows. With a valid grammar it finds nothing to raise: whatever
    the table, the row and the seeds, no stream is used above its boundary, so the rows of a
    TPC-H table draw from disjoint stretches of every stream. *)
Theorem rows_within_boundaries Os D t i upd_num g d s :
  tpch_dists D -> seeds_ok (Seed s) -> map boundary (Seed s) = map boundary Seed_init ->
  PART <= t <= REGION -> row_env D t i upd_num s -> glob s G.set_seeds <> 0 ->
  tdefs s !! Z.to_nat (row_table t) = Some d ->
  wp (row_start t;; r <- gen_switch Os D t i upd_num g;; row_stop t)
    (fun _ s' => Forall (fun e => usage e <= boundary e) (Seed s') /\
       map boundary (Seed s') = map boundary Seed_init) s.
Proof.
  intros HD H0 Hb Ht Henv Hss Hd. apply wp_bind. unfold wp at 1. rewrite row_start_eq. cbn beta iota.
  set (s1 := set_Seed (map (with_usage (fun _ => 0))) s).
  assert (H1 : seeds_ok (Seed s1)).
  { destruct H0 as [Hl Hall]. split; [subst s1; cbn; now rewrite length_map|]. subst s1. cbn. apply Forall_map. exact Hall. }
  assert (Hb1 : map boundary (Seed s1) = map boundary Seed_init).
  { rewrite <- Hb. subst s1. cbn. rewrite map_map. reflexivity. }
  apply wp_bind. eapply wp_mono; [exact (wp_gen_switch Os D t i upd_num g s1 HD H1 Ht Henv Hss)|]. cbv beta.
  intros r s2 Hsp. destruct (spent_frame _ _ _ Hsp) as [Hg2 Ht2].
  destruct (spent_usage _ _ _ H1 ltac:(subst s1; cbn; apply Forall_map; apply Forall_true; reflexivity) Hsp
    (table_within t (Seed s1) Ht (proj1 H1) Hb1)) as [Hu Hb2].
  unfold row_stop. fold (row_table t). apply wp_bind, wp_get. rewrite Ht2. change (tdefs s1) with (tdefs s). rewrite Hd.
  apply wp_bind, wp_ret, wp_modify. cbn [Seed set_Seed].
  assert (Hsame : forall e, usage e <= boundary e -> forall a b c, let e' := row_stop_seed a b c e in
    usage e' <= boundary e' /\ boundary e' = boundary e).
  { intros e He a b c. unfold row_stop_seed. destruct (_ || _); [|done].
    destruct (Z.ltb_spec (boundary e) (usage e)); [lia|]. rewrite andb_false_r. done. }
  split.
  - apply Forall_map. eapply Forall_impl; [exact Hu|]. intros e He. apply Hsame, He.
  - rewrite map_map, <- Hb1, <- Hb2. apply map_ext_in. intros e He. apply Hsame.
    rewrite Forall_forall in Hu. apply Hu. now apply list_elem_of_In.
Qed.

Lemma rows_within_boundaries_witness :
  exists Os s, row_env shipped ORDER_LINE 1 0 s /\ glob s G.set_seeds <> 0 /\
    wp (row_start ORDER_LINE;; r <- gen_switch Os shipped ORDER_LINE 1 0 (mk_segments 0 (-1) 0);; row_stop ORDER_LINE)
      (fun _ s' => Forall (fun e => usage e <= boundary e) (Seed s') /\
         map boundary (Seed s') = map boundary Seed_init) s.
Proof.
  set (s := set_glob G.set_seeds 1 tpch_start).
  exists (mk_os (fun _ => None) (fun _ => None) (fun _ => StatNoent) (fun _ => "") Regular (fun _ => true) "").
  exists s.
  assert (Henv : row_env shipped ORDER_LINE 1 0 s).
  { split_and!; try (vm_compute; split_and!; discriminate || reflexivity); try discriminate. now left. }
  assert (Hss : glob s G.set_seeds <> 0) by (vm_compute; discriminate).
  assert (Ht : PART <= ORDER_LINE <= REGION) by (vm_compute; split; discriminate).
  split; [exact Henv|]. split; [exact Hss|].
  exact (rows_within_boundaries _ shipped ORDER_LINE 1 0 _ _ s shipped_tpch tpch_start_seeds eq_refl Ht Henv Hss eq_refl).
Defined.

(** ** Checksums *)

(** The checksum of table [t]. *)
Definition vtotal_of (s : st) (t : Z) : option Z := vtotal <$> tdefs s !! Z.to_nat t.

Definition vrf_sum (t d : Z) (s : st) : st :=
  set_tdefs (alter (fun x => mk_tdef (name x) (comment x) (base x) (header x) (loader x)
    (gen_seed x) (verify x) (child x) (wrap_u 64 (vtotal x + d))) (Z.to_nat t)) s.

Lemma vrf_int_total t d s v : vtotal_of s t = Some v -> vtotal_of (vrf_sum t d s) t = Some (wrap_u 64 (v + d)).
Proof.
  unfold vtotal_of, vrf_sum. cbn. rewrite list_lookup_alter_eq. intros H.
  destruct (tdefs s !! Z.to_nat t); [|discriminate H]. injection H as <-. reflexivity.
Qed.

Lemma wp_VRF_INT t d v (Q : unit -> st -> Prop) s :
  vtotal_of s t = Some v -> (forall s', vtotal_of s' t = Some (wrap_u 64 (v + d)) -> Q tt s') -> wp (VRF_INT t d) Q s.
Proof. intros Hv HQ. apply HQ. now apply vrf_int_total. Qed.

Lemma wp_VRF_MONEY t d n v (Q : unit -> st -> Prop) s :
  vtotal_of s t = Some v -> (forall s', vtotal_of s' t = Some (wrap_u 64 (d + n)) -> Q tt s') ->
  wp (VRF_MONEY t d (Some n)) Q s.
Proof.
  intros Hv HQ. unfold VRF_MONEY. apply wp_bind, wp_ret, HQ. unfold vtotal_of in *. cbn. rewrite list_lookup_alter_eq.
  destruct (tdefs s !! Z.to_nat t); [reflexivity|discriminate Hv].
Qed.

Ltac vrf_go :=
  repeat (apply wp_bind; first [eapply wp_VRF_INT|eapply wp_VRF_MONEY]; [eassumption|]; intros).

(** The checksum of a table with amounts forgets: after the row of a customer, [VRF_MONEY]
    having assigned where the other macros add, it is made of the balance and what follows it
    in that row, whatever it was before, so a validation run reports its last row only. *)
Theorem vrf_cust_forgets c n v s :
  vtotal_of s CUST = Some v -> first_long (c_mktsegment c) = Some n ->
  wp (vrf_cust c) (fun _ s' => vtotal_of s' CUST =
    Some (wrap_u 64 (c_acctbal c + n + char_sum (c_mktsegment c) + char_sum (c_comment c)))) s.
Proof.
  intros Hv Hn. unfold vrf_cust, VRF_STR. rewrite Hn. vrf_go. apply wp_ret.
  match goal with H : vtotal_of ?s CUST = Some ?x |- vtotal_of ?s CUST = _ => rewrite H end.
  f_equal. unfold wrap_u. rewrite Zplus_mod_idemp_l, <- Z.add_assoc, Zplus_mod_idemp_l. f_equal. lia.
Qed.

Lemma vrf_cust_forgets_witness :
  exists c v, wp (vrf_cust c) (fun _ s' => vtotal_of s' CUST = Some v) tpch_start.
Proof.
  exists (mk_customer 1 "Customer#000000001" "j5JsirBM9P" 10 15 "25-989-741-2988" 71156 "BUILDING" "to the even" 11). eexists.
  apply (vrf_cust_forgets _ (le_bytes (String.list_ascii_of_string "BUILDING")) 0); vm_compute; reflexivity.
Defined.
