(* ===== verification/TpchLocal.v ===== *)
(** The rows of the TPC-H builders as functions of the streams they draw from: a computation
    is [local] to a set of streams when two states that agree on them give the same result,
    and agree on them again. Drawing from a stream of the set is local, and so is whatever is
    composed of local steps: a builder is local to its streams, comments included. *)
From S2P Require Import Prelude CString Float64 Rng State Consts Streams Dist Bcd2 Sparse Calendar Build RowSpec Relational Text Tpch.

(** ** Local computations *)

Definition local {A} (S : list Z) (m : M A) : Prop :=
  forall s1 s2, agree S s1 s2 -> rwp m m (fun a b s1' s2' => a = b /\ agree S s1' s2') s1 s2.

Section Rules.
Context (S : list Z).

Lemma local_ret {A} (a : A) : local S (ret a).
Proof. intros s1 s2 Ha. now split. Qed.

Lemma local_stop {A} w : local S (@stop_with A w).
Proof. intros s1 s2 Ha. exact I. Qed.

Lemma local_bind {A B} (m : M A) (k : A -> M B) : local S m -> (forall a, local S (k a)) -> local S (bind m k).
Proof.
  intros Hm Hk s1 s2 Ha. specialize (Hm s1 s2 Ha). unfold rwp, bind in *.
  destruct (m s1) as [a s1'|], (m s2) as [b s2'|]; try done.
  - destruct Hm as [<- Ha']. exact (Hk a s1' s2' Ha').
  - destruct (k a s1'); done.
Qed.

Lemma local_must {A} what (o : option A) : local S (must what o).
Proof. destruct o; [apply local_ret|apply local_stop]. Qed.

(** The state is only read for what the two runs share. *)
Lemma local_get {B} (k : st -> M B) :
  (forall s1 s2, agree S s1 s2 -> k s1 = k s2) -> (forall s, local S (k s)) -> local S (bind get k).
Proof.
  intros He Hk s1 s2 Ha. change (rwp (bind get k) (bind get k) ?Q s1 s2) with (rwp (k s1) (k s2) Q s1 s2).
  rewrite (He s1 s2 Ha). now apply Hk.
Qed.

Lemma local_random lo hi i : In (drawn i) S -> local S (RANDOM lo hi i).
Proof. intros Hi s1 s2 Ha. eapply rwp_random_same; [exact Ha|exact Hi|]. intros v a b Hab _ _. now split. Qed.

Lemma local_strcpy what cap x : local S (strcpy_to what cap x).
Proof. intros s1 s2 Ha. eapply rwp_strcpy; [exact Ha|]. intros a b Hab _ _. now split. Qed.

Lemma local_V_STR avg c : In (drawn c) S -> local S (V_STR avg c).
Proof. intros Hi s1 s2 Ha. eapply rwp_V_STR; [exact Ha|exact Hi|]. now intros p a b Hab. Qed.

Lemma local_pick d c : In (drawn c) S -> local S (pick_str d c).
Proof. intros Hi s1 s2 Ha. eapply rwp_pick_same; [exact Ha|exact Hi|]. now intros p a b Hab. Qed.

Lemma local_phone ind sd : In (drawn sd) S -> local S (gen_phone ind sd).
Proof. intros Hi s1 s2 Ha. eapply rwp_gen_phone; [exact Ha|exact Hi|]. now intros p a b Hab. Qed.

Lemma local_agg set n c : In (drawn c) S -> 1 <= count set -> 1 <= n -> local S (agg_str set n c).
Proof. intros Hi Hc Hn s1 s2 Ha. eapply rwp_agg_str; [exact Ha|exact Hi|exact Hc|exact Hn|]. now intros p a b Hab. Qed.

Lemma local_for_list {A} n (f : Z -> M A) : (forall i, local S (f i)) -> forall i, local S (for_list n i f).
Proof.
  intros Hf. induction n as [|n IH]; intros i; cbn [for_list]; [apply local_ret|].
  apply local_bind; [apply Hf|intros a]. apply local_bind; [apply IH|intros l]. apply local_ret.
Qed.
End Rules.

Create HintDb local.
#[export] Hint Resolve local_ret local_stop local_must local_random local_strcpy local_V_STR local_pick local_phone : local.

(** Steps through a computation, with what the hint database knows of its parts. *)
Ltac local_go :=
  cbv zeta;
  repeat match goal with
  | |- local _ (bind _ _) => apply local_bind; [|intros ?]
  | |- local _ (match ?x with _ => _ end) => destruct x
  | |- local _ (let '(_, _) := ?x in _) => destruct x
  end; eauto with local.

(** ** text.c *)

Section Text.
Context (S : list Z) (D : dists) (sd : Z) (Hsd : In (drawn sd) S).

Lemma local_store off c m : local S (store off c m).
Proof. unfold store. local_go. Qed.

Lemma local_strcpy_mem x : forall off m, local S (strcpy off x m).
Proof. induction x as [|c x IH]; intros off m; cbn [strcpy]; local_go; apply local_store. Qed.
Hint Resolve local_store local_strcpy_mem : local.

Lemma local_pick_to d off m : local S (pick_str_to d sd off m).
Proof. unfold pick_str_to. local_go. Qed.
Hint Resolve local_pick_to : local.

Lemma local_syntax d : local S (pick_syntax d sd).
Proof. unfold pick_syntax. local_go. Qed.
Hint Resolve local_syntax : local.

Lemma local_phrase src gap fuel : forall x m dest res, local S (phrase_loop src gap fuel x m dest res sd).
Proof. induction fuel as [|fuel IH]; intros x m dest res; cbn [phrase_loop]; local_go. Qed.
Hint Resolve local_phrase : local.

Lemma local_part c m dest len : local S (sentence_part D c m dest len sd).
Proof. unfold sentence_part, txt_vp, txt_np. local_go. Qed.
Hint Resolve local_part : local.

Lemma local_sentence fuel : forall c m dest res len, local S (sentence_loop D fuel c m dest res len sd).
Proof. induction fuel as [|fuel IH]; intros c m dest res len; cbn [sentence_loop]; local_go. Qed.
Hint Resolve local_sentence : local.

Lemma local_text_loop fuel : forall len x m off w, local S (text_loop D fuel len x m off w sd).
Proof. induction fuel as [|fuel IH]; intros len x m off w; cbn [text_loop]; unfold txt_sentence; local_go. Qed.
Hint Resolve local_text_loop : local.

Lemma local_dbg_text m min max : local S (dbg_text D m min max sd).
Proof. unfold dbg_text. local_go. Qed.
Hint Resolve local_dbg_text : local.

Lemma local_TEXT_to max avg : local S (TEXT_to D max avg sd).
Proof. unfold TEXT_to. local_go. Qed.
Hint Resolve local_TEXT_to : local.

Lemma local_TEXT max avg : local S (TEXT D max avg sd).
Proof. unfold TEXT. local_go. Qed.
End Text.
#[export] Hint Resolve local_TEXT local_TEXT_to local_store : local.

(** ** build.c *)

Lemma local_memcpy S x : forall off m, local S (memcpy off x m).
Proof. induction x as [|c x IH]; intros off m; cbn [memcpy]; local_go. Qed.
#[export] Hint Resolve local_memcpy : local.

(** What is read of the state is the same in two runs that agree. *)
Ltac same_read :=
  intros [] [] [_ _ ? ? _]; cbn in *; subst; reflexivity.

Lemma local_part_supp S p k : local S (part_supp p k).
Proof. apply local_get; [same_read|]. intros s. local_go. Qed.
#[export] Hint Resolve local_part_supp : local.

Definition cust_draws_from : list Z := [C_ADDR_SD; C_NTRG_SD; C_PHNE_SD; C_ABAL_SD; C_MSEG_SD; C_CMNT_SD].
Definition supp_draws_from : list Z :=
  [S_ADDR_SD; S_NTRG_SD; S_PHNE_SD; S_ABAL_SD; S_CMNT_SD; BBB_CMNT_SD; BBB_TYPE_SD; BBB_JNK_SD; BBB_OFFSET_SD].
Definition part_draws_from : list Z :=
  [P_NAME_SD; P_MFG_SD; P_BRND_SD; P_TYPE_SD; P_SIZE_SD; P_CNTR_SD; P_CMNT_SD; PS_QTY_SD; PS_SCST_SD; PS_CMNT_SD].
Definition order_draws_from : list Z :=
  [O_CKEY_SD; O_ODATE_SD; O_PRIO_SD; O_CLRK_SD; O_CMNT_SD; O_LCNT_SD; L_QTY_SD; L_DCNT_SD; L_TAX_SD; L_SHIP_SD;
   L_SMODE_SD; L_CMNT_SD; L_PKEY_SD; L_SKEY_SD; L_SDTE_SD; L_CDTE_SD; L_RDTE_SD; L_RFLG_SD].

Section Rows.
Context (S : list Z) (D : dists).

(** [S] holds the streams of the list. *)
Definition has (l : list Z) : Prop := forall i, In i l -> In i S.

Lemma has_drawn l i : has l -> In (drawn i) l -> In (drawn i) S.
Proof. intros H. apply H. Qed.

Ltac in_list H := apply (has_drawn _ _ H); vm_compute; tauto.
(** The same on a row, where a draw is from a stream of the list in [H]. *)
Ltac rows_go H :=
  cbv zeta;
  repeat lazymatch goal with
  | |- local _ (bind _ _) => apply local_bind; [|intros ?]
  | |- local _ (ret _) => apply local_ret
  | |- local _ (stop_with _) => apply local_stop
  | |- local _ (must _ _) => apply local_must
  | |- local _ (strcpy_to _ _ _) => apply local_strcpy
  | |- local _ (dist_text _ _ _) => apply local_must
  | |- local _ (dss_random _ _ _) => apply local_random; in_list H
  | |- local _ (V_STR _ _) => apply local_V_STR; in_list H
  | |- local _ (gen_phone _ _) => apply local_phone; in_list H
  | |- local _ (pick_str _ _) => apply local_pick; in_list H
  | |- local _ (TEXT _ _ _ _) => apply local_TEXT; in_list H
  | |- local _ (TEXT_to _ _ _ _) => apply local_TEXT_to; in_list H
  | |- local _ (memcpy _ _ _) => apply local_memcpy
  | |- local _ (part_supp _ _) => apply local_part_supp
  | |- local _ (match ?x with _ => _ end) => destruct x
  end; try assumption.

Lemma local_mk_cust n : has cust_draws_from -> local S (mk_cust D n).
Proof. intros H. unfold mk_cust. rows_go H. Qed.

Lemma local_mk_supp n : has supp_draws_from -> local S (mk_supp D n).
Proof. intros H. unfold mk_supp. rows_go H. Qed.

Lemma local_mk_psupp_row n k : has part_draws_from -> local S (mk_psupp_row D n k).
Proof. intros H. unfold mk_psupp_row. rows_go H. Qed.

Lemma local_mk_part n : has part_draws_from -> 1 <= count (colors D) -> local S (mk_part D n).
Proof.
  intros H Hc. unfold mk_part. apply local_bind; [apply local_agg; [in_list H|exact Hc|unfold P_NAME_SCL; lia]|intros nm].
  pose proof (local_for_list S (Z.to_nat SUPP_PER_PART) (mk_psupp_row D n) (fun k => local_mk_psupp_row n k H) 0).
  rows_go H.
Qed.

Lemma local_mk_line_row lcnt okey d tp oc : has order_draws_from -> local S (mk_line_row D lcnt okey d tp oc).
Proof. intros H. unfold mk_line_row. apply local_get; [same_read|]. intros s. unfold return_flag. rows_go H. Qed.

Lemma local_mk_line_rows n : forall lcnt okey d tp oc, has order_draws_from ->
  local S (mk_line_rows D n lcnt okey d tp oc).
Proof.
  induction n as [|n IH]; intros lcnt okey d tp oc H; cbn [mk_line_rows]; [apply local_ret|].
  pose proof (local_mk_line_row lcnt okey d tp oc H). rows_go H. now apply IH.
Qed.

Lemma local_mk_order i upd : has order_draws_from -> local S (mk_order D i upd).
Proof.
  intros H. unfold mk_order. apply local_get; [same_read|]. intros s.
  rows_go H; now apply local_mk_line_rows.
Qed.
End Rows.
