(* ===== verification/TpchSteps.v ===== *)
(** TPC-H tables in steps. Where the SSBM program draws some columns from streams its skips
    forget, the TPC-H program the sources hold does not: the streams of a table and its child
    are moved to their boundaries by every row, and by [set_state] as far for every row it
    skips. A step therefore generates the very rows a serial run has in its range
    ([tpch_chunk]). *)
From S2P Require Import Prelude CString Float64 Rng SpeedSeed State Consts Streams Dist Bcd2 Sparse Calendar Build RowSpec Relational Parallel Config Shipped Chunks Output Print Driver Text Quota Tpch TpchSpec TpchPrint TpchRows TpchLocal.

(** ** The streams of a table *)

(** The child of the table whose streams [row_stop] moves. *)
Definition child_of (t : Z) : Z := match tdefs_tpch !! Z.to_nat (row_table t) with Some d => child d | None => NONE end.

(** The streams a row of the table is drawn from. *)
Definition streams_of (t : Z) : list Z :=
  if (t =? LINE) || (t =? ORDER) || (t =? ORDER_LINE) then order_draws_from
  else if t =? SUPP then supp_draws_from
  else if t =? CUST then cust_draws_from
  else part_draws_from.

(** The boundary of a stream. *)
Definition stream_step (i : Z) : nat := match Seed_init !! Z.to_nat i with Some e => Z.to_nat (boundary e) | None => 0 end.

(** The tables whose rows are a function of these streams. *)
Definition split_tables : list Z := [PART; SUPP; CUST; ORDER; ORDER_LINE; PART_PSUPP].
Ltac each_split H := destruct H as [<-|[<-|[<-|[<-|[<-|[<-|[]]]]]]].
Ltac table_cases :=
  cbn [Z.eqb Pos.eqb orb PART SUPP CUST ORDER ORDER_LINE PART_PSUPP LINE PSUPP].

(** They belong to the table or to its child. *)
Lemma streams_accounted t : In t split_tables ->
  forallb (fun i => (0 <=? i) && (i <? 48) && match Seed_init !! Z.to_nat i with
    | Some e => accounted (row_table t) (child_of t) e | None => false end) (streams_of t) = true.
Proof. intros Hin. each_split Hin; vm_compute; reflexivity. Qed.

Lemma streams_in t i : In t split_tables -> In i (streams_of t) ->
  0 <= i < 48 /\ exists e, Seed_init !! Z.to_nat i = Some e /\ accounted (row_table t) (child_of t) e = true.
Proof.
  intros Hin Hi. pose proof (streams_accounted t Hin) as H. rewrite forallb_forall in H. specialize (H i Hi).
  apply andb_true_iff in H as [Hr H]. split; [lia|]. destruct (Seed_init !! Z.to_nat i) as [e|]; [|discriminate]. now exists e.
Qed.

(** The row [gen_switch] builds for table [t] outside of an update set. *)
Definition make_row (D : dists) (t i : Z) : M row :=
  if (t =? LINE) || (t =? ORDER) || (t =? ORDER_LINE) then o <- mk_order D i 0;; ret (R_order o)
  else if t =? SUPP then supp <- mk_supp D i;; ret (R_supp supp)
  else if t =? CUST then cust <- mk_cust D i;; ret (R_cust cust)
  else part <- mk_part D i;; ret (R_part part).

Lemma gen_switch_row Os D t i g s : In t split_tables ->
  gen_switch Os D t i 0 g s = (r <- make_row D t i;; deliver Os t r 0;; ret (0, g)) s.
Proof.
  intros Hin. unfold gen_switch, make_row. change (0 %c 10000) with 0.
  each_split Hin; table_cases;
    unfold bind, glb, gets; match goal with |- context [match ?m s with _ => _ end] => destruct (m s) as [x s1|] end;
    try reflexivity; unfold next_segment; rewrite andb_false_r; reflexivity.
Qed.

(** ** A row moves its streams to the boundaries *)

(** [d] describes the same table as [d0], whatever its name, rows and checksum. *)
Record same_desc (d0 d : tdef) : Prop := mk_same_desc {
  ds_gen_seed : gen_seed d = gen_seed d0;
  ds_child : child d = child d0;
  ds_loader : loader d = loader d0;
}.

Record tpch_env (s : st) : Prop := mk_tpch_env {
  te_scale : tpch_scale s;
  te_desc : Forall2 same_desc tdefs_tpch (tdefs s);
}.

Lemma tpch_env_same s s' : glob s' = glob s -> tdefs s' = tdefs s -> tpch_env s -> tpch_env s'.
Proof.
  intros Hg Ht [H1 H2]. split; [|now rewrite Ht].
  unfold tpch_scale, supp_cnt, O_CKEY_MAX, L_PKEY_MAX, base_of in *. now rewrite Hg, Ht.
Qed.

(** Draws from the streams of rnd.h are as many as the streams count. *)
Lemma counted_sum_cons j l xs :
  In j xs -> (1 + sum_list_with (fun i => counted i l) xs <= sum_list_with (fun i => counted i (j :: l)) xs)%nat.
Proof.
  assert (Hle : forall ys, (sum_list_with (fun i => counted i l) ys <= sum_list_with (fun i => counted i (j :: l)) ys)%nat).
  { induction ys as [|y ys IH]; cbn [sum_list_with]; [lia|]. rewrite counted_cons. lia. }
  induction xs as [|x xs IH]; [intros []|]. intros [->|Hj]; cbn [sum_list_with]; rewrite counted_cons.
  - rewrite decide_True by done. specialize (Hle xs). lia.
  - specialize (IH Hj). lia.
Qed.

Lemma counted_sum l xs : (forall j, In j l -> In j xs) -> (length l <= sum_list_with (fun i => counted i l) xs)%nat.
Proof.
  induction l as [|j l IH]; intros H; [cbn; lia|]. cbn [length].
  pose proof (counted_sum_cons j l xs (H j (or_introl eq_refl))). specialize (IH (fun k Hk => H k (or_intror Hk))). lia.
Qed.

Lemma spent_sum l b xs : (forall i, (counted i l <= quota b i)%nat) ->
  (sum_list_with (fun i => counted i l) xs <= sum_list_with (quota b) xs)%nat.
Proof. intros H. induction xs as [|x xs IH]; cbn [sum_list_with]; [lia|]. specialize (H x). lia. Qed.

Lemma strays_none l : Forall (fun i => 0 <= i <= MAX_STREAM) l -> strays l = 0%nat.
Proof.
  induction 1 as [|j l Hj _ IH]; [reflexivity|]. unfold strays in *. rewrite filter_cons.
  destruct (decide (in_table j = false)) as [E|]; [|exact IH]. unfold in_table in E. lia.
Qed.

(** The step of a row within its quotas, on a stream of its table. *)
Lemma spent_steps t b s s' : In t split_tables -> spent b s s' -> Z.of_nat (sum_list_with (quota b) (seqZ 0 48)) < nM ->
  exists l, drew l s s' /\ Z.of_nat (length l) < nM /\
    forall i, In i (streams_of t) -> row_adv_in (child_of t) t i l = stream_step i.
Proof.
  intros Ht (l & Hd & Hl & Hq) Hb. exists l. split; [exact Hd|]. split.
  - assert (Hin : forall j, In j l -> In j (seqZ 0 48)).
    { intros j Hj. rewrite List.Forall_forall in Hl. specialize (Hl j Hj). apply list_elem_of_In, elem_of_seqZ.
      unfold MAX_STREAM in Hl. lia. }
    pose proof (counted_sum l _ Hin). pose proof (spent_sum l b (seqZ 0 48) Hq). lia.
  - intros i Hi. destruct (streams_in t i Ht Hi) as (_ & e & He & Ha). unfold row_adv_in, stream_step.
    rewrite He, Ha, strays_none by exact Hl.
    destruct (decide (i = 0)); lia.
Qed.

Section Rows.
Context (D : dists) (HD : tpch_dists D).

Lemma make_row_spent t n s : In t split_tables -> seeds_ok (Seed s) -> tpch_env s ->
  wp (make_row D t n) (fun _ s' => spent (table_quota t) s s') s.
Proof.
  intros Hin H0 [Hsc _]. pose proof Hsc as (_ & _ & Hs1 & _).
  unfold make_row, table_quota. each_split Hin; table_cases; apply wp_bind.
  - apply wp_tpch_part; [exact HD|exact H0|lia|]. intros x s' _ Hsp. now apply wp_ret.
  - apply wp_tpch_supp; [exact HD|exact H0|]. intros x s' _ Hsp. now apply wp_ret.
  - apply wp_tpch_cust; [exact HD|exact H0|]. intros x s' _ Hsp. now apply wp_ret.
  - apply wp_tpch_order; [exact HD|exact H0|exact Hsc|now left|]. intros x s' _ Hsp. now apply wp_ret.
  - apply wp_tpch_order; [exact HD|exact H0|exact Hsc|now left|]. intros x s' _ Hsp. now apply wp_ret.
  - apply wp_tpch_part; [exact HD|exact H0|lia|]. intros x s' _ Hsp. now apply wp_ret.
Qed.

Lemma make_row_local t n : In t split_tables -> local (streams_of t) (make_row D t n).
Proof.
  intros Hin. destruct (td_colors D HD) as [Hc _].
  unfold make_row. each_split Hin; table_cases; (apply local_bind; [|intros x; apply local_ret]).
  - apply local_mk_part; [now intros i Hi|lia].
  - apply local_mk_supp. now intros i Hi.
  - apply local_mk_cust. now intros i Hi.
  - apply local_mk_order. now intros i Hi.
  - apply local_mk_order. now intros i Hi.
  - apply local_mk_part; [now intros i Hi|lia].
Qed.

Lemma quotas_small t : In t split_tables -> Z.of_nat (sum_list_with (quota (table_quota t)) (seqZ 0 48)) < nM.
Proof. intros Hin. each_split Hin; vm_compute; reflexivity. Qed.

Lemma tpch_builder t : In t split_tables ->
  RowBuilder_in (child_of t) t (make_row D t) (streams_of t) stream_step eq eq tpch_env.
Proof.
  intros Hin. split.
  - intros i Hi. now apply (streams_in t).
  - intros l s s' He Hd. exact (tpch_env_same s s' (drew_glob _ _ _ Hd) (drew_tdefs _ _ _ Hd) He).
  - intros f s He. exact (tpch_env_same s (set_Seed f s) eq_refl eq_refl He).
  - intros n s Hok He. eapply wp_mono; [now apply make_row_spent|]. intros x s' Hsp.
    exact (spent_steps t _ s s' Hin Hsp (quotas_small t Hin)).
  - intros n m s1 s2 <- _ _ Ha. pose proof (make_row_local t n Hin s1 s2 Ha) as Hl. unfold rwp in *.
    destruct (make_row D t n s1), (make_row D t n s2); try done. apply Hl.
Qed.
End Rows.

(** ** A skip moves them as far *)

(** The description of a table. *)
Lemma env_desc s t d0 : tpch_env s -> tdefs_tpch !! t = Some d0 ->
  exists d, tdefs s !! t = Some d /\ same_desc d0 d.
Proof.
  intros [_ H] Hd. destruct (Forall2_lookup_l _ _ _ _ _ H Hd) as (d & Hd' & H'). now exists d.
Qed.

(** [sd_line] of a table with orders: the streams of the orders are skipped by [sd_order]. *)
Lemma wp_sd_line_child k l s0 s (Q : Z -> st -> Prop) :
  0 <= k -> layout (Seed s0) = layout Seed_init -> skipped l s0 s ->
  (forall s', skipped (l ++ concat (repeat (line_pass k) 7) ++ [(L_CMNT_SD, 945 * k)]) s0 s' -> Q 0 s') ->
  wp (sd_line 0 k) Q s.
Proof.
  intros Hk Hlay Hs HQ. unfold sd_line. apply wp_bind. change (Z.to_nat O_LCNT_MAX) with 7%nat.
  cbn [for_loop]. change L_QTY_SD with 14.
  do 7 (apply wp_bind;
    eapply (wp_advances 11 k); [exact Hs|exact Hk|lia|lia|reflexivity|]; clear Hs; intros ? Hs).
  apply wp_ret. adv_step. change (0 =? 1) with false. cbv iota. apply wp_bind, wp_ret, wp_ret, HQ.
  rewrite <- !app_assoc in *. cbn [repeat concat]. rewrite app_nil_r, <- !app_assoc. assumption.
Qed.

(** What one pass of the loop of [set_state] calls. *)
Lemma wp_skip_alone t d0 f k (Q : unit -> st -> Prop) s :
  tpch_env s -> t <> LINE -> tdefs_tpch !! Z.to_nat t = Some d0 -> gen_seed d0 = Some f -> child d0 = NONE ->
  wp (call_gen_seed f 0 k) (fun _ s' => Q tt s') s -> wp (skip_step t k) Q s.
Proof.
  intros He Ht Hd0 Hf Hc HQ. destruct (env_desc s _ _ He Hd0) as (d & Hd & [Hg Hc' _]). unfold skip_step.
  apply wp_bind, wp_get, wp_bind, (wp_must _ _ _ _ d Hd). destruct (Z.eqb_spec t LINE); [done|].
  rewrite Hg, Hf, Hc', Hc. apply wp_bind, wp_bind. eapply wp_mono; [exact HQ|]. intros ? s' H. now apply wp_ret, wp_ret.
Qed.

Lemma wp_skip_both t d0 f c0 fc k (Q : unit -> st -> Prop) s :
  tpch_env s -> t <> LINE -> tdefs_tpch !! Z.to_nat t = Some d0 -> gen_seed d0 = Some f -> child d0 <> NONE ->
  tdefs_tpch !! Z.to_nat (child d0) = Some c0 -> gen_seed c0 = Some fc ->
  wp (call_gen_seed f 0 k) (fun _ s' => wp (call_gen_seed fc 0 k) (fun _ s'' => Q tt s'') s') s -> wp (skip_step t k) Q s.
Proof.
  intros He Ht Hd0 Hf Hc Hc0 Hfc HQ. destruct (env_desc s _ _ He Hd0) as (d & Hd & [Hg Hc' _]).
  destruct (env_desc s _ _ He Hc0) as (c & Hcd & [Hcg _ _]). unfold skip_step.
  apply wp_bind, wp_get, wp_bind, (wp_must _ _ _ _ d Hd). destruct (Z.eqb_spec t LINE); [done|].
  rewrite Hg, Hf, Hc'. destruct (Z.eqb_spec (child d0) NONE); [done|]. apply wp_bind, wp_bind.
  eapply wp_mono; [exact HQ|]. intros ? s' H. apply wp_ret, wp_bind, (wp_must _ _ _ _ c Hcd), wp_bind.
  rewrite Hcg. apply (wp_must _ _ _ _ fc Hfc), wp_bind. eapply wp_mono; [exact H|]. intros ? s'' H'. now apply wp_ret.
Qed.

(** The advances of a skip, stream by stream. *)
Ltac tpch_total Hb :=
  match goal with |- total ?i _ = _ =>
    let a := eval vm_compute in (Z.of_nat (stream_step i)) in
    assert (Ha : Z.of_nat (stream_step i) = a) by (vm_compute; reflexivity);
    pose proof (Hb i ltac:(cbn; tauto)) as Hbi; rewrite Ha in Hbi; rewrite Nat2Z.inj_mul, Ha; clear Ha;
    cbv -[Z.add Z.mul Z.modulo Z.pow Z.of_nat Z.to_nat Z.lt] in Hbi |- *;
    rewrite ?Z.mod_small by lia; lia
  end.
Ltac tpch_done Henv Hb :=
  apply wp_ret; eapply skipped_moved; [intros f x; exact (tpch_env_same x (set_Seed f x) eq_refl eq_refl)| |eassumption|exact Henv|eassumption|];
  [intros i Hi; each_stream Hi; in_range|intros i Hi; each_stream Hi; tpch_total Hb].

(** The skips of the parts and the suppliers of each, and of the orders and their lines. *)
Lemma wp_part_skip t k s : t = PART \/ t = PART_PSUPP ->
  0 <= k -> (forall i, In i part_draws_from -> k * Z.of_nat (stream_step i) < 2 ^ 31) ->
  row_env_in (child_of t) t s -> tpch_env s ->
  wp (sd_part 0 k) (fun _ s' => wp (sd_psupp 0 k)
    (fun _ s'' => moved_in (child_of t) t part_draws_from stream_step tpch_env (Z.to_nat k) s s'') s') s.
Proof.
  intros Ht Hk Hb He Henv. pose proof He as [Hok Hlay _ _]. pose proof (skipped_nil s Hok) as Hs.
  unfold sd_part. change P_MFG_SD with 0. apply wp_bind.
  eapply (wp_advances 5 k) with (ids := [0; 1; 2; 3; 4]); [exact Hs|exact Hk|lia|lia|reflexivity|].
  clear Hs. intros s1 Hs. do 2 adv_step. apply wp_ret. unfold sd_psupp. change (Z.to_nat SUPP_PER_PART) with 4%nat.
  cbn [for_loop]. do 8 adv_step. apply wp_ret. adv_step.
  tpch_done Henv Hb.
Qed.

Lemma wp_order_skip t k s : t = ORDER \/ t = ORDER_LINE ->
  0 <= k -> (forall i, In i order_draws_from -> k * Z.of_nat (stream_step i) < 2 ^ 31) ->
  row_env_in (child_of t) t s -> tpch_env s ->
  wp (sd_order 0 k) (fun _ s' => wp (sd_line 0 k)
    (fun _ s'' => moved_in (child_of t) t order_draws_from stream_step tpch_env (Z.to_nat k) s s'') s') s.
Proof.
  intros Ht Hk Hb He Henv. pose proof He as [Hok Hlay _ _]. pose proof (skipped_nil s Hok) as Hs.
  unfold sd_order. do 7 adv_step. apply wp_ret. eapply wp_sd_line_child; [exact Hk|exact Hlay|eassumption|]. intros s2 Hs'.
  eapply skipped_moved; [intros f x; exact (tpch_env_same x (set_Seed f x) eq_refl eq_refl)| |exact He|exact Henv|exact Hs'|];
    [intros i Hi; each_stream Hi; in_range|intros i Hi; each_stream Hi; tpch_total Hb].
Qed.

(** One pass of the loop of [set_state] moves the streams of a table as its rows do. *)
Lemma tpch_skips t d : In t split_tables -> skips_rows (child_of t) t d (streams_of t) stream_step tpch_env.
Proof.
  intros Hin k s _ Hk Hb He Henv. pose proof He as [Hok Hlay _ _]. pose proof (skipped_nil s Hok) as Hs.
  each_split Hin.
  - eapply (wp_skip_both PART _ Fsd_part _ Fsd_psupp); try reflexivity; [exact Henv|discriminate..|].
    apply wp_part_skip; auto.
  - eapply (wp_skip_alone SUPP _ Fsd_supp); try reflexivity; [exact Henv|discriminate|]. cbn [call_gen_seed].
    unfold sd_supp. do 9 adv_step. tpch_done Henv Hb.
  - eapply (wp_skip_alone CUST _ Fsd_cust); try reflexivity; [exact Henv|discriminate|]. cbn [call_gen_seed].
    unfold sd_cust. do 6 adv_step. tpch_done Henv Hb.
  - eapply (wp_skip_both ORDER _ Fsd_order _ Fsd_line); try reflexivity; [exact Henv|discriminate..|].
    apply wp_order_skip; auto.
  - eapply (wp_skip_both ORDER_LINE _ Fsd_order _ Fsd_line); try reflexivity; [exact Henv|discriminate..|].
    apply wp_order_skip; auto.
  - eapply (wp_skip_both PART_PSUPP _ Fsd_part _ Fsd_psupp); try reflexivity; [exact Henv|discriminate..|].
    apply wp_part_skip; auto.
Qed.


(** ** Steps and the serial run *)

(** The hypotheses under which a step of table [t] is generated: a scale within the limit of
    [set_state], a step of the run, and no jump of [2^31] or more. *)
Record tpch_split (t sf procs step : Z) (d : tdef) (s : st) : Prop := mk_tpch_split {
  tp_env : tpch_env s;
  tp_seeds : seeds_ok (Seed s);
  tp_layout : layout (Seed s) = layout Seed_init;
  tp_set_seeds : glob s G.set_seeds = 0;
  tp_tdef : tdefs s !! Z.to_nat t = Some d;
  tp_base : 0 <= base d;
  tp_scale : 1 <= sf /\ sf / procs <= MAX_32B_SCALE;
  tp_step : 1 <= step <= procs;
  tp_jump : forall i, In i (streams_of t) -> step_rows (base d) sf procs * Z.of_nat (stream_step i) < 2 ^ 31;
}.

(** The child of a table that is split. *)
Lemma split_child t s : In t split_tables -> tpch_env s ->
  forall u, In u [t; row_table t] -> exists d, tdefs s !! Z.to_nat u = Some d /\ child d = child_of t.
Proof.
  intros Hin He u Hu. assert (E : exists d0, tdefs_tpch !! Z.to_nat u = Some d0 /\ child d0 = child_of t).
  { each_split Hin; destruct Hu as [<-|[<-|[]]]; eexists; split; reflexivity. }
  destruct E as (d0 & Hd0 & Hc0). destruct (env_desc s _ _ He Hd0) as (d' & Hd' & [_ Hc' _]). exists d'. split; [exact Hd'|congruence].
Qed.

(** TPC-H tables generated in steps are those of a serial run, row by row and in every
    column: [set_state] leaves every stream of the table and its child where the rows before
    the step would have left it, comments included. *)
Lemma tpch_chunk D t sf procs step d s :
  tpch_dists D -> In t split_tables -> tpch_split t sf procs step d s ->
  exists L1 L2 L3 s1 s2 s3,
    gen_rows t (make_row D t) (Z.to_nat (base d * sf)) 1 s = Ok (L1 ++ L2 ++ L3) s1 /\
    Z.of_nat (length L1) = (step - 1) * step_rows (base d) sf procs /\
    length L2 = step_count (base d) sf procs step /\
    set_state t sf procs step s = Ok (step_rows (base d) sf procs, Some (step_extra (base d) sf procs)) s2 /\
    gen_rows t (make_row D t) (step_count (base d) sf procs step) (step_rows (base d) sf procs * (step - 1) + 1) s2 = Ok L2 s3.
Proof.
  intros HD Hin [He Hok Hlay Hset Hd Hbase Hsf Hstep Hjump].
  destruct (split_child t s Hin He t (or_introl eq_refl)) as (d' & Hd' & Hc). rewrite Hd in Hd'. injection Hd' as <-.
  assert (Hre : row_env_in (child_of t) t s).
  { split; try assumption. apply (split_child t s Hin He). right. now left. }
  assert (Hsp : split_ok_in (child_of t) t sf procs step d (streams_of t) stream_step s) by (split; auto).
  destruct (parallel_chunk_in t (make_row D t) (streams_of t) stream_step eq tpch_env (HB := tpch_builder D HD t Hin)
    sf procs step s d (tpch_skips t d Hin) Hsp Hre He) as (L1 & L2 & L3 & L2' & s1 & s3 & H1 & H2 & H3 & H4 & HF).
  apply list_eq_Forall2 in HF. subst L2'.
  pose proof (wp_set_state_in _ t _ _ _ sf procs step s d (tpch_skips t d Hin) Hsp Hre He) as Hw. unfold wp in Hw.
  unfold bind in H4. destruct (set_state t sf procs step s) as [r s2|]; [|done]. destruct Hw as [-> _].
  now exists L1, L2, L3, s1, s2, s3.
Qed.
