(* ===== verification/TpchFrame.v ===== *)
(** The TPC-H builders do not touch the output: like those of Frame, they are inner. *)
From S2P Require Import Prelude CString Float64 State Consts Streams Dist Bcd2 Sparse Build Config Frame Partial Text Tpch TpchPrint TpchSteps.

(** ** The builders are inner *)

Ltac inner_cases :=
  cbv zeta;
  repeat (lazymatch goal with
          | |- inner (match ?x with _ => _ end) => destruct x
          | |- _ => inner_step
          end; cbv zeta).

Lemma inner_store off c m : inner (store off c m).
Proof. unfold store. inner_cases. Qed.
#[export] Hint Resolve inner_store : inner.

Lemma inner_strcpy_mem x : forall off m, inner (Text.strcpy off x m).
Proof. induction x as [|c x IH]; intros off m; cbn [Text.strcpy]; inner_cases. Qed.
#[export] Hint Resolve inner_strcpy_mem : inner.

Lemma inner_pick_to d sd off m : inner (pick_str_to d sd off m).
Proof. unfold pick_str_to. inner_cases. Qed.

Lemma inner_syntax d sd : inner (pick_syntax d sd).
Proof. unfold pick_syntax. inner_cases. Qed.
#[export] Hint Resolve inner_pick_to inner_syntax : inner.

Lemma inner_phrase src gap fuel : forall x m dest res sd, inner (phrase_loop src gap fuel x m dest res sd).
Proof. induction fuel as [|fuel IH]; intros x m dest res sd; cbn [phrase_loop]; inner_cases. Qed.
#[export] Hint Resolve inner_phrase : inner.

Lemma inner_part D c m dest len sd : inner (sentence_part D c m dest len sd).
Proof. unfold sentence_part, txt_vp, txt_np. inner_cases. Qed.
#[export] Hint Resolve inner_part : inner.

Lemma inner_sentence D fuel : forall c m dest res len sd, inner (sentence_loop D fuel c m dest res len sd).
Proof. induction fuel as [|fuel IH]; intros; cbn [sentence_loop]; inner_cases. Qed.
#[export] Hint Resolve inner_sentence : inner.

Lemma inner_text_loop D fuel : forall len x m off w sd, inner (text_loop D fuel len x m off w sd).
Proof. induction fuel as [|fuel IH]; intros; cbn [text_loop]; unfold txt_sentence; inner_cases. Qed.
#[export] Hint Resolve inner_text_loop : inner.

Lemma inner_TEXT_to D max avg sd : inner (TEXT_to D max avg sd).
Proof. unfold TEXT_to, Text.dbg_text. inner_cases. Qed.
#[export] Hint Resolve inner_TEXT_to : inner.

Lemma inner_TEXT D max avg sd : inner (TEXT D max avg sd).
Proof. unfold TEXT. inner_cases. Qed.
#[export] Hint Resolve inner_TEXT : inner.

Lemma inner_memcpy x : forall off m, inner (memcpy off x m).
Proof. induction x as [|c x IH]; intros off m; cbn [memcpy]; inner_cases. Qed.

Lemma inner_part_supp p k : inner (part_supp p k).
Proof. unfold part_supp. inner_cases. Qed.
#[export] Hint Resolve inner_memcpy inner_part_supp : inner.

Lemma inner_psupp_row D n k : inner (mk_psupp_row D n k).
Proof. unfold mk_psupp_row. inner_cases. Qed.
#[export] Hint Resolve inner_for_list inner_psupp_row : inner.

Lemma inner_line_row D lcnt okey d tp oc : inner (mk_line_row D lcnt okey d tp oc).
Proof. unfold mk_line_row, return_flag, Tpch.L_PKEY_MAX. inner_cases. Qed.
#[export] Hint Resolve inner_line_row : inner.

Lemma inner_line_rows D n : forall lcnt okey d tp oc, inner (mk_line_rows D n lcnt okey d tp oc).
Proof. induction n as [|n IH]; intros; cbn [mk_line_rows]; inner_cases. Qed.
#[export] Hint Resolve inner_line_rows : inner.

Lemma inner_make_row D t i : inner (make_row D t i).
Proof.
  unfold make_row, Tpch.mk_order, Tpch.mk_supp, Tpch.mk_cust, Tpch.mk_part. inner_cases.
Qed.
