(* ===== verification/TpchFiles.v ===== *)
(** The flat files of the TPC-H program: the text of every row, and what [gen_tbl] leaves in
    the file of a table, or in the two files of a table printed with its child. *)
From S2P Require Import Prelude CString Float64 Rng State Consts Streams Dist Bcd2 Sparse Build RowSpec Relational Parallel Config Shipped Chunks Output Print Driver Frame Tables Partial Text Quota Tpch TpchSpec TpchPrint TpchRows TpchLocal TpchSteps TpchFrame.

(** ** The text of a row *)

Definition money_text (n : Z) : string := Output.dbg_text false (DT_MONEY n) 0.
Definition char_text (c : ascii) : string := String c "".

Definition cust_fields (c : customer_t) : list string :=
  [fmt_d (c_custkey c); c_name c; c_address c; fmt_d (c_nation_code c); c_phone c;
   money_text (c_acctbal c); c_mktsegment c; c_comment c].
Definition supp_fields (s : supplier_t) : list string :=
  [fmt_d (s_suppkey s); s_name s; s_address s; fmt_d (s_nation_code s); s_phone s;
   money_text (s_acctbal s); s_comment s].
Definition order_fields (o : order_t) : list string :=
  [huge_text (o_okey o); fmt_d (o_custkey o); char_text (o_orderstatus o); money_text (o_totalprice o);
   o_odate o; o_opriority o; o_clerk o; fmt_d (o_spriority o); o_comment o].
Definition line_fields (l : line_t) : list string :=
  [huge_text (l_okey l); fmt_d (l_partkey l); fmt_d (l_suppkey l); fmt_d (l_lcnt l); fmt_d (l_quantity l);
   money_text (l_eprice l); money_text (l_discount l); money_text (l_tax l); char_text (l_rflag l);
   char_text (l_lstatus l); l_sdate l; l_cdate l; l_rdate l; l_shipinstruct l; l_shipmode l; l_comment l].
Definition part_fields (p : part_t) : list string :=
  [fmt_d (p_partkey p); p_name p; p_mfgr p; p_brand p; p_type p; fmt_d (p_size p); p_container p;
   money_text (p_retailprice p); p_comment p].
Definition psupp_fields (p : partsupp_t) : list string :=
  [fmt_d (ps_partkey p); fmt_d (ps_suppkey p); fmt_d (ps_qty p); money_text (ps_scost p); ps_comment p].

(** The text of a table's row, and of the rows of its child. *)
Definition main_text (r : row) : string :=
  match r with
  | R_order o => row_text (order_fields o)
  | R_supp s => row_text (supp_fields s)
  | R_cust c => row_text (cust_fields c)
  | R_part p => row_text (part_fields p)
  | R_code _ => ""
  end.
Definition child_text (r : row) : string :=
  match r with
  | R_order o => texts (fun l => row_text (line_fields l)) (o_l o)
  | R_part p => texts (fun q => row_text (psupp_fields q)) (p_s p)
  | _ => ""
  end.

(** ** Printing appends it *)

Lemma prints_dbg_sep f d len sep : sep <> -1 ->
  prints f (Output.dbg_text false d len +:+ SEPARATOR) (dbg_print (Some f) d len sep) tt.
Proof.
  intros Hsep s Hs. unfold dbg_print, bind, gets. rewrite Hs, (proj2 (Z.eqb_neq _ _) Hsep). cbn [Z.eqb negb andb].
  unfold fprintf, modify. exact (f_equal (Ok tt) (emit_emit f _ _ s)).
Qed.

Lemma prints_one {B} f d len sep rest (k : M B) r t :
  Output.dbg_text false d len = t -> sep <> -1 -> prints f rest k r ->
  prints f (t +:+ SEPARATOR +:+ rest) (dbg_print (Some f) d len sep;; k) r.
Proof.
  intros <- Hsep Hk. rewrite <- app_assoc_s. eapply (prints_bind f _ rest); [now apply prints_dbg_sep|exact Hk].
Qed.

Ltac prints_row :=
  unfold row_text; cbn [fold_right];
  repeat lazymatch goal with
  | |- prints _ _ (bind (columnar_len _ _) _) _ => apply prints_len
  | |- prints _ _ (bind (PR_END _) _) _ => apply prints_end
  | |- prints _ _ (PR_END _) _ => intros s0 _; reflexivity
  | |- prints _ _ (ret _) _ => apply prints_ret
  | |- prints _ _ (bind _ _) _ => eapply prints_one; [reflexivity|discriminate|]
  end.

Lemma prints_line_row f l : prints f (row_text (line_fields l)) (pr_line_row (Some f) l) tt.
Proof. unfold pr_line_row, line_fields. prints_row. Qed.

Lemma prints_psupp_row f p : prints f (row_text (psupp_fields p)) (pr_psupp_row (Some f) p) tt.
Proof. unfold pr_psupp_row, psupp_fields. prints_row. Qed.

Lemma prints_line_rows f ls : prints f (texts (fun l => row_text (line_fields l)) ls) (pr_line_rows (Some f) ls) tt.
Proof.
  induction ls as [|l ls IH]; cbn [texts pr_line_rows]; [apply prints_ret|].
  eapply prints_bind; [apply prints_line_row|exact IH].
Qed.

Lemma prints_psupp_rows f ps : prints f (texts (fun p => row_text (psupp_fields p)) ps) (pr_psupp_rows (Some f) ps) tt.
Proof.
  induction ps as [|p ps IH]; cbn [texts pr_psupp_rows]; [apply prints_ret|].
  eapply prints_bind; [apply prints_psupp_row|exact IH].
Qed.

(** ** The print functions *)

(** The modes under which the files of the orders and the lines were opened. *)
Definition plain_modes (s : st) : Prop := order_mode (prt s) = 0 /\ last_mode (prt s) = 0.

(** [pr] writes [text] through the static variable [p], opening the file table [u] names. *)
Record printer_of (Os : os) {A} (p : pr_fn) (u : Z) (pr : A -> Z -> M Z) (text : A -> string) : Prop := mk_printer_of {
  po_open : forall a f s, is_open p f s -> plain_modes s -> glob s G.columnar = 0 -> pr a 0 s = Ok 0 (emit f (text a) s);
  po_first : forall a s d nm, plain_run s -> plain_modes s -> fp (prt s) p = None -> tdefs s !! Z.to_nat u = Some d ->
    name d = Some nm -> openable Os nm s -> pr a 0 s = pr a 0 (with_file Os p nm s);
}.

Section Printers.
Context (Os : os).

(** How a print function gets its file: through its static variable, opened when it is not. *)
Record opener (p : pr_fn) (u : Z) (o : Z -> M (option nat)) : Prop := mk_opener {
  op_open : forall f s, is_open p f s -> plain_modes s -> o 0 s = Ok (Some f) s;
  op_first : forall s d nm, plain_run s -> plain_modes s -> fp (prt s) p = None -> tdefs s !! Z.to_nat u = Some d ->
    name d = Some nm -> openable Os nm s -> o 0 s = Ok (Some (length (files s))) (with_file Os p nm s);
}.

Lemma static_opener p u mode : opener p u (fun m => static_fp Os p u (mode m)).
Proof.
  split.
  - intros f s Ho _. now apply static_fp_open.
  - intros s d nm Hp _ Hf Hd Hn Ho. now destruct (static_fp_first Os p u (mode 0) d nm s Hp Hf Hd Hn Ho).
Qed.

Lemma order_opener : opener P_order ORDER (order_fp Os).
Proof.
  split.
  - intros f s Ho [Hm _]. unfold order_fp, bind, gets, ret. now rewrite Ho, Hm.
  - intros s d nm Hp [Hm _] Hf Hd Hn Ho. unfold order_fp. rewrite (bind_ok (gets prt) _ (prt s) s s) by reflexivity.
    rewrite Hf, (bind_ok _ _ _ _ _ (print_prep_ok Os ORDER 0 d nm s Hp Hd Hn Ho)).
    unfold bind, modify, ret, with_file. f_equal. unfold with_order_mode, with_fp, set_prt.
    destruct s as [? ? ? ? ? ? ? ? [] ? ?]. cbn in *. now rewrite Hm.
Qed.

Lemma line_opener : opener P_line LINE (line_fp Os).
Proof.
  split.
  - intros f s Ho [_ Hm]. unfold line_fp, bind, gets, ret. now rewrite Ho, Hm.
  - intros s d nm Hp [_ Hm] Hf Hd Hn Ho. unfold line_fp. rewrite (bind_ok (gets prt) _ (prt s) s s) by reflexivity.
    rewrite Hf, (bind_ok _ _ _ _ _ (print_prep_ok Os LINE 0 d nm s Hp Hd Hn Ho)).
    unfold bind, modify, ret, with_file. f_equal. unfold with_last_mode, with_fp, set_prt.
    destruct s as [? ? ? ? ? ? ? ? [] ? ?]. cbn in *. now rewrite Hm.
Qed.

Lemma opened_printer {A} p u o (k : A -> option nat -> M Z) text :
  opener p u o -> (forall a f, prints f (text a) (k a (Some f)) 0) ->
  printer_of Os p u (fun a m => f <- o m;; k a f) text.
Proof.
  intros [H1 H2] Hk. split.
  - intros a f s Ho Hm Hs. rewrite (bind_ok _ _ _ _ _ (H1 f s Ho Hm)). now apply Hk.
  - intros a s d nm Hp Hm Hf Hd Hn Ho. rewrite (bind_ok _ _ _ _ _ (H2 s d nm Hp Hm Hf Hd Hn Ho)).
    now rewrite (bind_ok _ _ _ _ _ (H1 (length (files s)) (with_file Os p nm s) (with_file_fp Os p nm s) Hm)).
Qed.

Lemma cust_printer : printer_of Os P_cust CUST (TpchPrint.pr_cust Os) (fun c => row_text (cust_fields c)).
Proof. apply (opened_printer _ _ _ _ _ (static_opener P_cust CUST (fun _ => 0))). intros a f. prints_row. Qed.

Lemma supp_printer : printer_of Os P_supp SUPP (TpchPrint.pr_supp Os) (fun c => row_text (supp_fields c)).
Proof. apply (opened_printer _ _ _ _ _ (static_opener P_supp SUPP id)). intros a f. prints_row. Qed.

Lemma part_printer : printer_of Os P_part PART (TpchPrint.pr_part Os) (fun p => row_text (part_fields p)).
Proof. apply (opened_printer _ _ _ _ _ (static_opener P_part PART (fun _ => 0))). intros a f. prints_row. Qed.

Lemma order_printer : printer_of Os P_order ORDER (pr_order Os) (fun o => row_text (order_fields o)).
Proof. apply (opened_printer _ _ _ _ _ order_opener). intros a f. prints_row. Qed.

Lemma prints_then_0 f x (m : M unit) : prints f x m tt -> prints f x (m;; ret 0) 0.
Proof. intros H. rewrite <- (app_nil_r_s x). eapply prints_bind; [exact H|apply prints_ret]. Qed.

Lemma line_printer : printer_of Os P_line LINE (TpchPrint.pr_line Os) (fun o => texts (fun l => row_text (line_fields l)) (o_l o)).
Proof. apply (opened_printer _ _ _ _ _ line_opener). intros a f. apply prints_then_0, prints_line_rows. Qed.

Lemma psupp_printer : printer_of Os P_psupp PSUPP (pr_psupp Os) (fun p => texts (fun q => row_text (psupp_fields q)) (p_s p)).
Proof. apply (opened_printer _ _ _ _ _ (static_opener P_psupp PSUPP id)). intros a f. apply prints_then_0, prints_psupp_rows. Qed.
End Printers.

(** ** Several files at once *)

(** Appending to several files, and opening them. *)
Fixpoint emits (fs : list nat) (xs : list string) (s : st) : st :=
  match fs, xs with f :: fs, x :: xs => emits fs xs (emit f x s) | _, _ => s end.
Fixpoint open_files (Os : os) (l : list (pr_fn * string)) (s : st) : st :=
  match l with [] => s | (p, nm) :: l => open_files Os l (with_file Os p nm s) end.

Lemma emit_comm f g x y s : f <> g -> emit f x (emit g y s) = emit g y (emit f x s).
Proof. intros H. unfold emit, State.set_files. cbn. f_equal. apply list_eq. intros i.
  destruct (decide (f = i)) as [->|Hf], (decide (g = i)) as [->|Hg];
    repeat first [rewrite list_lookup_alter_eq|rewrite list_lookup_alter_ne by done]; done.
Qed.

Lemma emits_emit f x fs : forall xs s, f ∉ fs -> emits fs xs (emit f x s) = emit f x (emits fs xs s).
Proof.
  induction fs as [|g fs IH]; intros [|y xs] s H; try reflexivity. cbn [emits]. apply not_elem_of_cons in H as [H1 H2].
  rewrite emit_comm by done. now apply IH.
Qed.

Lemma emits_emits fs : forall xs ys s, NoDup fs -> length xs = length fs -> length ys = length fs ->
  emits fs ys (emits fs xs s) = emits fs (zip_with String.append xs ys) s.
Proof.
  induction fs as [|f fs IH]; intros [|x xs] [|y ys] s Hn Hx Hy; try discriminate; [reflexivity|].
  apply NoDup_cons in Hn as [Hf Hn]. cbn [emits zip_with]. rewrite <- (emit_emit f x y), <- IH by (assumption || (cbn in *; lia)).
  now rewrite <- (emits_emit f y).
Qed.

Lemma emits_nil fs : forall xs s, Forall (eq "") xs -> emits fs xs s = s.
Proof.
  induction fs as [|f fs IH]; intros [|x xs] s H; try reflexivity. apply Forall_cons in H as [<- H]. cbn [emits].
  rewrite emit_nil. now apply IH.
Qed.

Lemma with_file_emit Os p nm f x s : (f < length (files s))%nat ->
  with_file Os p nm (emit f x s) = emit f x (with_file Os p nm s).
Proof.
  intros Hf. unfold with_file, emit, State.set_files, set_prt. cbn. rewrite length_alter. f_equal.
  now rewrite alter_app_l.
Qed.

Lemma open_files_emit Os l : forall f x s, (f < length (files s))%nat ->
  open_files Os l (emit f x s) = emit f x (open_files Os l s).
Proof.
  induction l as [|[p nm] l IH]; intros f x s Hf; [reflexivity|]. cbn [open_files]. rewrite with_file_emit by done.
  apply IH. cbn. rewrite length_app. lia.
Qed.

(** The file table [u] names can be opened. *)
Definition named (Os : os) (s : st) (u : Z) (nm : string) : Prop :=
  exists d, tdefs s !! Z.to_nat u = Some d /\ name d = Some nm /\ openable Os nm s.

Lemma named_same Os s s' u nm : glob s' = glob s -> tdefs s' = tdefs s -> named Os s u nm -> named Os s' u nm.
Proof.
  intros Hg Ht (d & Hd & Hn & [O1 O2 O3 O4]). exists d. rewrite Ht. split_and!; [exact Hd|exact Hn|].
  split; try assumption. now rewrite Hg.
Qed.

(** [m] writes the texts [xs] through the static variables of [ps], opening the files the
    tables of [ps] name. *)
Record writes (Os : os) (ps : list (pr_fn * Z)) (m : M unit) (xs : list string) : Prop := mk_writes {
  ws_open : forall fs s, Forall2 (fun pu f => is_open (fst pu) f s) ps fs -> plain_modes s -> glob s G.columnar = 0 ->
    m s = Ok tt (emits fs xs s);
  ws_first : forall s nms, plain_run s -> plain_modes s -> Forall (fun pu => fp (prt s) (fst pu) = None) ps ->
    Forall2 (fun pu nm => named Os s (snd pu) nm) ps nms -> m s = m (open_files Os (zip (map fst ps) nms) s);
}.

Lemma writes_nil Os : writes Os [] (ret tt) [].
Proof. split; [intros fs s H _ _|intros s nms _ _ _ H]; inversion H; reflexivity. Qed.

Lemma open_files_prt Os l : forall s p, p ∉ map fst l -> fp (prt (open_files Os l s)) p = fp (prt s) p.
Proof.
  induction l as [|[q nm] l IH]; intros s p H; [reflexivity|]. cbn [open_files map] in *.
  apply not_elem_of_cons in H as [H1 H2]. rewrite IH by done. cbn. now rewrite decide_False.
Qed.

Lemma open_files_modes Os l : forall s, plain_modes s -> plain_modes (open_files Os l s).
Proof. induction l as [|[q nm] l IH]; intros s H; [done|]. apply IH. exact H. Qed.

Lemma open_files_keeps Os l : forall s,
  glob (open_files Os l s) = glob s /\ tdefs (open_files Os l s) = tdefs s /\ stdout (open_files Os l s) = stdout s.
Proof. induction l as [|[q nm] l IH]; intros s; [done|]. apply (IH (with_file Os q nm s)). Qed.

Lemma writes_cons Os {A} p u pr (text : A -> string) a ps m xs :
  printer_of Os p u pr text -> p ∉ map fst ps -> writes Os ps m xs ->
  writes Os ((p, u) :: ps) (_ <- pr a 0;; m) (text a :: xs).
Proof.
  intros [H1 H2] Hp [W1 W2]. split.
  - intros fs s Hfs Hm Hs. inversion Hfs as [|? f ? fs' Ho Hfs']; subst. cbn [fst] in Ho.
    rewrite (bind_ok _ _ _ _ _ (H1 a f s Ho Hm Hs)). exact (W1 fs' (emit f (text a) s) Hfs' Hm Hs).
  - intros s nms Hrun Hm Hf Hnm. inversion Hnm as [|? nm ? nms' (d & Hd & Hn & Ho) Hnms']; subst.
    apply Forall_cons in Hf as [Hf Hfs]. cbn [map fst snd zip open_files] in *.
    set (s1 := with_file Os p nm s). set (l := zip (map fst ps) nms').
    assert (Hl : p ∉ map fst l).
    { intros Hin. apply Hp. unfold l in Hin. apply list_elem_of_In, in_map_iff in Hin as ([q x] & <- & Hin).
      apply list_elem_of_In, elem_of_zip_l in Hin. exact Hin. }
    pose proof (pr_columnar _ Hrun) as Hcol.
    rewrite (bind_ok _ _ 0 s (emit (length (files s)) (text a) s1)).
    2:{ rewrite (H2 a s d nm Hrun Hm Hf Hd Hn Ho). apply H1; [apply with_file_fp|exact Hm|exact Hcol]. }
    rewrite (bind_ok _ _ 0 (open_files Os l s1) (emit (length (files s)) (text a) (open_files Os l s1))).
    2:{ apply H1; [|now apply open_files_modes|now rewrite (proj1 (open_files_keeps Os l s1))].
        unfold is_open. rewrite open_files_prt by exact Hl. apply with_file_fp. }
    rewrite <- open_files_emit by (cbn; rewrite length_app; cbn; lia). apply W2; try assumption.
    + destruct Hrun. now split.
    + apply Forall_forall. intros pu Hpu. cbn. rewrite Forall_forall in Hfs. rewrite decide_False; [now apply Hfs|].
      intros <-. apply Hp, list_elem_of_fmap_2, Hpu.
    + eapply Forall2_impl; [exact Hnms'|]. intros pu x. now apply named_same.
Qed.

(** ** Delivering a row *)

(** The static variables a table is printed through, with the tables that name their files. *)
Definition outputs (t : Z) : list (pr_fn * Z) :=
  if t =? PART then [(P_part, PART)]
  else if t =? SUPP then [(P_supp, SUPP)]
  else if t =? CUST then [(P_cust, CUST)]
  else if t =? ORDER then [(P_order, ORDER)]
  else if t =? ORDER_LINE then [(P_order, ORDER); (P_line, LINE)]
  else [(P_part, PART); (P_psupp, PSUPP)].

(** What is printed of a row of the table. *)
Definition text_fns (t : Z) : list (row -> string) :=
  if (t =? ORDER_LINE) || (t =? PART_PSUPP) then [main_text; child_text] else [main_text].
Definition row_texts (t : Z) (r : row) : list string := map (fun f => f r) (text_fns t).

(** The rows of the table. *)
Definition of_table (t : Z) (r : row) : Prop :=
  match r with
  | R_order _ => t = ORDER \/ t = ORDER_LINE
  | R_supp _ => t = SUPP
  | R_cust _ => t = CUST
  | R_part _ => t = PART \/ t = PART_PSUPP
  | R_code _ => False
  end.

(** [pr_order_line] and [pr_part_psupp] give the name of their table to the one whose file
    they print to. *)
Definition titles (t : Z) (nm : option string) (ds : list tdef) : list tdef :=
  if t =? ORDER_LINE then alter (fun d => with_label nm (vtotal d) d) (Z.to_nat ORDER) ds
  else if t =? PART_PSUPP then alter (fun d => with_label nm (vtotal d) d) (Z.to_nat PART) ds
  else ds.

Lemma set_tdefs_same s : set_tdefs (fun ds => ds) s = s.
Proof. now destruct s. Qed.

Lemma deliver_load Os t r s d f :
  plain_run s -> tdefs s !! Z.to_nat t = Some d -> fst (loader d) = Some f ->
  deliver Os t r 0 s = (_ <- call_loader Os f r 0;; ret tt) s.
Proof.
  intros [_ H1 H2 H3 _ _] Hd Hl. unfold deliver. rewrite (bind_ok get _ s s s) by reflexivity.
  rewrite H1, H2, H3. cbn [Z.eqb negb]. rewrite (bind_ok _ _ d s s) by now rewrite Hd.
  now rewrite (bind_ok _ _ f s s) by now rewrite Hl.
Qed.

(** The print functions of a table and its child, after the name is copied. *)
Lemma then_print {A} (p1 p2 : M A) (s : st) :
  (_ <- (_ <- p1;; _ <- p2;; ret 0);; ret tt) s = (_ <- p1;; _ <- p2;; ret tt) s.
Proof. unfold bind, ret. destruct (p1 s) as [x s1|]; [|done]. now destruct (p2 s1). Qed.

(** A table printed to one file. *)
Lemma deliver_single Os {A} t p u f (pr : A -> Z -> M Z) text (to_row : A -> row) a :
  printer_of Os p u pr text -> (forall m, call_loader Os f (to_row a) m = pr a m) ->
  titles t = (fun _ ds => ds) -> (exists d0, tdefs_tpch !! Z.to_nat t = Some d0 /\ fst (loader d0) = Some f) ->
  exists m, writes Os [(p, u)] m [text a] /\
    forall s d d0, plain_run s -> tdefs s !! Z.to_nat t = Some d -> tdefs_tpch !! Z.to_nat t = Some d0 ->
      same_desc d0 d -> deliver Os t (to_row a) 0 s = m (set_tdefs (titles t (name d)) s).
Proof.
  intros Hp Hload Ht (d1 & Hd1 & Hf). exists (_ <- pr a 0;; ret tt). split.
  - apply (writes_cons Os _ _ _ _ a _ _ _ Hp); [apply not_elem_of_nil|apply writes_nil].
  - intros s d d0 Hrun Hd Hd0 [_ _ Hl]. rewrite Hd1 in Hd0. injection Hd0 as <-. rewrite Ht, set_tdefs_same.
    rewrite (deliver_load Os t _ s d f Hrun Hd) by now rewrite Hl. now rewrite Hload.
Qed.

(** A table printed with its child: [u] is the table whose name is set. *)
Lemma deliver_pair Os {A} t p1 u1 p2 u2 f (pr1 pr2 : A -> Z -> M Z) text1 text2 (to_row : A -> row) a :
  printer_of Os p1 u1 pr1 text1 -> printer_of Os p2 u2 pr2 text2 -> p1 <> p2 ->
  (forall s d, tdefs s !! Z.to_nat t = Some d -> call_loader Os f (to_row a) 0 s =
     (_ <- pr1 a 0;; _ <- pr2 a 0;; ret 0) (set_tdefs (titles t (name d)) s)) ->
  (exists d0, tdefs_tpch !! Z.to_nat t = Some d0 /\ fst (loader d0) = Some f) ->
  exists m, writes Os [(p1, u1); (p2, u2)] m [text1 a; text2 a] /\
    forall s d d0, plain_run s -> tdefs s !! Z.to_nat t = Some d -> tdefs_tpch !! Z.to_nat t = Some d0 ->
      same_desc d0 d -> deliver Os t (to_row a) 0 s = m (set_tdefs (titles t (name d)) s).
Proof.
  intros H1 H2 Hp Hload (d1 & Hd1 & Hf). exists (_ <- pr1 a 0;; _ <- pr2 a 0;; ret tt). split.
  - apply (writes_cons Os _ _ _ _ a _ _ _ H1); [now apply not_elem_of_cons; split; [|apply not_elem_of_nil]|].
    apply (writes_cons Os _ _ _ _ a _ _ _ H2); [apply not_elem_of_nil|apply writes_nil].
  - intros s d d0 Hrun Hd Hd0 [_ _ Hl]. rewrite Hd1 in Hd0. injection Hd0 as <-.
    rewrite (deliver_load Os t _ s d f Hrun Hd) by now rewrite Hl. rewrite <- then_print.
    unfold bind at 1. rewrite (Hload s d Hd). reflexivity.
Qed.

Lemma deliver_writes Os t r : In t split_tables -> of_table t r ->
  exists m, writes Os (outputs t) m (row_texts t r) /\
    forall s d d0, plain_run s -> tdefs s !! Z.to_nat t = Some d -> tdefs_tpch !! Z.to_nat t = Some d0 ->
      same_desc d0 d -> deliver Os t r 0 s = m (set_tdefs (titles t (name d)) s).
Proof.
  intros Hin Hr.
  each_split Hin; destruct r as [o|c|c|p|k]; cbn [of_table] in Hr;
    try first [discriminate Hr|destruct Hr; discriminate|destruct Hr; fail].
  - apply (deliver_single Os PART P_part PART Fpr_part _ _ R_part p (part_printer Os)); try reflexivity.
    eexists; split; reflexivity.
  - apply (deliver_single Os SUPP P_supp SUPP Fpr_supp _ _ R_supp c (supp_printer Os)); try reflexivity.
    eexists; split; reflexivity.
  - apply (deliver_single Os CUST P_cust CUST Fpr_cust _ _ R_cust c (cust_printer Os)); try reflexivity.
    eexists; split; reflexivity.
  - apply (deliver_single Os ORDER P_order ORDER Fpr_order _ _ R_order o (order_printer Os)); try reflexivity.
    eexists; split; reflexivity.
  - apply (deliver_pair Os ORDER_LINE P_order ORDER P_line LINE Fpr_order_line _ _ _ _ R_order o
      (order_printer Os) (line_printer Os)); [discriminate| |eexists; split; reflexivity].
    intros s d Hd. cbn [call_loader]. unfold pr_order_line. rewrite (bind_ok get _ s s s) by reflexivity.
    now rewrite (bind_ok _ _ d s s) by now rewrite Hd.
  - apply (deliver_pair Os PART_PSUPP P_part PART P_psupp PSUPP Fpr_part_psupp _ _ _ _ R_part p
      (part_printer Os) (psupp_printer Os)); [discriminate| |eexists; split; reflexivity].
    intros s d Hd. cbn [call_loader]. unfold pr_part_psupp. rewrite (bind_ok get _ s s s) by reflexivity.
    now rewrite (bind_ok _ _ d s s) by now rewrite Hd.
Qed.
