(* ===== verification/TpchRun.v ===== *)
(** What [gen_tbl] of the TPC-H program leaves: one new file for a table, two for a table
    printed with its child, with the text of the rows its builder makes. *)
From S2P Require Import Prelude CString Float64 Rng SpeedSeed State Consts Streams Dist Bcd2 Sparse Build RowSpec Relational Parallel Config Shipped Chunks Output Print Driver Frame Tables Partial Text Quota Tpch TpchSpec TpchPrint TpchRows TpchLocal TpchSteps TpchFrame TpchFiles.

(** ** The views of the output *)

Lemma view_comp f g : View f -> View g -> View (fun s => f (g s)).
Proof.
  intros [F1 F2 F3 F4 F5 F6 F7 F8] [G1 G2 G3 G4 G5 G6 G7 G8].
  split; intros; [rewrite F1|rewrite F2|rewrite F3|rewrite F4 by assumption|rewrite F5
                 |rewrite F6, G6|rewrite F7, G7|rewrite F8, G8]; auto.
Qed.

#[export] Instance titles_view t nm : View (set_tdefs (titles t nm)).
Proof.
  split; try reflexivity. intros s u. cbn. unfold titles.
  assert (Halt : forall k, with_label None 0 <$> alter (fun d => with_label nm (vtotal d) d) k (tdefs s) !! u =
    with_label None 0 <$> tdefs s !! u).
  { intros k. destruct (decide (k = u)) as [->|Hk]; [|now rewrite list_lookup_alter_ne].
    rewrite list_lookup_alter_eq. now destruct (tdefs s !! u). }
  destruct (t =? ORDER_LINE); [apply Halt|]. destruct (t =? PART_PSUPP); [apply Halt|reflexivity].
Qed.

Lemma titles_twice t nm ds : titles t nm (titles t nm ds) = titles t nm ds.
Proof.
  assert (Halt : forall k, alter (fun d => with_label nm (vtotal d) d) k (alter (fun d => with_label nm (vtotal d) d) k ds) =
    alter (fun d => with_label nm (vtotal d) d) k ds).
  { intros k. apply list_eq. intros i. destruct (decide (k = i)) as [->|Hk]; [|now rewrite !list_lookup_alter_ne].
    rewrite !list_lookup_alter_eq. now destruct (ds !! i). }
  unfold titles. destruct (t =? ORDER_LINE); [apply Halt|]. destruct (t =? PART_PSUPP); [apply Halt|reflexivity].
Qed.

Lemma titles_self t nm ds : In t split_tables -> titles t nm ds !! Z.to_nat t = ds !! Z.to_nat t.
Proof. intros Hin. each_split Hin; try reflexivity; cbn; now apply list_lookup_alter_ne. Qed.

(** ** Opened files *)

Lemma emit_files Os f x s path l : files s = l ++ [opened Os path ""] -> length l = f ->
  files (emit f x s) = l ++ [opened Os path x].
Proof. intros Hs Hl. cbn. rewrite Hs. now apply emit_new. Qed.

(** The files left by opening and appending. *)
Lemma opened_files Os l : forall xs s, length xs = length l ->
  files (emits (seq (length (files s)) (length l)) xs (open_files Os l s)) =
  files s ++ zip_with (fun pn x => opened Os (full_path Os (snd pn)) x) l xs.
Proof.
  induction l as [|[p nm] l IH]; intros [|x xs] s Hl; try discriminate; [now rewrite app_nil_r|].
  cbn [length seq emits open_files zip_with snd]. set (f := length (files s)).
  rewrite <- open_files_emit by (cbn; rewrite length_app; cbn; lia).
  set (s1 := emit f x (with_file Os p nm s)).
  assert (E : files s1 = files s ++ [opened Os (full_path Os nm) x]) by (apply emit_files; reflexivity).
  replace (S f) with (length (files s1)) by (rewrite E, length_app; cbn; lia).
  rewrite IH by now injection Hl. rewrite E, <- app_assoc. reflexivity.
Qed.

(** The static variables are set. *)
Lemma opened_fps Os (ps : list (pr_fn * Z)) : forall nms s, NoDup (map fst ps) -> length nms = length ps ->
  Forall2 (fun pu f => is_open (fst pu) f (open_files Os (zip (map fst ps) nms) s)) ps
    (seq (length (files s)) (length ps)).
Proof.
  induction ps as [|[p u] ps IH]; intros [|nm nms] s Hn Hl; try discriminate; [constructor|].
  cbn [map fst zip open_files length seq] in *. apply NoDup_cons in Hn as [Hp Hn]. constructor.
  - unfold is_open. cbn [fst]. rewrite open_files_prt; [apply with_file_fp|]. intros Hin. apply Hp.
    apply list_elem_of_In, in_map_iff in Hin as ([q x] & <- & Hin). apply list_elem_of_In, elem_of_zip_l in Hin. exact Hin.
  - replace (S (length (files s))) with (length (files (with_file Os p nm s))) by (cbn; rewrite length_app; cbn; lia).
    apply IH; [exact Hn|now injection Hl].
Qed.

(** What appending and opening leave alone. *)
Lemma emits_keeps fs : forall xs s, prt (emits fs xs s) = prt s /\ stdout (emits fs xs s) = stdout s /\ glob (emits fs xs s) = glob s.
Proof. induction fs as [|f fs IH]; intros [|x xs] s; try done. apply (IH xs (emit f x s)). Qed.

Lemma zip_texts {A} (fns : list (A -> string)) a L :
  zip_with String.append (map (fun f => f a) fns) (map (fun f => texts f L) fns) = map (fun f => texts f (a :: L)) fns.
Proof. induction fns as [|f fns IH]; [reflexivity|]. cbn [map zip_with texts]. now rewrite IH. Qed.

(** ** One table *)

Section Table.
Context (Os : os) (D : dists) (t : Z) (Hin : In t split_tables).

(** [s] with the output part of [o], the name [nm] of table [t] copied where it is printed. *)
Definition shown (nm : option string) (o s : st) : st := set_tdefs (titles t nm) (with_out o s).

#[local] Instance shown_view nm o : View (shown nm o).
Proof. exact (view_comp _ _ (titles_view t nm) (with_out_view o)). Qed.

(** The situation of a table whose rows are generated into new files. *)
Record printable (nm : option string) (s : st) : Prop := mk_printable {
  pt_run : plain_run s;
  pt_tdef : exists d d0, tdefs s !! Z.to_nat t = Some d /\ name d = nm /\ tdefs_tpch !! Z.to_nat t = Some d0 /\ same_desc d0 d;
}.

Lemma printable_keeps nm s s' : glob s' = glob s -> tdefs s' = tdefs s -> printable nm s -> printable nm s'.
Proof. intros Hg Ht [[] H]. split; [split; congruence|now rewrite Ht]. Qed.

Lemma printable_shown nm o s : printable nm s -> printable nm (shown nm o s).
Proof.
  intros [[] (d & d0 & Hd & H)]. split; [now split|]. exists d, d0. split; [|exact H].
  change (titles t nm (tdefs s) !! Z.to_nat t = Some d). now rewrite titles_self.
Qed.

Lemma printable_out nm o s : printable nm s -> printable nm (with_out o s).
Proof. intros [[] H]. split; [now split|exact H]. Qed.

Lemma make_row_of_table i s r s' : make_row D t i s = Ok r s' -> of_table t r.
Proof.
  unfold make_row. each_split Hin; table_cases; unfold bind, ret; match goal with |- context [match ?m s with _ => _ end] =>
    destruct (m s) as [x s1|]; [|discriminate] end; intros [= <- _]; cbn [of_table]; auto.
Qed.

(** Delivering a row to the open files. *)
Lemma deliver_open nm r o s fs :
  of_table t r -> printable nm s -> Forall2 (fun pu f => is_open (fst pu) f o) (outputs t) fs -> plain_modes o ->
  deliver Os t r 0 (shown nm o s) = Ok tt (shown nm (emits fs (row_texts t r) o) s).
Proof.
  intros Hr Hp Hf Hm. destruct (deliver_writes Os t r Hin Hr) as (m & [W _] & Hdel).
  destruct (printable_shown nm o s Hp) as [Hrun (d & d0 & Hd & Hn & Hd0 & Hsame)].
  rewrite (Hdel _ d d0 Hrun Hd Hd0 Hsame), Hn.
  assert (E : set_tdefs (titles t nm) (shown nm o s) = shown nm o s).
  { apply st_eq; try reflexivity. apply titles_twice. }
  rewrite E, (W fs) by (assumption || apply (pr_columnar _ Hrun)). f_equal.
  clear. revert o. generalize (row_texts t r). intros xs. revert xs.
  induction fs as [|f fs IH]; intros [|x xs] o; try reflexivity. cbn [emits]. exact (IH xs (emit f x o)).
Qed.

(** Delivering the first row opens them. *)
Lemma deliver_first nm r o s nms :
  of_table t r -> printable nm s -> plain_modes o -> Forall (fun pu => fp (prt o) (fst pu) = None) (outputs t) ->
  Forall2 (fun pu x => named Os (set_tdefs (titles t nm) s) (snd pu) x) (outputs t) nms ->
  deliver Os t r 0 (with_out o s) =
  deliver Os t r 0 (shown nm (open_files Os (zip (map fst (outputs t)) nms) o) s).
Proof.
  intros Hr Hp Hm Hf Hnm. destruct (deliver_writes Os t r Hin Hr) as (m & [_ W] & Hdel).
  set (l := zip (map fst (outputs t)) nms).
  destruct (printable_shown nm (open_files Os l o) s Hp) as [Hrun (d & d0 & Hd & Hn & Hd0 & Hsame)].
  destruct (printable_out nm o s Hp) as [Hrun' (d' & d0' & Hd' & Hn' & Hd0' & Hsame')].
  rewrite (Hdel _ d d0 Hrun Hd Hd0 Hsame), Hn, (Hdel _ d' d0' Hrun' Hd' Hd0' Hsame'), Hn'.
  assert (E : set_tdefs (titles t nm) (shown nm (open_files Os l o) s) = shown nm (open_files Os l o) s).
  { apply st_eq; try reflexivity. apply titles_twice. }
  rewrite E. change (set_tdefs (titles t nm) (with_out o s)) with (shown nm o s).
  rewrite (W (shown nm o s) nms).
  - fold l. f_equal. clear. revert o. induction l as [|[p x] l IH]; intros o; [reflexivity|]. exact (IH (with_file Os p x o)).
  - exact (pt_run _ _ (printable_shown nm o s Hp)).
  - exact Hm.
  - exact Hf.
  - eapply Forall2_impl; [exact Hnm|]. intros pu x (u & Hu & Hx & [O1 O2 O3 O4]). exists u.
    split_and!; [exact Hu|exact Hx|]. split; assumption.
Qed.

(** A row of the loop, whatever is done with it. *)
Lemma gen_switch_view tr `{V : View tr} i g s r s' : make_row D t i s = Ok r s' ->
  gen_switch Os D t i 0 g (tr s) = (deliver Os t r 0;; ret (0, g)) (tr s').
Proof.
  intros E. rewrite gen_switch_row by exact Hin.
  exact (bind_ok _ _ _ _ _ (inner_through _ tr _ _ _ (inner_make_row D t i) E)).
Qed.

Lemma gen_loop_shown nm fs n : forall i g o s L s',
  gen_rows t (make_row D t) n i s = Ok L s' -> printable nm s ->
  Forall2 (fun pu f => is_open (fst pu) f o) (outputs t) fs -> NoDup fs -> plain_modes o ->
  gen_loop Os D n t i 0 g (shown nm o s) = Ok tt (shown nm (emits fs (map (fun f => texts f L) (text_fns t)) o) s').
Proof.
  induction n as [|n IH]; intros i g o s L s' HL Hp Hf Hnd Hm.
  - cbn in HL. injection HL as <- <-. cbn [gen_loop]. rewrite emits_nil; [reflexivity|].
    apply Forall_forall. intros x Hx. apply list_elem_of_In, in_map_iff in Hx as (f & <- & _). reflexivity.
  - unfold gen_rows in HL. cbn [for_list] in HL. unfold bind in HL.
    destruct (gen_row t (make_row D t) i s) as [a s3|] eqn:Ea; [|done].
    destruct (for_list n (i + 1) (gen_row t (make_row D t)) s3) as [L' s4|] eqn:EL; [|done].
    injection HL as <- <-. unfold gen_row, bind, ret in Ea.
    destruct (row_start t s) as [[] s1|] eqn:E1; [|done]. destruct (make_row D t i s1) as [a' s2|] eqn:E2; [|done].
    destruct (row_stop t s2) as [[] s3'|] eqn:E3; [|done]. injection Ea as <- <-.
    destruct (in_keeps _ (inner_row_start t) _ _ _ E1) as [G1 T1].
    destruct (in_keeps _ (inner_make_row D t i) _ _ _ E2) as [G2 T2].
    destruct (in_keeps _ (inner_row_stop t) _ _ _ E3) as [G3 T3].
    assert (Hp2 : printable nm s2) by (apply (printable_keeps nm s); congruence).
    assert (Hp3 : printable nm s3') by (apply (printable_keeps nm s); congruence).
    assert (Hlen : length (row_texts t a') = length fs /\ length (map (fun f => texts f L') (text_fns t)) = length fs).
    { rewrite <- (Forall2_length _ _ _ Hf). unfold row_texts. rewrite !length_map. clear - Hin. each_split Hin; split; reflexivity. }
    cbn [gen_loop]. rewrite (bind_ok _ _ tt _ (shown nm o s1)) by (apply inner_through; [exact _|apply inner_row_start|exact E1]).
    set (o' := emits fs (row_texts t a') o).
    rewrite (bind_ok _ _ (0, g) _ (shown nm o' s2)).
    2:{ rewrite (gen_switch_view (shown nm o) i g s1 a' s2 E2).
        rewrite (bind_ok _ _ tt _ (shown nm o' s2)); [reflexivity|].
        apply deliver_open; try assumption. exact (make_row_of_table _ _ _ _ E2). }
    rewrite (bind_ok _ _ tt _ (shown nm o' s3')) by (apply inner_through; [exact _|apply inner_row_stop|exact E3]).
    rewrite (bind_ok _ _ tt _ (shown nm o' s3')).
    2:{ unfold show_seeds. rewrite (bind_ok get _ _ _ _ eq_refl). rewrite (vw_glob (tr:=shown nm o')) by reflexivity.
        now rewrite (pr_set_seeds _ (pt_run _ _ Hp3)). }
    destruct (emits_keeps fs (row_texts t a') o) as (K1 & _).
    cbn [fst snd]. rewrite (IH _ _ o' _ L' s4); [|exact EL|exact Hp3| |exact Hnd|unfold plain_modes, o'; now rewrite K1].
    + unfold o'. rewrite emits_emits by (apply Hnd || apply Hlen). unfold row_texts. now rewrite zip_texts.
    + unfold o', is_open. now rewrite K1.
Qed.
(** The files of the table can be opened, and are not open yet. *)
Record fresh_outputs (nm : option string) (nms : list string) (s : st) : Prop := mk_fresh_outputs {
  fo_named : Forall2 (fun pu x => named Os (set_tdefs (titles t nm) s) (snd pu) x) (outputs t) nms;
  fo_closed : Forall (fun pu => fp (prt s) (fst pu) = None) (outputs t);
  fo_modes : plain_modes s;
}.

(** The first row opens the files. *)
Lemma loop_opens nm nms n i g o s L s' :
  gen_rows t (make_row D t) (S n) i s = Ok L s' -> printable nm s -> fresh_outputs nm nms s -> prt o = prt s ->
  gen_loop Os D (S n) t i 0 g (with_out o s) =
  gen_loop Os D (S n) t i 0 g (shown nm (open_files Os (zip (map fst (outputs t)) nms) o) s).
Proof.
  intros HL Hp [Hnm Hf Hm] Ho. set (o' := open_files Os (zip (map fst (outputs t)) nms) o).
  unfold gen_rows in HL. cbn [for_list] in HL. unfold bind in HL.
  destruct (gen_row t (make_row D t) i s) as [a s3|] eqn:Ea; [|done]. unfold gen_row, bind, ret in Ea.
  destruct (row_start t s) as [[] s1|] eqn:E1; [|done]. destruct (make_row D t i s1) as [a' s2|] eqn:E2; [|done].
  destruct (in_keeps _ (inner_row_start t) _ _ _ E1) as [G1 T1].
  destruct (in_keeps _ (inner_make_row D t i) _ _ _ E2) as [G2 T2].
  assert (Hp2 : printable nm s2) by (apply (printable_keeps nm s); congruence).
  cbn [gen_loop]. rewrite (bind_ok _ _ tt (with_out o s) (with_out o s1)) by (apply inner_run; [apply inner_row_start|exact E1]).
  rewrite (bind_ok _ _ tt (shown nm o' s) (shown nm o' s1)) by (apply inner_through; [exact _|apply inner_row_start|exact E1]).
  assert (E : gen_switch Os D t i 0 g (with_out o s1) = gen_switch Os D t i 0 g (shown nm o' s1)).
  { rewrite (gen_switch_view (with_out o) i g s1 a' s2 E2), (gen_switch_view (shown nm o') i g s1 a' s2 E2).
    unfold bind. rewrite (deliver_first nm a' o s2 nms); [reflexivity|exact (make_row_of_table _ _ _ _ E2)|exact Hp2
      |unfold plain_modes; now rewrite Ho|now rewrite Ho|].
    eapply Forall2_impl; [exact Hnm|]. intros pu x.
    assert (Gt : glob s2 = glob s /\ tdefs s2 = tdefs s) by (split; congruence). destruct Gt as [Gg Gt].
    apply named_same; [exact Gg|]. cbn. now rewrite Gt. }
  unfold bind. now rewrite E.
Qed.

(** What [gen_tbl] leaves: the rows in new files. *)
Record wrote_all (nm : option string) (nms : list string) (L : list row) (s s2 s' : st) : Prop := mk_wrote_all {
  wa_files : files s' = files s ++ zip_with (fun x f => opened Os (full_path Os x) (texts f L)) nms (text_fns t);
  wa_seeds : Seed s' = Seed s2;
  wa_tdefs : tdefs s' = titles t nm (tdefs s);
  wa_stdout : stdout s' = stdout s;
  wa_closed : forall q, q ∉ map fst (outputs t) -> fp (prt s') q = fp (prt s) q;
  wa_modes : plain_modes s';
  wa_glob : forall v, v <> G.init -> v <> G.completed -> glob s' v = glob s v;
}.

Lemma gen_rows_keep n : forall i s L s', gen_rows t (make_row D t) n i s = Ok L s' ->
  glob s' = glob s /\ tdefs s' = tdefs s.
Proof.
  intros i s L s'. apply in_keeps, inner_gen_rows, inner_make_row.
Qed.

Lemma outputs_nodup : NoDup (map fst (outputs t)).
Proof. each_split Hin; cbn; repeat constructor; rewrite ?elem_of_nil, ?list_elem_of_singleton; easy. Qed.

(** The state in which [gen_tbl] starts its loop, and the output when it ends. *)
Definition begun (s : st) : st := if glob s G.init =? 0 then set_glob G.init 1 s else s.
Definition ended (nms : list string) (L : list row) (s : st) : st :=
  emits (seq (length (files s)) (length (outputs t))) (map (fun f => texts f L) (text_fns t))
    (open_files Os (zip (map fst (outputs t)) nms) (begun s)).

Lemma begun_out s : begun s = with_out (begun s) s.
Proof.
  unfold begun. apply st_eq; destruct (glob s G.init =? 0); try reflexivity; intros v; cbn [glob with_out set_glob];
    destruct v; reflexivity.
Qed.

Lemma begun_keeps s : files (begun s) = files s /\ prt (begun s) = prt s /\ stdout (begun s) = stdout s /\
  forall v, v <> G.init -> glob (begun s) v = glob s v.
Proof.
  unfold begun. destruct (glob s G.init =? 0); [|done]. split_and!; try reflexivity. intros v Hv. cbn. now rewrite decide_False.
Qed.

Lemma gen_tbl_ended nm nms n start s L s2 :
  gen_rows t (make_row D t) (S n) start s = Ok L s2 -> printable nm s -> fresh_outputs nm nms s ->
  exists c, gen_tbl Os D t start (Z.of_nat (S n)) 0 s = Ok tt (set_glob G.completed c (shown nm (ended nms L s) s2)).
Proof.
  intros HL Hp Hfresh. pose proof (pt_run _ _ Hp) as Hrun. unfold gen_tbl.
  rewrite (bind_ok _ _ 0 s s) by (unfold glb, gets; now rewrite (pr_segments _ Hrun)).
  change (negb (0 =? 0)) with false. cbv iota zeta.
  rewrite (bind_ok _ _ (glob s G.init) s s) by reflexivity.
  rewrite (bind_ok _ _ tt s (begun s)) by (unfold begun, set, modify; destruct (glob s G.init =? 0); reflexivity).
  destruct (Z.ltb_spec (Z.of_nat (S n)) 0); [lia|]. rewrite (bind_ok _ _ tt _ (begun s)) by reflexivity.
  rewrite Nat2Z.id. destruct (begun_keeps s) as (F1 & F2 & _).
  pose proof (Forall2_length _ _ _ (fo_named _ _ _ Hfresh)) as Hlen.
  rewrite (bind_ok _ _ tt _ (shown nm (ended nms L s) s2)); [eexists; reflexivity|].
  rewrite begun_out at 1. rewrite (loop_opens nm nms n start _ (begun s) s L s2 HL Hp Hfresh F2).
  unfold ended. rewrite <- F1. apply gen_loop_shown; [exact HL|exact Hp| |apply NoDup_seq|].
  - apply opened_fps; [apply outputs_nodup|now rewrite <- Hlen].
  - apply open_files_modes. unfold plain_modes. rewrite F2. apply Hfresh.
Qed.

(** The files it leaves. *)
Lemma ended_files nms L s : length nms = length (outputs t) ->
  files (ended nms L s) = files s ++ zip_with (fun x f => opened Os (full_path Os x) (texts f L)) nms (text_fns t).
Proof.
  intros Hlen. unfold ended. destruct (begun_keeps s) as (F1 & _). rewrite <- F1.
  replace (length (outputs t)) with (length (zip (map fst (outputs t)) nms)) by (rewrite length_zip_with, length_map; lia).
  rewrite opened_files.
  2:{ assert (E : length (text_fns t) = length (outputs t)) by (clear - Hin; each_split Hin; reflexivity).
      rewrite length_zip_with, !length_map. lia. }
  f_equal. clear - Hlen. revert nms Hlen. generalize (outputs t), (text_fns t).
  intros ps fns. revert fns. induction ps as [|pu ps IH]; intros [|f fns] [|x nms] Hl; try discriminate; try reflexivity.
  cbn [map zip zip_with snd]. f_equal. apply IH. now injection Hl.
Qed.

Lemma gen_tbl_files nm nms n start s L s2 :
  gen_rows t (make_row D t) (S n) start s = Ok L s2 -> printable nm s -> fresh_outputs nm nms s ->
  exists s', gen_tbl Os D t start (Z.of_nat (S n)) 0 s = Ok tt s' /\ wrote_all nm nms L s s2 s'.
Proof.
  intros HL Hp Hfresh. destruct (gen_tbl_ended nm nms n start s L s2 HL Hp Hfresh) as [c E].
  exists (set_glob G.completed c (shown nm (ended nms L s) s2)). split; [exact E|].
  pose proof (Forall2_length _ _ _ (fo_named _ _ _ Hfresh)) as Hlen.
  destruct (gen_rows_keep _ _ _ _ _ HL) as [G2 T2]. destruct (begun_keeps s) as (F1 & F2 & F3 & F4).
  set (l := zip (map fst (outputs t)) nms). set (o := open_files Os l (begun s)).
  assert (Hk : prt (ended nms L s) = prt o /\ stdout (ended nms L s) = stdout o /\ glob (ended nms L s) = glob o) by apply emits_keeps.
  destruct Hk as (K1 & K2 & K3). destruct (open_files_keeps Os l (begun s)) as (O1 & _ & O2). fold o in O1, O2.
  split.
  - apply (ended_files nms L s). now rewrite <- Hlen.
  - reflexivity.
  - cbn. now rewrite T2.
  - change (stdout (ended nms L s) = stdout s). congruence.
  - intros q Hq. change (fp (prt (ended nms L s)) q = fp (prt s) q). rewrite K1. unfold o. rewrite open_files_prt; [now rewrite F2|].
    intros Hx. apply Hq. unfold l in Hx. apply list_elem_of_In, in_map_iff in Hx as ([p x] & <- & Hx).
    apply list_elem_of_In, elem_of_zip_l in Hx. exact Hx.
  - change (plain_modes (ended nms L s)). unfold plain_modes. rewrite K1. apply open_files_modes. unfold plain_modes. rewrite F2. apply Hfresh.
  - intros v V1 V2. cbn. rewrite decide_False by exact V2. rewrite G2. destruct (out_var v); [|reflexivity].
    rewrite K3, O1. now apply F4.
Qed.
End Table.
