(* ===== verification/TpchMain.v ===== *)
(** The TPC-H driver: what of [process_options] and [main] (driver.c) differs when [SSBM] is
    not defined, and the functions between [main] and [gen_tbl] over the TPC-H [gen_tbl]. The
    rest ([scale_option], [set_files], [alloc_pids], ...) is that of Driver. *)
From S2P Require Import Prelude CString Float64 SpeedSeed State Consts Streams Dist Build Config Output Print Relational Parallel Chunks Driver Text Tpch TpchPrint.

(** The static data of the TPC-H program. *)
Definition tpch_static : st := set_tdefs (fun _ => tdefs_tpch) st_start.

(** ** [process_options] *)

(** One turn of the [getopt] loop; [-S] leaves the tables alone, [-T] knows other letters. *)
Definition process_option (option : ascii) (optarg : string) : M unit :=
  match option with
  | "S"%char => set G.step (atoi optarg)
  | "T"%char => TpchPrint.table_option optarg
  | _ => Driver.process_option option optarg
  end.

Fixpoint process_options_loop (opts : list (ascii * string)) : M unit :=
  match opts with
  | [] => ret tt
  | (option, optarg) :: opts => process_option option optarg;; process_options_loop opts
  end.
Definition process_options (opts : list (ascii * string)) : M unit :=
  process_options_loop opts;; alloc_pids.

Section Driver.
Context (Os : os) (spawn_ok : Z -> Z -> bool).

(** ** Steps and children *)

(** [int partial(int tbl, int s)] *)
Definition partial (D : dists) (tbl step : Z) : M Z :=
  direct <- glb G.direct;;
  (if direct =? 0 then _ <- set_files Os tbl step;; ret tt else ret tt);;
  s <- get;;
  r <- set_state tbl (glob s G.scale) (glob s G.children) step;;
  let '(rowcnt, extra) := r in
  s <- get;;
  (if step =? glob s G.children then
     extra <- must "extra" extra;;
     TpchPrint.gen_tbl Os D tbl (rowcnt * (step - 1) + 1) (rowcnt + extra) (glob s G.upd_num)
   else TpchPrint.gen_tbl Os D tbl (rowcnt * (step - 1) + 1) rowcnt (glob s G.upd_num));;
  ret 0.

(** A child of [int pload(int tbl)], and the loop that forks. *)
Definition child_proc (D : dists) (tbl c : Z) : M unit :=
  set G.verbose 0;;
  _ <- partial D tbl (c + 1);;
  stop_with (Exited 0).
Fixpoint spawn_loop (D : dists) (n : nat) (tbl c : Z) : M (list (res unit)) :=
  match n with
  | O => ret []
  | S n =>
      store_pid c;;
      if negb (spawn_ok tbl c) then stop_with (Exited (-1))
      else
        run <- gets (child_proc D tbl c);;
        rest <- spawn_loop D n tbl (c + 1);;
        ret (run :: rest)
  end.
Definition pload (D : dists) (tbl : Z) : M (list (res unit)) :=
  children <- glb G.children;;
  spawn_loop D (Z.to_nat children) tbl 0.

(** ** [main] *)

(** The assignments before the options. *)
Definition main_init : M unit :=
  set G.table (Z.lor (Z.lor (Z.lor (Z.lor (Z.lor (bit CUST) (bit SUPP)) (bit NATION)) (bit REGION))
    (bit PART_PSUPP)) (bit ORDER_LINE));;
  set G.force 0;; set G.insert_segments 0;; set G.delete_segments 0;;
  set G.insert_orders_segment 0;; set G.insert_lineitem_segment 0;; set G.delete_segment 0;;
  set G.verbose 0;; set G.columnar 0;; set G.set_seeds 0;; set G.header 0;; set G.direct 0;;
  set G.scale 1;; modify (set_flt_scale (F 1 0));; set G.updates 0;; set G.refresh UPD_PCT;;
  set G.step (-1);;
  main_bases;;
  set G.fnames 0;; modify (set_db_name None);; set G.gen_sql 0;; set G.gen_rng 0;;
  set G.children 1;; modify (set_d_path None).

Definition main_updates (D : dists) : M unit :=
  s <- get;;
  _ <- set_state ORDER (glob s G.scale) 1 2;;
  let fix1 := fdiv (f_of_Z (base_of s ORDER_LINE)) (f_of_Z 10000) in
  rowcnt <- must "(int) of a double out of range"
    (f_to_s 32 (fmul (fmul fix1 (f_of_Z (glob s G.scale))) (f_of_Z (glob s G.refresh))));;
  set G.rowcnt rowcnt;;
  let step := glob s G.step in
  (if 0 <? step then
     _ <- sd_order 0 (rowcnt * (step - 1));;
     _ <- sd_line 0 (rowcnt * (step - 1));;
     set G.upd_num (step - 1)
   else set G.upd_num 0);;
  TpchPrint.update_loop Os D (Z.to_nat (glob s G.updates));;
  stop_with (Exited 0).

(** The rows of a table in a serial run. *)
Definition serial_rows (s : st) (i : Z) : Z :=
  if i <? NATION then base_of s i * glob s G.scale else base_of s i.

(** The body of the loop over the tables. *)
Definition main_table (D : dists) (i : Z) : M (list (res unit)) :=
  s <- get;;
  if negb (Z.land (glob s G.table) (bit i) =? 0) then
    runs <-
      (if (1 <? glob s G.children) && (i <? NATION) then
         if negb (glob s G.validate =? 0) then
           stop_with (Aborted "Cannot validate parallel data generation")
         else if 0 <=? glob s G.step then _ <- partial D i (glob s G.step);; ret []
         else pload D i
       else
         set G.minrow 1;;
         set G.rowcnt (serial_rows s i);;
         TpchPrint.gen_tbl Os D i 1 (serial_rows s i) (glob s G.upd_num);;
         ret []);;
    s <- get;;
    (if negb (glob s G.validate =? 0) then
       d <- must "tdefs" (tdefs s !! Z.to_nat i);;
       nm <- must "tdefs[i].name" (name d);;
       printf ("Validation checksum for " +:+ nm +:+ " at " +:+ fmt_d (wrap_s 32 (glob s G.scale)) +:+
         " GB: " +:+ fmt_x (vtotal d) +:+ newline)
     else ret tt);;
    ret runs
  else ret [].

(** [main] after the options. *)
Definition main_rest : M (list (res unit)) :=
  D <- load_dists (getenv Os) (file_text Os);;
  modify (set_tdefs (alter (base_is (count (nations D))) (Z.to_nat NATION)));;
  modify (set_tdefs (alter (base_is (count (regions D))) (Z.to_nat REGION)));;
  s <- get;;
  if negb (glob s G.updates =? 0) then main_updates D;; ret []
  else
    (if negb (glob s G.direct =? 0) then prep_direct
     else if negb (glob s G.fnames =? 0) then ask_files Os else ret tt);;
    runs <- for_list (Z.to_nat (REGION + 1)) PART (main_table D);;
    (if negb (glob s G.direct =? 0) then close_direct else ret tt);;
    ret (concat runs).

(** [int main(int ac, char **av)], on the options [getopt] finds. *)
Definition main (opts : list (ascii * string)) : M (list (res unit)) :=
  main_init;; process_options opts;; main_rest.
End Driver.
