(* ===== verification/TpchPartial.v ===== *)
(** One step of a parallel TPC-H run, from [partial] to the files of its table. *)
From S2P Require Import Prelude CString Float64 Rng SpeedSeed State Consts Streams Dist Bcd2 Sparse Build RowSpec Relational Parallel Config Shipped Chunks Output Print Driver Frame Tables Partial Text Quota Tpch TpchSpec TpchPrint TpchRows TpchLocal TpchSteps TpchFrame TpchFiles TpchRun TpchMain.

(** ** [set_files] with a child *)

(** A change of names. *)
Lemma relabel_view f :
  (forall ds u, with_label None 0 <$> f ds !! u = with_label None 0 <$> ds !! u) -> View (set_tdefs f).
Proof. intros H. split; try reflexivity. intros s u. apply H. Qed.

#[export] Instance rename_view t nm : View (rename t nm).
Proof.
  apply relabel_view. intros ds u. destruct (decide (Z.to_nat t = u)) as [<-|Hk]; [|now rewrite list_lookup_alter_ne].
  rewrite list_lookup_alter_eq. now destruct (ds !! Z.to_nat t).
Qed.

(** The names after [set_files] in a step: the table's and its child's. *)
Definition title (s : st) (u : Z) : string :=
  match tdefs s !! Z.to_nat u with Some d => default "" (name d) | None => "" end.
Definition step_titles (t c step : Z) (s : st) : st -> st := fun s' =>
  if c =? NONE then rename t (step_name (title s t) step) s'
  else rename c (step_name (title s c) step) (rename t (step_name (title s t) step) s').

#[export] Instance step_titles_view t c step s : View (step_titles t c step s).
Proof.
  unfold step_titles. destruct (c =? NONE); [apply rename_view|].
  exact (view_comp _ _ (rename_view c _) (rename_view t _)).
Qed.

(** Every table has a name short enough for its step. *)
Definition names_fit (step : Z) (s : st) : Prop :=
  Forall (fun d => exists nm, name d = Some nm /\ strlen (step_name nm step) < 80) (tdefs s).

Lemma title_fits step s u d : names_fit step s -> tdefs s !! Z.to_nat u = Some d ->
  name d = Some (title s u) /\ strlen (step_name (title s u) step) < 80.
Proof.
  intros Hn Hd. unfold names_fit in Hn. rewrite Forall_lookup in Hn. destruct (Hn _ _ Hd) as (nm & E & Hl). unfold title.
  rewrite Hd, E. now split.
Qed.

Lemma set_files_child Os t c step d dc s :
  tdefs s !! Z.to_nat t = Some d -> child d = c -> c <> NONE -> Z.to_nat t <> Z.to_nat c ->
  tdefs s !! Z.to_nat c = Some dc -> child dc = NONE -> step <> -1 ->
  Z.land (glob s G.table) (bit t) <> 0 -> names_fit step s ->
  set_files Os t step s = Ok 0 (step_titles t c step s s).
Proof.
  intros Hd <- Hc Htc Hdc Hcc Hs Hb Hn. set (c := child d) in *.
  destruct (title_fits step s t d Hn Hd) as [En El]. destruct (title_fits step s c dc Hn Hdc) as [Ec Elc].
  unfold set_files. rewrite (bind_ok _ _ (glob s G.table) s s) by reflexivity.
  rewrite (proj2 (Z.eqb_neq _ _) Hb). cbn [negb child_table].
  rewrite (bind_ok get _ s s s) by reflexivity. rewrite (bind_ok _ _ d s s) by now rewrite Hd.
  rewrite (bind_ok _ _ (title s t) s s) by now rewrite En. rewrite (proj2 (Z.eqb_neq _ _) Hs). cbn [negb].
  fold (step_name (title s t) step). rewrite (bind_ok _ _ (inl (step_name (title s t) step)) s s) by (unfold bind; now rewrite sprintf_ok).
  cbv beta iota. fold c. set (s1 := rename t (step_name (title s t) step) s).
  rewrite (bind_ok _ _ tt s s1) by reflexivity. rewrite (proj2 (Z.eqb_neq _ _) Hc). cbn [negb].
  assert (E1 : tdefs s1 !! Z.to_nat c = Some dc) by (cbn; now rewrite list_lookup_alter_ne).
  rewrite (bind_ok _ _ tt s1 s1).
  2:{ unfold modify. f_equal. apply st_eq; try reflexivity. cbn. apply list_eq. intros i.
      destruct (decide (Z.to_nat c = i)) as [<-|Hi]; [|now rewrite list_lookup_alter_ne].
      rewrite list_lookup_alter_eq. change (tdefs s1) with (alter (renamed (step_name (title s t) step)) (Z.to_nat t) (tdefs s)) in E1.
      rewrite E1. cbn. rewrite <- Hcc at 1. now destruct dc. }
  rewrite (bind_ok get _ s1 s1 s1) by reflexivity. rewrite (bind_ok _ _ dc s1 s1) by now rewrite E1.
  rewrite (bind_ok _ _ (title s c) s1 s1) by now rewrite Ec. fold (step_name (title s c) step).
  rewrite (bind_ok _ _ (inl (step_name (title s c) step)) s1 s1) by (unfold bind; now rewrite sprintf_ok).
  cbv beta iota. rewrite Hcc. change (negb (NONE =? NONE)) with false. cbv iota.
  unfold step_titles. rewrite (proj2 (Z.eqb_neq _ _) Hc). reflexivity.
Qed.

(** [partial], from what it calls. *)
Lemma tpch_partial_runs Os D t step s s1 rc ex s2 s' :
  set_files Os t step s = Ok 0 s1 -> glob s1 = glob s -> glob s G.direct = 0 ->
  set_state t (glob s G.scale) (glob s G.children) step s1 = Ok (rc, Some ex) s2 -> glob s2 = glob s ->
  TpchPrint.gen_tbl Os D t (rc * (step - 1) + 1) (if step =? glob s G.children then rc + ex else rc)
    (glob s G.upd_num) s2 = Ok tt s' ->
  partial Os D t step s = Ok 0 s'.
Proof.
  intros E1 G1 Hdir E2 G2 Hrun. unfold partial.
  rewrite (bind_ok _ _ 0 s s) by (unfold glb, gets; now rewrite Hdir). cbn [Z.eqb].
  rewrite (bind_ok _ _ tt s s1) by (unfold bind; now rewrite E1).
  rewrite (bind_ok get _ s1 s1 s1) by reflexivity. rewrite G1.
  rewrite (bind_ok _ _ _ _ _ E2). rewrite (bind_ok get _ s2 s2 s2) by reflexivity. rewrite G2.
  rewrite (bind_ok _ _ tt s2 s'); [reflexivity|].
  destruct (step =? glob s G.children); [rewrite (bind_ok _ _ ex s2 s2) by reflexivity|]; exact Hrun.
Qed.

(** ** The files of a step *)

(** The tables whose names the files of table [t] take. *)
Definition file_tables (t : Z) : list Z :=
  if t =? ORDER_LINE then [ORDER_LINE; LINE] else if t =? PART_PSUPP then [PART_PSUPP; PSUPP] else [t].
Definition step_file_names (t step : Z) (s : st) : list string :=
  map (fun u => step_name (title s u) step) (file_tables t).

(** The situation in which step [step] of table [t] is generated. *)
Record tpch_step (Os : os) (t step : Z) (d : tdef) (s : st) : Prop := mk_tpch_step {
  ts_split : tpch_split t (glob s G.scale) (glob s G.children) step d s;
  ts_run : plain_run s;
  ts_table : Z.land (glob s G.table) (bit t) <> 0;
  ts_names : names_fit step s;
  ts_open : Forall (fun nm => openable Os nm s) (step_file_names t step s);
  ts_closed : Forall (fun pu => fp (prt s) (fst pu) = None) (outputs t);
  ts_modes : plain_modes s;
  ts_upd : glob s G.upd_num = 0;
  ts_some : 1 <= step_rows (base d) (glob s G.scale) (glob s G.children);
}.

Lemma child_cases t : In t split_tables -> child_of t = NONE \/
  (child_of t <> NONE /\ Z.to_nat t <> Z.to_nat (child_of t) /\
   exists dc, tdefs_tpch !! Z.to_nat (child_of t) = Some dc /\ child dc = NONE).
Proof.
  intros Hin. each_split Hin; first [left; reflexivity|right; split_and!; [discriminate|discriminate|eexists; split; reflexivity]].
Qed.

Lemma set_files_tpch Os t step d s : In t split_tables -> tpch_step Os t step d s ->
  set_files Os t step s = Ok 0 (step_titles t (child_of t) step s s).
Proof.
  intros Hin [[He _ _ _ Hd _ _ Hstep _] _ Htab Hn _ _ _ _ _].
  destruct (split_child t s Hin He t (or_introl eq_refl)) as (d' & Hd' & Hc). rewrite Hd in Hd'. injection Hd' as <-.
  destruct (child_cases t Hin) as [E|(E & Hne & dc & Hdc & Hcc)].
  - destruct (title_fits step s t d Hn Hd) as [En El]. unfold step_titles. rewrite E. change (NONE =? NONE) with true. cbv iota.
    apply (set_files_step Os t step d); try assumption; [congruence|lia].
  - destruct (env_desc s _ _ He Hdc) as (dc' & Hdc' & [_ Hcc' _]).
    apply (set_files_child Os t (child_of t) step d dc'); try assumption; [congruence|lia].
Qed.

(** The names of the table and its child in a step. *)
Lemma step_titles_lookup t c step s s' u d :
  (c <> NONE -> Z.to_nat t <> Z.to_nat c) -> u = t \/ (c <> NONE /\ u = c) -> tdefs s' !! Z.to_nat u = Some d ->
  tdefs (step_titles t c step s s') !! Z.to_nat u = Some (renamed (step_name (title s u) step) d).
Proof.
  intros Hne Hu Hd. unfold step_titles. destruct (Z.eqb_spec c NONE) as [E|E].
  - destruct Hu as [->|[? _]]; [|done]. cbn. now rewrite list_lookup_alter_eq, Hd.
  - specialize (Hne E). destruct Hu as [->|[_ ->]]; cbn.
    + rewrite list_lookup_alter_ne by congruence. now rewrite list_lookup_alter_eq, Hd.
    + rewrite list_lookup_alter_eq, list_lookup_alter_ne by exact Hne. now rewrite Hd.
Qed.

Lemma step_titles_other t c step s s' u :
  Z.to_nat u <> Z.to_nat t -> Z.to_nat u <> Z.to_nat c -> tdefs (step_titles t c step s s') !! Z.to_nat u = tdefs s' !! Z.to_nat u.
Proof.
  intros H1 H2. unfold step_titles. destruct (c =? NONE); cbn; rewrite ?list_lookup_alter_ne by congruence; reflexivity.
Qed.

Lemma child_apart t : In t split_tables -> child_of t <> NONE -> Z.to_nat t <> Z.to_nat (child_of t).
Proof. intros Hin. destruct (child_cases t Hin) as [E|(_ & H & _)]; [congruence|auto]. Qed.

Lemma openable_glob Os nm s s' : glob s' = glob s -> openable Os nm s -> openable Os nm s'.
Proof. intros Hg [O1 O2 O3 O4]. split; try assumption. now rewrite Hg. Qed.

Section Step.
Context (Os : os) (t step : Z) (d : tdef) (s s2 : st).
Context (Hin : In t split_tables) (Hts : tpch_step Os t step d s) (Hg : glob s2 = glob s) (Ht : tdefs s2 = tdefs s).

(** The state in which the rows of the step are generated. *)
Definition step_start : st := step_titles t (child_of t) step s s2.
Definition step_title : option string := Some (step_name (title s t) step).

Lemma step_start_glob : glob step_start = glob s.
Proof. unfold step_start, step_titles. now destruct (child_of t =? NONE). Qed.

Lemma step_start_prt : prt step_start = prt s2 /\ files step_start = files s2 /\ stdout step_start = stdout s2.
Proof. unfold step_start, step_titles. now destruct (child_of t =? NONE). Qed.

Lemma step_start_lookup u : u = t \/ (child_of t <> NONE /\ u = child_of t) ->
  exists d', tdefs s !! Z.to_nat u = Some d' /\
    tdefs step_start !! Z.to_nat u = Some (renamed (step_name (title s u) step) d').
Proof.
  intros Hu. destruct Hts as [[He _ _ _ Hd _ _ _ _] _ _ _ _ _ _ _ _].
  assert (Hd' : exists d', tdefs s !! Z.to_nat u = Some d').
  { destruct Hu as [->|[Hc ->]]; [now exists d|]. destruct (child_cases t Hin) as [E|(_ & _ & dc & Hdc & _)]; [done|].
    destruct (env_desc s _ _ He Hdc) as (dc' & Hdc' & _). now exists dc'. }
  destruct Hd' as [d' Hd']. exists d'. split; [exact Hd'|]. apply step_titles_lookup; [now apply child_apart|exact Hu|].
  now rewrite Ht.
Qed.

Lemma step_printable : printable t step_title step_start.
Proof.
  split; [destruct (ts_run _ _ _ _ _ Hts); split; rewrite step_start_glob; assumption|].
  destruct (step_start_lookup t (or_introl eq_refl)) as (d' & Hd' & E).
  assert (Hd0 : exists d0, tdefs_tpch !! Z.to_nat t = Some d0) by (clear - Hin; each_split Hin; eexists; reflexivity).
  destruct Hd0 as [d0 Hd0]. destruct (env_desc s _ _ (tp_env _ _ _ _ _ _ (ts_split _ _ _ _ _ Hts)) Hd0) as (d1 & Hd1 & [H1 H2 H3]).
  rewrite Hd' in Hd1. injection Hd1 as <-. eexists _, d0. split_and!; [exact E|reflexivity|exact Hd0|now split].
Qed.

Lemma step_named u k : In u (file_tables t) -> (exists d', tdefs (set_tdefs (titles t step_title) step_start) !! Z.to_nat k = Some d' /\
  name d' = Some (step_name (title s u) step)) ->
  named Os (set_tdefs (titles t step_title) step_start) k (step_name (title s u) step).
Proof.
  intros Hu (d' & Hd' & Hn). exists d'. split_and!; [exact Hd'|exact Hn|]. apply (openable_glob Os _ s); [apply step_start_glob|].
  pose proof (ts_open _ _ _ _ _ Hts) as Ho. rewrite Forall_forall in Ho. apply Ho, list_elem_of_In.
  unfold step_file_names. apply in_map_iff. now exists u.
Qed.

Lemma step_fresh : prt s2 = prt s -> fresh_outputs Os t step_title (step_file_names t step s) step_start.
Proof.
  intros Hp. destruct step_start_prt as (P1 & _). split; [|rewrite P1, Hp; apply Hts|unfold plain_modes; rewrite P1, Hp; apply Hts].
  assert (Hself : named Os (set_tdefs (titles t step_title) step_start) t (step_name (title s t) step)).
  { apply step_named; [clear - Hin; each_split Hin; cbn; auto|]. destruct (step_start_lookup t (or_introl eq_refl)) as (d' & _ & E).
    eexists. cbn [tdefs set_tdefs]. rewrite titles_self by exact Hin. split; [exact E|reflexivity]. }
  assert (Hchild : child_of t <> NONE -> t = ORDER_LINE \/ t = PART_PSUPP ->
    named Os (set_tdefs (titles t step_title) step_start) (child_of t) (step_name (title s (child_of t)) step)).
  { intros Hc Hp2. apply step_named; [destruct Hp2 as [-> | ->]; cbn; auto|].
    destruct (step_start_lookup (child_of t) (or_intror (conj Hc eq_refl))) as (d' & _ & E).
    eexists (renamed _ d'). split; [|reflexivity].
    rewrite <- E. cbn [tdefs set_tdefs]. destruct Hp2 as [-> | ->]; cbn -[step_start]; now apply list_lookup_alter_ne. }
  assert (Hcopy : forall k, t = ORDER_LINE /\ k = ORDER \/ t = PART_PSUPP /\ k = PART ->
    named Os (set_tdefs (titles t step_title) step_start) k (step_name (title s t) step)).
  { intros k Hk. apply step_named; [destruct Hk as [[-> _]|[-> _]]; cbn; auto|].
    pose proof (tp_env _ _ _ _ _ _ (ts_split _ _ _ _ _ Hts)) as He.
    assert (Hd0 : exists d0, tdefs_tpch !! Z.to_nat k = Some d0) by (destruct Hk as [[_ ->]|[_ ->]]; eexists; reflexivity).
    destruct Hd0 as [d0 Hd0]. destruct (env_desc s _ _ He Hd0) as (d1 & Hd1 & _). rewrite <- Ht in Hd1.
    exists (with_label step_title (vtotal d1) d1). split; [|reflexivity]. cbn [tdefs set_tdefs].
    assert (E : tdefs step_start !! Z.to_nat k = Some d1).
    { unfold step_start. rewrite step_titles_other; [exact Hd1|..]; destruct Hk as [[-> ->]|[-> ->]]; discriminate. }
    destruct Hk as [[-> ->]|[-> ->]]; cbn -[step_start]; rewrite list_lookup_alter_eq; now rewrite E. }
  each_split Hin; cbn -[step_start named]; repeat constructor; cbn -[step_start named];
    first [exact Hself|apply Hcopy; tauto|apply Hchild; [discriminate|tauto]].
Qed.
End Step.

(** ** A step of a table *)

(** The files a step leaves, against a serial run from the same seeds. *)
Definition tpch_step_files (Os : os) (D : dists) (t step : Z) (d : tdef) (s : st) : Prop :=
  exists s' L1 L2 L3 s1,
    partial Os D t step s = Ok 0 s' /\
    gen_rows t (make_row D t) (Z.to_nat (base d * glob s G.scale)) 1 s = Ok (L1 ++ L2 ++ L3) s1 /\
    Z.of_nat (length L1) = (step - 1) * step_rows (base d) (glob s G.scale) (glob s G.children) /\
    length L2 = step_count (base d) (glob s G.scale) (glob s G.children) step /\
    files s' = files s ++ zip_with (fun x f => opened Os (full_path Os x) (texts f L2))
      (step_file_names t step s) (text_fns t) /\
    stdout s' = stdout s /\ forall v, v <> G.init -> v <> G.completed -> glob s' v = glob s v.

(** A step of a parallel TPC-H run writes the rows of its range in a serial run, every
    column included: [partial] leaves one new file, or two for a table printed with its child,
    named after the table and the step. *)
Lemma tpch_step_runs Os D t step d s :
  tpch_dists D -> In t split_tables -> tpch_step Os t step d s -> tpch_step_files Os D t step d s.
Proof.
  intros HD Hin Hts. pose proof Hts as [Hsp Hrun _ _ _ _ _ Hupd Hsome].
  destruct (tpch_chunk D t _ _ step d s HD Hin Hsp) as (L1 & L2 & L3 & s1 & s2 & s3 & H1 & H2 & H3 & H4 & H5).
  destruct (in_keeps _ (inner_set_state _ _ _ _) _ _ _ H4) as [G2 T2].
  destruct (inner_out _ _ _ _ (inner_set_state _ _ _ _) H4) as (P2 & F2 & O2).
  pose proof Hsp as [_ _ _ _ _ Hbase Hsf Hstep _].
  pose proof (step_rows_nonneg (base d) (glob s G.scale) (glob s G.children) ltac:(lia) ltac:(lia) ltac:(lia)) as [_ Hex].
  destruct (step_count_pos (base d) _ _ step Hsome ltac:(lia)) as [n Hn]. rewrite Hn in H5.
  set (tr := step_titles t (child_of t) step s).
  assert (H5' : gen_rows t (make_row D t) (S n) (step_rows (base d) (glob s G.scale) (glob s G.children) * (step - 1) + 1)
    (tr s2) = Ok L2 (tr s3)).
  { apply (inner_through _ tr); [|exact H5]. apply inner_gen_rows, inner_make_row. }
  destruct (gen_tbl_files Os D t Hin _ _ n _ _ L2 _ H5' (step_printable Os t step d s s2 Hin Hts G2 T2)
    (step_fresh Os t step d s s2 Hin Hts G2 T2 P2)) as (s' & Hgen & W).
  exists s', L1, L2, L3, s1. split_and!; try assumption.
  - eapply (tpch_partial_runs Os D t step s (tr s)); [now apply (set_files_tpch Os t step d)| |apply Hrun| | |].
    + exact (step_start_glob t step s s eq_refl).
    + exact (inner_through _ tr _ _ _ (inner_set_state t _ _ step) H4).
    + exact (step_start_glob t step s s2 G2).
    + rewrite Hupd. rewrite <- Hgen. f_equal. rewrite <- Hn. unfold step_count.
      destruct (step =? glob s G.children); lia.
  - rewrite (wa_files _ _ _ _ _ _ _ _ W). f_equal. destruct (step_start_prt t step s s2) as (_ & E & _). exact (eq_trans E F2).
  - rewrite (wa_stdout _ _ _ _ _ _ _ _ W). destruct (step_start_prt t step s s2) as (_ & _ & E). exact (eq_trans E O2).
  - intros v V1 V2. rewrite (wa_glob _ _ _ _ _ _ _ _ W) by assumption.
    exact (f_equal (fun g => g v) (step_start_glob t step s s2 G2)).
Qed.
