(* ===== verification/TpchWhole.v ===== *)
(** Whole runs of the TPC-H program for one table: the serial run, each step of a parallel run,
    and the run that forks its steps, from the command line to the files. *)
From S2P Require Import Prelude CString Float64 Rng SpeedSeed State Consts Streams Dist Bcd2 Sparse Build RowSpec Relational Parallel Config Shipped Chunks Output Print Driver Frame Tables Partial Options TableRun Serial Validate Forked Text Quota Tpch TpchSpec TpchPrint TpchRows TpchLocal TpchSteps TpchFrame TpchFiles TpchRun TpchMain TpchPartial.

(** ** Slices of a list *)

Definition slice {A} (rc ex procs k : Z) (L : list A) : list A :=
  take (Z.to_nat (rc + if k =? procs then ex else 0)) (drop (Z.to_nat ((k - 1) * rc)) L).

Lemma slices_before {A} rc ex procs (L : list A) : 0 <= rc -> forall n, Z.of_nat n < procs ->
  concat (map (fun k => slice rc ex procs k L) (seqZ 1 (Z.of_nat n))) = take (Z.to_nat (Z.of_nat n * rc)) L.
Proof.
  intros Hrc. induction n as [|n IH]; intros Hn; [reflexivity|].
  rewrite Nat2Z.inj_succ, <- Z.add_1_r, seqZ_app, map_app, concat_app, IH by lia. cbn [seqZ]. rewrite seqZ_one.
  cbn [map concat]. rewrite app_nil_r. unfold slice. destruct (Z.eqb_spec (1 + Z.of_nat n) procs); [lia|].
  replace (1 + Z.of_nat n - 1) with (Z.of_nat n) by lia.
  rewrite take_take_drop. f_equal. nia.
Qed.

Lemma slices_all {A} rc ex procs (L : list A) : 0 <= rc -> 0 <= ex -> 1 <= procs -> Z.of_nat (length L) = procs * rc + ex ->
  concat (map (fun k => slice rc ex procs k L) (seqZ 1 procs)) = L.
Proof.
  intros Hrc Hex Hp Hlen. replace (seqZ 1 procs) with (seqZ 1 (Z.of_nat (Z.to_nat (procs - 1))) ++ [procs]).
  2:{ replace procs with (Z.of_nat (Z.to_nat (procs - 1)) + 1) at 3 by lia. rewrite seqZ_app, seqZ_one by lia. do 2 f_equal. lia. }
  rewrite map_app, concat_app, slices_before by lia. cbn [map concat]. rewrite app_nil_r. unfold slice.
  rewrite Z.eqb_refl. rewrite Z2Nat.id by lia.
  assert (0 <= (procs - 1) * rc /\ (procs - 1) * rc = procs * rc - rc) by nia.
  rewrite (take_ge (drop _ L)) by (rewrite length_drop; lia). apply take_drop.
Qed.

Lemma slice_middle {A} rc ex procs k (L1 L2 L3 : list A) :
  Z.of_nat (length L1) = (k - 1) * rc -> length L2 = Z.to_nat (rc + if k =? procs then ex else 0) ->
  slice rc ex procs k (L1 ++ L2 ++ L3) = L2.
Proof.
  intros H1 H2. unfold slice. rewrite <- H1, Nat2Z.id, drop_app_length, <- H2. apply take_app_length.
Qed.

Lemma for_list_length {A} n (f : Z -> M A) : forall i s L s', for_list n i f s = Ok L s' -> length L = n.
Proof.
  induction n as [|n IH]; intros i s L s' H; cbn [for_list] in H; [now injection H as <- _|]. unfold bind, ret in H.
  destruct (f i s) as [a s1|]; [|done]. destruct (for_list n (i + 1) f s1) as [l s2|] eqn:E; [|done].
  injection H as <- _. cbn. f_equal. eapply IH, E.
Qed.

(** ** [main], up to the loop over the tables *)

(** The state [main] sets up before the options. *)
Definition tpch_init : st := match main_init tpch_static with Ok _ s | Stop _ s => s end.

Lemma main_init_tpch : main_init tpch_static = Ok tt tpch_init.
Proof. reflexivity. Qed.

Lemma tpch_main_flat Os spawn_ok opts D s rs s' :
  (main_init;; process_options opts) tpch_static = Ok tt s -> load_dists (getenv Os) (file_text Os) s = Ok D s ->
  glob s G.direct = 0 -> glob s G.updates = 0 -> glob s G.fnames = 0 ->
  for_list 10 PART (main_table Os spawn_ok D) (with_counts D s) = Ok rs s' ->
  main Os spawn_ok opts tpch_static = Ok (concat rs) s'.
Proof.
  intros Hopts Hload Hdir Hupd Hfn E. pose proof (bind_next _ _ _ _ _ _ _ main_init_tpch Hopts) as Hopt.
  unfold main, main_rest. rewrite (bind_ok _ _ _ _ _ main_init_tpch), (bind_ok _ _ _ _ _ Hopt), (bind_ok _ _ _ _ _ Hload).
  set (f8 := set_tdefs (alter (base_is (count (nations D))) (Z.to_nat NATION))).
  set (f9 := set_tdefs (alter (base_is (count (regions D))) (Z.to_nat REGION))).
  rewrite (bind_ok (modify f8) _ tt s (f8 s) eq_refl), (bind_ok (modify f9) _ tt (f8 s) (with_counts D s) eq_refl).
  rewrite (bind_ok get _ _ _ _ eq_refl).
  assert (Eg : glob (with_counts D s) = glob s) by reflexivity.
  rewrite Eg, Hupd, Hdir, Hfn. cbn [Z.eqb negb].
  rewrite (bind_ok (ret tt) _ tt _ (with_counts D s) eq_refl).
  rewrite main_tables, (bind_ok _ _ _ _ _ E). now rewrite (bind_ok (ret tt) _ tt _ s' eq_refl).
Qed.

Section Loop.
Context (Os : os) (spawn_ok : Z -> Z -> bool) (D : dists) (t : Z) (Hin : In t split_tables).

Lemma other_bit i : 0 <= i < 10 -> i <> t -> Z.land (bit t) (bit i) = 0.
Proof.
  intros Hi Ht. assert (Hc : i = 0 \/ i = 1 \/ i = 2 \/ i = 3 \/ i = 4 \/ i = 5 \/ i = 6 \/ i = 7 \/ i = 8 \/ i = 9) by lia.
  each_split Hin; repeat (destruct Hc as [->|Hc]; [try reflexivity; now destruct Ht|]); subst i; reflexivity || now destruct Ht.
Qed.

Lemma skip_tables n : forall i s, glob s G.table = bit t -> (forall j, i <= j < i + Z.of_nat n -> 0 <= j < 10 /\ j <> t) ->
  for_list n i (main_table Os spawn_ok D) s = Ok (repeat [] n) s.
Proof.
  induction n as [|n IH]; intros i s Hs Hj; [reflexivity|]. cbn [for_list repeat].
  destruct (Hj i ltac:(lia)) as [Hi Hne].
  rewrite (bind_ok _ _ [] s s).
  2:{ unfold main_table. rewrite (bind_ok get _ s s s) by reflexivity. rewrite Hs, other_bit by assumption. reflexivity. }
  rewrite (bind_ok _ _ _ _ _ (IH (i + 1) s Hs ltac:(intros j Hjj; apply Hj; lia))). reflexivity.
Qed.

Lemma concat_repeat_nil {A} n : concat (repeat (@nil A) n) = [].
Proof. induction n; [reflexivity|assumption]. Qed.

(** The loop over the tables when one is asked for. *)
Lemma one_table s runs s' :
  glob s G.table = bit t -> main_table Os spawn_ok D t s = Ok runs s' -> glob s' G.table = bit t ->
  exists rs, for_list 10 PART (main_table Os spawn_ok D) s = Ok rs s' /\ concat rs = runs.
Proof.
  intros Hs Hrun Hs'. assert (Ht : 0 <= t < 10) by (clear - Hin; each_split Hin; split; reflexivity || discriminate).
  set (n := Z.to_nat t). set (m := Z.to_nat (9 - t)).
  exists (repeat [] n ++ runs :: repeat [] m). split.
  - replace 10%nat with (n + S m)%nat by lia. rewrite for_list_app.
    rewrite (bind_ok _ _ _ _ _ (skip_tables n PART s Hs ltac:(unfold PART; intros; lia))).
    assert (E : for_list (S m) (PART + Z.of_nat n) (main_table Os spawn_ok D) s = Ok (runs :: repeat [] m) s').
    { cbn [for_list]. replace (PART + Z.of_nat n) with t by (unfold PART; lia). rewrite (bind_ok _ _ _ _ _ Hrun).
      now rewrite (bind_ok _ _ _ _ _ (skip_tables m (t + 1) s' Hs' ltac:(intros; lia))). }
    now rewrite (bind_ok _ _ _ _ _ E).
  - rewrite concat_app. cbn [concat]. now rewrite !concat_repeat_nil, app_nil_r.
Qed.
End Loop.

(** ** The command lines *)

(** The argument of [-T] for a table. *)
Definition letter (t : Z) : string :=
  if t =? PART then "P" else if t =? SUPP then "s" else if t =? CUST then "c"
  else if t =? ORDER then "O" else if t =? ORDER_LINE then "o" else "p".

Definition serial_opts (t : Z) (a : string) : list (ascii * string) := [("T"%char, letter t); ("s"%char, a)].
Definition forked_opts (t : Z) (a c : string) : list (ascii * string) := serial_opts t a ++ [("C"%char, c)].
Definition step_opts (t : Z) (a c k : string) : list (ascii * string) := forked_opts t a c ++ [("S"%char, k)].

(** The argument [a] of [-s] asks for the scale factor [sf], at least 1. *)
Definition scale_arg (a : string) (sf : Z) : Prop := fltb (atof a) MIN_SCALE = false /\ f_to_s 64 (atof a) = Some sf.

(** The states in which the tables are generated. *)
Definition serial_state (t : Z) (a : string) (sf : Z) : st :=
  set_glob G.scale sf (set_flt_scale (atof a) (set_glob G.table (bit t) tpch_init)).
Definition children_state (t : Z) (a : string) (sf procs : Z) : st := set_glob G.children procs (serial_state t a sf).
Definition forked_state (t : Z) (a : string) (sf procs : Z) : st := set_glob G.pids procs (children_state t a sf procs).
Definition step_state (t : Z) (a : string) (sf procs k : Z) : st := set_glob G.step k (children_state t a sf procs).

Section Options.
Context (t : Z) (a : string) (sf : Z) (Hin : In t split_tables) (Ha : scale_arg a sf).

Lemma option_table s : process_option "T" (letter t) s = Ok tt (set_glob G.table (bit t) s).
Proof. clear Ha. each_split Hin; reflexivity. Qed.

Lemma option_scale s : process_option "s" a s = Ok tt (set_glob G.scale sf (set_flt_scale (atof a) s)).
Proof.
  destruct Ha as [H1 H2]. change (process_option "s" a s) with (scale_option a s). unfold scale_option. cbv zeta.
  rewrite (bind_ok (modify _) _ tt s (set_flt_scale (atof a) s) eq_refl), H1.
  rewrite (bind_ok _ _ sf _ (set_flt_scale (atof a) s)); [reflexivity|]. now rewrite H2.
Qed.

Lemma loop_app o1 o2 s s1 : process_options_loop o1 s = Ok tt s1 ->
  process_options_loop (o1 ++ o2) s = process_options_loop o2 s1.
Proof.
  revert s. induction o1 as [|[o x] o1 IH]; intros s H; [now injection H as ->|]. cbn [process_options_loop app] in *.
  unfold bind in *. destruct (process_option o x s) as [[] s2|]; [|done]. now apply IH.
Qed.

Lemma serial_loop : process_options_loop (serial_opts t a) tpch_init = Ok tt (serial_state t a sf).
Proof.
  unfold serial_opts. cbn [process_options_loop].
  rewrite (bind_ok _ _ _ _ _ (option_table tpch_init)), (bind_ok _ _ _ _ _ (option_scale _)). reflexivity.
Qed.

Lemma options_end opts s s' : process_options_loop opts tpch_init = Ok tt s -> alloc_pids s = Ok tt s' ->
  (main_init;; process_options opts) tpch_static = Ok tt s'.
Proof.
  intros H1 H2. rewrite (bind_ok _ _ _ _ _ main_init_tpch). unfold process_options. now rewrite (bind_ok _ _ _ _ _ H1).
Qed.

Lemma serial_options : (main_init;; process_options (serial_opts t a)) tpch_static = Ok tt (serial_state t a sf).
Proof. apply (options_end _ (serial_state t a sf)); [exact serial_loop|reflexivity]. Qed.

Lemma forked_options c : 1 < atoi c ->
  (main_init;; process_options (forked_opts t a c)) tpch_static = Ok tt (forked_state t a sf (atoi c)).
Proof.
  intros Hc. apply (options_end _ (children_state t a sf (atoi c))).
  - unfold forked_opts. rewrite (loop_app _ _ _ _ serial_loop). reflexivity.
  - unfold alloc_pids, bind, glb, gets. change (glob (children_state t a sf (atoi c)) G.children) with (atoi c).
    change (glob (children_state t a sf (atoi c)) G.step) with (-1).
    destruct (Z.eqb_spec (atoi c) 1); [lia|]. destruct (Z.ltb_spec (atoi c) 0); [lia|]. reflexivity.
Qed.

Lemma step_options c k : 0 <= atoi k ->
  (main_init;; process_options (step_opts t a c k)) tpch_static = Ok tt (step_state t a sf (atoi c) (atoi k)).
Proof.
  intros Hk. apply (options_end _ (step_state t a sf (atoi c) (atoi k))).
  - unfold step_opts, forked_opts. rewrite <- app_assoc, (loop_app _ _ _ _ serial_loop). reflexivity.
  - unfold alloc_pids, bind, glb, gets. change (glob (step_state t a sf (atoi c) (atoi k)) G.children) with (atoi c).
    change (glob (step_state t a sf (atoi c) (atoi k)) G.step) with (atoi k).
    destruct (Z.eqb_spec (atoi k) (-1)); [lia|]. now rewrite andb_false_r.
Qed.
End Options.

(** ** The runs *)

(** The tables after the bases are set, and after the distributions are read. *)
Definition tpch_tables : list tdef :=
  fold_right (fun u => alter (with_base (fun b => b * ORDERS_PER_CUST)) (Z.to_nat u)) tdefs_tpch [ORDER_LINE; LINE; ORDER].
Definition tables_read (D : dists) : list tdef :=
  alter (base_is (count (regions D))) (Z.to_nat REGION) (alter (base_is (count (nations D))) (Z.to_nat NATION) tpch_tables).

Lemma tdefs_init : tdefs tpch_init = tpch_tables.
Proof. vm_compute. reflexivity. Qed.

Definition table_name (u : Z) : string := match tpch_tables !! Z.to_nat u with Some d => default "" (name d) | None => "" end.
Definition table_base (u : Z) : Z := match tpch_tables !! Z.to_nat u with Some d => base d | None => 0 end.

(** The files of table [t] with the rows [L], under the names of its tables changed by [ren]. *)
Definition table_files (Os : os) (t : Z) (ren : string -> string) (L : list row) : list file :=
  zip_with (fun u f => opened Os (full_path Os (ren (table_name u))) (texts f L)) (file_tables t) (text_fns t).

Section Runs.
Context (Os : os) (spawn_ok : Z -> Z -> bool) (D : dists) (t : Z) (sf : Z).
Context (HD : tpch_dists D) (Hin : In t split_tables) (Hsf : 1 <= sf < 2 ^ 30).

(** A state in which the table is about to be generated. *)
Record started (s : st) : Prop := mk_started {
  st_tdefs : tdefs s = tables_read D;
  st_scale : glob s G.scale = sf;
  st_run : plain_run s;
  st_table : glob s G.table = bit t;
  st_others : glob s G.upd_num = 0 /\ glob s G.fnames = 0 /\ glob s G.force = 0;
  st_seeds : Seed s = Seed_init;
  st_prt : prt s = prt st_start;
  st_files : files s = [] /\ stdout s = "";
}.

Lemma started_set v x s : v <> G.scale -> v <> G.table -> v <> G.upd_num -> v <> G.fnames -> v <> G.force ->
  v <> G.columnar -> v <> G.set_seeds -> v <> G.validate -> v <> G.direct -> v <> G.updates -> v <> G.insert_segments ->
  started s -> started (set_glob v x s).
Proof.
  intros N1 N2 N3 N4 N5 N6 N7 N8 N9 N10 N11 [H1 H2 [] H4 (H5 & H6 & H7) H8 H9 H10].
  split; try assumption; [|split| |split_and!]; cbn; rewrite ?decide_False by congruence; assumption.
Qed.

Lemma serial_started a : started (with_counts D (serial_state t a sf)).
Proof.
  unfold serial_state. assert (E : forall s v x f, tdefs (with_counts D (set_glob G.scale sf (set_flt_scale f (set_glob v x s)))) =
    alter (base_is (count (regions D))) (Z.to_nat REGION) (alter (base_is (count (nations D))) (Z.to_nat NATION) (tdefs s))) by reflexivity.
  split; [rewrite E, tdefs_init; reflexivity|..]; try reflexivity; [split; reflexivity|split_and!; reflexivity|split; reflexivity].
Qed.

Lemma started_env s : started s -> tpch_env s.
Proof.
  intros [H1 H2 _ _ _ _ _ _]. split.
  - unfold tpch_scale, supp_cnt, Tpch.L_PKEY_MAX, O_CKEY_MAX, base_of. rewrite H1, H2.
    assert (E : forall u, u = CUST \/ u = SUPP \/ u = PART -> tables_read D !! Z.to_nat u = tpch_tables !! Z.to_nat u)
      by (intros u [->|[->| ->]]; reflexivity).
    rewrite !E by auto. fold (table_base CUST) (table_base SUPP) (table_base PART).
    change (table_base CUST) with 150000. change (table_base SUPP) with 10000. change (table_base PART) with 200000. lia.
  - rewrite H1. cbn. repeat constructor.
Qed.

(** The descriptions of the table and its child. *)
Lemma started_title s u : started s -> In u (file_tables t) ->
  exists d, tdefs s !! Z.to_nat u = Some d /\ name d = Some (table_name u) /\ title s u = table_name u.
Proof.
  intros [H1 _ _ _ _ _ _ _] Hu. unfold title. rewrite H1. clear - Hin Hu.
  each_split Hin; cbn in Hu; repeat destruct Hu as [<-|Hu]; try destruct Hu; eexists; (split; [reflexivity|split; reflexivity]).
Qed.

Lemma started_tdef s : started s ->
  exists d d0, tdefs s !! Z.to_nat t = Some d /\ tdefs_tpch !! Z.to_nat t = Some d0 /\ same_desc d0 d /\
    name d = Some (table_name t) /\ base d = table_base t.
Proof.
  intros [H1 _ _ _ _ _ _ _]. rewrite H1. clear - Hin.
  each_split Hin; eexists _, _; (split; [reflexivity|split; [reflexivity|split; [split; reflexivity|split; reflexivity]]]).
Qed.

Lemma started_names s step : started s -> 0 <= step < 10 ^ 7 -> names_fit step s.
Proof.
  intros [H1 _ _ _ _ _ _ _] Hs. unfold names_fit. rewrite H1. pose proof (fmt_d_short step Hs).
  assert (Hn : forall nm, strlen nm <= 20 -> strlen (step_name nm step) < 80).
  { intros nm Hnm. unfold step_name. rewrite !length_app_s. change (strlen ".") with 1. lia. }
  cbn. repeat constructor; eexists; (split; [reflexivity|apply Hn; vm_compute; discriminate]).
Qed.

Lemma base_bounds : 10000 <= table_base t /\
  forall i, In i (streams_of t) -> table_base t * Z.of_nat (stream_step i) < 2 ^ 31.
Proof.
  clear - Hin. assert (E : forallb (fun i => table_base t * Z.of_nat (stream_step i) <? 2 ^ 31) (streams_of t) = true)
    by (each_split Hin; vm_compute; reflexivity).
  split; [each_split Hin; vm_compute; discriminate|]. intros i Hi. rewrite forallb_forall in E. specialize (E i Hi). lia.
Qed.
Lemma openable_start nm s : started s -> openable Os nm st_start -> openable Os nm s.
Proof. intros Hs [O1 O2 O3 O4]. destruct (st_others s Hs) as (_ & _ & Hf). split; try assumption. now rewrite Hf. Qed.

Lemma started_printable s : started s -> printable t (Some (table_name t)) s.
Proof.
  intros Hs. split; [apply Hs|]. destruct (started_tdef s Hs) as (d & d0 & Hd & Hd0 & Hsame & Hn & _). now exists d, d0.
Qed.

Lemma started_closed s : started s -> Forall (fun pu => fp (prt s) (fst pu) = None) (outputs t) /\ plain_modes s.
Proof.
  intros Hs. unfold plain_modes. rewrite (st_prt s Hs). split; [|split; reflexivity]. clear - Hin. each_split Hin; repeat constructor.
Qed.

(** The names under which the files of a serial run are opened. *)
Lemma started_fresh s : started s -> (forall u, In u (file_tables t) -> openable Os (table_name u) st_start) ->
  fresh_outputs Os t (Some (table_name t)) (map table_name (file_tables t)) s.
Proof.
  intros Hs Hopen. destruct (started_closed s Hs) as [H1 H2]. split; [|exact H1|exact H2].
  assert (Hu : forall u, In u (file_tables t) -> openable Os (table_name u) (set_tdefs (titles t (Some (table_name t))) s)).
  { intros u Hu. apply (openable_glob Os _ s); [reflexivity|]. apply openable_start; auto. }
  pose proof (st_tdefs s Hs) as Ht. clear - Hin Ht Hu. unfold named. cbn [tdefs set_tdefs]. rewrite Ht.
  each_split Hin; repeat constructor; cbn [snd]; eexists; (split; [reflexivity|split; [reflexivity|apply Hu; cbn; auto]]).
Qed.

(** The rows of the table in a serial run. *)
Definition all_rows (s : st) (L : list row) : Prop :=
  exists s', gen_rows t (make_row D t) (Z.to_nat (table_base t * sf)) 1 s = Ok L s'.

Lemma all_rows_view tr `{V : !View tr} s L : all_rows (tr s) L -> all_rows s L.
Proof.
  intros [s' E]. unfold all_rows.
  rewrite (in_view _ (inner_gen_rows t _ _ _ (inner_make_row D t)) tr _ s) in E. destruct (gen_rows t (make_row D t) _ 1 s) as [L' s2|]; [|discriminate].
  injection E as -> _. now exists s2.
Qed.

Lemma view_all_rows tr `{View tr} s L : all_rows s L -> all_rows (tr s) L.
Proof.
  intros [s' E]. exists (tr s'). apply (inner_through _ tr); [|exact E].
  apply inner_gen_rows, inner_make_row.
Qed.

(** The table in a serial run. *)
Lemma serial_table s L : started s -> (forall u, In u (file_tables t) -> openable Os (table_name u) st_start) ->
  glob s G.children = 1 -> all_rows s L ->
  exists s', main_table Os spawn_ok D t s = Ok [] s' /\ files s' = table_files Os t id L /\ stdout s' = "" /\
    glob s' G.table = bit t.
Proof.
  intros Hs Hopen Hc Hrows. destruct base_bounds as [Hb _].
  destruct (started_tdef s Hs) as (d & d0 & Hd & _ & _ & _ & Hbase).
  assert (Hcount : serial_rows s t = table_base t * sf).
  { unfold serial_rows. assert (t <? NATION = true) as -> by (clear - Hin; each_split Hin; reflexivity).
    unfold base_of. now rewrite Hd, Hbase, (st_scale s Hs). }
  set (s1 := set_glob G.rowcnt (table_base t * sf) (set_glob G.minrow 1 s)).
  assert (Hs1 : started s1) by (unfold s1; now repeat apply started_set).
  assert (Hr1 : all_rows s1 L).
  { unfold s1. do 2 (apply view_all_rows; [apply set_glob_view; reflexivity|]). exact Hrows. }
  destruct Hr1 as [s2 E]. destruct (Z.to_nat (table_base t * sf)) as [|n] eqn:En; [nia|].
  destruct (gen_tbl_files Os D t Hin _ _ n 1 s1 L s2 E (started_printable s1 Hs1) (started_fresh s1 Hs1 Hopen)) as (s' & Hgen & W).
  exists s'. split_and!.
  - unfold main_table. rewrite (bind_ok get _ s s s) by reflexivity. rewrite (st_table s Hs).
    assert (negb (Z.land (bit t) (bit t) =? 0) = true) as -> by (clear - Hin; each_split Hin; reflexivity).
    rewrite Hc, Hcount. change ((1 <? 1) && (t <? NATION)) with false. cbv iota.
    assert (Ev : glob s' G.validate = 0) by (rewrite (wa_glob _ _ _ _ _ _ _ _ W) by discriminate; apply Hs1).
    rewrite (bind_ok _ _ [] s s').
    2:{ rewrite (bind_ok (set G.minrow 1) _ tt s (set_glob G.minrow 1 s) eq_refl).
        rewrite (bind_ok (set G.rowcnt _) _ tt (set_glob G.minrow 1 s) s1 eq_refl).
        destruct (st_others s Hs) as (-> & _). rewrite (bind_ok _ _ tt s1 s'); [reflexivity|].
        rewrite <- Hgen. f_equal. lia. }
    rewrite (bind_ok get _ s' s' s') by reflexivity. now rewrite Ev.
  - rewrite (wa_files _ _ _ _ _ _ _ _ W), (proj1 (st_files s1 Hs1)). clear - Hin. each_split Hin; reflexivity.
  - rewrite (wa_stdout _ _ _ _ _ _ _ _ W). apply Hs1.
  - rewrite (wa_glob _ _ _ _ _ _ _ _ W) by discriminate. apply Hs1.
Qed.
(** ** A step *)

Context (procs : Z) (Hsp : sf <= procs) (Hprocs : 2 <= procs <= 10000).
Context (Hopen : forall u k, In u (file_tables t) -> 1 <= k <= procs -> openable Os (step_name (table_name u) k) st_start).

(** The rows of a step and those left over. *)
Definition per_step : Z := step_rows (table_base t) sf procs.
Definition left_over : Z := step_extra (table_base t) sf procs.

Lemma per_step_ok : 1 <= per_step <= table_base t /\ 0 <= left_over < procs /\ procs * per_step + left_over = table_base t * sf.
Proof.
  destruct base_bounds as [Hb _]. unfold per_step, left_over.
  destruct (step_rows_nonneg (table_base t) sf procs ltac:(lia) ltac:(lia) ltac:(lia)) as [H1 H2].
  pose proof (step_rows_total (table_base t) sf procs ltac:(lia)) as H3. nia.
Qed.

Lemma started_step s k : started s -> glob s G.children = procs -> 1 <= k <= procs ->
  exists d, base d = table_base t /\ tpch_step Os t k d s.
Proof.
  intros Hs Hc Hk. destruct (started_tdef s Hs) as (d & d0 & Hd & _ & _ & _ & Hbase). exists d. split; [exact Hbase|].
  destruct base_bounds as [Hb Hj]. destruct per_step_ok as (H1 & H2 & _). unfold per_step in *.
  destruct (started_closed s Hs) as [Hcl Hm]. split; rewrite ?Hc, ?(st_scale s Hs), ?Hbase; try assumption; try lia.
  - split; try assumption; rewrite ?Hbase, ?(st_seeds s Hs); try lia; try reflexivity.
    + now apply started_env.
    + exact Seed_init_ok.
    + apply Hs.
    + split; [lia|]. assert (sf / procs <= 1) by (apply Z.div_le_upper_bound; lia). unfold MAX_32B_SCALE. lia.
    + intros i Hi. specialize (Hj i Hi). pose proof (Nat2Z.is_nonneg (stream_step i)). nia.
  - apply Hs.
  - rewrite (st_table s Hs). clear - Hin. each_split Hin; discriminate.
  - apply started_names; [exact Hs|lia].
  - apply Forall_forall. intros nm Hnm. apply list_elem_of_In, in_map_iff in Hnm as (u & <- & Hu).
    destruct (started_title s u Hs Hu) as (_ & _ & _ & ->). apply (openable_start _ s Hs). now apply Hopen.
  - apply Hs.
Qed.

(** One step, its rows given by the serial run. *)
Lemma partial_run s k L : started s -> glob s G.children = procs -> 1 <= k <= procs -> all_rows s L ->
  exists s', partial Os D t k s = Ok 0 s' /\
    files s' = table_files Os t (fun nm => step_name nm k) (slice per_step left_over procs k L) /\ stdout s' = "" /\
    glob s' G.table = bit t /\ glob s' G.validate = 0.
Proof.
  intros Hs Hc Hk [sa EL]. destruct (started_step s k Hs Hc Hk) as (d & Hbase & Hts).
  destruct (tpch_step_runs Os D t k d s HD Hin Hts) as (s' & L1 & L2 & L3 & s1 & H1 & H2 & H3 & H4 & H5 & H6 & H7).
  rewrite Hc, Hbase, (st_scale s Hs) in *. rewrite EL in H2. injection H2 as -> _.
  exists s'. split_and!; [exact H1| |rewrite H6; apply Hs|rewrite H7 by discriminate; apply Hs|rewrite H7 by discriminate; apply Hs].
  destruct per_step_ok as (P1 & P2 & _). unfold per_step, left_over in *.
  rewrite (slice_middle _ _ _ _ _ _ _ H3).
  2:{ rewrite H4. unfold step_count. destruct (k =? procs); f_equal; lia. }
  rewrite H5, (proj1 (st_files s Hs)). unfold table_files, step_file_names. cbn [app].
  assert (E : map (fun u => step_name (title s u) k) (file_tables t) = map (fun u => step_name (table_name u) k) (file_tables t)).
  { apply map_ext_in. intros u Hu. now destruct (started_title s u Hs Hu) as (_ & _ & _ & ->). }
  rewrite E. clear. generalize (text_fns t). induction (file_tables t) as [|u us IH]; intros [|f fs]; try reflexivity.
  cbn [map zip_with]. now rewrite IH.
Qed.
(** [main_table] in a step, and when it forks. *)
Lemma tpch_step_table s k L : started s -> glob s G.children = procs -> glob s G.step = k -> 1 <= k <= procs -> all_rows s L ->
  exists s', main_table Os spawn_ok D t s = Ok [] s' /\
    files s' = table_files Os t (fun nm => step_name nm k) (slice per_step left_over procs k L) /\ stdout s' = "" /\
    glob s' G.table = bit t.
Proof.
  intros Hs Hc Hst Hk Hrows. destruct (partial_run s k L Hs Hc Hk Hrows) as (s' & E & Hf & Ho & Ht & Hv).
  exists s'. split_and!; try assumption. unfold main_table. rewrite (bind_ok get _ s s s) by reflexivity. rewrite (st_table s Hs).
  assert (negb (Z.land (bit t) (bit t) =? 0) = true) as -> by (clear - Hin; each_split Hin; reflexivity).
  assert (t <? NATION = true) as -> by (clear - Hin; each_split Hin; reflexivity).
  rewrite Hc, (pr_validate _ (st_run s Hs)), Hst. destruct (Z.ltb_spec 1 procs); [|lia]. destruct (Z.leb_spec 0 k); [|lia].
  cbn [andb negb Z.eqb]. rewrite (bind_ok _ _ [] s s') by now rewrite (bind_ok _ _ _ _ _ E).
  rewrite (bind_ok get _ s' s' s') by reflexivity. now rewrite Hv.
Qed.

(** The child that generates step [k]. *)
Definition step_child (L : list row) (k : Z) (r : res unit) : Prop :=
  exists s', r = Stop (Exited 0) s' /\
    files s' = table_files Os t (fun nm => step_name nm k) (slice per_step left_over procs k L) /\ stdout s' = "".

Lemma child_run_step s c L : started s -> glob s G.children = procs -> 0 <= c < procs -> all_rows s L ->
  step_child L (c + 1) (child_proc Os D t c s).
Proof.
  intros Hs Hc Hk Hrows. set (s1 := set_glob G.verbose 0 s).
  destruct (partial_run s1 (c + 1) L) as (s' & E & Hf & Ho & _).
  - now apply started_set.
  - exact Hc.
  - lia.
  - apply view_all_rows; [apply set_glob_view; reflexivity|exact Hrows].
  - exists s'. split_and!; [|exact Hf|exact Ho]. unfold child_proc.
    rewrite (bind_ok (set G.verbose 0) _ tt s s1 eq_refl). now rewrite (bind_ok _ _ _ _ _ E).
Qed.

Lemma spawn_children s L n : started s -> glob s G.children = procs -> glob s G.pids = procs -> all_rows s L ->
  (forall c, spawn_ok t c = true) -> forall c, 0 <= c -> c + Z.of_nat n <= procs ->
  exists runs, spawn_loop Os spawn_ok D n t c s = Ok runs s /\ Forall2 (step_child L) (seqZ (c + 1) (Z.of_nat n)) runs.
Proof.
  intros Hs Hc Hp Hrows Hspawn. induction n as [|n IH]; intros c H0 Hn; cbn [spawn_loop].
  - exists []. split; [reflexivity|constructor].
  - rewrite store_pid_ok by lia. rewrite Hspawn. cbn [negb]. destruct (IH (c + 1) ltac:(lia) ltac:(lia)) as (runs & E & HF).
    rewrite (bind_ok (gets _) _ (child_proc Os D t c s) s s eq_refl), (bind_ok _ _ _ _ _ E).
    exists (child_proc Os D t c s :: runs). split; [reflexivity|]. rewrite seqZ_cons by lia. constructor.
    + apply child_run_step; try assumption. lia.
    + replace (Z.succ (c + 1)) with (c + 1 + 1) by lia. now replace (Z.pred (Z.of_nat (S n))) with (Z.of_nat n) by lia.
Qed.

Lemma forked_table s L : started s -> glob s G.children = procs -> glob s G.pids = procs -> glob s G.step < 0 -> all_rows s L ->
  (forall c, spawn_ok t c = true) ->
  exists runs, main_table Os spawn_ok D t s = Ok runs s /\ Forall2 (step_child L) (seqZ 1 procs) runs.
Proof.
  intros Hs Hc Hp Hst Hrows Hspawn.
  destruct (spawn_children s L (Z.to_nat procs) Hs Hc Hp Hrows Hspawn 0) as (runs & E & HF); [lia|lia|].
  rewrite Z2Nat.id in HF by lia. exists runs. split; [|exact HF].
  unfold main_table. rewrite (bind_ok get _ s s s) by reflexivity. rewrite (st_table s Hs).
  assert (negb (Z.land (bit t) (bit t) =? 0) = true) as -> by (clear - Hin; each_split Hin; reflexivity).
  assert (t <? NATION = true) as -> by (clear - Hin; each_split Hin; reflexivity).
  rewrite Hc, (pr_validate _ (st_run s Hs)). destruct (Z.ltb_spec 1 procs); [|lia]. destruct (Z.leb_spec 0 (glob s G.step)); [lia|].
  cbn [andb negb Z.eqb]. rewrite (bind_ok _ _ runs s s).
  2:{ unfold pload. rewrite (bind_ok _ _ procs s s) by (unfold glb, gets; now rewrite Hc). exact E. }
  rewrite (bind_ok get _ s s s) by reflexivity. now rewrite (pr_validate _ (st_run s Hs)).
Qed.

(** The rows exist. *)
Lemma all_rows_exist s : started s -> exists L, all_rows s L.
Proof.
  intros Hs. set (s1 := set_glob G.children procs s). assert (Hs1 : started s1) by now apply started_set.
  destruct (started_step s1 1 Hs1 eq_refl ltac:(lia)) as (d & Hbase & Hts).
  destruct (tpch_step_runs Os D t 1 d s1 HD Hin Hts) as (_ & L1 & L2 & L3 & s2 & _ & H2 & _).
  rewrite Hbase, (st_scale s1 Hs1) in H2. exists (L1 ++ L2 ++ L3).
  apply (all_rows_view (set_glob G.children procs) (V := set_glob_view G.children procs eq_refl)). now exists s2.
Qed.
End Runs.

Lemma with_counts_glob D v x s : with_counts D (set_glob v x s) = set_glob v x (with_counts D s).
Proof. reflexivity. Qed.

(** [main] when one table is asked for. *)
Lemma main_one Os spawn_ok D t sf opts s s1 runs s' :
  In t split_tables -> (main_init;; process_options opts) tpch_static = Ok tt s ->
  load_dists (getenv Os) (file_text Os) s = Ok D s -> with_counts D s = s1 -> started D t sf s1 ->
  main_table Os spawn_ok D t s1 = Ok runs s' -> glob s' G.table = bit t ->
  main Os spawn_ok opts tpch_static = Ok runs s'.
Proof.
  intros Hin Hopts Hload <- [_ _ [] Ht (_ & Hfn & _) _ _ _] E Ht'.
  destruct (one_table Os spawn_ok D t Hin _ runs s' Ht E Ht') as (rs & Ers & <-).
  now apply (tpch_main_flat Os spawn_ok _ D s).
Qed.

(** ** The property *)

(** C3. The TPC-H program in parallel is the TPC-H program: for parts, parts with their
    suppliers, suppliers, customers, orders, and orders with their lines, the files of
    [dbgen -T t -s sf] are the concatenation of those the steps of [dbgen -T t -s sf -C n]
    leave, whether it forks its children or one step is run at a time with [-S k]: the rows of
    the steps make up those of the serial run, in their order and in every column, comments
    included, for any scale factor up to the number of steps. *)
Theorem tpch_split_run Os spawn_ok D t a c sf procs :
  tpch_dists D -> (forall s, d_path s = None -> load_dists (getenv Os) (file_text Os) s = Ok D s) ->
  In t split_tables -> scale_arg a sf -> atoi c = procs -> 1 <= sf <= procs -> 2 <= procs <= 10000 ->
  (forall u, In u (file_tables t) -> openable Os (table_name u) st_start /\
     forall k, 1 <= k <= procs -> openable Os (step_name (table_name u) k) st_start) ->
  (forall c, spawn_ok t c = true) ->
  exists rows : Z -> list row,
    Z.of_nat (length (concat (map rows (seqZ 1 procs)))) = table_base t * sf /\
    (exists s', main Os spawn_ok (serial_opts t a) tpch_static = Ok [] s' /\ stdout s' = "" /\
       files s' = table_files Os t id (concat (map rows (seqZ 1 procs)))) /\
    (forall b k, atoi b = k -> 1 <= k <= procs ->
       exists s', main Os spawn_ok (step_opts t a c b) tpch_static = Ok [] s' /\ stdout s' = "" /\
         files s' = table_files Os t (fun nm => step_name nm k) (rows k)) /\
    (exists runs s', main Os spawn_ok (forked_opts t a c) tpch_static = Ok runs s' /\ stdout s' = "" /\ files s' = [] /\
       Forall2 (fun k r => exists s'', r = Stop (Exited 0) s'' /\
         files s'' = table_files Os t (fun nm => step_name nm k) (rows k) /\ stdout s'' = "") (seqZ 1 procs) runs).
Proof.
  intros HD Hload Hin Ha Hc Hsf Hprocs Hopen Hspawn. assert (Hsf30 : 1 <= sf < 2 ^ 30) by lia.
  set (s0 := with_counts D (serial_state t a sf)). pose proof (serial_started D t sf a) as Hs0. fold s0 in Hs0.
  assert (Hser : forall u, In u (file_tables t) -> openable Os (table_name u) st_start) by apply Hopen.
  assert (Hstep : forall u k, In u (file_tables t) -> 1 <= k <= procs -> openable Os (step_name (table_name u) k) st_start)
    by (intros u k Hu; now apply Hopen).
  destruct (all_rows_exist Os D t sf HD Hin Hsf30 procs ltac:(lia) Hprocs Hstep s0 Hs0) as [L HL].
  exists (fun k => slice (per_step t sf procs) (left_over t sf procs) procs k L).
  destruct (per_step_ok t sf Hin Hsf30 procs ltac:(lia) Hprocs) as (P1 & P2 & P3).
  assert (Hlen : Z.of_nat (length L) = table_base t * sf).
  { destruct HL as [s' E]. rewrite (for_list_length _ _ _ _ _ _ E). destruct (base_bounds t Hin). nia. }
  rewrite (slices_all (per_step t sf procs) (left_over t sf procs) procs L) by lia.
  set (sC := set_glob G.children procs s0). assert (HsC : started D t sf sC) by now apply started_set.
  assert (HLC : all_rows D t sf sC L) by (apply view_all_rows; [apply set_glob_view; reflexivity|exact HL]).
  set (sF := set_glob G.pids procs sC). assert (HsF : started D t sf sF) by now apply started_set.
  assert (HLF : all_rows D t sf sF L) by (apply view_all_rows; [apply set_glob_view; reflexivity|exact HLC]).
  split_and!; [exact Hlen|..].
  - destruct (serial_table Os spawn_ok D t sf Hin Hsf30 s0 L Hs0 Hser eq_refl HL) as (s' & E & Hf & Ho & Ht).
    exists s'. split_and!; [|exact Ho|exact Hf].
    exact (main_one Os spawn_ok D t sf _ (serial_state t a sf) s0 [] s' Hin (serial_options t a sf Hin Ha)
      (Hload (serial_state t a sf) eq_refl) eq_refl Hs0 E Ht).
  - intros b k Hb Hk. set (s1 := set_glob G.step k sC). assert (Hs1 : started D t sf s1) by now apply started_set.
    assert (HL1 : all_rows D t sf s1 L) by (apply view_all_rows; [apply set_glob_view; reflexivity|exact HLC]).
    destruct (tpch_step_table Os spawn_ok D t sf HD Hin Hsf30 procs ltac:(lia) Hprocs Hstep s1 k L Hs1 eq_refl eq_refl Hk HL1) as (s' & E & Hf & Ho & Ht).
    exists s'. split_and!; [|exact Ho|exact Hf].
    apply (main_one Os spawn_ok D t sf _ (step_state t a sf procs k) s1 [] s' Hin); [|now apply Hload| |exact Hs1|exact E|exact Ht].
    + rewrite <- Hc, <- Hb. apply step_options; [exact Hin|exact Ha|lia].
    + unfold step_state, children_state. rewrite !with_counts_glob. reflexivity.
  - destruct (forked_table Os spawn_ok D t sf HD Hin Hsf30 procs ltac:(lia) Hprocs Hstep sF L HsF eq_refl eq_refl ltac:(reflexivity) HLF Hspawn)
      as (runs & E & HF).
    exists runs, sF. split_and!; [|reflexivity|reflexivity|exact HF].
    apply (main_one Os spawn_ok D t sf _ (forked_state t a sf procs) sF runs sF Hin); [|now apply Hload| |exact HsF|exact E|apply HsF].
    + rewrite <- Hc. apply forked_options; [exact Hin|exact Ha|lia].
    + unfold forked_state, children_state. rewrite !with_counts_glob. reflexivity.
Qed.

(** Orders and lines at scale factor 2 in four steps, no file existing. *)
Lemma tpch_split_run_witness :
  exists rows : Z -> list row,
    Z.of_nat (length (concat (map rows (seqZ 1 4)))) = table_base ORDER_LINE * 2 /\
    (exists s', main fresh_os (fun _ _ => true) (serial_opts ORDER_LINE "2") tpch_static = Ok [] s' /\ stdout s' = "" /\
       files s' = table_files fresh_os ORDER_LINE id (concat (map rows (seqZ 1 4)))) /\
    (forall b k, atoi b = k -> 1 <= k <= 4 ->
       exists s', main fresh_os (fun _ _ => true) (step_opts ORDER_LINE "2" "4" b) tpch_static = Ok [] s' /\ stdout s' = "" /\
         files s' = table_files fresh_os ORDER_LINE (fun nm => step_name nm k) (rows k)) /\
    (exists runs s', main fresh_os (fun _ _ => true) (forked_opts ORDER_LINE "2" "4") tpch_static = Ok runs s' /\
       stdout s' = "" /\ files s' = [] /\
       Forall2 (fun k r => exists s'', r = Stop (Exited 0) s'' /\
         files s'' = table_files fresh_os ORDER_LINE (fun nm => step_name nm k) (rows k) /\ stdout s'' = "") (seqZ 1 4) runs).
Proof.
  apply (tpch_split_run fresh_os (fun _ _ => true) shipped ORDER_LINE "2" "4" 2 4).
  - exact shipped_tpch.
  - intros s Hs. now apply shipped_loaded.
  - cbn. tauto.
  - split; vm_compute; reflexivity.
  - reflexivity.
  - lia.
  - lia.
  - intros u Hu. assert (strlen (table_name u) <= 20) by (cbn in Hu; destruct Hu as [<-|[<-|[]]]; vm_compute; discriminate).
    split; [|intros k Hk]; (split; [|discriminate|right; discriminate|reflexivity]).
    + pose proof (full_path_length (table_name u)). lia.
    + apply step_path_short; [assumption|lia].
  - reflexivity.
Defined.
